(* ===== verification/_CoqProject ===== *)
-Q . S2P
Prelude.v
JsString.v
JsNumber.v
JsNumberFacts.v
JsRounding.v
JsRegExp.v
JsArray.v
JsObject.v
UtilsQuery.v
UtilsHistory.v
UtilsText.v
UtilsFormat.v
UtilsParse.v
UtilsRoundtrip.v
UtilsAccuracy.v
JsDate.v
JsJson.v
JsJsonPrint.v
RefreshLoop.v
Html.v
Sparkline.v
QueryList.v
QueryListFacts.v
QueryListClaims.v
QueryListView.v
QueryText.v
QueryHeader.v
Progress.v
ClusterHUD.v
PageTitle.v
WorkerStatus.v
WorkerThreadList.v
WorkerThreadFacts.v
QueryInfo.v
Graph.v
LivePlan.v
LivePlanFacts.v
StageDetail.v
StageDetailFacts.v
StageDetailClaims.v
StagePage.v
StackTrace.v
TaskList.v
TaskListFacts.v
StageSummary.v
StageSummaryFacts.v
Histogram.v
QueryDetail.v
QueryDetailFacts.v
QueryDetailView.v
Rates.v
QueryHistories.v
ChartUpdates.v
Selectors.v
QueryPage.v
StatementClient.v
PrestoConnector.v
PrestoConnectorFacts.v
PrestoConnectorErrors.v
ConnectorForm.v
PageLoop.v
Pages.v
Timeline.v
Navigation.v
ModuleLoader.v
Modules.v
