(* ===== verification/Prelude.v ===== *)
(** * The web UI of the Presto coordinator: a verification development

    ** The program

    The repository is the Presto SQL engine.  Its own JavaScript is the web UI
    that the coordinator serves, under
    [src/presto-main/src/main/resources/webapp/] (below: W), and a connector
    for Tableau:

    - [W/src/utils.js]: colours and labels of queries and stages, histories
      for the sparklines, parsers and formatters of durations, data sizes and
      counts, ids, addresses and times;
    - [W/src/components/]: the pages.  [QueryList] and [ClusterHUD] are the
      overview, [PageTitle] the frame with the connection dialog,
      [QueryDetail] the page of a query (with [TaskList], [StageSummary],
      [StageList]), [LivePlan] its plan, [StageDetail] the operators of a
      stage, [WorkerStatus] and [WorkerThreadList] the page of a worker,
      [QueryHeader] the head of the query pages;
    - [W/src/index.jsx] and the other entry points, which mount the components
      on the HTML pages; [W/timeline.html], a page with a script of its own
      that draws the splits of a query;
    - [W/src/webpack.config.js] and [W/src/package.json], from which webpack
      makes the bundles of the pages;
    - [W/tableau/presto-client.js]: [StatementClient], which runs a statement
      and hands its rows to callbacks; [W/tableau/presto-connector.html]: the
      connector, which gives the headers and rows to Tableau, and its form.

    Every live page polls the coordinator: [componentDidMount] calls
    [refreshLoop], which sends a request; the callback updates the state with
    [setState] and calls [resetTimer], which sets the next timer.  [render]
    turns the state into elements whose handlers update the state again.

    ** How it is modelled

    A JavaScript computation that can throw returns [result]; one that can
    fail to end returns an [option].  Numbers are IEEE doubles, computed by
    the [SpecFloat] functions of the Standard Library ([num], with the
    operators of [js_scope]); strings are Latin-1; objects and maps used as
    dictionaries are association lists in insertion order, with the
    enumeration order of JavaScript ([JsObject.own_keys]); [null] and
    [undefined] are [None], or kept apart by [QueryInfo.field] where the code
    tells them apart.  The state of a component is a record with the fields of
    [this.state], an event handler or callback a function from state to state,
    a [render] method a function from state to a tree ([Html.vnode]) whose
    [onClick] and [onChange] attributes hold the events of the page.  Calls of
    libraries that draw (sparklines, dagre-d3) are values: what is drawn, not
    how.

    The browser and the coordinator are parameters: the clock and the answers
    are arguments of the callbacks, the URL parser, the time zone and
    [renderToString] are arguments of the functions that use them.
    [Array.prototype.sort] is the class [JsArray.ArraySort], whose laws are
    those of the language: a permutation, ordered when the comparison function
    is consistent; [JsArray.insertion_array_sort] is an instance.

    ** The files

    The language:
    - [Prelude]: exceptions, the result monad, tactics, hint databases, lemmas
      on lists;
    - [JsString], [JsNumber], [JsNumberFacts], [JsRounding], [JsRegExp],
      [JsArray], [JsObject], [JsDate], [JsJson]: the parts of the language and
      its library that the code uses, with the lemmas about them; [JsRounding]
      bounds the errors of quotients, products, sums and roots, [JsRegExp] is a
      backtracking matcher, proved sound and complete for a declarative
      semantics, [JsJson] a parser whose fuel is proved sufficient
      ([value_fuel]), [JsJsonPrint] the printer, with its round trip through the
      parser;
    - [Html]: rendered pages; [Sparkline]: calls of the chart plugin with
      their options; [Graph]: calls on a dagre graph.

    The shared parts:
    - [UtilsQuery], [UtilsHistory], [UtilsText], [UtilsFormat], [UtilsParse]:
      utils.js; [UtilsRoundtrip], [UtilsAccuracy]: how close numbers and their
      texts are;
    - [RefreshLoop]: the polling loop.  The class [Poller] is what a component
      gives (the start of a refresh, the callbacks, the condition of
      [resetTimer], its other actions), [step] is the event loop with timers
      and requests, [reach] its executions;
    - [PageLoop]: the event loop of a page on which several components poll,
      with one sequence of timers for all of them;
    - [QueryInfo]: what /v1/query/<id> answers, as far as the pages read it.

    The components:
    - [QueryList], [QueryListFacts], [QueryListClaims], [QueryListView],
      [QueryText];
    - [QueryHeader], [Progress]; [ClusterHUD]; [PageTitle]; [WorkerStatus];
    - [WorkerThreadList], [WorkerThreadFacts];
    - [LivePlan], [LivePlanFacts];
    - [StageDetail], [StageDetailFacts], [StageDetailClaims], [StagePage];
    - [QueryDetail.jsx] in five parts: [StackTrace]; [TaskList] with
      [TaskListFacts]; [StageSummary] with [StageSummaryFacts] and [Histogram];
      [QueryDetail] with [QueryDetailFacts], [QueryDetailView] and [QueryPage].  The stages of an answer
      are one object that several fields of the state share and that
      [StageSummary] sorts in place, so the state holds references into a
      store;
    - [Rates]: the charts of rates of the overview and of the query page;
      [QueryHistories]: a reference for the histories of the query page;
      [ChartUpdates]: in which order an answer updates and draws them;
    - [Selectors]: the elements that scripts look up by their ids, for charts
      and for copy buttons;
    - [StatementClient]; [PrestoConnector], [PrestoConnectorFacts] and
      [PrestoConnectorErrors], the connector; [ConnectorForm], its form;
    - [Pages]: the entry points and the pages as compositions of their
      components;
    - [Timeline]: timeline.html; [Navigation]: the links between the pages;
    - [ModuleLoader]: the function with which every bundle loads its modules;
      [Modules]: the imports and exports of the source files and how webpack
      resolves them.

    Definitions keep the names of the source; a method that is long in the
    source is a few definitions here, each a contiguous piece of it.

    ** What is shown

    - Polling: for every [Poller], never two series of refreshes at once, and
      no loss of polling as long as no callback throws ([polling_single],
      [polling_alive]); the components of a page do not disturb each other
      ([page_refines]).  The overview polls for ever, the pages of a query
      exactly until the final answer ([overview_polls], [query_page_polls],
      [other_pages_poll]; the live plan only as long as every answer can be
      drawn); rendering happens inside [setState] and may throw,
      so these theorems show that the states of the pages render, for the
      query and the stage page under the hypothesis that the coordinator gives
      complete information.
    - Query list: an invariant of all executions ([query_list_safe]), what a
      refresh and the controls show ([refresh_reorder_view],
      [refresh_keeps_order], [controls_view]), the page
      ([query_list_page]), the text shown for a query ([query_text_shown]); the
      progress bar of a query ([progress_bar]).
    - Query page: the snapshots behind its lists, with aliasing, on executions
      that render after every event ([frozen_snapshots], [live_snapshots]), its parts ([task_table], [compareTaskId_lex],
      [showPortNumbers_spec], [stage_list_page], [stage_update],
      [stack_trace_text], [shared_frames_longest], [snakeCased_spec]) and the
      page as a whole ([query_page]).  The bars of a histogram count every task,
      in spite of rounded arithmetic ([histogram_bars]).
    - Charts: the histories of the overview and of the query page are exactly
      what references compute from the answers ([cluster_histories],
      [query_histories], [history_is_window]); no rate is negative or NaN while
      the counters of the coordinator grow and, for the first sample, the query
      has run ([cluster_rates], [query_rates]);
      a chart is drawn on exactly one element of its page once there is an
      answer to show, and on none before ([charts_drawn]); the query page draws them one answer late
      ([charts_behind]).
    - Between the pages: the links lead to pages that ask for the query, the
      stage or the worker they stand for ([navigation]); what the copy buttons
      copy ([copy_buttons]).
    - Graphs: the live plan of a planned query is drawn, every stage and plan
      node with exactly the edges between them ([live_plan_graph]); the chains
      of operators refine a reference definition and the operator graph draws
      them ([operator_chains], [operator_graph]); clicks and menus lead where
      they should ([operator_click], [stage_menu]); the timeline has a group
      for every stage and four bars for every task ([timeline_drawn],
      [timeline_throws]).
    - Workers: the groups of threads ([threadGroup_spec],
      [process_threads_groups]), the pages ([thread_page]), the memory pools
      ([pool_queries_merge]).
    - Numbers and texts: parsers against a declarative grammar, with the error
      of the number they give ([parse_spec], [parse_accuracy],
      [parse_integer_roundtrip]), formatters against unit tables
      ([formatters_scale]) and with the error of what they print
      ([format_accuracy]), and sizes printed and read back ([size_roundtrip]).
    - [StatementClient]: every batch of rows is delivered once and in order,
      also when requests fail on the way and are made again, and the loop of its
      callers ends when every request is answered at last ([statement_followed]).
      The connector: from the form to the rows, when every request succeeds,
      Tableau gets the headers once and every row of the result once and in
      order ([tableau_import]), with the fields that were announced when the
      names of the columns are distinct ([rows_typed]); a failure before the
      headers, with a message, aborts the import ([failure_aborts]); what the
      form stores comes back, session parameters as far as their texts mean
      themselves in HTML ([form_roundtrip], [form_ready]).
    - Modules: the bundle of every page loads, each module once and after the
      modules it imports: source files that export the names it takes, and
      packages that package.json lists ([pages_load]).
    - Where the code does not do what it means to, a theorem says what it does:
      [filter_click_ignores_limit], [refresh_cancels_search],
      [query_thread_throws], [all_threads_diverges], [snapshot_breaks_page],
      [dialog_without_grace], [queued_plan_blank], [canvas_missed],
      [selection_reverts], [detail_rates_per_ms], [stage_button_stale],
      [missing_stack_throws], [failed_request_repeats], [headers_never_come],
      [failure_stalls], [stale_error_aborts], [added_row_stays],
      [quote_cuts_value], [equal_names_overwrite], [no_workers_nan],
      [immediate_failure_nan], [charts_behind], [highlight_once], and the worker page
      in [copy_buttons].

    Each theorem with hypotheses has a witness, a closed lemma that applies it
    to a concrete state.

    ** Bounds and fuel

    Recursion that is not structural takes fuel that is proved sufficient or
    is a bound of the code: the height of a plan
    ([StageDetailFacts.compute_graphs_fuel], [LivePlanFacts.plan_of_json_fuel]),
    the length of a text ([JsJson.value_fuel]), the shorter stack
    ([StackTrace.count_loop_common]), the bars of a histogram
    ([StageSummaryFacts.bars_fuel_enough]), the modules of a bundle
    ([ModuleLoader.require_loads]).  The loop over
    the threads of a worker and the loops of the Tableau connector over the
    answers can run for ever, and [None] is that outcome; the theorems give the
    number of rounds that is enough, one for each answer.  Integers that the
    coordinator sends as ids are [Z]; where they go through numbers of
    JavaScript the theorems bound them by 2^52 or 2^53.

    ** What is not modelled

    React's scheduling ([setState] takes effect at once, as it does in the
    callbacks of requests and timers), the layout of the graphs, the drawing
    of sparklines, of vis.js timelines and the sorting inside Reactable tables,
    the tooltip plugin, and of the clipboard plugin all but which text it takes;
    Tableau itself, which is a driver of the
    connector ([PrestoConnectorFacts.gather]); Babel and the other loaders of
    webpack, and the modules in the bundles under [W/dist/], which they generate
    from the sources modelled here and from packages; those packages, which are
    parameters of [Modules], and the libraries under [W/vendor/], of which only
    [$.extend] is translated; the Java code of the coordinator. *)
From stdpp Require Export base option list sets strings sorting.
From Stdlib Require Export ZArith Ascii Lia.

#[global] Arguments String.append : simpl nomatch.

Declare Scope js_scope.
Delimit Scope js_scope with js.

(** ** Exceptions

    A JavaScript computation either completes with a value or throws.  The
    code under verification never inspects what was thrown, except that a
    handler registered with a promise receives it, so the kind of the
    exception is all the model keeps. *)

Inductive js_error :=
| TypeError
| SyntaxError
| PlainError.

Inductive result (A : Type) : Type :=
| Ok (a : A)
| Throw (e : js_error).
Arguments Ok {A} a.
Arguments Throw {A} e.

#[export] Instance js_error_eq_dec : EqDecision js_error.
Proof. solve_decision. Defined.

#[export] Instance result_ret : MRet result := fun _ a => Ok a.
#[export] Instance result_bind : MBind result :=
  fun _ _ k m => match m with Ok a => k a | Throw e => Throw e end.
#[export] Instance result_fmap : FMap result :=
  fun _ _ f m => match m with Ok a => Ok (f a) | Throw e => Throw e end.

(** [foldM f l a] runs the loop body [f] over [l], threading the accumulator
    and stopping at the first exception. *)
Fixpoint foldM {A B} (f : B -> A -> result A) (l : list B) (a : A) : result A :=
  match l with
  | [] => Ok a
  | x :: l' => match f x a with Ok a' => foldM f l' a' | Throw e => Throw e end
  end.

(** ** Hints and tactics *)

Create HintDb js discriminated.

(** Split on the scrutinee of the first [if] or [match] of the goal. *)
Ltac case_if :=
  match goal with
  | |- context [if ?b then _ else _] => destruct b eqn:?
  end.

(** Turn boolean connectives of the hypotheses into propositional ones. *)
Ltac bool_hyps :=
  repeat match goal with
  | H : andb _ _ = true |- _ => apply andb_prop in H; destruct H
  | H : orb _ _ = false |- _ => apply orb_false_elim in H; destruct H
  | H : orb _ _ = true |- _ => apply orb_prop in H; destruct H
  | H : negb _ = true |- _ => apply negb_true_iff in H
  | H : negb _ = false |- _ => apply negb_false_iff in H
  end.

(** Equality tests of [string] and [Z] as propositions. *)
Ltac eqb_hyps :=
  repeat match goal with
  | H : String.eqb _ _ = true |- _ => apply String.eqb_eq in H
  | H : String.eqb _ _ = false |- _ => apply String.eqb_neq in H
  | H : Z.eqb _ _ = true |- _ => apply Z.eqb_eq in H
  | H : Z.eqb _ _ = false |- _ => apply Z.eqb_neq in H
  | H : Z.leb _ _ = true |- _ => apply Z.leb_le in H
  | H : Z.leb _ _ = false |- _ => apply Z.leb_gt in H
  | H : Z.ltb _ _ = true |- _ => apply Z.ltb_lt in H
  | H : Z.ltb _ _ = false |- _ => apply Z.ltb_ge in H
  end.

(** ** Lists *)

(** [last_n n l] is the suffix of [l] of length at most [n]. *)
Definition last_n {A} (n : nat) (l : list A) : list A := drop (length l - n) l.

Lemma length_last_n {A} n (l : list A) : length (last_n n l) = n `min` length l.
Proof. unfold last_n. rewrite length_drop. lia. Qed.

Lemma last_n_all {A} n (l : list A) : length l <= n -> last_n n l = l.
Proof. intros H. unfold last_n. by replace (length l - n) with 0 by lia. Qed.

Lemma last_n_app_last_n {A} n (l k : list A) :
  last_n n (last_n n l ++ k) = last_n n (l ++ k).
Proof.
  unfold last_n. rewrite !length_app, length_drop.
  rewrite !drop_app, !drop_drop, length_drop. f_equal; f_equal; lia.
Qed.

Lemma last_app_singleton {A} (l : list A) x : last (l ++ [x]) = Some x.
Proof. apply last_snoc. Qed.

(** A [filter] by a boolean function, as [Array.prototype.filter] runs it. *)
Fixpoint filterb {A} (p : A -> bool) (l : list A) : list A :=
  match l with
  | [] => []
  | x :: l' => if p x then x :: filterb p l' else filterb p l'
  end.

Lemma elem_of_filterb {A} (p : A -> bool) l x :
  x ∈ filterb p l <-> x ∈ l /\ p x = true.
Proof.
  induction l as [|y l IH]; cbn; [set_solver|].
  destruct (p y) eqn:E; rewrite ?elem_of_cons, ?IH; naive_solver congruence.
Qed.

Lemma filterb_sublist {A} (p : A -> bool) l : filterb p l `sublist_of` l.
Proof. induction l as [|y l IH]; cbn; [done|]. case_if; by constructor. Qed.

Lemma filterb_app {A} (p : A -> bool) l k :
  filterb p (l ++ k) = filterb p l ++ filterb p k.
Proof. induction l as [|y l IH]; cbn; [done|]. case_if; cbn; by rewrite IH. Qed.

Lemma filterb_ext {A} (p q : A -> bool) l :
  (forall x, x ∈ l -> p x = q x) -> filterb p l = filterb q l.
Proof.
  induction l as [|y l IH]; cbn; [done|]. intros H.
  rewrite (H y) by set_solver. case_if; rewrite IH; set_solver.
Qed.

Lemma filterb_all {A} (p : A -> bool) l :
  (forall x, x ∈ l -> p x = true) -> filterb p l = l.
Proof.
  induction l as [|y l IH]; cbn; [done|]. intros H.
  rewrite (H y) by set_solver. f_equal. apply IH. set_solver.
Qed.

Lemma filterb_permutation {A} (p : A -> bool) l k :
  l ≡ₚ k -> filterb p l ≡ₚ filterb p k.
Proof.
  induction 1; cbn; repeat case_if; try done;
    (try by constructor); (try by apply Permutation_swap); by etrans.
Qed.

Lemma filterb_length {A} (p : A -> bool) l : length (filterb p l) <= length l.
Proof. apply sublist_length, filterb_sublist. Qed.

Lemma filterb_length_le {A} (p q : A -> bool) l :
  (forall x, p x = true -> q x = true) -> length (filterb p l) <= length (filterb q l).
Proof.
  intros H. induction l as [|y l IH]; cbn; [done|]. specialize (H y).
  destruct (p y), (q y); cbn; (lia || by specialize (H eq_refl)).
Qed.

Lemma filterb_length_lt {A} (p q : A -> bool) l x :
  (forall x, p x = true -> q x = true) -> x ∈ l -> p x = false -> q x = true ->
  length (filterb p l) < length (filterb q l).
Proof.
  intros H Hx Hp Hq. apply list_elem_of_split in Hx as (l1 & l2 & ->). rewrite !filterb_app. cbn. rewrite Hp, Hq.
  rewrite !length_app. cbn. pose proof (filterb_length_le p q l1 H). pose proof (filterb_length_le p q l2 H). lia.
Qed.

#[export] Hint Rewrite @length_last_n @length_app : js.
