(* ===== verification/JsString.v ===== *)
(** * JavaScript strings

    A JavaScript string is a sequence of code units.  The model is Rocq's
    [string], a sequence of 8-bit characters, so it covers the code units
    below 256 (Latin-1): the identifiers, states, units and SQL keywords the
    web UI works with.  The operations below are the ones of
    [String.prototype] that the sources call, with their argument clamping. *)
From S2P Require Import Prelude.
Local Open Scope Z_scope.

(** ** Characters *)

Definition code (c : ascii) : N := N_of_ascii c.

(** The class [\d] or [[0-9]]. *)
Definition is_digit (c : ascii) : bool :=
  (48 <=? code c)%N && (code c <=? 57)%N.

Definition is_upper (c : ascii) : bool :=
  (65 <=? code c)%N && (code c <=? 90)%N.

Definition is_lower (c : ascii) : bool :=
  (97 <=? code c)%N && (code c <=? 122)%N.

(** The class [[a-zA-Z]]. *)
Definition is_alpha (c : ascii) : bool := is_lower c || is_upper c.

(** The class [\s]: WhiteSpace or LineTerminator, below 256. *)
Definition is_space (c : ascii) : bool :=
  ((9 <=? code c)%N && (code c <=? 13)%N) || (code c =? 32)%N || (code c =? 160)%N.

(** LineTerminator, below 256: what [.] does not match. *)
Definition is_line_terminator (c : ascii) : bool :=
  (code c =? 10)%N || (code c =? 13)%N.

(** [toLowerCase] of one code unit. *)
Definition lower_char (c : ascii) : ascii :=
  if is_upper c || ((192 <=? code c)%N && (code c <=? 222)%N && negb (code c =? 215)%N)
  then ascii_of_N (code c + 32)
  else c.

Definition dot : ascii := "."%char.
Definition newline : string := String (ascii_of_nat 10) "".
Definition tab : string := String (ascii_of_nat 9) "".

(** ** Operations *)

Fixpoint stake (n : nat) (s : string) : string :=
  match n, s with
  | S n', String c s' => String c (stake n' s')
  | _, _ => ""
  end.

Fixpoint sdrop (n : nat) (s : string) : string :=
  match n, s with
  | O, _ => s
  | S n', String _ s' => sdrop n' s'
  | S _, "" => ""
  end.

(** [s.length] *)
Definition slen (s : string) : Z := Z.of_nat (String.length s).

(** [s.substring(start, end)]: both ends clamped to [0..length], then swapped
    when out of order. *)
Definition js_substring (s : string) (start end_ : Z) : string :=
  let a := Z.min (Z.max start 0) (slen s) in
  let b := Z.min (Z.max end_ 0) (slen s) in
  let lo := Z.min a b in
  let hi := Z.max a b in
  stake (Z.to_nat (hi - lo)) (sdrop (Z.to_nat lo) s).

(** [s.substring(start)] *)
Definition js_substring_from (s : string) (start : Z) : string :=
  js_substring s start (slen s).

(** [s.substr(start, length)] for [start >= 0]. *)
Definition js_substr (s : string) (start len : Z) : string :=
  let a := Z.min (Z.max start 0) (slen s) in
  let l := Z.min (Z.max len 0) (slen s - a) in
  stake (Z.to_nat l) (sdrop (Z.to_nat a) s).

(** [s.slice(start, end)]: a negative index counts from the end. *)
Definition js_slice (s : string) (start end_ : Z) : string :=
  let rel i := if i <? 0 then Z.max (slen s + i) 0 else Z.min i (slen s) in
  let from := rel start in
  let to := rel end_ in
  stake (Z.to_nat (Z.max (to - from) 0)) (sdrop (Z.to_nat from) s).

(** [s.indexOf(t)], with the position reached so far. *)
Fixpoint indexOf_from (i : Z) (s t : string) : Z :=
  if String.prefix t s then i
  else match s with
       | "" => -1
       | String _ s' => indexOf_from (i + 1) s' t
       end.

Definition indexOf (s t : string) : Z := indexOf_from 0 s t.

(** [s.includes(t)] *)
Definition includes (s t : string) : bool := negb (indexOf s t =? -1).

(** [s.charAt(i)], the empty string out of range. *)
Definition charAt (s : string) (i : Z) : string :=
  if (0 <=? i) && (i <? slen s) then stake 1 (sdrop (Z.to_nat i) s) else "".

(** [s.split(c)] for a separator of one code unit. *)
Fixpoint split_on (c : ascii) (s : string) : list string :=
  match s with
  | "" => [""]
  | String d s' =>
      if Ascii.eqb d c then "" :: split_on c s'
      else match split_on c s' with
           | w :: ws => String d w :: ws
           | [] => [String d ""]
           end
  end.

(** [l.join(sep)] *)
Definition join (sep : string) (l : list string) : string := String.concat sep l.

Fixpoint smap (f : ascii -> ascii) (s : string) : string :=
  match s with "" => "" | String c s' => String (f c) (smap f s') end.

(** [s.toLowerCase()] *)
Definition toLowerCase (s : string) : string := smap lower_char s.

Fixpoint sforall (p : ascii -> bool) (s : string) : bool :=
  match s with "" => true | String c s' => p c && sforall p s' end.

(** Drop the leading white space. *)
Fixpoint trim_start (s : string) : string :=
  match s with
  | String c s' => if is_space c then trim_start s' else s
  | "" => ""
  end.

(** Drop the trailing white space. *)
Fixpoint trim_end (s : string) : string :=
  match s with
  | "" => ""
  | String c s' => if sforall is_space s then "" else String c (trim_end s')
  end.

(** [s.trim()] *)
Definition trim (s : string) : string := trim_end (trim_start s).

(** [true] when the character occurs in the string. *)
Fixpoint has_char (c : ascii) (s : string) : bool :=
  match s with "" => false | String d s' => Ascii.eqb d c || has_char c s' end.

(** ** Lemmas *)

Lemma sapp_nil_r s : s +:+ "" = s.
Proof. induction s as [|c s IH]; cbn; [done|]. by rewrite IH. Qed.

Lemma sapp_assoc s t u : (s +:+ t) +:+ u = s +:+ (t +:+ u).
Proof. induction s as [|c s IH]; cbn; [done|]. by rewrite IH. Qed.

Lemma sapp_length s t : String.length (s +:+ t) = (String.length s + String.length t)%nat.
Proof. induction s as [|c s IH]; cbn; [done|]. by rewrite IH. Qed.

Lemma slen_app s t : slen (s +:+ t) = slen s + slen t.
Proof. unfold slen. rewrite sapp_length. lia. Qed.

Lemma slen_nonneg s : 0 <= slen s.
Proof. unfold slen. lia. Qed.

Lemma stake_length n s : String.length (stake n s) = (n `min` String.length s)%nat.
Proof. revert s. induction n as [|n IH]; intros [|c s]; cbn; auto. Qed.

Lemma stake_all n s : (String.length s <= n)%nat -> stake n s = s.
Proof.
  revert s. induction n as [|n IH]; intros [|c s] H; cbn in *; try done; [lia|].
  rewrite IH; [done|lia].
Qed.

Lemma stake_app n s t : n = String.length s -> stake n (s +:+ t) = s.
Proof. intros ->. induction s as [|c s IH]; cbn; [done|]. by rewrite IH. Qed.

Lemma sdrop_app n s t : n = String.length s -> sdrop n (s +:+ t) = t.
Proof. intros ->. induction s as [|c s IH]; cbn; done. Qed.

Lemma stake_sdrop n s : stake n s +:+ sdrop n s = s.
Proof.
  revert s. induction n as [|n IH]; intros [|c s]; cbn; try done. by rewrite IH.
Qed.

Lemma sdrop_length n s : String.length (sdrop n s) = (String.length s - n)%nat.
Proof. revert s. induction n as [|n IH]; intros [|c s]; cbn; auto. Qed.

Lemma sforall_app p s t : sforall p (s +:+ t) = sforall p s && sforall p t.
Proof. induction s as [|c s IH]; cbn; [done|]. rewrite IH. by rewrite andb_assoc. Qed.

Lemma sforall_impl (p q : ascii -> bool) s :
  (forall c, p c = true -> q c = true) -> sforall p s = true -> sforall q s = true.
Proof.
  intros H. induction s as [|c s IH]; cbn; [done|].
  intros [E1 E2]%andb_prop. by rewrite (H _ E1), IH.
Qed.

Lemma has_char_app c s t : has_char c (s +:+ t) = has_char c s || has_char c t.
Proof. induction s as [|d s IH]; cbn; [done|]. rewrite IH. by rewrite orb_assoc. Qed.

(** A character outside a class does not occur in a string of that class. *)
Lemma sforall_has_char p c s :
  sforall p s = true -> p c = false -> has_char c s = false.
Proof.
  intros H Hc. induction s as [|d s IH]; cbn in *; [done|].
  apply andb_prop in H as [Hd Hs]. rewrite IH by done.
  destruct (Ascii.eqb d c) eqn:E; [|done].
  apply Ascii.eqb_eq in E. congruence.
Qed.

Lemma prefix_single c s :
  String.prefix (String c "") s = match s with "" => false | String d _ => Ascii.eqb c d end.
Proof.
  destruct s as [|d s]; cbn; [done|].
  destruct (ascii_dec c d) as [->|H].
  - rewrite Ascii.eqb_refl. by destruct s.
  - symmetry. by apply Ascii.eqb_neq.
Qed.

Lemma indexOf_from_char i c a s :
  has_char c a = false ->
  indexOf_from i (a +:+ String c s) (String c "") = i + slen a.
Proof.
  revert i. induction a as [|d a IH]; intros i H.
  - cbn [String.append indexOf_from]. rewrite prefix_single, Ascii.eqb_refl. unfold slen. cbn. lia.
  - cbn in H. apply orb_false_elim in H as [H1 H2].
    cbn [String.append indexOf_from]. rewrite prefix_single.
    rewrite Ascii.eqb_sym, H1, IH by done. unfold slen. cbn [String.length]. lia.
Qed.

(** The first occurrence of a separator is found at the end of the prefix
    that does not contain it. *)
Lemma indexOf_char c a s :
  has_char c a = false -> indexOf (a +:+ String c s) (String c "") = slen a.
Proof. intros H. unfold indexOf. by rewrite indexOf_from_char. Qed.

Lemma indexOf_from_absent i c s :
  has_char c s = false -> indexOf_from i s (String c "") = -1.
Proof.
  revert i. induction s as [|d s IH]; intros i H; cbn [indexOf_from];
    rewrite prefix_single; [done|].
  cbn in H. apply orb_false_elim in H as [H1 H2].
  by rewrite Ascii.eqb_sym, H1, IH.
Qed.

Lemma indexOf_absent c s : has_char c s = false -> indexOf s (String c "") = -1.
Proof. apply indexOf_from_absent. Qed.

Lemma indexOf_from_lower i s t :
  0 <= i -> indexOf_from i s t = -1 \/ i <= indexOf_from i s t.
Proof.
  revert i. induction s as [|c s IH]; intros i Hi; cbn [indexOf_from];
    destruct (String.prefix _ _); try lia.
  destruct (IH (i + 1)); lia.
Qed.

Lemma prefix_app t s : String.prefix t s = true <-> exists u, s = t +:+ u.
Proof.
  split.
  - revert s. induction t as [|c t IH]; intros s H; [by exists s|].
    destruct s as [|d s]; [done|]. cbn in H. destruct (ascii_dec c d) as [->|]; [|done].
    destruct (IH _ H) as [u ->]. by exists u.
  - intros [u ->]. induction t as [|c t IH]; cbn; [by destruct u|].
    destruct (ascii_dec c c); done.
Qed.

Lemma indexOf_from_found i s t :
  0 <= i -> indexOf_from i s t <> -1 <-> exists a b, s = a +:+ (t +:+ b).
Proof.
  intros Hi. split.
  - revert i Hi. induction s as [|c s IH]; intros i Hi; cbn [indexOf_from];
      destruct (String.prefix t _) eqn:E; try done.
    + intros _. apply prefix_app in E as [u E]. by exists "", u.
    + intros _. apply prefix_app in E as [u E]. by exists "", u.
    + intros H. destruct (IH (i + 1) ltac:(lia) H) as (a & b & ->).
      by exists (String c a), b.
  - intros (a & b & ->). revert i Hi. induction a as [|c a IH]; intros i Hi.
    + assert (String.prefix t (t +:+ b) = true) as E by (apply prefix_app; eauto).
      cbn [String.append]. destruct (t +:+ b); cbn [indexOf_from]; rewrite E; lia.
    + cbn [String.append indexOf_from]. destruct (String.prefix _ _); [lia|].
      apply IH. lia.
Qed.

(** [s.indexOf(t) !== -1] holds exactly when [t] is a factor of [s]. *)
Lemma indexOf_found s t : indexOf s t <> -1 <-> exists a b, s = a +:+ (t +:+ b).
Proof. by apply indexOf_from_found. Qed.

(** [slice(k, length)] of a string cut after [k] characters. *)
Lemma js_slice_suffix s t : js_slice (s +:+ t) (slen s) (slen (s +:+ t)) = t.
Proof.
  unfold js_slice. rewrite slen_app. pose proof (slen_nonneg s). pose proof (slen_nonneg t).
  replace (slen s <? 0) with false by (symmetry; apply Z.ltb_ge; lia).
  replace (slen s + slen t <? 0) with false by (symmetry; apply Z.ltb_ge; lia).
  rewrite !Z.min_l by lia. rewrite sdrop_app by (unfold slen; lia).
  apply stake_all. unfold slen. lia.
Qed.

Lemma js_slice_all s : js_slice s 0 (slen s) = s.
Proof. apply (js_slice_suffix "" s). Qed.

Lemma js_substring_prefix s t : js_substring (s +:+ t) 0 (slen s) = s.
Proof.
  unfold js_substring. rewrite slen_app. pose proof (slen_nonneg s). pose proof (slen_nonneg t).
  rewrite (Z.max_l 0), (Z.max_l (slen s)), !Z.min_l by lia.
  rewrite Z.max_r, Z.sub_0_r by lia. cbn [sdrop Z.to_nat].
  apply stake_app. unfold slen. lia.
Qed.

Lemma js_substring_suffix s t : js_substring_from (s +:+ t) (slen s) = t.
Proof.
  unfold js_substring_from, js_substring. rewrite slen_app.
  pose proof (slen_nonneg s). pose proof (slen_nonneg t).
  replace (Z.min (Z.max (slen s) 0) (slen s + slen t)) with (slen s) by lia.
  replace (Z.min (Z.max (slen s + slen t) 0) (slen s + slen t)) with (slen s + slen t) by lia.
  rewrite Z.min_l, Z.max_r by lia. rewrite sdrop_app by (unfold slen; lia).
  apply stake_all. unfold slen. lia.
Qed.

Lemma split_on_ne c s : exists w ws, split_on c s = w :: ws.
Proof. destruct s as [|d s]; cbn; [eauto|]. case_if; [eauto|]. destruct (split_on c s); eauto. Qed.

(** A separator-free string is one piece; a separator cuts. *)
Lemma split_on_nosep c s : has_char c s = false -> split_on c s = [s].
Proof.
  induction s as [|d s IH]; cbn; [done|]. intros [H1 H2]%orb_false_elim.
  by rewrite H1, IH.
Qed.

Lemma split_on_app c a s :
  has_char c a = false -> split_on c (a +:+ String c s) = a :: split_on c s.
Proof.
  induction a as [|d a IH]; intros H; cbn.
  - by rewrite Ascii.eqb_refl.
  - cbn in H. apply orb_false_elim in H as [H1 H2]. by rewrite H1, IH.
Qed.

(** [split] followed by [join] is the identity. *)
Lemma join_split c s : join (String c "") (split_on c s) = s.
Proof.
  induction s as [|d s IH]; [done|]. cbn [split_on].
  destruct (split_on_ne c s) as (w & ws & E). rewrite E in *.
  destruct (Ascii.eqb d c) eqn:Ed.
  - apply Ascii.eqb_eq in Ed as ->. unfold join in *.
    change (String c (String.concat (String c "") (w :: ws)) = String c s). by rewrite IH.
  - unfold join in *. destruct ws; cbn [String.concat String.append] in *; by rewrite IH.
Qed.

#[export] Hint Rewrite sapp_nil_r sapp_assoc slen_app : js.
