(* ===== verification/JsNumber.v ===== *)
(** * JavaScript numbers

    A Number is an IEEE 754 binary64 value: the model is the Standard
    Library's [spec_float] at precision 53 and maximal exponent 1024, whose
    operations round to nearest, ties to even, exactly as the language
    prescribes.  On top of them this file defines the comparison operators,
    the [Math] functions, [Number.prototype.toString] and [toFixed], and the
    global [parseInt] and [parseFloat], as far as the sources use them. *)
From S2P Require Import Prelude JsString.
From Stdlib Require Import SpecFloat.
Local Open Scope Z_scope.

(** ** Representation and arithmetic *)

Abbreviation num := spec_float.
#[global] Bind Scope js_scope with spec_float.

Definition nan : num := S754_nan.
Definition plus_zero : num := S754_zero false.
Definition infinity : num := S754_infinity false.

(** A value is a double when its mantissa and exponent are canonical. *)
Definition is_double (x : num) : bool := valid_binary 53 1024 x.

Definition nadd (x y : num) : num := SFadd 53 1024 x y.
Definition nsub (x y : num) : num := SFsub 53 1024 x y.
Definition nmul (x y : num) : num := SFmul 53 1024 x y.
Definition ndiv (x y : num) : num := SFdiv 53 1024 x y.
Definition nneg (x : num) : num := SFopp x.
Definition nsqrt (x : num) : num := SFsqrt 53 1024 x.

(** The double nearest to an integer: a numeric literal of the sources. *)
Definition num_of_Z (z : Z) : num := binary_normalize 53 1024 z 0 false.
Coercion num_of_Z : Z >-> spec_float.

(** The double nearest to the quotient of two positive integers. *)
Definition num_of_ratio (a b : Z) : num :=
  let '(q, e, l) := SFdiv_core_binary 53 1024 a 0 b 0 in
  binary_round_aux 53 1024 false q e l.

(** The double nearest to [m * 10 ^ k], for [m >= 0]. *)
Definition num_of_decimal (m k : Z) : num :=
  if m =? 0 then plus_zero
  else if 0 <=? k then num_of_Z (m * 10 ^ k)
  else num_of_ratio m (10 ^ (- k)).

(** The operators [<], [<=], [>], [>=] and [===] on Numbers: all false when
    an operand is NaN. *)
Definition nlt (x y : num) : bool := SFltb x y.
Definition nle (x y : num) : bool := SFleb x y.
Definition ngt (x y : num) : bool := nlt y x.
Definition nge (x y : num) : bool := nle y x.
Definition neq (x y : num) : bool := SFeqb x y.

Notation "x + y" := (nadd x y) : js_scope.
Notation "x - y" := (nsub x y) : js_scope.
Notation "x * y" := (nmul x y) : js_scope.
Notation "x / y" := (ndiv x y) : js_scope.
Notation "- x" := (nneg x) : js_scope.
Notation "x <? y" := (nlt x y) : js_scope.
Notation "x <=? y" := (nle x y) : js_scope.
Notation "x >? y" := (ngt x y) : js_scope.
Notation "x >=? y" := (nge x y) : js_scope.
Notation "x =? y" := (neq x y) : js_scope.

(** ToBoolean of a Number. *)
Definition num_truthy (x : num) : bool :=
  match x with S754_zero _ | S754_nan => false | _ => true end.

(** ToNumber of a nullable number: [null] converts to +0. *)
Definition num_of_nullable (x : option num) : num := default plus_zero x.

(** ToNumber of an array element that may be missing: [undefined] converts
    to NaN. *)
Definition num_of_undefined (x : option num) : num := default nan x.

(** ** Math *)

(** The magnitude of a finite double as a fraction. *)
Definition mag_num (m : positive) (e : Z) : Z := Zpos m * 2 ^ Z.max e 0.
Definition mag_den (e : Z) : Z := 2 ^ Z.max (- e) 0.

Definition signed (s : bool) (z : Z) : Z := if s then - z else z.

(** [Math.round]: the nearest integer, ties towards +infinity; a result of
    zero keeps the sign of the argument. *)
Definition math_round (x : num) : num :=
  match x with
  | S754_finite s m e =>
      if 0 <=? e then x
      else
        let n := (2 * signed s (mag_num m e) + mag_den e) / (2 * mag_den e) in
        if n =? 0 then S754_zero s else num_of_Z n
  | _ => x
  end.

(** [Math.floor] *)
Definition math_floor (x : num) : num :=
  match x with
  | S754_finite s m e =>
      if 0 <=? e then x
      else
        let n := signed s (mag_num m e) / mag_den e in
        if n =? 0 then S754_zero s else num_of_Z n
  | _ => x
  end.

(** [Math.max(x, y)] and [Math.min(x, y)] *)
Definition math_max (x y : num) : num :=
  match x, y with
  | S754_nan, _ | _, S754_nan => S754_nan
  | _, _ => if nlt x y then y
            else if nlt y x then x
            else match x with S754_zero true => y | _ => x end
  end.

Definition math_min (x y : num) : num :=
  match x, y with
  | S754_nan, _ | _, S754_nan => S754_nan
  | _, _ => if nlt x y then x
            else if nlt y x then y
            else match x with S754_zero true => x | _ => y end
  end.

(** ** Decimal digits *)

Definition digit_char (d : Z) : ascii := ascii_of_N (Z.to_N (48 + d)).

Fixpoint dec_digits (fuel : nat) (z : Z) (acc : string) : string :=
  match fuel with
  | O => acc
  | S fuel' =>
      let acc' := String (digit_char (z mod 10)) acc in
      if z <? 10 then acc' else dec_digits fuel' (z / 10) acc'
  end.

(** The decimal notation of a non-negative integer. *)
Definition Z_to_dec (z : Z) : string := dec_digits (S (Z.to_nat (Z.log2 z))) z "".

Fixpoint zeros (n : nat) : string :=
  match n with O => "" | S n' => String "0" (zeros n') end.

(** The value of a string of decimal digits, after the digits [acc]. *)
Fixpoint dec_value (s : string) (acc : Z) : Z :=
  match s with
  | "" => acc
  | String c s' => dec_value s' (10 * acc + (Z.of_N (code c) - 48))
  end.

(** ** Number to String *)

Fixpoint leading_zeros (fuel : nat) (a b j : Z) : Z :=
  match fuel with
  | O => j
  | S fuel' => if b <=? a * 10 ^ j then j else leading_zeros fuel' a b (j + 1)
  end.

(** The [n] with [10 ^ (n - 1) <= a / b < 10 ^ n]. *)
Definition dec_exponent (a b : Z) : Z :=
  if b <=? a then slen (Z_to_dec (a / b)) else 1 - leading_zeros 400 a b 1.

(** The decimal significands of [k] digits nearest to [a / b]: the nearest
    one first. *)
Definition candidates (a b n k : Z) : Z * Z :=
  let A := if n <? k then a * 10 ^ (k - n) else a in
  let B := if n <? k then b else b * 10 ^ (n - k) in
  let lo := A / B in
  let r := A mod B in
  if (2 * r <? B) || ((2 * r =? B) && Z.even lo) then (lo, lo + 1) else (lo + 1, lo).

Definition same_double (x y : num) : bool := neq x y.

(** The shortest significand that reads back as the double [x], with its
    number of digits and its decimal exponent. *)
Fixpoint shortest (fuel : nat) (x : num) (a b n k : Z) : Z * Z * Z :=
  let '(s1, s2) := candidates a b n k in
  match fuel with
  | O => (s1, k, n)
  | S fuel' =>
      if same_double (num_of_decimal s1 (n - k)) x then (s1, k, n)
      else if same_double (num_of_decimal s2 (n - k)) x then (s2, k, n)
      else shortest fuel' x a b n (k + 1)
  end.

(** A significand of [10 ^ k] has one more digit than announced. *)
Definition normalize_digits (skn : Z * Z * Z) : Z * Z * Z :=
  let '(s, k, n) := skn in
  if s =? 10 ^ k then (1, 1, n + 1) else (s, k, n).

(** Number::toString of a positive finite double, radix 10. *)
Definition positive_to_string (m : positive) (e : Z) : string :=
  let a := mag_num m e in
  let b := mag_den e in
  let '(s, k, n) :=
    normalize_digits (shortest 16 (S754_finite false m e) a b (dec_exponent a b) 1) in
  let ds := Z_to_dec s in
  if (k <=? n) && (n <=? 21) then ds +:+ zeros (Z.to_nat (n - k))
  else if (0 <? n) && (n <=? 21) then
    stake (Z.to_nat n) ds +:+ "." +:+ sdrop (Z.to_nat n) ds
  else if (-6 <? n) && (n <=? 0) then "0." +:+ zeros (Z.to_nat (- n)) +:+ ds
  else
    let ex := (if 0 <? n then "e+" else "e-") +:+ Z_to_dec (Z.abs (n - 1)) in
    if k =? 1 then ds +:+ ex
    else stake 1 ds +:+ "." +:+ sdrop 1 ds +:+ ex.

(** [x.toString()] and the conversion by string concatenation. *)
Definition num_to_string (x : num) : string :=
  match x with
  | S754_nan => "NaN"
  | S754_zero _ => "0"
  | S754_infinity s => if s then "-Infinity" else "Infinity"
  | S754_finite s m e => (if s then "-" else "") +:+ positive_to_string m e
  end.

(** The integer [n] for which [n / 10 ^ f - x] is as close to zero as
    possible, the larger one when there are two. *)
Definition fixed_digits (m : positive) (e f : Z) : Z :=
  (2 * mag_num m e * 10 ^ f + mag_den e) / (2 * mag_den e).

Definition point_string (n f : Z) : string :=
  let ds := Z_to_dec n in
  let ds := zeros (Z.to_nat (f + 1 - slen ds)) +:+ ds in
  let k := Z.to_nat (slen ds - f) in
  stake k ds +:+ "." +:+ sdrop k ds.

(** [x.toFixed(f)] for [f >= 1]. *)
Definition toFixed (x : num) (f : Z) : string :=
  match x with
  | S754_finite s m e =>
      if nge (S754_finite false m e) (num_of_Z (10 ^ 21)) then num_to_string x
      else (if s then "-" else "") +:+ point_string (fixed_digits m e f) f
  | S754_zero _ => point_string 0 f
  | _ => num_to_string x
  end.

(** ** String to Number *)

Fixpoint span_while (p : ascii -> bool) (s : string) : string * string :=
  match s with
  | "" => ("", "")
  | String c s' =>
      if p c then let '(a, b) := span_while p s' in (String c a, b) else ("", s)
  end.

Definition hex_digit (c : ascii) : option Z :=
  if is_digit c then Some (Z.of_N (code c) - 48)
  else if (97 <=? code c)%N && (code c <=? 102)%N then Some (Z.of_N (code c) - 87)
  else if (65 <=? code c)%N && (code c <=? 70)%N then Some (Z.of_N (code c) - 55)
  else None.

Fixpoint hex_value (s : string) (acc : Z) : Z :=
  match s with
  | "" => acc
  | String c s' => hex_value s' (16 * acc + default 0 (hex_digit c))
  end.

(** The sign of a numeric string, and the rest. *)
Definition strip_sign (s : string) : bool * string :=
  match s with
  | "" => (false, "")
  | String c s' =>
      if Ascii.eqb c "-" then (true, s')
      else if Ascii.eqb c "+" then (false, s')
      else (false, s)
  end.

Definition is_hex_digit (c : ascii) : bool := bool_decide (is_Some (hex_digit c)).

(** [parseInt(s)], without a radix. *)
Definition parseInt (s : string) : num :=
  let '(neg, s) := strip_sign (trim_start s) in
  let v :=
    if String.prefix "0x" s || String.prefix "0X" s then
      let '(ds, _) := span_while is_hex_digit (sdrop 2 s) in
      if String.eqb ds "" then nan else num_of_Z (hex_value ds 0)
    else
      let '(ds, _) := span_while is_digit s in
      if String.eqb ds "" then nan else num_of_Z (dec_value ds 0) in
  if neg then nneg v else v.

(** The exponent part of a decimal literal; 0 when there is none. *)
Definition exponent_part (s : string) : Z :=
  match s with
  | "" => 0
  | String c s' =>
      if Ascii.eqb c "e" || Ascii.eqb c "E" then
        let '(neg, s') := strip_sign s' in
        let '(ds, _) := span_while is_digit s' in
        if String.eqb ds "" then 0 else signed neg (dec_value ds 0)
      else 0
  end.

(** [parseFloat(s)]: the longest prefix that is a decimal literal. *)
Definition parseFloat (s : string) : num :=
  let '(neg, s) := strip_sign (trim_start s) in
  let v :=
    if String.prefix "Infinity" s then infinity
    else
      let '(int_part, rest) := span_while is_digit s in
      let '(frac_part, rest') :=
        match rest with
        | "" => ("", "")
        | String c rest' => if Ascii.eqb c dot then span_while is_digit rest' else ("", rest)
        end in
      if String.eqb (int_part +:+ frac_part) "" then nan
      else num_of_decimal (dec_value (int_part +:+ frac_part) 0)
             (exponent_part rest' - slen frac_part) in
  if neg then nneg v else v.

(** ** Examples *)

Example to_string_ex1 : map num_to_string
  [num_of_decimal 1 (-1); num_of_Z (2 ^ 60); num_of_decimal 1 21; num_of_decimal 123456 (-3);
   num_of_decimal 15 (-8); num_of_decimal 1 23; nneg 5; num_of_decimal 999 (-5)]
  = ["0.1"; "1152921504606847000"; "1e+21"; "123.456"; "1.5e-7"; "1e+23"; "-5"; "0.00999"].
Proof. vm_compute. reflexivity. Qed.

Example to_fixed_ex1 : map (fun x => toFixed x 2)
  [num_of_decimal 1005 (-3); num_of_decimal 1 0; num_of_decimal 9995 (-3); nneg (num_of_decimal 1 (-3))]
  = ["1.00"; "1.00"; "9.99"; "-0.00"].
Proof. vm_compute. reflexivity. Qed.

Example parse_ex1 : map parseInt [" 12abc"; "-7"; "0x1F"; "x"]
  = [num_of_Z 12; nneg 7; num_of_Z 31; nan].
Proof. vm_compute. reflexivity. Qed.

Example parse_ex2 : map parseFloat ["1.5"; "10"; ".5e1"; "-2e-1x"; "."]
  = [num_of_decimal 15 (-1); num_of_Z 10; num_of_Z 5; nneg (num_of_decimal 2 (-1)); nan].
Proof. vm_compute. reflexivity. Qed.

Example round_ex1 : map math_round [num_of_decimal 25 (-1); nneg (num_of_decimal 25 (-1)); nneg (num_of_decimal 4 (-1))]
  = [num_of_Z 3; nneg 2; S754_zero true].
Proof. vm_compute. reflexivity. Qed.
