(* ===== verification/JsNumberFacts.v ===== *)
(** * Facts about JavaScript numbers

    The arithmetic the web UI relies on, proved about the binary64
    operations of [JsNumber]:
    - the sign of a difference of two doubles is their order, so a comparator
      written as a subtraction is an order;
    - division by a power of two that stays in the normal range is exact;
    - integers up to [2 ^ 53] are represented exactly, and their sums and
      differences are exact while they stay in that range;
    - [toFixed] and [Math.round] are within half a unit of their argument;
    - decimal notation round-trips through [parseInt]. *)
From S2P Require Import Prelude JsString JsNumber.
From Stdlib Require Import SpecFloat.
Local Open Scope Z_scope.

(** ** Binary digits *)

Lemma digits2_pos_log2 m : Zpos (digits2_pos m) = Z.log2 (Zpos m) + 1.
Proof.
  induction m as [m IH|m IH|]; cbn [digits2_pos]; rewrite ?Pos2Z.inj_succ; try rewrite IH.
  - rewrite (Pos2Z.inj_xI m), Z.log2_succ_double; lia.
  - rewrite (Pos2Z.inj_xO m), Z.log2_double; lia.
  - done.
Qed.

Lemma Zdigits2_pos z : 0 < z -> Zdigits2 z = Z.log2 z + 1.
Proof. destruct z as [|p|p]; [lia| |lia]. intros _. apply digits2_pos_log2. Qed.

Lemma log2_bounds z : 0 < z -> 2 ^ Z.log2 z <= z < 2 ^ (Z.log2 z + 1).
Proof. intros H. pose proof (Z.log2_spec z H). rewrite <- Z.add_1_r in *. lia. Qed.

(** ** Shifting right *)

Lemma shr_1_m m r s : 0 <= m -> shr_m (shr_1 (Build_shr_record m r s)) = m / 2.
Proof.
  destruct m as [|p|p]; intros H; [done| |lia]. destruct p as [p|p|]; cbn; [| |done].
  - apply (Z.div_unique_pos _ _ _ 1); lia.
  - apply (Z.div_unique_pos _ _ _ 0); lia.
Qed.

Lemma iter_pos_add {A} (f : A -> A) p x : iter_pos f p x = Pos.iter f x p.
Proof.
  revert x. induction p as [p IH|p IH|]; intros x; cbn; [|by rewrite !IH|done].
  rewrite !IH. rewrite <- !Pos.iter_swap. done.
Qed.

Lemma iter_shr_m p mrs :
  0 <= shr_m mrs -> shr_m (iter_pos shr_1 p mrs) = shr_m mrs / 2 ^ Zpos p.
Proof.
  intros H. rewrite iter_pos_add. induction p as [|p IH] using Pos.peano_ind.
  - destruct mrs. by apply shr_1_m.
  - rewrite Pos.iter_succ. destruct (Pos.iter shr_1 mrs p) as [m r s] eqn:E.
    cbn [shr_m] in IH. rewrite shr_1_m.
    + rewrite IH, Z.div_div, Pos2Z.inj_succ, <- Z.add_1_r, Z.pow_add_r by lia. done.
    + rewrite IH. apply Z.div_pos; lia.
Qed.

Lemma shr_record_of_loc_m m l : shr_m (shr_record_of_loc m l) = m.
Proof. by destruct l as [|[]]. Qed.

Lemma shr_m_div mrs e n :
  0 <= shr_m mrs -> shr_m (fst (shr mrs e n)) = shr_m mrs / 2 ^ Z.max n 0.
Proof.
  intros H. destruct n as [|p|p]; cbn [shr fst].
  - by rewrite Z.div_1_r.
  - by rewrite iter_shr_m.
  - by rewrite Z.div_1_r.
Qed.

Lemma shr_exp mrs e n : snd (shr mrs e n) = e + Z.max n 0.
Proof. destruct n; cbn [shr snd]; lia. Qed.

(** A record that is shifted by nothing, or that has no bits below the cut. *)
Lemma shr_exact m e k :
  0 <= k -> 0 < m ->
  shr (Build_shr_record (m * 2 ^ k) false false) e k = (Build_shr_record m false false, e + k).
Proof.
  intros Hk Hm. destruct k as [|p|p]; [| |lia].
  - cbn [shr]. by rewrite Z.mul_1_r, Z.add_0_r.
  - cbn [shr]. f_equal. rewrite iter_pos_add. clear Hk e.
    induction p as [|p IH] using Pos.peano_ind.
    + destruct m as [|q|q]; [lia| |lia]. rewrite Z.mul_comm. done.
    + rewrite Pos.iter_succ_r.
      replace (shr_1 _) with (Build_shr_record (m * 2 ^ Zpos p) false false); [done|].
      rewrite Pos2Z.inj_succ, Z.pow_succ_r by lia.
      replace (m * (2 * 2 ^ Zpos p)) with (2 * (m * 2 ^ Zpos p)) by ring.
      destruct (m * 2 ^ Zpos p) as [|q|q] eqn:E; [lia|done|lia].
Qed.

(** ** Rounding *)

Notation emin := (-1074).

Lemma fexp_53 e : fexp 53 1024 e = Z.max (e - 53) emin.
Proof. done. Qed.

Lemma shr_fexp_pos m e l :
  0 < m -> emin <= e ->
  let '(mrs, e') := shr_fexp 53 1024 m e l in 0 < shr_m mrs /\ emin <= e'.
Proof.
  intros Hm He. unfold shr_fexp. rewrite Zdigits2_pos, fexp_53 by done.
  set (n := Z.max (Z.log2 m + 1 + e - 53) emin - e).
  destruct (shr (shr_record_of_loc m l) e n) as [mrs e'] eqn:E.
  assert (shr_m mrs = m / 2 ^ Z.max n 0) as ->.
  { rewrite <- (shr_record_of_loc_m m l) at 1. rewrite <- (shr_m_div _ e), E; [done|].
    rewrite shr_record_of_loc_m. lia. }
  assert (e' = e + Z.max n 0) as -> by (rewrite <- (shr_exp (shr_record_of_loc m l)), E; done).
  split; [|lia]. pose proof (log2_bounds m Hm). pose proof (Z.log2_nonneg m).
  apply Z.div_str_pos. split; [lia|]. etrans; [|apply H].
  apply Z.pow_le_mono_r; lia.
Qed.

Lemma round_nearest_even_ge m l : m <= round_nearest_even m l.
Proof. destruct l as [|[]]; cbn; try lia. destruct (Z.even m); lia. Qed.

(** A positive mantissa whose exponent is representable never rounds to
    zero. *)
Lemma binary_round_aux_sign sx m e l :
  0 < m -> emin <= e ->
  (exists m' e', binary_round_aux 53 1024 sx m e l = S754_finite sx m' e') \/
  binary_round_aux 53 1024 sx m e l = S754_infinity sx.
Proof.
  intros Hm He. unfold binary_round_aux.
  pose proof (shr_fexp_pos m e l Hm He) as H1.
  destruct (shr_fexp 53 1024 m e l) as [mrs e']. destruct H1 as [H1 He'].
  set (m' := round_nearest_even _ _).
  assert (0 < m') as Hm' by (unfold m'; pose proof (round_nearest_even_ge (shr_m mrs) (loc_of_shr_record mrs)); lia).
  pose proof (shr_fexp_pos m' e' loc_Exact Hm' He') as H2.
  destruct (shr_fexp 53 1024 m' e' loc_Exact) as [mrs2 e2]. destruct H2 as [H2 _].
  destruct (shr_m mrs2) as [|p|p]; [lia| |lia]. case_if; eauto.
Qed.

Lemma Pos_iter_xO m d : Zpos (Pos.iter xO m d) = Zpos m * 2 ^ Zpos d.
Proof.
  induction d as [|d IH] using Pos.peano_ind; [cbn; lia|].
  rewrite Pos.iter_succ, Pos2Z.inj_xO, IH, Pos2Z.inj_succ, Z.pow_succ_r by lia. ring.
Qed.

Lemma shl_align_spec m e e' :
  let '(m', e2) := shl_align m e e' in
  e2 = Z.min e e' /\ Zpos m' = Zpos m * 2 ^ (e - Z.min e e').
Proof.
  unfold shl_align. destruct (e' - e) as [|d|d] eqn:E.
  - replace (Z.min e e') with e by lia. rewrite Z.sub_diag. lia.
  - replace (Z.min e e') with e by lia. rewrite Z.sub_diag. lia.
  - replace (Z.min e e') with e' by lia. rewrite Pos_iter_xO.
    split; [done|]. do 2 f_equal. lia.
Qed.

Lemma shl_align_fst m e e' :
  e' <= e -> Zpos (fst (shl_align m e e')) = Zpos m * 2 ^ (e - e').
Proof.
  intros H. pose proof (shl_align_spec m e e') as S.
  destruct (shl_align m e e') as [m' e2]. destruct S as [_ S]. cbn.
  by rewrite S, Z.min_r by lia.
Qed.

Lemma binary_round_sign sx m e :
  emin <= e ->
  (exists m' e', binary_round 53 1024 sx m e = S754_finite sx m' e') \/
  binary_round 53 1024 sx m e = S754_infinity sx.
Proof.
  intros He. unfold binary_round. rewrite fexp_53.
  pose proof (shl_align_spec m e (Z.max (Zpos (digits2_pos m) + e - 53) emin)) as S.
  destruct (shl_align _ _ _) as [m' e']. destruct S as [-> S].
  apply binary_round_aux_sign; lia.
Qed.

(** ** Order *)

(** Canonical mantissas: at most 53 digits, exactly 53 above [emin]. *)
Lemma is_double_finite s m e :
  is_double (S754_finite s m e) = true ->
  Z.max (Z.log2 (Zpos m) + 1 + e - 53) emin = e /\ e <= 971.
Proof.
  unfold is_double, valid_binary, bounded, canonical_mantissa.
  rewrite fexp_53, digits2_pos_log2. intros H. bool_hyps. eqb_hyps. lia.
Qed.

(** The exact value of a finite double, scaled by [2 ^ 1074]. *)
Definition scaled (x : num) : Z :=
  match x with
  | S754_finite s m e => signed s (Zpos m * 2 ^ (e + 1074))
  | _ => 0
  end.

Definition is_finite (x : num) : bool :=
  match x with S754_finite _ _ _ | S754_zero _ => true | _ => false end.

Lemma scaled_pos m e : emin <= e -> 0 < Zpos m * 2 ^ (e + 1074).
Proof. intros H. apply Z.mul_pos_pos; [lia|]. apply Z.pow_pos_nonneg; lia. Qed.

Lemma canonical_lt m1 e1 m2 e2 :
  Z.max (Z.log2 (Zpos m1) + 1 + e1 - 53) emin = e1 ->
  Z.max (Z.log2 (Zpos m2) + 1 + e2 - 53) emin = e2 ->
  e1 < e2 -> Zpos m1 * 2 ^ (e1 + 1074) < Zpos m2 * 2 ^ (e2 + 1074).
Proof.
  intros H1 H2 He. pose proof (log2_bounds (Zpos m1) ltac:(lia)) as B1.
  pose proof (log2_bounds (Zpos m2) ltac:(lia)) as B2.
  assert (Z.log2 (Zpos m2) = 52) as E by lia. rewrite E in B2.
  assert (Zpos m1 < 2 ^ 53) as B3.
  { eapply Z.lt_le_trans; [apply B1|]. apply Z.pow_le_mono_r; lia. }
  replace (e2 + 1074) with ((e2 - e1) + (e1 + 1074)) by lia.
  rewrite (Z.pow_add_r 2 (e2 - e1)) by lia. rewrite Z.mul_assoc.
  apply Z.mul_lt_mono_pos_r; [apply Z.pow_pos_nonneg; lia|].
  assert (2 ^ 1 <= 2 ^ (e2 - e1)) by (apply Z.pow_le_mono_r; lia). nia.
Qed.

Lemma canonical_compare m1 e1 m2 e2 :
  Z.max (Z.log2 (Zpos m1) + 1 + e1 - 53) emin = e1 ->
  Z.max (Z.log2 (Zpos m2) + 1 + e2 - 53) emin = e2 ->
  (Zpos m1 * 2 ^ (e1 + 1074) ?= Zpos m2 * 2 ^ (e2 + 1074)) =
  match e1 ?= e2 with Lt => Lt | Gt => Gt | Eq => Pos.compare_cont Eq m1 m2 end.
Proof.
  intros H1 H2. destruct (Z.compare_spec e1 e2) as [->|H|H].
  - rewrite <- Zmult_compare_compat_r; [done|]. apply Z.lt_gt, Z.pow_pos_nonneg; lia.
  - apply Z.compare_lt_iff. by apply canonical_lt.
  - apply Z.compare_gt_iff. by apply canonical_lt.
Qed.

(** On finite doubles the comparison operators are those of the exact
    values. *)
Lemma SFcompare_scaled x y :
  is_double x = true -> is_double y = true -> is_finite x = true -> is_finite y = true ->
  SFcompare x y = Some (scaled x ?= scaled y).
Proof.
  destruct x as [sx|sx| |sx mx ex], y as [sy|sy| |sy my ey]; try done; intros Dx Dy _ _;
    try apply is_double_finite in Dx as [Dx _]; try apply is_double_finite in Dy as [Dy _];
    cbn [SFcompare scaled]; f_equal.
  - pose proof (scaled_pos my ey ltac:(lia)).
    destruct sy; cbn [signed]; symmetry; [apply Z.compare_gt_iff|apply Z.compare_lt_iff]; lia.
  - pose proof (scaled_pos mx ex ltac:(lia)).
    destruct sx; cbn [signed]; symmetry; [apply Z.compare_lt_iff|apply Z.compare_gt_iff]; lia.
  - pose proof (scaled_pos mx ex ltac:(lia)). pose proof (scaled_pos my ey ltac:(lia)).
    pose proof (canonical_compare mx ex my ey Dx Dy) as C.
    destruct sx, sy; cbn [signed].
    + rewrite Z.compare_opp, (Z.compare_antisym (Zpos mx * _)), C.
      destruct (ex ?= ey); done.
    + symmetry. apply Z.compare_lt_iff. lia.
    + symmetry. apply Z.compare_gt_iff. lia.
    + by rewrite C.
Qed.

Lemma binary_normalize_sign z e :
  emin <= e ->
  let x := binary_normalize 53 1024 z e false in
  SFcompare x plus_zero = Some (z ?= 0) /\ (z = 0 -> x = plus_zero).
Proof.
  intros He. destruct z as [|p|p]; cbn [binary_normalize Z.compare]; [done| |].
  - by destruct (binary_round_sign false p e He) as [(m & e' & ->)| ->].
  - by destruct (binary_round_sign true p e He) as [(m & e' & ->)| ->].
Qed.

(** The difference of the scaled values, computed at a common exponent. *)
Lemma scaled_align s m e ez :
  emin <= ez <= e ->
  scaled (S754_finite s m e) = cond_Zopp s (Zpos (fst (shl_align m e ez))) * 2 ^ (ez + 1074).
Proof.
  intros H. rewrite shl_align_fst by lia. unfold scaled, signed, cond_Zopp.
  replace (e + 1074) with ((e - ez) + (ez + 1074)) by lia.
  rewrite (Z.pow_add_r 2 (e - ez)) by lia. destruct s; ring.
Qed.

(** The sign of [x - y] is the order of [x] and [y]: the subtraction of two
    finite doubles never rounds to zero unless they are equal. *)
Lemma nsub_compare x y :
  is_double x = true -> is_double y = true -> is_finite x = true -> is_finite y = true ->
  SFcompare (x - y)%js plus_zero = Some (scaled x ?= scaled y).
Proof.
  intros Dx Dy Fx Fy.
  destruct x as [sx|sx| |sx mx ex], y as [sy|sy| |sy my ey]; try done;
    [rewrite <- SFcompare_scaled by done..|].
  - by destruct sx, sy.
  - by destruct sy.
  - done.
  - apply is_double_finite in Dx as [Dx _]. apply is_double_finite in Dy as [Dy _].
    cbn [nsub SFsub]. unfold nsub. cbn [SFsub].
    set (z := (cond_Zopp sx _ - cond_Zopp sy _)%Z).
    destruct (binary_normalize_sign z (Z.min ex ey) ltac:(lia)) as [-> _]. f_equal.
    rewrite !(scaled_align _ _ _ (Z.min ex ey)) by lia.
    rewrite <- Zmult_compare_compat_r by (apply Z.lt_gt, Z.pow_pos_nonneg; lia).
    symmetry. apply Z.compare_sub.
Qed.

(** ** Exact scaling by powers of two *)

Lemma num_of_Z_1024 : num_of_Z 1024 = S754_finite false (2 ^ 52) (-42).
Proof. vm_compute. reflexivity. Qed.

Lemma Zdigits2_double m : Z.log2 (Zpos m) = 52 -> Zdigits2 (2 * Zpos m) = 54.
Proof. intros H. rewrite Zdigits2_pos, Z.log2_double by lia. lia. Qed.

(** Dividing a normal double by 1024 only changes the exponent. *)
Lemma ndiv_1024 s m e :
  Z.log2 (Zpos m) = 52 -> -1063 <= e <= 971 ->
  (S754_finite s m e / 1024)%js = S754_finite s m (e - 10).
Proof.
  intros Hm He. rewrite num_of_Z_1024. unfold ndiv, SFdiv, SFdiv_core_binary.
  rewrite Zdigits2_pos, Hm, fexp_53 by lia.
  change (Zdigits2 (Zpos (2 ^ 52))) with 53.
  replace (Z.min (Z.max (52 + 1 + e - (53 + -42) - 53) emin) (e - -42)) with (e - 11) by lia.
  replace (e - -42 - (e - 11)) with 53 by lia. cbn match.
  replace (Z.div_eucl (Z.shiftl (Zpos m) 53) (Zpos (2 ^ 52))) with (2 * Zpos m, 0).
  2:{ symmetry. pose proof (Z_div_mod (Z.shiftl (Zpos m) 53) (Zpos (2 ^ 52)) ltac:(lia)) as D.
      destruct (Z.div_eucl _ _) as [q r]. rewrite Z.shiftl_mul_pow2 in D by lia.
      change (Zpos (2 ^ 52)) with (2 ^ 52) in D. f_equal; lia. }
  cbn [new_location Z.even]. rewrite xorb_false_r.
  unfold binary_round_aux, shr_fexp.
  change (shr_record_of_loc (2 * Zpos m) (new_location (Zpos (2 ^ 52)) 0))
    with (Build_shr_record (2 * Zpos m) false false).
  rewrite Zdigits2_double, fexp_53 by done.
  replace (Z.max (54 + (e - 11) - 53) emin - (e - 11)) with 1 by lia.
  replace (2 * Zpos m) with (Zpos m * 2 ^ 1) by lia.
  rewrite shr_exact by lia. cbn [shr_m loc_of_shr_record round_nearest_even].
  rewrite Zdigits2_pos, Hm, fexp_53 by lia.
  replace (Z.max (52 + 1 + (e - 11 + 1) - 53) emin - (e - 11 + 1)) with 0 by lia.
  cbn [shr shr_record_of_loc shr_m]. replace (e - 11 + 1) with (e - 10) by lia.
  by replace (e - 10 <=? 1024 - 53) with true by lia.
Qed.

(** ** Integers *)

Definition small (z : Z) : Prop := Z.abs z < 2 ^ 53.

(** The representation of a small positive integer: 53 significant bits. *)
Definition int_mantissa (w : Z) : positive := Z.to_pos (w * 2 ^ (52 - Z.log2 w)).

Lemma small_log2 w : 0 < w < 2 ^ 53 -> 0 <= Z.log2 w <= 52.
Proof.
  intros H. split; [apply Z.log2_nonneg|]. pose proof (log2_bounds w ltac:(lia)).
  destruct (Z.le_gt_cases (Z.log2 w) 52) as [|C]; [done|].
  assert (2 ^ 53 <= 2 ^ Z.log2 w) by (apply Z.pow_le_mono_r; lia). lia.
Qed.

Lemma log2_shifted w k : 0 < w -> 0 <= k -> Z.log2 (w * 2 ^ k) = Z.log2 w + k.
Proof. intros. rewrite Z.log2_mul_pow2 by done. lia. Qed.

Lemma shr_fexp_exact w e :
  0 < w < 2 ^ 53 -> 0 <= e -> Z.log2 w - 52 <= 0 -> - e <= Z.log2 w - 52 -> e <= 1074 ->
  shr_fexp 53 1024 (w * 2 ^ e) (- e) loc_Exact =
  (Build_shr_record (w * 2 ^ (52 - Z.log2 w)) false false, Z.log2 w - 52).
Proof.
  intros Hw He HE Hle Hmin. pose proof (small_log2 w Hw).
  assert (0 < w * 2 ^ (52 - Z.log2 w)) by (apply Z.mul_pos_pos; [|apply Z.pow_pos_nonneg]; lia).
  unfold shr_fexp. rewrite Zdigits2_pos, log2_shifted, fexp_53
    by (try apply Z.mul_pos_pos; try apply Z.pow_pos_nonneg; lia).
  cbn [shr_record_of_loc].
  replace (Z.max (Z.log2 w + e + 1 + - e - 53) emin - - e) with (Z.log2 w - 52 + e) by lia.
  replace (w * 2 ^ e) with (w * 2 ^ (52 - Z.log2 w) * 2 ^ (Z.log2 w - 52 + e)).
  2:{ rewrite <- Z.mul_assoc, <- Z.pow_add_r by lia. do 2 f_equal. lia. }
  rewrite shr_exact by lia. f_equal. lia.
Qed.

Lemma int_mantissa_pos w : 0 < w < 2 ^ 53 -> 0 < w * 2 ^ (52 - Z.log2 w).
Proof. intros H. pose proof (small_log2 w H). apply Z.mul_pos_pos; [|apply Z.pow_pos_nonneg]; lia. Qed.

(** An integer written at any exponent between [emin] and 0 rounds to its
    canonical representation. *)
Lemma binary_round_int s p w k :
  0 < w < 2 ^ 53 -> 0 <= k <= 1074 -> Zpos p = w * 2 ^ k ->
  binary_round 53 1024 s p (- k) = S754_finite s (int_mantissa w) (Z.log2 w - 52).
Proof.
  intros Hw Hk Hp. pose proof (small_log2 w Hw). unfold binary_round.
  rewrite digits2_pos_log2, Hp, log2_shifted, fexp_53 by lia.
  replace (Z.max (Z.log2 w + k + 1 + - k - 53) emin) with (Z.log2 w - 52) by lia.
  pose proof (shl_align_spec p (- k) (Z.log2 w - 52)) as S.
  destruct (shl_align _ _ _) as [m' e']. destruct S as [-> S].
  set (j := - Z.min (- k) (Z.log2 w - 52)) in *.
  assert (Zpos m' = w * 2 ^ j) as Hm'.
  { rewrite S, Hp, <- Z.mul_assoc, <- Z.pow_add_r by lia. do 2 f_equal. lia. }
  replace (Z.min (- k) (Z.log2 w - 52)) with (- j) by lia.
  unfold binary_round_aux. rewrite Hm', shr_fexp_exact by lia.
  cbn [shr_m loc_of_shr_record round_nearest_even].
  pose proof (int_mantissa_pos w Hw) as Hpos.
  unfold shr_fexp. rewrite Zdigits2_pos, log2_shifted, fexp_53 by lia.
  replace (Z.max _ _ - _) with 0 by lia. cbn [shr shr_record_of_loc shr_m].
  unfold int_mantissa. destruct (w * 2 ^ (52 - Z.log2 w)) as [|q|q]; try lia.
  by replace (Z.log2 w - 52 <=? 1024 - 53) with true by lia.
Qed.

Lemma normalize_int z k :
  small z -> 0 <= k <= 1074 ->
  binary_normalize 53 1024 (z * 2 ^ k) (- k) false = num_of_Z z.
Proof.
  intros Hz Hk. unfold small, num_of_Z in *. assert (0 < 2 ^ k) by (apply Z.pow_pos_nonneg; lia).
  destruct z as [|p|p]; [done| |]; destruct (_ * 2 ^ k) as [|q|q] eqn:E; try lia;
    cbn [binary_normalize]; (etrans; [apply (binary_round_int _ _ (Zpos p) k)|]); try lia;
    symmetry; apply (binary_round_int _ _ (Zpos p) 0); lia.
Qed.

Definition int_sign (z : Z) : bool := z <? 0.

Lemma num_of_Z_small z :
  small z -> z <> 0 ->
  num_of_Z z = S754_finite (int_sign z) (int_mantissa (Z.abs z)) (Z.log2 (Z.abs z) - 52).
Proof.
  unfold small, num_of_Z. intros Hz Hne. destruct z as [|p|p]; [done| |];
    cbn [binary_normalize Z.abs]; rewrite <- (binary_round_int _ p (Zpos p) 0); try lia; done.
Qed.

Lemma is_finite_num_of_Z z : small z -> is_finite (num_of_Z z) = true.
Proof.
  intros Hz. destruct (decide (z = 0)) as [->|Hne]; [done|]. by rewrite num_of_Z_small.
Qed.

Lemma is_double_num_of_Z z : small z -> is_double (num_of_Z z) = true.
Proof.
  intros Hz. destruct (decide (z = 0)) as [->|Hne]; [done|]. rewrite num_of_Z_small by done.
  unfold small in Hz. assert (0 < Z.abs z < 2 ^ 53) as Hw by lia.
  pose proof (small_log2 _ Hw). pose proof (int_mantissa_pos _ Hw).
  unfold is_double, valid_binary, bounded, canonical_mantissa, int_mantissa.
  rewrite digits2_pos_log2, Z2Pos.id, log2_shifted, fexp_53 by lia.
  apply andb_true_intro. rewrite Z.eqb_eq, Z.leb_le. lia.
Qed.

Lemma scaled_num_of_Z z : small z -> scaled (num_of_Z z) = z * 2 ^ 1074.
Proof.
  intros Hz. destruct (decide (z = 0)) as [->|Hne]; [done|]. rewrite num_of_Z_small by done.
  unfold small in Hz. assert (0 < Z.abs z < 2 ^ 53) as Hw by lia.
  pose proof (small_log2 _ Hw). pose proof (int_mantissa_pos _ Hw).
  unfold scaled, int_mantissa, signed, int_sign. rewrite Z2Pos.id by lia.
  rewrite <- Z.mul_assoc, <- Z.pow_add_r by lia.
  replace (52 - Z.log2 (Z.abs z) + (Z.log2 (Z.abs z) - 52 + 1074)) with 1074 by lia.
  destruct (Z.ltb_spec z 0); [rewrite Z.abs_neq by lia; ring|by rewrite Z.abs_eq by lia].
Qed.

(** Comparisons of small integers are the comparisons of [Z]. *)
Lemma compare_num_of_Z a b :
  small a -> small b -> SFcompare (num_of_Z a) (num_of_Z b) = Some (a ?= b).
Proof.
  intros Ha Hb. rewrite SFcompare_scaled, !scaled_num_of_Z
    by (try apply is_double_num_of_Z; try apply is_finite_num_of_Z; done).
  by rewrite <- Zmult_compare_compat_r by (apply Z.lt_gt, Z.pow_pos_nonneg; lia).
Qed.

Lemma aligned_int z ez :
  small z -> z <> 0 -> ez <= Z.log2 (Z.abs z) - 52 ->
  cond_Zopp (int_sign z)
    (Zpos (fst (shl_align (int_mantissa (Z.abs z)) (Z.log2 (Z.abs z) - 52) ez))) = z * 2 ^ (- ez).
Proof.
  intros Hz Hne He. unfold small in Hz. assert (0 < Z.abs z < 2 ^ 53) as Hw by lia.
  pose proof (small_log2 _ Hw). pose proof (int_mantissa_pos _ Hw).
  rewrite shl_align_fst by lia. unfold int_mantissa. rewrite Z2Pos.id by lia.
  rewrite <- Z.mul_assoc, <- Z.pow_add_r by lia.
  replace (52 - Z.log2 (Z.abs z) + (Z.log2 (Z.abs z) - 52 - ez)) with (- ez) by lia.
  unfold cond_Zopp, int_sign.
  destruct (Z.ltb_spec z 0); [rewrite Z.abs_neq by lia; ring|by rewrite Z.abs_eq by lia].
Qed.

Lemma log2_abs_small z : small z -> z <> 0 -> 0 <= Z.log2 (Z.abs z) <= 52.
Proof. intros Hz Hne. apply small_log2. unfold small in Hz. lia. Qed.

Lemma num_of_Z_opp z : small z -> z <> 0 -> nneg (num_of_Z z) = num_of_Z (- z).
Proof.
  intros Hz Hne. rewrite !num_of_Z_small by (unfold small in *; lia).
  cbn. rewrite Z.abs_opp. f_equal. unfold int_sign. lia.
Qed.

(** Sums and differences of small integers are exact. *)
Lemma nadd_int a b :
  small a -> small b -> small (a + b) -> (num_of_Z a + num_of_Z b)%js = num_of_Z (a + b).
Proof.
  intros Ha Hb Hs. destruct (decide (a = 0)) as [->|Na].
  { destruct (decide (b = 0)) as [->|Nb]; [done|]. rewrite Z.add_0_l.
    by rewrite (num_of_Z_small b). }
  destruct (decide (b = 0)) as [->|Nb].
  { rewrite Z.add_0_r. by rewrite (num_of_Z_small a). }
  pose proof (log2_abs_small a Ha Na). pose proof (log2_abs_small b Hb Nb).
  rewrite (num_of_Z_small a), (num_of_Z_small b) by done. unfold nadd, SFadd.
  rewrite !aligned_int, <- Z.mul_add_distr_r by (done || lia).
  rewrite <- (normalize_int (a + b) (- Z.min (Z.log2 (Z.abs a) - 52) (Z.log2 (Z.abs b) - 52))) by (done || lia).
  by rewrite Z.opp_involutive.
Qed.

Lemma nsub_int a b :
  small a -> small b -> small (a - b) -> (num_of_Z a - num_of_Z b)%js = num_of_Z (a - b).
Proof.
  intros Ha Hb Hs. destruct (decide (a = 0)) as [->|Na].
  { destruct (decide (b = 0)) as [->|Nb]; [done|]. rewrite Z.sub_0_l, <- num_of_Z_opp by done.
    by rewrite (num_of_Z_small b). }
  destruct (decide (b = 0)) as [->|Nb].
  { rewrite Z.sub_0_r. by rewrite (num_of_Z_small a). }
  pose proof (log2_abs_small a Ha Na). pose proof (log2_abs_small b Hb Nb).
  rewrite (num_of_Z_small a), (num_of_Z_small b) by done. unfold nsub, SFsub.
  rewrite !aligned_int, <- Z.mul_sub_distr_r by (done || lia).
  rewrite <- (normalize_int (a - b) (- Z.min (Z.log2 (Z.abs a) - 52) (Z.log2 (Z.abs b) - 52))) by (done || lia).
  by rewrite Z.opp_involutive.
Qed.

(** ** Decimal notation *)

Lemma dec_value_app s t v : dec_value (s +:+ t) v = dec_value t (dec_value s v).
Proof. revert v. induction s as [|c s IH]; intros v; cbn; [done|]. apply IH. Qed.

Lemma code_digit_char d : 0 <= d < 10 -> Z.of_N (code (digit_char d)) = 48 + d.
Proof. intros H. unfold code, digit_char. rewrite N_ascii_embedding by lia. lia. Qed.

Lemma is_digit_digit_char d : 0 <= d < 10 -> is_digit (digit_char d) = true.
Proof.
  intros H. pose proof (code_digit_char d H). unfold is_digit.
  apply andb_true_intro. rewrite !N.leb_le. lia.
Qed.

Lemma dec_digits_acc f z acc : dec_digits f z acc = dec_digits f z "" +:+ acc.
Proof.
  revert z acc. induction f as [|f IH]; intros z acc; cbn; [done|].
  case_if; [done|]. rewrite (IH _ (String _ acc)), (IH _ (String _ "")). by rewrite sapp_assoc.
Qed.

Lemma dec_digits_step f z :
  10 <= z -> dec_digits (S f) z "" = dec_digits f (z / 10) "" +:+ String (digit_char (z mod 10)) "".
Proof. intros H. cbn. replace (z <? 10) with false by lia. by rewrite dec_digits_acc. Qed.

Lemma dec_digits_fuel f g z :
  0 <= z < 10 ^ Z.of_nat f -> z < 10 ^ Z.of_nat g -> (0 < f)%nat -> (0 < g)%nat ->
  dec_digits f z "" = dec_digits g z "".
Proof.
  revert g z. induction f as [|f IH]; intros g z Hf Hg Pf Pg; [lia|].
  destruct g as [|g]; [lia|].
  destruct (Z.lt_ge_cases z 10) as [H|H]; [cbn; by replace (z <? 10) with true by lia|].
  rewrite Nat2Z.inj_succ, Z.pow_succ_r in * by lia. rewrite !dec_digits_step by lia. f_equal.
  apply IH.
  - split; [apply Z.div_pos; lia|]. apply Z.div_lt_upper_bound; lia.
  - apply Z.div_lt_upper_bound; lia.
  - destruct f; [cbn in Hf; lia|lia].
  - destruct g; [cbn in Hg; lia|lia].
Qed.

Lemma log2_fuel z : 0 <= z -> z < 10 ^ Z.of_nat (S (Z.to_nat (Z.log2 z))).
Proof.
  intros H. pose proof (Z.log2_nonneg z). rewrite Nat2Z.inj_succ, Z2Nat.id by lia.
  destruct (decide (z = 0)) as [->|Hz]; [cbn; lia|].
  pose proof (log2_bounds z ltac:(lia)). rewrite <- Z.add_1_r.
  eapply Z.lt_le_trans; [apply H1|]. apply Z.pow_le_mono_l. lia.
Qed.

Lemma Z_to_dec_small z : 0 <= z < 10 -> Z_to_dec z = String (digit_char z) "".
Proof.
  intros H. unfold Z_to_dec. cbn [dec_digits]. replace (z <? 10) with true by lia.
  by rewrite Z.mod_small.
Qed.

(** The recursion equation of decimal notation. *)
Lemma Z_to_dec_step z :
  10 <= z -> Z_to_dec z = Z_to_dec (z / 10) +:+ String (digit_char (z mod 10)) "".
Proof.
  intros H. unfold Z_to_dec at 1.
  assert (3 <= Z.log2 z) by (change 3 with (Z.log2 8); apply Z.log2_le_mono; lia).
  replace (Z.to_nat (Z.log2 z)) with (S (Z.to_nat (Z.log2 z - 1))) by lia.
  rewrite dec_digits_step by lia. f_equal. unfold Z_to_dec.
  apply dec_digits_fuel; try lia.
  - split; [apply Z.div_pos; lia|]. apply Z.div_lt_upper_bound; [lia|].
    rewrite <- Z.pow_succ_r, <- Nat2Z.inj_succ by lia.
    replace (S (S (Z.to_nat (Z.log2 z - 1)))) with (S (Z.to_nat (Z.log2 z))) by lia.
    apply log2_fuel. lia.
  - apply log2_fuel. apply Z.div_pos; lia.
Qed.

Lemma Z_to_dec_ind (P : Z -> Prop) :
  (forall z, 0 <= z < 10 -> P z) -> (forall z, 10 <= z -> P (z / 10) -> P z) ->
  forall z, 0 <= z -> P z.
Proof.
  intros Hb Hs z. induction (Z.lt_wf 0 z) as [z _ IH]. intros Hz.
  destruct (Z.lt_ge_cases z 10); [by apply Hb|]. apply Hs; [done|].
  apply IH; [split|]; first [apply Z.div_lt|apply Z.div_pos]; lia.
Qed.

Lemma Z_to_dec_digits z : 0 <= z -> sforall is_digit (Z_to_dec z) = true.
Proof.
  revert z. apply Z_to_dec_ind; intros z H.
  - rewrite Z_to_dec_small by done. cbn. by rewrite is_digit_digit_char.
  - intros IH. rewrite Z_to_dec_step, sforall_app, IH by done. cbn.
    pose proof (Z.mod_pos_bound z 10). by rewrite is_digit_digit_char by lia.
Qed.

(** Decimal notation reads back. *)
Lemma dec_value_Z_to_dec z : 0 <= z -> dec_value (Z_to_dec z) 0 = z.
Proof.
  revert z. apply Z_to_dec_ind; intros z H.
  - rewrite Z_to_dec_small by done. cbn [dec_value]. rewrite code_digit_char by done. lia.
  - intros IH. pose proof (Z.mod_pos_bound z 10 ltac:(lia)). pose proof (Z.div_mod z 10).
    rewrite Z_to_dec_step, dec_value_app, IH by done. cbn [dec_value].
    rewrite code_digit_char by lia. lia.
Qed.

Lemma Z_to_dec_bounds z : 0 < z -> 10 ^ (slen (Z_to_dec z) - 1) <= z < 10 ^ slen (Z_to_dec z).
Proof.
  intros Hz. assert (0 <= z) as H0 by lia. revert Hz. revert z H0.
  apply (Z_to_dec_ind (fun z => 0 < z -> _)); intros z H.
  - rewrite Z_to_dec_small by done. unfold slen. cbn [String.length]. intros. cbn. lia.
  - intros IH _. rewrite Z_to_dec_step by done. rewrite slen_app.
    change (slen (String (digit_char (z mod 10)) "")) with 1.
    assert (1 <= z / 10) by (apply Z.div_le_lower_bound; lia).
    destruct IH as [I1 I2]; [lia|]. set (n := slen (Z_to_dec (z / 10))) in *.
    assert (1 <= n).
    { destruct (Z.le_gt_cases 1 n) as [|C]; [done|]. pose proof (slen_nonneg (Z_to_dec (z / 10))).
      replace n with 0 in I2 by lia. cbn in I2. lia. }
    replace (n + 1 - 1) with (Z.succ (n - 1)) by lia. rewrite <- Z.add_1_r at 1.
    rewrite !Z.add_1_r, !Z.pow_succ_r by lia.
    pose proof (Z.div_mod z 10). pose proof (Z.mod_pos_bound z 10). lia.
Qed.

Lemma Z_to_dec_len_pos z : 0 <= z -> 1 <= slen (Z_to_dec z).
Proof.
  revert z. apply Z_to_dec_ind; intros z H.
  - by rewrite Z_to_dec_small.
  - intros IH. rewrite Z_to_dec_step, slen_app by done.
    change (slen (String (digit_char (z mod 10)) "")) with 1. lia.
Qed.

Lemma Z_to_dec_mul10 z j : 0 < z -> Z_to_dec (z * 10 ^ Z.of_nat j) = Z_to_dec z +:+ zeros j.
Proof.
  intros Hz. induction j as [|j IH].
  - cbn. by rewrite Z.mul_1_r, sapp_nil_r.
  - rewrite Nat2Z.inj_succ, Z.pow_succ_r by lia.
    replace (z * (10 * 10 ^ Z.of_nat j)) with (z * 10 ^ Z.of_nat j * 10) by ring.
    assert (0 < z * 10 ^ Z.of_nat j) by (apply Z.mul_pos_pos; [|apply Z.pow_pos_nonneg]; lia).
    rewrite Z_to_dec_step, Z.div_mul, Z.mod_mul, IH, sapp_assoc by lia. f_equal.
    clear. induction j as [|j IH]; [done|]. cbn. by rewrite IH.
Qed.

(** ** Printing small integers *)

Lemma neq_num_of_Z a b : small a -> small b -> neq (num_of_Z a) (num_of_Z b) = (a =? b)%Z.
Proof.
  intros Ha Hb. unfold neq, SFeqb. rewrite compare_num_of_Z by done.
  destruct (Z.compare_spec a b); symmetry; [by apply Z.eqb_eq|apply Z.eqb_neq; lia..].
Qed.

Lemma candidates_int n b N k :
  0 < n -> 0 < b -> k <= N ->
  let lo := n / 10 ^ (N - k) in
  (candidates (n * b) b N k = (lo, lo + 1) \/ candidates (n * b) b N k = (lo + 1, lo)) /\
  (k = N -> candidates (n * b) b N k = (n, n + 1)).
Proof.
  intros Hn Hb Hk. unfold candidates. replace (N <? k) with false by lia.
  assert (0 < 10 ^ (N - k)) by (apply Z.pow_pos_nonneg; lia).
  rewrite (Z.mul_comm b), Z.div_mul_cancel_r by lia. split; [case_if; auto|].
  intros ->. rewrite Z.sub_diag. cbn [Z.pow Z.pow_pos]. rewrite Z.mul_1_l, Z.mod_mul, Z.div_1_r by lia.
  by replace (2 * 0 <? b) with true by lia.
Qed.

Lemma shortest_int fuel n b N k :
  0 < n < 2 ^ 52 -> 0 < b -> 10 ^ (N - 1) <= n < 10 ^ N -> 1 <= k <= N ->
  N < Z.of_nat fuel + k ->
  exists s k', shortest fuel (num_of_Z n) (n * b) b N k = (s, k', N) /\
    k' <= N /\ 0 < s /\ s * 10 ^ (N - k') = n.
Proof.
  revert k. induction fuel as [|fuel IH]; intros k Hn Hb HN Hk Hf; [lia|].
  destruct (candidates_int n b N k ltac:(lia) Hb ltac:(lia)) as [Hc HkN].
  set (lo := n / 10 ^ (N - k)) in *.
  assert (0 < 10 ^ (N - k)) as Hp by (apply Z.pow_pos_nonneg; lia).
  assert (1 <= lo) as Hlo.
  { apply Z.div_le_lower_bound; [lia|]. rewrite Z.mul_1_r.
    etrans; [|apply HN]. apply Z.pow_le_mono_r; lia. }
  assert (lo * 10 ^ (N - k) <= n) as Hle by (rewrite Z.mul_comm; apply Z.mul_div_le; lia).
  assert (forall s, (s = lo \/ s = lo + 1) ->
    same_double (num_of_decimal s (N - k)) (num_of_Z n) = (s * 10 ^ (N - k) =? n)) as Htest.
  { intros s Hs. unfold same_double, num_of_decimal.
    replace (s =? 0) with false by lia. replace (0 <=? N - k) with true by lia.
    apply neq_num_of_Z; unfold small; nia. }
  assert (forall s1 s2, candidates (n * b) b N k = (s1, s2) ->
    (s1 = lo \/ s1 = lo + 1) -> (s2 = lo \/ s2 = lo + 1) ->
    (k = N -> s1 = n) -> exists s k', shortest (S fuel) (num_of_Z n) (n * b) b N k = (s, k', N) /\
    k' <= N /\ 0 < s /\ s * 10 ^ (N - k') = n) as Hgo.
  { intros s1 s2 E H1 H2 HN'. cbn [shortest]. rewrite E, !Htest by done.
    destruct (Z.eqb_spec (s1 * 10 ^ (N - k)) n); [exists s1, k; repeat split; lia|].
    destruct (Z.eqb_spec (s2 * 10 ^ (N - k)) n); [exists s2, k; repeat split; lia|].
    apply IH; try lia. destruct (decide (k = N)) as [->|]; [|lia].
    rewrite Z.sub_diag in *. specialize (HN' eq_refl). lia. }
  destruct Hc as [E|E]; eapply Hgo; eauto; intros ->;
    specialize (HkN eq_refl); rewrite HkN in E; congruence.
Qed.

Lemma mag_int n :
  0 < n < 2 ^ 53 ->
  mag_num (int_mantissa n) (Z.log2 n - 52) = n * mag_den (Z.log2 n - 52) /\
  0 < mag_den (Z.log2 n - 52).
Proof.
  intros Hn. pose proof (small_log2 n Hn). pose proof (int_mantissa_pos n Hn).
  unfold mag_num, mag_den, int_mantissa. rewrite Z2Pos.id by done.
  replace (Z.max (Z.log2 n - 52) 0) with 0 by lia.
  replace (Z.max (- (Z.log2 n - 52)) 0) with (52 - Z.log2 n) by lia.
  split; [by rewrite Z.mul_1_r|]. apply Z.pow_pos_nonneg; lia.
Qed.

Lemma dec_exponent_int n b : 0 < n -> 0 < b -> dec_exponent (n * b) b = slen (Z_to_dec n).
Proof.
  intros Hn Hb. unfold dec_exponent. replace (b <=? n * b) with true by nia.
  by rewrite Z.div_mul by lia.
Qed.

Lemma slen_Z_to_dec_le z k : 0 < z < 10 ^ k -> 0 <= k -> slen (Z_to_dec z) <= k.
Proof.
  intros Hz Hk. pose proof (Z_to_dec_bounds z ltac:(lia)) as [H _].
  destruct (Z.le_gt_cases (slen (Z_to_dec z)) k) as [|C]; [done|].
  assert (10 ^ k <= 10 ^ (slen (Z_to_dec z) - 1)) by (apply Z.pow_le_mono_r; lia). lia.
Qed.

Lemma positive_to_string_int n :
  0 < n < 2 ^ 52 -> positive_to_string (int_mantissa n) (Z.log2 n - 52) = Z_to_dec n.
Proof.
  intros Hn. destruct (mag_int n ltac:(lia)) as [Ea Hb]. unfold positive_to_string.
  rewrite Ea, dec_exponent_int by lia. set (b := mag_den _) in *. set (N := slen (Z_to_dec n)).
  pose proof (Z_to_dec_bounds n ltac:(lia)) as HN. fold N in HN.
  pose proof (Z_to_dec_len_pos n ltac:(lia)) as HN1. fold N in HN1.
  assert (N <= 16) as HN16 by (apply slen_Z_to_dec_le; lia).
  replace (S754_finite false (int_mantissa n) (Z.log2 n - 52)) with (num_of_Z n).
  2:{ rewrite num_of_Z_small by (unfold small; lia). unfold int_sign. rewrite Z.abs_eq by lia.
      by replace (n <? 0) with false by lia. }
  destruct (shortest_int 16 n b N 1) as (s & k & -> & Hk & Hs & Es); try lia.
  unfold normalize_digits.
  assert (0 < 10 ^ (N - k)) by (apply Z.pow_pos_nonneg; lia).
  replace (s =? 10 ^ k) with false.
  2:{ symmetry. apply Z.eqb_neq. intros ->. destruct (Z.le_gt_cases 0 k) as [H0|H0].
      - rewrite <- Z.pow_add_r in Es by lia. replace (k + (N - k)) with N in Es by lia. lia.
      - rewrite Z.pow_neg_r in Hs by lia. lia. }
  replace ((k <=? N) && (N <=? 21)) with true by lia.
  rewrite <- Z_to_dec_mul10 by done. rewrite Z2Nat.id by lia. by rewrite Es.
Qed.

(** A natural number below [2 ^ 52] prints as its decimal notation. *)
Lemma num_to_string_int n : 0 <= n < 2 ^ 52 -> num_to_string (num_of_Z n) = Z_to_dec n.
Proof.
  intros Hn. destruct (decide (n = 0)) as [->|Hne]; [done|].
  rewrite num_of_Z_small by (unfold small; lia). rewrite Z.abs_eq by lia.
  unfold int_sign. replace (n <? 0) with false by lia.
  cbn [num_to_string String.append]. apply positive_to_string_int. lia.
Qed.

(** ** Reading integers *)

(** The next character, if any, is no digit and no hexadecimal prefix. *)
Definition ends_number (s : string) : bool :=
  match s with
  | "" => true
  | String c _ => negb (is_digit c || Ascii.eqb c "x" || Ascii.eqb c "X")
  end.

Lemma span_while_app p s t :
  sforall p s = true -> (match t with "" => true | String c _ => negb (p c) end) = true ->
  span_while p (s +:+ t) = (s, t).
Proof.
  intros Hs Ht. induction s as [|c s IH]; cbn.
  - destruct t as [|c t]; [done|]. cbn. by apply negb_true_iff in Ht as ->.
  - cbn in Hs. apply andb_prop in Hs as [-> Hs]. by rewrite IH.
Qed.

Lemma digit_not_space c : is_digit c = true -> is_space c = false.
Proof.
  unfold is_digit, is_space. intros [H1%N.leb_le H2%N.leb_le]%andb_prop.
  apply orb_false_intro; [apply orb_false_intro|]; [apply andb_false_intro2, N.leb_gt|apply N.eqb_neq..]; lia.
Qed.

Lemma digit_not_char c d : is_digit c = true -> is_digit d = false -> Ascii.eqb c d = false.
Proof. intros Hc Hd. apply Ascii.eqb_neq. congruence. Qed.

Lemma prefix_two a b c s :
  String.prefix (String a (String b "")) (String c s) =
  Ascii.eqb a c && match s with "" => false | String d _ => Ascii.eqb b d end.
Proof.
  cbn [String.prefix]. destruct (ascii_dec a c) as [->|H].
  - rewrite Ascii.eqb_refl. apply prefix_single.
  - by apply Ascii.eqb_neq in H as ->.
Qed.

(** [parseInt] reads a decimal number up to the end of its digits. *)
Lemma parseInt_digits ds rest :
  sforall is_digit ds = true -> ds <> "" -> ends_number rest = true ->
  parseInt (ds +:+ rest) = num_of_Z (dec_value ds 0).
Proof.
  intros Hds Hne Hr. destruct ds as [|c ds]; [done|]. cbn in Hds.
  apply andb_prop in Hds as [Hc Hds]. unfold parseInt. cbn [String.append trim_start].
  rewrite digit_not_space by done. cbn [strip_sign]. rewrite !digit_not_char by done.
  rewrite !prefix_two.
  assert (forall d, d = "x"%char \/ d = "X"%char ->
    match ds +:+ rest with "" => false | String e _ => Ascii.eqb d e end = false) as Hx.
  { intros d Hd. destruct ds as [|e ds]; cbn.
    - destruct rest as [|e rest]; [done|]. cbn in Hr. bool_hyps.
      rewrite Ascii.eqb_sym. destruct Hd as [-> | ->]; done.
    - cbn in Hds. apply andb_prop in Hds as [He _]. rewrite Ascii.eqb_sym.
      apply digit_not_char; [done|]. by destruct Hd as [-> | ->]. }
  rewrite !Hx, !andb_false_r by auto. cbn [orb].
  change (String c (ds +:+ rest)) with (String c ds +:+ rest). rewrite span_while_app.
  - done.
  - cbn. by rewrite Hc, Hds.
  - destruct rest; [done|]. cbn in Hr. bool_hyps. by apply negb_true_iff.
Qed.

Lemma Z_to_dec_ne z : 0 <= z -> Z_to_dec z <> "".
Proof. intros H E. pose proof (Z_to_dec_len_pos z H) as L. rewrite E in L. by unfold slen in L. Qed.

Lemma parseInt_dec z rest :
  0 <= z -> ends_number rest = true -> parseInt (Z_to_dec z +:+ rest) = num_of_Z z.
Proof.
  intros Hz Hr. rewrite parseInt_digits by auto using Z_to_dec_digits, Z_to_dec_ne.
  by rewrite dec_value_Z_to_dec.
Qed.

Lemma Z_to_dec_no_char z c : 0 <= z -> is_digit c = false -> has_char c (Z_to_dec z) = false.
Proof. intros Hz Hc. eapply sforall_has_char; [by apply Z_to_dec_digits|done]. Qed.

(** ** Rounding to decimals *)

(** [toFixed] prints a decimal within half a unit of its last digit. *)
Lemma fixed_digits_error m e f :
  0 <= f ->
  2 * Z.abs (fixed_digits m e f * mag_den e - mag_num m e * 10 ^ f) <= mag_den e.
Proof.
  intros Hf. unfold fixed_digits.
  assert (0 < mag_den e) by (apply Z.pow_pos_nonneg; lia).
  set (a := mag_num m e * 10 ^ f). replace (2 * mag_num m e * 10 ^ f) with (2 * a) by (unfold a; ring).
  pose proof (Z.div_mod (2 * a + mag_den e) (2 * mag_den e) ltac:(lia)).
  pose proof (Z.mod_pos_bound (2 * a + mag_den e) (2 * mag_den e) ltac:(lia)). nia.
Qed.

#[export] Hint Resolve is_finite_num_of_Z is_double_num_of_Z Z_to_dec_digits : js.
