(* ===== verification/JsRounding.v ===== *)
(** * Rounding of JavaScript numbers

    How far a quotient of integers is from the double it is rounded to, and
    products by powers of two, which are exact.  Values are compared through
    [scaled], the exact value of a double times [2 ^ 1074]. *)
From Stdlib Require Import SpecFloat.
From S2P Require Import Prelude JsString JsNumber JsNumberFacts.
Local Open Scope Z_scope.

Lemma round_nearest_even_le m l : round_nearest_even m l <= m + 1.
Proof. destruct l as [|[]]; cbn; try lia. destruct (Z.even m); lia. Qed.

Lemma log2_53 t : 2 ^ 52 <= t < 2 ^ 53 -> Z.log2 t = 52.
Proof. intros H. apply Z.log2_unique; lia. Qed.

(** A mantissa of 53 bits in the range of the doubles stays as it is. *)
Lemma shr_fexp_53 t e l : 2 ^ 52 <= t < 2 ^ 53 -> emin <= e ->
  shr_fexp 53 1024 t e l = (shr_record_of_loc t l, e).
Proof.
  intros Ht He. unfold shr_fexp. rewrite Zdigits2_pos, log2_53, fexp_53 by lia.
  replace (Z.max (52 + 1 + e - 53) emin - e) with 0 by lia. done.
Qed.

(** One that was rounded up to 54 bits loses its last one. *)
Lemma shr_fexp_54 e : emin <= e ->
  shr_fexp 53 1024 (2 ^ 53) e loc_Exact = (Build_shr_record (2 ^ 52) false false, e + 1).
Proof.
  intros He. unfold shr_fexp. rewrite Zdigits2_pos by lia. change (Z.log2 (2 ^ 53)) with 53. rewrite fexp_53.
  replace (Z.max (53 + 1 + e - 53) emin - e) with 1 by lia. apply (shr_exact (2 ^ 52) e 1); lia.
Qed.

Lemma double_53 p e : 2 ^ 52 <= Zpos p < 2 ^ 53 -> emin <= e <= 971 -> is_double (S754_finite false p e) = true.
Proof.
  intros Hp He. unfold is_double, valid_binary, bounded, canonical_mantissa.
  rewrite digits2_pos_log2, log2_53, fexp_53 by lia. apply andb_true_intro. rewrite Z.eqb_eq, Z.leb_le. lia.
Qed.

(** The second half of the rounding: a mantissa of 53 bits, or just above. *)
Lemma round_up r e : 2 ^ 52 <= r <= 2 ^ 53 -> emin <= e <= 970 ->
  exists p e', (let '(mrs, e2) := shr_fexp 53 1024 r e loc_Exact in
    match shr_m mrs with
    | Z0 => S754_zero false
    | Zpos m => if e2 <=? 1024 - 53 then S754_finite false m e2 else S754_infinity false
    | Zneg _ => S754_nan
    end) = S754_finite false p e' /\
    is_double (S754_finite false p e') = true /\ Z.log2 (Zpos p) = 52 /\ e <= e' <= e + 1 /\
    Zpos p * 2 ^ (e' + 1074) = r * 2 ^ (e + 1074).
Proof.
  intros Hr He. destruct (decide (r = 2 ^ 53)) as [->|Hne].
  - rewrite shr_fexp_54 by lia. cbn [shr_m]. exists (2 ^ 52)%positive, (e + 1).
    replace (e + 1 <=? 1024 - 53) with true by lia.
    split_and!; [done|apply double_53; lia|done|lia|lia|].
    replace (e + 1 + 1074) with (e + 1074 + 1) by lia. rewrite (Z.pow_add_r 2 (e + 1074) 1) by lia.
    change (2 ^ 53) with (2 ^ 52 * 2). change (Zpos (2 ^ 52)) with (2 ^ 52). ring.
  - rewrite shr_fexp_53 by lia. rewrite shr_record_of_loc_m. destruct r as [|p|p]; [lia| |lia].
    exists p, e. replace (e <=? 1024 - 53) with true by lia.
    split_and!; [done|apply double_53; lia|apply log2_53; lia|lia|lia|done].
Qed.

(** Rounding a positive mantissa of at least 53 bits: the result lies between
    the two neighbours with 53 bits. *)
Lemma round_aux_bounds q e l :
  2 ^ 52 <= q -> emin <= e -> Z.log2 q + e <= 1021 ->
  let j := Z.log2 q - 52 in
  exists p e', binary_round_aux 53 1024 false q e l = S754_finite false p e' /\
    is_double (S754_finite false p e') = true /\ Z.log2 (Zpos p) = 52 /\
    0 <= j /\ e + j <= e' <= e + j + 1 /\ 2 ^ 52 <= q / 2 ^ j /\
    q / 2 ^ j * 2 ^ (e + j + 1074) <= Zpos p * 2 ^ (e' + 1074) <= (q / 2 ^ j + 1) * 2 ^ (e + j + 1074).
Proof.
  intros Hq He Hl j. assert (52 <= Z.log2 q) as Hq2 by (apply Z.log2_le_pow2; lia).
  pose proof (log2_bounds q ltac:(lia)) as Hb. unfold binary_round_aux, shr_fexp at 1.
  rewrite Zdigits2_pos, fexp_53 by lia.
  replace (Z.max (Z.log2 q + 1 + e - 53) emin - e) with j by lia.
  destruct (shr (shr_record_of_loc q l) e j) as [mrs e1] eqn:E.
  assert (shr_m mrs = q / 2 ^ j) as Em.
  { rewrite <- (shr_record_of_loc_m q l) at 1. replace j with (Z.max j 0) at 1 by lia.
    rewrite <- (shr_m_div _ e), E; [done|]. rewrite shr_record_of_loc_m. lia. }
  assert (e1 = e + j) as -> by (rewrite <- (Z.max_l j 0), <- (shr_exp (shr_record_of_loc q l)), E by lia; done).
  set (t := q / 2 ^ j) in *. assert (2 ^ 52 <= t < 2 ^ 53) as Ht.
  { unfold t. replace (Z.log2 q) with (52 + j) in Hb by lia. replace (52 + j + 1) with (53 + j) in Hb by lia.
    rewrite !Z.pow_add_r in Hb by lia. assert (0 < 2 ^ j) by (apply Z.pow_pos_nonneg; lia).
    split; [apply Z.div_le_lower_bound; lia|apply Z.div_lt_upper_bound; lia]. }
  rewrite Em. set (r := round_nearest_even t (loc_of_shr_record mrs)).
  assert (t <= r <= t + 1) as Hr by (split; [apply round_nearest_even_ge|apply round_nearest_even_le]).
  destruct (round_up r (e + j)) as (p & e' & -> & D & Hp & He' & Hv); [lia|lia|].
  exists p, e'. rewrite Hv. assert (0 < 2 ^ (e + j + 1074)) by (apply Z.pow_pos_nonneg; lia).
  split_and!; try done; try lia; apply Z.mul_le_mono_nonneg_r; lia.
Qed.

(** Between the neighbours [T] and [T + 1] in units of [U], the error is at most
    the [K]th part of the value. *)
Lemma neighbours_error K T U b P X : 0 <= K <= T -> 0 < U -> 0 < b ->
  T * U <= P <= (T + 1) * U -> T * U * b <= X <= (T + 1) * U * b -> K * Z.abs (P * b - X) <= X.
Proof.
  intros HK HU Hb HP HX. assert (T * U * b <= P * b <= (T + 1) * U * b) by nia.
  assert (Z.abs (P * b - X) <= U * b) by lia. transitivity (K * (U * b)); [apply Z.mul_le_mono_nonneg_l; lia|].
  transitivity (T * (U * b)); [apply Z.mul_le_mono_nonneg_r; lia|lia].
Qed.

(** A quotient [q] cut by [J], in units of [V]. *)
Lemma cut_quotient T q J V b A r : 0 < J -> 0 < V -> 0 < b -> T = q / J -> A = b * q + r -> 0 <= r < b ->
  T * (J * V) * b <= A * V <= (T + 1) * (J * V) * b.
Proof.
  intros HJ HV Hb -> -> Hr. pose proof (Z.div_mod q J ltac:(lia)). pose proof (Z.mod_pos_bound q J ltac:(lia)).
  set (T := q / J) in *. assert (T * J <= q) by lia. assert (q + 1 <= (T + 1) * J) by lia.
  replace (T * (J * V) * b) with (T * J * b * V) by ring. replace ((T + 1) * (J * V) * b) with ((T + 1) * J * b * V) by ring.
  assert (T * J * b <= q * b) by (apply Z.mul_le_mono_nonneg_r; lia).
  assert ((q + 1) * b <= (T + 1) * J * b) by (apply Z.mul_le_mono_nonneg_r; lia).
  split; apply Z.mul_le_mono_nonneg_r; lia.
Qed.

(** The quotient of two positive integers is rounded to a double whose error is
    at most the [2 ^ 52]th part of it. *)
Lemma num_of_ratio_accuracy a b : 0 < a < 2 ^ 400 -> 0 < b < 2 ^ 400 ->
  exists p e, num_of_ratio a b = S754_finite false p e /\
    is_double (S754_finite false p e) = true /\ Z.log2 (Zpos p) = 52 /\ - Z.log2 b - 60 <= e <= Z.log2 a /\
    2 ^ 52 * Z.abs (Zpos p * 2 ^ (e + 1074) * b - a * 2 ^ 1074) <= a * 2 ^ 1074.
Proof.
  intros Ha Hb. pose proof (log2_bounds a ltac:(lia)) as La. pose proof (log2_bounds b ltac:(lia)) as Lb.
  assert (0 <= Z.log2 a < 400) by (split; [apply Z.log2_nonneg|apply Z.log2_lt_pow2; lia]).
  assert (0 <= Z.log2 b < 400) by (split; [apply Z.log2_nonneg|apply Z.log2_lt_pow2; lia]).
  unfold num_of_ratio, SFdiv_core_binary. rewrite !Zdigits2_pos, fexp_53 by lia.
  set (e0 := Z.min _ (0 - 0)). set (s := - e0). replace (0 - 0 - e0) with s by lia.
  replace (match s with Z.pos _ => Z.shiftl a s | 0 => a | Z.neg _ => 0 end) with (a * 2 ^ s).
  2: { destruct s as [|k|k] eqn:Es; [by rewrite Z.mul_1_r|by rewrite Z.shiftl_mul_pow2|lia]. }
  pose proof (Z_div_mod (a * 2 ^ s) b ltac:(lia)) as D. destruct (Z.div_eucl (a * 2 ^ s) b) as [q r].
  destruct D as [D Hr]. assert (0 < 2 ^ s) by (apply Z.pow_pos_nonneg; lia).
  assert (2 ^ 52 <= q) as Hq.
  { assert (2 ^ 52 * 2 ^ (Z.log2 b + 1) <= 2 ^ Z.log2 a * 2 ^ s) as G.
    { rewrite <- !Z.pow_add_r by lia. apply Z.pow_le_mono_r; lia. }
    assert (2 ^ Z.log2 a * 2 ^ s <= a * 2 ^ s) by (apply Z.mul_le_mono_nonneg_r; lia).
    assert (2 ^ 52 * b <= 2 ^ 52 * 2 ^ (Z.log2 b + 1)) by (apply Z.mul_le_mono_nonneg_l; lia).
    apply Z.lt_pred_le, (Z.mul_lt_mono_pos_r b); lia. }
  assert (Z.log2 q <= Z.log2 a + s) as Lq.
  { rewrite <- log2_shifted by lia. apply Z.log2_le_mono. rewrite D.
    transitivity (1 * q); [lia|]. transitivity (b * q); [apply Z.mul_le_mono_nonneg_r; lia|lia]. }
  destruct (round_aux_bounds q e0 (new_location b r)) as (p & e & -> & DD & Lp & Hj & He & HT & HP); [lia..|].
  set (j := Z.log2 q - 52) in *. exists p, e. split_and!; [done|done|done|lia|lia|].
  apply (neighbours_error _ (q / 2 ^ j) (2 ^ (e0 + j + 1074))); [lia|apply Z.pow_pos_nonneg; lia|lia|done|].
  replace (2 ^ (e0 + j + 1074)) with (2 ^ j * 2 ^ (e0 + 1074)) by (rewrite <- Z.pow_add_r by lia; f_equal; lia).
  replace (a * 2 ^ 1074) with (a * 2 ^ s * 2 ^ (e0 + 1074))
    by (rewrite <- Z.mul_assoc, <- Z.pow_add_r by lia; do 2 f_equal; lia).
  apply (cut_quotient _ q _ _ _ _ r); try done; try lia; apply Z.pow_pos_nonneg; lia.
Qed.

(** A product by a power of two changes the exponent only. *)
Lemma nmul_pow2 p e k : Z.log2 (Zpos p) = 52 -> 0 <= k <= 52 -> emin <= e + k <= 971 ->
  (S754_finite false p e * num_of_Z (2 ^ k))%js = S754_finite false p (e + k).
Proof.
  intros Hp Hk He. assert (0 < 2 ^ k < 2 ^ 53) as Hs.
  { split; [apply Z.pow_pos_nonneg; lia|apply Z.pow_lt_mono_r; lia]. }
  assert (Z.log2 (2 ^ k) = k) as Lk by (apply Z.log2_pow2; lia).
  rewrite num_of_Z_small by (unfold small; lia). rewrite Z.abs_eq, Lk by lia.
  replace (int_sign (2 ^ k)) with false by (symmetry; apply Z.ltb_ge; lia).
  unfold nmul, SFmul, int_mantissa. rewrite Lk, <- Z.pow_add_r by lia.
  replace (k + (52 - k)) with 52 by lia. change (Z.to_pos (2 ^ 52)) with (2 ^ 52)%positive.
  unfold binary_round_aux, shr_fexp. rewrite Pos2Z.inj_mul. change (Zpos (2 ^ 52)) with (2 ^ 52).
  rewrite Zdigits2_pos, log2_shifted, Hp, fexp_53 by lia.
  replace (Z.max (52 + 52 + 1 + (e + (k - 52)) - 53) emin - (e + (k - 52))) with 52 by lia.
  change (shr_record_of_loc (Zpos p * 2 ^ 52) loc_Exact) with (Build_shr_record (Zpos p * 2 ^ 52) false false).
  rewrite shr_exact by lia. cbn [shr_m loc_of_shr_record round_nearest_even].
  rewrite Zdigits2_pos, Hp, fexp_53 by lia.
  replace (Z.max (52 + 1 + (e + (k - 52) + 52) - 53) emin - (e + (k - 52) + 52)) with 0 by lia.
  cbn [shr shr_record_of_loc shr_m]. replace (e + (k - 52) + 52) with (e + k) by lia.
  by replace (e + k <=? 1024 - 53) with true by lia.
Qed.

(** The double nearest to a decimal. *)
Lemma num_of_decimal_accuracy n f : 0 < n < 2 ^ 53 -> 0 <= f <= 100 ->
  exists p e, num_of_decimal n (- f) = S754_finite false p e /\
    is_double (S754_finite false p e) = true /\ Z.log2 (Zpos p) = 52 /\ - (4 * f) - 60 <= e <= 60 /\
    2 ^ 52 * Z.abs (Zpos p * 2 ^ (e + 1074) * 10 ^ f - n * 2 ^ 1074) <= n * 2 ^ 1074.
Proof.
  intros Hn Hf. unfold num_of_decimal. replace (n =? 0) with false by lia.
  assert (0 < 2 ^ 1074) as H0 by (apply Z.pow_pos_nonneg; lia). set (K := 2 ^ 1074) in *.
  destruct (Z.leb_spec 0 (- f)) as [Hf0|Hf0].
  - assert (f = 0) as -> by lia. change (10 ^ (- 0)) with 1. change (10 ^ 0) with 1. rewrite Z.mul_1_r.
    pose proof (is_double_num_of_Z n ltac:(unfold small; lia)) as D. revert D.
    pose proof (scaled_num_of_Z n ltac:(unfold small; lia)) as S. revert S.
    rewrite num_of_Z_small by (unfold small; lia). replace (int_sign n) with false by (symmetry; apply Z.ltb_ge; lia).
    rewrite Z.abs_eq by lia. pose proof (small_log2 n Hn) as Hl. pose proof (int_mantissa_pos n Hn). intros S D.
    exists (int_mantissa n), (Z.log2 n - 52). split_and!; [done|done| |lia|lia|].
    + unfold int_mantissa. rewrite Z2Pos.id, log2_shifted by lia. lia.
    + cbn [scaled signed] in S. rewrite S, Z.mul_1_r. fold K. replace (n * K - n * K) with 0 by lia. nia.
  - rewrite Z.opp_involutive. assert (0 < 10 ^ f) as HT by (apply Z.pow_pos_nonneg; lia).
    assert (10 ^ f <= 2 ^ (4 * f)) as HT4 by (rewrite Z.pow_mul_r by lia; apply Z.pow_le_mono_l; lia).
    assert (Z.log2 (10 ^ f) <= 4 * f) by (rewrite <- (Z.log2_pow2 (4 * f)) by lia; by apply Z.log2_le_mono).
    assert (Z.log2 n < 53) by (apply Z.log2_lt_pow2; lia).
    destruct (num_of_ratio_accuracy n (10 ^ f)) as (p & e & E & D & Hp & He & HA).
    + split; [lia|]. transitivity (2 ^ 53); [lia|done].
    + split; [done|]. apply Z.le_lt_trans with (10 ^ 100); [apply Z.pow_le_mono_r; lia|done].
    + exists p, e. split_and!; [done|done|done|lia|lia|done].
Qed.

(** ** Products and quotients by integers *)

(** A positive double [x] of 53 bits with [|x - N / D| <= (j / 2 ^ 52) (N / D)],
    its exponent at most [B]. *)
Record approx (B j N D : Z) (x : num) : Prop := {
  approx_form : exists p e, x = S754_finite false p e /\ Z.log2 (Zpos p) = 52 /\ - B <= e <= B;
  approx_error : 2 ^ 52 * Z.abs (scaled x * D - N * 2 ^ 1074) <= j * (N * 2 ^ 1074)
}.

(** The integer [d] as a double. *)
Lemma int_double d : 0 < d < 2 ^ 53 -> exists p e, num_of_Z d = S754_finite false p e /\
  Z.log2 (Zpos p) = 52 /\ (-52 <= e <= 0 /\ e = Z.log2 d - 52) /\ Zpos p = d * 2 ^ (- e).
Proof.
  intros Hd. rewrite num_of_Z_small by (unfold small; lia).
  replace (int_sign d) with false by (symmetry; apply Z.ltb_ge; lia). rewrite Z.abs_eq by lia.
  pose proof (small_log2 d Hd) as Hl. pose proof (int_mantissa_pos d Hd).
  exists (int_mantissa d), (Z.log2 d - 52). unfold int_mantissa. rewrite Z2Pos.id by lia.
  split_and!; [done|rewrite log2_shifted; lia|lia|lia|lia|]. do 2 f_equal. lia.
Qed.

(** One more rounding adds little to the error. *)
Lemma error_step K S' A j E : 0 <= j <= 2 ^ 20 -> 0 <= A -> 0 <= S' ->
  2 ^ 52 * Z.abs (S' - A) <= j * A -> 2 ^ 52 * Z.abs (E - S') <= S' -> K = j + 2 -> 2 ^ 52 * Z.abs (E - A) <= K * A.
Proof.
  intros Hj HA HS H1 H2 ->. assert (j * A <= 2 ^ 20 * A) by (apply Z.mul_le_mono_nonneg_r; lia).
  assert (2 * S' <= 4 * A) by lia. assert ((j + 2) * A = j * A + 2 * A) by ring. lia.
Qed.

Lemma nmul_int p e d : Z.log2 (Zpos p) = 52 -> -900 <= e <= 900 -> 0 < d < 2 ^ 53 ->
  exists p' e', (S754_finite false p e * num_of_Z d)%js = S754_finite false p' e' /\
    Z.log2 (Zpos p') = 52 /\ e <= e' <= e + Z.log2 d + 2 /\
    2 ^ 52 * Z.abs (Zpos p' * 2 ^ (e' + 1074) - Zpos p * 2 ^ (e + 1074) * d) <= Zpos p * 2 ^ (e + 1074) * d.
Proof.
  intros Hp He Hd. destruct (int_double d Hd) as (pd & ed & -> & Hpd & Hed & Ed).
  pose proof (log2_bounds (Zpos p) ltac:(lia)) as Bp. rewrite Hp in Bp.
  pose proof (log2_bounds (Zpos pd) ltac:(lia)) as Bd. rewrite Hpd in Bd.
  unfold nmul, SFmul. rewrite Pos2Z.inj_mul. cbn [xorb]. set (q := Zpos p * Zpos pd).
  assert (2 ^ 104 <= q < 2 ^ 106) as Hq.
  { unfold q. split; [change (2 ^ 104) with (2 ^ 52 * 2 ^ 52)|change (2 ^ 106) with (2 ^ 53 * 2 ^ 53)];
      [apply Z.mul_le_mono_nonneg; lia|apply Z.mul_lt_mono_nonneg; lia]. }
  assert (104 <= Z.log2 q < 106) by (split; [apply Z.log2_le_pow2; lia|apply Z.log2_lt_pow2; lia]).
  destruct (round_aux_bounds q (e + ed) loc_Exact) as (p' & e' & -> & _ & Lp & Hj & He' & HT & HP); [lia..|].
  set (j := Z.log2 q - 52) in *. exists p', e'. split_and!; [done|done|lia|lia|].
  replace (Zpos p * 2 ^ (e + 1074) * d) with (q * 2 ^ (e + ed + 1074)).
  2: { unfold q. rewrite Ed. replace (e + 1074) with (- ed + (e + ed + 1074)) by lia. rewrite (Z.pow_add_r 2 (- ed)) by lia. ring. }
  rewrite <- (Z.mul_1_r (Zpos p' * _)).
  apply (neighbours_error _ (q / 2 ^ j) (2 ^ (e + ed + j + 1074))); [lia|apply Z.pow_pos_nonneg; lia|lia|done|].
  replace (2 ^ (e + ed + j + 1074)) with (2 ^ j * 2 ^ (e + ed + 1074)) by (rewrite <- Z.pow_add_r by lia; f_equal; lia).
  apply (cut_quotient _ q _ _ _ _ 0); try done; try lia; apply Z.pow_pos_nonneg; lia.
Qed.

(** A quotient of two doubles of 53 bits. *)
Lemma ndiv_normal p e pd ed : Z.log2 (Zpos p) = 52 -> Z.log2 (Zpos pd) = 52 -> emin <= ed -> -1000 <= e - ed <= 960 ->
  exists p' e', (S754_finite false p e / S754_finite false pd ed)%js = S754_finite false p' e' /\
    Z.log2 (Zpos p') = 52 /\ e - ed - 53 <= e' <= e - ed - 50 /\
    (emin <= e -> 2 ^ 52 * Z.abs (Zpos p' * 2 ^ (e' + 1074) * (Zpos pd * 2 ^ (ed + 1074)) - Zpos p * 2 ^ (e + 1074) * 2 ^ 1074)
      <= Zpos p * 2 ^ (e + 1074) * 2 ^ 1074).
Proof.
  intros Hp Hpd Hed He.
  pose proof (log2_bounds (Zpos p) ltac:(lia)) as Bp. rewrite Hp in Bp.
  pose proof (log2_bounds (Zpos pd) ltac:(lia)) as Bd. rewrite Hpd in Bd.
  unfold ndiv, SFdiv, SFdiv_core_binary. rewrite !Zdigits2_pos, Hp, Hpd, fexp_53 by lia. cbn [xorb].
  replace (Z.min _ (e - ed)) with (e - ed - 53) by lia. replace (e - ed - (e - ed - 53)) with 53 by lia. cbn match.
  rewrite Z.shiftl_mul_pow2 by lia. pose proof (Z_div_mod (Zpos p * 2 ^ 53) (Zpos pd) ltac:(lia)) as DM.
  destruct (Z.div_eucl _ _) as [q r]. destruct DM as [DM Hr].
  assert (2 ^ 52 <= q < 2 ^ 54) as Hq.
  { split; [apply Z.lt_pred_le|]; apply (Z.mul_lt_mono_pos_r (Zpos pd)); lia. }
  assert (52 <= Z.log2 q < 54) by (split; [apply Z.log2_le_pow2; lia|apply Z.log2_lt_pow2; lia]).
  destruct (round_aux_bounds q (e - ed - 53) (new_location (Zpos pd) r)) as (p' & e' & -> & _ & Lp & Hj & He' & HT & HP); [lia..|].
  set (j := Z.log2 q - 52) in *. exists p', e'. split_and!; [done|done|lia|lia|]. intros He0.
  assert (2 ^ 52 * Z.abs (Zpos p' * 2 ^ (e' + 1074) * Zpos pd - Zpos p * 2 ^ 53 * 2 ^ (e - ed - 53 + 1074))
    <= Zpos p * 2 ^ 53 * 2 ^ (e - ed - 53 + 1074)) as HN.
  { apply (neighbours_error _ (q / 2 ^ j) (2 ^ (e - ed - 53 + j + 1074))); [lia|apply Z.pow_pos_nonneg; lia|lia|done|].
    replace (2 ^ (e - ed - 53 + j + 1074)) with (2 ^ j * 2 ^ (e - ed - 53 + 1074))
      by (rewrite <- Z.pow_add_r by lia; f_equal; lia).
    apply (cut_quotient _ q _ _ _ _ r); try done; try lia; apply Z.pow_pos_nonneg; lia. }
  replace (Zpos p * 2 ^ (e + 1074) * 2 ^ 1074) with (Zpos p * 2 ^ 53 * 2 ^ (e - ed - 53 + 1074) * 2 ^ (ed + 1074))
    by (rewrite <- !Z.mul_assoc, <- !Z.pow_add_r by lia; do 2 f_equal; lia).
  assert (0 < 2 ^ (ed + 1074)) as H0 by (apply Z.pow_pos_nonneg; lia). revert HN H0.
  generalize (2 ^ (ed + 1074)), (Zpos p' * 2 ^ (e' + 1074)), (Zpos p * 2 ^ 53 * 2 ^ (e - ed - 53 + 1074)), (2 ^ 52).
  intros U P Q K HN H0. replace (P * (Zpos pd * U) - Q * U) with ((P * Zpos pd - Q) * U) by ring.
  rewrite Z.abs_mul, (Z.abs_eq U), Z.mul_assoc by lia. apply Z.mul_le_mono_nonneg_r; [lia|done].
Qed.

Lemma ndiv_int p e d : Z.log2 (Zpos p) = 52 -> -900 <= e <= 900 -> 0 < d < 2 ^ 53 ->
  exists p' e', (S754_finite false p e / num_of_Z d)%js = S754_finite false p' e' /\
    Z.log2 (Zpos p') = 52 /\ e - Z.log2 d - 1 <= e' <= e + 2 /\
    2 ^ 52 * Z.abs (Zpos p' * 2 ^ (e' + 1074) * d - Zpos p * 2 ^ (e + 1074)) <= Zpos p * 2 ^ (e + 1074).
Proof.
  intros Hp He Hd. pose proof (scaled_num_of_Z d ltac:(unfold small; lia)) as HS. revert HS.
  destruct (int_double d Hd) as (pd & ed & -> & Hpd & Hed & _). cbn [scaled signed]. intros HS.
  destruct (ndiv_normal p e pd ed Hp Hpd ltac:(lia) ltac:(lia)) as (p' & e' & -> & Hp' & He' & HA).
  exists p', e'. split_and!; [done|done|lia|lia|]. specialize (HA ltac:(lia)). rewrite HS in HA.
  assert (0 < 2 ^ 1074) as HK by (apply Z.pow_pos_nonneg; lia). revert HA HK.
  generalize (Zpos p' * 2 ^ (e' + 1074)), (Zpos p * 2 ^ (e + 1074)), (2 ^ 1074), (2 ^ 52). intros P Q K C HA HK.
  apply (Z.mul_le_mono_pos_r _ _ K); [done|]. etrans; [|exact HA]. apply Z.eq_le_incl.
  rewrite <- Z.mul_assoc. f_equal. rewrite <- (Z.abs_eq K) at 1 by lia. rewrite <- Z.abs_mul. f_equal. ring.
Qed.

(** Products and quotients of an approximation. *)
Lemma approx_mul B j N D x d : approx B j N D x -> 0 <= j <= 2 ^ 20 -> B <= 840 -> 0 < d < 2 ^ 20 -> 0 <= N -> 0 <= D ->
  approx (B + 22) (j + 2) (N * d) D (x * num_of_Z d)%js.
Proof.
  intros [(p & e & -> & Hp & He) HE] Hj HB Hd HN HD. assert (0 <= Z.log2 d < 20) by (split; [apply Z.log2_nonneg|apply Z.log2_lt_pow2; lia]).
  destruct (nmul_int p e d Hp ltac:(lia) ltac:(lia)) as (p' & e' & -> & Hp' & He' & HA).
  split; [exists p', e'; split_and!; [done|done|lia|lia]|]. cbn [scaled signed] in *. pose proof (scaled_pos p e ltac:(lia)) as HP.
  assert (0 < 2 ^ 1074) as HK by (apply Z.pow_pos_nonneg; lia). revert HA HE HP HK.
  generalize (Zpos p' * 2 ^ (e' + 1074)), (Zpos p * 2 ^ (e + 1074)), (2 ^ 1074). intros E P K HA HE HP HK.
  apply (error_step _ (P * d * D) _ j); try lia; try nia.
Qed.

Lemma approx_div B j N D x d : approx B j N D x -> 0 <= j <= 2 ^ 20 -> B <= 840 -> 0 < d < 2 ^ 20 -> 0 <= N -> 0 <= D ->
  approx (B + 22) (j + 2) N (D * d) (x / num_of_Z d)%js.
Proof.
  intros [(p & e & -> & Hp & He) HE] Hj HB Hd HN HD. assert (0 <= Z.log2 d < 20) by (split; [apply Z.log2_nonneg|apply Z.log2_lt_pow2; lia]).
  destruct (ndiv_int p e d Hp ltac:(lia) ltac:(lia)) as (p' & e' & -> & Hp' & He' & HA).
  split; [exists p', e'; split_and!; [done|done|lia|lia]|]. cbn [scaled signed] in *. pose proof (scaled_pos p e ltac:(lia)) as HP.
  assert (0 < 2 ^ 1074) as HK by (apply Z.pow_pos_nonneg; lia). revert HA HE HP HK.
  generalize (Zpos p' * 2 ^ (e' + 1074)), (Zpos p * 2 ^ (e + 1074)), (2 ^ 1074). intros E P K HA HE HP HK.
  apply (error_step _ (P * D) _ j); try lia; try nia.
Qed.

Lemma approx_decimal n f : 0 < n < 2 ^ 53 -> 0 <= f <= 100 -> approx (4 * f + 60) 1 n (10 ^ f) (num_of_decimal n (- f)).
Proof.
  intros Hn Hf. destruct (num_of_decimal_accuracy n f Hn Hf) as (p & e & -> & _ & Hp & He & HA).
  split; [exists p, e; split_and!; [done|done|lia|lia]|]. cbn [scaled signed]. by rewrite Z.mul_1_l.
Qed.

Lemma approx_double B j N D x : approx B j N D x -> B <= 900 -> is_double x = true /\ is_finite x = true.
Proof.
  intros [(p & e & -> & Hp & He) _] HB. split; [|done]. apply double_53; [|lia].
  pose proof (log2_bounds (Zpos p) ltac:(lia)) as HL. by rewrite Hp in HL.
Qed.

(** ** Signs *)

(** What [x >= 0] says. *)
Lemma nge_0 x : nge x 0 = match x with
  | S754_zero _ | S754_infinity false | S754_finite false _ _ => true | _ => false end.
Proof. by destruct x as [[]|[]| |[] m e]. Qed.

Lemma nlt_0 x : nlt 0 x = match x with S754_infinity false | S754_finite false _ _ => true | _ => false end.
Proof. by destruct x as [[]|[]| |[] m e]. Qed.

(** A finite divisor or factor above zero. *)
Definition positive (x : num) : bool := nlt 0 x && is_finite x.

Lemma positive_form x : positive x = true -> exists p e, x = S754_finite false p e.
Proof. unfold positive. rewrite nlt_0. destruct x as [[]|[]| |[] m e]; cbn; try done. by exists m, e. Qed.

Lemma round_aux_nonneg m e l : 0 <= m -> nge (binary_round_aux 53 1024 false m e l) 0 = true.
Proof.
  assert (forall m e l, 0 <= m -> 0 <= shr_m (fst (shr_fexp 53 1024 m e l))) as HS.
  { clear. intros m e l Hm. unfold shr_fexp. rewrite shr_m_div by (by rewrite shr_record_of_loc_m).
    rewrite shr_record_of_loc_m. apply Z.div_pos; [done|]. apply Z.pow_pos_nonneg; lia. }
  intros Hm. unfold binary_round_aux. pose proof (HS m e l Hm) as H1. destruct (shr_fexp 53 1024 m e l) as [mrs e1].
  cbn in H1. pose proof (round_nearest_even_ge (shr_m mrs) (loc_of_shr_record mrs)) as H2.
  specialize (HS (round_nearest_even (shr_m mrs) (loc_of_shr_record mrs)) e1 loc_Exact ltac:(lia)).
  destruct (shr_fexp 53 1024 _ e1 loc_Exact) as [mrs2 e2]. cbn in HS. rewrite nge_0.
  destruct (shr_m mrs2); [done|by case_if|lia].
Qed.

Lemma nonneg_mul x y : nge x 0 = true -> positive y = true -> nge (x * y)%js 0 = true.
Proof.
  intros Hx (p & e & ->)%positive_form. rewrite nge_0 in Hx. destruct x as [[]|[]| |[] m f]; try done.
  unfold nmul, SFmul. cbn [xorb]. apply round_aux_nonneg. lia.
Qed.

Lemma nonneg_div x y : nge x 0 = true -> positive y = true -> nge (x / y)%js 0 = true.
Proof.
  intros Hx (p & e & ->)%positive_form. rewrite nge_0 in Hx. destruct x as [[]|[]| |[] m f]; try done.
  unfold ndiv, SFdiv, SFdiv_core_binary. cbn [xorb]. set (s := f - e - _).
  assert (0 <= match s with Z.pos _ => Z.shiftl (Z.pos m) s | 0 => Z.pos m | Z.neg _ => 0 end) as Hm.
  { destruct s; [lia|apply Z.shiftl_nonneg; lia|lia]. }
  pose proof (Z_div_mod (match s with Z.pos _ => Z.shiftl (Z.pos m) s | 0 => Z.pos m | Z.neg _ => 0 end) (Zpos p) ltac:(lia)) as D.
  destruct (Z.div_eucl _ _) as [q r]. apply round_aux_nonneg. nia.
Qed.

Lemma round_nonneg m e : nge (binary_round 53 1024 false m e) 0 = true.
Proof. unfold binary_round. destruct (shl_align m e _) as [m' e']. apply round_aux_nonneg. lia. Qed.

Lemma nonneg_add x y : nge x 0 = true -> nge y 0 = true -> nge (x + y)%js 0 = true.
Proof.
  rewrite !nge_0. destruct x as [[]|[]| |[] m e], y as [[]|[]| |[] m' e']; try done. intros _ _.
  unfold nadd, SFadd. cbn [cond_Zopp]. rewrite <- Pos2Z.inj_add. cbn [binary_normalize]. rewrite <- nge_0. apply round_nonneg.
Qed.

Lemma nonneg_sub x y : is_double x = true -> is_double y = true -> is_finite x = true -> is_finite y = true ->
  nle y x = true -> nge (x - y)%js 0 = true.
Proof.
  intros Dx Dy Fx Fy H. unfold nle, SFleb in H. rewrite SFcompare_scaled in H by done.
  pose proof (nsub_compare x y Dx Dy Fx Fy) as HC. revert HC. rewrite nge_0.
  assert (scaled y <= scaled x) as HS by (destruct (Z.compare_spec (scaled y) (scaled x)); [lia|lia|done]).
  destruct (x - y)%js as [[]|[]| |[] m e]; try done; intros HC; exfalso.
  all: assert ((scaled x ?= scaled y) = Lt) as E by (injection HC; done).
  all: apply (proj2 (Z.compare_ge_iff _ _) HS E).
Qed.

(** ** Sums and square roots *)

(** Rounding an integer multiple of a power of two. *)
Lemma binary_round_accuracy p e : -900 <= e <= 900 -> -900 <= Z.log2 (Zpos p) + e <= 900 ->
  exists p' e', binary_round 53 1024 false p e = S754_finite false p' e' /\
    is_double (S754_finite false p' e') = true /\ Z.log2 (Zpos p') = 52 /\
    Z.log2 (Zpos p) + e - 52 <= e' <= Z.log2 (Zpos p) + e - 51 /\
    2 ^ 52 * Z.abs (Zpos p' * 2 ^ (e' + 1074) - Zpos p * 2 ^ (e + 1074)) <= Zpos p * 2 ^ (e + 1074).
Proof.
  intros He Hl. unfold binary_round. rewrite digits2_pos_log2, fexp_53. set (t := Z.max (Z.log2 (Zpos p) + 1 + e - 53) emin).
  pose proof (shl_align_spec p e t) as HS. destruct (shl_align p e t) as [p1 e1]. destruct HS as [-> Hp1].
  pose proof (log2_bounds (Zpos p) ltac:(lia)) as HB. set (k := e - Z.min e t) in *.
  assert (Z.log2 (Zpos p1) = Z.log2 (Zpos p) + k) as L1 by (rewrite Hp1; apply log2_shifted; lia).
  assert (2 ^ 52 <= Zpos p1) as Hq.
  { pose proof (log2_bounds (Zpos p1) ltac:(lia)) as [H _]. etrans; [|exact H]. apply Z.pow_le_mono_r; lia. }
  destruct (round_aux_bounds (Zpos p1) (Z.min e t) loc_Exact) as (p' & e' & -> & D & Lp & Hj & He' & HT & HP); [lia..|].
  exists p', e'. split_and!; [done|done|done|lia|lia|]. set (j := Z.log2 (Zpos p1) - 52) in *.
  replace (Zpos p * 2 ^ (e + 1074)) with (Zpos p1 * 2 ^ (Z.min e t + 1074)).
  2: { rewrite Hp1, <- Z.mul_assoc, <- Z.pow_add_r by lia. do 2 f_equal. lia. }
  rewrite <- (Z.mul_1_r (Zpos p' * _)).
  apply (neighbours_error _ (Zpos p1 / 2 ^ j) (2 ^ (Z.min e t + j + 1074))); [lia|apply Z.pow_pos_nonneg; lia|lia|done|].
  replace (2 ^ (Z.min e t + j + 1074)) with (2 ^ j * 2 ^ (Z.min e t + 1074)) by (rewrite <- Z.pow_add_r by lia; f_equal; lia).
  apply (cut_quotient _ (Zpos p1) _ _ _ _ 0); try done; try lia; apply Z.pow_pos_nonneg; lia.
Qed.

(** The square root of a positive integer is a double of 53 bits. *)
Lemma nsqrt_int n : 0 < n < 2 ^ 53 -> exists p e, nsqrt (num_of_Z n) = S754_finite false p e /\
  is_double (S754_finite false p e) = true /\ Z.log2 (Zpos p) = 52 /\ -60 <= e <= 0.
Proof.
  intros Hn. destruct (int_double n Hn) as (p & e & -> & Hp & He & _). unfold nsqrt, SFsqrt, SFsqrt_core_binary.
  rewrite Zdigits2_pos, Hp, fexp_53 by lia. rewrite !Z.div2_div. set (e' := Z.min _ (e / 2)).
  assert (52 <= e - 2 * e' <= 53 /\ -60 <= e' <= -20) as [Hs He'].
  { unfold e'. pose proof (Z.div_mod (52 + 1 + e + 1) 2 ltac:(lia)). pose proof (Z.mod_pos_bound (52 + 1 + e + 1) 2 ltac:(lia)).
    pose proof (Z.div_mod e 2 ltac:(lia)). pose proof (Z.mod_pos_bound e 2 ltac:(lia)). lia. }
  set (s := e - 2 * e') in *. replace (match s with Z.pos _ => Z.shiftl (Zpos p) s | 0 => Zpos p | Z.neg _ => 0 end) with (Zpos p * 2 ^ s).
  2: { destruct s as [|k|k] eqn:Es; [lia|by rewrite Z.shiftl_mul_pow2|lia]. }
  pose proof (log2_bounds (Zpos p) ltac:(lia)) as HB. rewrite Hp in HB.
  assert (2 ^ 52 <= 2 ^ s <= 2 ^ 53) as HS by (split; apply Z.pow_le_mono_r; lia).
  assert (2 ^ 52 * 2 ^ 52 <= Zpos p * 2 ^ s < 2 ^ 53 * 2 ^ 54) as HM by nia.
  pose proof (Z.sqrtrem_spec (Zpos p * 2 ^ s) ltac:(lia)) as HR. destruct (Z.sqrtrem _) as [q r]. destruct HR as [HR Hr].
  assert (2 ^ 52 <= q < 2 ^ 54) as Hq by nia.
  assert (52 <= Z.log2 q < 54) by (split; [apply Z.log2_le_pow2; lia|apply Z.log2_lt_pow2; lia]).
  destruct (round_aux_bounds q e' (if r =? 0 then loc_Exact else loc_Inexact (if r <=? q then Lt else Gt)))
    as (p' & e1 & -> & D & Lp & Hj & He1 & _); [lia..|].
  exists p', e1. split_and!; [done|done|done|lia|lia].
Qed.

(** A sum with 1. *)
Lemma nadd_1 p e : Z.log2 (Zpos p) = 52 -> -100 <= e <= 0 ->
  exists p' e', (S754_finite false p e + num_of_Z 1)%js = S754_finite false p' e' /\ is_double (S754_finite false p' e') = true /\
    2 ^ 52 * Z.abs (Zpos p' * 2 ^ (e' + 1074) - (Zpos p * 2 ^ (e + 1074) + 2 ^ 1074)) <= Zpos p * 2 ^ (e + 1074) + 2 ^ 1074.
Proof.
  intros Hp He. change (num_of_Z 1) with (S754_finite false (2 ^ 52) (-52)). unfold nadd, SFadd. cbn [cond_Zopp].
  set (ez := Z.min e (-52)). pose proof (shl_align_fst p e ez ltac:(lia)) as A1.
  pose proof (shl_align_fst (2 ^ 52) (-52) ez ltac:(lia)) as A2. rewrite <- Pos2Z.inj_add. cbn [binary_normalize].
  set (P := (fst (shl_align p e ez) + fst (shl_align (2 ^ 52) (-52) ez))%positive).
  assert (Zpos P = Zpos p * 2 ^ (e - ez) + 2 ^ (- ez)) as HP.
  { unfold P. rewrite Pos2Z.inj_add, A1, A2. change (Zpos (2 ^ 52)) with (2 ^ 52). rewrite <- Z.pow_add_r by lia. do 2 f_equal. lia. }
  pose proof (log2_bounds (Zpos p) ltac:(lia)) as HB. rewrite Hp in HB.
  assert (0 < 2 ^ (- ez)) by (apply Z.pow_pos_nonneg; lia).
  assert (0 <= Z.log2 (Zpos P) <= 300) as HL.
  { split; [apply Z.log2_nonneg|]. apply Z.lt_succ_r, Z.log2_lt_pow2; [lia|]. rewrite HP.
    assert (2 ^ (e - ez) <= 2 ^ 100) by (apply Z.pow_le_mono_r; lia). assert (2 ^ (- ez) <= 2 ^ 100) by (apply Z.pow_le_mono_r; lia).
    assert (0 < 2 ^ (e - ez)) by (apply Z.pow_pos_nonneg; lia).
    assert (Zpos p * 2 ^ (e - ez) <= 2 ^ 53 * 2 ^ 100) by (apply Z.mul_le_mono_nonneg; lia).
    change (2 ^ Z.succ 300) with (2 ^ 301). assert (2 ^ 53 * 2 ^ 100 + 2 ^ 100 < 2 ^ 301) by done. lia. }
  destruct (binary_round_accuracy P ez ltac:(lia) ltac:(lia)) as (p' & e' & E & D & _ & _ & HA). exists p', e'. split_and!; [done|done|].
  replace (Zpos p * 2 ^ (e + 1074) + 2 ^ 1074) with (Zpos P * 2 ^ (ez + 1074)); [exact HA|].
  rewrite HP, Z.mul_add_distr_r, <- Z.mul_assoc, <- !Z.pow_add_r by lia. do 3 f_equal; lia.
Qed.
