(* ===== verification/JsRegExp.v ===== *)
(** * JavaScript regular expressions

    The regular expressions of the sources are values of [re], and
    [exec] runs them the way the language prescribes: backtracking in
    continuation-passing style, greedy or lazy repetition, capture groups,
    the leftmost match first.  The relation [steps] says declaratively which
    final states a pattern can reach; [rmatch_sound] and [rmatch_complete]
    tie the two together. *)
From S2P Require Import Prelude JsString.
Local Open Scope Z_scope.

(** ** Patterns *)

Inductive re :=
| RChar (p : ascii -> bool)          (* a character class *)
| RSeq (a b : re)
| RAlt (a b : re)
| RStar (greedy : bool) (a : re)
| RGroup (n : nat) (a : re)          (* a capture group *)
| REmpty
| RStart                             (* ^ *)
| REnd.                              (* $ *)

(** [a+], [a?] and literal text. *)
Definition RPlus (a : re) : re := RSeq a (RStar true a).
Definition ROpt (a : re) : re := RAlt a REmpty.
Definition RLit (c : ascii) : re := RChar (Ascii.eqb c).
(** [.] matches everything but a line terminator. *)
Definition RDot : re := RChar (fun c => negb (is_line_terminator c)).

Fixpoint rseq (l : list re) : re :=
  match l with [] => REmpty | [a] => a | a :: l' => RSeq a (rseq l') end.

(** ** Matching *)

(** The state of a match attempt: characters consumed so far (the position),
    the rest of the input, the captures. *)
Record rstate := RState {
  pos : nat;
  rest : string;
  caps : list (nat * string)
}.

(** The text between two states of one attempt. *)
Definition consumed (x y : rstate) : string := stake (pos y - pos x) (rest x).

Definition matcher := (rstate -> option rstate) -> rstate -> option rstate.

(** Repetition: an iteration that consumes nothing is refused, so the length
    of the remaining input bounds the number of iterations. *)
Fixpoint star_loop (greedy : bool) (body : matcher) (k : rstate -> option rstate)
    (fuel : nat) (x : rstate) : option rstate :=
  match fuel with
  | O => k x
  | S fuel' =>
      let more := body (fun y => if Nat.eqb (pos y) (pos x) then None
                                 else star_loop greedy body k fuel' y) x in
      if greedy
      then match more with Some y => Some y | None => k x end
      else match k x with Some y => Some y | None => more end
  end.

Fixpoint rmatch (r : re) (k : rstate -> option rstate) (x : rstate) : option rstate :=
  match r with
  | RChar p =>
      match rest x with
      | "" => None
      | String c s => if p c then k (RState (S (pos x)) s (caps x)) else None
      end
  | RSeq a b => rmatch a (rmatch b k) x
  | RAlt a b => match rmatch a k x with Some y => Some y | None => rmatch b k x end
  | RStar greedy a => star_loop greedy (rmatch a) k (String.length (rest x)) x
  | RGroup n a => rmatch a (fun y => k (RState (pos y) (rest y) ((n, consumed x y) :: caps y))) x
  | REmpty => k x
  | RStart => if Nat.eqb (pos x) 0 then k x else None
  | REnd => match rest x with "" => k x | _ => None end
  end.

(** The leftmost match: attempts at each position in turn. *)
Fixpoint exec_from (r : re) (i : nat) (s : string) : option (nat * rstate) :=
  match rmatch r Some (RState i s []) with
  | Some y => Some (i, y)
  | None => match s with "" => None | String _ s' => exec_from r (S i) s' end
  end.

(** [r.exec(s)] *)
Definition exec (r : re) (s : string) : option (nat * rstate) := exec_from r 0 s.

(** [s.match(r)] as a condition. *)
Definition test (r : re) (s : string) : bool := bool_decide (is_Some (exec r s)).

(** [match[n]] *)
Fixpoint capture (n : nat) (l : list (nat * string)) : option string :=
  match l with
  | [] => None
  | (m, t) :: l' => if Nat.eqb m n then Some t else capture n l'
  end.

(** [s.search(r)]: the position of the leftmost match, or -1. *)
Definition search (r : re) (s : string) : Z :=
  match exec r s with Some (i, _) => Z.of_nat i | None => -1 end.

(** ** What a pattern can reach *)

Inductive steps : re -> rstate -> rstate -> Prop :=
| steps_char p i c s cs :
    p c = true -> steps (RChar p) (RState i (String c s) cs) (RState (S i) s cs)
| steps_seq a b x y z : steps a x y -> steps b y z -> steps (RSeq a b) x z
| steps_alt_l a b x y : steps a x y -> steps (RAlt a b) x y
| steps_alt_r a b x y : steps b x y -> steps (RAlt a b) x y
| steps_star_nil g a x : steps (RStar g a) x x
| steps_star_cons g a x y z :
    steps a x y -> pos y <> pos x -> steps (RStar g a) y z -> steps (RStar g a) x z
| steps_group n a x y :
    steps a x y ->
    steps (RGroup n a) x (RState (pos y) (rest y) ((n, consumed x y) :: caps y))
| steps_empty x : steps REmpty x x
| steps_start s cs : steps RStart (RState 0 s cs) (RState 0 s cs)
| steps_end i cs : steps REnd (RState i "" cs) (RState i "" cs).

#[export] Hint Constructors steps : js.

(** [y] is reached from [x] by reading the text [t]. *)
Definition reads (x y : rstate) (t : string) : Prop :=
  rest x = t +:+ rest y /\ pos y = (pos x + String.length t)%nat.

Lemma reads_refl x : reads x x "".
Proof. split; [done|]. cbn. lia. Qed.

Lemma reads_trans x y z s t : reads x y s -> reads y z t -> reads x z (s +:+ t).
Proof.
  intros [H1 H2] [H3 H4]. split; [by rewrite H1, H3, sapp_assoc|].
  rewrite H4, H2, sapp_length. lia.
Qed.

Lemma reads_consumed x y t : reads x y t -> consumed x y = t.
Proof. intros [H1 H2]. unfold consumed. rewrite H1. apply stake_app. lia. Qed.

(** A match reads a prefix of the input. *)
Lemma steps_reads r x y : steps r x y -> exists t, reads x y t.
Proof.
  induction 1; repeat match goal with H : exists t, reads _ _ t |- _ => destruct H as [? ?] end;
    eauto using reads_refl, reads_trans.
  exists (String c ""). split; [done|]. cbn. lia.
Qed.

Lemma steps_fuel r x y :
  steps r x y -> pos y <> pos x -> (String.length (rest y) < String.length (rest x))%nat.
Proof.
  intros [t [H1 H2]]%steps_reads Hne. rewrite H1, sapp_length. lia.
Qed.

(** ** Soundness *)

Definition sound_for (r : re) (m : matcher) : Prop :=
  forall k x res, m k x = Some res -> exists y, steps r x y /\ k y = Some res.

Lemma star_loop_sound g a fuel :
  sound_for a (rmatch a) ->
  sound_for (RStar g a) (fun k => star_loop g (rmatch a) k fuel).
Proof.
  intros Ha k x res. revert x res. induction fuel as [|fuel IH]; intros x res H; [eauto with js|].
  assert (Hmore : forall res, rmatch a (fun y => if Nat.eqb (pos y) (pos x) then None
    else star_loop g (rmatch a) k fuel y) x = Some res ->
    exists y, steps (RStar g a) x y /\ k y = Some res).
  { intros res' H'. apply Ha in H' as (y & Hy & H').
    destruct (Nat.eqb_spec (pos y) (pos x)); [done|].
    apply IH in H' as (z & ? & ?). eauto with js. }
  cbn [star_loop] in H. destruct g.
  - destruct (rmatch a _ x) eqn:E; [apply Hmore; congruence|eauto with js].
  - destruct (k x) eqn:E; [|by apply Hmore]. simplify_eq. eauto with js.
Qed.

Lemma rmatch_sound r : sound_for r (rmatch r).
Proof.
  induction r as [p|a IHa b IHb|a IHa b IHb|g a IHa|n a IHa| | |]; intros k x res H; cbn in H.
  - destruct x as [i [|c s] cs]; cbn in H; [done|].
    destruct (p c) eqn:E; [|done]. eauto with js.
  - apply IHa in H as (y & Hy & H). apply IHb in H as (z & Hz & H). eauto with js.
  - destruct (rmatch a k x) eqn:E.
    + simplify_eq. apply IHa in E as (y & ? & ?). eauto with js.
    + apply IHb in H as (y & ? & ?). eauto with js.
  - eapply star_loop_sound; eauto.
  - apply IHa in H as (y & ? & ?). eauto with js.
  - eauto with js.
  - destruct x as [[|i] s cs]; cbn in H; [eauto with js|done].
  - destruct x as [i [|c s] cs]; cbn in H; [eauto with js|done].
Qed.

(** ** Completeness *)

Definition complete_for (r : re) (m : matcher) : Prop :=
  forall k x y, steps r x y -> is_Some (k y) -> is_Some (m k x).

Lemma star_loop_complete g a fuel k x y :
  complete_for a (rmatch a) -> steps (RStar g a) x y ->
  (String.length (rest x) <= fuel)%nat -> is_Some (k y) ->
  is_Some (star_loop g (rmatch a) k fuel x).
Proof.
  intros Ha. revert x. induction fuel as [|fuel IH]; intros x Hs Hf Hk.
  - inversion Hs as [| | | | |? ? ? z ? H1 H2 H3| | | |]; subst; [done|].
    pose proof (steps_fuel _ _ _ H1 H2). lia.
  - assert (Hmore : forall z, steps a x z -> pos z <> pos x -> steps (RStar g a) z y ->
      is_Some (rmatch a (fun y => if Nat.eqb (pos y) (pos x) then None
                                  else star_loop g (rmatch a) k fuel y) x)).
    { intros z H1 H2 H3. eapply Ha; [done|]. destruct (Nat.eqb_spec (pos z) (pos x)); [done|].
      apply IH; [done| |done]. pose proof (steps_fuel _ _ _ H1 H2). lia. }
    cbn [star_loop]. inversion Hs as [| | | | |? ? ? z ? H1 H2 H3| | | |]; subst.
    + destruct g; [|destruct (k y); [eauto|by destruct Hk]].
      destruct (rmatch a _ y); [eauto|done].
    + specialize (Hmore z H1 H2 H3). destruct g.
      * destruct (rmatch a _ x); [eauto|by destruct Hmore].
      * destruct (k x); [eauto|done].
Qed.

Lemma rmatch_complete r : complete_for r (rmatch r).
Proof.
  induction r as [p|a IHa b IHb|a IHa b IHb|g a IHa|n a IHa| | |]; intros k x y H Hk; cbn.
  - inversion H as [? ? ? ? ? E| | | | | | | | |]; subst. cbn. by rewrite E.
  - inversion H; subst. eauto.
  - inversion H as [| |? ? ? ? H1|? ? ? ? H1| | | | | |]; subst.
    + destruct (IHa _ _ _ H1 Hk) as [? ->]. eauto.
    + destruct (rmatch a k x); eauto.
  - eapply star_loop_complete; eauto.
  - inversion H; subst. eauto.
  - by inversion H; subst.
  - by inversion H; subst.
  - by inversion H; subst.
Qed.

(** ** Anchored patterns *)

(** A pattern that begins with [^] can only match at the start, so its
    [exec] is one attempt. *)
Lemma exec_anchored r s :
  exec (RSeq RStart r) s = (fun y => (0%nat, y)) <$> rmatch r Some (RState 0 s []).
Proof.
  unfold exec. destruct s as [|c s]; cbn [exec_from rmatch pos Nat.eqb].
  { by destruct (rmatch r Some _). }
  destruct (rmatch r Some (RState 0 (String c s) [])); [done|]. cbn [fmap option_fmap option_map].
  generalize 0%nat. induction s as [|d s IH]; intros n; cbn; [done|]. apply IH.
Qed.

(** ** Reading runs of a class *)

Lemma steps_char_inv p x y :
  steps (RChar p) x y ->
  exists c, p c = true /\ reads x y (String c "") /\ caps y = caps x.
Proof. inversion 1; subst. exists c. repeat split; [done|]. cbn. lia. Qed.

Lemma steps_star_char_inv g p x y :
  steps (RStar g (RChar p)) x y ->
  exists t, sforall p t = true /\ reads x y t /\ caps y = caps x.
Proof.
  remember (RStar g (RChar p)) as r eqn:E. induction 1; simplify_eq.
  - exists "". eauto using reads_refl.
  - apply steps_char_inv in H as (c & Hc & Hr & Hcs).
    destruct IHsteps2 as (t & Ht & Hr' & Hcs'); [done|].
    exists (String c t). cbn. rewrite Hc, Ht, Hcs'. repeat split; try done;
      apply (reads_trans _ _ _ _ _ Hr Hr').
Qed.

Lemma steps_plus_char_inv p x y :
  steps (RPlus (RChar p)) x y ->
  exists t, sforall p t = true /\ t <> "" /\ reads x y t /\ caps y = caps x.
Proof.
  inversion 1 as [|? ? ? z ? H1 H2| | | | | | | |]; subst.
  apply steps_char_inv in H1 as (c & Hc & Hr & Hcs).
  apply steps_star_char_inv in H2 as (t & Ht & Hr' & Hcs').
  exists (String c t). cbn. rewrite Hc, Ht, Hcs'. repeat split; try done;
    apply (reads_trans _ _ _ _ _ Hr Hr').
Qed.

Lemma steps_star_char g p i t s cs :
  sforall p t = true ->
  steps (RStar g (RChar p)) (RState i (t +:+ s) cs) (RState (i + String.length t) s cs).
Proof.
  revert i. induction t as [|c t IH]; intros i Ht.
  - cbn. rewrite Nat.add_0_r. constructor.
  - cbn in Ht. apply andb_prop in Ht as [Hc Ht].
    apply (steps_star_cons _ _ _ (RState (S i) (t +:+ s) cs)).
    + by constructor.
    + cbn. lia.
    + cbn [String.length]. replace (i + S (String.length t))%nat with (S i + String.length t)%nat by lia.
      by apply IH.
Qed.

Lemma steps_plus_char p i t s cs :
  sforall p t = true -> t <> "" ->
  steps (RPlus (RChar p)) (RState i (t +:+ s) cs) (RState (i + String.length t) s cs).
Proof.
  destruct t as [|c t]; [done|]. intros Ht _. cbn in Ht. apply andb_prop in Ht as [Hc Ht].
  apply (steps_seq _ _ _ (RState (S i) (t +:+ s) cs)); [by constructor|].
  cbn [String.length]. replace (i + S (String.length t))%nat with (S i + String.length t)%nat by lia.
  by apply steps_star_char.
Qed.

(** ** Inversion of composite patterns *)

Lemma steps_seq_inv a b x z : steps (RSeq a b) x z -> exists y, steps a x y /\ steps b y z.
Proof. inversion 1; subst; eauto. Qed.

Lemma steps_opt_inv a x z : steps (ROpt a) x z -> steps a x z \/ z = x.
Proof.
  inversion 1 as [| |? ? ? ? H1|? ? ? ? H1| | | | | |]; subst; [by left|].
  inversion H1; subst. by right.
Qed.

Lemma steps_group_inv n a x z :
  steps (RGroup n a) x z ->
  exists y t, steps a x y /\ reads x y t /\ z = RState (pos y) (rest y) ((n, t) :: caps y).
Proof.
  inversion 1 as [| | | | | |? ? ? y H1| | |]; subst. destruct (steps_reads _ _ _ H1) as [t Ht].
  exists y, t. by rewrite (reads_consumed _ _ _ Ht).
Qed.

Lemma steps_end_inv x z : steps REnd x z -> z = x /\ rest x = "".
Proof. by inversion 1; subst. Qed.

Lemma steps_group_text n a i t s cs cs' :
  steps a (RState i (t +:+ s) cs) (RState (i + String.length t) s cs') ->
  steps (RGroup n a) (RState i (t +:+ s) cs) (RState (i + String.length t) s ((n, t) :: cs')).
Proof.
  intros H. apply (steps_group n) in H. cbn [pos rest caps] in H.
  rewrite (reads_consumed _ _ t) in H by (by split). exact H.
Qed.
