(* ===== verification/JsArray.v ===== *)
(** * JavaScript arrays

    An array is a list.  [ArraySort] is the contract of
    [Array.prototype.sort]: the language leaves the algorithm to the engine
    and promises a permutation, in order when the comparison function is
    consistent.  The components are proved against this interface; the
    instance [insertion_array_sort] shows that it can be implemented and runs
    the examples. *)
From S2P Require Import Prelude JsString JsNumber JsNumberFacts.
From Stdlib Require Import SpecFloat.
Local Open Scope Z_scope.

(** [a.slice(start)] for [start >= 0]. *)
Definition array_slice {A} (start : Z) (l : list A) : list A := drop (Z.to_nat start) l.

(** [a.splice(start, count)] for [0 <= start], keeping what is left in the
    array. *)
Definition array_splice {A} (start count : Z) (l : list A) : list A :=
  take (Z.to_nat start) l ++ drop (Z.to_nat start + Z.to_nat count) l.

Definition alen {A} (l : list A) : Z := Z.of_nat (length l).

(** [a.indexOf(x)], -1 when absent. *)
Fixpoint array_indexOf {A} `{EqDecision A} (x : A) (l : list A) : Z :=
  match l with
  | [] => -1
  | y :: l' =>
      if decide (x = y) then 0
      else match array_indexOf x l' with -1 => -1 | i => i + 1 end
  end.

Lemma array_indexOf_spec {A} `{EqDecision A} (x : A) l :
  (x ∉ l /\ array_indexOf x l = -1) \/
  (exists a b, l = a ++ x :: b /\ x ∉ a /\ array_indexOf x l = alen a).
Proof.
  induction l as [|y l IH]; cbn; [left; set_solver|].
  case_decide as Hxy.
  - subst. right. exists [], l. set_solver.
  - destruct IH as [[H ->]|(a & b & -> & H & ->)]; [left; set_solver|].
    right. exists (y :: a), b. split; [done|]. split; [set_solver|]. unfold alen. cbn.
    destruct (Z.of_nat (length a)) eqn:E; lia.
Qed.

(** ** Comparison functions *)

(** Element order under a comparison function: [v > 0] puts the second one
    first; NaN counts as zero. *)
Definition cmp_le {A} (cmp : A -> A -> num) (x y : A) : bool := negb (ngt (cmp x y) plus_zero).
Definition cmp_lt {A} (cmp : A -> A -> num) (x y : A) : bool := nlt (cmp x y) plus_zero.

(** A consistent comparison function on a set of elements: a total preorder
    whose strict part is told by a negative result. *)
Record consistent {A} (cmp : A -> A -> num) (S : A -> Prop) : Prop := {
  consistent_total x y : S x -> S y -> cmp_le cmp x y = true \/ cmp_le cmp y x = true;
  consistent_trans x y z : S x -> S y -> S z ->
    cmp_le cmp x y = true -> cmp_le cmp y z = true -> cmp_le cmp x z = true;
  consistent_anti x y : S x -> S y -> cmp_lt cmp x y = negb (cmp_le cmp y x)
}.

(** ** The interface *)

Class ArraySort := {
  array_sort : forall {A : Type}, (A -> A -> num) -> list A -> list A;
  array_sort_perm : forall (A : Type) (cmp : A -> A -> num) (l : list A),
    array_sort cmp l ≡ₚ l;
  array_sort_sorted : forall (A : Type) (cmp : A -> A -> num) (l : list A),
    consistent cmp (fun x => x ∈ l) ->
    StronglySorted (fun x y => cmp_le cmp x y = true) (array_sort cmp l)
}.

(** ** An implementation *)

Section insertion.
Context {A : Type} (cmp : A -> A -> num).

Fixpoint insert_sorted (x : A) (l : list A) : list A :=
  match l with
  | [] => [x]
  | y :: l' => if cmp_le cmp x y then x :: l else y :: insert_sorted x l'
  end.

Fixpoint insertion_sort (l : list A) : list A :=
  match l with [] => [] | x :: l' => insert_sorted x (insertion_sort l') end.

Lemma insert_sorted_perm x l : insert_sorted x l ≡ₚ x :: l.
Proof.
  induction l as [|y l IH]; cbn; [done|]. case_if; [done|]. rewrite IH. apply Permutation_swap.
Qed.

Lemma insertion_sort_perm l : insertion_sort l ≡ₚ l.
Proof. induction l as [|x l IH]; cbn; [done|]. by rewrite insert_sorted_perm, IH. Qed.

Lemma insert_sorted_sorted (S : A -> Prop) x l :
  consistent cmp S -> S x -> Forall S l ->
  StronglySorted (fun x y => cmp_le cmp x y = true) l ->
  StronglySorted (fun x y => cmp_le cmp x y = true) (insert_sorted x l).
Proof.
  intros HC Hx. induction l as [|y l IH]; intros HS Hl; cbn; [by repeat constructor|].
  apply Forall_cons in HS as [Hy HS]. apply StronglySorted_inv in Hl as [Hl Hyl].
  case_if.
  - repeat constructor; try done. rewrite Forall_forall in *.
    intros z Hz. eapply (consistent_trans _ _ HC); eauto.
  - constructor; [by apply IH|]. rewrite insert_sorted_perm. constructor; [|done].
    destruct (consistent_total _ _ HC x y); [done..|congruence|done].
Qed.

Lemma insertion_sort_sorted (S : A -> Prop) l :
  consistent cmp S -> Forall S l ->
  StronglySorted (fun x y => cmp_le cmp x y = true) (insertion_sort l).
Proof.
  intros HC. induction l as [|x l IH]; intros HS; cbn; [constructor|].
  apply Forall_cons in HS as [Hx HS]. eapply insert_sorted_sorted; eauto.
  by rewrite insertion_sort_perm.
Qed.
End insertion.

#[export] Instance insertion_array_sort : ArraySort.
Proof.
  refine {| array_sort A cmp l := @insertion_sort A cmp l |}.
  - intros A cmp l. apply insertion_sort_perm.
  - intros A cmp l H. eapply insertion_sort_sorted; [exact H|]. by apply Forall_forall.
Defined.

(** ** Comparators written as a subtraction *)

(** The sign of a comparison result that is not NaN. *)
Lemma nlt_zero x c : SFcompare x plus_zero = Some c -> nlt x plus_zero = bool_decide (c = Lt).
Proof. unfold nlt, SFltb. intros ->. by destruct c. Qed.

Lemma ngt_zero x c : SFcompare x plus_zero = Some c -> ngt x plus_zero = bool_decide (c = Gt).
Proof.
  unfold ngt, nlt, SFltb. destruct x as [[]|[]| |[] m e]; cbn; intros; simplify_eq; done.
Qed.

Lemma SFcompare_nneg x c :
  SFcompare x plus_zero = Some c -> SFcompare (nneg x) plus_zero = Some (CompOpp c).
Proof. destruct x as [[]|[]| |[] m e]; cbn; intros; simplify_eq; done. Qed.

Section key_order.
Context {A : Type} (key : A -> num).

Definition finite_key (x : A) : Prop := is_double (key x) = true /\ is_finite (key x) = true.

Lemma key_sub_compare x y :
  finite_key x -> finite_key y ->
  SFcompare (key x - key y)%js plus_zero = Some (scaled (key x) ?= scaled (key y)).
Proof. intros [? ?] [? ?]. by apply nsub_compare. Qed.

Lemma cmp_le_ascending x y :
  finite_key x -> finite_key y ->
  cmp_le (fun a b => (key a - key b)%js) x y = (scaled (key x) <=? scaled (key y)).
Proof.
  intros Hx Hy. unfold cmp_le. rewrite (ngt_zero _ _ (key_sub_compare x y Hx Hy)).
  unfold Z.leb. by destruct (_ ?= _).
Qed.

Lemma cmp_le_descending x y :
  finite_key x -> finite_key y ->
  cmp_le (fun a b => (- (key a - key b))%js) x y = (scaled (key y) <=? scaled (key x)).
Proof.
  intros Hx Hy. unfold cmp_le.
  rewrite (ngt_zero _ _ (SFcompare_nneg _ _ (key_sub_compare x y Hx Hy))).
  unfold Z.leb. rewrite (Z.compare_antisym (scaled (key x))). by destruct (_ ?= _).
Qed.

(** [a.sort((x, y) => key(x) - key(y))] is given a consistent comparison
    function when no key is NaN or infinite. *)
Lemma consistent_ascending : consistent (fun a b => (key a - key b)%js) finite_key.
Proof.
  split.
  - intros. rewrite !cmp_le_ascending by done. lia.
  - intros x y z Hx Hy Hz. rewrite !cmp_le_ascending by done. lia.
  - intros x y Hx Hy. rewrite cmp_le_ascending by done. unfold cmp_lt.
    rewrite (nlt_zero _ _ (key_sub_compare x y Hx Hy)). unfold Z.leb.
    rewrite (Z.compare_antisym (scaled (key x))). by destruct (_ ?= _).
Qed.

Lemma consistent_descending : consistent (fun a b => (- (key a - key b))%js) finite_key.
Proof.
  split.
  - intros. rewrite !cmp_le_descending by done. lia.
  - intros x y z Hx Hy Hz. rewrite !cmp_le_descending by done. lia.
  - intros x y Hx Hy. rewrite cmp_le_descending by done. unfold cmp_lt.
    rewrite (nlt_zero _ _ (SFcompare_nneg _ _ (key_sub_compare x y Hx Hy))).
    unfold Z.leb. by destruct (_ ?= _).
Qed.
End key_order.

Lemma consistent_weaken {A} (cmp : A -> A -> num) (S T : A -> Prop) :
  (forall x, T x -> S x) -> consistent cmp S -> consistent cmp T.
Proof. intros H [H1 H2 H3]. split; eauto. Qed.

Lemma array_sort_elem {AS : ArraySort} {A} (cmp : A -> A -> num) l x :
  x ∈ array_sort cmp l <-> x ∈ l.
Proof. by rewrite array_sort_perm. Qed.

Lemma array_sort_length {AS : ArraySort} {A} (cmp : A -> A -> num) (l : list A) :
  length (array_sort cmp l) = length l.
Proof. by rewrite array_sort_perm. Qed.
