(* ===== verification/JsObject.v ===== *)
(** * JavaScript objects and Maps used as dictionaries

    [obj V]: an object literal used as a dictionary, as the sequence of its
    own properties in creation order.  [own_keys] enumerates them the way
    [for ... in] and [Object.keys] do: integer indices first, in ascending
    order, then the other names in creation order.  Lookup falls back to
    [Object.prototype], which matters for the [in] operator and for reads.

    [jsmap K V]: a [Map], as its entries in insertion order. *)
From S2P Require Import Prelude JsString JsNumber.
Local Open Scope Z_scope.

(** ** Ordered dictionaries *)

Section dict.
Context {K V : Type} `{EqDecision K}.

Fixpoint dict_get (k : K) (o : list (K * V)) : option V :=
  match o with
  | [] => None
  | (k', v) :: o' => if decide (k = k') then Some v else dict_get k o'
  end.

(** Assignment: in place when the key exists, at the end otherwise. *)
Fixpoint dict_set (k : K) (v : V) (o : list (K * V)) : list (K * V) :=
  match o with
  | [] => [(k, v)]
  | (k', v') :: o' => if decide (k = k') then (k, v) :: o' else (k', v') :: dict_set k v o'
  end.

Definition dict_has (k : K) (o : list (K * V)) : bool := bool_decide (is_Some (dict_get k o)).

Definition dict_keys (o : list (K * V)) : list K := map fst o.
Definition dict_values (o : list (K * V)) : list V := map snd o.

Lemma dict_get_set_eq k v o : dict_get k (dict_set k v o) = Some v.
Proof.
  induction o as [|[k' v'] o IH]; cbn; [by rewrite decide_True by done|].
  case_decide; cbn; by case_decide.
Qed.

Lemma dict_get_set_ne k k' v o : k <> k' -> dict_get k (dict_set k' v o) = dict_get k o.
Proof.
  intros Hne. induction o as [|[k2 v2] o IH]; cbn; [by rewrite decide_False by done|].
  destruct (decide (k' = k2)) as [->|]; cbn; repeat case_decide; congruence.
Qed.

Lemma dict_get_set k k' v o :
  dict_get k (dict_set k' v o) = if decide (k = k') then Some v else dict_get k o.
Proof. case_decide; subst; [apply dict_get_set_eq|by apply dict_get_set_ne]. Qed.

Lemma elem_of_dict_keys k o : k ∈ dict_keys o <-> is_Some (dict_get k o).
Proof.
  induction o as [|[k' v] o IH]; cbn; [split; [set_solver|by intros [? ?]]|].
  rewrite elem_of_cons, IH. case_decide; subst; naive_solver.
Qed.

Lemma dict_keys_set k v o :
  dict_keys (dict_set k v o) = if decide (k ∈ dict_keys o) then dict_keys o else dict_keys o ++ [k].
Proof.
  unfold dict_keys. induction o as [|[k' v'] o IH]; cbn; [by rewrite decide_False by set_solver|].
  destruct (decide (k = k')) as [->|Hne]; cbn.
  - by rewrite decide_True by set_solver.
  - rewrite IH. destruct (decide (k ∈ map fst o)).
    + by rewrite decide_True by set_solver.
    + by rewrite decide_False by set_solver.
Qed.

Lemma NoDup_dict_set k v o : NoDup (dict_keys o) -> NoDup (dict_keys (dict_set k v o)).
Proof.
  intros H. rewrite dict_keys_set. case_decide; [done|].
  apply NoDup_app. split_and!; [done|set_solver|apply NoDup_singleton].
Qed.

Lemma elem_of_dict_get k v o : NoDup (dict_keys o) -> (k, v) ∈ o <-> dict_get k o = Some v.
Proof.
  induction o as [|[k' v'] o IH]; cbn; intros HN; [set_solver|].
  apply NoDup_cons in HN as [Hn HN]. rewrite elem_of_cons, IH by done.
  case_decide; subst; [|naive_solver]. split; [|naive_solver].
  intros [?|?]; [naive_solver|]. exfalso. apply Hn. apply elem_of_dict_keys. eauto.
Qed.

Lemma dict_get_elem k v o : dict_get k o = Some v -> (k, v) ∈ o.
Proof.
  induction o as [|[k' v'] o IH]; cbn; [done|]. case_decide; intros; simplify_eq; set_solver.
Qed.
End dict.
#[global] Arguments dict_keys : simpl never.
#[global] Arguments dict_has : simpl never.

Abbreviation obj V := (list (string * V)).
Abbreviation jsmap K V := (list (K * V)).

(** ** Property order *)

(** An array index: a canonical decimal below [2 ^ 32 - 1]. *)
Definition array_index (k : string) : option Z :=
  let z := dec_value k 0 in
  if sforall is_digit k && String.eqb (Z_to_dec z) k && (z <? 2 ^ 32 - 1) then Some z else None.

Definition is_index (k : string) : bool := bool_decide (is_Some (array_index k)).

Fixpoint insert_index (k : string) (l : list string) : list string :=
  match l with
  | [] => [k]
  | k' :: l' =>
      if default 0 (array_index k) <=? default 0 (array_index k') then k :: l
      else k' :: insert_index k l'
  end.

Definition sort_indices (l : list string) : list string := foldr insert_index [] l.

(** The order in which property names are enumerated. *)
Definition enum_keys (l : list string) : list string :=
  sort_indices (filterb is_index l) ++ filterb (fun k => negb (is_index k)) l.

Definition own_keys {V} (o : obj V) : list string := enum_keys (dict_keys o).

Lemma insert_index_perm k l : insert_index k l ≡ₚ k :: l.
Proof.
  induction l as [|k' l IH]; cbn; [done|]. case_if; [done|].
  rewrite IH. apply Permutation_swap.
Qed.

Lemma sort_indices_perm l : sort_indices l ≡ₚ l.
Proof. induction l as [|k l IH]; cbn; [done|]. by rewrite insert_index_perm, IH. Qed.

Lemma enum_keys_perm l : enum_keys l ≡ₚ l.
Proof.
  unfold enum_keys. rewrite sort_indices_perm. induction l as [|k l IH]; cbn; [done|].
  destruct (is_index k); cbn; [by rewrite IH|]. by rewrite <- Permutation_middle, IH.
Qed.

Lemma own_keys_perm {V} (o : obj V) : own_keys o ≡ₚ dict_keys o.
Proof. apply enum_keys_perm. Qed.

(** Without index names, the order of enumeration is the creation order. *)
Lemma own_keys_no_index {V} (o : obj V) :
  Forall (fun k => is_index k = false) (dict_keys o) -> own_keys o = dict_keys o.
Proof.
  unfold own_keys. generalize (dict_keys o). clear o. intros l H. unfold enum_keys.
  replace (filterb is_index l) with (@nil string).
  - cbn. apply filterb_all. intros x Hx. rewrite Forall_forall in H. by rewrite H.
  - induction H as [|k l Hk H IH]; cbn; [done|]. by rewrite Hk.
Qed.

(** ** Inherited properties *)

(** The property names of [Object.prototype]. *)
Definition object_prototype_names : list string :=
  ["constructor"; "__defineGetter__"; "__defineSetter__"; "hasOwnProperty"; "__lookupGetter__";
   "__lookupSetter__"; "isPrototypeOf"; "propertyIsEnumerable"; "toString"; "valueOf";
   "__proto__"; "toLocaleString"].

Definition inherited (k : string) : bool := bool_decide (k ∈ object_prototype_names).

(** The [in] operator. *)
Definition obj_in {V} (k : string) (o : obj V) : bool := dict_has k o || inherited k.

(** [o[k] = v] for a name that is computed: assigning to [__proto__] makes no
    property. *)
Definition obj_assign {V} (k : string) (v : V) (o : obj V) : obj V :=
  if String.eqb k "__proto__" then o else dict_set k v o.
