(* ===== verification/UtilsQuery.v ===== *)
(** * utils.js: query display

    The records the coordinator serves ([BasicQueryInfo] and [QueryInfo]
    share these fields, as utils.js says) and the functions that turn a
    query's or a stage's state into a colour, a label and a progress bar. *)
From S2P Require Import Prelude JsString JsNumber JsNumberFacts JsObject.
Local Open Scope Z_scope.

(** ** Data *)

Record QueryStats := {
  createTime : string;
  elapsedTime : string;
  executionTime : string;
  totalCpuTime : string;
  cumulativeUserMemory : num;
  userMemoryReservation : string;
  peakUserMemoryReservation : string;
  totalDrivers : num;
  queuedDrivers : num;
  runningDrivers : num;
  completedDrivers : num;
  progressPercentage : option num;
  fullyBlocked : bool;
  blockedReasons : option (list string)
}.

Record Session := {
  user : option string;
  principal : option string;
  source : option string
}.

(** [errorCode] keeps the one field that is read, its name; it is [null]
    when the query has no error. *)
Record Query := {
  queryId : string;
  session : Session;
  resourceGroupId : option (list string);
  qstate : string;
  memoryPool : option string;
  scheduled : bool;
  query : string;
  queryStats : QueryStats;
  errorType : option string;
  errorCode : option string
}.

Record StageStats := { stageFullyBlocked : bool }.

(** ToBoolean: an object is true, a string when it is not empty. *)
Definition truthy_object {A : Type} (_ : A) : bool := true.
Definition truthy_string (s : option string) : bool :=
  match s with Some "" | None => false | Some _ => true end.

(** [x === "literal"] for a field that may be [null]. *)
Definition is_str (x : option string) (s : string) : bool :=
  match x with Some t => String.eqb t s | None => false end.

(** ** Colours *)

Module STATE_COLOR_MAP.
Definition QUEUED := "#1b8f72".
Definition RUNNING := "#19874e".
Definition PLANNING := "#674f98".
Definition FINISHED := "#1a4629".
Definition BLOCKED := "#61003b".
Definition USER_ERROR := "#9a7d66".
Definition CANCELED := "#858959".
Definition INSUFFICIENT_RESOURCES := "#7f5b72".
Definition EXTERNAL_ERROR := "#ca7640".
Definition UNKNOWN_ERROR := "#943524".
End STATE_COLOR_MAP.

(** [query.errorCode.name]: reading a property of [null] throws. *)
Definition errorCode_name (q : Query) : result string :=
  match errorCode q with Some n => Ok n | None => Throw TypeError end.

Definition getQueryStateColor (q : Query) : result string :=
  let st := qstate q in
  if String.eqb st "QUEUED" then Ok STATE_COLOR_MAP.QUEUED
  else if String.eqb st "PLANNING" then Ok STATE_COLOR_MAP.PLANNING
  else if String.eqb st "STARTING" || String.eqb st "FINISHING" || String.eqb st "RUNNING" then
    if truthy_object (queryStats q) && fullyBlocked (queryStats q)
    then Ok STATE_COLOR_MAP.BLOCKED
    else Ok STATE_COLOR_MAP.RUNNING
  else if String.eqb st "FAILED" then
    if is_str (errorType q) "USER_ERROR" then
      name ← errorCode_name q;
      if String.eqb name "USER_CANCELED"
      then Ok STATE_COLOR_MAP.CANCELED
      else Ok STATE_COLOR_MAP.USER_ERROR
    else if is_str (errorType q) "EXTERNAL" then Ok STATE_COLOR_MAP.EXTERNAL_ERROR
    else if is_str (errorType q) "INSUFFICIENT_RESOURCES"
    then Ok STATE_COLOR_MAP.INSUFFICIENT_RESOURCES
    else Ok STATE_COLOR_MAP.UNKNOWN_ERROR
  else if String.eqb st "FINISHED" then Ok STATE_COLOR_MAP.FINISHED
  else Ok STATE_COLOR_MAP.QUEUED.

Definition getStageStateColor (state : string) (stageStats : StageStats) : string :=
  if String.eqb state "PLANNED" then STATE_COLOR_MAP.QUEUED
  else if String.eqb state "SCHEDULING" || String.eqb state "SCHEDULING_SPLITS"
          || String.eqb state "SCHEDULED" then STATE_COLOR_MAP.PLANNING
  else if String.eqb state "RUNNING" then
    if truthy_object stageStats && stageFullyBlocked stageStats
    then STATE_COLOR_MAP.BLOCKED
    else STATE_COLOR_MAP.RUNNING
  else if String.eqb state "FINISHED" then STATE_COLOR_MAP.FINISHED
  else if String.eqb state "CANCELED" || String.eqb state "ABORTED" then STATE_COLOR_MAP.CANCELED
  else if String.eqb state "FAILED" then STATE_COLOR_MAP.UNKNOWN_ERROR
  else "#b5b5b5".

(** ** Labels *)

(** The part of [getHumanReadableState] for a running, scheduled query. *)
Definition runningTitle (q : Query) : string :=
  let title := "RUNNING" in
  let title :=
    if fullyBlocked (queryStats q) then
      match blockedReasons (queryStats q) with
      | Some (r :: rs) => "BLOCKED" +:+ " (" +:+ join ", " (r :: rs) +:+ ")"
      | _ => "BLOCKED"
      end
    else title in
  if is_str (memoryPool q) "reserved" then title +:+ " (RESERVED)" else title.

Definition getHumanReadableState (q : Query) : result string :=
  if String.eqb (qstate q) "RUNNING" && scheduled q
     && ngt (totalDrivers (queryStats q)) 0 && nge (runningDrivers (queryStats q)) 0
  then Ok (runningTitle q)
  else if String.eqb (qstate q) "FAILED" then
    if is_str (errorType q) "USER_ERROR" then
      name ← errorCode_name q;
      if String.eqb name "USER_CANCELED" then Ok "USER CANCELED" else Ok "USER ERROR"
    else if is_str (errorType q) "INTERNAL_ERROR" then Ok "INTERNAL ERROR"
    else if is_str (errorType q) "INSUFFICIENT_RESOURCES" then Ok "INSUFFICIENT RESOURCES"
    else if is_str (errorType q) "EXTERNAL" then Ok "EXTERNAL ERROR"
    else Ok (qstate q)
  else Ok (qstate q).

(** ** Progress *)

(** [!progress]: [null], zero and NaN are all false. *)
Definition truthy_progress (q : Query) : bool :=
  match progressPercentage (queryStats q) with Some p => num_truthy p | None => false end.

Definition getProgressBarPercentage (q : Query) : num :=
  if negb (truthy_progress q) || negb (String.eqb (qstate q) "RUNNING") then num_of_Z 100
  else math_round (num_of_nullable (progressPercentage (queryStats q))).

Definition getProgressBarTitle (q : Query) : result string :=
  if truthy_progress q && String.eqb (qstate q) "RUNNING" then
    title ← getHumanReadableState q;
    Ok (title +:+ " (" +:+ num_to_string (getProgressBarPercentage q) +:+ "%)")
  else getHumanReadableState q.

Definition isQueryEnded (state : string) : bool :=
  bool_decide (state ∈ ["FINISHED"; "FAILED"; "CANCELED"]).

(** ** Properties *)

(** What the coordinator guarantees: an error type comes with an error
    code. *)
Definition well_formed (q : Query) : Prop :=
  is_Some (errorType q) -> is_Some (errorCode q).

Lemma is_str_Some x s : is_str x s = true -> x = Some s.
Proof. destruct x; cbn; [|done]. intros H%String.eqb_eq. by subst. Qed.

Lemma errorCode_name_ok q s :
  well_formed q -> is_str (errorType q) s = true -> exists n, errorCode_name q = Ok n.
Proof.
  intros W H%is_str_Some. unfold errorCode_name. destruct (errorCode q) as [n|] eqn:E; [eauto|].
  destruct W as [n Hn]; [rewrite H; eauto|]. congruence.
Qed.

(** Split on every guard; the branch that reads the error code is discharged
    by well-formedness. *)
Ltac guard_cases W :=
  repeat (case_if; eauto);
  match goal with
  | H : is_str (errorType ?q) _ = true |- _ =>
      destruct (errorCode_name_ok q _ W H) as [? ->]; cbn; case_if; eauto
  end.

Lemma getHumanReadableState_total q :
  well_formed q -> exists s, getHumanReadableState q = Ok s.
Proof. intros W. unfold getHumanReadableState. guard_cases W. Qed.

Lemma getQueryStateColor_total q :
  well_formed q -> exists s, getQueryStateColor q = Ok s.
Proof. intros W. unfold getQueryStateColor. guard_cases W. Qed.

Lemma getProgressBarTitle_total q : well_formed q -> exists s, getProgressBarTitle q = Ok s.
Proof.
  intros W. unfold getProgressBarTitle. destruct (getHumanReadableState_total q W) as [t ->].
  case_if; cbn; eauto.
Qed.
