(* ===== verification/UtilsHistory.v ===== *)
(** * utils.js: sparkline histories *)
From S2P Require Import Prelude JsString JsNumber JsNumberFacts JsArray.
Local Open Scope Z_scope.

(** ** Definitions *)

Definition MAX_HISTORY : Z := 60 * 5.
Definition MOVING_AVERAGE_ALPHA : num := num_of_decimal 2 (-1).

Definition addToHistory {A} (value : A) (valuesArray : list A) : list A :=
  if alen valuesArray =? 0 then valuesArray ++ [value]
  else array_slice (Z.max (alen valuesArray - MAX_HISTORY) 0) (valuesArray ++ [value]).

Definition movingAverage (value last : num) : num :=
  let avg := ((value * MOVING_AVERAGE_ALPHA) + (last * (1 - MOVING_AVERAGE_ALPHA)))%js in
  if nlt value 1 then plus_zero else avg.

Definition addExponentiallyWeightedToHistory (value : num) (valuesArray : list num) : list num :=
  if alen valuesArray =? 0 then valuesArray ++ [value]
  else
    (* valuesArray[valuesArray.length - 1] *)
    let last := num_of_undefined (last valuesArray) in
    array_slice (Z.max (alen valuesArray - MAX_HISTORY) 0)
      (valuesArray ++ [movingAverage value last]).

(** ** Lemmas *)

(** The window a history never outgrows. *)
Definition WINDOW : nat := Z.to_nat MAX_HISTORY + 1.

Lemma history_window {A} (v : A) l :
  (length l <= WINDOW)%nat ->
  array_slice (Z.max (alen l - MAX_HISTORY) 0) (l ++ [v]) = last_n WINDOW (l ++ [v]).
Proof.
  intros H. unfold array_slice, last_n, alen. rewrite length_app. cbn [length].
  f_equal. unfold WINDOW, MAX_HISTORY in *. lia.
Qed.

Lemma addToHistory_window {A} (v : A) l :
  (length l <= WINDOW)%nat -> addToHistory v l = last_n WINDOW (l ++ [v]).
Proof.
  intros H. unfold addToHistory. destruct (Z.eqb_spec (alen l) 0) as [E|E].
  - destruct l; [|done]. done.
  - by apply history_window.
Qed.

Lemma addExponentially_window v l :
  (length l <= WINDOW)%nat ->
  exists v', addExponentiallyWeightedToHistory v l = last_n WINDOW (l ++ [v']).
Proof.
  intros H. unfold addExponentiallyWeightedToHistory.
  destruct (Z.eqb_spec (alen l) 0) as [E|E].
  - destruct l; [|done]. by exists v.
  - eexists. by apply history_window.
Qed.

(** The length invariant of every history in the UI. *)
Lemma addToHistory_bound {A} (v : A) l :
  (length l <= WINDOW)%nat -> (length (addToHistory v l) <= WINDOW)%nat.
Proof. intros H. rewrite addToHistory_window, length_last_n by done. lia. Qed.

Lemma addExponentially_bound v l :
  (length l <= WINDOW)%nat -> (length (addExponentiallyWeightedToHistory v l) <= WINDOW)%nat.
Proof.
  intros H. destruct (addExponentially_window v l H) as [v' ->]. rewrite length_last_n. lia.
Qed.

#[export] Hint Resolve addToHistory_bound addExponentially_bound : js.

Lemma fold_history_window {A} (vs l : list A) :
  (length l <= WINDOW)%nat ->
  fold_left (fun h v => addToHistory v h) vs l = last_n WINDOW (l ++ vs).
Proof.
  revert l. induction vs as [|v vs IH]; intros l H; cbn.
  - by rewrite app_nil_r, last_n_all.
  - rewrite IH by (by apply addToHistory_bound). rewrite addToHistory_window by done.
    rewrite last_n_app_last_n. by rewrite <- app_assoc.
Qed.

(** A history that is the window of the samples of some answers, after one more
    answer. *)
Lemma addToHistory_snoc {R A} (f : R -> A) rs r l :
  l = last_n WINDOW (map f rs) -> addToHistory (f r) l = last_n WINDOW (map f (rs ++ [r])).
Proof.
  intros ->. rewrite addToHistory_window by (rewrite length_last_n; lia).
  by rewrite last_n_app_last_n, map_app.
Qed.

(** ** Moving averages *)

(** Reference: a fifth of the new value and four fifths of the average so far;
    a value below 1 resets the average to 0. *)
Definition smoothed (a v : num) : num :=
  if nlt v 1 then plus_zero
  else (v * num_of_decimal 2 (-1) + a * (1 - num_of_decimal 2 (-1)))%js.

Fixpoint smooth (a : num) (vs : list num) : list num :=
  match vs with
  | [] => []
  | v :: vs' => smoothed a v :: smooth (smoothed a v) vs'
  end.

(** All the averages of a sequence of values: the first value stands for
    itself. *)
Definition averages (vs : list num) : list num :=
  match vs with
  | [] => []
  | v :: vs' => v :: smooth v vs'
  end.

Lemma smooth_snoc a vs v :
  smooth a (vs ++ [v]) = smooth a vs ++ [smoothed (default a (last (smooth a vs))) v].
Proof.
  revert a. induction vs as [|w vs IH]; intros a; [done|]. cbn [app smooth]. rewrite IH.
  cbn [app]. rewrite last_cons. by destruct (last (smooth (smoothed a w) vs)).
Qed.

Lemma averages_snoc vs v :
  averages (vs ++ [v])
  = averages vs ++ [match last (averages vs) with Some a => smoothed a v | None => v end].
Proof.
  destruct vs as [|w vs]; [done|]. cbn [app averages]. rewrite smooth_snoc, last_cons.
  by destruct (last (smooth w vs)).
Qed.

Lemma length_averages vs : length (averages vs) = length vs.
Proof.
  destruct vs as [|v vs]; [done|]. cbn. f_equal. revert v.
  induction vs as [|w vs IH]; intros v; [done|]. cbn. by rewrite IH.
Qed.

Lemma last_last_n {A} n (l : list A) : last (last_n (S n) l) = last l.
Proof.
  destruct l as [|x l _] using rev_ind; [done|].
  rewrite <- (last_n_app_last_n (S n) l [x]). unfold last_n at 1.
  set (k := last_n (S n) l). rewrite drop_app_le by (rewrite length_app; cbn [length]; lia).
  by rewrite !last_snoc.
Qed.

(** The window of the averages, after one more value. *)
Lemma addExponentially_snoc vs v l :
  l = last_n WINDOW (averages vs) ->
  addExponentiallyWeightedToHistory v l = last_n WINDOW (averages (vs ++ [v])).
Proof.
  intros ->. unfold addExponentiallyWeightedToHistory. rewrite averages_snoc.
  destruct (decide (vs = [])) as [->|Ev]; [done|].
  assert (length (averages vs) <> 0%nat) as Hl by (rewrite length_averages; by destruct vs).
  destruct (Z.eqb_spec (alen (last_n WINDOW (averages vs))) 0) as [E|_].
  { unfold alen in E. rewrite length_last_n in E. unfold WINDOW in E. lia. }
  rewrite history_window by (rewrite length_last_n; lia). rewrite last_n_app_last_n.
  replace (last (last_n WINDOW (averages vs))) with (last (averages vs)) by (symmetry; apply (last_last_n 300)).
  destruct (last (averages vs)) as [a|] eqn:Ea; [done|]. apply last_None in Ea. by rewrite Ea in Hl.
Qed.

(** ** Properties *)

(** A history built from nothing by [addToHistory] is the window of the last
    301 samples, oldest first, whatever the number of samples. *)
Theorem history_is_window {A} (vs : list A) :
  fold_left (fun h v => addToHistory v h) vs [] = last_n (Z.to_nat MAX_HISTORY + 1) vs.
Proof. by rewrite fold_history_window by (cbn; lia). Qed.
