(* ===== verification/UtilsText.v ===== *)
(** * utils.js: identifiers, addresses and times

    Truncation, the stage and task numbers inside identifiers, the first URL
    parameter, host and port of a task URL, and the short time formats. *)
From S2P Require Import Prelude JsString JsNumber JsNumberFacts.
Local Open Scope Z_scope.

(** ** Strings *)

Definition truncateString (inputString : option string) (length : Z) : option string :=
  match inputString with
  | Some s =>
      if negb (String.eqb s "") && (length <? slen s)
      then Some (js_substring s 0 length +:+ "...")
      else inputString
  | None => inputString
  end.

Definition getStageNumber (stageId : string) : num :=
  parseInt (js_slice stageId (indexOf stageId "." + 1) (slen stageId)).

Definition getTaskIdSuffix (taskId : string) : string :=
  js_slice taskId (indexOf taskId "." + 1) (slen taskId).

Definition getTaskNumber (taskId : string) : num :=
  parseInt (getTaskIdSuffix (getTaskIdSuffix taskId)).

Definition getFirstParameter (searchString : string) : string :=
  let searchText := js_substring_from searchString 1 in
  if negb (indexOf searchText "&" =? -1)
  then js_substring searchText 0 (indexOf searchText "&")
  else searchText.

(** ** Addresses

    [URL] is the browser's parser: a parameter that returns the [hostname]
    and [port] of a URL, or throws on a malformed one. *)

Record URLParts := { hostname : string; port : string }.

Section addresses.
Context (URL : string -> result URLParts).

Definition getHostname (url : string) : result string :=
  u ← URL url;
  let h := hostname u in
  if String.eqb (charAt h 0) "[" && String.eqb (charAt h (slen h - 1)) "]"
  then Ok (js_substr h 1 (slen h - 2))
  else Ok h.

Definition getPort (url : string) : result string :=
  u ← URL url; Ok (port u).

Definition getHostAndPort (urlStr : string) : result string :=
  u ← URL urlStr; Ok (hostname u +:+ ":" +:+ port u).
End addresses.

(** ** Times *)

(** The local-time fields of a [Date]. *)
Record Date := {
  getFullYear : Z;
  getMonth : Z;
  getDate : Z;
  getHours : Z;
  getMinutes : Z
}.

Definition formatShortTime (date : Date) : string :=
  let r := getHours date mod 12 in
  let hours := if r =? 0 then 12 else r in
  let minutes := (if getMinutes date <? 10 then "0" else "")
                 +:+ num_to_string (getMinutes date) in
  num_to_string hours +:+ ":" +:+ minutes +:+ (if 12 <=? getHours date then "pm" else "am").

(** [s[1] ? s : "0" + s[0]] *)
Definition two_digits (s : string) : string :=
  if negb (String.eqb (charAt s 1) "") then s else "0" +:+ charAt s 0.

Definition formatShortDateTime (date : Date) : string :=
  let year := getFullYear date in
  let month := num_to_string (getMonth date + 1) in
  let dayOfMonth := num_to_string (getDate date) in
  num_to_string year +:+ "-" +:+ two_digits month +:+ "-" +:+ two_digits dayOfMonth
    +:+ " " +:+ formatShortTime date.

(** ** Lemmas *)

Lemma indexOf_dot a s : has_char "." a = false -> indexOf (a +:+ "." +:+ s) "." = slen a.
Proof. intros H. change ("." +:+ s) with (String "." s). by apply (indexOf_char "."). Qed.

(** The text after the first dot. *)
Lemma slice_after_dot a s :
  has_char "." a = false ->
  js_slice (a +:+ "." +:+ s) (indexOf (a +:+ "." +:+ s) "." + 1) (slen (a +:+ "." +:+ s)) = s.
Proof.
  intros H. rewrite indexOf_dot by done. rewrite <- sapp_assoc.
  replace (slen a + 1) with (slen (a +:+ ".")) by (by rewrite slen_app).
  apply js_slice_suffix.
Qed.

Lemma getTaskIdSuffix_dot a s :
  has_char "." a = false -> getTaskIdSuffix (a +:+ "." +:+ s) = s.
Proof. apply slice_after_dot. Qed.

(** ** Properties *)

(** a stage id is the query id, a dot and the stage number, and
    [getStageNumber] reads that number back. *)
Theorem getStageNumber_roundtrip queryId n :
  has_char "." queryId = false -> 0 <= n ->
  getStageNumber (queryId +:+ "." +:+ Z_to_dec n) = num_of_Z n.
Proof.
  intros Hq Hn. unfold getStageNumber. rewrite slice_after_dot by done.
  rewrite <- (sapp_nil_r (Z_to_dec n)). by apply parseInt_dec.
Qed.

Lemma getStageNumber_roundtrip_witness :
  getStageNumber ("20190301_120000_00001_abcde" +:+ "." +:+ Z_to_dec 17) = num_of_Z 17.
Proof. apply getStageNumber_roundtrip; [reflexivity|lia]. Defined.

(** a task id adds a second dot and the task number; [getTaskNumber] skips
    the query id and the stage number and reads the task number back, and
    [getTaskIdSuffix] keeps "stage.task". *)
Theorem getTaskNumber_roundtrip queryId s t :
  has_char "." queryId = false -> 0 <= s -> 0 <= t ->
  getTaskIdSuffix (queryId +:+ "." +:+ Z_to_dec s +:+ "." +:+ Z_to_dec t)
    = Z_to_dec s +:+ "." +:+ Z_to_dec t /\
  getTaskNumber (queryId +:+ "." +:+ Z_to_dec s +:+ "." +:+ Z_to_dec t) = num_of_Z t.
Proof.
  intros Hq Hs Ht. rewrite getTaskIdSuffix_dot by done. split; [done|].
  unfold getTaskNumber. rewrite getTaskIdSuffix_dot by done.
  rewrite getTaskIdSuffix_dot by (by apply Z_to_dec_no_char).
  rewrite <- (sapp_nil_r (Z_to_dec t)). by apply parseInt_dec.
Qed.

Lemma getTaskNumber_roundtrip_witness :
  getTaskNumber ("20190301_120000_00001_abcde" +:+ "." +:+ Z_to_dec 3 +:+ "." +:+ Z_to_dec 12)
  = num_of_Z 12.
Proof. apply (getTaskNumber_roundtrip "20190301_120000_00001_abcde" 3 12); [reflexivity|lia|lia]. Defined.

(** The first parameter of a query string stops at the first ampersand. *)
Lemma getFirstParameter_spec p rest :
  has_char "&" p = false ->
  getFirstParameter ("?" +:+ p +:+ "&" +:+ rest) = p /\ getFirstParameter ("?" +:+ p) = p.
Proof.
  intros H. unfold getFirstParameter.
  rewrite !(js_substring_suffix "?").
  change ("&" +:+ rest) with (String "&" rest).
  rewrite (indexOf_char "&" p rest), (indexOf_absent "&" p) by done. cbn [negb Z.eqb].
  pose proof (slen_nonneg p). replace (slen p =? -1) with false by lia. cbn [negb].
  split; [|done]. apply (js_substring_prefix p ("&" +:+ rest)).
Qed.

Lemma truncateString_spec s n :
  0 <= n ->
  truncateString (Some s) n =
    Some (if n <? slen s then stake (Z.to_nat n) s +:+ "..." else s).
Proof.
  intros Hn. unfold truncateString. destruct (Z.ltb_spec n (slen s)) as [H|H].
  - destruct s as [|c s]; [unfold slen in H; cbn in H; lia|]. cbn [String.eqb negb andb].
    do 2 f_equal. unfold js_substring.
    replace (Z.min (Z.max 0 0) _) with 0 by lia. replace (Z.min (Z.max n 0) _) with n by lia.
    by rewrite Z.min_l, Z.max_r, Z.sub_0_r by lia.
  - by rewrite andb_false_r.
Qed.

(** Reading a short time back: hours 0 to 23 and minutes. *)
Definition parseShortTime (s : string) : option (num * num) :=
  match split_on ":" s with
  | [h; rest] =>
      let pm := String.eqb (sdrop 2 rest) "pm" in
      let h12 := parseInt h in
      let h0 := if neq h12 12 then num_of_Z 0 else h12 in
      Some (if pm then nadd h0 12 else h0, parseInt (stake 2 rest))
  | _ => None
  end.

Definition times : list (Z * Z) :=
  h ← seqZ 0 24; m ← seqZ 0 60; [(h, m)].

Lemma times_complete h m : 0 <= h < 24 -> 0 <= m < 60 -> (h, m) ∈ times.
Proof.
  intros Hh Hm. unfold times. apply list_elem_of_bind. exists h. split; [|apply elem_of_seqZ; lia].
  apply list_elem_of_bind. exists m. split; [set_solver|apply elem_of_seqZ; lia].
Qed.

Definition on_day (d : Date) (h m : Z) : Date :=
  {| getFullYear := getFullYear d; getMonth := getMonth d; getDate := getDate d;
     getHours := h; getMinutes := m |}.

Definition time_check (hm : Z * Z) : bool :=
  match parseShortTime (formatShortTime (on_day (Build_Date 0 0 0 0 0) hm.1 hm.2)) with
  | Some (h, m) => neq h (num_of_Z hm.1) && neq m (num_of_Z hm.2)
  | None => false
  end.

Lemma times_check : forallb time_check times = true.
Proof. vm_compute. reflexivity. Qed.

(** the 12-hour clock of [formatShortTime] loses nothing: hour and minute of
    any time of day are recovered from the text, midnight and noon included. *)
Theorem formatShortTime_roundtrip d :
  0 <= getHours d < 24 -> 0 <= getMinutes d < 60 ->
  exists h m, parseShortTime (formatShortTime d) = Some (h, m) /\
    neq h (num_of_Z (getHours d)) = true /\ neq m (num_of_Z (getMinutes d)) = true.
Proof.
  intros Hh Hm. pose proof times_check as C. rewrite forallb_forall in C.
  specialize (C _ (proj1 (list_elem_of_In _ _) (times_complete _ _ Hh Hm))).
  unfold time_check in C. change (formatShortTime (on_day _ _ _)) with (formatShortTime d) in C.
  destruct (parseShortTime (formatShortTime d)) as [[h m]|]; [|done].
  apply andb_prop in C as [C1 C2]. eauto.
Qed.

Lemma formatShortTime_roundtrip_witness :
  exists h m, parseShortTime (formatShortTime (Build_Date 2019 2 1 0 5)) = Some (h, m) /\
    neq h (num_of_Z 0) = true /\ neq m (num_of_Z 5) = true.
Proof. apply (formatShortTime_roundtrip (Build_Date 2019 2 1 0 5)); cbn; lia. Defined.
