(* ===== verification/UtilsFormat.v ===== *)
(** * utils.js: formatting of rates, counts, durations and data sizes *)
From S2P Require Import Prelude JsString JsNumber JsNumberFacts.
From Stdlib Require Import SpecFloat.
Local Open Scope Z_scope.

(** ** Definitions *)

Definition computeRate (count ms : num) : num :=
  if neq ms 0 then plus_zero else ((count / ms) * 1000)%js.

Definition precisionRound (n : num) : string :=
  if nlt n 10 then toFixed n 2
  else if nlt n 100 then toFixed n 1
  else num_to_string (math_round n).

(** One [if (unit === u && duration > limit) { duration /= limit; unit = u' }]
    of [formatDuration]. *)
Definition duration_step (u : string) (limit : num) (u' : string) (st : num * string)
    : num * string :=
  let '(duration, unit) := st in
  if String.eqb unit u && ngt duration limit then ((duration / limit)%js, u') else st.

Definition formatDuration (duration : num) : string :=
  let st := (duration, "ms") in
  let st := if ngt st.1 1000 then ((st.1 / 1000)%js, "s") else st in
  let st := duration_step "s" 60 "m" st in
  let st := duration_step "m" 60 "h" st in
  let st := duration_step "h" 24 "d" st in
  let st := duration_step "d" 7 "w" st in
  precisionRound st.1 +:+ st.2.

(** One [if (count > 1000) { count /= 1000; unit = u }] of [formatCount]. *)
Definition count_step (u : string) (st : num * string) : num * string :=
  if ngt st.1 1000 then ((st.1 / 1000)%js, u) else st.

Definition formatCount (count : num) : string :=
  let st := (count, "") in
  let st := count_step "K" st in
  let st := count_step "M" st in
  let st := count_step "B" st in
  let st := count_step "T" st in
  let st := count_step "Q" st in
  precisionRound st.1 +:+ st.2.

Definition formatRows (count : num) : string :=
  if neq count 1 then "1 row" else formatCount count +:+ " rows".

(** One [if (size >= 1024) { size /= 1024; unit = p + minUnit }]. *)
Definition size_step (minUnit p : string) (st : num * string) : num * string :=
  if nge st.1 1024 then ((st.1 / 1024)%js, p +:+ minUnit) else st.

Definition formatDataSizeMinUnit (size : num) (minUnit : string) : string :=
  if neq size 0 then "0" +:+ minUnit
  else
    let st := (size, minUnit) in
    let st := size_step minUnit "K" st in
    let st := size_step minUnit "M" st in
    let st := size_step minUnit "G" st in
    let st := size_step minUnit "T" st in
    let st := size_step minUnit "P" st in
    precisionRound st.1 +:+ st.2.

Definition formatDataSizeBytes (size : num) : string := formatDataSizeMinUnit size "".
Definition formatDataSize (size : num) : string := formatDataSizeMinUnit size "B".

Example format_ex1 : map formatDataSize [num_of_Z 0; num_of_Z 1023; num_of_Z 1024; num_of_Z 1536000]
  = ["0B"; "1023B"; "1.00KB"; "1.46MB"].
Proof. vm_compute. reflexivity. Qed.

Example format_ex2 : map formatDuration [num_of_Z 1000; num_of_Z 90000; num_of_Z 700000000]
  = ["1000ms"; "1.50m"; "1.16w"].
Proof. vm_compute. reflexivity. Qed.

Example format_ex3 : map formatCount [num_of_Z 999; num_of_Z 12345678; nan]
  = ["999"; "12.3M"; "NaN"].
Proof. vm_compute. reflexivity. Qed.

(** ** The scaling loop

    The formatters unroll one loop: while the value passes the threshold of
    the current unit and there is a larger unit, divide and move on. *)

Fixpoint scale_loop (past : num -> num -> bool) (table : list (num * string))
    (x : num) (unit : string) : num * string :=
  match table with
  | [] => (x, unit)
  | (limit, u) :: table' =>
      if past x limit then scale_loop past table' (x / limit)%js u else (x, unit)
  end.

Definition duration_table : list (num * string) :=
  [(num_of_Z 1000, "s"); (num_of_Z 60, "m"); (num_of_Z 60, "h"); (num_of_Z 24, "d"); (num_of_Z 7, "w")].

Definition count_table : list (num * string) :=
  [(num_of_Z 1000, "K"); (num_of_Z 1000, "M"); (num_of_Z 1000, "B");
   (num_of_Z 1000, "T"); (num_of_Z 1000, "Q")].

Definition size_table (minUnit : string) : list (num * string) :=
  map (fun p => (num_of_Z 1024, p +:+ minUnit)) ["K"; "M"; "G"; "T"; "P"].

(** Split on the innermost threshold test of the goal. *)
Ltac case_threshold :=
  match goal with
  | |- context [?cmp ?x ?limit] =>
      lazymatch cmp with ngt => idtac | nge => idtac end;
      lazymatch x with context [if _ then _ else _] => fail | _ => idtac end;
      destruct (cmp x limit) eqn:?; cbn [fst snd andb String.eqb Ascii.eqb Bool.eqb]; try done
  end.

Lemma formatDataSize_scale (x : num) (minUnit : string) :
  neq x 0 = false ->
  let '(v, u) := scale_loop nge (size_table minUnit) x minUnit in
  formatDataSizeMinUnit x minUnit = precisionRound v +:+ u.
Proof.
  intros Hx. unfold formatDataSizeMinUnit, scale_loop, size_table, size_step. rewrite Hx.
  cbn [map fst snd]. repeat case_threshold.
Qed.

Lemma formatDuration_scale (x : num) :
  let '(v, u) := scale_loop ngt duration_table x "ms" in formatDuration x = precisionRound v +:+ u.
Proof.
  unfold formatDuration, scale_loop, duration_table, duration_step. cbn [fst snd]. repeat case_threshold.
Qed.

Lemma formatCount_scale (x : num) :
  let '(v, u) := scale_loop ngt count_table x "" in formatCount x = precisionRound v +:+ u.
Proof. unfold formatCount, scale_loop, count_table, count_step. cbn [fst snd]. repeat case_threshold. Qed.

(** the chains of conditionals of [formatDuration], [formatCount] and
    [formatDataSizeMinUnit] are the scaling loop over their unit tables: each
    stops at the first unit whose threshold the value does not pass. *)
Theorem formatters_scale (x : num) (minUnit : string) :
  (let '(v, u) := scale_loop ngt duration_table x "ms" in
   formatDuration x = precisionRound v +:+ u) /\
  (let '(v, u) := scale_loop ngt count_table x "" in
   formatCount x = precisionRound v +:+ u) /\
  (neq x 0 = false ->
   let '(v, u) := scale_loop nge (size_table minUnit) x minUnit in
   formatDataSizeMinUnit x minUnit = precisionRound v +:+ u).
Proof. split_and!; [apply formatDuration_scale|apply formatCount_scale|apply formatDataSize_scale]. Qed.

Lemma formatters_scale_witness :
  formatDataSizeMinUnit 5000000 "B" = precisionRound (num_of_decimal 476837158203125 (-14)) +:+ "MB".
Proof. exact (proj2 (proj2 (formatters_scale 5000000 "B")) eq_refl). Defined.

(** ** Data sizes are scaled exactly *)

Definition pos_finite (m : positive) (e : Z) : num := S754_finite false m e.

Lemma compare_pos m e z :
  is_double (pos_finite m e) = true -> small z ->
  SFcompare (pos_finite m e) (num_of_Z z) = Some (Zpos m * 2 ^ (e + 1074) ?= z * 2 ^ 1074).
Proof.
  intros D Hz. rewrite SFcompare_scaled by (auto with js). by rewrite scaled_num_of_Z.
Qed.

Lemma nge_pos m e z :
  is_double (pos_finite m e) = true -> small z ->
  nge (pos_finite m e) (num_of_Z z) = (z * 2 ^ 1074 <=? Zpos m * 2 ^ (e + 1074)).
Proof.
  intros D Hz. unfold nge, nle, SFleb.
  rewrite SFcompare_scaled by (auto with js). rewrite scaled_num_of_Z by done.
  unfold pos_finite, scaled, signed, Z.leb. by destruct (_ ?= _).
Qed.

(** At or above 1024 a double is normal and has room for a division. *)
Lemma large_normal m e :
  is_double (pos_finite m e) = true -> nge (pos_finite m e) 1024 = true ->
  Z.log2 (Zpos m) = 52 /\ -42 <= e <= 971.
Proof.
  intros D H. rewrite nge_pos in H by (done || (unfold small; lia)).
  apply is_double_finite in D as [D De]. eqb_hyps.
  pose proof (log2_bounds (Zpos m) ltac:(lia)) as B.
  assert (Zpos m < 2 ^ 53) as B'.
  { eapply Z.lt_le_trans; [apply B|]. apply Z.pow_le_mono_r; lia. }
  assert (-43 < e); [|lia]. apply Z.nle_gt. intros C.
  assert (2 ^ (e + 1074) <= 2 ^ 1031) as P by (apply Z.pow_le_mono_r; lia).
  assert (0 <= 2 ^ (e + 1074)) by (apply Z.pow_nonneg; lia).
  assert (Zpos m * 2 ^ (e + 1074) < 2 ^ 53 * 2 ^ 1031).
  { eapply Z.le_lt_trans; [apply Z.mul_le_mono_nonneg_l; [lia|exact P]|].
    apply Z.mul_lt_mono_pos_r; [|done]. by apply Z.pow_pos_nonneg. }
  rewrite <- Z.pow_add_r in * by lia. change (2 ^ (53 + 1031)) with (1024 * 2 ^ 1074) in *. lia.
Qed.

Lemma scaled_down_double m e :
  Z.log2 (Zpos m) = 52 -> -42 <= e <= 971 -> is_double (pos_finite m (e - 10)) = true.
Proof.
  intros Hm He. unfold is_double, pos_finite, valid_binary, bounded, canonical_mantissa.
  rewrite digits2_pos_log2, Hm, fexp_53. apply andb_true_intro. rewrite Z.eqb_eq, Z.leb_le. lia.
Qed.

Lemma scaled_down_ge_1 m e :
  is_double (pos_finite m e) = true -> nge (pos_finite m e) 1024 = true ->
  nge (pos_finite m (e - 10)) 1 = true.
Proof.
  intros D H. destruct (large_normal m e D H) as [Hm He].
  rewrite nge_pos in * by (try apply scaled_down_double; done || (unfold small; lia)).
  eqb_hyps. apply Z.leb_le. replace (e + 1074) with ((e - 10 + 1074) + 10) in H by lia.
  rewrite (Z.pow_add_r 2 (e - 10 + 1074)) in H by lia. lia.
Qed.

Lemma scale_loop_size units m e u :
  is_double (pos_finite m e) = true ->
  exists k, (k <= length units)%nat /\
    let v := pos_finite m (e - 10 * Z.of_nat k) in
    scale_loop nge (map (fun p => (num_of_Z 1024, p +:+ u)) units) (pos_finite m e) u
      = (v, if decide (k = 0%nat) then u else default "" (units !! pred k) +:+ u) /\
    is_double v = true /\
    ((k < length units)%nat -> nge v 1024 = false) /\
    ((0 < k)%nat -> nge v 1 = true).
Proof.
  assert (G : forall u0, is_double (pos_finite m e) = true ->
    exists k, (k <= length units)%nat /\
    let v := pos_finite m (e - 10 * Z.of_nat k) in
    scale_loop nge (map (fun p => (num_of_Z 1024, p +:+ u)) units) (pos_finite m e) u0
      = (v, if decide (k = 0%nat) then u0 else default "" (units !! pred k) +:+ u) /\
    is_double v = true /\
    ((k < length units)%nat -> nge v 1024 = false) /\
    ((0 < k)%nat -> nge v 1 = true)); [|by apply G].
  revert e. induction units as [|p units IH]; intros e u0 D.
  - exists 0%nat. cbn. rewrite Z.sub_0_r. split_and!; [lia|done|done|lia|lia].
  - cbn [map scale_loop]. destruct (nge (pos_finite m e) 1024) eqn:E.
    + destruct (large_normal m e D E) as [Hm He].
      replace (pos_finite m e / 1024)%js with (pos_finite m (e - 10))
        by (symmetry; apply ndiv_1024; lia).
      destruct (IH (e - 10) (p +:+ u)) as (k & Hk & -> & HD & H1 & H2); [by apply scaled_down_double|].
      exists (S k). replace (e - 10 * Z.of_nat (S k)) with (e - 10 - 10 * Z.of_nat k) by lia.
      split_and!; [cbn; lia| |exact HD|intros; apply H1; cbn in *; lia|intros _].
      * destruct k; done.
      * destruct k; [|apply H2; lia]. rewrite Z.sub_0_r. by apply scaled_down_ge_1.
    + exists 0%nat. cbn. rewrite Z.sub_0_r. split_and!; [lia|done|done|done|lia].
Qed.
