(* ===== verification/UtilsParse.v ===== *)
(** * utils.js: parsing of data sizes and durations

    The coordinator renders sizes and durations as "12.34MB" or "1.50s";
    [parseDataSize] and [parseDuration] turn them back into numbers. *)
From S2P Require Import Prelude JsString JsNumber JsNumberFacts JsRegExp.
From Stdlib Require Import SpecFloat.
Local Open Scope Z_scope.

(** ** Definitions *)

(** [\s*], [\d+] and the number group [(\d+(?:\.\d+)?)]. *)
Definition re_spaces : re := RStar true (RChar is_space).
Definition re_digits : re := RPlus (RChar is_digit).
Definition re_number : re := RSeq re_digits (ROpt (RSeq (RLit ".") re_digits)).

(** [/^\s*(\d+(?:\.\d+)?)\s*([a-zA-Z]+)\s*$/] *)
Definition DATA_SIZE_PATTERN : re :=
  RSeq RStart
    (RSeq re_spaces (RSeq (RGroup 1 re_number) (RSeq re_spaces
      (RSeq (RGroup 2 (RPlus (RChar is_alpha))) (RSeq re_spaces REnd))))).

Definition DURATION_PATTERN : re :=
  RSeq RStart
    (RSeq re_spaces (RSeq (RGroup 1 re_number) (RSeq re_spaces
      (RSeq (RGroup 2 (RPlus (RChar is_alpha))) (RSeq re_spaces REnd))))).

(** The two groups of a match; a group that took no part is [undefined], which
    neither [parseFloat] nor the switch accepts. *)
Definition match_groups (r : re) (value : string) : option (string * string) :=
  match exec r value with
  | None => None
  | Some (_, y) => Some (default "undefined" (capture 1 (caps y)), default "undefined" (capture 2 (caps y)))
  end.

(** [Math.pow(2, k)] *)
Definition pow2 (k : Z) : num := num_of_Z (2 ^ k).

Definition parseDataSize (value : string) : option num :=
  match match_groups DATA_SIZE_PATTERN value with
  | None => None
  | Some (m1, unit) =>
      let number := parseFloat m1 in
      if String.eqb unit "B" then Some number
      else if String.eqb unit "kB" then Some (number * pow2 10)%js
      else if String.eqb unit "MB" then Some (number * pow2 20)%js
      else if String.eqb unit "GB" then Some (number * pow2 30)%js
      else if String.eqb unit "TB" then Some (number * pow2 40)%js
      else if String.eqb unit "PB" then Some (number * pow2 50)%js
      else None
  end.

Definition parseDuration (value : string) : option num :=
  match match_groups DURATION_PATTERN value with
  | None => None
  | Some (m1, unit) =>
      let number := parseFloat m1 in
      if String.eqb unit "ns" then Some (number / 1000000)%js
      else if String.eqb unit "us" then Some (number / 1000)%js
      else if String.eqb unit "ms" then Some number
      else if String.eqb unit "s" then Some (number * 1000)%js
      else if String.eqb unit "m" then Some (number * 1000 * 60)%js
      else if String.eqb unit "h" then Some (number * 1000 * 60 * 60)%js
      else if String.eqb unit "d" then Some (number * 1000 * 60 * 60 * 24)%js
      else None
  end.

Example parse_size_ex : map parseDataSize ["1.5kB"; " 2 B "; "1KB"; "x"; "3GB"]
  = [Some (num_of_Z 1536); Some (num_of_Z 2); None; None; Some (num_of_Z (3 * 2 ^ 30))].
Proof. vm_compute. reflexivity. Qed.

Example parse_duration_ex : map parseDuration ["1.50s"; "90.00m"; "1.16w"; "2ns"]
  = [Some (num_of_Z 1500); Some (num_of_Z 5400000); None; Some (num_of_decimal 2 (-6))].
Proof. vm_compute. reflexivity. Qed.

(** ** The grammar *)

(** A number: digits, or digits, a dot and digits. *)
Inductive is_number : string -> Prop :=
| number_int ip : sforall is_digit ip = true -> ip <> "" -> is_number ip
| number_frac ip fp :
    sforall is_digit ip = true -> ip <> "" -> sforall is_digit fp = true -> fp <> "" ->
    is_number (ip +:+ "." +:+ fp).

(** A value with its unit, and white space around both. *)
Inductive value_unit : string -> string -> string -> Prop :=
| value_unit_intro w1 n w2 u w3 :
    sforall is_space w1 = true -> is_number n -> sforall is_space w2 = true ->
    sforall is_alpha u = true -> u <> "" -> sforall is_space w3 = true ->
    value_unit (w1 +:+ n +:+ w2 +:+ u +:+ w3) n u.

Definition is_number_char (c : ascii) : bool := is_digit c || Ascii.eqb c ".".

(** The decomposition found by cutting at the class boundaries. *)
Definition cut_value_unit (s : string) : string * string :=
  let '(_, s) := span_while is_space s in
  let '(n, s) := span_while is_number_char s in
  let '(_, s) := span_while is_space s in
  let '(u, _) := span_while is_alpha s in
  (n, u).

Definition head_not (p : ascii -> bool) (s : string) : bool :=
  match s with "" => true | String c _ => negb (p c) end.

Lemma head_not_app p (q : ascii -> bool) a b :
  sforall q a = true -> a <> "" -> (forall c, q c = true -> p c = false) ->
  head_not p (a +:+ b) = true.
Proof.
  destruct a as [|c a]; [done|]. cbn. intros [H _]%andb_prop _ Hpq. by rewrite Hpq.
Qed.

Lemma is_number_chars n : is_number n -> sforall is_number_char n = true /\ n <> "".
Proof.
  assert (forall s, sforall is_digit s = true -> sforall is_number_char s = true) as D.
  { intros s. apply sforall_impl. intros c. unfold is_number_char. by intros ->. }
  destruct 1 as [ip H1 H2|ip fp H1 H2 H3 H4]; [by auto|].
  split; [|by destruct ip]. rewrite !sforall_app. by rewrite (D ip), (D fp).
Qed.

Lemma number_char_not_space c : is_number_char c = true -> is_space c = false.
Proof.
  unfold is_number_char. intros [H|H]%orb_prop; [by apply digit_not_space|].
  by apply Ascii.eqb_eq in H as ->.
Qed.

Lemma space_not_number_char c : is_space c = true -> is_number_char c = false.
Proof. intros H. destruct (is_number_char c) eqn:E; [|done]. apply number_char_not_space in E. congruence. Qed.

Lemma alpha_not_digit_space c : is_alpha c = true -> is_number_char c = false /\ is_space c = false.
Proof.
  unfold is_alpha, is_lower, is_upper, is_number_char, is_digit, is_space. intros H.
  assert ((97 <= code c <= 122)%N \/ (65 <= code c <= 90)%N) as R.
  { apply orb_prop in H as [H|H]; apply andb_prop in H as [H1%N.leb_le H2%N.leb_le]; lia. }
  split.
  - apply orb_false_intro; [apply andb_false_intro2, N.leb_gt; lia|].
    apply Ascii.eqb_neq. intros ->. cbn in R. lia.
  - apply orb_false_intro; [apply orb_false_intro|];
      [apply andb_false_intro2, N.leb_gt|apply N.eqb_neq..]; lia.
Qed.

(** The decomposition of the grammar is unique. *)
Lemma value_unit_cut s n u : value_unit s n u -> cut_value_unit s = (n, u).
Proof.
  destruct 1 as [w1 n w2 u w3 H1 H2 H3 H4 H5 H6].
  destruct (is_number_chars n H2) as [N1 N2]. unfold cut_value_unit.
  rewrite (span_while_app is_space w1).
  2: done.
  2:{ eapply head_not_app; [exact N1|done|apply number_char_not_space]. }
  rewrite (span_while_app is_number_char n).
  2: done.
  2:{ destruct w2 as [|c w2].
      - apply (head_not_app _ is_alpha u w3); [done..|]. intros c Hc. by apply alpha_not_digit_space.
      - eapply head_not_app; [exact H3|done|apply space_not_number_char]. }
  rewrite (span_while_app is_space w2).
  2: done.
  2:{ eapply head_not_app; [exact H4|done|]. intros c Hc. by apply alpha_not_digit_space. }
  rewrite (span_while_app is_alpha u); [done|done|].
  destruct w3 as [|c w3]; [done|]. cbn in H6 |- *. apply andb_prop in H6 as [H6 _].
  destruct (is_alpha c) eqn:E; [|done]. apply alpha_not_digit_space in E as [_ E]. congruence.
Qed.

(** ** The pattern recognises the grammar *)

Lemma re_number_inv x y :
  steps re_number x y -> exists t, is_number t /\ reads x y t /\ caps y = caps x.
Proof.
  intros (z & H1 & H2)%steps_seq_inv. apply steps_plus_char_inv in H1 as (ip & Hi & Hne & Hr & Hc).
  apply steps_opt_inv in H2 as [H2| ->]; [|exists ip; eauto using is_number].
  apply steps_seq_inv in H2 as (z' & H2 & H3). apply steps_char_inv in H2 as (c & Hd & Hr2 & Hc2).
  apply Ascii.eqb_eq in Hd as <-. apply steps_plus_char_inv in H3 as (fp & Hf & Hfne & Hr3 & Hc3).
  exists (ip +:+ "." +:+ fp). split; [by constructor|]. split; [|congruence].
  eapply reads_trans; [exact Hr|]. exact (reads_trans _ _ _ _ _ Hr2 Hr3).
Qed.

Lemma re_number_steps i t s cs :
  is_number t -> steps re_number (RState i (t +:+ s) cs) (RState (i + String.length t) s cs).
Proof.
  destruct 1 as [ip H1 H2|ip fp H1 H2 H3 H4].
  - eapply steps_seq; [by apply steps_plus_char|]. apply steps_alt_r. constructor.
  - eapply steps_seq; [rewrite sapp_assoc; by apply steps_plus_char|].
    apply steps_alt_l. eapply steps_seq; [by constructor|].
    replace (i + String.length (ip +:+ "." +:+ fp))%nat
      with (S (i + String.length ip) + String.length fp)%nat
      by (rewrite !sapp_length; cbn; lia).
    by apply steps_plus_char.
Qed.

Definition value_unit_body : re :=
  RSeq re_spaces (RSeq (RGroup 1 re_number) (RSeq re_spaces
    (RSeq (RGroup 2 (RPlus (RChar is_alpha))) (RSeq re_spaces REnd)))).

Lemma value_unit_steps_inv s y :
  steps value_unit_body (RState 0 s []) y ->
  exists n u, value_unit s n u /\ caps y = [(2%nat, u); (1%nat, n)].
Proof.
  intros (x1 & H1 & H)%steps_seq_inv. apply steps_star_char_inv in H1 as (w1 & W1 & R1 & C1).
  apply steps_seq_inv in H as (x2 & H2 & H). apply steps_group_inv in H2 as (z2 & n & Hn & R2 & ->).
  apply re_number_inv in Hn as (n' & Hn & R2' & C2).
  assert (n = n') as <- by (apply reads_consumed in R2; apply reads_consumed in R2'; congruence).
  apply steps_seq_inv in H as (x3 & H3 & H). apply steps_star_char_inv in H3 as (w2 & W2 & R3 & C3).
  apply steps_seq_inv in H as (x4 & H4 & H). apply steps_group_inv in H4 as (z4 & u & Hu & R4 & ->).
  apply steps_plus_char_inv in Hu as (u' & Hu & Hne & R4' & C4).
  assert (u = u') as <- by (apply reads_consumed in R4; apply reads_consumed in R4'; congruence).
  apply steps_seq_inv in H as (x5 & H5 & H). apply steps_star_char_inv in H5 as (w3 & W3 & R5 & C5).
  apply steps_end_inv in H as [-> E]. exists n, u. cbn in *. split; [|congruence].
  destruct R1 as [R1 _], R2 as [R2 _], R3 as [R3 _], R4 as [R4 _], R5 as [R5 _].
  cbn in *. rewrite E, sapp_nil_r in R5. rewrite R1, R2, R3, R4, R5. by constructor.
Qed.

Lemma value_unit_steps s n u :
  value_unit s n u -> exists y, steps value_unit_body (RState 0 s []) y.
Proof.
  destruct 1 as [w1 n w2 u w3 H1 H2 H3 H4 H5 H6]. eexists.
  eapply steps_seq; [by apply steps_star_char|].
  eapply steps_seq; [apply steps_group_text; by apply re_number_steps|].
  eapply steps_seq; [by apply steps_star_char|].
  eapply steps_seq; [apply steps_group_text; by apply steps_plus_char|].
  eapply steps_seq; [rewrite <- (sapp_nil_r w3) at 1; by apply steps_star_char|].
  constructor.
Qed.

(** [exec] finds the groups of the grammar, and nothing else. *)
Lemma match_groups_spec s n u :
  match_groups DATA_SIZE_PATTERN s = Some (n, u) <-> value_unit s n u.
Proof.
  unfold match_groups, DATA_SIZE_PATTERN. rewrite exec_anchored. fold value_unit_body.
  split.
  - destruct (rmatch value_unit_body Some (RState 0 s [])) as [y|] eqn:E; cbn; [|done].
    apply rmatch_sound in E as (z & Hz & [= ->]).
    apply value_unit_steps_inv in Hz as (n' & u' & V & ->). cbn. by intros [= -> ->].
  - intros V. destruct (value_unit_steps s n u V) as [z Hz].
    destruct (rmatch_complete value_unit_body Some _ z Hz ltac:(eauto)) as [y E].
    rewrite E. cbn. apply rmatch_sound in E as (z' & Hz' & [= ->]).
    apply value_unit_steps_inv in Hz' as (n' & u' & V' & ->). cbn.
    apply value_unit_cut in V. apply value_unit_cut in V'. congruence.
Qed.

Lemma match_groups_None s :
  match_groups DATA_SIZE_PATTERN s = None <-> ~ exists n u, value_unit s n u.
Proof.
  split.
  - intros E (n & u & V%match_groups_spec). congruence.
  - intros H. destruct (match_groups DATA_SIZE_PATTERN s) as [[n u]|] eqn:E; [|done].
    exfalso. apply H. exists n, u. by apply match_groups_spec.
Qed.

(** ** The value of the number group *)

Lemma digits_not_prefix c s :
  is_digit c = true -> String.prefix "Infinity" (String c s) = false.
Proof.
  intros H. cbn [String.prefix]. destruct (ascii_dec "I" c) as [<-|]; [done|done].
Qed.

Lemma parseFloat_head c s :
  is_digit c = true -> strip_sign (trim_start (String c s)) = (false, String c s).
Proof.
  intros H. cbn [trim_start]. rewrite digit_not_space by done. cbn [strip_sign].
  by rewrite !digit_not_char by done.
Qed.

(** The decimal [ip.fp] is read as the double nearest to it. *)
Lemma parseFloat_frac ip fp :
  sforall is_digit ip = true -> ip <> "" -> sforall is_digit fp = true ->
  parseFloat (ip +:+ "." +:+ fp) = num_of_decimal (dec_value (ip +:+ fp) 0) (- slen fp).
Proof.
  intros H1 H2 H3. destruct ip as [|c ip]; [done|]. pose proof H1 as [Hc _]%andb_prop.
  unfold parseFloat. change (String c ip +:+ "." +:+ fp) with (String c (ip +:+ "." +:+ fp)).
  rewrite parseFloat_head, digits_not_prefix by done.
  change (String c (ip +:+ "." +:+ fp)) with (String c ip +:+ "." +:+ fp).
  rewrite span_while_app by done. cbn [String.append]. rewrite Ascii.eqb_refl.
  rewrite <- (sapp_nil_r fp) at 1. rewrite span_while_app by done. done.
Qed.

Lemma parseFloat_int ip :
  sforall is_digit ip = true -> ip <> "" ->
  parseFloat ip = num_of_decimal (dec_value ip 0) 0.
Proof.
  intros H1 H2. destruct ip as [|c ip]; [done|]. pose proof H1 as [Hc _]%andb_prop.
  unfold parseFloat. rewrite parseFloat_head, digits_not_prefix by done.
  rewrite <- (sapp_nil_r (String c ip)) at 1. rewrite span_while_app by done.
  by rewrite sapp_nil_r.
Qed.

Lemma parseFloat_dec z : 0 <= z -> parseFloat (Z_to_dec z) = num_of_Z z.
Proof.
  intros Hz. rewrite parseFloat_int, dec_value_Z_to_dec by auto using Z_to_dec_digits, Z_to_dec_ne.
  unfold num_of_decimal. destruct (Z.eqb_spec z 0) as [->|]; [done|]. cbn. by rewrite Z.mul_1_r.
Qed.

(** ** Units *)

Definition size_units : list (string * (num -> num)) :=
  [("B", fun x => x); ("kB", fun x => x * pow2 10)%js; ("MB", fun x => x * pow2 20)%js;
   ("GB", fun x => x * pow2 30)%js; ("TB", fun x => x * pow2 40)%js; ("PB", fun x => x * pow2 50)%js].

Definition duration_units : list (string * (num -> num)) :=
  [("ns", fun x => x / 1000000)%js; ("us", fun x => x / 1000)%js; ("ms", fun x => x);
   ("s", fun x => x * 1000)%js; ("m", fun x => x * 1000 * 60)%js;
   ("h", fun x => x * 1000 * 60 * 60)%js; ("d", fun x => x * 1000 * 60 * 60 * 24)%js].

Fixpoint unit_value (table : list (string * (num -> num))) (u : string) (x : num) : option num :=
  match table with
  | [] => None
  | (u', f) :: table' => if String.eqb u u' then Some (f x) else unit_value table' u x
  end.

(** C16: the regular expressions of [parseDataSize] and [parseDuration] recognise
    exactly a decimal number followed by a unit, white space allowed around
    both: on such text the result is the number converted by its unit, [null]
    for an unknown unit; on any other text it is [null]. *)
Theorem parse_spec s :
  (forall n u, value_unit s n u ->
     parseDataSize s = unit_value size_units u (parseFloat n) /\
     parseDuration s = unit_value duration_units u (parseFloat n)) /\
  (~ (exists n u, value_unit s n u) -> parseDataSize s = None /\ parseDuration s = None).
Proof.
  unfold parseDataSize, parseDuration. change DURATION_PATTERN with DATA_SIZE_PATTERN. split.
  - intros n u V. apply match_groups_spec in V as ->. done.
  - intros H. by apply match_groups_None in H as ->.
Qed.

Lemma parse_spec_witness :
  parseDataSize " 12.5 kB" = unit_value size_units "kB" (parseFloat "12.5").
Proof.
  refine (proj1 (proj1 (parse_spec " 12.5 kB") "12.5" "kB" _)).
  apply (value_unit_intro " " "12.5" " " "kB" ""); try reflexivity; try discriminate.
  apply (number_frac "12" "5"); try reflexivity; discriminate.
Defined.

(** a byte count rendered by the coordinator as an integer is read back
    as the double nearest to it, and so is a whole number of milliseconds. *)
Theorem parse_integer_roundtrip z :
  0 <= z ->
  parseDataSize (Z_to_dec z +:+ "B") = Some (num_of_Z z) /\
  parseDuration (Z_to_dec z +:+ "ms") = Some (num_of_Z z).
Proof.
  intros Hz.
  assert (forall u, sforall is_alpha u = true -> u <> "" ->
    match_groups DATA_SIZE_PATTERN (Z_to_dec z +:+ u) = Some (Z_to_dec z, u)) as G.
  { intros u H1 H2. apply match_groups_spec.
    replace (Z_to_dec z +:+ u) with ("" +:+ Z_to_dec z +:+ "" +:+ u +:+ "") by (cbn; by rewrite sapp_nil_r).
    constructor; try done. constructor; auto using Z_to_dec_digits, Z_to_dec_ne. }
  pose proof (parseFloat_dec z Hz) as F.
  unfold parseDataSize, parseDuration. change DURATION_PATTERN with DATA_SIZE_PATTERN.
  rewrite !G by done. rewrite F. done.
Qed.

Lemma parse_integer_roundtrip_witness :
  parseDataSize (Z_to_dec 4096 +:+ "B") = Some (num_of_Z 4096).
Proof. apply (parse_integer_roundtrip 4096). lia. Defined.
