(* ===== verification/UtilsRoundtrip.v ===== *)
(** * utils.js: data sizes as text and as numbers

    How close the number [parseDataSize] reads is to the text, and how close
    the text [formatDataSize] prints is to the number. *)
From Stdlib Require Import SpecFloat.
From S2P Require Import Prelude JsString JsNumber JsNumberFacts JsRounding JsRegExp UtilsFormat UtilsParse.
Local Open Scope Z_scope.

(** ** Decimals *)

(** The text of [n / 10 ^ f]. *)
Definition decimal_text (n f : Z) : string := if f =? 0 then Z_to_dec n else point_string n f.

Lemma zeros_digits j : sforall is_digit (zeros j) = true.
Proof. by induction j. Qed.

Lemma zeros_slen j : slen (zeros j) = Z.of_nat j.
Proof. induction j as [|j IH]; [done|]. unfold slen in *. cbn [zeros String.length]. lia. Qed.

Lemma dec_value_zeros j s : dec_value (zeros j +:+ s) 0 = dec_value s 0.
Proof. by induction j as [|j IH]. Qed.

Lemma sforall_take p k s : sforall p s = true -> sforall p (stake k s) = true /\ sforall p (sdrop k s) = true.
Proof. intros H. rewrite <- (stake_sdrop k s), sforall_app in H. by apply andb_prop. Qed.

Lemma slen_ne s : 0 < slen s -> s <> "".
Proof. by intros H ->. Qed.

(** A decimal is a number of the grammar, and is read as the nearest double. *)
Lemma decimal_text_number n f : 0 <= n -> 0 <= f ->
  is_number (decimal_text n f) /\ parseFloat (decimal_text n f) = num_of_decimal n (- f).
Proof.
  intros Hn Hf. unfold decimal_text. destruct (Z.eqb_spec f 0) as [->|Hf0].
  - split; [constructor; auto using Z_to_dec_digits, Z_to_dec_ne|]. rewrite parseFloat_dec by done.
    unfold num_of_decimal. destruct (Z.eqb_spec n 0) as [->|]; [done|]. cbn. by rewrite Z.mul_1_r.
  - unfold point_string. set (ds := zeros _ +:+ Z_to_dec n).
    assert (sforall is_digit ds = true) as Hd by (unfold ds; by rewrite sforall_app, zeros_digits, Z_to_dec_digits).
    assert (f + 1 <= slen ds) as Hl by (unfold ds; rewrite slen_app, zeros_slen; lia).
    assert (dec_value ds 0 = n) as Hv by (unfold ds; by rewrite dec_value_zeros, dec_value_Z_to_dec).
    set (k := Z.to_nat (slen ds - f)). destruct (sforall_take is_digit k ds Hd) as [Hi Hq].
    assert (slen (stake k ds) = slen ds - f) as Li by (unfold slen; rewrite stake_length; unfold slen in *; lia).
    assert (slen (sdrop k ds) = f) as Lq by (unfold slen; rewrite sdrop_length; unfold slen in *; lia).
    split.
    + apply number_frac; try done; apply slen_ne; lia.
    + rewrite parseFloat_frac by (done || apply slen_ne; lia). by rewrite stake_sdrop, Hv, Lq.
Qed.

(** ** Reading a data size *)

Definition size_unit (k : nat) : string := default "" (["B"; "kB"; "MB"; "GB"; "TB"; "PB"] !! k).

Lemma value_unit_text n u : is_number n -> sforall is_alpha u = true -> u <> "" -> value_unit (n +:+ u) n u.
Proof.
  intros Hn Hu Hne. replace (n +:+ u) with ("" +:+ n +:+ "" +:+ u +:+ "") by (cbn; by rewrite sapp_nil_r). by constructor.
Qed.

Lemma parse_text n f u : 0 <= n -> 0 <= f -> sforall is_alpha u = true -> u <> "" ->
  parseDataSize (decimal_text n f +:+ u) = unit_value size_units u (num_of_decimal n (- f)).
Proof.
  intros Hn Hf Hu Hne. destruct (decimal_text_number n f Hn Hf) as [Hi <-].
  pose proof (value_unit_text _ u Hi Hu Hne) as HV. apply match_groups_spec in HV. unfold parseDataSize. by rewrite HV.
Qed.

Lemma unit_value_size k x : (k <= 5)%nat ->
  unit_value size_units (size_unit k) x = Some (if decide (k = 0%nat) then x else (x * num_of_Z (2 ^ (10 * Z.of_nat k)))%js).
Proof. intros Hk. do 6 (destruct k as [|k]; [reflexivity|]). lia. Qed.

(** The value that is read for [n / 10 ^ f] units of [2 ^ (10 * k)] bytes. *)
Lemma parse_value n f k : 0 < n < 2 ^ 53 -> 0 <= f <= 100 -> (k <= 5)%nat ->
  exists p e, parseDataSize (decimal_text n f +:+ size_unit k) = Some (S754_finite false p (e + 10 * Z.of_nat k)) /\
    is_double (S754_finite false p (e + 10 * Z.of_nat k)) = true /\ - (4 * f) - 60 <= e <= 60 /\
    2 ^ 52 * Z.abs (Zpos p * 2 ^ (e + 1074) * 10 ^ f - n * 2 ^ 1074) <= n * 2 ^ 1074.
Proof.
  intros Hn Hf Hk. destruct (num_of_decimal_accuracy n f Hn Hf) as (p & e & E & D & Hp & He & HA).
  exists p, e. split_and!; [|apply double_53; [|lia]|lia|lia|done].
  - rewrite parse_text, E, unit_value_size by (lia || by (do 6 (destruct k as [|k]; [done|]); lia)).
    case_decide; [subst; by rewrite Z.add_0_r|]. by rewrite nmul_pow2 by lia.
  - pose proof (log2_bounds (Zpos p) ltac:(lia)) as HL. rewrite Hp in HL. exact HL.
Qed.

Lemma parse_zero f k : 0 <= f -> (k <= 5)%nat -> parseDataSize (decimal_text 0 f +:+ size_unit k) = Some plus_zero.
Proof.
  intros Hf Hk. rewrite parse_text, unit_value_size by (lia || by (do 6 (destruct k as [|k]; [done|]); lia)).
  change (num_of_decimal 0 (- f)) with plus_zero. do 6 (destruct k as [|k]; [reflexivity|]). lia.
Qed.

(** The sizes: [n / 10 ^ f] units of [2 ^ (10 * k)] bytes. *)
Lemma parse_sizes n f k : 0 <= n < 2 ^ 53 -> 0 <= f <= 100 -> (k <= 5)%nat ->
  exists y, parseDataSize (decimal_text n f +:+ size_unit k) = Some y /\
    is_double y = true /\ is_finite y = true /\
    2 ^ 52 * Z.abs (scaled y * 10 ^ f - n * 2 ^ (10 * Z.of_nat k) * 2 ^ 1074) <= n * 2 ^ (10 * Z.of_nat k) * 2 ^ 1074.
Proof.
  intros Hn Hf Hk. destruct (decide (n = 0)) as [->|Hn0].
  - exists plus_zero. split; [apply parse_zero; lia|done].
  - destruct (parse_value n f k ltac:(lia) Hf Hk) as (p & e & E & D & He & HA). eexists. split_and!; [exact E|done|done|].
    cbn [scaled signed]. replace (e + 10 * Z.of_nat k + 1074) with (e + 1074 + 10 * Z.of_nat k) by lia.
    rewrite (Z.pow_add_r 2 (e + 1074)) by lia. assert (0 < 2 ^ (10 * Z.of_nat k)) as HU by (apply Z.pow_pos_nonneg; lia).
    revert HA HU. generalize (2 ^ 52), (2 ^ 1074), (2 ^ (e + 1074)), (2 ^ (10 * Z.of_nat k)), (10 ^ f). intros K S P U T HA HU.
    replace (Zpos p * (P * U) * T - n * U * S) with (U * (Zpos p * P * T - n * S)) by ring.
    rewrite Z.abs_mul, (Z.abs_eq U) by lia. replace (n * U * S) with (U * (n * S)) by ring.
    transitivity (U * (K * Z.abs (Zpos p * P * T - n * S))); [lia|]. apply Z.mul_le_mono_nonneg_l; lia.
Qed.

(** ** Reading a duration *)

(** A unit is [N / D] milliseconds. *)
Definition duration_scale : list (string * (Z * Z)) :=
  [("ns", (1, 10 ^ 6)); ("us", (1, 1000)); ("ms", (1, 1)); ("s", (1000, 1)); ("m", (1000 * 60, 1));
   ("h", (1000 * 60 * 60, 1)); ("d", (1000 * 60 * 60 * 24, 1))].

Lemma parse_duration_text n f u : 0 <= n -> 0 <= f -> sforall is_alpha u = true -> u <> "" ->
  parseDuration (decimal_text n f +:+ u) = unit_value duration_units u (num_of_decimal n (- f)).
Proof.
  intros Hn Hf Hu Hne. destruct (decimal_text_number n f Hn Hf) as [Hi <-].
  pose proof (value_unit_text _ u Hi Hu Hne) as HV. apply match_groups_spec in HV. unfold parseDuration.
  change DURATION_PATTERN with DATA_SIZE_PATTERN. by rewrite HV.
Qed.

Lemma duration_unit_alpha u N D : (u, (N, D)) ∈ duration_scale -> sforall is_alpha u = true /\ u <> "" /\ 0 < N /\ 0 < D.
Proof.
  unfold duration_scale. rewrite !elem_of_cons, elem_of_nil.
  intros [[=]|[[=]|[[=]|[[=]|[[=]|[[=]|[[=]|[]]]]]]]]; subst; done.
Qed.

Ltac times d H := eapply (approx_mul _ _ _ _ _ d) in H; [|lia..].

(** At most four roundings follow that of the decimal. *)
Lemma duration_approx n f u N D x : 0 <= n -> 0 <= f -> (u, (N, D)) ∈ duration_scale -> approx (4 * f + 60) 1 n (10 ^ f) x -> f <= 100 ->
  exists B j y, unit_value duration_units u x = Some y /\ B <= 4 * f + 148 /\ 0 <= j <= 16 /\ approx B j (n * N) (10 ^ f * D) y.
Proof.
  intros Hn Hf Hin HA Hf'. assert (0 <= 10 ^ f) by (apply Z.pow_nonneg; lia).
  assert (forall B j N' D' z, B <= 4 * f + 148 -> 0 <= j <= 16 -> approx B j N' D' z -> N' = n * N -> D' = 10 ^ f * D ->
    exists B j y, Some z = Some y /\ B <= 4 * f + 148 /\ 0 <= j <= 16 /\ approx B j (n * N) (10 ^ f * D) y) as HE.
  { intros B j N' D' z HB Hj Hz -> ->. by exists B, j, z. }
  revert Hin. unfold duration_scale. rewrite !elem_of_cons, elem_of_nil.
  intros [[=]|[[=]|[[=]|[[=]|[[=]|[[=]|[[=]|[]]]]]]]]; subst; cbn [unit_value duration_units String.eqb Ascii.eqb Bool.eqb].
  - eapply HE; [| |apply (approx_div _ _ _ _ _ (10 ^ 6) HA)|..]; lia.
  - eapply HE; [| |apply (approx_div _ _ _ _ _ 1000 HA)|..]; lia.
  - eapply HE; [| |exact HA|..]; lia.
  - times 1000 HA. eapply HE; [| |exact HA|..]; lia.
  - times 1000 HA. times 60 HA. eapply HE; [| |exact HA|..]; lia.
  - times 1000 HA. times 60 HA. times 60 HA. eapply HE; [| |exact HA|..]; lia.
  - times 1000 HA. times 60 HA. times 60 HA. times 24 HA. eapply HE; [| |exact HA|..]; lia.
Qed.

Lemma parse_durations n f u N D : 0 <= n < 2 ^ 53 -> 0 <= f <= 100 -> (u, (N, D)) ∈ duration_scale ->
  exists y, parseDuration (decimal_text n f +:+ u) = Some y /\ is_double y = true /\ is_finite y = true /\
    2 ^ 48 * Z.abs (scaled y * (10 ^ f * D) - n * N * 2 ^ 1074) <= n * N * 2 ^ 1074.
Proof.
  intros Hn Hf Hin. destruct (duration_unit_alpha u N D Hin) as (Hu & Hne & HN & HD).
  rewrite parse_duration_text by (done || lia). destruct (decide (n = 0)) as [->|Hn0].
  - exists plus_zero. split; [|done]. change (num_of_decimal 0 (- f)) with plus_zero.
    revert Hin. unfold duration_scale. rewrite !elem_of_cons, elem_of_nil.
    intros [[=]|[[=]|[[=]|[[=]|[[=]|[[=]|[[=]|[]]]]]]]]; subst; vm_compute; reflexivity.
  - destruct (duration_approx n f u N D (num_of_decimal n (- f))) as (B & j & y & E & HB & Hj & HA);
      [lia|lia|done|apply approx_decimal; lia|lia|].
    exists y. split; [done|]. destruct (approx_double _ _ _ _ _ HA ltac:(lia)) as [? ?]. split_and!; [done|done|].
    pose proof (approx_error _ _ _ _ _ HA) as HE. assert (0 < 2 ^ 1074) as HK by (apply Z.pow_pos_nonneg; lia).
    revert HE HK. generalize (scaled y * (10 ^ f * D)), (2 ^ 1074). intros Y K HE HK.
    assert (0 <= n * N * K) by (apply Z.mul_nonneg_nonneg; [apply Z.mul_nonneg_nonneg|]; lia).
    assert (j * (n * N * K) <= 16 * (n * N * K)) by (apply Z.mul_le_mono_nonneg_r; lia). lia.
Qed.

(** C18: the numbers read from what the coordinator writes.  A decimal [n / 10 ^ f]
    with [n] below [2 ^ 53] and at most 100 decimals, and one of the six units of data is read as a number of bytes that differs
    from the size by at most its [2 ^ 52]th part; with one of the seven units of
    time, as a number of milliseconds that differs from the duration by at most
    its [2 ^ 48]th part. *)
Theorem parse_accuracy n f : 0 <= n < 2 ^ 53 -> 0 <= f <= 100 ->
  (forall k, (k <= 5)%nat -> exists y, parseDataSize (decimal_text n f +:+ size_unit k) = Some y /\
    is_double y = true /\ is_finite y = true /\
    2 ^ 52 * Z.abs (scaled y * 10 ^ f - n * 2 ^ (10 * Z.of_nat k) * 2 ^ 1074) <= n * 2 ^ (10 * Z.of_nat k) * 2 ^ 1074) /\
  (forall u N D, (u, (N, D)) ∈ duration_scale -> exists y, parseDuration (decimal_text n f +:+ u) = Some y /\
    is_double y = true /\ is_finite y = true /\
    2 ^ 48 * Z.abs (scaled y * (10 ^ f * D) - n * N * 2 ^ 1074) <= n * N * 2 ^ 1074).
Proof.
  intros Hn Hf. split; [intros k Hk; by apply parse_sizes|]. intros u N D Hin. by apply parse_durations.
Qed.

Lemma parse_accuracy_witness :
  (exists y, parseDataSize "12.34MB" = Some y /\ is_double y = true /\ is_finite y = true /\
     2 ^ 52 * Z.abs (scaled y * 10 ^ 2 - 1234 * 2 ^ 20 * 2 ^ 1074) <= 1234 * 2 ^ 20 * 2 ^ 1074) /\
  exists y, parseDuration "12.34m" = Some y /\ is_double y = true /\ is_finite y = true /\
    2 ^ 48 * Z.abs (scaled y * (10 ^ 2 * 1) - 1234 * 60000 * 2 ^ 1074) <= 1234 * 60000 * 2 ^ 1074.
Proof.
  destruct (parse_accuracy 1234 2 ltac:(lia) ltac:(lia)) as [H1 H2]. split; [exact (H1 2%nat ltac:(lia))|].
  refine (H2 "m" 60000 1 _). unfold duration_scale. repeat first [left|right].
Defined.

(** ** Printing a data size *)

Lemma nlt_pos m e z : is_double (pos_finite m e) = true -> small z ->
  nlt (pos_finite m e) (num_of_Z z) = (Zpos m * 2 ^ (e + 1074) <? z * 2 ^ 1074).
Proof.
  intros D Hz. unfold nlt, SFltb. rewrite compare_pos by done. unfold Z.ltb. by destruct (_ ?= _).
Qed.

(** The fraction of a double and its scaled value. *)
Lemma scaled_mag m e : emin <= e -> Zpos m * 2 ^ (e + 1074) * mag_den e = mag_num m e * 2 ^ 1074.
Proof.
  intros He. unfold mag_num, mag_den. rewrite <- !Z.mul_assoc, <- !Z.pow_add_r by lia. do 2 f_equal. lia.
Qed.

Lemma mag_den_pos e : 0 < mag_den e.
Proof. apply Z.pow_pos_nonneg; lia. Qed.

(** The decimal is within half a unit of its last place. *)
Lemma fixed_digits_scaled m e f : 0 <= f -> emin <= e ->
  2 * Z.abs (fixed_digits m e f * 2 ^ 1074 - Zpos m * 2 ^ (e + 1074) * 10 ^ f) <= 2 ^ 1074.
Proof.
  intros Hf He. pose proof (fixed_digits_error m e f Hf) as HE. pose proof (scaled_mag m e He) as HS.
  pose proof (mag_den_pos e) as HD. revert HE HS HD.
  generalize (fixed_digits m e f), (mag_den e), (mag_num m e), (Zpos m * 2 ^ (e + 1074)), (10 ^ f).
  intros n d a X T HE HS HD. assert (0 < 2 ^ 1074) as HK by (apply Z.pow_pos_nonneg; lia).
  revert HS HK. generalize (2 ^ 1074). intros K HS HK.
  apply (Z.mul_le_mono_pos_r _ _ d); [done|].
  replace (2 * Z.abs (n * K - X * T) * d) with (2 * Z.abs (n * d - a * T) * K).
  2: { rewrite <- (Z.abs_eq d) at 2 by lia. rewrite <- (Z.abs_eq K) at 1 by lia. rewrite <- !Z.mul_assoc, <- !Z.abs_mul.
       do 2 f_equal. replace ((n * K - X * T) * d) with (n * K * d - X * d * T) by ring. rewrite HS. ring. }
  rewrite (Z.mul_comm K d). apply Z.mul_le_mono_nonneg_r; lia.
Qed.

(** The number of decimals [precisionRound] prints. *)
Definition decimals (v : num) : Z := if nlt v 10 then 2 else if nlt v 100 then 1 else 0.

Lemma decimals_range v : 0 <= decimals v <= 2.
Proof. unfold decimals. repeat case_if; lia. Qed.

(** A double below [2 ^ 52] has a negative exponent. *)
Lemma exponent_negative m e : is_double (pos_finite m e) = true -> Zpos m * 2 ^ (e + 1074) < 2 ^ 52 * 2 ^ 1074 -> e < 0.
Proof.
  intros D H. destruct (is_double_finite _ _ _ D) as [HC _]. apply Z.nle_gt. intros He.
  assert (Z.log2 (Zpos m) = 52) as Hm by lia. pose proof (log2_bounds (Zpos m) ltac:(lia)) as HL. rewrite Hm in HL.
  assert (2 ^ 1074 <= 2 ^ (e + 1074)) by (apply Z.pow_le_mono_r; lia).
  assert (2 ^ 52 * 2 ^ 1074 <= Zpos m * 2 ^ (e + 1074)) by (apply Z.mul_le_mono_nonneg; lia). lia.
Qed.

(** Bounds of the printed digits from those of the number. *)
Lemma fixed_digits_bounds m e f a b : 0 <= f -> emin <= e ->
  a * 2 ^ 1074 <= Zpos m * 2 ^ (e + 1074) < b * 2 ^ 1074 ->
  a * 10 ^ f <= fixed_digits m e f <= b * 10 ^ f.
Proof.
  intros Hf He HX. pose proof (fixed_digits_scaled m e f Hf He) as HE. assert (0 < 10 ^ f) by (apply Z.pow_pos_nonneg; lia).
  assert (0 < 2 ^ 1074) as HK by (apply Z.pow_pos_nonneg; lia). revert H HK HX HE.
  generalize (fixed_digits m e f), (Zpos m * 2 ^ (e + 1074)), (10 ^ f), (2 ^ 1074). intros n X T K HT HK HX HE.
  assert (a * K * T <= X * T <= b * K * T) as HXT by (split; apply Z.mul_le_mono_nonneg_r; lia).
  assert ((2 * (a * T) - 1) * K <= 2 * n * K) as H1 by lia. assert (2 * n * K <= (2 * (b * T) + 1) * K) as H2 by lia.
  apply Z.mul_le_mono_pos_r in H1, H2; [lia|done..].
Qed.

Lemma precisionRound_text m e : is_double (pos_finite m e) = true -> Zpos m * 2 ^ (e + 1074) < 2 ^ 50 * 2 ^ 1074 ->
  let f := decimals (pos_finite m e) in precisionRound (pos_finite m e) = decimal_text (fixed_digits m e f) f.
Proof.
  intros D HX. assert (emin <= e) as He by (apply is_double_finite in D; lia).
  assert (0 < 2 ^ 1074) as HK by (apply Z.pow_pos_nonneg; lia).
  assert (nge (pos_finite m e) (num_of_Z (10 ^ 21)) = false) as Hbig.
  { unfold nge, nle, SFleb. rewrite SFcompare_scaled by (done || (vm_compute; reflexivity)).
    change (scaled (num_of_Z (10 ^ 21))) with (10 ^ 21 * 2 ^ 1074). cbn [pos_finite scaled signed].
    replace (10 ^ 21 * 2 ^ 1074 ?= _) with Gt; [done|]. symmetry. apply Z.compare_gt_iff.
    eapply Z.lt_le_trans; [exact HX|]. apply Z.mul_le_mono_nonneg_r; lia. }
  assert (forall f, toFixed (pos_finite m e) f = point_string (fixed_digits m e f) f) as HF.
  { intros f. unfold toFixed, pos_finite in *. by rewrite Hbig. }
  unfold decimals, precisionRound. destruct (nlt (pos_finite m e) 10); [apply HF|].
  destruct (nlt (pos_finite m e) 100) eqn:E100; [apply HF|]. cbv zeta.
  rewrite nlt_pos in E100 by (done || (unfold small; lia)). apply Z.ltb_ge in E100.
  assert (e < 0) as He0.
  { apply (exponent_negative m e D). etrans; [exact HX|]. apply Z.mul_lt_mono_pos_r; lia. }
  pose proof (fixed_digits_bounds m e 0 100 (2 ^ 50) ltac:(lia) He (conj E100 HX)) as HB. change (10 ^ 0) with 1 in HB.
  unfold pos_finite, math_round. replace (0 <=? e) with false by lia. cbn [signed].
  replace ((2 * mag_num m e + mag_den e) / (2 * mag_den e)) with (fixed_digits m e 0)
    by (unfold fixed_digits; do 2 f_equal; lia).
  replace (fixed_digits m e 0 =? 0) with false by lia. by rewrite num_to_string_int by lia.
Qed.

(** The letters [formatDataSize] prints after the number. *)
Definition printed_unit (k : nat) : string := default "" (["B"; "KB"; "MB"; "GB"; "TB"; "PB"] !! k).

Lemma scaled_shift m e j : 0 <= j -> emin <= e - j -> Zpos m * 2 ^ (e + 1074) = Zpos m * 2 ^ (e - j + 1074) * 2 ^ j.
Proof. intros Hj He. rewrite <- Z.mul_assoc, <- Z.pow_add_r by lia. do 2 f_equal. lia. Qed.

(** How a size below 1024 petabytes is printed: [k] is the unit it falls into. *)
Lemma printed_size m e : is_double (pos_finite m e) = true ->
  Zpos m * 2 ^ (e + 1074) < 2 ^ 60 * 2 ^ 1074 ->
  exists k, (k <= 5)%nat /\
    let v := pos_finite m (e - 10 * Z.of_nat k) in
    is_double v = true /\ emin <= e - 10 * Z.of_nat k /\ scaled v < 1024 * 2 ^ 1074 /\
    ((0 < k)%nat -> 2 ^ 1074 <= scaled v) /\
    formatDataSize (pos_finite m e) = decimal_text (fixed_digits m (e - 10 * Z.of_nat k) (decimals v)) (decimals v) +:+ printed_unit k.
Proof.
  intros D HX. destruct (scale_loop_size ["K"; "M"; "G"; "T"; "P"] m e "B" D) as (k & Hk & E & DV & H1 & H2).
  exists k. split; [exact Hk|]. cbv zeta in *. set (e' := e - 10 * Z.of_nat k) in *.
  assert (emin <= e') as He by (apply is_double_finite in DV; lia).
  assert (Zpos m * 2 ^ (e' + 1074) < 1024 * 2 ^ 1074) as HV.
  { destruct (decide (k = 5%nat)) as [->|Hk5].
    - rewrite (scaled_shift m e 50) in HX by lia. change (e - 50) with e' in HX.
      change (2 ^ 60) with (1024 * 2 ^ 50) in HX.
      apply (Z.mul_lt_mono_pos_r (2 ^ 50)); [done|]. eapply Z.lt_le_trans; [exact HX|]. apply Z.eq_le_incl. ring.
    - assert (k < 5)%nat as Hk' by (cbn in Hk; lia). specialize (H1 Hk').
      rewrite nge_pos in H1 by (done || (unfold small; lia)). by apply Z.leb_gt in H1. }
  split_and!; [done|done|exact HV| |].
  - intros Hk0. specialize (H2 Hk0). rewrite nge_pos in H2 by (done || (unfold small; lia)).
    apply Z.leb_le in H2. by rewrite Z.mul_1_l in H2.
  - pose proof (formatDataSize_scale (pos_finite m e) "B" eq_refl) as F. unfold size_table in F. rewrite E in F.
    unfold formatDataSize. rewrite F, precisionRound_text by (done || lia). f_equal.
    cbn in Hk. do 6 (destruct k as [|k]; [reflexivity|]). lia.
Qed.

(** Two errors: of the decimal [n], and of the double [P] read for it. *)
Lemma errors_add P X T K n : 0 < K -> 0 <= n <= 2 ^ 17 ->
  2 ^ 52 * Z.abs (P * T - n * K) <= n * K -> 2 * Z.abs (n * K - X * T) <= K -> Z.abs (P - X) * T <= Z.abs (P * T - X * T) <= K.
Proof.
  intros HK Hn H1 H2. split.
  - rewrite <- Z.mul_sub_distr_r, Z.abs_mul. apply Z.mul_le_mono_nonneg_l; lia.
  - assert (n * K <= 2 ^ 17 * K) by (apply Z.mul_le_mono_nonneg_r; lia). lia.
Qed.

(** The size that is read from a printed decimal, in the unit [k] of [x]. *)
Lemma read_back X n f k : 0 < 10 ^ f -> 0 <= f <= 100 -> 0 <= n <= 2 ^ 17 -> (k <= 5)%nat ->
  2 * Z.abs (n * 2 ^ 1074 - X * 10 ^ f) <= 2 ^ 1074 ->
  exists y, parseDataSize (decimal_text n f +:+ size_unit k) = Some y /\
    Z.abs (scaled y - X * 2 ^ (10 * Z.of_nat k)) * 10 ^ f <= 2 ^ (10 * Z.of_nat k) * 2 ^ 1074.
Proof.
  intros HT Hf Hn Hk HX. assert (0 < 2 ^ 1074) as HK by (apply Z.pow_pos_nonneg; lia).
  assert (0 < 2 ^ (10 * Z.of_nat k)) as HU by (apply Z.pow_pos_nonneg; lia).
  assert (exists y P, parseDataSize (decimal_text n f +:+ size_unit k) = Some y /\
    scaled y = P * 2 ^ (10 * Z.of_nat k) /\ 2 ^ 52 * Z.abs (P * 10 ^ f - n * 2 ^ 1074) <= n * 2 ^ 1074) as (y & P & Ey & Hy & HP).
  { destruct (decide (n = 0)) as [->|Hn0]; [exists plus_zero, 0; split_and!; [apply parse_zero; lia|done|done]|].
    destruct (parse_value n f k ltac:(lia) Hf Hk) as (p & e & E & D & He & HA).
    eexists _, (Zpos p * 2 ^ (e + 1074)). split_and!; [exact E| |exact HA]. cbn [scaled signed].
    rewrite (scaled_shift p (e + 10 * Z.of_nat k) (10 * Z.of_nat k)) by lia. do 3 f_equal. lia. }
  exists y. split; [exact Ey|]. rewrite Hy, <- Z.mul_sub_distr_r, Z.abs_mul, (Z.abs_eq (2 ^ _)) by lia.
  destruct (errors_add P X (10 ^ f) (2 ^ 1074) n HK Hn HP HX) as [H1 H2]. revert HU H1 H2.
  generalize (2 ^ (10 * Z.of_nat k)), (2 ^ 1074), (10 ^ f). intros U K T HU H1 H2.
  replace (Z.abs (P - X) * U * T) with (U * (Z.abs (P - X) * T)) by ring. apply Z.mul_le_mono_nonneg_l; lia.
Qed.

(** C29: a positive size below 1024 petabytes is printed in the unit it falls
    into, with two, one or no decimals, to within half a unit of the last
    place.  Read back, it is within one unit of the last place; only a size that
    is printed in kilobytes is not read back at all, since the printer writes KB
    and the reader knows kB. *)
Theorem size_roundtrip m e :
  is_double (S754_finite false m e) = true -> nlt (S754_finite false m e) (num_of_Z (2 ^ 60)) = true ->
  let x := S754_finite false m e in
  exists k n f, (k <= 5)%nat /\ 0 <= f <= 2 /\
    ((0 < k)%nat -> 2 ^ (10 * Z.of_nat k) * 2 ^ 1074 <= scaled x) /\
    scaled x < 2 ^ (10 * Z.of_nat (S k)) * 2 ^ 1074 /\
    formatDataSize x = decimal_text n f +:+ printed_unit k /\
    2 * Z.abs (n * (2 ^ (10 * Z.of_nat k) * 2 ^ 1074) - scaled x * 10 ^ f) <= 2 ^ (10 * Z.of_nat k) * 2 ^ 1074 /\
    if decide (k = 1%nat) then parseDataSize (formatDataSize x) = None
    else exists y, parseDataSize (formatDataSize x) = Some y /\
      Z.abs (scaled y - scaled x) * 10 ^ f <= 2 ^ (10 * Z.of_nat k) * 2 ^ 1074.
Proof.
  intros D HX x. assert (Zpos m * 2 ^ (e + 1074) < 2 ^ 60 * 2 ^ 1074) as HX'.
  { unfold nlt, SFltb in HX. rewrite SFcompare_scaled in HX by (done || (vm_compute; reflexivity)).
    change (scaled (num_of_Z (2 ^ 60))) with (2 ^ 60 * 2 ^ 1074) in HX. cbn [scaled signed] in HX.
    by destruct (Z.compare_spec (Zpos m * 2 ^ (e + 1074)) (2 ^ 60 * 2 ^ 1074)). }
  destruct (printed_size m e D HX') as (k & Hk & DV & He & HV & HV1 & EF).
  set (v := pos_finite m (e - 10 * Z.of_nat k)) in *. set (f := decimals v) in *.
  set (n := fixed_digits m (e - 10 * Z.of_nat k) f) in *. pose proof (decimals_range v) as Hf. fold f in Hf.
  assert (0 < 10 ^ f) as HT by (apply Z.pow_pos_nonneg; lia).
  assert (10 ^ f <= 100) as HT' by (change 100 with (10 ^ 2); apply Z.pow_le_mono_r; lia).
  assert (0 < 2 ^ 1074) as HK by (apply Z.pow_pos_nonneg; lia).
  assert (0 < 2 ^ (10 * Z.of_nat k)) as HU by (apply Z.pow_pos_nonneg; lia).
  assert (scaled x = scaled v * 2 ^ (10 * Z.of_nat k)) as Hx by (apply scaled_shift; lia).
  pose proof (scaled_pos m _ He) as HVP. change (Zpos m * 2 ^ _) with (scaled v) in HVP.
  pose proof (fixed_digits_scaled m _ f ltac:(lia) He) as HE. fold n in HE. change (Zpos m * 2 ^ _) with (scaled v) in HE.
  assert (0 <= n <= 2 ^ 17) as Hn.
  { pose proof (fixed_digits_bounds m _ f 0 1024 ltac:(lia) He) as HB. change (Zpos m * 2 ^ _) with (scaled v) in HB.
    fold n in HB. specialize (HB ltac:(split; [apply Z.lt_le_incl, HVP|exact HV])). lia. }
  destruct (read_back (scaled v) n f k HT ltac:(lia) Hn Hk HE) as (y & Ey & Hy). rewrite <- Hx in Hy.
  exists k, n, f. split_and!; [done|lia|lia| | |done| |].
  - intros Hk0. rewrite Hx, Z.mul_comm. apply Z.mul_le_mono_nonneg_r; [lia|by apply HV1].
  - replace (10 * Z.of_nat (S k)) with (10 + 10 * Z.of_nat k) by lia. rewrite Hx, Z.pow_add_r by lia.
    change (2 ^ 10) with 1024. revert HV HU. generalize (2 ^ (10 * Z.of_nat k)), (2 ^ 1074), (scaled v). intros U K X HV HU.
    replace (1024 * U * K) with (1024 * K * U) by ring. by apply Z.mul_lt_mono_pos_r.
  - rewrite Hx. revert HE HU. generalize (2 ^ (10 * Z.of_nat k)), (2 ^ 1074), (10 ^ f), (scaled v). intros U K T X HE HU.
    replace (n * (U * K) - X * U * T) with (U * (n * K - X * T)) by ring. rewrite Z.abs_mul, (Z.abs_eq U) by lia.
    replace (2 * (U * Z.abs (n * K - X * T))) with (U * (2 * Z.abs (n * K - X * T))) by ring.
    apply Z.mul_le_mono_nonneg_l; lia.
  - change (formatDataSize x) with (formatDataSize (pos_finite m e)). rewrite EF. case_decide as Hk1.
    + subst k. by rewrite parse_text by (done || lia).
    + exists y. split; [|done]. rewrite <- Ey. do 2 f_equal. do 6 (destruct k as [|k]; [done|]). lia.
Qed.

Lemma size_roundtrip_witness :
  let x := S754_finite false (5 * 2 ^ 50) (-24) in
  is_double x = true /\ exists k n f, formatDataSize x = decimal_text n f +:+ printed_unit k /\
    2 * Z.abs (n * (2 ^ (10 * Z.of_nat k) * 2 ^ 1074) - scaled x * 10 ^ f) <= 2 ^ (10 * Z.of_nat k) * 2 ^ 1074.
Proof.
  split; [reflexivity|].
  destruct (size_roundtrip (5 * 2 ^ 50) (-24)) as (k & n & f & _ & _ & _ & _ & H1 & H2 & _);
    [reflexivity|vm_compute; reflexivity|]. exists k, n, f. split; [exact H1|exact H2].
Defined.
