(* ===== verification/UtilsAccuracy.v ===== *)
(** * utils.js: accuracy of the printed durations and counts

    [formatDuration] and [formatCount] divide by the sizes of their units one
    after the other, rounding each time, and print the last quotient with two,
    one or no decimals. *)
From Stdlib Require Import SpecFloat.
From S2P Require Import Prelude JsString JsNumber JsNumberFacts JsRounding UtilsFormat UtilsRoundtrip.
Local Open Scope Z_scope.

(** ** The scaling loop on approximations *)

(** The table of a formatter: the number of units in the next one. *)
Definition table_of (units : list (Z * string)) : list (num * string) := map (fun e => (num_of_Z e.1, e.2)) units.

Definition unit_size (units : list (Z * string)) (k : nat) : Z := foldr (fun e d => e.1 * d) 1 (take k units).
Definition unit_name (u : string) (units : list (Z * string)) (k : nat) : string :=
  if decide (k = 0%nat) then u else default "" (snd <$> units !! pred k).

Lemma unit_size_pos units k : Forall (fun e => 0 < e.1) units -> 0 < unit_size units k.
Proof.
  intros H. unfold unit_size. apply (Forall_take _ k) in H. induction H as [|e l He _ IH]; cbn; lia.
Qed.

(** A quotient by [D] units that was rounded [j / 2] times. *)
Definition scaled_by (B j X D : Z) (x : num) : Prop := approx B j X (2 ^ 1074 * D) x.

Lemma scaled_by_error B j X D x : scaled_by B j X D x -> 2 ^ 52 * Z.abs (scaled x * D - X) <= j * X.
Proof.
  intros [_ HE]. assert (0 < 2 ^ 1074) as HK by (apply Z.pow_pos_nonneg; lia). revert HE HK. generalize (2 ^ 1074). intros K HE HK.
  replace (scaled x * (K * D) - X * K) with (K * (scaled x * D - X)) in HE by ring.
  rewrite Z.abs_mul, (Z.abs_eq K) in HE by lia. apply (Z.mul_le_mono_pos_r _ _ K); [done|]. lia.
Qed.

Lemma ngt_scaled B j X D x z : scaled_by B j X D x -> B <= 900 -> small z ->
  ngt x (num_of_Z z) = (z * 2 ^ 1074 <? scaled x).
Proof.
  intros H HB Hz. destruct (approx_double _ _ _ _ _ H HB) as [Dx Fx]. unfold ngt, nlt, SFltb.
  rewrite SFcompare_scaled by auto using is_double_num_of_Z, is_finite_num_of_Z.
  rewrite scaled_num_of_Z by done. unfold Z.ltb. by destruct (_ ?= _).
Qed.

Lemma scale_units units : forall B j X D x u,
  Forall (fun e => 0 < e.1 < 2 ^ 20) units -> scaled_by B j X D x -> 0 <= X -> 0 < D -> 0 <= j -> B + 22 * Z.of_nat (length units) <= 800 ->
  j + 2 * Z.of_nat (length units) <= 1000 ->
  exists k v, (k <= length units)%nat /\ scale_loop ngt (table_of units) x u = (v, unit_name u units k) /\
    scaled_by (B + 22 * Z.of_nat k) (j + 2 * Z.of_nat k) X (D * unit_size units k) v /\
    (forall e, units !! k = Some e -> scaled v <= e.1 * 2 ^ 1074) /\
    ((0 < k)%nat -> 2 ^ 40 * X >= (2 ^ 40 - 1) * (D * unit_size units k * 2 ^ 1074)).
Proof.
  induction units as [|[z name] units IH]; intros B j X D x u HU HS HX HD Hj HB Hn.
  - exists 0%nat, x. cbn. rewrite !Z.add_0_r, Z.mul_1_r. split_and!; [lia|done|done|done|lia].
  - apply Forall_cons in HU as [Hz HU]. cbn [table_of map scale_loop fst snd] in *. cbn [length] in *.
    rewrite (ngt_scaled B j X D x z HS) by (unfold small; lia). destruct (Z.ltb_spec (z * 2 ^ 1074) (scaled x)) as [Hlt|Hge].
    + assert (scaled_by (B + 22) (j + 2) X (D * z) (x / num_of_Z z)%js) as HS'.
      { unfold scaled_by in *. rewrite Z.mul_assoc. apply approx_div; done || lia. }
      destruct (IH (B + 22) (j + 2) X (D * z) (x / num_of_Z z)%js name HU HS') as (k & v & Hk & E & HV & Hlim & Hlow); [lia..|].
      exists (S k), v. split_and!; [lia| | | |].
      * fold (table_of units). rewrite E. f_equal. unfold unit_name. destruct k as [|k]; [done|]. by case_decide.
      * replace (unit_size ((z, name) :: units) (S k)) with (z * unit_size units k) by done.
        replace (B + 22 * Z.of_nat (S k)) with (B + 22 + 22 * Z.of_nat k) by lia.
        replace (j + 2 * Z.of_nat (S k)) with (j + 2 + 2 * Z.of_nat k) by lia. by rewrite Z.mul_assoc.
      * exact Hlim.
      * intros _. replace (unit_size ((z, name) :: units) (S k)) with (z * unit_size units k) by done.
        rewrite (Z.mul_assoc D z).
        destruct k as [|k]; [|apply Hlow; lia]. change (unit_size units 0) with 1. rewrite Z.mul_1_r.
        pose proof (scaled_by_error _ _ _ _ _ HS) as HE. revert Hlt HE. generalize (2 ^ 1074), (scaled x). intros K V Hlt HE.
        assert (z * K * D <= V * D) by (apply Z.mul_le_mono_nonneg_r; lia).
        assert (j * X <= 1000 * X) by (apply Z.mul_le_mono_nonneg_r; lia). lia.
    + exists 0%nat, x. split_and!; [lia|done| | |lia].
      * cbn. by rewrite !Z.add_0_r, Z.mul_1_r.
      * intros e [= <-]. exact Hge.
Qed.

(** ** Printing *)

(** The errors of the printed decimal [n] and of the quotient [V]. *)
Lemma printed_error n V T K D X j : 0 < K -> 0 < D -> 0 < T -> 0 <= X -> 0 <= j <= 10 ->
  2 * Z.abs (n * K - V * T) <= K -> 2 ^ 52 * Z.abs (V * D - X) <= j * X ->
  2 ^ 52 * Z.abs (n * (D * K) - X * T) <= 2 ^ 51 * (D * K) + 10 * (X * T).
Proof.
  intros HK HD HT HX Hj H1 H2.
  assert (j * X <= 10 * X) by (apply Z.mul_le_mono_nonneg_r; lia).
  assert (2 ^ 52 * (Z.abs (V * D - X) * T) <= 10 * (X * T)) as H4.
  { rewrite !Z.mul_assoc. apply Z.mul_le_mono_nonneg_r; lia. }
  assert (Z.abs (V * D * T - X * T) <= Z.abs (V * D - X) * T) as H6.
  { rewrite <- Z.mul_sub_distr_r, Z.abs_mul, (Z.abs_eq T) by lia. lia. }
  assert (2 * Z.abs (n * (D * K) - V * D * T) <= D * K) as H7.
  { replace (n * (D * K) - V * D * T) with (D * (n * K - V * T)) by ring. rewrite Z.abs_mul, (Z.abs_eq D) by lia.
    replace (2 * (D * Z.abs (n * K - V * T))) with (D * (2 * Z.abs (n * K - V * T))) by ring. apply Z.mul_le_mono_nonneg_l; lia. }
  lia.
Qed.

(** [X] is at most [b], and at least [a], up to the [2 ^ 40]th part. *)
Definition at_most (X b : Z) : Prop := 2 ^ 40 * X <= (2 ^ 40 + 1) * b.
Definition at_least (X a : Z) : Prop := (2 ^ 40 - 1) * a <= 2 ^ 40 * X.

(** A text that prints [X], in one of the units, with a number of decimals
    that depends on how many units there are. *)
Definition printed_as (u : string) (units : list (Z * string)) (X : Z) (text : string) : Prop :=
  exists k n f, (k <= length units)%nat /\ text = decimal_text n f +:+ unit_name u units k /\
    let unit := unit_size units k * 2 ^ 1074 in
    2 ^ 52 * Z.abs (n * unit - X * 10 ^ f) <= 2 ^ 51 * unit + 10 * (X * 10 ^ f) /\
    ((0 < k)%nat -> at_least X unit) /\ (forall e, units !! k = Some e -> at_most X (e.1 * unit)) /\
    ((f = 2 /\ at_most X (10 * unit)) \/ (f = 1 /\ at_least X (10 * unit) /\ at_most X (100 * unit)) \/
     (f = 0 /\ at_least X (100 * unit))).

(** The quotient [V] and the number [X] it approximates compare alike. *)
Lemma quotient_compare V D X K j z : 0 < D -> 0 <= X -> 0 <= j <= 10 -> 2 ^ 52 * Z.abs (V * D - X) <= j * X ->
  (V <= z * K -> at_most X (z * (D * K))) /\ (z * K <= V -> at_least X (z * (D * K))).
Proof.
  intros HD HX Hj HE. assert (j * X <= 10 * X) by (apply Z.mul_le_mono_nonneg_r; lia). unfold at_most, at_least.
  replace (z * (D * K)) with (z * K * D) by ring.
  split; intros HV; [assert (V * D <= z * K * D)|assert (z * K * D <= V * D)];
    try (apply Z.mul_le_mono_nonneg_r; lia); lia.
Qed.

Lemma decimals_cases m e : is_double (pos_finite m e) = true ->
  let V := Zpos m * 2 ^ (e + 1074) in
  let f := decimals (pos_finite m e) in
  (f = 2 /\ V <= 10 * 2 ^ 1074) \/ (f = 1 /\ 10 * 2 ^ 1074 <= V /\ V <= 100 * 2 ^ 1074) \/ (f = 0 /\ 100 * 2 ^ 1074 <= V).
Proof.
  intros D. cbv zeta. unfold decimals. rewrite !nlt_pos by (done || (unfold small; lia)).
  destruct (Z.ltb_spec (Zpos m * 2 ^ (e + 1074)) (10 * 2 ^ 1074)); [left; lia|].
  destruct (Z.ltb_spec (Zpos m * 2 ^ (e + 1074)) (100 * 2 ^ 1074)); right; [left; lia|right; lia].
Qed.

(** A positive double is its own approximation. *)
Lemma scaled_by_self p e : Z.log2 (Zpos p) = 52 -> -500 <= e <= 500 ->
  scaled_by 500 0 (scaled (S754_finite false p e)) 1 (S754_finite false p e).
Proof.
  intros Hp He. split; [by exists p, e|]. rewrite Z.mul_1_r, Z.sub_diag. change (Z.abs 0) with 0. lia.
Qed.

Lemma scale_prints u units p e :
  Forall (fun e => 0 < e.1 <= 1000) units -> (length units <= 5)%nat -> Z.log2 (Zpos p) = 52 -> -500 <= e <= 500 ->
  let x := S754_finite false p e in
  scaled x <= 2 ^ 49 * (unit_size units (length units) * 2 ^ 1074) ->
  let '(v, name) := scale_loop ngt (table_of units) x u in printed_as u units (scaled x) (precisionRound v +:+ name).
Proof.
  intros HU Hl Hp He x HX. assert (0 < scaled x) as HX0 by (apply scaled_pos; lia).
  destruct (scale_units units 500 0 (scaled x) 1 x u) as (k & v & Hk & -> & HV & Hlim & Hlow); [|by apply scaled_by_self|lia..|].
  { eapply Forall_impl; [exact HU|]. cbn. lia. }
  rewrite Z.mul_1_l in *. set (D := unit_size units k) in *.
  assert (0 < D) as HD by (apply unit_size_pos; eapply Forall_impl; [exact HU|cbn; lia]).
  pose proof (scaled_by_error _ _ _ _ _ HV) as HE. set (j := 0 + 2 * Z.of_nat k) in *.
  destruct (approx_double _ _ _ _ _ HV ltac:(lia)) as [DV _]. destruct (approx_form _ _ _ _ _ HV) as (m & e' & -> & Hm & He').
  assert (0 <= j <= 10) as Hj by lia.
  assert (j * scaled x <= 10 * scaled x) as HjX by (apply Z.mul_le_mono_nonneg_r; lia).
  assert (0 < 2 ^ 1074) as HK by (apply Z.pow_pos_nonneg; lia).
  assert (scaled (pos_finite m e') < 2 ^ 50 * 2 ^ 1074) as HV'.
  { destruct (units !! k) as [[z nm]|] eqn:Ek.
    - specialize (Hlim _ eq_refl). rewrite Forall_forall in HU. specialize (HU (z, nm) ltac:(by eapply list_elem_of_lookup_2)).
      cbn [fst] in *. change (pos_finite m e') with (S754_finite false m e').
      assert (z * 2 ^ 1074 <= 1000 * 2 ^ 1074) by (apply Z.mul_le_mono_nonneg_r; lia). lia.
    - apply lookup_ge_None in Ek. assert (k = length units) as -> by lia. fold D in HX.
      apply (Z.mul_lt_mono_pos_r D); [done|]. change (pos_finite m e') with (S754_finite false m e').
      assert (0 < D * 2 ^ 1074) as HP by (by apply Z.mul_pos_pos).
      replace (2 ^ 50 * 2 ^ 1074 * D) with (2 ^ 50 * (D * 2 ^ 1074)) by ring.
      revert HE HX HP HjX HX0. generalize (D * 2 ^ 1074), (scaled x), (scaled (S754_finite false m e') * D). intros P X VD. lia. }
  assert (forall z, (scaled (pos_finite m e') <= z * 2 ^ 1074 -> at_most (scaled x) (z * (D * 2 ^ 1074))) /\
    (z * 2 ^ 1074 <= scaled (pos_finite m e') -> at_least (scaled x) (z * (D * 2 ^ 1074)))) as HQ
    by (intros z; apply (quotient_compare _ _ _ _ j); done || lia).
  exists k, (fixed_digits m e' (decimals (pos_finite m e'))), (decimals (pos_finite m e')).
  pose proof (decimals_range (pos_finite m e')) as Hf. cbv zeta. fold D.
  split_and!; [done| | | | |].
  - f_equal. apply (precisionRound_text m e' DV). exact HV'.
  - apply (printed_error _ (scaled (pos_finite m e')) _ _ _ _ j); try done; try lia.
    apply fixed_digits_scaled; lia.
  - intros Hk0. specialize (Hlow Hk0). unfold at_least. lia.
  - intros [z nm] Ek. apply HQ. exact (Hlim _ Ek).
  - destruct (decimals_cases m e' DV) as [[H1 H2]|[(H1 & H2 & H3)|[H1 H2]]]; [left|right; left|right; right];
      (split; [exact H1|]); [|split|]; by apply HQ.
Qed.

(** ** The formatters *)

Definition time_units : list (Z * string) := [(1000, "s"); (60, "m"); (60, "h"); (24, "d"); (7, "w")].
Definition count_units : list (Z * string) := [(1000, "K"); (1000, "M"); (1000, "B"); (1000, "T"); (1000, "Q")].

(** C30: what [formatDuration] and [formatCount] print.  A normal double from
    [2 ^ -448] up to [2 ^ 49] weeks is printed as a number of milliseconds,
    seconds, minutes, hours, days or weeks, one up to [2 ^ 49] Q as a count with
    one of the six units, each in the unit it falls into, and with two decimals
    below 10 units, one below 100 and none above (both up to the [2 ^ 40]th
    part): the printed number differs from the given one by at most half a unit
    of its last place and ten [2 ^ 52]th parts of the number, which is what the
    rounded divisions on the way can cost. *)
Theorem format_accuracy p e :
  Z.log2 (Zpos p) = 52 -> -500 <= e <= 500 ->
  let x := S754_finite false p e in
  (scaled x <= 2 ^ 49 * (604800000 * 2 ^ 1074) -> printed_as "ms" time_units (scaled x) (formatDuration x)) /\
  (scaled x <= 2 ^ 49 * (10 ^ 15 * 2 ^ 1074) -> printed_as "" count_units (scaled x) (formatCount x)).
Proof.
  intros Hp He x. split; intros HX.
  - pose proof (scale_prints "ms" time_units p e) as HS. pose proof (formatDuration_scale x) as HF.
    change duration_table with (table_of time_units) in HF. fold x in HS. cbv zeta in HS.
    destruct (scale_loop ngt (table_of time_units) x "ms") as [v name]. rewrite HF.
    apply HS; [repeat constructor; cbn; lia|cbn; lia|done|done|exact HX].
  - pose proof (scale_prints "" count_units p e) as HS. pose proof (formatCount_scale x) as HF.
    change count_table with (table_of count_units) in HF. fold x in HS. cbv zeta in HS.
    destruct (scale_loop ngt (table_of count_units) x "") as [v name]. rewrite HF.
    apply HS; [repeat constructor; cbn; lia|cbn; lia|done|done|exact HX].
Qed.

Lemma format_accuracy_witness :
  let x := S754_finite false (5 * 2 ^ 50) (-24) in
  printed_as "ms" time_units (scaled x) (formatDuration x) /\ printed_as "" count_units (scaled x) (formatCount x).
Proof.
  destruct (format_accuracy (5 * 2 ^ 50) (-24)) as [H1 H2]; [reflexivity|lia|].
  split; [apply H1|apply H2]; vm_compute; discriminate.
Defined.
