(* ===== verification/JsDate.v ===== *)
(** * JavaScript dates

    [Date.parse] on the complete ISO form the coordinator emits,
    "YYYY-MM-DDTHH:mm:ss.sssZ" (any other text is NaN), and the local-time
    fields of a [Date], for a time zone given by its offset from UTC in
    milliseconds. *)
From S2P Require Import Prelude JsString JsNumber UtilsText.
Local Open Scope Z_scope.

(** Days since 1970-01-01 of a date of the Gregorian calendar. *)
Definition days_from_civil (y m d : Z) : Z :=
  let y := if m <=? 2 then y - 1 else y in
  let era := y / 400 in
  let yoe := y - era * 400 in
  let doy := (153 * (m + (if 2 <? m then -3 else 9)) + 2) / 5 + d - 1 in
  let doe := yoe * 365 + yoe / 4 - yoe / 100 + doy in
  era * 146097 + doe - 719468.

Definition civil_from_days (z : Z) : Z * Z * Z :=
  let z := z + 719468 in
  let era := z / 146097 in
  let doe := z - era * 146097 in
  let yoe := (doe - doe / 1460 + doe / 36524 - doe / 146096) / 365 in
  let doy := doe - (365 * yoe + yoe / 4 - yoe / 100) in
  let mp := (5 * doy + 2) / 153 in
  let d := doy - (153 * mp + 2) / 5 + 1 in
  let m := if mp <? 10 then mp + 3 else mp - 9 in
  (yoe + era * 400 + (if m <=? 2 then 1 else 0), m, d).

Definition leap (y : Z) : bool :=
  (y mod 4 =? 0) && (negb (y mod 100 =? 0) || (y mod 400 =? 0)).

Definition days_in_month (y m : Z) : Z :=
  if m =? 2 then (if leap y then 29 else 28)
  else if (m =? 4) || (m =? 6) || (m =? 9) || (m =? 11) then 30 else 31.

(** The decimal field of [len] characters at [from]. *)
Definition field (s : string) (from len : nat) : option Z :=
  let t := stake len (sdrop from s) in
  if sforall is_digit t && Nat.eqb (String.length t) len then Some (dec_value t 0) else None.

Definition sep (s : string) (at_ : Z) (c : string) : bool := String.eqb (charAt s at_) c.

Definition Date_parse (s : string) : num :=
  let shape := (slen s =? 24) && sep s 4 "-" && sep s 7 "-" && sep s 10 "T" && sep s 13 ":"
               && sep s 16 ":" && sep s 19 "." && sep s 23 "Z" in
  match field s 0 4, field s 5 2, field s 8 2, field s 11 2, field s 14 2, field s 17 2, field s 20 3 with
  | Some y, Some mo, Some d, Some h, Some mi, Some sec, Some ms =>
      if shape && (1 <=? mo) && (mo <=? 12) && (1 <=? d) && (d <=? days_in_month y mo)
         && (h <=? 23) && (mi <=? 59) && (sec <=? 59)
      then num_of_Z (((days_from_civil y mo d * 24 + h) * 60 + mi) * 60000 + sec * 1000 + ms)
      else nan
  | _, _, _, _, _, _, _ => nan
  end.

(** The fields of the instant [t] in a zone [offset] ahead of UTC. *)
Definition local_date (offset t : Z) : Date :=
  let t := t + offset in
  let days := t / 86400000 in
  let ms := t mod 86400000 in
  let '(y, m, d) := civil_from_days days in
  {| getFullYear := y; getMonth := m - 1; getDate := d;
     getHours := ms / 3600000; getMinutes := (ms / 60000) mod 60 |}.

Example date_ex : Date_parse "2019-03-01T12:34:56.789Z" = num_of_Z 1551443696789.
Proof. vm_compute. reflexivity. Qed.

Example date_ex2 : formatShortDateTime (local_date 0 1551443696789) = "2019-03-01 12:34pm".
Proof. vm_compute. reflexivity. Qed.
