(* ===== verification/JsJson.v ===== *)
(** * JSON.parse

    The live plan page parses the plan of each stage with [JSON.parse].  A
    recursive-descent parser over the grammar of JSON; the fuel bounds the
    nesting and is never the reason for a failure ([value_fuel]).  Strings are
    Latin-1 here, so an escape beyond [\u00ff] has no value in the model. *)
From S2P Require Import Prelude JsString JsNumber JsObject.
Local Open Scope Z_scope.

Inductive json :=
| JNull
| JBool (b : bool)
| JNum (n : num)
| JStr (s : string)
| JArr (l : list json)
| JObj (o : list (string * json)).

(** White space of the grammar: tab, line feed, carriage return, space. *)
Definition json_space (c : ascii) : bool :=
  let n := nat_of_ascii c in Nat.eqb n 9 || Nat.eqb n 10 || Nat.eqb n 13 || Nat.eqb n 32.

Fixpoint skip (s : string) : string :=
  match s with
  | String c s' => if json_space c then skip s' else s
  | "" => ""
  end.

(** The rest after an expected character, white space skipped before it. *)
Definition token (c : ascii) (s : string) : option string :=
  match skip s with
  | String d s' => if Ascii.eqb c d then Some s' else None
  | "" => None
  end.

Definition keyword (k : string) (s : string) : option string :=
  if String.prefix k s then Some (sdrop (String.length k) s) else None.

(** The code of four hexadecimal digits. *)
Definition hex4 (s : string) : option (Z * string) :=
  let d := stake 4 s in
  if Nat.eqb (String.length d) 4 && sforall is_hex_digit d then Some (hex_value d 0, sdrop 4 s) else None.

(** The character of a one-letter escape. *)
Definition escape (c : ascii) : option ascii :=
  let n := nat_of_ascii c in
  if Nat.eqb n 34 || Nat.eqb n 92 || Nat.eqb n 47 then Some c
  else if Ascii.eqb c "b" then Some (ascii_of_nat 8)
  else if Ascii.eqb c "f" then Some (ascii_of_nat 12)
  else if Ascii.eqb c "n" then Some (ascii_of_nat 10)
  else if Ascii.eqb c "r" then Some (ascii_of_nat 13)
  else if Ascii.eqb c "t" then Some (ascii_of_nat 9)
  else None.

(** The characters of a string up to the closing quote. *)
Fixpoint chars (fuel : nat) (s acc : string) : option (string * string) :=
  match fuel with
  | O => None
  | S fuel' =>
      match s with
      | "" => None
      | String c s' =>
          if Nat.eqb (nat_of_ascii c) 34 then Some (acc, s')
          else if Nat.eqb (nat_of_ascii c) 92 then
            match s' with
            | "" => None
            | String e s'' =>
                if Ascii.eqb e "u" then
                  match hex4 s'' with
                  | Some (code, rest) =>
                      if code <? 256
                      then chars fuel' rest (acc +:+ String (ascii_of_N (Z.to_N code)) "")
                      else None
                  | None => None
                  end
                else match escape e with
                     | Some d => chars fuel' s'' (acc +:+ String d "")
                     | None => None
                     end
            end
          else if (nat_of_ascii c <? 32)%nat then None
          else chars fuel' s' (acc +:+ String c "")
      end
  end.

(** A number: an optional sign, an integer without leading zeros, an
    optional fraction, an optional exponent. *)
Definition number (s : string) : option (num * string) :=
  let '(neg, s1) := match s with String "-" s' => (true, s') | _ => (false, s) end in
  let '(int, s2) := span_while is_digit s1 in
  if String.eqb int "" || (String.eqb (charAt int 0) "0" && negb (String.eqb int "0")) then None
  else
    let frac := match s2 with
                | String "." s' => let '(f, r) := span_while is_digit s' in
                                   if String.eqb f "" then None else Some ("." +:+ f, r)
                | _ => Some ("", s2)
                end in
    match frac with
    | None => None
    | Some (frac, s3) =>
        let exp :=
          match s3 with
          | String c s' =>
              if Ascii.eqb c "e" || Ascii.eqb c "E" then
                let '(sign, s'') := match s' with
                                    | String "+" r => ("+", r)
                                    | String "-" r => ("-", r)
                                    | _ => ("", s')
                                    end in
                let '(e, r) := span_while is_digit s'' in
                if String.eqb e "" then None else Some ("e" +:+ sign +:+ e, r)
              else Some ("", s3)
          | "" => Some ("", s3)
          end in
        match exp with
        | None => None
        | Some (exp, s4) => Some (parseFloat ((if neg then "-" else "") +:+ int +:+ frac +:+ exp), s4)
        end
    end.

Definition str (s : string) : option (string * string) := chars (S (String.length s)) s "".

(** A value that is no array and no object. *)
Definition scalar (s : string) : option (json * string) :=
  match keyword "null" s with
  | Some r => Some (JNull, r)
  | None =>
  match keyword "true" s with
  | Some r => Some (JBool true, r)
  | None =>
  match keyword "false" s with
  | Some r => Some (JBool false, r)
  | None =>
  match s with
  | String c s' =>
      if Nat.eqb (nat_of_ascii c) 34
      then '(t, r) ← str s'; Some (JStr t, r)
      else '(n, r) ← number s; Some (JNum n, r)
  | "" => None
  end end end end.

Fixpoint value (fuel : nat) (s : string) : option (json * string) :=
  match fuel with
  | O => None
  | S fuel' =>
      match skip s with
      | String c s' =>
          if Ascii.eqb c "[" then
            match token "]" s' with
            | Some r => Some (JArr [], r)
            | None => '(l, r) ← elements fuel' s'; Some (JArr l, r)
            end
          else if Ascii.eqb c "{" then
            match token "}" s' with
            | Some r => Some (JObj [], r)
            | None => '(o, r) ← members fuel' s'; Some (JObj o, r)
            end
          else scalar (String c s')
      | "" => None
      end
  end
with elements (fuel : nat) (s : string) : option (list json * string) :=
  match fuel with
  | O => None
  | S fuel' =>
      '(v, r) ← value fuel' s;
      match token "," r with
      | Some r' => '(l, r'') ← elements fuel' r'; Some (v :: l, r'')
      | None => r' ← token "]" r; Some ([v], r')
      end
  end
with members (fuel : nat) (s : string) : option (list (string * json) * string) :=
  match fuel with
  | O => None
  | S fuel' =>
      q ← token (ascii_of_nat 34) s;
      '(k, r) ← str q;
      c ← token ":" r;
      '(v, r) ← value fuel' c;
      match token "," r with
      | Some r' => '(o, r'') ← members fuel' r'; Some ((k, v) :: o, r'')
      | None => r' ← token "}" r; Some ([(k, v)], r')
      end
  end.

Definition JSON_parse (s : string) : result json :=
  match value (S (2 * String.length s)) s with
  | Some (v, r) => if String.eqb (skip r) "" then Ok v else Throw SyntaxError
  | None => Throw SyntaxError
  end.

(** A property of a parsed object; later entries of a key win. *)
Definition jget (k : string) (j : json) : option json :=
  match j with
  | JObj o => dict_get k (rev o)
  | _ => None
  end.

Definition dq : string := String (ascii_of_nat 34) "".
Definition quoted (s : string) : string := dq +:+ s +:+ dq.

Example json_ex :
  JSON_parse (" {" +:+ quoted "id" +:+ ": " +:+ quoted "a\u0041\n" +:+ ", " +:+ quoted "l" +:+ ":[1.5e1, true,null,[]] }")
  = Ok (JObj [("id", JStr ("aA" +:+ newline)); ("l", JArr [JNum (num_of_Z 15); JBool true; JNull; JArr []])]).
Proof. vm_compute. reflexivity. Qed.

Example json_ex2 : map JSON_parse ["01"; "[1,]"; "{}x"; ""] = replicate 4 (Throw SyntaxError).
Proof. vm_compute. reflexivity. Qed.

(** ** The fuel is enough *)

Notation len := String.length.

Lemma skip_length s : (len (skip s) <= len s)%nat.
Proof. induction s as [|c s IH]; cbn; [done|]. case_if; cbn; lia. Qed.

Lemma token_length c s r : token c s = Some r -> (len r < len s)%nat.
Proof.
  unfold token. pose proof (skip_length s). destruct (skip s) as [|d s']; [done|].
  case_if; [|done]. intros [= <-]. cbn in *. lia.
Qed.

Lemma sdrop_le n s : (len (sdrop n s) <= len s)%nat.
Proof. rewrite sdrop_length. lia. Qed.

Lemma keyword_length k s r : (0 < len k)%nat -> keyword k s = Some r -> (len r < len s)%nat.
Proof.
  intros Hk. unfold keyword. destruct (String.prefix k s) eqn:E; [|done]. intros [= <-].
  apply prefix_app in E as [u ->]. rewrite sapp_length, sdrop_app by done. lia.
Qed.

Lemma chars_length fuel : forall s acc t r, chars fuel s acc = Some (t, r) -> (len r < len s)%nat.
Proof.
  induction fuel as [|fuel IH]; intros s acc t r; cbn [chars]; [done|].
  destruct s as [|c s]; [done|]. case_if; [intros [= <- <-]; cbn; lia|].
  case_if.
  - destruct s as [|e s]; [done|]. case_if.
    + unfold hex4. case_if; [|done]. case_if; [|done]. intros H%IH.
      pose proof (sdrop_le 4 s). cbn. lia.
    + destruct (escape e); [|done]. intros H%IH. cbn. lia.
  - case_if; [done|]. intros H%IH. cbn. lia.
Qed.

Lemma span_while_length p s a b : span_while p s = (a, b) -> (len a + len b = len s)%nat.
Proof.
  revert a b. induction s as [|c s IH]; intros a b; cbn; [by intros [= <- <-]|].
  destruct (p c); [|by intros [= <- <-]]. destruct (span_while p s) as [a' b'].
  intros [= <- <-]. cbn. by rewrite (IH a' b').
Qed.

Lemma number_length s n r : number s = Some (n, r) -> (len r < len s)%nat.
Proof.
  unfold number.
  set (ng := match s with String "-" s' => (true, s') | _ => (false, s) end).
  assert (len ng.2 <= len s)%nat as H1.
  { subst ng. destruct s as [|c s]; [done|]. repeat (case_match; cbn; try lia). }
  destruct ng as [neg s1]. cbn in H1.
  destruct (span_while is_digit s1) as [int s2] eqn:E1. apply span_while_length in E1.
  destruct (String.eqb_spec int ""); [done|]. cbn [orb]. case_if; [done|].
  assert (0 < len int)%nat by (destruct int; [done|cbn; lia]).
  set (fr := match s2 with String "." s' => _ | _ => _ end).
  assert (forall f s3, fr = Some (f, s3) -> (len s3 <= len s2)%nat) as H2.
  { subst fr. intros f s3. destruct s2 as [|c s2]; [by intros [= <- <-]|].
    repeat (case_match; try (by intros [= <- <-])); try done.
    match goal with H : span_while _ _ = _ |- _ => apply span_while_length in H end.
    intros [= <- <-]. cbn. lia. }
  destruct fr as [[f s3]|]; [|done]. specialize (H2 _ _ eq_refl).
  set (ex := match s3 with String c s' => _ | "" => _ end).
  assert (forall e s4, ex = Some (e, s4) -> (len s4 <= len s3)%nat) as H3.
  { subst ex. intros e s4. destruct s3 as [|c s3]; [by intros [= <- <-]|].
    case_if; [|by intros [= <- <-]].
    set (sg := match s3 with String "+" r => _ | _ => _ end).
    assert (len sg.2 <= len s3)%nat as Hsg.
    { subst sg. destruct s3; [done|]. repeat (case_match; cbn; try lia). }
    destruct sg as [sign s5]. cbn in Hsg.
    destruct (span_while is_digit s5) as [d r'] eqn:E3. apply span_while_length in E3.
    case_if; [done|]. intros [= <- <-]. cbn. lia. }
  destruct ex as [[e s4]|]; [|done]. specialize (H3 _ _ eq_refl). intros [= <- <-]. lia.
Qed.

Lemma scalar_length s v r : scalar s = Some (v, r) -> (len r < len s)%nat.
Proof.
  unfold scalar.
  destruct (keyword "null" s) as [r1|] eqn:E1; [intros [= <- <-]; by apply keyword_length in E1; [|cbn; lia]|].
  destruct (keyword "true" s) as [r2|] eqn:E2; [intros [= <- <-]; by apply keyword_length in E2; [|cbn; lia]|].
  destruct (keyword "false" s) as [r3|] eqn:E3; [intros [= <- <-]; by apply keyword_length in E3; [|cbn; lia]|].
  destruct s as [|c s]; [done|]. case_if.
  - unfold str. destruct (chars _ s "") as [[t r4]|] eqn:E4; [|done]. intros [= <- <-].
    apply chars_length in E4. cbn. lia.
  - destruct (number (String c s)) as [[n r5]|] eqn:E5; [|done]. intros [= <- <-].
    by apply number_length in E5.
Qed.

(** Every parser consumes something. *)
Lemma value_length fuel :
  (forall s v r, value fuel s = Some (v, r) -> (len r < len s)%nat) /\
  (forall s v r, elements fuel s = Some (v, r) -> (len r < len s)%nat) /\
  (forall s v r, members fuel s = Some (v, r) -> (len r < len s)%nat).
Proof.
  induction fuel as [|fuel (IV & IE & IM)]; [done|]. split_and!.
  - intros s v r. cbn [value]. pose proof (skip_length s) as Hs. destruct (skip s) as [|c s'] eqn:Es; [done|].
    case_if; [|case_if].
    + destruct (token "]" s') as [r'|] eqn:Et.
      * intros [= <- <-]. apply token_length in Et. cbn in Hs. lia.
      * destruct (elements fuel s') as [[l r']|] eqn:El; [|done]. intros [= <- <-].
        apply IE in El. cbn in Hs. lia.
    + destruct (token "}" s') as [r'|] eqn:Et.
      * intros [= <- <-]. apply token_length in Et. cbn in Hs. lia.
      * destruct (members fuel s') as [[l r']|] eqn:El; [|done]. intros [= <- <-].
        apply IM in El. cbn in Hs. lia.
    + intros H%scalar_length. lia.
  - intros s l r. cbn [elements]. destruct (value fuel s) as [[v r1]|] eqn:Ev; [|done].
    cbn [mbind option_bind]. apply IV in Ev. destruct (token "," r1) as [r2|] eqn:Et.
    + destruct (elements fuel r2) as [[l' r3]|] eqn:El; [|done]. intros [= <- <-].
      apply IE in El. apply token_length in Et. lia.
    + destruct (token "]" r1) as [r2|] eqn:Et'; [|done]. intros [= <- <-]. apply token_length in Et'. lia.
  - intros s l r. cbn [members]. destruct (token _ s) as [q|] eqn:Eq; [|done]. cbn [mbind option_bind].
    unfold str. destruct (chars _ q "") as [[k r1]|] eqn:Ek; [|done]. cbn [mbind option_bind].
    destruct (token ":" r1) as [c|] eqn:Ec; [|done]. cbn [mbind option_bind].
    destruct (value fuel c) as [[v r2]|] eqn:Ev; [|done]. cbn [mbind option_bind].
    apply token_length in Eq, Ec. apply chars_length in Ek. apply IV in Ev.
    destruct (token "," r2) as [r3|] eqn:Et.
    + destruct (members fuel r3) as [[l' r4]|] eqn:El; [|done]. intros [= <- <-].
      apply IM in El. apply token_length in Et. lia.
    + destruct (token "}" r2) as [r3|] eqn:Et'; [|done]. intros [= <- <-]. apply token_length in Et'. lia.
Qed.

Definition value_stable (f g : nat) (s : string) : Prop :=
  (2 * len s < f -> 2 * len s < g -> value f s = value g s)%nat.
Definition elements_stable (f g : nat) (s : string) : Prop :=
  (2 * len s + 1 < f -> 2 * len s + 1 < g -> elements f s = elements g s)%nat.
Definition members_stable (f g : nat) (s : string) : Prop :=
  (2 * len s + 1 < f -> 2 * len s + 1 < g -> members f s = members g s)%nat.

Lemma stable f : forall g s, value_stable f g s /\ elements_stable f g s /\ members_stable f g s.
Proof.
  induction f as [|f IH]; intros g s; [split_and!; intros ?; lia|].
  destruct g as [|g]; [split_and!; intros ? ?; lia|]. split_and!; intros Hf Hg.
  - cbn [value]. pose proof (skip_length s) as Hs. destruct (skip s) as [|c s'] eqn:Es; [done|].
    cbn in Hs. destruct (IH g s') as (_ & IE & IM).
    case_if; [by rewrite IE by lia|]. case_if; [by rewrite IM by lia|done].
  - cbn [elements]. rewrite (proj1 (IH g s)) by lia.
    destruct (value g s) as [[v r]|] eqn:Ev; [|done]. cbn [mbind option_bind].
    apply (proj1 (value_length g)) in Ev. destruct (token "," r) as [r'|] eqn:Et; [|done].
    apply token_length in Et. by rewrite (proj1 (proj2 (IH g r'))) by lia.
  - cbn [members]. destruct (token _ s) as [q|] eqn:Eq; [|done]. cbn [mbind option_bind].
    unfold str. destruct (chars _ q "") as [[k r]|] eqn:Ek; [|done]. cbn [mbind option_bind].
    destruct (token ":" r) as [c|] eqn:Ec; [|done]. cbn [mbind option_bind].
    apply token_length in Eq, Ec. apply chars_length in Ek.
    rewrite (proj1 (IH g c)) by lia. destruct (value g c) as [[v r2]|] eqn:Ev; [|done].
    cbn [mbind option_bind]. apply (proj1 (value_length g)) in Ev.
    destruct (token "," r2) as [r3|] eqn:Et; [|done]. apply token_length in Et.
    by rewrite (proj2 (proj2 (IH g r3))) by lia.
Qed.

(** More fuel than [JSON_parse] uses changes nothing. *)
Lemma value_fuel s f : (2 * len s < f)%nat -> value f s = value (S (2 * len s)) s.
Proof. intros H. apply stable; lia. Qed.
