(* ===== verification/JsJsonPrint.v ===== *)
(** * JSON.stringify

    The Tableau connector stores its settings as JSON text and shows values of
    complex types as JSON text.  Printing a value and reading it again gives
    the value back ([stringify_parse]); of an object, the one with its
    properties in the order of enumeration. *)
From S2P Require Import Prelude JsString JsNumber JsNumberFacts JsRegExp UtilsParse JsObject JsJson.
Local Open Scope Z_scope.

(** ** Printing *)

Definition backslash : ascii := ascii_of_nat 92.

Definition hex_char (n : nat) : ascii := ascii_of_nat (if (n <? 10)%nat then 48 + n else 87 + n).

(** A character inside a quoted string. *)
Definition quote_char (c : ascii) : string :=
  let n := nat_of_ascii c in
  if Nat.eqb n 8 then String backslash "b"
  else if Nat.eqb n 9 then String backslash "t"
  else if Nat.eqb n 10 then String backslash "n"
  else if Nat.eqb n 12 then String backslash "f"
  else if Nat.eqb n 13 then String backslash "r"
  else if Nat.eqb n 34 || Nat.eqb n 92 then String backslash (String c "")
  else if (n <? 32)%nat
  then String backslash ("u00" +:+ String (hex_char (n / 16)) (String (hex_char (n mod 16)) ""))
  else String c "".

Fixpoint quote_chars (s : string) : string :=
  match s with "" => "" | String c s' => quote_char c +:+ quote_chars s' end.

Definition quote (s : string) : string := dq +:+ quote_chars s +:+ dq.

(** The properties that the members of an object leave: a later one of the same
    name replaces an earlier one. *)
Definition properties {A} (members : list (string * A)) : obj A :=
  fold_left (fun d e => dict_set e.1 e.2 d) members [].

(** The properties in the order of enumeration. *)
Definition enumerated {A} (o : obj A) : list (string * A) :=
  omap (fun k => v ← dict_get k o; Some (k, v)) (own_keys o).

Fixpoint JSON_stringify (j : json) : string :=
  match j with
  | JNull => "null"
  | JBool b => if b then "true" else "false"
  | JNum n => if is_finite n then num_to_string n else "null"
  | JStr s => quote s
  | JArr l => "[" +:+ join "," (map JSON_stringify l) +:+ "]"
  | JObj o =>
      "{" +:+ join "," (map (fun e => quote e.1 +:+ ":" +:+ e.2)
                          (enumerated (properties (map (fun e => (e.1, JSON_stringify e.2)) o)))) +:+ "}"
  end.

Example stringify_ex :
  JSON_stringify (JObj [("b", JArr [JNum (num_of_Z 15); JBool true; JNull]); ("7", JStr (dq +:+ newline)); ("b", JArr [])])
  = "{" +:+ quoted "7" +:+ ":" +:+ quoted (String backslash dq +:+ String backslash "n") +:+ ","
    +:+ quoted "b" +:+ ":[]}".
Proof. vm_compute. reflexivity. Qed.

(** ** Reading a string back *)

Lemma chars_quote_char c f rest acc :
  chars (S f) (quote_char c +:+ rest) acc = chars f rest (acc +:+ String c "").
Proof. destruct c as [[] [] [] [] [] [] [] []]; reflexivity. Qed.

Lemma quote_char_length c : (1 <= len (quote_char c))%nat.
Proof. apply Nat.leb_le. destruct c as [[] [] [] [] [] [] [] []]; reflexivity. Qed.

Lemma chars_quote s : forall f rest acc, (len (quote_chars s) < f)%nat ->
  chars f (quote_chars s +:+ dq +:+ rest) acc = Some (acc +:+ s, rest).
Proof.
  induction s as [|c s IH]; intros f rest acc Hf.
  - destruct f as [|f]; [lia|]. cbn. by rewrite sapp_nil_r.
  - cbn [quote_chars] in *. rewrite sapp_length in Hf. pose proof (quote_char_length c).
    destruct f as [|f]; [lia|]. rewrite sapp_assoc, chars_quote_char, IH by lia. by rewrite sapp_assoc.
Qed.

Lemma str_quote s rest : str (quote_chars s +:+ dq +:+ rest) = Some (s, rest).
Proof. unfold str. apply chars_quote. rewrite !sapp_length. lia. Qed.

(** ** Reading an integer back *)

Lemma Z_to_dec_head z : 0 < z -> exists c s, Z_to_dec z = String c s /\ is_digit c = true /\ c <> "0"%char.
Proof.
  intros Hz. assert (0 <= z) as H0 by lia. revert z H0 Hz. apply (Z_to_dec_ind (fun z => 0 < z -> _)).
  - intros z Hs Hz. rewrite Z_to_dec_small by lia. exists (digit_char z), "". split; [done|].
    assert (z = 1 \/ z = 2 \/ z = 3 \/ z = 4 \/ z = 5 \/ z = 6 \/ z = 7 \/ z = 8 \/ z = 9) as H by lia.
    by repeat destruct H as [->|H]; try subst.
  - intros z Hz IH _. rewrite Z_to_dec_step by lia.
    destruct IH as (c & s & -> & Hc); [apply Z.div_str_pos; lia|]. by eexists c, _.
Qed.

(** What may follow a value. *)
Definition ends_value (rest : string) : bool :=
  match rest with "" => true | String c _ => Ascii.eqb c "," || Ascii.eqb c "]" || Ascii.eqb c "}" end.

Lemma ends_value_cases (P : string -> Prop) rest : ends_value rest = true ->
  P "" -> (forall r, P (String "," r)) -> (forall r, P (String "]" r)) -> (forall r, P (String "}" r)) -> P rest.
Proof.
  intros H H0 H1 H2 H3. destruct rest as [|c r]; [done|]. cbn in H. bool_hyps.
  - apply Ascii.eqb_eq in H as ->. apply H1.
  - apply Ascii.eqb_eq in H as ->. apply H2.
  - apply Ascii.eqb_eq in H as ->. apply H3.
Qed.

(** The characters a number starts with. *)
Lemma digit_head c : is_digit c = true ->
  json_space c = false /\ Ascii.eqb c "[" = false /\ Ascii.eqb c "{" = false /\ Ascii.eqb c "]" = false /\
  Nat.eqb (nat_of_ascii c) 34 = false /\
  (forall s, keyword "null" (String c s) = None) /\ (forall s, keyword "true" (String c s) = None) /\
  (forall s, keyword "false" (String c s) = None) /\
  (forall s, match String c s with String "-" s' => (true, s') | _ => (false, String c s) end = (false, String c s)).
Proof. destruct c as [[] [] [] [] [] [] [] []]; try done; intros _; split_and!; done. Qed.

Lemma number_int z rest : 0 <= z -> ends_value rest = true ->
  number (Z_to_dec z +:+ rest) = Some (num_of_Z z, rest).
Proof.
  intros Hz Hr. unfold number. destruct (Z_to_dec z) as [|c ds] eqn:E; [by apply Z_to_dec_ne in E|].
  pose proof (Z_to_dec_digits z Hz) as Hd. rewrite E in Hd. pose proof Hd as [Hc _]%andb_prop.
  destruct (digit_head c Hc) as (_ & _ & _ & _ & _ & _ & _ & _ & Hm).
  change (String c ds +:+ rest) with (String c (ds +:+ rest)). cbv beta iota. rewrite Hm. cbv beta iota.
  change (String c (ds +:+ rest)) with (String c ds +:+ rest).
  rewrite span_while_app; [|done|by pattern rest; apply (ends_value_cases _ rest Hr)].
  assert (String.eqb (charAt (String c ds) 0) "0" && negb (String.eqb (String c ds) "0") = false) as ->.
  { destruct (decide (z = 0)) as [->|Hne]; [by injection E as <- <-|].
    destruct (Z_to_dec_head z) as (c' & s' & E' & _ & Hne'); [lia|]. rewrite E in E'. injection E' as -> ->.
    apply andb_false_intro1, String.eqb_neq. unfold charAt. cbn. by intros [= ->]. }
  cbn [String.eqb orb]. assert (parseFloat (Z_to_dec z) = num_of_Z z) as Hp by (by apply parseFloat_dec).
  rewrite E in Hp. pattern rest. apply (ends_value_cases _ rest Hr); intros; cbn -[parseFloat]; by rewrite sapp_nil_r, Hp.
Qed.

(** ** Reading a value back *)

Section json_tree_ind.
Context (P : json -> Prop).
Hypothesis HN : P JNull.
Hypothesis HB : forall b, P (JBool b).
Hypothesis HM : forall n, P (JNum n).
Hypothesis HS : forall s, P (JStr s).
Hypothesis HA : forall l, Forall P l -> P (JArr l).
Hypothesis HO : forall o, Forall (fun e => P e.2) o -> P (JObj o).

Fixpoint json_tree_ind (j : json) : P j.
Proof.
  destruct j as [|b|n|s|l|o]; [apply HN|apply HB|apply HM|apply HS| |].
  - apply HA. induction l; constructor; auto.
  - apply HO. induction o; constructor; auto.
Defined.
End json_tree_ind.

(** Values as a program builds them, with numbers that are small natural numbers
    and the properties of objects in the order of enumeration. *)
Fixpoint normal (j : json) : Prop :=
  match j with
  | JNull | JBool _ | JStr _ => True
  | JNum n => exists z, 0 <= z < 2 ^ 52 /\ n = num_of_Z z
  | JArr l => foldr (fun x P => normal x /\ P) True l
  | JObj o => NoDup (dict_keys o) /\ own_keys o = dict_keys o /\ foldr (fun e P => normal e.2 /\ P) True o
  end.

Lemma properties_app {A} (d members : list (string * A)) : NoDup (dict_keys (d ++ members)) ->
  fold_left (fun d e => dict_set e.1 e.2 d) members d = d ++ members.
Proof.
  revert d. induction members as [|[k v] l IH]; intros d H; cbn; [by rewrite app_nil_r|].
  assert (dict_set k v d = d ++ [(k, v)]) as ->.
  { assert (k ∉ dict_keys d) as Hk.
    { unfold dict_keys in *. rewrite map_app in H. cbn in H. apply NoDup_app in H as (_ & H & _). set_solver. }
    clear -Hk. induction d as [|[k' v'] d IH]; cbn; [done|]. unfold dict_keys in *. cbn in Hk.
    rewrite decide_False by set_solver. f_equal. apply IH. set_solver. }
  rewrite IH; [by rewrite <- app_assoc|by rewrite <- app_assoc].
Qed.

Lemma properties_id {A} (o : obj A) : NoDup (dict_keys o) -> properties o = o.
Proof. intros H. by apply (properties_app []). Qed.

Lemma enumerated_id {A} (o : obj A) : NoDup (dict_keys o) -> own_keys o = dict_keys o -> enumerated o = o.
Proof.
  intros HN HE. unfold enumerated. rewrite HE. clear HE.
  assert (forall o' d, o' = d ++ o -> NoDup (dict_keys o') ->
    omap (fun k => v ← dict_get k o'; Some (k, v)) (dict_keys o) = o) as H; [|by apply (H o [])].
  clear HN. induction o as [|[k v] o IH]; intros o' d E HN; [done|].
  change (dict_keys ((k, v) :: o)) with (k :: dict_keys o). cbn [omap list_omap].
  rewrite (proj1 (elem_of_dict_get k v o' HN)) by (subst; set_solver). cbn. f_equal.
  apply (IH o' (d ++ [(k, v)])); [|done]. by rewrite <- app_assoc.
Qed.

Lemma dict_keys_map {A B} (f : A -> B) (o : obj A) : dict_keys (map (fun e => (e.1, f e.2)) o) = dict_keys o.
Proof. unfold dict_keys. rewrite map_map. done. Qed.

Definition print_member (e : string * json) : string := quote e.1 +:+ ":" +:+ JSON_stringify e.2.

Lemma stringify_obj o : NoDup (dict_keys o) -> own_keys o = dict_keys o ->
  JSON_stringify (JObj o) = "{" +:+ join "," (map print_member o) +:+ "}".
Proof.
  intros HN HE. cbn [JSON_stringify]. rewrite properties_id by (by rewrite dict_keys_map).
  rewrite enumerated_id; [|by rewrite dict_keys_map|unfold own_keys in *; by rewrite dict_keys_map].
  by rewrite map_map.
Qed.

(** A text that reads back as [x] with enough fuel, whatever follows it. *)
Definition reads {A} (parse : nat -> string -> option (A * string)) (text : string) (x : A) : Prop :=
  forall rest, ends_value rest = true -> exists n, forall f, (n <= f)%nat -> parse f (text +:+ rest) = Some (x, rest).

(** What a printed value starts with. *)
Definition starts_value (s : string) : Prop :=
  exists c s', s = String c s' /\ json_space c = false /\ Ascii.eqb "]" c = false /\ Ascii.eqb "}" c = false.

Lemma stringify_starts j : normal j -> starts_value (JSON_stringify j).
Proof.
  destruct j as [|[]|n|s|l|o]; intros Hn; try (by do 2 eexists).
  destruct Hn as (z & Hz & ->). cbn [JSON_stringify].
  rewrite is_finite_num_of_Z, num_to_string_int by (unfold small; lia).
  destruct (Z_to_dec z) as [|c ds] eqn:E; [apply Z_to_dec_ne in E; [done|lia]|].
  pose proof (Z_to_dec_digits z ltac:(lia)) as Hd. rewrite E in Hd. apply andb_prop in Hd as [Hc _].
  exists c, ds. split; [done|]. clear -Hc. by destruct c as [[] [] [] [] [] [] [] []].
Qed.

Lemma token_starts s rest d : starts_value s -> d = "]"%char \/ d = "}"%char -> token d (s +:+ rest) = None.
Proof.
  intros (c & s' & -> & Hs & H1 & H2) Hd. unfold token. cbn. rewrite Hs.
  destruct Hd as [-> | ->]; [by rewrite H1|by rewrite H2].
Qed.

Lemma join_cons x y l : join "," (x :: y :: l) = x +:+ "," +:+ join "," (y :: l).
Proof. done. Qed.

Lemma join_starts j l : normal j -> starts_value (join "," (map JSON_stringify (j :: l))).
Proof.
  intros Hj. destruct (stringify_starts j Hj) as (c & s & E & H). destruct l as [|j' l].
  - exists c, s. done.
  - cbn [map]. rewrite join_cons, E. by eexists c, _.
Qed.

(** The elements of an array and the members of an object, up to the closing
    bracket. *)
Lemma elements_read l : l <> [] -> Forall (fun j => reads value (JSON_stringify j) j) l ->
  forall rest, exists n, forall f, (n <= f)%nat ->
    elements f (join "," (map JSON_stringify l) +:+ "]" +:+ rest) = Some (l, rest).
Proof.
  intros Hne H rest. induction H as [|j l Hj Hl IH]; [done|]. destruct l as [|j' l].
  - destruct (Hj ("]" +:+ rest) eq_refl) as [n Hn]. exists (S n). intros [|f] Hf; [lia|].
    cbn [elements map join String.concat]. rewrite Hn by lia. done.
  - destruct IH as [m Hm]; [done|]. cbn [map] in *. rewrite join_cons.
    destruct (Hj ("," +:+ (join "," (JSON_stringify j' :: map JSON_stringify l) +:+ "]" +:+ rest)) eq_refl) as [n Hn].
    exists (S (n `max` m)). intros [|f] Hf; [lia|]. cbn [elements]. rewrite !sapp_assoc, Hn by lia.
    cbn [mbind option_bind]. change (token "," ("," +:+ ?s)) with (Some s). cbn [mbind option_bind].
    by rewrite Hm by lia.
Qed.

Lemma token_quote s : token (ascii_of_nat 34) (dq +:+ s) = Some s.
Proof. done. Qed.

Lemma member_read e f rest n : (forall f, (n <= f)%nat -> value f (JSON_stringify e.2 +:+ rest) = Some (e.2, rest)) ->
  (n <= f)%nat -> members (S f) (print_member e +:+ rest) =
    match token "," rest with
    | Some r' => '(o, r'') ← members f r'; Some (e :: o, r'')
    | None => r' ← token "}" rest; Some ([e], r')
    end.
Proof.
  intros Hn Hf. destruct e as [k v]. unfold print_member, quote. cbn [fst snd members] in *.
  rewrite !sapp_assoc, token_quote. cbn [mbind option_bind]. rewrite str_quote. cbn [mbind option_bind].
  change (token ":" (":" +:+ ?s)) with (Some s). cbn [mbind option_bind]. by rewrite Hn.
Qed.

Lemma members_read o : o <> [] -> Forall (fun e => reads value (JSON_stringify e.2) e.2) o ->
  forall rest, exists n, forall f, (n <= f)%nat ->
    members f (join "," (map print_member o) +:+ "}" +:+ rest) = Some (o, rest).
Proof.
  intros Hne H rest. induction H as [|e o He Ho IH]; [done|]. destruct o as [|e' o].
  - destruct (He ("}" +:+ rest) eq_refl) as [n Hn]. exists (S n). intros [|f] Hf; [lia|].
    cbn [map join String.concat]. by rewrite (member_read e f _ n) by (done || lia).
  - destruct IH as [m Hm]; [done|]. cbn [map] in *. rewrite join_cons.
    destruct (He ("," +:+ (join "," (print_member e' :: map print_member o) +:+ "}" +:+ rest)) eq_refl) as [n Hn].
    exists (S (n `max` m)). intros [|f] Hf; [lia|]. rewrite !sapp_assoc, (member_read e f _ n) by (done || lia).
    change (token "," ("," +:+ ?s)) with (Some s). cbv beta iota. by rewrite Hm by lia.
Qed.

Lemma normal_list l : normal (JArr l) <-> Forall normal l.
Proof. cbn. induction l as [|j l IH]; cbn; rewrite ?Forall_cons, <- ?IH; [by split|done]. Qed.

Lemma normal_members (o : list (string * json)) :
  foldr (fun e P => normal e.2 /\ P) True o <-> Forall (fun e => normal e.2) o.
Proof. induction o as [|j l IH]; cbn; rewrite ?Forall_cons, <- ?IH; [by split|done]. Qed.

Lemma keyword_app k rest : keyword k (k +:+ rest) = Some rest.
Proof.
  unfold keyword. rewrite (proj2 (prefix_app k (k +:+ rest))) by eauto. by rewrite sdrop_app.
Qed.

Lemma scalar_keyword rest :
  scalar ("null" +:+ rest) = Some (JNull, rest) /\ scalar ("true" +:+ rest) = Some (JBool true, rest) /\
  scalar ("false" +:+ rest) = Some (JBool false, rest).
Proof. unfold scalar. rewrite !keyword_app. done. Qed.

Lemma value_reads j : normal j -> reads value (JSON_stringify j) j.
Proof.
  induction j as [|b|n|s|l IH|o IH] using json_tree_ind; intros Hn rest Hr.
  - exists 1%nat. intros [|f] Hf; [lia|]. apply (scalar_keyword rest).
  - exists 1%nat. intros [|f] Hf; [lia|]. destruct b; apply (scalar_keyword rest).
  - destruct Hn as (z & Hz & ->). cbn [JSON_stringify].
    rewrite is_finite_num_of_Z, num_to_string_int by (unfold small; lia).
    exists 1%nat. intros [|f] Hf; [lia|]. cbn [value].
    pose proof (number_int z rest ltac:(lia) Hr) as E.
    destruct (Z_to_dec z) as [|c ds] eqn:Ed; [apply Z_to_dec_ne in Ed; [done|lia]|].
    pose proof (Z_to_dec_digits z ltac:(lia)) as Hd. rewrite Ed in Hd. apply andb_prop in Hd as [Hc _].
    destruct (digit_head c Hc) as (H1 & H2 & H3 & _ & H4 & H5 & H6 & H7 & _).
    cbn [String.append skip] in *. rewrite H1, H2, H3. unfold scalar. rewrite H5, H6, H7, H4, E. done.
  - exists 1%nat. intros [|f] Hf; [lia|]. cbn [JSON_stringify]. unfold quote. rewrite !sapp_assoc.
    change (value (S f) (dq +:+ ?t)) with ('(u, r) ← str t; Some (JStr u, r)). by rewrite str_quote.
  - apply normal_list in Hn. cbn [JSON_stringify]. rewrite !sapp_assoc. destruct l as [|j l].
    { exists 1%nat. intros [|f] Hf; [lia|]. reflexivity. }
    destruct (elements_read (j :: l) ltac:(done)) with (rest := rest) as [n Hf].
    { rewrite Forall_forall in *. intros x Hx. by apply IH, Hn. }
    exists (S n). intros [|f] Hle; [lia|].
    change (value (S f) ("[" +:+ ?t)) with
      (match token "]" t with Some r => Some (JArr [], r) | None => '(l, r) ← elements f t; Some (JArr l, r) end).
    rewrite token_starts; [|apply join_starts; by apply Forall_cons in Hn as [? _]|by left].
    by rewrite Hf by lia.
  - destruct Hn as (HN & HE & Hn%normal_members). rewrite stringify_obj by done. rewrite !sapp_assoc.
    destruct o as [|e o].
    { exists 1%nat. intros [|f] Hf; [lia|]. reflexivity. }
    destruct (members_read (e :: o) ltac:(done)) with (rest := rest) as [n Hf].
    { rewrite Forall_forall in *. intros x Hx. by apply IH, Hn. }
    exists (S n). intros [|f] Hle; [lia|].
    change (value (S f) ("{" +:+ ?t)) with
      (match token "}" t with Some r => Some (JObj [], r) | None => '(o, r) ← members f t; Some (JObj o, r) end).
    rewrite Hf by lia. by destruct o.
Qed.

(** Printing a value and reading it again gives the value back. *)
Lemma stringify_parse j : normal j -> JSON_parse (JSON_stringify j) = Ok j.
Proof.
  intros H. destruct (value_reads j H "" eq_refl) as [n Hn]. rewrite sapp_nil_r in Hn.
  unfold JSON_parse. rewrite <- (value_fuel _ (n `max` S (2 * len (JSON_stringify j)))) by lia.
  by rewrite Hn by lia.
Qed.

(** ** The order of enumeration *)

Definition index_le (k k' : string) : Prop := default 0 (array_index k) <= default 0 (array_index k').

Lemma insert_index_sorted k l : StronglySorted index_le l -> StronglySorted index_le (insert_index k l).
Proof.
  induction 1 as [|k' l Hs IH Hk]; cbn; [by repeat constructor|]. case_if; eqb_hyps.
  - constructor; [by constructor|]. constructor; [done|]. eapply Forall_impl; [exact Hk|]. unfold index_le. cbn. lia.
  - constructor; [done|]. rewrite insert_index_perm. constructor; [|done]. unfold index_le. lia.
Qed.

Lemma sort_indices_sorted l : StronglySorted index_le (sort_indices l).
Proof. induction l as [|k l IH]; cbn; [constructor|]. by apply insert_index_sorted. Qed.

Lemma sort_indices_id l : StronglySorted index_le l -> sort_indices l = l.
Proof.
  induction 1 as [|k l Hs IH Hk]; [done|]. change (insert_index k (sort_indices l) = k :: l).
  rewrite IH. destruct l as [|k' l]; [done|]. cbn [insert_index].
  apply Forall_cons in Hk as [Hk _]. unfold index_le in Hk. by apply Z.leb_le in Hk as ->.
Qed.

Lemma filterb_none {A} (p : A -> bool) l : (forall x, x ∈ l -> p x = false) -> filterb p l = [].
Proof.
  induction l as [|x l IH]; cbn; [done|]. intros H. rewrite (H x) by set_solver. apply IH. set_solver.
Qed.

Lemma enum_keys_idem l : enum_keys (enum_keys l) = enum_keys l.
Proof.
  unfold enum_keys at 1. set (a := sort_indices (filterb is_index l)).
  assert (forall k, k ∈ a -> is_index k = true) as Ha.
  { intros k Hk. unfold a in Hk. rewrite sort_indices_perm in Hk. by apply elem_of_filterb in Hk as [_ ?]. }
  assert (forall k, k ∈ filterb (fun k => negb (is_index k)) l -> is_index k = false) as Hb.
  { intros k [_ Hk]%elem_of_filterb. by apply negb_true_iff. }
  unfold enum_keys. fold a. rewrite !filterb_app.
  rewrite (filterb_all is_index a), (filterb_none is_index (filterb _ l)) by done.
  rewrite (filterb_none _ a) by (intros k Hk; by rewrite (Ha k Hk)).
  rewrite (filterb_all _ (filterb _ l)) by (intros k Hk; by rewrite (Hb k Hk)).
  rewrite app_nil_r. unfold a. by rewrite (sort_indices_id (sort_indices _)) by apply sort_indices_sorted.
Qed.

Lemma enumerated_keys {A} (o : obj A) : dict_keys (enumerated o) = own_keys o.
Proof.
  unfold enumerated. assert (Forall (fun k => is_Some (dict_get k o)) (own_keys o)) as H.
  { rewrite own_keys_perm. apply Forall_forall. intros k. apply elem_of_dict_keys. }
  induction H as [|k l [v Hv] _ IH]; [done|]. cbn [omap list_omap]. rewrite Hv. cbn. unfold dict_keys in *. cbn. by rewrite IH.
Qed.

Lemma enumerated_normal {A} (o : obj A) : NoDup (dict_keys o) ->
  NoDup (dict_keys (enumerated o)) /\ own_keys (enumerated o) = dict_keys (enumerated o).
Proof.
  intros HN. split; [rewrite enumerated_keys; by rewrite own_keys_perm|].
  unfold own_keys at 1. rewrite enumerated_keys. apply enum_keys_idem.
Qed.

Lemma dict_get_map {A B} (f : A -> B) (o : obj A) k : dict_get k (map (fun e => (e.1, f e.2)) o) = f <$> dict_get k o.
Proof. induction o as [|[k' v] o IH]; cbn; [done|]. by case_decide. Qed.

Lemma enumerated_map {A B} (f : A -> B) (o : obj A) :
  enumerated (map (fun e => (e.1, f e.2)) o) = map (fun e => (e.1, f e.2)) (enumerated o).
Proof.
  unfold enumerated, own_keys. rewrite dict_keys_map. induction (enum_keys (dict_keys o)) as [|k l IH]; [done|].
  cbn [omap list_omap]. rewrite dict_get_map. destruct (dict_get k o); cbn; by rewrite IH.
Qed.

(** Printing an object prints its properties in the order of enumeration, and
    reading gives them in that order. *)
Lemma stringify_enumerated (o : obj json) : NoDup (dict_keys o) ->
  JSON_stringify (JObj o) = JSON_stringify (JObj (enumerated o)).
Proof.
  intros HN. destruct (enumerated_normal o HN) as [HN' HE]. rewrite (stringify_obj (enumerated o)) by done. cbn [JSON_stringify].
  rewrite properties_id by (by rewrite dict_keys_map). by rewrite enumerated_map, map_map.
Qed.

Lemma stringify_parse_obj (o : obj json) : NoDup (dict_keys o) -> Forall (fun e => normal e.2) o ->
  JSON_parse (JSON_stringify (JObj o)) = Ok (JObj (enumerated o)).
Proof.
  intros HN HF. destruct (enumerated_normal o HN) as [HN' HE]. rewrite stringify_enumerated by done.
  apply stringify_parse. split_and!; [done|done|]. apply normal_members, Forall_forall. intros [k v] Hk.
  apply elem_of_dict_get in Hk; [|done].
  unfold enumerated in Hk. apply dict_get_elem in Hk. apply list_elem_of_omap in Hk as (k' & _ & Hk').
  destruct (dict_get k' o) as [v'|] eqn:E; [|done]. cbn in Hk'. injection Hk' as -> ->.
  apply dict_get_elem in E. rewrite Forall_forall in HF. by apply (HF (k, v)).
Qed.
