(* ===== verification/RefreshLoop.v ===== *)
(** * The polling loop of the components

    Every live component of the UI polls the coordinator the same way:
    [componentDidMount] calls [refreshLoop], which clears the pending timer
    and sends a request; the callbacks update the state and call
    [resetTimer], which clears the timer and, while there is something left
    to watch, sets a new one.

    [Poller] is the interface a component implements; [step] is the event
    loop of the browser around it, with timers identified by the numbers
    [setTimeout] returns.  The theorems hold for every component: two series
    of refreshes never run at the same time, and polling does not stop while
    the component wants to go on and its callbacks do not throw. *)
From S2P Require Import Prelude.
Local Open Scope nat_scope.

(** ** Interface *)

Class Poller (S C R X : Type) := {
  (** what [refreshLoop] does before the request, and what the callbacks
      capture of it *)
  on_start : S -> S * C;
  (** the success callback, up to [resetTimer].  React renders the component and
      runs [componentDidUpdate] inside [setState], so that their exceptions
      come out of the callback *)
  on_success : C -> R -> S -> result S;
  (** the error callback, up to [resetTimer] *)
  on_error : X -> S -> result S;
  (** the condition of [resetTimer] *)
  keep_polling : S -> bool;
  (** user actions and other timers *)
  local_step : S -> S -> Prop
}.

(** Local actions do not decide whether polling goes on. *)
Class PollerLaws {S C R X : Type} (P : Poller S C R X) : Prop :=
  local_keep : forall s s' : S, local_step s s' -> keep_polling s' = keep_polling s.

Section machine.
Context {S C R X : Type} {P : Poller S C R X}.

(** What happens to the answer to a request, a result or a failure. *)
Definition answered (c : C) (a : R + X) (s : S) : result S :=
  match a with inl r => on_success c r s | inr x => on_error x s end.

(** ** The event loop *)

Record machine := {
  comp : S;                  (* the component's state *)
  timers : list nat;         (* timers set and not yet fired or cleared *)
  timeoutId : option nat;    (* the component's field *)
  in_flight : list C;        (* requests without an answer *)
  next_id : nat
}.

(** [clearTimeout(this.timeoutId)] *)
Definition clear (id : option nat) (ts : list nat) : list nat :=
  match id with
  | Some i => filterb (fun j => negb (Nat.eqb j i)) ts
  | None => ts
  end.

Definition refreshLoop (m : machine) : machine :=
  let '(s, c) := on_start (comp m) in
  {| comp := s; timers := clear (timeoutId m) (timers m); timeoutId := timeoutId m;
     in_flight := in_flight m ++ [c]; next_id := next_id m |}.

Definition resetTimer (m : machine) : machine :=
  let ts := clear (timeoutId m) (timers m) in
  if keep_polling (comp m)
  then {| comp := comp m; timers := ts ++ [next_id m]; timeoutId := Some (next_id m);
          in_flight := in_flight m; next_id := Datatypes.S (next_id m) |}
  else {| comp := comp m; timers := ts; timeoutId := timeoutId m;
          in_flight := in_flight m; next_id := next_id m |}.

Definition with_comp (m : machine) (s : S) : machine :=
  {| comp := s; timers := timers m; timeoutId := timeoutId m; in_flight := in_flight m;
     next_id := next_id m |}.

Definition with_timers (m : machine) (ts : list nat) : machine :=
  {| comp := comp m; timers := ts; timeoutId := timeoutId m; in_flight := in_flight m;
     next_id := next_id m |}.

Definition with_in_flight (m : machine) (l : list C) : machine :=
  {| comp := comp m; timers := timers m; timeoutId := timeoutId m; in_flight := l;
     next_id := next_id m |}.

Definition with_next_id (m : machine) (n : nat) : machine :=
  {| comp := comp m; timers := timers m; timeoutId := timeoutId m; in_flight := in_flight m; next_id := n |}.

(** [componentDidMount] on a component in state [s]. *)
Definition mounted (s : S) : machine :=
  refreshLoop {| comp := s; timers := []; timeoutId := None; in_flight := []; next_id := 0 |}.

(** One turn of the event loop; [threw] marks a callback that threw: its
    changes and its [resetTimer] are lost. *)
Inductive step : bool -> machine -> machine -> Prop :=
| step_timer m i ts :
    timers m ≡ₚ i :: ts -> step false m (refreshLoop (with_timers m ts))
| step_answer m c l a s' :
    in_flight m ≡ₚ c :: l -> answered c a (comp m) = Ok s' ->
    step false m (resetTimer (with_comp (with_in_flight m l) s'))
| step_throw m c l a e :
    in_flight m ≡ₚ c :: l -> answered c a (comp m) = Throw e ->
    step true m (with_in_flight m l)
| step_local m s' : local_step (comp m) s' -> step false m (with_comp m s')
(** other scripts of the page set timers *)
| step_other m n : next_id m <= n -> step false m (with_next_id m n).

(** Executions; the flag says whether some callback threw. *)
Inductive reach (m0 : machine) : bool -> machine -> Prop :=
| reach_refl : reach m0 false m0
| reach_step t t' m m' : reach m0 t m -> step t' m m' -> reach m0 (t || t') m'.

(** ** The invariant *)

(** At most one of a pending timer and a request; the pending timer is the one
    the component remembers. *)
Definition single (m : machine) : Prop :=
  length (timers m) + length (in_flight m) <= 1 /\
  (forall i, i ∈ timers m -> timeoutId m = Some i).

Lemma clear_remembered id ts :
  length ts <= 1 -> (forall i, i ∈ ts -> id = Some i) -> clear id ts = [].
Proof.
  intros Hl H. destruct ts as [|i [|j ts]]; cbn in Hl; [by destruct id| |lia].
  rewrite (H i) by set_solver. cbn. by rewrite Nat.eqb_refl.
Qed.

Lemma single_refreshLoop m :
  timers m = [] -> in_flight m = [] -> single (refreshLoop m).
Proof.
  intros H1 H2. unfold refreshLoop. destruct (on_start (comp m)) as [s c].
  rewrite H1, H2. split; cbn; [by destruct (timeoutId m)|]. destruct (timeoutId m); set_solver.
Qed.

Lemma single_resetTimer m :
  in_flight m = [] -> timers m = [] -> single (resetTimer m).
Proof.
  intros H1 H2. unfold resetTimer. rewrite H2.
  assert (clear (timeoutId m) [] = []) as -> by (by destruct (timeoutId m)).
  case_if; split; cbn; rewrite ?H1; cbn; try lia; set_solver.
Qed.

Lemma single_step t m m' : single m -> step t m m' -> single m'.
Proof.
  intros [H1 H2] Hs. destruct Hs as [m i ts Hi|m c l a s' Hc _|m c l a e Hc _|m s' _|m n _].
  - pose proof (Permutation_length Hi). cbn in *.
    apply single_refreshLoop; cbn; apply nil_length_inv; lia.
  - pose proof (Permutation_length Hc). cbn in *.
    apply single_resetTimer; cbn; apply nil_length_inv; lia.
  - pose proof (Permutation_length Hc). cbn in *. split; cbn; [lia|done].
  - done.
  - done.
Qed.

Lemma single_mounted s : single (mounted s).
Proof. by apply single_refreshLoop. Qed.

Lemma reach_single s t m : reach (mounted s) t m -> single m.
Proof. induction 1; [apply single_mounted|by eapply single_step]. Qed.

(** ** Progress *)

(** Polling is under way, or the component decided to stop. *)
Definition alive (m : machine) : Prop :=
  length (timers m) + length (in_flight m) = 1 \/ keep_polling (comp m) = false.

Lemma refreshLoop_activity m :
  timers m = [] -> in_flight m = [] ->
  length (timers (refreshLoop m)) + length (in_flight (refreshLoop m)) = 1.
Proof.
  intros H1 H2. unfold refreshLoop. destruct (on_start (comp m)). rewrite H1, H2. cbn.
  by destruct (timeoutId m).
Qed.

Lemma resetTimer_alive m :
  timers m = [] -> in_flight m = [] -> alive (resetTimer m).
Proof.
  intros H1 H2. unfold alive, resetTimer. rewrite H1.
  assert (clear (timeoutId m) [] = []) as -> by (by destruct (timeoutId m)).
  destruct (keep_polling (comp m)) eqn:E; cbn; rewrite H2; auto.
Qed.

Lemma alive_step m m' `{!PollerLaws P} : single m -> alive m -> step false m m' -> alive m'.
Proof.
  intros [H1 H2] HA Hs. inversion Hs as [? i ts Hi|? c l a s' Hc E| |? s' HL|? n _]; subst.
  - pose proof (Permutation_length Hi). cbn in *. left.
    apply refreshLoop_activity; cbn; apply nil_length_inv; lia.
  - pose proof (Permutation_length Hc). cbn in *.
    apply resetTimer_alive; cbn; apply nil_length_inv; lia.
  - destruct HA as [HA|HA]; [by left|right]. cbn. by rewrite (local_keep _ _ HL).
  - exact HA.
Qed.

Lemma reach_alive s t m `{!PollerLaws P} : reach (mounted s) t m -> t = false -> alive m.
Proof.
  induction 1 as [|t t' m m' Hr IH Hs]; intros Ht.
  - left. by apply refreshLoop_activity.
  - apply orb_false_elim in Ht as [-> ->]. eapply alive_step; eauto using reach_single.
Qed.

(** A component that decided to stop has stopped, when a refresh alone does
    not make it decide so. *)
Lemma reach_stopped s t m `{!PollerLaws P} :
  (forall s, keep_polling (on_start s).1 = keep_polling s) -> keep_polling s = true ->
  reach (mounted s) t m -> keep_polling (comp m) = false -> length (timers m) + length (in_flight m) = 0.
Proof.
  intros Hs Hk. induction 1 as [|t t' m m' Hr IH Hst].
  - unfold mounted, refreshLoop. cbn. pose proof (Hs s) as E. destruct (on_start s) as [s1 c].
    cbn in *. congruence.
  - pose proof (reach_single _ _ _ Hr) as [H1 _].
    assert (forall m, timers m = [] -> in_flight m = [] -> keep_polling (comp (resetTimer m)) = false ->
      length (timers (resetTimer m)) + length (in_flight (resetTimer m)) = 0) as HR.
    { intros m0 T F. unfold resetTimer. rewrite T.
      assert (clear (timeoutId m0) [] = []) as -> by (by destruct (timeoutId m0)).
      destruct (keep_polling (comp m0)) eqn:E; cbn; [congruence|]. by rewrite F. }
    destruct Hst as [m i ts Hi|m c l a s' Hc _|m c l a e Hc _|m s' HL|m n _].
    + pose proof (Permutation_length Hi). unfold refreshLoop. cbn. pose proof (Hs (comp m)) as E.
      destruct (on_start (comp m)) as [s1 c]. cbn in *. rewrite E. intros Hf. specialize (IH Hf). lia.
    + pose proof (Permutation_length Hc). cbn in *. apply HR; cbn; apply nil_length_inv; lia.
    + pose proof (Permutation_length Hc). cbn in *. intros Hf. specialize (IH Hf). lia.
    + cbn. rewrite (local_keep _ _ HL). done.
    + exact IH.
Qed.

(** Callbacks that never throw. *)
Lemma reach_no_throw m0 t m :
  (forall c a s, exists s', answered c a s = Ok s') -> reach m0 t m -> t = false.
Proof.
  intros H. induction 1 as [|t t' m m' _ -> Hs]; [done|]. destruct Hs as [| |m c l a e _ E| |]; try done.
  destruct (H c a (comp m)) as [s' E']. congruence.
Qed.

(** A component whose callback threw has stopped. *)
Lemma reach_dead s t m : reach (mounted s) t m -> t = true -> length (timers m) + length (in_flight m) = 0.
Proof.
  induction 1 as [|t t' m m' Hr IH Hs]; [done|]. pose proof (reach_single _ _ _ Hr) as [H1 _].
  destruct Hs as [m i ts Hi|m c l a s' Hc _|m c l a e Hc _|m s' _|m n _]; rewrite ?orb_false_r; intros Ht.
  - pose proof (Permutation_length Hi). specialize (IH Ht). cbn in *. lia.
  - pose proof (Permutation_length Hc). specialize (IH Ht). cbn in *. lia.
  - pose proof (Permutation_length Hc). cbn in *. lia.
  - by apply IH.
  - by apply IH.
Qed.

(** Invariants of the component. *)
Lemma reach_inv (I : S -> Prop) s t m :
  (forall s, I s -> I (on_start s).1) -> (forall c a s s', I s -> answered c a s = Ok s' -> I s') ->
  (forall s s', I s -> local_step s s' -> I s') -> I s -> reach (mounted s) t m -> I (comp m).
Proof.
  intros H1 H2 H3 H0.
  assert (forall m, I (comp m) -> I (comp (refreshLoop m))) as HR.
  { intros m0 H. unfold refreshLoop. specialize (H1 _ H). by destruct (on_start (comp m0)). }
  assert (forall m, I (comp m) -> I (comp (resetTimer m))) as HT by (intros m0 H; unfold resetTimer; by case_if).
  induction 1 as [|t t' m m' Hr IH Hs]; [by apply HR|]. destruct Hs as [m i ts _|m c l a s' _ E|m c l a e _ _|m s' HL|m n _].
  - by apply HR.
  - apply HT. cbn. by eapply H2.
  - done.
  - cbn. by eapply H3.
  - done.
Qed.

(** Callbacks that do not throw as long as an invariant holds. *)
Lemma reach_inv_no_throw (I : S -> Prop) s t m :
  (forall s, I s -> I (on_start s).1) -> (forall c a s, I s -> exists s', answered c a s = Ok s' /\ I s') ->
  (forall s s', I s -> local_step s s' -> I s') -> I s -> reach (mounted s) t m -> t = false.
Proof.
  intros H1 H2 H3 H0. induction 1 as [|t t' m m' Hr -> Hs]; [done|].
  destruct Hs as [| |m c l a e _ E| |]; try done.
  assert (I (comp m)) as HI.
  { eapply (reach_inv I); [done| |done|done|exact Hr]. intros c' a' s1 s2 H E'. destruct (H2 c' a' s1 H) as (? & ? & ?). congruence. }
  destruct (H2 c a (comp m) HI) as (? & ? & _). congruence.
Qed.
End machine.
Arguments machine : clear implicits.

(** A coordinator whose results satisfy [G]. *)
Section restricted.
Context {S C R X : Type} (G : R -> Prop) (P : Poller S C R X).

Definition restricted : Poller S C { r : R | G r } X := {|
  on_start := on_start (Poller := P);
  on_success c r s := on_success (Poller := P) c (proj1_sig r) s;
  on_error := on_error (Poller := P);
  keep_polling := keep_polling (Poller := P);
  local_step := local_step (Poller := P)
|}.

Lemma restricted_laws : PollerLaws P -> PollerLaws restricted.
Proof. done. Qed.
End restricted.

(** A component next to the results it has got so far, oldest first. *)
Section logged.
Context {S C R X : Type} (P : Poller S C R X).

Definition logged : Poller (S * list R) C R X := {|
  on_start s := let '(s', c) := on_start (Poller := P) s.1 in ((s', s.2), c);
  on_success c r s := s' ← on_success (Poller := P) c r s.1; Ok (s', s.2 ++ [r]);
  on_error x s := s' ← on_error (Poller := P) x s.1; Ok (s', s.2);
  keep_polling s := keep_polling (Poller := P) s.1;
  local_step s s' := local_step (Poller := P) s.1 s'.1 /\ s'.2 = s.2
|}.

Lemma logged_laws : PollerLaws P -> PollerLaws logged.
Proof. intros HL s s' [H _]. by apply HL. Qed.
End logged.

(** ** Properties *)

(** the clears at the start of [refreshLoop] and in [resetTimer] do what the
    comment on them says: from mounting on, whatever the answers, the errors
    and the user's actions, there is never more than one pending refresh timer
    or outstanding request, so no two series of refreshes run at once. *)
Theorem polling_single {S C R X} {P : Poller S C R X} (s : S) (t : bool) (m : machine S C) :
  reach (mounted s) t m -> length (timers m) + length (in_flight m) <= 1.
Proof. intros H. by apply reach_single in H as [? _]. Qed.

(** polling is not lost: as long as no callback threw, a component that has
    not decided to stop has exactly one pending timer or outstanding request. *)
Theorem polling_alive {S C R X} {P : Poller S C R X} `{!PollerLaws P} (s : S) (m : machine S C) :
  reach (mounted s) false m -> keep_polling (comp m) = true ->
  length (timers m) + length (in_flight m) = 1.
Proof. intros H Hk. destruct (reach_alive _ _ _ H eq_refl) as [?|?]; [done|congruence]. Qed.

(** ** Example: a component that counts answers and stops at three *)

Definition counter_poller : Poller nat unit nat unit := {|
  on_start n := (n, tt);
  on_success _ r n := Ok (n + r);
  on_error _ n := Ok n;
  keep_polling n := n <? 3;
  local_step _ _ := False
|}.

Lemma counter_poller_laws : PollerLaws counter_poller.
Proof. intros ? ? []. Qed.

(** Mounted, then one answer: the next refresh is pending. *)
Definition counter_machine : machine nat unit :=
  let _ := counter_poller in
  resetTimer (with_comp (with_in_flight (mounted 0) []) 1).

Lemma counter_reach : @reach _ _ _ _ counter_poller (@mounted _ _ _ _ counter_poller 0) false counter_machine.
Proof.
  apply (@reach_step _ _ _ _ counter_poller _ false false (@mounted _ _ _ _ counter_poller 0)); [constructor|].
  by apply (@step_answer _ _ _ _ counter_poller _ tt [] (inl 1)).
Qed.

Lemma polling_single_witness :
  length (timers counter_machine) + length (in_flight counter_machine) <= 1.
Proof. apply (@polling_single _ _ _ _ counter_poller 0 false). exact counter_reach. Defined.

Lemma polling_alive_witness :
  length (timers counter_machine) + length (in_flight counter_machine) = 1.
Proof.
  apply (@polling_alive _ _ _ _ counter_poller counter_poller_laws 0); [exact counter_reach|reflexivity].
Defined.
