(* ===== verification/Html.v ===== *)
(** * Rendered pages

    What a [render] method returns, as React shows it: a tree of elements and
    text.  Components that appear inside a page are rendered in place.  [E] is
    the type of the events a page can raise: the handler an [onClick] or
    [onChange] attribute is bound to, with its arguments. *)
From S2P Require Import Prelude JsString JsNumber.
Local Open Scope Z_scope.

(** ** Trees *)

Inductive attr (E : Type) :=
| AStr (name value : string)
| AStyle (declarations : list (string * string))
| AClick (e : E)
| AChange (e : string -> E).
Arguments AStr {E} name value.
Arguments AStyle {E} declarations.
Arguments AClick {E} e.
Arguments AChange {E} e.

(** [Frag] is an array of children; an empty one is what [null],
    [undefined] and booleans render to. *)
Inductive vnode (E : Type) :=
| Txt (s : string)
| Elem (tag : string) (attrs : list (attr E)) (children : list (vnode E))
| Frag (children : list (vnode E)).
Arguments Txt {E} s.
Arguments Elem {E} tag attrs children.
Arguments Frag {E} children.

Definition h {E} : string -> list (attr E) -> list (vnode E) -> vnode E := Elem.
Definition txt {E} : string -> vnode E := Txt.
Definition none {E} : vnode E := Frag [].
Definition frag {E} : list (vnode E) -> vnode E := Frag.

(** A number as a child; a string that may be [null]. *)
Definition txtn {E} (n : num) : vnode E := Txt (num_to_string n).
Definition txto {E} (s : option string) : vnode E :=
  match s with Some t => Txt t | None => none end.

Definition cls {E} : string -> attr E := AStr "className".
Definition at_ {E} : string -> string -> attr E := AStr.
Definition style {E} : list (string * string) -> attr E := AStyle.
Definition onClick {E} : E -> attr E := AClick.
Definition onChange {E} : (string -> E) -> attr E := AChange.

Definition nbsp : string := String (ascii_of_nat 160) "".
Definition times_sign : string := String (ascii_of_nat 215) "".
Definition raquo : string := String (ascii_of_nat 187) "".
Definition quot : string := String (ascii_of_nat 34) "".

Definition GLYPHICON_DEFAULT : list (string * string) := [("color", "#1edcff")].
Definition GLYPHICON_HIGHLIGHT : list (string * string) := [("color", "#999999")].

(** [array.map(f)] where [f] may throw. *)
Fixpoint mapM {A B} (f : A -> result B) (l : list A) : result (list B) :=
  match l with
  | [] => Ok []
  | x :: l' => y ← f x; ys ← mapM f l'; Ok (y :: ys)
  end.

(** ** What a page shows and what it can raise *)

Definition attr_clicks {E} (a : attr E) : list E :=
  match a with AClick e => [e] | _ => [] end.

Fixpoint clicks {E} (v : vnode E) : list E :=
  match v with
  | Txt _ => []
  | Elem _ attrs children => flat_map attr_clicks attrs ++ flat_map clicks children
  | Frag children => flat_map clicks children
  end.

Definition attr_changes {E} (a : attr E) : list (string -> E) :=
  match a with AChange e => [e] | _ => [] end.

Fixpoint changes {E} (v : vnode E) : list (string -> E) :=
  match v with
  | Txt _ => []
  | Elem _ attrs children => flat_map attr_changes attrs ++ flat_map changes children
  | Frag children => flat_map changes children
  end.

(** The texts of a page, in order. *)
Fixpoint texts {E} (v : vnode E) : list string :=
  match v with
  | Txt s => [s]
  | Elem _ _ children => flat_map texts children
  | Frag children => flat_map texts children
  end.

(** The elements with a given tag. *)
Fixpoint elements {E} (t : string) (v : vnode E) : list (list (attr E) * list (vnode E)) :=
  match v with
  | Txt _ => []
  | Elem tag attrs children =>
      (if String.eqb tag t then [(attrs, children)] else []) ++ flat_map (elements t) children
  | Frag children => flat_map (elements t) children
  end.

(** The values of an attribute, over the whole page. *)
Definition attr_value {E} (n : string) (a : attr E) : list string :=
  match a with AStr m v => if String.eqb m n then [v] else [] | _ => [] end.

Fixpoint attr_values {E} (n : string) (v : vnode E) : list string :=
  match v with
  | Txt _ => []
  | Elem _ attrs children => flat_map (attr_value n) attrs ++ flat_map (attr_values n) children
  | Frag children => flat_map (attr_values n) children
  end.

(** A page inside another one: its events become events of the outer page. *)
Definition attr_map {E F} (f : E -> F) (a : attr E) : attr F :=
  match a with
  | AStr n v => AStr n v
  | AStyle d => AStyle d
  | AClick e => AClick (f e)
  | AChange g => AChange (fun s => f (g s))
  end.

Fixpoint vmap {E F} (f : E -> F) (v : vnode E) : vnode F :=
  match v with
  | Txt s => Txt s
  | Elem tag attrs children => Elem tag (map (attr_map f) attrs) (map (vmap f) children)
  | Frag children => Frag (map (vmap f) children)
  end.

(** ** Lemmas *)

Lemma elem_of_flat_map {A B} (f : A -> list B) l y :
  y ∈ flat_map f l <-> exists x, x ∈ l /\ y ∈ f x.
Proof.
  rewrite list_elem_of_In, in_flat_map. split; intros (x & H1 & H2); exists x;
    by rewrite ?list_elem_of_In in *.
Qed.

Lemma elem_of_concat {A} (ll : list (list A)) x : x ∈ concat ll <-> exists l, l ∈ ll /\ x ∈ l.
Proof.
  rewrite list_elem_of_In, in_concat. split; intros (l & H1 & H2); exists l; by rewrite ?list_elem_of_In in *.
Qed.

Lemma mapM_Ok {A B} (f : A -> result B) l :
  (forall x, x ∈ l -> exists y, f x = Ok y) -> exists ys, mapM f l = Ok ys.
Proof.
  induction l as [|x l IH]; intros H; cbn; [eauto|].
  destruct (H x) as [y ->]; [set_solver|]. destruct IH as [ys ->]; [set_solver|]. cbn. eauto.
Qed.

Lemma mapM_Forall2 {A B} (f : A -> result B) l ys :
  mapM f l = Ok ys <-> Forall2 (fun x y => f x = Ok y) l ys.
Proof.
  revert ys. induction l as [|x l IH]; intros ys; cbn.
  - split; [intros [= <-]; constructor|by inversion 1].
  - split.
    + destruct (f x) as [y|] eqn:E; [|done]. destruct (mapM f l) as [ys'|]; [|done].
      intros [= <-]. constructor; [done|]. by apply IH.
    + intros H. inversion H as [|? y ? ys' Hy Hys]; subst. rewrite Hy. apply IH in Hys.
      cbn. by rewrite Hys.
Qed.

Lemma mapM_pure {A B} (f : A -> result B) (g : A -> B) l :
  (forall x, x ∈ l -> f x = Ok (g x)) -> mapM f l = Ok (map g l).
Proof.
  induction l as [|x l IH]; intros H; cbn; [done|].
  rewrite H by set_solver. cbn. rewrite IH by set_solver. done.
Qed.

(** A nullable text raises nothing. *)
Lemma clicks_txto {E} s : clicks (txto (E := E) s) = [].
Proof. by destruct s. Qed.
Lemma changes_txto {E} s : changes (txto (E := E) s) = [].
Proof. by destruct s. Qed.
Lemma attr_values_txto {E} n s : attr_values n (txto (E := E) s) = [].
Proof. by destruct s. Qed.
#[export] Hint Rewrite @clicks_txto @changes_txto @attr_values_txto : html.
#[global] Arguments txto : simpl never.

(** Induction over a tree and the trees inside it. *)
Fixpoint vnode_tree_ind {E} (P : vnode E -> Prop) (HT : forall s, P (Txt s))
    (HE : forall tag attrs cs, Forall P cs -> P (Elem tag attrs cs)) (HF : forall cs, Forall P cs -> P (Frag cs))
    (v : vnode E) {struct v} : P v.
Proof.
  destruct v as [s|tag attrs cs|cs]; [apply HT|apply HE|apply HF]; induction cs as [|c cs IH]; constructor;
    [by apply vnode_tree_ind|exact IH|by apply vnode_tree_ind|exact IH].
Defined.

Lemma flat_map_map_ext {A B C D} (f : C -> list D) (g : A -> C) (k : B -> D) (f' : A -> list B) l :
  Forall (fun x => f (g x) = map k (f' x)) l -> flat_map f (map g l) = map k (flat_map f' l).
Proof. induction 1 as [|x l Hx _ IH]; cbn; [done|]. by rewrite Hx, IH, map_app. Qed.

Lemma clicks_vmap {E F} (f : E -> F) v : clicks (vmap f v) = map f (clicks v).
Proof.
  induction v as [s|tag attrs cs IH|cs IH] using vnode_tree_ind; cbn; [done| |].
  - rewrite map_app. f_equal; [|by apply flat_map_map_ext].
    apply flat_map_map_ext, Forall_forall. intros a _. by destruct a.
  - by apply flat_map_map_ext.
Qed.
