(* ===== verification/Sparkline.v ===== *)
(** * Charts

    The charts of the pages are drawn by the plugin [sparkline] of jQuery, which
    is not modelled: a chart is the call, that is the selector of the elements,
    the values and the object with the options.  The options are put together by
    [$.extend], translated here from [W/vendor/jquery/jquery-2.2.3.js] for a
    shallow copy of objects without undefined properties, from the constants of
    a file and those of the chart. *)
From S2P Require Import Prelude JsString JsNumber JsObject Html.
Local Open Scope Z_scope.

Module Sparkline.

(** The values of options; [Offsets] is the object [{offset: {0: ..., 1: ...}}]
    of tooltips. *)
Inductive option_value :=
| Text (s : string)
| Number (n : num)
| Flag (b : bool)
| Formatter (f : num -> string)
| Offsets (labels : list string).

Abbreviation options := (obj option_value).

(** One round of the loop of [extend]: every property of the object is assigned
    to the target. *)
Definition copy_properties {V} (target source : obj V) : obj V :=
  fold_left (fun t name => match dict_get name source with Some copy => obj_assign name copy t | None => t end)
    (own_keys source) target.

(** [$.extend(target, objects...)]: the target after it. *)
Definition extend {V} (target : obj V) (objects : list (obj V)) : obj V :=
  fold_left copy_properties objects target.

Record Chart := {
  element : string;
  values : list (option num);
  chart_options : options
}.

(** The labels of the tooltips of a chart. *)
Definition labels (c : Chart) : list string :=
  match dict_get "tooltipValueLookups" (chart_options c) with Some (Offsets l) => l | _ => [] end.

(** A chart of the values, [null]s included, with the given options over the
    constants. *)
Definition sparkline (selector : string) (vs : list (option num)) (constants extra : options) : Chart :=
  {| element := selector; values := vs; chart_options := extend [] [constants; extra] |}.

(** ** Facts about [extend] *)

(** The objects of the code: each name once, and none is [__proto__]. *)
Definition plain {V} (o : obj V) : Prop := NoDup (dict_keys o) /\ "__proto__" ∉ dict_keys o.

Lemma copy_get {V} k (source : obj V) names target : "__proto__" ∉ names ->
  dict_get k (fold_left (fun t name => match dict_get name source with Some copy => obj_assign name copy t | None => t end)
    names target)
  = if decide (k ∈ names) then match dict_get k source with Some v => Some v | None => dict_get k target end
    else dict_get k target.
Proof.
  revert target. induction names as [|n names IH]; intros target Hp; cbn [fold_left].
  - by rewrite decide_False by apply not_elem_of_nil.
  - apply not_elem_of_cons in Hp as [Hn Hp]. rewrite IH by done.
    destruct (decide (k = n)) as [->|Hk].
    + rewrite (decide_True (P := n ∈ n :: names)) by set_solver. destruct (dict_get n source) as [v|]; [|by case_decide].
      unfold obj_assign. rewrite (proj2 (String.eqb_neq _ _)) by done. rewrite dict_get_set_eq. by case_decide.
    + rewrite (decide_ext (k ∈ n :: names) (k ∈ names)) by set_solver.
      assert (dict_get k (match dict_get n source with Some copy => obj_assign n copy target | None => target end)
              = dict_get k target) as ->; [|done].
      destruct (dict_get n source) as [v|]; [|done]. unfold obj_assign. case_if; [done|]. by apply dict_get_set_ne.
Qed.

Lemma copy_properties_get {V} k (target source : obj V) : plain source ->
  dict_get k (copy_properties target source)
  = match dict_get k source with Some v => Some v | None => dict_get k target end.
Proof.
  intros [_ Hp]. unfold copy_properties. rewrite copy_get by (by rewrite own_keys_perm).
  rewrite (decide_ext _ (is_Some (dict_get k source))) by (by rewrite own_keys_perm, elem_of_dict_keys).
  destruct (dict_get k source) as [v|]; [by rewrite decide_True by eauto|].
  by rewrite decide_False by (intros [? [=]]).
Qed.

(** A name has its value in the last object that has it. *)
Lemma extend_get {V} k (constants extra : obj V) : plain constants -> plain extra ->
  dict_get k (extend [] [constants; extra])
  = match dict_get k extra with Some v => Some v | None => dict_get k constants end.
Proof.
  intros Hc He. unfold extend. cbn [fold_left]. rewrite !copy_properties_get by done. cbn.
  by destruct (dict_get k extra), (dict_get k constants).
Qed.

(** The names of an object of the code are known: both conditions are checked. *)
Lemma plain_names {V} (o : obj V) names : dict_keys o = names ->
  bool_decide (NoDup names /\ "__proto__" ∉ names) = true -> plain o.
Proof. intros E H%bool_decide_eq_true_1. unfold plain. by rewrite E. Qed.

Lemma plain_extend {V} (constants extra : obj V) : plain constants -> plain extra -> plain (extend [] [constants; extra]).
Proof.
  assert (forall (source : obj V) names t, "__proto__" ∉ names -> plain t ->
    plain (fold_left (fun t n => match dict_get n source with Some c => obj_assign n c t | None => t end) names t)) as HF.
  { intros source names. induction names as [|n names IH]; intros t Hn Ht; [done|]. cbn [fold_left].
    apply not_elem_of_cons in Hn as [Hn Hp]. apply IH; [done|]. destruct (dict_get n source) as [v|]; [|done].
    unfold obj_assign. rewrite (proj2 (String.eqb_neq _ _)) by done. destruct Ht as [H1 H2].
    split; [by apply NoDup_dict_set|]. rewrite dict_keys_set. case_decide; set_solver. }
  intros [_ Hc] [_ He]. unfold extend, copy_properties. cbn [fold_left].
  apply HF; [by rewrite own_keys_perm|]. apply HF; [by rewrite own_keys_perm|].
  split; [constructor|apply not_elem_of_nil].
Qed.

(** An option of a chart, from its own object or from the constants. *)
Lemma extra_get k v (constants extra : options) : plain constants -> plain extra ->
  dict_get k extra = Some v -> dict_get k (extend [] [constants; extra]) = Some v.
Proof. intros Hc He E. by rewrite extend_get, E. Qed.

Lemma constant_get k v (constants extra : options) : plain constants -> plain extra ->
  dict_get k extra = None -> dict_get k constants = Some v -> dict_get k (extend [] [constants; extra]) = Some v.
Proof. intros Hc He E E'. by rewrite extend_get, E. Qed.
End Sparkline.

(** Proves that an object with known names is plain. *)
Ltac plain_object :=
  first [ eapply Sparkline.plain_names; [reflexivity|vm_compute; reflexivity]
        | apply Sparkline.plain_extend; plain_object ].
