(* ===== verification/QueryList.v ===== *)
(** * components/QueryList.jsx: the query list of the overview page

    The state of [QueryList], its filters and sort keys, [filterQueries] and
    [sortAndLimitQueries], the handlers of its controls, and what the
    [refreshLoop] callback does with a new list of queries. *)
From S2P Require Import Prelude JsString JsNumber JsNumberFacts JsRegExp JsArray JsObject.
From S2P Require Import UtilsQuery UtilsText UtilsParse JsDate.
From Stdlib Require Import SpecFloat.
Local Open Scope Z_scope.

(** ** QueryListItem *)

Module QueryListItem.

(** [lines[i].search(/\S/)] *)
Definition search_nonspace (line : string) : Z :=
  search (RChar (fun c => negb (is_space c))) line.

(** The first loop: the smallest indentation of the lines that are not
    blank, -1 when there is none; it stops early at 0. *)
Fixpoint minLeadingWhitespace (lines : list string) (min : Z) : Z :=
  match lines with
  | [] => min
  | line :: lines' =>
      if min =? 0 then min
      else if slen (trim line) =? 0 then minLeadingWhitespace lines' min
      else
        let lead := search_nonspace line in
        minLeadingWhitespace lines'
          (if (-1 <? lead) && ((lead <? min) || (min =? -1)) then lead else min)
  end.

(** The second loop: [n] lines in all, [i] already seen. *)
Fixpoint formatLines (n i min : Z) (lines : list string) (formatted : string) : string :=
  match lines with
  | [] => formatted
  | line :: lines' =>
      let trimmedLine := trim_end (js_substring_from line min) in
      let formatted :=
        if 0 <? slen trimmedLine
        then formatted +:+ trimmedLine +:+ (if i <? n - 1 then newline else "")
        else formatted in
      formatLines n (i + 1) min lines' formatted
  end.

Definition stripQueryTextWhitespace (queryText : string) : option string :=
  let lines := split_on (ascii_of_nat 10) queryText in
  let min := minLeadingWhitespace lines (-1) in
  truncateString (Some (formatLines (alen lines) 0 min lines "")) 300.
End QueryListItem.

Example strip_ex :
  QueryListItem.stripQueryTextWhitespace
    ("    SELECT 1  " +:+ newline +:+ newline +:+ "      FROM t" +:+ newline)
  = Some ("SELECT 1" +:+ newline +:+ "  FROM t" +:+ newline).
Proof. vm_compute. reflexivity. Qed.

(** ** Filters and sort keys

    The functions stored in [FILTER_TYPE], [SORT_TYPE], [ERROR_TYPE] and
    [SORT_ORDER] are compared by identity, so each is a constructor, with an
    evaluation function. *)

Module FILTER_TYPE.
Inductive t := RUNNING | QUEUED | FINISHED.
#[global] Instance eq_dec : EqDecision t.
Proof. solve_decision. Defined.

Definition call (f : t) (q : Query) : bool :=
  match f with
  | RUNNING => negb (String.eqb (qstate q) "QUEUED" || String.eqb (qstate q) "FINISHED"
                     || String.eqb (qstate q) "FAILED")
  | QUEUED => String.eqb (qstate q) "QUEUED"
  | FINISHED => String.eqb (qstate q) "FINISHED"
  end.
End FILTER_TYPE.

Module SORT_TYPE.
Inductive t := CREATED | ELAPSED | EXECUTION | CPU | CUMULATIVE_MEMORY | CURRENT_MEMORY.
#[global] Instance eq_dec : EqDecision t.
Proof. solve_decision. Defined.

(** [null] counts as 0 in the comparator's subtraction. *)
Definition call (t : t) (q : Query) : num :=
  match t with
  | CREATED => Date_parse (createTime (queryStats q))
  | ELAPSED => num_of_nullable (parseDuration (elapsedTime (queryStats q)))
  | EXECUTION => num_of_nullable (parseDuration (executionTime (queryStats q)))
  | CPU => num_of_nullable (parseDuration (totalCpuTime (queryStats q)))
  | CUMULATIVE_MEMORY => cumulativeUserMemory (queryStats q)
  | CURRENT_MEMORY => num_of_nullable (parseDataSize (userMemoryReservation (queryStats q)))
  end.
End SORT_TYPE.

Module ERROR_TYPE.
Inductive t := USER_ERROR | INTERNAL_ERROR | INSUFFICIENT_RESOURCES | EXTERNAL.
#[global] Instance eq_dec : EqDecision t.
Proof. solve_decision. Defined.

Definition name (e : t) : string :=
  match e with
  | USER_ERROR => "USER_ERROR"
  | INTERNAL_ERROR => "INTERNAL_ERROR"
  | INSUFFICIENT_RESOURCES => "INSUFFICIENT_RESOURCES"
  | EXTERNAL => "EXTERNAL"
  end.

Definition call (e : t) (q : Query) : bool :=
  String.eqb (qstate q) "FAILED" && is_str (errorType q) (name e).
End ERROR_TYPE.

Module SORT_ORDER.
Inductive t := ASCENDING | DESCENDING.
#[global] Instance eq_dec : EqDecision t.
Proof. solve_decision. Defined.

Definition call (o : t) (value : num) : num :=
  match o with ASCENDING => value | DESCENDING => nneg value end.
End SORT_ORDER.

(** ** State *)

Record State := {
  allQueries : list Query;
  displayedQueries : list Query;
  reorderInterval : Z;
  currentSortType : SORT_TYPE.t;
  currentSortOrder : SORT_ORDER.t;
  stateFilters : list FILTER_TYPE.t;
  errorTypeFilters : list ERROR_TYPE.t;
  searchString : string;
  maxQueries : Z;
  lastRefresh : Z;
  lastReorder : Z;
  initialized : bool
}.

Definition initial_state (now : Z) : State := {|
  allQueries := [];
  displayedQueries := [];
  reorderInterval := 5000;
  currentSortType := SORT_TYPE.CREATED;
  currentSortOrder := SORT_ORDER.DESCENDING;
  stateFilters := [FILTER_TYPE.RUNNING; FILTER_TYPE.QUEUED];
  errorTypeFilters := [ERROR_TYPE.INTERNAL_ERROR; ERROR_TYPE.INSUFFICIENT_RESOURCES; ERROR_TYPE.EXTERNAL];
  searchString := "";
  maxQueries := 100;
  lastRefresh := now;
  lastReorder := now;
  initialized := false
|}.

(** ** Filtering *)

(** The callback of the first [filter]: some selected state or error type
    accepts the query. *)
Definition matches_filters (sf : list FILTER_TYPE.t) (ef : list ERROR_TYPE.t) (q : Query) : bool :=
  existsb (fun f => FILTER_TYPE.call f q) sf || existsb (fun e => ERROR_TYPE.call e q) ef.

Definition contains_term (text term : string) : bool :=
  negb (indexOf (toLowerCase text) term =? -1).

(** The callback of the second [filter]; [||] stops at the first success, so
    the label of the state is only computed when the id does not match. *)
Definition matches_search (searchString : string) (q : Query) : result bool :=
  let term := toLowerCase searchString in
  if contains_term (queryId q) term then Ok true
  else
    label ← getHumanReadableState q;
    if contains_term label term || contains_term (query q) term then Ok true
    else if truthy_string (user (session q)) && contains_term (default "" (user (session q))) term
    then Ok true
    else if truthy_string (source (session q)) && contains_term (default "" (source (session q))) term
    then Ok true
    else match resourceGroupId q with
         | Some ids => Ok (contains_term (join "." ids) term)
         | None => Ok false
         end.

Fixpoint filterM {A} (p : A -> result bool) (l : list A) : result (list A) :=
  match l with
  | [] => Ok []
  | x :: l' =>
      b ← p x;
      l'' ← filterM p l';
      Ok (if (b : bool) then x :: l'' else l'')
  end.

Definition filterQueries (queries : list Query) (sf : list FILTER_TYPE.t) (ef : list ERROR_TYPE.t)
    (searchString : string) : result (list Query) :=
  let stateFilteredQueries := filterb (matches_filters sf ef) queries in
  if String.eqb searchString "" then Ok stateFilteredQueries
  else filterM (matches_search searchString) stateFilteredQueries.

Section with_sort.
Context {AS : ArraySort}.

(** ** Sorting *)

Definition comparator (sortType : SORT_TYPE.t) (sortOrder : SORT_ORDER.t) (a b : Query) : num :=
  SORT_ORDER.call sortOrder (SORT_TYPE.call sortType a - SORT_TYPE.call sortType b)%js.

(** [maxQueries !== 0 && queries.length > maxQueries]: false for an
    [undefined] limit. *)
Definition limit_queries (maxQueries : option Z) (queries : list Query) : list Query :=
  match maxQueries with
  | Some m =>
      if negb (m =? 0) && (m <? alen queries)
      then array_splice m (alen queries - m) queries
      else queries
  | None => queries
  end.

(** The array after the call; [maxQueries] is [None] when the argument is
    omitted. *)
Definition sortAndLimitQueries (queries : list Query) (sortType : SORT_TYPE.t)
    (sortOrder : SORT_ORDER.t) (maxQueries : option Z) : list Query :=
  limit_queries maxQueries (array_sort (comparator sortType sortOrder) queries).

(** ** Refresh *)

(** The dictionary of the response: [false] (here [None]) marks an entry that
    was already on display. *)
Definition query_map (queryList : list Query) : obj (option Query) :=
  fold_left (fun m q => dict_set (queryId q) (Some q) m) queryList [].

(** The loop over the displayed queries.  Pushing an entry that is no query
    (one already taken, or a property of [Object.prototype]) puts a value in
    the list on which every later use throws. *)
Fixpoint update_displayed (old : list Query) (m : obj (option Query)) (updated : list Query)
    : result (list Query * obj (option Query)) :=
  match old with
  | [] => Ok (updated, m)
  | q :: old' =>
      if obj_in (queryId q) m then
        match dict_get (queryId q) m with
        | Some (Some q') =>
            update_displayed old' (dict_set (queryId q) None m) (updated ++ [q'])
        | _ => Throw TypeError
        end
      else update_displayed old' m updated
  end.

(** [for (const queryId in queryMap) if (queryMap[queryId]) ...] *)
Definition remaining_queries (m : obj (option Query)) : list Query :=
  omap (fun k => mjoin (dict_get k m)) (own_keys m).

Definition set_refreshed (s : State) (queryList updated : list Query) (lastRefresh lastReorder : Z)
    : State := {|
  allQueries := queryList;
  displayedQueries := updated;
  reorderInterval := reorderInterval s;
  currentSortType := currentSortType s;
  currentSortOrder := currentSortOrder s;
  stateFilters := stateFilters s;
  errorTypeFilters := errorTypeFilters s;
  searchString := searchString s;
  maxQueries := maxQueries s;
  lastRefresh := lastRefresh;
  lastReorder := lastReorder;
  initialized := true
|}.

Definition reorder_due (s : State) (now : Z) : bool :=
  negb (reorderInterval s =? 0) && (reorderInterval s <=? now - lastReorder s).

(** The success callback of [refreshLoop]; [now] and [now'] are the two
    readings of the clock. *)
Definition refresh_success (now now' : Z) (queryList : list Query) (s : State) : result State :=
  '(updated, m) ← update_displayed (displayedQueries s) (query_map queryList) [];
  newQueries ← filterQueries (remaining_queries m) (stateFilters s) (errorTypeFilters s) (searchString s);
  if reorder_due s now then
    updated ← filterQueries updated (stateFilters s) (errorTypeFilters s) (searchString s);
    let updated := sortAndLimitQueries (updated ++ newQueries) (currentSortType s) (currentSortOrder s) (Some 0) in
    Ok (set_refreshed s queryList (limit_queries (Some (maxQueries s)) updated) now now')
  else
    let newQueries := sortAndLimitQueries newQueries (currentSortType s) (currentSortOrder s) (Some 0) in
    Ok (set_refreshed s queryList (limit_queries (Some (maxQueries s)) (updated ++ newQueries))
          now (lastReorder s)).

(** The error callback. *)
Definition refresh_error (s : State) : State := {|
  allQueries := allQueries s; displayedQueries := displayedQueries s;
  reorderInterval := reorderInterval s; currentSortType := currentSortType s;
  currentSortOrder := currentSortOrder s; stateFilters := stateFilters s;
  errorTypeFilters := errorTypeFilters s; searchString := searchString s;
  maxQueries := maxQueries s; lastRefresh := lastRefresh s; lastReorder := lastReorder s;
  initialized := true |}.

(** ** Controls *)

(** What every control writes: the settings and the displayed queries. *)
Definition set_controls (s : State) (displayed : list Query) (interval : Z) (st : SORT_TYPE.t)
    (so : SORT_ORDER.t) (sf : list FILTER_TYPE.t) (ef : list ERROR_TYPE.t) (search : string)
    (max : Z) : State := {|
  allQueries := allQueries s; displayedQueries := displayed; reorderInterval := interval;
  currentSortType := st; currentSortOrder := so; stateFilters := sf; errorTypeFilters := ef;
  searchString := search; maxQueries := max; lastRefresh := lastRefresh s;
  lastReorder := lastReorder s; initialized := initialized s |}.

(** [handleSearchStringChange], apart from its timer. *)
Definition handleSearchStringChange (newSearchString : string) (s : State) : State :=
  set_controls s (displayedQueries s) (reorderInterval s) (currentSortType s) (currentSortOrder s)
    (stateFilters s) (errorTypeFilters s) newSearchString (maxQueries s).

Definition executeSearch (s : State) : result State :=
  newDisplayedQueries ← filterQueries (allQueries s) (stateFilters s) (errorTypeFilters s) (searchString s);
  let newDisplayedQueries :=
    sortAndLimitQueries newDisplayedQueries (currentSortType s) (currentSortOrder s) (Some (maxQueries s)) in
  Ok (set_controls s newDisplayedQueries (reorderInterval s) (currentSortType s) (currentSortOrder s)
        (stateFilters s) (errorTypeFilters s) (searchString s) (maxQueries s)).

Definition handleMaxQueriesClick (newMaxQueries : Z) (s : State) : result State :=
  filteredQueries ← filterQueries (allQueries s) (stateFilters s) (errorTypeFilters s) (searchString s);
  let filteredQueries :=
    sortAndLimitQueries filteredQueries (currentSortType s) (currentSortOrder s) (Some newMaxQueries) in
  Ok (set_controls s filteredQueries (reorderInterval s) (currentSortType s) (currentSortOrder s)
        (stateFilters s) (errorTypeFilters s) (searchString s) newMaxQueries).

Definition handleReorderClick (interval : Z) (s : State) : State :=
  if negb (reorderInterval s =? interval)
  then set_controls s (displayedQueries s) interval (currentSortType s) (currentSortOrder s)
         (stateFilters s) (errorTypeFilters s) (searchString s) (maxQueries s)
  else s.

Definition handleSortClick (sortType : SORT_TYPE.t) (s : State) : result State :=
  let newSortType := sortType in
  let newSortOrder :=
    if bool_decide (currentSortType s = sortType) && bool_decide (currentSortOrder s = SORT_ORDER.DESCENDING)
    then SORT_ORDER.ASCENDING else SORT_ORDER.DESCENDING in
  newDisplayedQueries ← filterQueries (allQueries s) (stateFilters s) (errorTypeFilters s) (searchString s);
  let newDisplayedQueries :=
    sortAndLimitQueries newDisplayedQueries newSortType newSortOrder (Some (maxQueries s)) in
  Ok (set_controls s newDisplayedQueries (reorderInterval s) newSortType newSortOrder
        (stateFilters s) (errorTypeFilters s) (searchString s) (maxQueries s)).

(** [newFilters.splice(newFilters.indexOf(f), 1)] when selected, [push]
    otherwise. *)
Definition toggle_filter {A} `{EqDecision A} (f : A) (filters : list A) : list A :=
  if -1 <? array_indexOf f filters
  then array_splice (array_indexOf f filters) 1 filters
  else filters ++ [f].

(** The two filter handlers call [sortAndLimitQueries] without a limit. *)
Definition handleStateFilterClick (filter : FILTER_TYPE.t) (s : State) : result State :=
  let newFilters := toggle_filter filter (stateFilters s) in
  filteredQueries ← filterQueries (allQueries s) newFilters (errorTypeFilters s) (searchString s);
  let filteredQueries := sortAndLimitQueries filteredQueries (currentSortType s) (currentSortOrder s) None in
  Ok (set_controls s filteredQueries (reorderInterval s) (currentSortType s) (currentSortOrder s)
        newFilters (errorTypeFilters s) (searchString s) (maxQueries s)).

Definition handleErrorTypeFilterClick (errorType : ERROR_TYPE.t) (s : State) : result State :=
  let newFilters := toggle_filter errorType (errorTypeFilters s) in
  filteredQueries ← filterQueries (allQueries s) (stateFilters s) newFilters (searchString s);
  let filteredQueries := sortAndLimitQueries filteredQueries (currentSortType s) (currentSortOrder s) None in
  Ok (set_controls s filteredQueries (reorderInterval s) (currentSortType s) (currentSortOrder s)
        (stateFilters s) newFilters (searchString s) (maxQueries s)).

End with_sort.
