(* ===== verification/QueryListFacts.v ===== *)
(** * Correctness of the query list

    The abstract contract of the list is [view]: the queries of the last
    response that the filters and the search accept, sorted and cut to the
    limit.  Every control and every reordering refresh produces a view; a
    refresh between reorderings keeps the order on screen and appends the new
    queries.  The invariant [list_inv] says that what is displayed comes from
    the last response, each query once. *)
From S2P Require Import Prelude JsString JsNumber JsNumberFacts JsRegExp JsArray JsObject.
From S2P Require Import UtilsQuery UtilsText UtilsParse JsDate QueryList.
From Stdlib Require Import SpecFloat.
Local Open Scope Z_scope.

(** ** Filtering *)

Definition search_matches (str : string) (q : Query) : bool :=
  match matches_search str q with Ok b => b | Throw _ => false end.

(** The queries the settings accept. *)
Definition visible (sf : list FILTER_TYPE.t) (ef : list ERROR_TYPE.t) (str : string) (q : Query) : bool :=
  matches_filters sf ef q && (String.eqb str "" || search_matches str q).

Lemma matches_search_total str q :
  well_formed q -> matches_search str q = Ok (search_matches str q).
Proof.
  intros W. unfold search_matches, matches_search. case_if; [done|].
  destruct (getHumanReadableState_total q W) as [label ->]. cbn.
  repeat case_if; try done. by destruct (resourceGroupId q).
Qed.

Lemma filterM_total {A} (p : A -> result bool) (b : A -> bool) l :
  (forall x, x ∈ l -> p x = Ok (b x)) -> filterM p l = Ok (filterb b l).
Proof.
  induction l as [|x l IH]; intros H; cbn; [done|].
  rewrite H by set_solver. cbn. rewrite IH by set_solver. cbn. done.
Qed.

Lemma filterb_filterb {A} (p q : A -> bool) l :
  filterb q (filterb p l) = filterb (fun x => p x && q x) l.
Proof. induction l as [|x l IH]; cbn; [done|]. destruct (p x); cbn; by rewrite IH. Qed.

(** On well-formed queries filtering never throws and keeps the visible
    ones, in order. *)
Lemma filterQueries_ok queries sf ef str :
  Forall well_formed queries ->
  filterQueries queries sf ef str = Ok (filterb (visible sf ef str) queries).
Proof.
  intros W. unfold filterQueries, visible. destruct (String.eqb str "") eqn:E.
  - f_equal. apply filterb_ext. intros q _. cbn. by rewrite andb_true_r.
  - rewrite (filterM_total _ (search_matches str)).
    + by rewrite filterb_filterb.
    + intros q [Hq _]%elem_of_filterb. apply matches_search_total.
      rewrite Forall_forall in W. auto.
Qed.

(** ** Sorting and limiting *)

Section facts.
Context {AS : ArraySort}.

Lemma limit_queries_take m l :
  limit_queries m l =
  match m with
  | Some m => if decide (0 < m) then take (Z.to_nat m) l else limit_queries (Some m) l
  | None => l
  end.
Proof.
  destruct m as [m|]; [|done]. case_decide as Hm; [|done]. unfold limit_queries, array_splice, alen.
  replace (m =? 0) with false by lia. cbn [negb andb]. destruct (Z.ltb_spec m (Z.of_nat (length l))).
  - rewrite (drop_ge l) by lia. by rewrite app_nil_r.
  - by rewrite take_ge by lia.
Qed.

(** A limit is 0 (no limit) or positive. *)
Definition limit_of (m : Z) (l : list Query) : list Query :=
  if decide (m = 0) then l else take (Z.to_nat m) l.

Lemma limit_queries_of m l : 0 <= m -> limit_queries (Some m) l = limit_of m l.
Proof.
  intros Hm. rewrite limit_queries_take. unfold limit_of. repeat case_decide; try lia; [done|].
  subst. done.
Qed.

Lemma limit_of_bound m l : 0 < m -> (length (limit_of m l) <= Z.to_nat m)%nat.
Proof. intros Hm. unfold limit_of. case_decide; [lia|]. rewrite length_take. lia. Qed.

Lemma limit_of_sublist m l : limit_of m l `sublist_of` l.
Proof. unfold limit_of. case_decide; [done|]. apply sublist_take. Qed.

(** The keys the comparator subtracts are finite doubles. *)
Definition sortable (t : SORT_TYPE.t) (q : Query) : Prop := finite_key (SORT_TYPE.call t) q.

Lemma comparator_consistent t o : consistent (comparator t o) (sortable t).
Proof.
  destruct o; [apply (consistent_ascending (SORT_TYPE.call t))|].
  apply (consistent_descending (SORT_TYPE.call t)).
Qed.

(** The order on screen: the key of an earlier query is not larger (not
    smaller, when descending). *)
Definition in_order (t : SORT_TYPE.t) (o : SORT_ORDER.t) (a b : Query) : Prop :=
  match o with
  | SORT_ORDER.ASCENDING => scaled (SORT_TYPE.call t a) <= scaled (SORT_TYPE.call t b)
  | SORT_ORDER.DESCENDING => scaled (SORT_TYPE.call t b) <= scaled (SORT_TYPE.call t a)
  end.

Lemma cmp_le_in_order t o a b :
  sortable t a -> sortable t b -> cmp_le (comparator t o) a b = true -> in_order t o a b.
Proof.
  intros Ha Hb. destruct o; unfold comparator, in_order; cbn [SORT_ORDER.call].
  - rewrite (cmp_le_ascending (SORT_TYPE.call t)) by done. by intros ?%Z.leb_le.
  - rewrite (cmp_le_descending (SORT_TYPE.call t)) by done. by intros ?%Z.leb_le.
Qed.

Lemma StronglySorted_impl {A} (R S : A -> A -> Prop) (P : A -> Prop) l :
  (forall x y, P x -> P y -> R x y -> S x y) -> Forall P l ->
  StronglySorted R l -> StronglySorted S l.
Proof.
  intros H HP. induction 1 as [|x l Hl IH Hx]; [constructor|].
  apply Forall_cons in HP as [Px HP]. constructor; [auto|].
  rewrite Forall_forall in *. eauto.
Qed.

Lemma sort_sorted t o l :
  Forall (sortable t) l -> StronglySorted (in_order t o) (array_sort (comparator t o) l).
Proof.
  intros H. eapply (StronglySorted_impl _ _ (sortable t)).
  - intros x y Hx Hy. by apply cmp_le_in_order.
  - by rewrite array_sort_perm.
  - apply array_sort_sorted. eapply consistent_weaken; [|apply comparator_consistent].
    intros x Hx. rewrite Forall_forall in H. auto.
Qed.

(** [l] is a view of the queries [all] under the given settings: sorted when
    the keys are comparable, and cut to the limit. *)
Definition is_view (all : list Query) (t : SORT_TYPE.t) (o : SORT_ORDER.t) (sf : list FILTER_TYPE.t)
    (ef : list ERROR_TYPE.t) (str : string) (max : Z) (l : list Query) : Prop :=
  exists full,
    full ≡ₚ filterb (visible sf ef str) all /\
    (Forall (sortable t) all -> StronglySorted (in_order t o) full) /\
    l = limit_of max full.

Lemma Forall_filterb {A} (P : A -> Prop) (p : A -> bool) l : Forall P l -> Forall P (filterb p l).
Proof. rewrite !Forall_forall. intros H x [Hx _]%elem_of_filterb. auto. Qed.

Lemma sorted_view all k t o sf ef str max :
  0 <= max -> k ≡ₚ filterb (visible sf ef str) all ->
  is_view all t o sf ef str max (limit_queries (Some max) (sortAndLimitQueries k t o (Some 0))).
Proof.
  intros Hm Hk. exists (array_sort (comparator t o) k). unfold sortAndLimitQueries. split_and!.
  - by rewrite array_sort_perm.
  - intros H. apply sort_sorted. rewrite Hk. by apply Forall_filterb.
  - by rewrite limit_queries_of by done.
Qed.

Lemma sort_and_limit_view all t o sf ef str max :
  0 <= max ->
  is_view all t o sf ef str max
    (sortAndLimitQueries (filterb (visible sf ef str) all) t o (Some max)).
Proof. intros Hm. apply (sorted_view all _ t o sf ef str max Hm). done. Qed.

Lemma view_subset all t o sf ef str max l q :
  is_view all t o sf ef str max l -> q ∈ l -> q ∈ all /\ visible sf ef str q = true.
Proof.
  intros (full & Hp & _ & ->) Hq.
  assert (q ∈ full) as Hf by (eapply elem_of_sublist; [|apply limit_of_sublist]; eauto).
  rewrite Hp in Hf. by apply elem_of_filterb.
Qed.

Definition ids (l : list Query) : list string := queryId <$> l.

Lemma NoDup_ids_sublist l k : l `sublist_of` k -> NoDup (ids k) -> NoDup (ids l).
Proof. intros H HN. eapply sublist_NoDup; [exact HN|]. by apply fmap_sublist. Qed.

Lemma view_NoDup all t o sf ef str max l :
  is_view all t o sf ef str max l -> NoDup (ids all) -> NoDup (ids l).
Proof.
  intros (full & Hp & _ & ->) HN.
  apply (NoDup_ids_sublist _ full); [apply limit_of_sublist|].
  unfold ids. rewrite Hp. eapply NoDup_ids_sublist; [apply filterb_sublist|done].
Qed.

(** ** The dictionary of the response *)

Section response.
Context (ql : list Query) (HN : NoDup (ids ql)).

Lemma query_map_fold l m :
  NoDup (dict_keys m ++ ids l) ->
  let m' := fold_left (fun m q => dict_set (queryId q) (Some q) m) l m in
  dict_keys m' = dict_keys m ++ ids l /\
  (forall q, q ∈ l -> dict_get (queryId q) m' = Some (Some q)) /\
  (forall k, k ∉ ids l -> dict_get k m' = dict_get k m).
Proof.
  revert m. induction l as [|q l IH]; intros m HD; cbn.
  - rewrite app_nil_r. split_and!; [done|set_solver|done].
  - assert (queryId q ∉ dict_keys m) as Hq.
    { intros Hin. apply NoDup_app in HD as (_ & HD & _). apply (HD _ Hin). cbn. set_solver. }
    assert (dict_keys (dict_set (queryId q) (Some q) m) = dict_keys m ++ [queryId q]) as Ek.
    { by rewrite dict_keys_set, decide_False. }
    destruct (IH (dict_set (queryId q) (Some q) m)) as (I1 & I2 & I3).
    { rewrite Ek, <- app_assoc. done. }
    split_and!.
    + rewrite I1, Ek, <- app_assoc. done.
    + intros q' [->|Hq']%elem_of_cons; [|auto]. rewrite I3, dict_get_set_eq; [done|].
      apply NoDup_app in HD as (_ & _ & HD). cbn in HD. by apply NoDup_cons in HD as [? _].
    + intros k Hk. rewrite I3, dict_get_set_ne; set_solver.
Qed.

Lemma query_map_keys : dict_keys (query_map ql) = ids ql.
Proof. unfold query_map. by destruct (query_map_fold ql []) as [-> _]. Qed.

Lemma query_map_get q : q ∈ ql -> dict_get (queryId q) (query_map ql) = Some (Some q).
Proof. destruct (query_map_fold ql []) as (_ & H & _); [done|]. apply H. Qed.

(** The dictionary after the queries with ids [taken] were moved out. *)
Definition taken_map (taken : list string) (m : obj (option Query)) : Prop :=
  dict_keys m = ids ql /\
  forall q, q ∈ ql -> dict_get (queryId q) m = Some (if decide (queryId q ∈ taken) then None else Some q).

Lemma taken_map_start : taken_map [] (query_map ql).
Proof.
  split; [apply query_map_keys|]. intros q Hq. rewrite decide_False by set_solver.
  by apply query_map_get.
Qed.

Lemma ids_inj q q' : q ∈ ql -> q' ∈ ql -> queryId q = queryId q' -> q = q'.
Proof.
  intros H1 H2 E. clear -HN H1 H2 E. induction ql as [|x l IH]; [set_solver|].
  cbn in HN. apply NoDup_cons in HN as [Hx HN'].
  assert (forall y, y ∈ l -> queryId y ∈ ids l) as Hin by (intros; by apply list_elem_of_fmap_2).
  apply elem_of_cons in H1 as [->|H1]; apply elem_of_cons in H2 as [->|H2]; auto.
  - exfalso. apply Hx. rewrite E. auto.
  - exfalso. apply Hx. rewrite <- E. auto.
Qed.

Lemma taken_map_has m taken k : taken_map taken m -> dict_has k m = bool_decide (k ∈ ids ql).
Proof.
  intros [Hk _]. unfold dict_has. apply bool_decide_ext. by rewrite <- elem_of_dict_keys, Hk.
Qed.

Lemma taken_map_set m taken k :
  taken_map taken m -> k ∈ ids ql -> taken_map (taken ++ [k]) (dict_set k None m).
Proof.
  intros [Hk Hg] Hin. split.
  - by rewrite dict_keys_set, decide_True by (by rewrite Hk).
  - intros q Hq. rewrite dict_get_set, Hg by done. repeat case_decide; set_solver.
Qed.

(** The current data of the query with a given id. *)
Definition current (k : string) : option Query := find (fun q => String.eqb (queryId q) k) ql.

Lemma current_Some k q : current k = Some q <-> q ∈ ql /\ queryId q = k.
Proof.
  unfold current. split.
  - intros H. apply find_some in H as [H1 H2%String.eqb_eq]. by rewrite list_elem_of_In.
  - intros [H1 <-]. destruct (find _ ql) as [q'|] eqn:E.
    + apply find_some in E as [E1 E2%String.eqb_eq]. f_equal.
      apply ids_inj; [by apply list_elem_of_In|done|done].
    + apply list_elem_of_In in H1. eapply find_none in E; [|exact H1].
      by rewrite String.eqb_refl in E.
Qed.

Lemma current_None k : k ∉ ids ql -> current k = None.
Proof.
  intros Hk. destruct (current k) as [q|] eqn:E; [|done].
  apply current_Some in E as [Hq <-]. exfalso. apply Hk. by apply list_elem_of_fmap_2.
Qed.

(** The current data of the queries [old], in their order. *)
Definition kept (old : list Query) : list Query := omap (fun q => current (queryId q)) old.

Lemma elem_of_kept old q : q ∈ kept old <-> q ∈ ql /\ queryId q ∈ ids old.
Proof.
  unfold kept. rewrite list_elem_of_omap. split.
  - intros (q0 & H0 & [Hq E]%current_Some). split; [done|]. rewrite E. by apply list_elem_of_fmap_2.
  - intros [Hq (q0 & E & H0)%list_elem_of_fmap]. exists q0. split; [done|]. by apply current_Some.
Qed.

Lemma kept_ids old : ids (kept old) `sublist_of` ids old.
Proof.
  unfold kept, ids. induction old as [|q old IH]; cbn; [done|].
  destruct (current (queryId q)) as [q'|] eqn:E; cbn; [|by constructor].
  apply current_Some in E as [_ ->]. by constructor.
Qed.

Lemma update_displayed_kept old : forall m taken updated,
  taken_map taken m -> NoDup (taken ++ ids old) ->
  Forall (fun q => inherited (queryId q) = false) old ->
  exists m', update_displayed old m updated = Ok (updated ++ kept old, m') /\
             taken_map (taken ++ ids old) m'.
Proof.
  induction old as [|q old IH]; intros m taken updated HT HD HI; cbn.
  { exists m. by rewrite !app_nil_r. }
  apply Forall_cons in HI as [Hq HI]. unfold obj_in. rewrite Hq, orb_false_r.
  rewrite (taken_map_has _ taken) by done. case_bool_decide as Hin.
  - apply list_elem_of_fmap in Hin as (q' & E & Hq').
    assert (current (queryId q) = Some q') as -> by (by apply current_Some).
    destruct HT as [HT1 HT2]. rewrite E, (HT2 q') by done.
    rewrite decide_False.
    2:{ rewrite <- E. intros Ht. apply NoDup_app in HD as (_ & HD & _). apply (HD _ Ht). cbn. set_solver. }
    rewrite <- E.
    destruct (IH (dict_set (queryId q) None m) (taken ++ [queryId q]) (updated ++ [q'])) as (m' & -> & HT').
    + apply taken_map_set; [done|]. rewrite E. by apply list_elem_of_fmap_2.
    + by rewrite <- app_assoc.
    + done.
    + exists m'. rewrite <- app_assoc in HT' |- *. done.
  - rewrite current_None by done. destruct (IH m taken updated) as (m' & -> & HT').
    + done.
    + apply NoDup_app in HD as (H1 & H2 & H3). cbn in H3. apply NoDup_cons in H3 as [_ H3].
      apply NoDup_app. split_and!; [done| |done]. intros x Hx Hx'. apply (H2 x Hx). cbn. set_solver.
    + done.
    + exists m'. split; [done|]. destruct HT' as [HT1 HT2]. split; [done|].
      intros q' Hq'. rewrite HT2 by done.
      assert (queryId q' <> queryId q) by (intros Eq; apply Hin; rewrite <- Eq; by apply list_elem_of_fmap_2).
      repeat case_decide; set_solver.
Qed.

Lemma remaining_perm m taken :
  taken_map taken m ->
  remaining_queries m ≡ₚ filterb (fun q => negb (bool_decide (queryId q ∈ taken))) ql.
Proof.
  intros [HT1 HT2]. unfold remaining_queries. rewrite own_keys_perm, HT1. unfold ids.
  clear HN HT1. induction ql as [|q l IH]; cbn; [done|].
  assert (IH' := IH ltac:(set_solver)). rewrite HT2 by set_solver.
  destruct (decide (queryId q ∈ taken)) as [H|H]; cbn.
  - by rewrite bool_decide_true by done.
  - rewrite bool_decide_false by done. cbn. by rewrite IH'.
Qed.

(** What is on display and what is new, together, is the response. *)
Lemma refresh_partition old rest :
  NoDup (ids old) ->
  rest ≡ₚ filterb (fun q => negb (bool_decide (queryId q ∈ ids old))) ql ->
  kept old ++ rest ≡ₚ ql.
Proof.
  intros Ho ->. apply NoDup_Permutation.
  - apply (NoDup_fmap_1 queryId). rewrite fmap_app. apply NoDup_app. split_and!.
    + eapply sublist_NoDup; [exact Ho|]. apply kept_ids.
    + intros k (q & -> & Hq)%list_elem_of_fmap (q' & E & Hq')%list_elem_of_fmap.
      apply elem_of_kept in Hq as [_ Hq]. apply elem_of_filterb in Hq' as [_ Hq'].
      apply negb_true_iff, bool_decide_eq_false in Hq'. congruence.
    + eapply NoDup_ids_sublist; [apply filterb_sublist|done].
  - by apply (NoDup_fmap_1 queryId).
  - intros q. rewrite elem_of_app, elem_of_kept, elem_of_filterb, negb_true_iff, bool_decide_eq_false.
    destruct (decide (queryId q ∈ ids old)); tauto.
Qed.
End response.

(** ** The invariant *)

(** What the coordinator sends: distinct, well-formed queries, whose ids are
    not names every JavaScript object inherits. *)
Record good_response (ql : list Query) : Prop := {
  response_ids : NoDup (ids ql);
  response_wf : Forall well_formed ql;
  response_plain : Forall (fun q => inherited (queryId q) = false) ql
}.

Record list_inv (s : State) : Prop := {
  inv_all : good_response (allQueries s);
  inv_shown_ids : NoDup (ids (displayedQueries s));
  inv_shown_known q : q ∈ displayedQueries s -> q ∈ allQueries s;
  inv_max : 0 <= maxQueries s
}.

Lemma inv_initial now : list_inv (initial_state now).
Proof. split; cbn; [|constructor|set_solver|lia]. split; constructor. Qed.

Lemma view_inv s displayed interval t o sf ef str max :
  list_inv s -> 0 <= max ->
  NoDup (ids displayed) -> (forall q, q ∈ displayed -> q ∈ allQueries s) ->
  list_inv (set_controls s displayed interval t o sf ef str max).
Proof. intros [] Hm H1 H2. by split. Qed.

Lemma sublist_shown l k : l `sublist_of` k -> NoDup (ids k) -> NoDup (ids l) /\ (forall q, q ∈ l -> q ∈ k).
Proof. intros H HN. split; [by eapply NoDup_ids_sublist|]. intros q Hq. by eapply elem_of_sublist. Qed.

Lemma shown_plain s : list_inv s -> Forall (fun q => inherited (queryId q) = false) (displayedQueries s).
Proof.
  intros [[_ _ HP] _ HK _]. rewrite Forall_forall in *. auto.
Qed.

(** The pieces of a refresh, on a good response. *)
Lemma refresh_pieces s ql :
  list_inv s -> good_response ql ->
  exists m, update_displayed (displayedQueries s) (query_map ql) [] = Ok (kept ql (displayedQueries s), m) /\
    kept ql (displayedQueries s) ++ remaining_queries m ≡ₚ ql /\
    remaining_queries m ≡ₚ filterb (fun q => negb (bool_decide (queryId q ∈ ids (displayedQueries s)))) ql.
Proof.
  intros HI [HN _ _]. pose proof (shown_plain s HI) as HP. destruct HI as [_ HD _ _].
  destruct (update_displayed_kept ql HN (displayedQueries s) (query_map ql) [] [])
    as (m & E & HT); [by apply taken_map_start|done|done|].
  exists m. split; [done|]. pose proof (remaining_perm ql m _ HT) as HR.
  split; [|done]. by apply refresh_partition.
Qed.

Lemma Forall_perm_app {A} (P : A -> Prop) l k m : l ++ k ≡ₚ m -> Forall P m -> Forall P l /\ Forall P k.
Proof. intros E H. rewrite <- E in H. by apply Forall_app in H. Qed.

(** The result of a refresh, in its two cases. *)
Lemma refresh_result now now' ql s :
  list_inv s -> good_response ql ->
  exists fresh,
    fresh ≡ₚ filterb (fun q => negb (bool_decide (queryId q ∈ ids (displayedQueries s)))) ql /\
    kept ql (displayedQueries s) ++ fresh ≡ₚ ql /\
    let vis := visible (stateFilters s) (errorTypeFilters s) (searchString s) in
    let sorted l := array_sort (comparator (currentSortType s) (currentSortOrder s)) l in
    refresh_success now now' ql s =
      Ok (if reorder_due s now
          then set_refreshed s ql (limit_of (maxQueries s)
                 (sorted (filterb vis (kept ql (displayedQueries s) ++ fresh)))) now now'
          else set_refreshed s ql (limit_of (maxQueries s)
                 (kept ql (displayedQueries s) ++ sorted (filterb vis fresh))) now (lastReorder s)).
Proof.
  intros HI HG. destruct (refresh_pieces s ql HI HG) as (m & E & HP & HR).
  destruct (Forall_perm_app well_formed _ _ _ HP (response_wf _ HG)) as [W1 W2].
  exists (remaining_queries m). split; [done|]. split; [done|]. cbv zeta.
  unfold refresh_success. rewrite E. cbn [mbind result_bind].
  rewrite (filterQueries_ok (remaining_queries m)) by done. cbn [mbind result_bind].
  pose proof (inv_max s HI). destruct (reorder_due s now).
  - rewrite filterQueries_ok by done. cbn [mbind result_bind]. cbv zeta.
    rewrite limit_queries_of by done. by rewrite filterb_app.
  - cbn match. cbv zeta.  by rewrite limit_queries_of by done.
Qed.

Lemma refresh_shown now now' ql s s' :
  list_inv s -> good_response ql -> refresh_success now now' ql s = Ok s' ->
  allQueries s' = ql /\ maxQueries s' = maxQueries s /\
  exists full, displayedQueries s' = limit_of (maxQueries s) full /\
    NoDup (ids full) /\ (forall q, q ∈ full -> q ∈ ql).
Proof.
  intros HI HG. destruct (refresh_result now now' ql s HI HG) as (fresh & _ & HP & ->).
  intros [= <-]. split; [by destruct (reorder_due s now)|]. split; [by destruct (reorder_due s now)|].
  destruct HG as [HN _ _]. destruct (reorder_due s now); eexists; (split; [reflexivity|]).
  - split.
    + unfold ids. rewrite array_sort_perm. eapply NoDup_ids_sublist; [apply filterb_sublist|].
      unfold ids. by rewrite HP.
    + intros q. rewrite array_sort_elem, elem_of_filterb, HP. tauto.
  - split.
    + unfold ids. rewrite array_sort_perm. eapply (NoDup_ids_sublist _ (kept ql (displayedQueries s) ++ fresh)).
      * apply sublist_app; [done|apply filterb_sublist].
      * unfold ids. by rewrite HP.
    + intros q. rewrite elem_of_app, array_sort_elem, elem_of_filterb. intros Hq.
      rewrite <- HP. set_solver.
Qed.

Lemma refresh_inv now now' ql s s' :
  list_inv s -> good_response ql -> refresh_success now now' ql s = Ok s' -> list_inv s'.
Proof.
  intros HI HG E. destruct (refresh_shown _ _ _ _ _ HI HG E) as (E1 & E2 & full & E3 & HN & HK).
  destruct (sublist_shown _ _ (limit_of_sublist (maxQueries s) full) HN) as [S1 S2].
  split; rewrite ?E1, ?E2, ?E3; [done|done|auto|apply HI].
Qed.

(** ** Controls *)

Lemma sortAndLimit_None l t o : sortAndLimitQueries l t o None = array_sort (comparator t o) l.
Proof. done. Qed.

(** Filter, sort and limit, as every control does it, keeps the invariant
    whatever the limit. *)
Lemma control_shown s sf ef str t o max :
  list_inv s ->
  let l := sortAndLimitQueries (filterb (visible sf ef str) (allQueries s)) t o max in
  NoDup (ids l) /\ (forall q, q ∈ l -> q ∈ allQueries s).
Proof.
  intros [[HN _ _] _ _ _]. cbv zeta.
  assert (NoDup (ids (array_sort (comparator t o) (filterb (visible sf ef str) (allQueries s))))) as HN'.
  { unfold ids. rewrite array_sort_perm. eapply NoDup_ids_sublist; [apply filterb_sublist|done]. }
  assert (sortAndLimitQueries (filterb (visible sf ef str) (allQueries s)) t o max `sublist_of`
    array_sort (comparator t o) (filterb (visible sf ef str) (allQueries s))) as HS.
  { unfold sortAndLimitQueries, limit_queries. destruct max as [m|]; [|done]. case_if; [|done].
    unfold array_splice, alen. rewrite (drop_ge _ (_ + _)); [rewrite app_nil_r; apply sublist_take|].
    bool_hyps. eqb_hyps. unfold alen in *. lia. }
  destruct (sublist_shown _ _ HS HN') as [S1 S2]. split; [done|].
  intros q Hq. apply S2 in Hq. rewrite array_sort_elem in Hq. by apply elem_of_filterb in Hq as [? _].
Qed.

Lemma filter_all_ok s sf ef str :
  list_inv s ->
  filterQueries (allQueries s) sf ef str = Ok (filterb (visible sf ef str) (allQueries s)).
Proof. intros [[_ W _] _ _ _]. by apply filterQueries_ok. Qed.

(** ** Events *)

Inductive event :=
| Refreshed (now now' : Z) (queryList : list Query)
| RefreshFailed
| SearchChanged (str : string)
| SearchTimer
| MaxQueriesClick (n : Z)
| ReorderClick (n : Z)
| SortClick (t : SORT_TYPE.t)
| StateFilterClick (f : FILTER_TYPE.t)
| ErrorTypeFilterClick (e : ERROR_TYPE.t).

Definition handle (e : event) (s : State) : result State :=
  match e with
  | Refreshed now now' ql => refresh_success now now' ql s
  | RefreshFailed => Ok (refresh_error s)
  | SearchChanged str => Ok (handleSearchStringChange str s)
  | SearchTimer => executeSearch s
  | MaxQueriesClick n => handleMaxQueriesClick n s
  | ReorderClick n => Ok (handleReorderClick n s)
  | SortClick t => handleSortClick t s
  | StateFilterClick f => handleStateFilterClick f s
  | ErrorTypeFilterClick e => handleErrorTypeFilterClick e s
  end.

(** Responses are good, limits are those of the menu: not negative. *)
Definition good_event (e : event) : Prop :=
  match e with
  | Refreshed _ _ ql => good_response ql
  | MaxQueriesClick n => 0 <= n
  | _ => True
  end.

Definition run (es : list event) (s : State) : result State := foldM handle es s.

Lemma handle_inv e s :
  list_inv s -> good_event e -> exists s', handle e s = Ok s' /\ list_inv s'.
Proof.
  intros HI HE. pose proof (inv_max s HI). destruct e as [now now' ql| |str| |n|n|t|f|e]; cbn [handle].
  - destruct (refresh_result now now' ql s HI HE) as (fresh & _ & _ & E).
    eexists. split; [exact E|]. by eapply refresh_inv.
  - eexists. split; [done|]. by destruct HI; split.
  - eexists. split; [done|]. by destruct HI; split.
  - unfold executeSearch. rewrite filter_all_ok by done. eexists. split; [done|].
    apply view_inv; [done..| |]; by apply control_shown.
  - unfold handleMaxQueriesClick. rewrite filter_all_ok by done. eexists. split; [done|].
    apply view_inv; [done..| |]; by apply control_shown.
  - eexists. split; [done|]. unfold handleReorderClick. case_if; [|done]. by destruct HI; split.
  - unfold handleSortClick. rewrite filter_all_ok by done. eexists. split; [done|].
    apply view_inv; [done..| |]; by apply control_shown.
  - unfold handleStateFilterClick. rewrite filter_all_ok by done. eexists. split; [done|].
    apply view_inv; [done..| |]; by apply control_shown.
  - unfold handleErrorTypeFilterClick. rewrite filter_all_ok by done. eexists. split; [done|].
    apply view_inv; [done..| |]; by apply control_shown.
Qed.

Lemma run_inv es s :
  list_inv s -> Forall good_event es -> exists s', run es s = Ok s' /\ list_inv s'.
Proof.
  revert s. induction es as [|e es IH]; intros s HI HE; cbn; [eauto|].
  apply Forall_cons in HE as [HE HEs]. destruct (handle_inv e s HI HE) as (s' & -> & HI').
  by apply IH.
Qed.
End facts.
