(* ===== verification/QueryListClaims.v ===== *)
(** * Properties of the query list

    The event loop of the query list (its instance of [Poller]) and the
    theorems about the list as a whole: it never stops and never throws on
    good responses, every control shows a view, a refresh between reorderings
    keeps the order on screen.  Two behaviours of the code that its users
    would not expect are proved as well: filter clicks ignore the limit, and a
    refresh can cancel a search for good. *)
From S2P Require Import Prelude JsString JsNumber JsNumberFacts JsRegExp JsArray JsObject.
From S2P Require Import UtilsQuery RefreshLoop QueryList QueryListFacts.
Local Open Scope Z_scope.

(** ** The event loop *)

(** The component's state and whether the search timer is pending. *)
Notation page := (State * bool)%type.

Section poller.
Context {AS : ArraySort}.

(** An answer of [/v1/query], with the two readings of the clock. *)
Record answer := {
  answer_now : Z;
  answer_now' : Z;
  answer_queries : list Query;
  answer_good : good_response answer_queries
}.

Inductive page_step : page -> page -> Prop :=
| page_search_change str s p : page_step (s, p) (handleSearchStringChange str s, true)
| page_search_timer s s' : executeSearch s = Ok s' -> page_step (s, true) (s', false)
| page_max n s s' p : 0 <= n -> handleMaxQueriesClick n s = Ok s' -> page_step (s, p) (s', p)
| page_reorder n s p : page_step (s, p) (handleReorderClick n s, p)
| page_sort t s s' p : handleSortClick t s = Ok s' -> page_step (s, p) (s', p)
| page_filter f s s' p : handleStateFilterClick f s = Ok s' -> page_step (s, p) (s', p)
| page_error_filter e s s' p : handleErrorTypeFilterClick e s = Ok s' -> page_step (s, p) (s', p).

(** [refreshLoop] also clears the search timer.  The condition of
    [resetTimer] reads [this.state.query] and [this.state.ended], which the
    list never sets: [undefined === null || !undefined]. *)
#[export] Instance query_list_poller : Poller page unit answer unit := {|
  on_start '(s, _) := ((s, false), tt);
  on_success _ a '(s, p) :=
    s' ← refresh_success (answer_now a) (answer_now' a) (answer_queries a) s; Ok (s', p);
  on_error _ '(s, p) := Ok (refresh_error s, p);
  keep_polling _ := true;
  local_step := page_step
|}.

#[export] Instance query_list_poller_laws : PollerLaws query_list_poller.
Proof. done. Qed.

Lemma page_step_inv x y : list_inv x.1 -> page_step x y -> list_inv y.1.
Proof.
  intros HI H. destruct H as [str s p|s s' E|n s s' p Hn E|n s p|t s s' p E|f s s' p E|e s s' p E];
    cbn in *; [by destruct HI; split|..].
  - destruct (handle_inv SearchTimer s HI I) as (? & E' & ?). cbn in E'. congruence.
  - destruct (handle_inv (MaxQueriesClick n) s HI Hn) as (? & E' & ?). cbn in E'. congruence.
  - by destruct (handle_inv (ReorderClick n) s HI I) as (? & [= <-] & ?).
  - destruct (handle_inv (SortClick t) s HI I) as (? & E' & ?). cbn in E'. congruence.
  - destruct (handle_inv (StateFilterClick f) s HI I) as (? & E' & ?). cbn in E'. congruence.
  - destruct (handle_inv (ErrorTypeFilterClick e) s HI I) as (? & E' & ?). cbn in E'. congruence.
Qed.

Lemma comp_resetTimer (m : machine page unit) : comp (resetTimer m) = comp m.
Proof. done. Qed.

Lemma comp_refreshLoop (m : machine page unit) : (comp (refreshLoop m)).1 = (comp m).1.
Proof. unfold refreshLoop. cbn. by destruct (comp m). Qed.

(** The invariant holds on every reachable page, and no callback throws. *)
Lemma page_reach_inv now t (m : machine page unit) :
  reach (mounted (initial_state now, false)) t m -> t = false /\ list_inv (comp m).1.
Proof.
  induction 1 as [|t t' m m' Hr [-> HI] Hs]; [split; [done|apply inv_initial]|].
  cbn [orb]. destruct Hs as [m i ts _|m c l [a|x] s' _ E|m c l [a|x] e _ E|m s' HL|m n _].
  - split; [done|]. by rewrite comp_refreshLoop.
  - split; [done|]. rewrite comp_resetTimer. cbn in E |- *. destruct (comp m) as [s p]. cbn in *.
    destruct (refresh_success _ _ _ s) as [s1|] eqn:E1; [|done]. cbn in E. simplify_eq. cbn.
    eapply refresh_inv; [exact HI|apply a|exact E1].
  - split; [done|]. rewrite comp_resetTimer. cbn in E |- *. destruct (comp m) as [s p]. cbn in *. simplify_eq. cbn.
    by destruct HI; split.
  - exfalso. cbn in E. destruct (comp m) as [s p]. cbn in *.
    destruct (refresh_result (answer_now a) (answer_now' a) (answer_queries a) s HI) as (? & _ & _ & E1);
      [apply a|]. cbv zeta in E1. rewrite E1 in E. done.
  - cbn in E. by destruct (comp m).
  - split; [done|]. by eapply page_step_inv.
  - done.
Qed.

(** ** Safety *)

(** C1: whatever the user does and however the responses and failures of
    the coordinator are interleaved with it, no handler of the query list
    throws, and what is displayed always consists of distinct queries of the
    last response. *)
Theorem query_list_safe (now : Z) (es : list event) :
  Forall good_event es ->
  exists s, run es (initial_state now) = Ok s /\ list_inv s.
Proof. intros H. apply run_inv; [apply inv_initial|done]. Qed.

(** the query list polls for ever: in every state its event loop can
    reach there is exactly one pending refresh timer or outstanding request. *)
Theorem query_list_polls (now : Z) (t : bool) (m : machine page unit) :
  reach (mounted (initial_state now, false)) t m ->
  (length (timers m) + length (in_flight m) = 1)%nat.
Proof.
  intros H. destruct (page_reach_inv _ _ _ H) as [Ht _].
  destruct (reach_alive _ _ _ H Ht) as [E|E]; [done|]. cbn in E. done.
Qed.

(** ** Refresh *)

(** C2: a refresh that is due to reorder shows exactly the queries of the
    response that the filters and the search accept, sorted by the selected
    key and cut to the limit, and restarts the reorder clock. *)
Theorem refresh_reorder_view (now now' : Z) (ql : list Query) (s : State) :
  list_inv s -> good_response ql -> reorder_due s now = true ->
  exists s', refresh_success now now' ql s = Ok s' /\
    is_view ql (currentSortType s) (currentSortOrder s) (stateFilters s) (errorTypeFilters s)
      (searchString s) (maxQueries s) (displayedQueries s') /\
    allQueries s' = ql /\ lastReorder s' = now'.
Proof.
  intros HI HG HR. destruct (refresh_result now now' ql s HI HG) as (fresh & _ & HP & E).
  cbv zeta in E. rewrite HR in E. eexists. split; [exact E|]. split; [|done].
  cbn [displayedQueries set_refreshed]. rewrite <- limit_queries_of by apply HI.
  apply sorted_view; [apply HI|]. by apply filterb_permutation.
Qed.

(** C12: between reorderings a refresh does not move anything: the queries on
    screen that still exist stay in their order with their new data, the new
    visible ones follow, sorted, and the whole is cut to the limit. *)
Theorem refresh_keeps_order (now now' : Z) (ql : list Query) (s : State) :
  list_inv s -> good_response ql -> reorder_due s now = false ->
  exists s' new, refresh_success now now' ql s = Ok s' /\
    displayedQueries s' = limit_of (maxQueries s) (kept ql (displayedQueries s) ++ new) /\
    (forall q, q ∈ new <-> q ∈ ql /\ queryId q ∉ ids (displayedQueries s) /\
       visible (stateFilters s) (errorTypeFilters s) (searchString s) q = true) /\
    (Forall (sortable (currentSortType s)) ql ->
       StronglySorted (in_order (currentSortType s) (currentSortOrder s)) new) /\
    lastReorder s' = lastReorder s.
Proof.
  intros HI HG HR. destruct (refresh_result now now' ql s HI HG) as (fresh & HF & HP & E).
  cbv zeta in E. rewrite HR in E. eexists _, _. split; [exact E|]. split; [reflexivity|].
  split_and!; [|intros HS; apply sort_sorted|done].
  - intros q. rewrite array_sort_elem, elem_of_filterb, HF, elem_of_filterb, negb_true_iff,
      bool_decide_eq_false. tauto.
  - apply Forall_filterb. by apply (Forall_perm_app _ _ _ _ HP).
Qed.

(** ** Controls *)

(** The controls that respect the limit, and the sort order they select. *)
Definition view_control (e : event) : bool :=
  match e with SearchTimer | MaxQueriesClick _ | SortClick _ => true | _ => false end.

(** the search, the "Show" menu and the "Sort" menu show a view of the
    last response under the settings they leave in the state. *)
Theorem controls_view (e : event) (s : State) :
  list_inv s -> good_event e -> view_control e = true ->
  exists s', handle e s = Ok s' /\
    is_view (allQueries s) (currentSortType s') (currentSortOrder s') (stateFilters s')
      (errorTypeFilters s') (searchString s') (maxQueries s') (displayedQueries s').
Proof.
  intros HI HE HV. pose proof (inv_max s HI). destruct e; try done; cbn [handle good_event] in *.
  - unfold executeSearch. rewrite filter_all_ok by done. eexists. split; [done|].
    by apply sort_and_limit_view.
  - unfold handleMaxQueriesClick. rewrite filter_all_ok by done. eexists. split; [done|].
    by apply sort_and_limit_view.
  - unfold handleSortClick. rewrite filter_all_ok by done. eexists. split; [done|].
    by apply sort_and_limit_view.
Qed.

(** What a sort click leaves in the state. *)
Lemma handleSortClick_settings t s :
  list_inv s ->
  exists s', handleSortClick t s = Ok s' /\ list_inv s' /\ currentSortType s' = t /\
    currentSortOrder s' =
      (if decide (currentSortType s = t /\ currentSortOrder s = SORT_ORDER.DESCENDING)
       then SORT_ORDER.ASCENDING else SORT_ORDER.DESCENDING).
Proof.
  intros HI. destruct (handle_inv (SortClick t) s HI I) as (s' & E & HI'). exists s'.
  cbn [handle] in E. split; [done|]. split; [done|]. revert E. unfold handleSortClick.
  rewrite filter_all_ok by done. cbn [mbind result_bind]. intros [= <-].
  cbn [currentSortType currentSortOrder set_controls]. split; [done|].
  repeat case_bool_decide; case_decide; tauto.
Qed.

(** clicking a sort key selects it in descending order, and clicking the
    selected key again reverses the order each time. *)
Theorem sort_click_toggles (t : SORT_TYPE.t) (s : State) :
  list_inv s ->
  exists s1 s2 s3, handleSortClick t s = Ok s1 /\ handleSortClick t s1 = Ok s2 /\
    handleSortClick t s2 = Ok s3 /\
    currentSortType s1 = t /\ currentSortType s2 = t /\ currentSortType s3 = t /\
    currentSortOrder s3 = currentSortOrder s1 /\ currentSortOrder s2 <> currentSortOrder s1 /\
    (currentSortType s <> t -> currentSortOrder s1 = SORT_ORDER.DESCENDING).
Proof.
  intros HI.
  destruct (handleSortClick_settings t s HI) as (s1 & E1 & HI1 & T1 & O1).
  destruct (handleSortClick_settings t s1 HI1) as (s2 & E2 & HI2 & T2 & O2).
  destruct (handleSortClick_settings t s2 HI2) as (s3 & E3 & HI3 & T3 & O3).
  exists s1, s2, s3. rewrite T1 in O2. rewrite T2 in O3. repeat case_decide; naive_solver congruence.
Qed.

Lemma toggle_present {A} `{EqDecision A} (f : A) l :
  f ∈ l -> exists a b, l = a ++ f :: b /\ f ∉ a /\ toggle_filter f l = a ++ b.
Proof.
  intros Hf. destruct (array_indexOf_spec f l) as [[? _]|(a & b & -> & Ha & Ei)]; [done|].
  exists a, b. split; [done|]. split; [done|]. unfold toggle_filter. rewrite Ei.
  rewrite (proj2 (Z.ltb_lt (-1) (alen a))) by (unfold alen; lia). unfold array_splice, alen.
  change (Z.to_nat 1) with 1%nat. rewrite Nat2Z.id, take_app_length, drop_app_ge by lia.
  by replace (length a + 1 - length a)%nat with 1%nat by lia.
Qed.

Lemma toggle_absent {A} `{EqDecision A} (f : A) l : f ∉ l -> toggle_filter f l = l ++ [f].
Proof.
  intros Hf. unfold toggle_filter. destruct (array_indexOf_spec f l) as [[_ ->]|(a & b & -> & _ & _)]; [done|].
  set_solver.
Qed.

(** a click on a filter flips that filter and no other one, never selects
    a filter twice, and two clicks give the same selection back. *)
Theorem toggle_filter_spec {A} `{EqDecision A} (f : A) (filters : list A) :
  NoDup filters ->
  NoDup (toggle_filter f filters) /\
  (forall g, g ∈ toggle_filter f filters <-> (g ∈ filters /\ g <> f) \/ (g = f /\ f ∉ filters)) /\
  toggle_filter f (toggle_filter f filters) ≡ₚ filters.
Proof.
  intros HN. destruct (decide (f ∈ filters)) as [Hf|Hf].
  - destruct (toggle_present f filters Hf) as (a & b & -> & Ha & ->).
    apply NoDup_app in HN as (N1 & N2 & N3). apply NoDup_cons in N3 as [N3 N4].
    assert (NoDup (a ++ b)) by (apply NoDup_app; set_solver).
    split_and!; [done|set_solver|]. rewrite toggle_absent by set_solver. solve_Permutation.
  - rewrite (toggle_absent f filters Hf). split_and!.
    + apply NoDup_app. split_and!; [done|set_solver|apply NoDup_singleton].
    + set_solver.
    + destruct (toggle_present f (filters ++ [f])) as (a & b & E & Ha & ->); [set_solver|].
      enough (Permutation (f :: (a ++ b)) (f :: filters)) by (by eapply Permutation_cons_inv).
      rewrite Permutation_middle, <- E. solve_Permutation.
Qed.

(** the state and error filters do not respect the limit: a click on
    one of them displays every accepted query of the last response, however
    many there are. *)
Theorem filter_click_ignores_limit (e : event) (s : State) :
  list_inv s -> (exists f, e = StateFilterClick f) \/ (exists f, e = ErrorTypeFilterClick f) ->
  exists s', handle e s = Ok s' /\
    displayedQueries s' ≡ₚ
      filterb (visible (stateFilters s') (errorTypeFilters s') (searchString s')) (allQueries s').
Proof.
  intros HI [[f ->]|[f ->]]; cbn [handle].
  - unfold handleStateFilterClick. rewrite filter_all_ok by done. eexists. split; [done|].
    cbn. apply array_sort_perm.
  - unfold handleErrorTypeFilterClick. rewrite filter_all_ok by done. eexists. split; [done|].
    cbn. apply array_sort_perm.
Qed.

(** with reordering off, a refresh cancels a search that was typed less
    than 200 ms before and nothing makes up for it: the search timer is gone,
    and what was on display stays, whether or not it matches the text in the
    search box. *)
Theorem refresh_cancels_search (s : State) (a : answer) :
  list_inv s -> reorderInterval s = 0 ->
  exists s' new,
    on_start (s, true) = ((s, false), tt) /\
    on_success tt a (s, false) = Ok (s', false) /\ searchString s' = searchString s /\
    displayedQueries s' =
      limit_of (maxQueries s) (kept (answer_queries a) (displayedQueries s) ++ new).
Proof.
  intros HI H0. destruct a as [now now' ql HG]. destruct (refresh_result now now' ql s HI HG) as (fresh & _ & _ & E).
  cbv zeta in E.
  assert (reorder_due s now = false) as HR by (unfold reorder_due; by rewrite H0).
  rewrite HR in E. eexists _, _. split; [done|].
  cbn [on_success query_list_poller answer_now answer_now' answer_queries]. rewrite E. done.
Qed.
End poller.

(** ** Examples *)

(** Two queries of a small cluster; [insertion_array_sort] sorts. *)
Definition sample_stats (created : string) : QueryStats := {|
  createTime := created; elapsedTime := "1.50m"; executionTime := "1.20m"; totalCpuTime := "3.00s";
  cumulativeUserMemory := num_of_Z 1000; userMemoryReservation := "2.5MB";
  peakUserMemoryReservation := "3MB"; totalDrivers := num_of_Z 10; queuedDrivers := num_of_Z 2;
  runningDrivers := num_of_Z 3; completedDrivers := num_of_Z 5;
  progressPercentage := Some (num_of_Z 50); fullyBlocked := false; blockedReasons := None |}.

Definition sample_query (id state text created : string) : Query := {|
  queryId := id;
  session := {| user := Some "ann"; principal := None; source := Some "cli" |};
  resourceGroupId := Some ["global"; "adhoc"]; qstate := state; memoryPool := Some "general";
  scheduled := true; query := text; queryStats := sample_stats created;
  errorType := None; errorCode := None |}.

Definition q1 : Query := sample_query "20190701_000000_00001_abcde" "RUNNING" "SELECT 1" "2019-07-01T10:00:00.000Z".
Definition q2 : Query := sample_query "20190701_000000_00002_abcde" "QUEUED" "SELECT 2" "2019-07-01T11:00:00.000Z".

Lemma sample_good : good_response [q1; q2].
Proof.
  split.
  - apply (bool_decide_unpack _). vm_compute. done.
  - repeat constructor; intros [? [=]].
  - repeat constructor.
Qed.

Definition sample_events : list event :=
  [Refreshed 1000 1000 [q1; q2]; SortClick SORT_TYPE.ELAPSED; SearchChanged "select 2"; RefreshFailed;
   SearchTimer; MaxQueriesClick 1; StateFilterClick FILTER_TYPE.RUNNING; Refreshed 7000 7001 [q1; q2]].

Lemma sample_events_good : Forall good_event sample_events.
Proof. repeat (constructor; [try exact I; try exact sample_good; cbn; lia|]). constructor. Qed.

Lemma query_list_safe_witness :
  exists s, run sample_events (initial_state 0) = Ok s /\ list_inv s.
Proof. apply (query_list_safe 0 sample_events). exact sample_events_good. Defined.

Lemma query_list_polls_witness :
  let m := mounted (S := page) (initial_state 0, false) in
  (length (timers m) + length (in_flight m) = 1)%nat.
Proof. apply (query_list_polls 0 false). constructor. Defined.

(** A page with both queries on display, reordered at time 0. *)
Definition sample_state (search : string) (interval max : Z) : State :=
  set_controls (set_refreshed (initial_state 0) [q1; q2] [q1; q2] 0 0) [q1; q2] interval
    SORT_TYPE.CREATED SORT_ORDER.DESCENDING [FILTER_TYPE.RUNNING; FILTER_TYPE.QUEUED] [] search max.

Lemma sample_state_inv search interval max : 0 <= max -> list_inv (sample_state search interval max).
Proof.
  intros Hm. split; cbn; [exact sample_good|apply sample_good|done|done].
Qed.

Lemma refresh_reorder_view_witness :
  let s := sample_state "select 2" 5000 20 in
  reorder_due s 6000 = true /\
  exists s', refresh_success 6000 6000 [q1; q2] s = Ok s' /\
    is_view [q1; q2] (currentSortType s) (currentSortOrder s) (stateFilters s) (errorTypeFilters s)
      (searchString s) (maxQueries s) (displayedQueries s') /\
    allQueries s' = [q1; q2] /\ lastReorder s' = 6000.
Proof.
  split; [reflexivity|]. apply (refresh_reorder_view 6000 6000 [q1; q2]).
  - apply sample_state_inv. lia.
  - exact sample_good.
  - reflexivity.
Defined.

Lemma refresh_keeps_order_witness :
  let s := sample_state "select 2" 5000 20 in
  reorder_due s 1000 = false /\
  exists s' new, refresh_success 1000 1000 [q1; q2] s = Ok s' /\
    displayedQueries s' = limit_of 20 (kept [q1; q2] (displayedQueries s) ++ new).
Proof.
  split; [reflexivity|].
  destruct (refresh_keeps_order 1000 1000 [q1; q2] (sample_state "select 2" 5000 20)) as (s' & new & H1 & H2 & _).
  - apply sample_state_inv. lia.
  - exact sample_good.
  - reflexivity.
  - exists s', new. exact (conj H1 H2).
Defined.

Lemma controls_view_witness :
  exists s', handle SearchTimer (sample_state "select 2" 0 20) = Ok s' /\
    is_view [q1; q2] (currentSortType s') (currentSortOrder s') (stateFilters s')
      (errorTypeFilters s') (searchString s') (maxQueries s') (displayedQueries s').
Proof.
  apply (controls_view SearchTimer (sample_state "select 2" 0 20)).
  - apply sample_state_inv. lia.
  - exact I.
  - reflexivity.
Defined.

Lemma sort_click_toggles_witness :
  exists s1 s2 s3, handleSortClick SORT_TYPE.CPU (sample_state "select 2" 0 20) = Ok s1 /\
    handleSortClick SORT_TYPE.CPU s1 = Ok s2 /\ handleSortClick SORT_TYPE.CPU s2 = Ok s3 /\
    currentSortOrder s1 = SORT_ORDER.DESCENDING.
Proof.
  destruct (sort_click_toggles SORT_TYPE.CPU (sample_state "select 2" 0 20))
    as (s1 & s2 & s3 & H1 & H2 & H3 & _ & _ & _ & _ & _ & H).
  - apply sample_state_inv. lia.
  - exists s1, s2, s3. split; [exact H1|]. split; [exact H2|]. split; [exact H3|]. apply H. discriminate.
Defined.

Lemma toggle_filter_spec_witness :
  NoDup [FILTER_TYPE.RUNNING; FILTER_TYPE.QUEUED] /\
  toggle_filter FILTER_TYPE.QUEUED (toggle_filter FILTER_TYPE.QUEUED [FILTER_TYPE.RUNNING; FILTER_TYPE.QUEUED])
    ≡ₚ [FILTER_TYPE.RUNNING; FILTER_TYPE.QUEUED].
Proof.
  assert (NoDup [FILTER_TYPE.RUNNING; FILTER_TYPE.QUEUED]) as H by (apply (bool_decide_unpack _); vm_compute; exact I).
  split; [exact H|]. apply (toggle_filter_spec FILTER_TYPE.QUEUED _ H).
Defined.

(** Two queries on display under a limit of one. *)
Lemma filter_click_ignores_limit_witness :
  exists s', handle (ErrorTypeFilterClick ERROR_TYPE.EXTERNAL) (sample_state "" 0 1) = Ok s' /\
    displayedQueries s' ≡ₚ [q1; q2] /\ maxQueries s' = 1.
Proof.
  destruct (filter_click_ignores_limit (ErrorTypeFilterClick ERROR_TYPE.EXTERNAL) (sample_state "" 0 1))
    as (s' & H1 & H2).
  - apply sample_state_inv. lia.
  - right. exists ERROR_TYPE.EXTERNAL. reflexivity.
  - exists s'. revert H2. vm_compute in H1. injection H1 as <-. intros H2. split; [vm_compute; reflexivity|].
    split; [exact H2|reflexivity].
Defined.

(** The text in the box is "select 2", and [q1] stays on display. *)
Lemma refresh_cancels_search_witness :
  visible [FILTER_TYPE.RUNNING; FILTER_TYPE.QUEUED] [] "select 2" q1 = false /\
  exists s' new,
    on_success (S := page) tt {| answer_now := 1; answer_now' := 1; answer_good := sample_good |}
      (sample_state "select 2" 0 20, false) = Ok (s', false) /\
    displayedQueries s' = limit_of 20 ([q1; q2] ++ new).
Proof.
  split; [vm_compute; reflexivity|].
  destruct (refresh_cancels_search (sample_state "select 2" 0 20)
    {| answer_now := 1; answer_now' := 1; answer_good := sample_good |}) as (s' & new & _ & H1 & _ & H2).
  - apply sample_state_inv. lia.
  - reflexivity.
  - exists s', new. split; [exact H1|]. rewrite H2. reflexivity.
Defined.
