(* ===== verification/QueryListView.v ===== *)
(** * components/QueryList.jsx: the rendered list

    [render] of [QueryListItem], [DisplayedQueriesList] and [QueryList], and
    what ties the page to its state: rendering never throws on the state the
    event loop maintains, every query is shown once under its id, and every
    control of the page raises an event that the handlers accept. *)
From S2P Require Import Prelude JsString JsNumber JsNumberFacts JsRegExp JsArray JsObject Html.
From S2P Require Import UtilsQuery UtilsText UtilsFormat JsDate QueryList QueryListFacts QueryListClaims.
Local Open Scope Z_scope.

Section view.
(** [new Date(t)], read in the browser's time zone. *)
Context (local : num -> Date).

(** ** QueryListItem.render *)

(** [truncateString] is given the user's element, which has no [length], and
    returns it as it is. *)
Definition renderItem {E} (q : Query) : result (vnode E) :=
  color ← getQueryStateColor q;
  title ← getProgressBarTitle q;
  let ended := String.eqb (qstate q) "FINISHED" || String.eqb (qstate q) "FAILED" in
  let splitDetails :=
    h "div" [cls "col-xs-12 tinystat-row"] [
      h "span" [cls "tinystat"; at_ "data-toggle" "tooltip"; at_ "data-placement" "top";
          at_ "title" "Completed splits"] [
        h "span" [cls "glyphicon glyphicon-ok"; style GLYPHICON_HIGHLIGHT] [];
        txt (nbsp +:+ nbsp);
        txtn (completedDrivers (queryStats q))];
      h "span" [cls "tinystat"; at_ "data-toggle" "tooltip"; at_ "data-placement" "top";
          at_ "title" "Running splits"] [
        h "span" [cls "glyphicon glyphicon-play"; style GLYPHICON_HIGHLIGHT] [];
        txt (nbsp +:+ nbsp);
        txtn (if ended then num_of_Z 0 else runningDrivers (queryStats q))];
      h "span" [cls "tinystat"; at_ "data-toggle" "tooltip"; at_ "data-placement" "top";
          at_ "title" "Queued splits"] [
        h "span" [cls "glyphicon glyphicon-pause"; style GLYPHICON_HIGHLIGHT] [];
        txt (nbsp +:+ nbsp);
        txtn (if ended then num_of_Z 0 else queuedDrivers (queryStats q))]]in
  let timingDetails :=
    h "div" [cls "col-xs-12 tinystat-row"] [
      h "span" [cls "tinystat"; at_ "data-toggle" "tooltip"; at_ "data-placement" "top";
          at_ "title" "Wall time spent executing the query (not including queued time)"] [
        h "span" [cls "glyphicon glyphicon-hourglass"; style GLYPHICON_HIGHLIGHT] [];
        txt (nbsp +:+ nbsp);
        txt (executionTime (queryStats q))];
      h "span" [cls "tinystat"; at_ "data-toggle" "tooltip"; at_ "data-placement" "top";
          at_ "title" "Total query wall time"] [
        h "span" [cls "glyphicon glyphicon-time"; style GLYPHICON_HIGHLIGHT] [];
        txt (nbsp +:+ nbsp);
        txt (elapsedTime (queryStats q))];
      h "span" [cls "tinystat"; at_ "data-toggle" "tooltip"; at_ "data-placement" "top";
          at_ "title" "CPU time spent by this query"] [
        h "span" [cls "glyphicon glyphicon-dashboard"; style GLYPHICON_HIGHLIGHT] [];
        txt (nbsp +:+ nbsp);
        txt (totalCpuTime (queryStats q))]]in
  let memoryDetails :=
    h "div" [cls "col-xs-12 tinystat-row"] [
      h "span" [cls "tinystat"; at_ "data-toggle" "tooltip"; at_ "data-placement" "top";
          at_ "title" "Current reserved memory"] [
        h "span" [cls "glyphicon glyphicon-scale"; style GLYPHICON_HIGHLIGHT] [];
        txt (nbsp +:+ nbsp);
        txt (userMemoryReservation (queryStats q))];
      h "span" [cls "tinystat"; at_ "data-toggle" "tooltip"; at_ "data-placement" "top";
          at_ "title" "Peak memory"] [
        h "span" [cls "glyphicon glyphicon-fire"; style GLYPHICON_HIGHLIGHT] [];
        txt (nbsp +:+ nbsp);
        txt (peakUserMemoryReservation (queryStats q))];
      h "span" [cls "tinystat"; at_ "data-toggle" "tooltip"; at_ "data-placement" "top";
          at_ "title" "Cumulative user memory"] [
        h "span" [cls "glyphicon glyphicon-equalizer"; style GLYPHICON_HIGHLIGHT] [];
        txt (nbsp +:+ nbsp);
        txt (formatDataSizeBytes (cumulativeUserMemory (queryStats q) / num_of_Z 1000)%js)]]in
  let userNode :=
    if truthy_string (principal (session q)) then
      h "span" [] [
        txto (user (session q));
        h "span" [cls "glyphicon glyphicon-lock-inverse"; style GLYPHICON_DEFAULT] []]
    else h "span" [] [txto (user (session q))] in
  Ok (
    h "div" [cls "query"] [
      h "div" [cls "row"] [
        h "div" [cls "col-xs-4"] [
          h "div" [cls "row stat-row query-header query-header-queryid"] [
            h "div" [cls "col-xs-9"; at_ "data-toggle" "tooltip";
                at_ "data-placement" "bottom"; at_ "title" "Query ID"] [
              h "a" [at_ "href" ("query.html?" +:+ queryId q); at_ "target" "_blank"] [txt (queryId q)]];
            h "div" [cls "col-xs-3 query-header-timestamp"; at_ "data-toggle" "tooltip";
                at_ "data-placement" "bottom"; at_ "title" "Submit time"] [
              h "span" [] [txt (formatShortTime (local (Date_parse (createTime (queryStats q)))))]]];
          h "div" [cls "row stat-row"] [
            h "div" [cls "col-xs-12"] [
              h "span" [at_ "data-toggle" "tooltip"; at_ "data-placement" "right";
                  at_ "title" "User"] [
                h "span" [cls "glyphicon glyphicon-user"; style GLYPHICON_DEFAULT] [];
                txt (nbsp +:+ nbsp);
                h "span" [] [userNode]]]];
          h "div" [cls "row stat-row"] [
            h "div" [cls "col-xs-12"] [
              h "span" [at_ "data-toggle" "tooltip"; at_ "data-placement" "right";
                  at_ "title" "Source"] [
                h "span" [cls "glyphicon glyphicon-log-in"; style GLYPHICON_DEFAULT] [];
                txt (nbsp +:+ nbsp);
                h "span" [] [txto (truncateString (source (session q)) 35)]]]];
          h "div" [cls "row stat-row"] [
            h "div" [cls "col-xs-12"] [
              h "span" [at_ "data-toggle" "tooltip"; at_ "data-placement" "right";
                  at_ "title" "Resource Group"] [
                h "span" [cls "glyphicon glyphicon-road"; style GLYPHICON_DEFAULT] [];
                txt (nbsp +:+ nbsp);
                h "span" [] [
                  txto (truncateString (Some (match resourceGroupId q with Some ids => join "." ids | None => "n/a" end)) 35)]]]];
          h "div" [cls "row stat-row"] [splitDetails];
          h "div" [cls "row stat-row"] [timingDetails];
          h "div" [cls "row stat-row"] [memoryDetails]];
        h "div" [cls "col-xs-8"] [
          h "div" [cls "row query-header"] [
            h "div" [cls "col-xs-12 query-progress-container"] [
              h "div" [cls "progress"] [
                h "div" [cls "progress-bar progress-bar-info"; at_ "role" "progressbar";
                    at_ "aria-valuenow" (num_to_string (getProgressBarPercentage q));
                    at_ "aria-valuemin" "0"; at_ "aria-valuemax" "100";
                    style [("width", num_to_string (getProgressBarPercentage q) +:+ "%"); ("backgroundColor", color)]] [
                  txt title]]]];
          h "div" [cls "row query-row-bottom"] [
            h "div" [cls "col-xs-12"] [
              h "pre" [cls "query-snippet"] [
                h "code" [cls "sql"] [txto (QueryListItem.stripQueryTextWhitespace (query q))]]]]]]]).

(** ** DisplayedQueriesList.render *)

Definition renderDisplayedQueries {E} (queries : list Query) : result (vnode E) :=
  queryNodes ← mapM renderItem queries;
  Ok (h "div" [] [frag queryNodes]).

(** ** The controls *)

Definition selected (b : bool) : string := if b then "selected" else "".

Definition renderMaxQueriesListItem (s : State) (n : Z) (text : string) : vnode event :=
  h "li" [] [h "a" [at_ "href" "#"; cls (selected (maxQueries s =? n)); onClick (MaxQueriesClick n)] [txt text]].

Definition renderReorderListItem (s : State) (interval : Z) (text : string) : vnode event :=
  h "li" [] [h "a" [at_ "href" "#"; cls (selected (reorderInterval s =? interval));
                    onClick (ReorderClick interval)] [txt text]].

Definition renderSortListItem (s : State) (t : SORT_TYPE.t) (text : string) : vnode event :=
  if bool_decide (currentSortType s = t) then
    let directionArrow :=
      if bool_decide (currentSortOrder s = SORT_ORDER.ASCENDING)
      then h "span" [cls "glyphicon glyphicon-triangle-top"] []
      else h "span" [cls "glyphicon glyphicon-triangle-bottom"] [] in
    h "li" [] [h "a" [at_ "href" "#"; cls "selected"; onClick (SortClick t)]
                 [txt text; txt " "; directionArrow]]
  else h "li" [] [h "a" [at_ "href" "#"; onClick (SortClick t)] [txt text]].

Definition renderFilterButton (s : State) (f : FILTER_TYPE.t) (text : string) : vnode event :=
  let active := -1 <? array_indexOf f (stateFilters s) in
  let checkmarkStyle := [("color", if active then "#ffffff" else "#57aac7")] in
  let classNames := "btn btn-sm btn-info style-check" +:+ (if active then " active" else "") in
  h "button" [at_ "type" "button"; cls classNames; onClick (StateFilterClick f)]
    [h "span" [cls "glyphicon glyphicon-ok"; style checkmarkStyle] []; txt nbsp; txt text].

Definition renderErrorTypeListItem (s : State) (e : ERROR_TYPE.t) (text : string) : vnode event :=
  let checkmarkStyle :=
    if -1 <? array_indexOf e (errorTypeFilters s) then GLYPHICON_HIGHLIGHT else [("color", "#ffffff")] in
  h "li" [] [h "a" [at_ "href" "#"; onClick (ErrorTypeFilterClick e)]
    [h "span" [cls "glyphicon glyphicon-ok"; style checkmarkStyle] []; txt nbsp; txt text]].

(** ** QueryList.render *)

(** The message shown instead of an empty list. *)
Definition emptyLabel (s : State) : vnode event :=
  if initialized s then
    if alen (allQueries s) =? 0 then txt "No queries" else txt "No queries matched filters"
  else h "div" [cls "loader"] [txt "Loading..."].

Definition render (s : State) : result (vnode event) :=
  queryList ←
    (if alen (displayedQueries s) =? 0
     then Ok (h "div" [cls "row error-message"]
                [h "div" [cls "col-xs-12"] [h "h4" [] [emptyLabel s]]])
     else renderDisplayedQueries (displayedQueries s));
  Ok (
    h "div" [] [
      h "div" [cls "row toolbar-row"] [
        h "div" [cls "col-xs-12 toolbar-col"] [
          h "div" [cls "input-group input-group-sm"] [
            h "input" [at_ "type" "text"; cls "form-control form-control-small search-bar";
                at_ "placeholder" "User, source, query ID, resource group, or query text";
                onChange SearchChanged; at_ "value" (searchString s)] [];
            h "span" [cls "input-group-addon filter-addon"] [txt "State:"];
            h "div" [cls "input-group-btn"] [
              renderFilterButton s FILTER_TYPE.RUNNING "Running";
              renderFilterButton s FILTER_TYPE.QUEUED "Queued";
              renderFilterButton s FILTER_TYPE.FINISHED "Finished";
              h "button" [at_ "type" "button"; at_ "id" "error-type-dropdown";
                  cls "btn btn-default dropdown-toggle"; at_ "data-toggle" "dropdown";
                  at_ "aria-haspopup" "true"; at_ "aria-expanded" "false"] [
                txt "Failed ";
                h "span" [cls "caret"] []];
              h "ul" [cls "dropdown-menu error-type-dropdown-menu"] [
                renderErrorTypeListItem s ERROR_TYPE.INTERNAL_ERROR "Internal Error";
                renderErrorTypeListItem s ERROR_TYPE.EXTERNAL "External Error";
                renderErrorTypeListItem s ERROR_TYPE.INSUFFICIENT_RESOURCES "Resources Error";
                renderErrorTypeListItem s ERROR_TYPE.USER_ERROR "User Error"]];
            txt nbsp;
            h "div" [cls "input-group-btn"] [
              h "button" [at_ "type" "button"; cls "btn btn-default dropdown-toggle";
                  at_ "data-toggle" "dropdown"; at_ "aria-haspopup" "true";
                  at_ "aria-expanded" "false"] [
                txt "Sort ";
                h "span" [cls "caret"] []];
              h "ul" [cls "dropdown-menu"] [
                renderSortListItem s SORT_TYPE.CREATED "Creation Time";
                renderSortListItem s SORT_TYPE.ELAPSED "Elapsed Time";
                renderSortListItem s SORT_TYPE.CPU "CPU Time";
                renderSortListItem s SORT_TYPE.EXECUTION "Execution Time";
                renderSortListItem s SORT_TYPE.CURRENT_MEMORY "Current Memory";
                renderSortListItem s SORT_TYPE.CUMULATIVE_MEMORY "Cumulative User Memory"]];
            txt nbsp;
            h "div" [cls "input-group-btn"] [
              h "button" [at_ "type" "button"; cls "btn btn-default dropdown-toggle";
                  at_ "data-toggle" "dropdown"; at_ "aria-haspopup" "true";
                  at_ "aria-expanded" "false"] [
                txt "Reorder Interval ";
                h "span" [cls "caret"] []];
              h "ul" [cls "dropdown-menu"] [
                renderReorderListItem s 1000 "1s";
                renderReorderListItem s 5000 "5s";
                renderReorderListItem s 10000 "10s";
                renderReorderListItem s 30000 "30s";
                h "li" [at_ "role" "separator"; cls "divider"] [];
                renderReorderListItem s 0 "Off"]];
            txt nbsp;
            h "div" [cls "input-group-btn"] [
              h "button" [at_ "type" "button"; cls "btn btn-default dropdown-toggle";
                  at_ "data-toggle" "dropdown"; at_ "aria-haspopup" "true";
                  at_ "aria-expanded" "false"] [
                txt "Show ";
                h "span" [cls "caret"] []];
              h "ul" [cls "dropdown-menu"] [
                renderMaxQueriesListItem s 20 "20 queries";
                renderMaxQueriesListItem s 50 "50 queries";
                renderMaxQueriesListItem s 100 "100 queries";
                h "li" [at_ "role" "separator"; cls "divider"] [];
                renderMaxQueriesListItem s 0 "All queries"]]]]];
      queryList]).

(** ** Rendering never throws *)

Lemma renderItem_total E q : well_formed q -> exists v : vnode E, renderItem q = Ok v.
Proof.
  intros W. unfold renderItem. destruct (getQueryStateColor_total q W) as [c ->].
  destruct (getProgressBarTitle_total q W) as [t ->]. cbn [mbind result_bind]. eauto.
Qed.

Lemma renderDisplayedQueries_total E qs :
  Forall well_formed qs -> exists v : vnode E, renderDisplayedQueries qs = Ok v.
Proof.
  intros W. unfold renderDisplayedQueries. destruct (mapM_Ok (renderItem (E := E)) qs) as [ys ->].
  - intros q Hq. apply renderItem_total. rewrite Forall_forall in W. auto.
  - cbn. eauto.
Qed.

Lemma shown_wf s : list_inv s -> Forall well_formed (displayedQueries s).
Proof. intros [[_ W _] _ HK _]. rewrite Forall_forall in *. auto. Qed.

(** ** The contents of the page *)

Lemma flat_map_nil {A B} (f : A -> list B) l : (forall x, x ∈ l -> f x = []) -> flat_map f l = [].
Proof.
  induction l as [|x l IH]; intros H; cbn; [done|]. rewrite H by set_solver. apply IH. set_solver.
Qed.

Definition query_link (q : Query) : string := "query.html?" +:+ queryId q.

Lemma renderItem_static E q (v : vnode E) :
  renderItem q = Ok v ->
  clicks v = [] /\ changes v = [] /\ attr_values "href" v = [query_link q].
Proof.
  unfold renderItem. destruct (getQueryStateColor q); [|done]. destruct (getProgressBarTitle q); [|done].
  cbn [mbind result_bind]. intros [= <-].
  split_and!; destruct (truthy_string (principal (session q))); cbn; autorewrite with html; done.
Qed.

Lemma renderDisplayedQueries_static E qs (v : vnode E) :
  renderDisplayedQueries qs = Ok v ->
  clicks v = [] /\ changes v = [] /\ attr_values "href" v = map query_link qs.
Proof.
  unfold renderDisplayedQueries. destruct (mapM renderItem qs) as [ys|] eqn:Em; [|done].
  cbn [mbind result_bind]. intros [= <-]. apply mapM_Forall2 in Em. cbn. rewrite !app_nil_r.
  induction Em as [|q v qs ys Hq _ (IH1 & IH2 & IH3)]; [done|].
  destruct (renderItem_static _ _ _ Hq) as (E1 & E2 & E3). cbn. by rewrite E1, E2, E3, IH1, IH2, IH3.
Qed.

(** What each control raises; none of them links to a query. *)
Lemma renderSortListItem_clicks s t text :
  clicks (renderSortListItem s t text) = [SortClick t] /\
  changes (renderSortListItem s t text) = [] /\
  attr_values "href" (renderSortListItem s t text) = ["#"].
Proof. unfold renderSortListItem. case_if; [case_if|]; done. Qed.

Definition control_events : list event :=
  [StateFilterClick FILTER_TYPE.RUNNING; StateFilterClick FILTER_TYPE.QUEUED;
   StateFilterClick FILTER_TYPE.FINISHED; ErrorTypeFilterClick ERROR_TYPE.INTERNAL_ERROR;
   ErrorTypeFilterClick ERROR_TYPE.EXTERNAL; ErrorTypeFilterClick ERROR_TYPE.INSUFFICIENT_RESOURCES;
   ErrorTypeFilterClick ERROR_TYPE.USER_ERROR; SortClick SORT_TYPE.CREATED;
   SortClick SORT_TYPE.ELAPSED; SortClick SORT_TYPE.CPU; SortClick SORT_TYPE.EXECUTION;
   SortClick SORT_TYPE.CURRENT_MEMORY; SortClick SORT_TYPE.CUMULATIVE_MEMORY;
   ReorderClick 1000; ReorderClick 5000; ReorderClick 10000; ReorderClick 30000; ReorderClick 0;
   MaxQueriesClick 20; MaxQueriesClick 50; MaxQueriesClick 100; MaxQueriesClick 0].

Lemma control_events_good : Forall good_event control_events.
Proof. repeat (constructor; [cbn; (exact I || lia)|]). constructor. Qed.

(** The list below the toolbar. *)
Definition body (s : State) : result (vnode event) :=
  if alen (displayedQueries s) =? 0
  then Ok (h "div" [cls "row error-message"]
             [h "div" [cls "col-xs-12"] [h "h4" [] [emptyLabel s]]])
  else renderDisplayedQueries (displayedQueries s).

Lemma body_total s :
  list_inv s -> exists v, body s = Ok v /\
    clicks v = [] /\ changes v = [] /\ attr_values "href" v = map query_link (displayedQueries s).
Proof.
  intros HI. unfold body. case_if; eqb_hyps.
  - eexists. split; [done|]. unfold alen in *.
    assert (displayedQueries s = []) as -> by (apply nil_length_inv; lia).
    unfold emptyLabel. repeat case_if; done.
  - destruct (renderDisplayedQueries_total event (displayedQueries s) (shown_wf s HI)) as [v Hv].
    exists v. split; [done|]. by apply renderDisplayedQueries_static.
Qed.

Definition control_link (l : string) : bool := String.eqb l "#".

Lemma render_contents s b :
  body s = Ok b ->
  exists v n, render s = Ok v /\
    clicks v = control_events ++ clicks b /\
    changes v = SearchChanged :: changes b /\
    attr_values "href" v = replicate n "#" ++ attr_values "href" b.
Proof.
  intros Hb. unfold render. fold (body s). rewrite Hb. cbn [mbind result_bind].
  eexists _, 19%nat. split; [reflexivity|]. cbn -[renderSortListItem].
  rewrite !(proj1 (renderSortListItem_clicks _ _ _)), !(proj1 (proj2 (renderSortListItem_clicks _ _ _))),
    !(proj2 (proj2 (renderSortListItem_clicks _ _ _))). by rewrite !app_nil_r.
Qed.

Lemma filterb_replicate {A} (p : A -> bool) n x : p x = false -> filterb p (replicate n x) = [].
Proof. intros H. induction n; cbn; [done|]. by rewrite H. Qed.

Lemma query_links_kept qs : filterb (fun l => negb (control_link l)) (map query_link qs) = map query_link qs.
Proof. by apply filterb_all; intros l (q & <- & _)%list_elem_of_In%in_map_iff. Qed.

(** ** Properties *)

(** C35: the page of the query list, in every state its event loop can reach:
    rendering does not throw, the links of the page other than the controls
    are those of the displayed queries, in order, and everything the user can
    click or type raises an event that the handlers accept: they do not throw
    either, and keep the invariant. *)
Theorem query_list_page {AS : ArraySort} (s : State) :
  list_inv s ->
  exists v, render s = Ok v /\
    filterb (fun l => negb (control_link l)) (attr_values "href" v)
      = map query_link (displayedQueries s) /\
    (forall e, e ∈ clicks v -> exists s', handle e s = Ok s' /\ list_inv s') /\
    (forall f str, f ∈ changes v -> exists s', handle (f str) s = Ok s' /\ list_inv s').
Proof.
  intros HI. destruct (body_total s HI) as (b & Hb & C1 & C2 & C3).
  destruct (render_contents s b Hb) as (v & n & Hv & V1 & V2 & V3). exists v. split; [done|].
  rewrite V1, V2, V3, C1, C2, C3, app_nil_r. split_and!.
  - by rewrite filterb_app, filterb_replicate, query_links_kept.
  - intros e He. apply handle_inv; [done|]. pose proof control_events_good as HG.
    rewrite Forall_forall in HG. auto.
  - intros f str ->%list_elem_of_singleton. by apply handle_inv.
Qed.
End view.

Lemma query_list_page_witness :
  let s := sample_state "" 5000 20 in
  exists v, render (fun _ => local_date 0 0) s = Ok v /\
    filterb (fun l => negb (control_link l)) (attr_values "href" v)
      = ["query.html?20190701_000000_00001_abcde"; "query.html?20190701_000000_00002_abcde"] /\
    (forall e, e ∈ clicks v -> exists s', handle e s = Ok s' /\ list_inv s').
Proof.
  destruct (query_list_page (fun _ => local_date 0 0) (sample_state "" 5000 20)) as (v & H1 & H2 & H3 & _).
  - apply sample_state_inv. lia.
  - exists v. exact (conj H1 (conj H2 H3)).
Defined.
