(* ===== verification/QueryText.v ===== *)
(** * The query text of the query list

    [stripQueryTextWhitespace] against a specification: the lines that are not
    blank lose the indentation they share and their trailing white space.  The
    text it makes is a normal form of the function. *)
From S2P Require Import Prelude JsString JsRegExp JsArray UtilsText QueryList.
Import QueryListItem.
Local Open Scope nat_scope.

(** ** Specification *)

Definition blank (line : string) : bool := sforall is_space line.

Fixpoint indent (line : string) : nat :=
  match line with
  | String c s => if is_space c then S (indent s) else 0
  | "" => 0
  end.

(** The lines that are left, without [m] leading characters. *)
Definition dedented (m : nat) (lines : list string) : list string :=
  map (fun l => trim_end (sdrop m l)) (filterb (fun l => negb (blank l)) lines).

(** They are separated by newlines; another one stands at the end when the
    text ends with a blank line. *)
Definition tidy (m : nat) (lines : list string) : string :=
  join newline (dedented m lines) +:+
  (if existsb (fun l => negb (blank l)) lines && blank (List.last lines "") then newline else "").

(** ** Lines *)

Lemma blank_drop m l : blank l = true -> blank (sdrop m l) = true.
Proof.
  revert m. induction l as [|c l IH]; intros [|m]; cbn; try done. intros [_ H]%andb_prop. by apply IH.
Qed.

Lemma nonblank_drop m l : blank l = false -> m <= indent l -> blank (sdrop m l) = false.
Proof.
  revert m. induction l as [|c l IH]; intros [|m]; try done. cbn. destruct (is_space c); cbn; [|lia].
  intros H Hm. apply IH; [done|lia].
Qed.

Lemma indent_drop m l : m <= indent l -> indent (sdrop m l) = indent l - m.
Proof.
  revert m. induction l as [|c l IH]; intros [|m]; cbn; try done; [|]; destruct (is_space c); try done; try lia.
  intros H. rewrite IH by lia. lia.
Qed.

Lemma trim_end_blank l : (trim_end l = "" <-> blank l = true).
Proof. destruct l as [|c l]; cbn; [done|]. destruct (is_space c && sforall is_space l); done. Qed.

Lemma blank_trim_end l : blank (trim_end l) = blank l.
Proof.
  induction l as [|c l IH]; [done|]. cbn. destruct (is_space c && sforall is_space l) eqn:E; [done|].
  cbn. unfold blank in IH. by rewrite IH.
Qed.

Lemma indent_trim_end l : blank l = false -> indent (trim_end l) = indent l.
Proof.
  induction l as [|c l IH]; [done|]. cbn. intros H. rewrite H. cbn [indent].
  destruct (is_space c); [|done]. f_equal. by apply IH.
Qed.

Lemma trim_end_idem l : trim_end (trim_end l) = trim_end l.
Proof.
  induction l as [|c l IH]; [done|]. cbn. destruct (is_space c && sforall is_space l) eqn:E; [done|].
  cbn. fold (blank (trim_end l)). rewrite blank_trim_end. unfold blank. by rewrite E, IH.
Qed.

Lemma blank_trim l : (slen (trim l) =? 0)%Z = blank l.
Proof.
  assert (blank (trim_start l) = blank l) as <-.
  { induction l as [|c l IH]; [done|]. cbn. destruct (is_space c) eqn:E; [exact IH|]. cbn. by rewrite E. }
  unfold trim. destruct (trim_start l) as [|c s]; [done|]. cbn. destruct (is_space c && sforall is_space s); [done|].
  apply Z.eqb_neq. unfold slen. cbn. lia.
Qed.

(** [search(/\S/)] finds the indentation. *)
Lemma search_indent l : blank l = false -> search_nonspace l = Z.of_nat (indent l).
Proof.
  intros H. unfold search_nonspace, search, exec.
  assert (forall i, exists y, exec_from (RChar (fun c => negb (is_space c))) i l = Some (i + indent l, y)) as HE.
  { induction l as [|c l IH]; [done|]. intros i. cbn in H |- *. destruct (is_space c); cbn.
    - destruct (IH H (S i)) as [y ->]. exists y. do 2 f_equal. lia.
    - rewrite Nat.add_0_r. by eexists. }
  by destruct (HE 0) as [y ->].
Qed.

Lemma sdrop_all n l : String.length l <= n -> sdrop n l = "".
Proof.
  revert n. induction l as [|c l IH]; intros [|n]; cbn; try done; [lia|]. intros H. apply IH. lia.
Qed.

Lemma substring_drop l z : js_substring_from l z = sdrop (Z.to_nat z) l.
Proof.
  unfold js_substring_from, js_substring. pose proof (slen_nonneg l). rewrite (Z.max_l (slen l) 0), Z.min_id by done.
  set (a := Z.min (Z.max z 0) (slen l)). rewrite (Z.min_l a), (Z.max_r a) by lia. destruct (Z_le_gt_dec z (slen l)) as [Hz|Hz].
  - replace (Z.to_nat a) with (Z.to_nat z) by lia. apply stake_all. rewrite sdrop_length. unfold slen in *. lia.
  - replace (slen l - a)%Z with 0%Z by lia. cbn. symmetry. apply sdrop_all. unfold slen in *. lia.
Qed.

(** ** The first loop *)

(** [m] is the smallest indentation of the lines that are not blank. *)
Definition least_indent (m : nat) (lines : list string) : Prop :=
  (forall l, l ∈ lines -> blank l = false -> m <= indent l) /\
  exists l, l ∈ lines /\ blank l = false /\ indent l = m.

Lemma lead_min i k :
  (if (-1 <? Z.of_nat i) && ((Z.of_nat i <? Z.of_nat k) || (Z.of_nat k =? -1)) then Z.of_nat i else Z.of_nat k)%Z
  = Z.of_nat (i `min` k).
Proof. destruct (Z.ltb_spec (Z.of_nat i) (Z.of_nat k)); case_if; bool_hyps; lia. Qed.

Lemma lead_first i : (if (-1 <? Z.of_nat i) && ((Z.of_nat i <? -1) || (-1 =? -1)) then Z.of_nat i else -1)%Z = Z.of_nat i.
Proof. rewrite orb_true_r, andb_true_r. case_if; [done|]. lia. Qed.

(** From an indentation [k] of an earlier line. *)
Lemma min_from k lines : exists m, minLeadingWhitespace lines (Z.of_nat k) = Z.of_nat m /\ m <= k /\
  (forall l, l ∈ lines -> blank l = false -> m <= indent l) /\
  (m = k \/ exists l, l ∈ lines /\ blank l = false /\ indent l = m).
Proof.
  revert k. induction lines as [|line lines IH]; intros k.
  - exists k. split_and!; [done|done|by intros l ?%elem_of_nil|by left].
  - cbn [minLeadingWhitespace]. destruct (Z.eqb_spec (Z.of_nat k) 0) as [Hk|Hk].
    { exists k. split_and!; [done|done|intros; lia|by left]. }
    rewrite blank_trim. destruct (blank line) eqn:Eb.
    + destruct (IH k) as (m & -> & Hm & Hl & He). exists m. split_and!; [done|done| |set_solver].
      intros l [->|Hin]%elem_of_cons Hb; [congruence|by apply Hl].
    + rewrite search_indent, lead_min by done.
      destruct (IH (indent line `min` k)) as (m & -> & Hm & Hl & He). exists m. split_and!; [done|lia| |].
      * intros l [->|Hin]%elem_of_cons Hb; [lia|by apply Hl].
      * destruct He as [->|(l & ? & ? & ?)]; [|right; exists l; set_solver].
        destruct (Nat.min_spec (indent line) k) as [[? ->]|[? ->]]; [right; exists line; set_solver|by left].
Qed.

Lemma min_spec lines :
  (exists m, minLeadingWhitespace lines (-1) = Z.of_nat m /\ least_indent m lines) \/
  (minLeadingWhitespace lines (-1) = (-1)%Z /\ forall l, l ∈ lines -> blank l = true).
Proof.
  induction lines as [|line lines IH]; [right; split; [done|by intros l ?%elem_of_nil]|].
  cbn [minLeadingWhitespace]. change (-1 =? 0)%Z with false. cbv iota. rewrite blank_trim.
  destruct (blank line) eqn:Eb.
  - destruct IH as [(m & -> & Hl & l & ? & ? & ?)|[-> HA]].
    + left. exists m. split; [done|]. split; [|exists l; set_solver].
      intros l' [->|Hin]%elem_of_cons Hb; [congruence|by apply Hl].
    + right. split; [done|]. intros l [->|Hin]%elem_of_cons; [done|by apply HA].
  - left. rewrite search_indent, lead_first by done.
    destruct (min_from (indent line) lines) as (m & -> & Hm & Hl & He). exists m. split; [done|]. split.
    + intros l [->|Hin]%elem_of_cons Hb; [lia|by apply Hl].
    + destruct He as [->|(l & ? & ? & ?)]; [exists line; set_solver|exists l; set_solver].
Qed.

(** ** The second loop *)

(** What it prints, line by line. *)
Fixpoint printed (m : nat) (lines : list string) : string :=
  match lines with
  | [] => ""
  | l :: rest =>
      (if blank l then "" else trim_end (sdrop m l) +:+ (match rest with [] => "" | _ => newline end)) +:+ printed m rest
  end.

(** Lines that are blank or at least [m] deep. *)
Definition deep (m : nat) (lines : list string) : Prop := forall l, l ∈ lines -> blank l = false -> m <= indent l.

Lemma line_printed m z l : Z.to_nat z = m -> (blank l = false -> m <= indent l) ->
  (0 <? slen (trim_end (js_substring_from l z)))%Z = negb (blank l).
Proof.
  intros Hz Hm. rewrite substring_drop, Hz. destruct (blank l) eqn:E.
  - apply (blank_drop m) in E. apply trim_end_blank in E as ->. done.
  - specialize (nonblank_drop m l E (Hm eq_refl)) as HB. destruct (trim_end (sdrop m l)) eqn:Et.
    + apply trim_end_blank in Et. congruence.
    + apply Z.ltb_lt. unfold slen. cbn [String.length]. lia.
Qed.

Lemma formatLines_printed m z lines : Z.to_nat z = m -> deep m lines ->
  forall n i acc, (n = i + alen lines)%Z -> formatLines n i z lines acc = acc +:+ printed m lines.
Proof.
  intros Hz. induction lines as [|l lines IH]; intros HD n i acc Hn; cbn [formatLines printed]; [by rewrite sapp_nil_r|].
  rewrite (line_printed m z l Hz) by (intros; apply HD; set_solver).
  rewrite (IH ltac:(intros l' Hl'; apply HD; set_solver)).
  2: { subst n. unfold alen. cbn [length]. lia. }
  rewrite substring_drop, Hz. destruct (blank l); cbn [negb]; [done|]. rewrite !sapp_assoc. do 2 f_equal.
  destruct lines as [|l' lines]; subst n; unfold alen; cbn [length].
  - case_if; [apply Z.ltb_lt in Heqb; lia|done].
  - case_if; [done|apply Z.ltb_ge in Heqb; lia].
Qed.

Lemma join_newline_cons x y l : join newline (x :: y :: l) = x +:+ newline +:+ join newline (y :: l).
Proof. done. Qed.

Lemma last_in {A} (l : list A) d : l <> [] -> List.last l d ∈ l.
Proof.
  intros H. destruct (exists_last H) as (l' & x & ->). rewrite last_last. set_solver.
Qed.

(** No line is left when all are blank. *)
Lemma all_blank lines : (forall l, l ∈ lines -> blank l = true) -> filterb (fun l => negb (blank l)) lines = [].
Proof.
  intros H. destruct (filterb _ lines) as [|x k] eqn:E; [done|]. exfalso.
  assert (x ∈ filterb (fun l => negb (blank l)) lines) as [Hx Hb]%elem_of_filterb by (rewrite E; set_solver).
  by rewrite (H x Hx) in Hb.
Qed.

Lemma existsb_filterb {A} (p : A -> bool) l : existsb p l = match filterb p l with [] => false | _ => true end.
Proof. induction l as [|x l IH]; [done|]. cbn. by destruct (p x). Qed.

Lemma printed_tidy m lines : printed m lines = tidy m lines.
Proof.
  induction lines as [|l lines IH]; [done|]. cbn [printed]. rewrite IH. unfold tidy, dedented. cbn [filterb existsb].
  destruct lines as [|l' rest]; [|change (List.last (l :: l' :: rest) "") with (List.last (l' :: rest) "")].
  - cbn -[blank]. destruct (blank l); cbn; [done|]. by rewrite !sapp_nil_r.
  - destruct (blank l); cbn [negb orb]; [done|].
    rewrite existsb_filterb. destruct (filterb (fun l => negb (blank l)) (l' :: rest)) as [|w ws] eqn:Ef.
    + replace (blank (List.last (l' :: rest) "")) with true; [cbn; by rewrite !sapp_nil_r|].
      destruct (blank (List.last (l' :: rest) "")) eqn:Eb; [done|]. exfalso.
      assert (List.last (l' :: rest) "" ∈ filterb (fun l => negb (blank l)) (l' :: rest)) as Hx.
      { apply elem_of_filterb. rewrite Eb. split; [by apply last_in|done]. }
      rewrite Ef in Hx. by apply elem_of_nil in Hx.
    + cbn [map]. rewrite join_newline_cons, !sapp_assoc. done.
Qed.

(** ** The text *)

Notation lines_of := (split_on (ascii_of_nat 10)).

Definition formatted (t : string) : string :=
  formatLines (alen (lines_of t)) 0 (minLeadingWhitespace (lines_of t) (-1)) (lines_of t) "".

Lemma least_unique m k lines : least_indent m lines -> least_indent k lines -> m = k.
Proof.
  intros [H1 (a & Ha & Hab & Hai)] [H2 (b & Hb & Hbb & Hbi)]. pose proof (H1 b Hb Hbb). pose proof (H2 a Ha Hab). lia.
Qed.

Lemma formatted_tidy t m : least_indent m (lines_of t) -> formatted t = tidy m (lines_of t).
Proof.
  intros HL. unfold formatted. destruct (min_spec (lines_of t)) as [(k & -> & Hk)|[_ HA]].
  - rewrite (least_unique _ _ _ HL Hk), (formatLines_printed k) by (first [lia|exact (proj1 Hk)]).
    cbn. apply printed_tidy.
  - destruct HL as [_ (l & Hl & Hb & _)]. by rewrite (HA l Hl) in Hb.
Qed.

Lemma formatted_blank t : (forall l, l ∈ lines_of t -> blank l = true) -> formatted t = "".
Proof.
  intros HA. unfold formatted. rewrite (formatLines_printed 0).
  - rewrite printed_tidy. unfold tidy, dedented. rewrite existsb_filterb, (all_blank _ HA). done.
  - destruct (min_spec (lines_of t)) as [(k & _ & _ & l & Hl & Hb & _)|[-> _]]; [|done]. by rewrite (HA l Hl) in Hb.
  - intros l Hl Hb. by rewrite (HA l Hl) in Hb.
  - lia.
Qed.

(** Reading lines back. *)
Lemma split_join ws k : ws <> [] -> (forall w, w ∈ ws -> has_char (ascii_of_nat 10) w = false) ->
  lines_of (join newline ws +:+ (if (k : bool) then newline else "")) = ws ++ (if k then [""] else []).
Proof.
  intros Hn HW. induction ws as [|w ws IH]; [done|]. assert (has_char (ascii_of_nat 10) w = false) as Hw by (apply HW; set_solver).
  destruct ws as [|w' ws].
  - change (join newline [w]) with w. destruct k; [by apply (split_on_app _ w "")|]. rewrite sapp_nil_r.
    by apply split_on_nosep.
  - rewrite join_newline_cons, !sapp_assoc. unfold newline at 1. cbn [String.append]. rewrite split_on_app by done.
    cbn. f_equal. apply IH; [done|]. intros x Hx. apply HW. set_solver.
Qed.

Lemma lines_no_newline t l : l ∈ lines_of t -> has_char (ascii_of_nat 10) l = false.
Proof.
  revert l. induction t as [|c t IH]; intros l; [by intros ->%list_elem_of_singleton|]. cbn [split_on].
  destruct (Ascii.eqb c (ascii_of_nat 10)) eqn:E.
  - intros [->|Hl]%elem_of_cons; [done|by apply IH].
  - destruct (lines_of t) as [|w ws]; [intros ->%list_elem_of_singleton; cbn; by rewrite E|].
    intros [->|Hl]%elem_of_cons; [cbn; rewrite E; apply IH; set_solver|apply IH; set_solver].
Qed.

Lemma has_char_drop c n s : has_char c s = false -> has_char c (sdrop n s) = false.
Proof.
  intros H. rewrite <- (stake_sdrop n s), has_char_app in H. apply orb_false_elim in H. apply H.
Qed.

Lemma has_char_trim_end c s : has_char c s = false -> has_char c (trim_end s) = false.
Proof.
  induction s as [|d s IH]; [done|]. cbn [trim_end]. case_if; [done|]. cbn. intros [-> H]%orb_false_elim. by apply IH.
Qed.

Lemma dedented_line m t w : least_indent m (lines_of t) -> w ∈ dedented m (lines_of t) ->
  blank w = false /\ trim_end w = w /\ has_char (ascii_of_nat 10) w = false.
Proof.
  intros HL (l & -> & [Hl Hb]%elem_of_filterb)%list_elem_of_fmap. apply negb_true_iff in Hb.
  rewrite blank_trim_end, trim_end_idem. split_and!; [|done|].
  - apply nonblank_drop; [done|by apply HL].
  - by apply has_char_trim_end, has_char_drop, (lines_no_newline t).
Qed.

(** The text is a normal form. *)
Lemma tidy_normal m t : least_indent m (lines_of t) -> formatted (tidy m (lines_of t)) = tidy m (lines_of t).
Proof.
  intros HL. pose proof (fun w => dedented_line m t w HL) as HW. set (ws := dedented m (lines_of t)) in *.
  assert (exists w, w ∈ ws /\ indent w = 0) as (w0 & Hw0 & Hi0).
  { destruct HL as [HD (l & Hl & Hb & Hi)]. exists (trim_end (sdrop m l)). split.
    - apply list_elem_of_fmap. exists l. split; [done|]. apply elem_of_filterb. by rewrite Hb.
    - rewrite indent_trim_end by (apply nonblank_drop; [done|lia]). rewrite indent_drop; lia. }
  assert (ws <> []) as Hne by (intros E; rewrite E in Hw0; by apply elem_of_nil in Hw0).
  unfold tidy at 2. fold ws. unfold tidy at 1. fold ws. set (k := existsb _ _ && _).
  clearbody ws k.
  pose proof (split_join ws k Hne (fun w Hw => proj2 (proj2 (HW w Hw)))) as HS.
  assert (dedented 0 (ws ++ if k then [""] else []) = ws) as HE.
  { unfold dedented. rewrite filterb_app. replace (filterb _ (if k then [""] else [])) with (@nil string) by (by destruct k).
    rewrite app_nil_r, filterb_all by (intros x Hx; by rewrite (proj1 (HW x Hx))).
    rewrite (map_ext_in _ id), map_id; [done|]. intros x Hx%list_elem_of_In. apply (HW x Hx). }
  rewrite (formatted_tidy _ 0), HS.
  - unfold tidy. rewrite HE. f_equal. rewrite existsb_filterb, filterb_app, filterb_all by (intros x Hx; by rewrite (proj1 (HW x Hx))).
    destruct k.
    + rewrite last_last. by destruct ws.
    + cbn [filterb]. rewrite !app_nil_r. rewrite (proj1 (HW _ (last_in ws "" Hne))). by rewrite andb_false_r.
  - rewrite HS. split; [lia|]. exists w0. split; [set_solver|]. split; [apply (HW w0 Hw0)|done].
Qed.

(** C28: the text the list shows for a query.  It is made of the lines that are
    not blank, all cut by the smallest indentation among them and freed of
    trailing white space, a newline between them and one at the end when the
    text ends in a blank line; it is shown whole, or as its first 300
    characters and three dots.  A text that was formatted and is shown whole is
    not changed when it is formatted again. *)
Theorem query_text_shown (t : string) :
  exists text, stripQueryTextWhitespace t = Some (if (300 <? slen text)%Z then stake 300 text +:+ "..." else text) /\
    ((exists m, least_indent m (lines_of t) /\ text = tidy m (lines_of t)) \/
     ((forall l, l ∈ lines_of t -> blank l = true) /\ text = "")) /\
    ((slen text <= 300)%Z -> stripQueryTextWhitespace text = Some text).
Proof.
  exists (formatted t). split; [by apply truncateString_spec|].
  assert (formatted (formatted t) = formatted t /\ ((exists m, least_indent m (lines_of t) /\ formatted t = tidy m (lines_of t)) \/
     ((forall l, l ∈ lines_of t -> blank l = true) /\ formatted t = ""))) as [HF HT].
  { destruct (min_spec (lines_of t)) as [(m & _ & HL)|[_ HA]].
    - rewrite (formatted_tidy t m HL), (tidy_normal m t HL). split; [done|]. left. by exists m.
    - rewrite (formatted_blank t HA). split; [done|]. by right. }
  split; [done|]. intros Hs. change (stripQueryTextWhitespace (formatted t)) with (truncateString (Some (formatted (formatted t))) 300).
  rewrite HF, truncateString_spec by lia. case_if; [|done]. apply Z.ltb_lt in Heqb. lia.
Qed.
