(* ===== verification/QueryHeader.v ===== *)
(** * components/QueryHeader.jsx: the header of the query pages

    The progress bar with the buttons that preempt or kill a query, and the
    tabs. *)
From S2P Require Import Prelude JsString JsNumber JsNumberFacts Html UtilsQuery UtilsText.
Local Open Scope Z_scope.

Module QueryHeader.

(** An [$.ajax] request. *)
Record Ajax := { url : string; method : string; data : string }.

Definition preempt (q : Query) : Ajax :=
  {| url := "/v1/query/" +:+ queryId q +:+ "/preempted"; method := "PUT"; data := "Preempted via web UI" |}.
Definition kill (q : Query) : Ajax :=
  {| url := "/v1/query/" +:+ queryId q +:+ "/killed"; method := "PUT"; data := "Killed via web UI" |}.

Definition renderProgressBar (q : Query) : result (vnode Ajax) :=
  color ← getQueryStateColor q;
  let progressBarStyle :=
    [("width", num_to_string (getProgressBarPercentage q) +:+ "%"); ("backgroundColor", color)] in
  title ← getProgressBarTitle q;
  if isQueryEnded (qstate q) then
    Ok (
      h "div" [cls "progress-large"] [
        h "div" [cls "progress-bar progress-bar-info"; at_ "role" "progressbar";
            at_ "aria-valuenow" (num_to_string (getProgressBarPercentage q));
            at_ "aria-valuemin" "0"; at_ "aria-valuemax" "100"; style progressBarStyle] [
          txt title]])
  else
    Ok (
      h "table" [] [
        h "tbody" [] [
          h "tr" [] [
            h "td" [at_ "width" "100%"] [
              h "div" [cls "progress-large"] [
                h "div" [cls "progress-bar progress-bar-info"; at_ "role" "progressbar";
                    at_ "aria-valuenow" (num_to_string (getProgressBarPercentage q));
                    at_ "aria-valuemin" "0"; at_ "aria-valuemax" "100";
                    style progressBarStyle] [
                  txt title]]];
            h "td" [] [
              h "a" [onClick (preempt q); cls "btn btn-warning"; at_ "target" "_blank"] [txt "Preempt"]];
            h "td" [] [
              h "a" [onClick (kill q); cls "btn btn-warning"; at_ "target" "_blank"] [txt "Kill"]]]]]).

(** [pathname] is [window.location.pathname]. *)
Definition renderTab {E} (pathname : string) (q : Query) (path name : string) : vnode E :=
  if includes pathname path
  then h "a" [at_ "href" (path +:+ "?" +:+ queryId q); cls "btn btn-info navbar-btn nav-disabled"] [txt name]
  else h "a" [at_ "href" (path +:+ "?" +:+ queryId q); cls "btn btn-info navbar-btn"] [txt name].

Definition render (pathname : string) (q : Query) : result (vnode Ajax) :=
  bar ← renderProgressBar q;
  Ok (
    h "div" [] [
      h "div" [cls "row"] [
        h "div" [cls "col-xs-6"] [
          h "h3" [cls "query-id"] [
            h "span" [at_ "id" "query-id"] [txt (queryId q)];
            h "a" [cls "btn copy-button"; at_ "data-clipboard-target" "#query-id";
                at_ "data-toggle" "tooltip"; at_ "data-placement" "right";
                at_ "title" "Copy to clipboard"] [
              h "span" [cls "glyphicon glyphicon-copy"; at_ "aria-hidden" "true";
                  at_ "alt" "Copy to clipboard"] []]]];
        h "div" [cls "col-xs-6"] [
          h "table" [cls "header-inline-links"] [
            h "tbody" [] [
              h "tr" [] [
                h "td" [] [
                  renderTab pathname q "query.html" "Overview";
                  txt nbsp;
                  renderTab pathname q "plan.html" "Live Plan";
                  txt nbsp;
                  renderTab pathname q "stage.html" "Stage Performance";
                  txt nbsp;
                  renderTab pathname q "timeline.html" "Splits";
                  txt nbsp;
                  h "a" [at_ "href" ("/v1/query/" +:+ queryId q +:+ "?pretty");
                      cls "btn btn-info navbar-btn"; at_ "target" "_blank"] [
                    txt "JSON"]]]]]]];
      h "hr" [cls "h2-hr"] [];
      h "div" [cls "row"] [h "div" [cls "col-xs-12"] [bar]]]).

(** ** Properties *)

Definition header_links (q : Query) : list string :=
  ["query.html?" +:+ queryId q; "plan.html?" +:+ queryId q; "stage.html?" +:+ queryId q;
   "timeline.html?" +:+ queryId q; "/v1/query/" +:+ queryId q +:+ "?pretty"].

(** Whether the two buttons are there. *)
Definition header_buttons (q : Query) : list Ajax :=
  if isQueryEnded (qstate q) then [] else [preempt q; kill q].

Lemma header_renders (pathname : string) (q : Query) :
  well_formed q ->
  exists v, render pathname q = Ok v /\
    clicks v = header_buttons q /\
    attr_values "href" v = header_links q.
Proof.
  intros W. unfold render, renderProgressBar, header_buttons. destruct (getQueryStateColor_total q W) as [c ->].
  destruct (getProgressBarTitle_total q W) as [t ->]. cbn [mbind result_bind].
  destruct (isQueryEnded (qstate q)); cbn [mbind result_bind]; eexists; (split; [reflexivity|]);
    unfold renderTab; repeat case_if; done.
Qed.

(** the header of a well-formed query renders; its buttons send a preempt and a
    kill request for this very query, and they are there exactly while the
    query has not ended; its tabs and the JSON link all lead to this query. *)
Theorem header_actions (pathname : string) (q : Query) :
  well_formed q ->
  exists v, render pathname q = Ok v /\
    clicks v = (if isQueryEnded (qstate q) then [] else [preempt q; kill q]) /\
    attr_values "href" v = header_links q.
Proof. apply header_renders. Qed.

Definition sample_query : Query := {|
  queryId := "20190701_000000_00001_abcde";
  session := {| user := Some "ann"; principal := None; source := None |};
  resourceGroupId := None; qstate := "RUNNING"; memoryPool := None; scheduled := true; query := "SELECT 1";
  queryStats := {|
    createTime := "2019-07-01T10:00:00.000Z"; elapsedTime := "1.50m"; executionTime := "1.20m";
    totalCpuTime := "3.00s"; cumulativeUserMemory := num_of_Z 1000; userMemoryReservation := "2.5MB";
    peakUserMemoryReservation := "3MB"; totalDrivers := num_of_Z 10; queuedDrivers := num_of_Z 2;
    runningDrivers := num_of_Z 3; completedDrivers := num_of_Z 5;
    progressPercentage := Some (num_of_Z 50); fullyBlocked := false; blockedReasons := None |};
  errorType := None; errorCode := None |}.

Lemma header_actions_witness :
  exists v, render "/ui/query.html" sample_query = Ok v /\ clicks v = [preempt sample_query; kill sample_query].
Proof.
  destruct (header_actions "/ui/query.html" sample_query) as (v & H1 & H2 & _).
  - intros [? [=]].
  - exists v. exact (conj H1 H2).
Defined.
End QueryHeader.

