(* ===== verification/Progress.v ===== *)
(** * The progress of a query

    What the progress bar of a query shows, in the query list and in the header of
    the query pages, for the progress the coordinator reports: a number from 0 to
    100 or nothing. *)
From Stdlib Require Import SpecFloat.
From S2P Require Import Prelude JsString JsNumber JsNumberFacts UtilsQuery UtilsRoundtrip Html QueryHeader.
Local Open Scope Z_scope.

(** A percentage. *)
Definition percentage (p : num) : Prop :=
  is_double p = true /\ is_finite p = true /\ 0 <= scaled p <= 100 * 2 ^ 1074.

(** [Math.round] of a percentage: the nearest whole one. *)
Lemma round_percentage p : percentage p -> num_truthy p = true ->
  exists k, 0 <= k <= 100 /\ num_to_string (math_round p) = Z_to_dec k /\
    2 * Z.abs (k * 2 ^ 1074 - scaled p) <= 2 ^ 1074.
Proof.
  intros (D & F & Hs) Ht. destruct p as [|?| |s m e]; try done.
  assert (0 < 2 ^ 1074) as HK by (apply Z.pow_pos_nonneg; lia).
  assert (emin <= e) as He by (destruct (is_double_finite _ _ _ D); lia).
  pose proof (scaled_pos m e He) as Hp. cbn [scaled] in Hs. destruct s; cbn [signed] in Hs; [lia|].
  assert (e < 0) as He0.
  { apply (exponent_negative m e D). apply Z.le_lt_trans with (100 * 2 ^ 1074); [lia|]. apply Z.mul_lt_mono_pos_r; lia. }
  pose proof (scaled_mag m e ltac:(lia)) as HS. pose proof (mag_den_pos e) as HD.
  cbn [math_round signed scaled]. replace (0 <=? e) with false by lia.
  set (n := (2 * mag_num m e + mag_den e) / (2 * mag_den e)).
  assert (2 * mag_den e * n <= 2 * mag_num m e + mag_den e < 2 * mag_den e * n + 2 * mag_den e) as Hn.
  { subst n. pose proof (Z.div_mod (2 * mag_num m e + mag_den e) (2 * mag_den e) ltac:(lia)).
    pose proof (Z.mod_pos_bound (2 * mag_num m e + mag_den e) (2 * mag_den e) ltac:(lia)). lia. }
  clearbody n. revert HS Hs Hp Hn HK HD. generalize (Zpos m * 2 ^ (e + 1074)), (mag_num m e), (mag_den e), (2 ^ 1074).
  intros S M d K HS Hs Hp Hn HK HD.
  assert (M <= 100 * d) as HM by nia.
  assert (0 <= M) as HM0 by nia.
  assert (0 <= n <= 100) as Hb by nia.
  exists n. split; [done|]. split.
  - destruct (Z.eqb_spec n 0) as [->|]; [done|]. apply num_to_string_int. lia.
  - apply (Z.mul_le_mono_pos_r _ _ d); [done|].
    replace (2 * Z.abs (n * K - S) * d) with (Z.abs (2 * n * K * d - 2 * (S * d))) by nia.
    rewrite HS. replace (2 * n * K * d - 2 * (M * K)) with ((2 * d * n - 2 * M) * K) by ring.
    rewrite Z.abs_mul, (Z.abs_eq K) by lia. rewrite (Z.mul_comm K d). apply Z.mul_le_mono_nonneg_r; lia.
Qed.

(** The progress is shown when the query runs and has made some. *)
Definition meaningful (q : Query) : bool := truthy_progress q && String.eqb (qstate q) "RUNNING".

(** The number of the bar in the header of the query pages. *)
Lemma header_bar pathname q v : QueryHeader.render pathname q = Ok v ->
  attr_values "aria-valuenow" v = [num_to_string (getProgressBarPercentage q)].
Proof.
  unfold QueryHeader.render, QueryHeader.renderProgressBar. destruct (getQueryStateColor q); [|done]. cbn [mbind result_bind].
  destruct (getProgressBarTitle q); [|done]. cbn [mbind result_bind].
  destruct (isQueryEnded (qstate q)); cbn [mbind result_bind]; intros [= <-]; unfold QueryHeader.renderTab;
    repeat case_if; reflexivity.
Qed.

(** ** Property *)

(** C31: the progress bar.  When the coordinator reports a progress from 0 to 100,
    or none, the bar of a well-formed query has a whole number of percent from 0
    to 100, the same in its header.  For a query that runs and has made progress
    it is the nearest one to the progress and stands in the title after the
    state; otherwise the bar is full and the title is the state alone, so that a
    query that runs and has made no progress yet has a full bar. *)
Theorem progress_bar (q : Query) :
  well_formed q -> (forall p, progressPercentage (queryStats q) = Some p -> percentage p) ->
  exists title k, getHumanReadableState q = Ok title /\ 0 <= k <= 100 /\
    num_to_string (getProgressBarPercentage q) = Z_to_dec k /\
    (forall pathname v, QueryHeader.render pathname q = Ok v -> attr_values "aria-valuenow" v = [Z_to_dec k]) /\
    if meaningful q
    then 2 * Z.abs (k * 2 ^ 1074 - scaled (num_of_nullable (progressPercentage (queryStats q)))) <= 2 ^ 1074 /\
         getProgressBarTitle q = Ok (title +:+ " (" +:+ Z_to_dec k +:+ "%)")
    else k = 100 /\ getProgressBarTitle q = Ok title.
Proof.
  intros W HP. destruct (getHumanReadableState_total q W) as [title Ht].
  assert (exists k, 0 <= k <= 100 /\ num_to_string (getProgressBarPercentage q) = Z_to_dec k /\
    if meaningful q
    then 2 * Z.abs (k * 2 ^ 1074 - scaled (num_of_nullable (progressPercentage (queryStats q)))) <= 2 ^ 1074
    else k = 100) as (k & Hk & Ek & Hm).
  { unfold getProgressBarPercentage, meaningful. rewrite <- negb_andb. destruct (truthy_progress q && _) eqn:E; cbn [negb].
    - apply andb_prop in E as [E _]. unfold truthy_progress in E.
      destruct (progressPercentage (queryStats q)) as [p|]; [|done]. by apply round_percentage; [apply HP|].
    - exists 100. split; [lia|]. split; [by apply num_to_string_int|done]. }
  exists title, k. split_and!; [done|lia|lia|done| |].
  - intros pathname v Hv. by rewrite (header_bar pathname q v Hv), Ek.
  - unfold getProgressBarTitle. rewrite Ht. unfold meaningful in *. destruct (truthy_progress q && _); [|done].
    split; [done|]. cbn. by rewrite Ek.
Qed.

(** The sample query has made 50 percent. *)
Lemma progress_bar_witness :
  exists title k, getHumanReadableState QueryHeader.sample_query = Ok title /\ 0 <= k <= 100 /\
    num_to_string (getProgressBarPercentage QueryHeader.sample_query) = Z_to_dec k.
Proof.
  destruct (progress_bar QueryHeader.sample_query) as (title & k & H1 & H2 & H3 & _).
  - intros [? [=]].
  - intros p Hp. pose proof (f_equal num_of_nullable Hp : num_of_Z 50 = p) as <-.
    assert (0 < 2 ^ 1074) as HK by (apply Z.pow_pos_nonneg; lia).
    split; [by apply is_double_num_of_Z|]. split; [by apply is_finite_num_of_Z|].
    rewrite (scaled_num_of_Z 50) by done. revert HK. generalize (2 ^ 1074). lia.
  - exists title, k. exact (conj H1 (conj H2 H3)).
Defined.
