(* ===== verification/ClusterHUD.v ===== *)
(** * components/ClusterHUD.jsx: the cluster overview

    Nine histories of cluster-wide numbers, updated once per refresh, and the
    sparklines drawn from them. *)
From S2P Require Import Prelude JsString JsNumber JsNumberFacts JsArray Html Sparkline.
From S2P Require Import UtilsHistory UtilsFormat RefreshLoop.
Local Open Scope Z_scope.

Module ClusterHUD.
Import Sparkline.

(** The answer of [/v1/cluster]. *)
Record ClusterStats := {
  cRunningQueries : num;
  cQueuedQueries : num;
  cBlockedQueries : num;
  cActiveWorkers : num;
  cRunningDrivers : num;
  cReservedMemory : num;
  totalInputRows : num;
  totalInputBytes : num;
  totalCpuTimeSecs : num
}.

Record State := {
  runningQueries : list num;
  queuedQueries : list num;
  blockedQueries : list num;
  activeWorkers : list num;
  runningDrivers : list num;
  reservedMemory : list num;
  rowInputRate : list num;
  byteInputRate : list num;
  perWorkerCpuTimeRate : list num;
  lastRender : option Z;
  lastRefresh : option Z;
  lastInputRows : option num;
  lastInputBytes : option num;
  lastCpuTime : option num;
  initialized : bool
}.

Definition initial_state : State := {|
  runningQueries := []; queuedQueries := []; blockedQueries := []; activeWorkers := [];
  runningDrivers := []; reservedMemory := []; rowInputRate := []; byteInputRate := [];
  perWorkerCpuTimeRate := []; lastRender := None; lastRefresh := None; lastInputRows := None;
  lastInputBytes := None; lastCpuTime := None; initialized := false |}.

(** The three rate histories; [now] is the clock when they are computed. *)
Definition new_rates (now : Z) (c : ClusterStats) (s : State) : list num * list num * list num :=
  match lastRefresh s with
  | None => ([], [], [])
  | Some last =>
      let rowsInputSinceRefresh := (totalInputRows c - num_of_nullable (lastInputRows s))%js in
      let bytesInputSinceRefresh := (totalInputBytes c - num_of_nullable (lastInputBytes s))%js in
      let cpuTimeSinceRefresh := (totalCpuTimeSecs c - num_of_nullable (lastCpuTime s))%js in
      let secsSinceRefresh := (num_of_Z (now - last) / num_of_Z 1000)%js in
      (addExponentiallyWeightedToHistory (rowsInputSinceRefresh / secsSinceRefresh)%js (rowInputRate s),
       addExponentiallyWeightedToHistory (bytesInputSinceRefresh / secsSinceRefresh)%js (byteInputRate s),
       addExponentiallyWeightedToHistory ((cpuTimeSinceRefresh / cActiveWorkers c) / secsSinceRefresh)%js
         (perWorkerCpuTimeRate s))
  end.

(** The success callback of [refreshLoop]; [now'] is the second reading of the
    clock. *)
Definition refresh_success (now now' : Z) (c : ClusterStats) (s : State) : State :=
  let '(newRowInputRate, newByteInputRate, newPerWorkerCpuTimeRate) := new_rates now c s in {|
  runningQueries := addToHistory (cRunningQueries c) (runningQueries s);
  queuedQueries := addToHistory (cQueuedQueries c) (queuedQueries s);
  blockedQueries := addToHistory (cBlockedQueries c) (blockedQueries s);
  activeWorkers := addToHistory (cActiveWorkers c) (activeWorkers s);
  runningDrivers := addExponentiallyWeightedToHistory (cRunningDrivers c) (runningDrivers s);
  reservedMemory := addExponentiallyWeightedToHistory (cReservedMemory c) (reservedMemory s);
  rowInputRate := newRowInputRate;
  byteInputRate := newByteInputRate;
  perWorkerCpuTimeRate := newPerWorkerCpuTimeRate;
  lastRender := lastRender s;
  lastRefresh := Some now';
  lastInputRows := Some (totalInputRows c);
  lastInputBytes := Some (totalInputBytes c);
  lastCpuTime := Some (totalCpuTimeSecs c);
  initialized := true |}.

Definition SPARKLINE_PROPERTIES : options :=
  [("width", Text "100%");
   ("height", Text "75px");
   ("fillColor", Text "#3F4552");
   ("lineColor", Text "#747F96");
   ("spotColor", Text "#1EDCFF");
   ("tooltipClassname", Text "sparkline-tooltip");
   ("disableHiddenCheck", Flag true)].

Definition draw (s : State) : list Chart :=
  let chart selector history extra := sparkline selector (map Some history) SPARKLINE_PROPERTIES [extra] in
  [chart "#running-queries-sparkline" (runningQueries s) ("chartRangeMin", Number (num_of_Z 0));
   chart "#blocked-queries-sparkline" (blockedQueries s) ("chartRangeMin", Number (num_of_Z 0));
   chart "#queued-queries-sparkline" (queuedQueries s) ("chartRangeMin", Number (num_of_Z 0));
   chart "#active-workers-sparkline" (activeWorkers s) ("chartRangeMin", Number (num_of_Z 0));
   chart "#running-drivers-sparkline" (runningDrivers s) ("numberFormatter", Formatter precisionRound);
   chart "#reserved-memory-sparkline" (reservedMemory s) ("numberFormatter", Formatter formatDataSizeBytes);
   chart "#row-input-rate-sparkline" (rowInputRate s) ("numberFormatter", Formatter formatCount);
   chart "#byte-input-rate-sparkline" (byteInputRate s) ("numberFormatter", Formatter formatDataSizeBytes);
   chart "#cpu-time-rate-sparkline" (perWorkerCpuTimeRate s) ("numberFormatter", Formatter precisionRound)].

Definition set_lastRender (t : Z) (s : State) : State := {|
  runningQueries := runningQueries s; queuedQueries := queuedQueries s;
  blockedQueries := blockedQueries s; activeWorkers := activeWorkers s;
  runningDrivers := runningDrivers s; reservedMemory := reservedMemory s;
  rowInputRate := rowInputRate s; byteInputRate := byteInputRate s;
  perWorkerCpuTimeRate := perWorkerCpuTimeRate s; lastRender := Some t;
  lastRefresh := lastRefresh s; lastInputRows := lastInputRows s; lastInputBytes := lastInputBytes s;
  lastCpuTime := lastCpuTime s; initialized := initialized s |}.

(** [componentDidUpdate] with its two readings of the clock: the new state
    and what it drew. *)
Definition componentDidUpdate (now now' : Z) (s : State) : State * list Chart :=
  if match lastRender s with None => true | Some t => 1000 <=? now - t end
  then (set_lastRender now' s, draw s)
  else (s, []).

(** [a[a.length - 1]] as a child: nothing when the array is empty. *)
Definition latest {E} (l : list num) : vnode E :=
  match last l with Some n => txtn n | None => none end.

Definition render {E} (s : State) : vnode E :=
  h "div" [cls "row"] [
    h "div" [cls "col-xs-12"] [
      h "div" [cls "row"] [
        h "div" [cls "col-xs-4"] [
          h "div" [cls "stat-title"] [
            h "span" [cls "text"; at_ "data-toggle" "tooltip"; at_ "data-placement" "right";
                at_ "title" "Total number of queries currently running"] [
              txt "Running queries"]]];
        h "div" [cls "col-xs-4"] [
          h "div" [cls "stat-title"] [
            h "span" [cls "text"; at_ "data-toggle" "tooltip"; at_ "data-placement" "right";
                at_ "title" "Total number of active worker nodes"] [
              txt "Active workers"]]];
        h "div" [cls "col-xs-4"] [
          h "div" [cls "stat-title"] [
            h "span" [cls "text"; at_ "data-toggle" "tooltip"; at_ "data-placement" "right";
                at_ "title" "Moving average of input rows processed per second"] [
              txt "Rows/sec"]]]];
      h "div" [cls "row stat-line-end"] [
        h "div" [cls "col-xs-4"] [
          h "div" [cls "stat stat-large"] [
            h "span" [cls "stat-text"] [latest (runningQueries s)];
            h "span" [cls "sparkline"; at_ "id" "running-queries-sparkline"] [
              h "div" [cls "loader"] [txt "Loading ..."]]]];
        h "div" [cls "col-xs-4"] [
          h "div" [cls "stat stat-large"] [
            h "span" [cls "stat-text"] [latest (activeWorkers s)];
            h "span" [cls "sparkline"; at_ "id" "active-workers-sparkline"] [
              h "div" [cls "loader"] [txt "Loading ..."]]]];
        h "div" [cls "col-xs-4"] [
          h "div" [cls "stat stat-large"] [
            h "span" [cls "stat-text"] [txt (formatCount (num_of_undefined (last (rowInputRate s))))];
            h "span" [cls "sparkline"; at_ "id" "row-input-rate-sparkline"] [
              h "div" [cls "loader"] [txt "Loading ..."]]]]];
      h "div" [cls "row"] [
        h "div" [cls "col-xs-4"] [
          h "div" [cls "stat-title"] [
            h "span" [cls "text"; at_ "data-toggle" "tooltip"; at_ "data-placement" "right";
                at_ "title" "Total number of queries currently queued and awaiting execution"] [
              txt "Queued queries"]]];
        h "div" [cls "col-xs-4"] [
          h "div" [cls "stat-title"] [
            h "span" [cls "text"; at_ "data-toggle" "tooltip"; at_ "data-placement" "right";
                at_ "title" "Moving average of total running drivers"] [
              txt "Runnable drivers"]]];
        h "div" [cls "col-xs-4"] [
          h "div" [cls "stat-title"] [
            h "span" [cls "text"; at_ "data-toggle" "tooltip"; at_ "data-placement" "right";
                at_ "title" "Moving average of input bytes processed per second"] [
              txt "Bytes/sec"]]]];
      h "div" [cls "row stat-line-end"] [
        h "div" [cls "col-xs-4"] [
          h "div" [cls "stat stat-large"] [
            h "span" [cls "stat-text"] [latest (queuedQueries s)];
            h "span" [cls "sparkline"; at_ "id" "queued-queries-sparkline"] [
              h "div" [cls "loader"] [txt "Loading ..."]]]];
        h "div" [cls "col-xs-4"] [
          h "div" [cls "stat stat-large"] [
            h "span" [cls "stat-text"] [txt (formatCount (num_of_undefined (last (runningDrivers s))))];
            h "span" [cls "sparkline"; at_ "id" "running-drivers-sparkline"] [
              h "div" [cls "loader"] [txt "Loading ..."]]]];
        h "div" [cls "col-xs-4"] [
          h "div" [cls "stat stat-large"] [
            h "span" [cls "stat-text"] [
              txt (formatDataSizeBytes (num_of_undefined (last (byteInputRate s))))];
            h "span" [cls "sparkline"; at_ "id" "byte-input-rate-sparkline"] [
              h "div" [cls "loader"] [txt "Loading ..."]]]]];
      h "div" [cls "row"] [
        h "div" [cls "col-xs-4"] [
          h "div" [cls "stat-title"] [
            h "span" [cls "text"; at_ "data-toggle" "tooltip"; at_ "data-placement" "right";
                at_ "title" "Total number of queries currently blocked and unable to make progress"] [
              txt "Blocked Queries"]]];
        h "div" [cls "col-xs-4"] [
          h "div" [cls "stat-title"] [
            h "span" [cls "text"; at_ "data-toggle" "tooltip"; at_ "data-placement" "right";
                at_ "title" "Total amount of memory reserved by all running queries"] [
              txt "Reserved Memory (B)"]]];
        h "div" [cls "col-xs-4"] [
          h "div" [cls "stat-title"] [
            h "span" [cls "text"; at_ "data-toggle" "tooltip"; at_ "data-placement" "right";
                at_ "title" "Moving average of CPU time utilized per second per worker"] [
              txt "Worker Parallelism"]]]];
      h "div" [cls "row stat-line-end"] [
        h "div" [cls "col-xs-4"] [
          h "div" [cls "stat stat-large"] [
            h "span" [cls "stat-text"] [latest (blockedQueries s)];
            h "span" [cls "sparkline"; at_ "id" "blocked-queries-sparkline"] [
              h "div" [cls "loader"] [txt "Loading ..."]]]];
        h "div" [cls "col-xs-4"] [
          h "div" [cls "stat stat-large"] [
            h "span" [cls "stat-text"] [
              txt (formatDataSizeBytes (num_of_undefined (last (reservedMemory s))))];
            h "span" [cls "sparkline"; at_ "id" "reserved-memory-sparkline"] [
              h "div" [cls "loader"] [txt "Loading ..."]]]];
        h "div" [cls "col-xs-4"] [
          h "div" [cls "stat stat-large"] [
            h "span" [cls "stat-text"] [
              txt (formatCount (num_of_undefined (last (perWorkerCpuTimeRate s))))];
            h "span" [cls "sparkline"; at_ "id" "cpu-time-rate-sparkline"] [
              h "div" [cls "loader"] [txt "Loading ..."]]]]]]].

(** ** The event loop *)

#[global] Instance poller : Poller State unit (Z * Z * ClusterStats) unit := {|
  on_start s := (s, tt);
  on_success _ '(now, now', c) s := Ok (refresh_success now now' c s);
  on_error _ s := Ok s;
  keep_polling _ := true;
  local_step s s' := exists now now', s' = (componentDidUpdate now now' s).1
|}.

#[global] Instance poller_laws : PollerLaws poller.
Proof. done. Qed.

(** ** Histories *)

Definition refreshes (rs : list (Z * Z * ClusterStats)) (s : State) : State :=
  fold_left (fun s '(now, now', c) => refresh_success now now' c s) rs s.

(** Two consecutive answers. *)
Fixpoint intervals {A} (rs : list A) : list (A * A) :=
  match rs with
  | r :: rs' => match rs' with r' :: _ => (r, r') :: intervals rs' | [] => [] end
  | [] => []
  end.

Lemma intervals_snoc {A} (rs : list A) r :
  intervals (rs ++ [r]) = intervals rs ++ match last rs with Some l => [(l, r)] | None => [] end.
Proof.
  induction rs as [|r0 rs IH]; [done|]. destruct rs as [|r1 rs]; [done|].
  cbn [app intervals] in *. rewrite IH, last_cons_cons. done.
Qed.

(** What a counter grew by in an interval, and the seconds from the clock
    reading that ends one answer to the first reading of the next. *)
Definition growth (f : ClusterStats -> num) (i : (Z * Z * ClusterStats) * (Z * Z * ClusterStats)) : num :=
  (f i.2.2 - f i.1.2)%js.
Definition seconds (i : (Z * Z * ClusterStats) * (Z * Z * ClusterStats)) : num :=
  (num_of_Z (i.2.1.1 - i.1.1.2) / num_of_Z 1000)%js.

Definition row_rate i : num := (growth totalInputRows i / seconds i)%js.
Definition byte_rate i : num := (growth totalInputBytes i / seconds i)%js.
Definition cpu_rate i : num := (growth totalCpuTimeSecs i / cActiveWorkers i.2.2 / seconds i)%js.

(** What the histories hold after the responses [rs]. *)
Record histories (rs : list (Z * Z * ClusterStats)) (s : State) : Prop := {
  h_running : runningQueries s = last_n WINDOW (map (fun r => cRunningQueries r.2) rs);
  h_queued : queuedQueries s = last_n WINDOW (map (fun r => cQueuedQueries r.2) rs);
  h_blocked : blockedQueries s = last_n WINDOW (map (fun r => cBlockedQueries r.2) rs);
  h_workers : activeWorkers s = last_n WINDOW (map (fun r => cActiveWorkers r.2) rs);
  h_drivers : runningDrivers s = last_n WINDOW (averages (map (fun r => cRunningDrivers r.2) rs));
  h_memory : reservedMemory s = last_n WINDOW (averages (map (fun r => cReservedMemory r.2) rs));
  h_rows : rowInputRate s = last_n WINDOW (averages (map row_rate (intervals rs)));
  h_bytes : byteInputRate s = last_n WINDOW (averages (map byte_rate (intervals rs)));
  h_cpu : perWorkerCpuTimeRate s = last_n WINDOW (averages (map cpu_rate (intervals rs)))
}.

(** What the state keeps of the last answer. *)
Record remembered (rs : list (Z * Z * ClusterStats)) (s : State) : Prop := {
  r_refresh : lastRefresh s = (fun r => r.1.2) <$> last rs;
  r_rows : lastInputRows s = (fun r => totalInputRows r.2) <$> last rs;
  r_bytes : lastInputBytes s = (fun r => totalInputBytes r.2) <$> last rs;
  r_cpu : lastCpuTime s = (fun r => totalCpuTimeSecs r.2) <$> last rs
}.

Lemma remembered_refresh rs now now' c s : remembered (rs ++ [(now, now', c)]) (refresh_success now now' c s).
Proof. unfold refresh_success. destruct (new_rates now c s) as [[? ?] ?]. by split; rewrite last_snoc. Qed.

Lemma average_snoc {A} (f : A -> num) rs r l :
  l = last_n WINDOW (averages (map f rs)) ->
  addExponentiallyWeightedToHistory (f r) l = last_n WINDOW (averages (map f (rs ++ [r]))).
Proof. intros E. rewrite map_app. by apply addExponentially_snoc. Qed.

(** The rate histories grow by one, from the second response on. *)
Lemma new_rates_snoc now now' c rs s : histories rs s -> remembered rs s ->
  let rates f := last_n WINDOW (averages (map f (intervals (rs ++ [(now, now', c)])))) in
  new_rates now c s = (rates row_rate, rates byte_rate, rates cpu_rate).
Proof.
  intros [] []. unfold new_rates. rewrite r_refresh0, r_rows0, r_bytes0, r_cpu0, intervals_snoc.
  destruct (last rs) as [r|] eqn:E; cbn [fmap option_fmap option_map].
  - set (i := (r, (now, now', c))).
    by rewrite <- (average_snoc row_rate _ i _ h_rows0), <- (average_snoc byte_rate _ i _ h_bytes0),
      <- (average_snoc cpu_rate _ i _ h_cpu0).
  - apply last_None in E as ->. done.
Qed.

Lemma histories_refresh rs now now' c s : histories rs s -> remembered rs s ->
  histories (rs ++ [(now, now', c)]) (refresh_success now now' c s).
Proof.
  intros H R. unfold refresh_success. rewrite (new_rates_snoc now now' c rs s H R). destruct H.
  set (r := (now, now', c)).
  split; cbn [runningQueries queuedQueries blockedQueries activeWorkers runningDrivers reservedMemory
    rowInputRate byteInputRate perWorkerCpuTimeRate]; try done.
  - by apply (addToHistory_snoc (fun r => cRunningQueries r.2) rs r).
  - by apply (addToHistory_snoc (fun r => cQueuedQueries r.2) rs r).
  - by apply (addToHistory_snoc (fun r => cBlockedQueries r.2) rs r).
  - by apply (addToHistory_snoc (fun r => cActiveWorkers r.2) rs r).
  - by apply (average_snoc (fun r => cRunningDrivers r.2) rs r).
  - by apply (average_snoc (fun r => cReservedMemory r.2) rs r).
Qed.

Lemma histories_refreshes rs' rs s : histories rs s -> remembered rs s ->
  histories (rs ++ rs') (refreshes rs' s).
Proof.
  revert rs s. induction rs' as [|[[now now'] c] rs' IH]; intros rs s H R; cbn.
  - by rewrite app_nil_r.
  - replace (rs ++ (now, now', c) :: rs') with ((rs ++ [(now, now', c)]) ++ rs')
      by (by rewrite <- app_assoc). apply IH; [by apply histories_refresh|apply remembered_refresh].
Qed.

(** ** Properties *)

(** C23: the nine charts of the overview are exactly what a reference computes
    from the coordinator's answers, in the window of the last 301 values: the
    counts are the reported ones, oldest first; drivers and memory are the
    moving averages of the reported values; the row, byte and CPU rates are the
    moving averages of the counters' growth between two consecutive answers
    over the seconds between them (the CPU time per active worker), so the
    first answer gives none. *)
Theorem cluster_histories (rs : list (Z * Z * ClusterStats)) : histories rs (refreshes rs initial_state).
Proof. exact (histories_refreshes rs [] initial_state ltac:(by split) ltac:(by split)). Qed.

(** sparklines are drawn at most once per second: after a drawing
    update, no update less than a second later draws again or changes the
    state, so the [setState] inside [componentDidUpdate] does not feed
    itself. *)
Theorem sparkline_throttle (now now' now2 now2' : Z) (s : State) :
  let '(s1, drawn) := componentDidUpdate now now' s in
  drawn <> [] -> now2 < now' + 1000 -> componentDidUpdate now2 now2' s1 = (s1, []).
Proof.
  unfold componentDidUpdate. destruct (lastRender s) as [t|]; [case_if|]; [| done |].
  all: intros _ H; cbn; rewrite (proj2 (Z.leb_gt 1000 (now2 - now'))) by lia; done.
Qed.

Lemma sparkline_throttle_witness :
  componentDidUpdate 999 999 (componentDidUpdate 0 0 initial_state).1
  = ((componentDidUpdate 0 0 initial_state).1, []).
Proof. apply (sparkline_throttle 0 0 999 999 initial_state); [discriminate|lia]. Defined.
End ClusterHUD.

