(* ===== verification/PageTitle.v ===== *)
(** * components/PageTitle.jsx: the title bar and the connection state *)
From S2P Require Import Prelude JsString JsNumber Html UtilsQuery RefreshLoop.
Local Open Scope Z_scope.

Module PageTitle.

(** The answer of [/v1/info]. *)
Record Info := { version : string; environment : string; uptime : string }.

Record State := {
  noConnection : bool;
  lightShown : bool;
  info : option Info;
  lastSuccess : Z;
  modalShown : bool;
  errorText : option string
}.

Definition initial_state (now : Z) : State := {|
  noConnection := false; lightShown := false; info := None; lastSuccess := now;
  modalShown := false; errorText := None |}.

(** What the callbacks do to the dialog. *)
Inductive modal_call := Show | Hide.

Definition on_info (now : Z) (i : Info) (s : State) : State * list modal_call :=
  ({| noConnection := false; lightShown := lightShown s; info := Some i; lastSuccess := now;
      modalShown := false; errorText := errorText s |}, [Hide]).

(** The [catch] callback.  [error] is what the promise was rejected with, an
    exception object, given by its text; [setState] outside of React's event
    handlers takes effect at once. *)
Definition on_catch (now : Z) (error : string) (s : State) : State * list modal_call :=
  let s := {| noConnection := true; lightShown := negb (lightShown s); info := info s;
              lastSuccess := lastSuccess s; modalShown := modalShown s; errorText := Some error |} in
  if negb (modalShown s) && (truthy_object error || (30 * 1000 <? now - lastSuccess s))
  then ({| noConnection := noConnection s; lightShown := lightShown s; info := info s;
           lastSuccess := lastSuccess s; modalShown := true; errorText := errorText s |}, [Show])
  else (s, []).

Definition renderStatusLight {E} (s : State) : vnode E :=
  if noConnection s then
    if lightShown s
    then h "span" [cls "status-light status-light-red"; at_ "id" "status-indicator"] []
    else h "span" [cls "status-light"; at_ "id" "status-indicator"] []
  else h "span" [cls "status-light status-light-green"; at_ "id" "status-indicator"] [].

(** [errorText] is an object, true whatever its text. *)
Definition render {E} (title : string) (s : State) : vnode E :=
  match info s with
  | None => none
  | Some i =>
      h "div" [] [
        h "nav" [cls "navbar"] [
          h "div" [cls "container-fluid"] [
            h "div" [cls "navbar-header"] [
              h "table" [] [
                h "tbody" [] [
                  h "tr" [] [
                    h "td" [] [h "a" [at_ "href" "/ui/"] [h "img" [at_ "src" "assets/logo.png"] []]];
                    h "td" [] [h "span" [cls "navbar-brand"] [txt title]]]]]];
            h "div" [at_ "id" "navbar"; cls "navbar-collapse collapse"] [
              h "ul" [cls "nav navbar-nav navbar-right"] [
                h "li" [] [
                  h "span" [cls "navbar-cluster-info"] [
                    h "span" [cls "uppercase"] [txt "Version"];
                    h "br" [] [];
                    h "span" [cls "text uppercase"; at_ "id" "version-number"] [txt (version i)]]];
                h "li" [] [
                  h "span" [cls "navbar-cluster-info"] [
                    h "span" [cls "uppercase"] [txt "Environment"];
                    h "br" [] [];
                    h "span" [cls "text uppercase"; at_ "id" "environment"] [txt (environment i)]]];
                h "li" [] [
                  h "span" [cls "navbar-cluster-info"] [
                    h "span" [cls "uppercase"] [txt "Uptime"];
                    h "br" [] [];
                    h "span" [at_ "data-toggle" "tooltip"; at_ "data-placement" "bottom";
                        at_ "title" "Connection status"] [
                      renderStatusLight s];
                    txt nbsp;
                    h "span" [cls "text"; at_ "id" "uptime"] [txt (uptime i)]]]]]]];
        h "div" [at_ "id" "no-connection-modal"; cls "modal"; at_ "tabIndex" "-1";
            at_ "role" "dialog"] [
          h "div" [cls "modal-dialog modal-sm"; at_ "role" "document"] [
            h "div" [cls "modal-content"] [
              h "div" [cls "row error-message"] [
                h "div" [cls "col-xs-12"] [
                  h "br" [] [];
                  h "h4" [] [txt "Unable to connect to server"];
                  h "p" [] [match errorText s with Some e => txt ("Error: " +:+ e) | None => none end]]]]]]]
  end.

(** ** The event loop *)

#[global] Instance poller : Poller State unit (Z * Info) (Z * string) := {|
  on_start s := (s, tt);
  on_success _ '(now, i) s := Ok (on_info now i s).1;
  on_error '(now, e) s := Ok (on_catch now e s).1;
  keep_polling _ := true;
  local_step _ _ := False
|}.

#[global] Instance poller_laws : PollerLaws poller.
Proof. by intros ? ? []. Qed.

(** The outcomes of a series of requests. *)
Inductive outcome :=
| Answer (now : Z) (i : Info)
| Failure (now : Z) (error : string).

Definition handle (o : outcome) (s : State) : State * list modal_call :=
  match o with Answer now i => on_info now i s | Failure now e => on_catch now e s end.

Fixpoint run (os : list outcome) (s : State) : State * list modal_call :=
  match os with
  | [] => (s, [])
  | o :: os' =>
      let '(s1, c1) := handle o s in
      let '(s2, c2) := run os' s1 in
      (s2, c1 ++ c2)
  end.

Definition is_failure (o : outcome) : bool := match o with Failure _ _ => true | _ => false end.

(** The dialog calls a series of outcomes should make: show it at the first
    failure of an outage, hide it at every answer. *)
Fixpoint expected_calls (down : bool) (os : list outcome) : list modal_call :=
  match os with
  | [] => []
  | Answer _ _ :: os' => Hide :: expected_calls false os'
  | Failure _ _ :: os' => (if down then [] else [Show]) ++ expected_calls true os'
  end.

(** The dialog is up exactly while there is no connection. *)
Definition inv (s : State) : Prop := modalShown s = noConnection s.

Lemma dialog_inv o s : inv s ->
  inv (handle o s).1 /\ noConnection (handle o s).1 = is_failure o /\
  lightShown (handle o s).1 = xorb (lightShown s) (is_failure o) /\
  (handle o s).2 = match o with Answer _ _ => [Hide] | Failure _ _ => if noConnection s then [] else [Show] end.
Proof.
  unfold inv. intros H. destruct o as [now i|now e]; cbn.
  - by rewrite xorb_false_r.
  - unfold on_catch. cbn. rewrite H. destruct (noConnection s); cbn; by rewrite xorb_true_r.
Qed.

Lemma run_spec os s : inv s ->
  inv (run os s).1 /\ (run os s).2 = expected_calls (noConnection s) os /\
  noConnection (run os s).1 = default (noConnection s) (is_failure <$> last os) /\
  lightShown (run os s).1 = xorb (lightShown s) (Nat.odd (length (filterb is_failure os))).
Proof.
  revert s. induction os as [|o os IH]; intros s H; cbn [run].
  { cbn. by rewrite xorb_false_r. }
  destruct (dialog_inv o s H) as (H1 & H2 & H3 & H4).
  destruct (handle o s) as [s1 c1]. cbn [fst snd] in *. specialize (IH s1 H1).
  destruct (run os s1) as [s2 c2]. cbn [fst snd] in *. destruct IH as (I1 & I2 & I3 & I4).
  split_and!; [done| | |].
  - subst c1 c2. rewrite H2. by destruct o.
  - rewrite I3, H2. rewrite last_cons. by destruct (last os).
  - rewrite I4, H3. cbn [filterb]. destruct (is_failure o).
    + cbn [length]. rewrite Nat.odd_succ, <- Nat.negb_odd. by destruct (lightShown s), (Nat.odd _).
    + by rewrite xorb_false_r.
Qed.

(** ** Properties *)

(** over any series of answers and failures of [/v1/info] the dialog is shown at
    the first failure of each outage and hidden at each answer, it is up
    exactly while the last request failed, and the status light flips at every
    failure. *)
Theorem connection_dialog (now : Z) (os : list outcome) :
  let '(s, calls) := run os (initial_state now) in
  calls = expected_calls false os /\
  modalShown s = noConnection s /\
  noConnection s = default false (is_failure <$> last os) /\
  lightShown s = Nat.odd (length (filterb is_failure os)).
Proof.
  pose proof (run_spec os (initial_state now) eq_refl) as H.
  destruct (run os (initial_state now)) as [s calls]. cbn [fst snd] in H.
  destruct H as (H1 & H2 & H3 & H4). split_and!; [done|done|done|]. rewrite H4. by cbn.
Qed.

(** the half minute of grace the code asks for is dead: one failure
    after an answer shows the dialog, however little time has passed. *)
Theorem dialog_without_grace (t now : Z) (i : Info) (error : string) (s : State) :
  (on_catch now error (on_info t i s).1).2 = [Show].
Proof. done. Qed.
End PageTitle.

