(* ===== verification/WorkerStatus.v ===== *)
(** * components/WorkerStatus.jsx: the page of a worker

    The utilisation histories, the bars of the memory pools and the queries
    that use them. *)
From S2P Require Import Prelude JsString JsNumber JsNumberFacts JsArray JsObject Html Sparkline.
From S2P Require Import UtilsHistory UtilsFormat UtilsText RefreshLoop.
Local Open Scope Z_scope.

Module WorkerStatus.
Import Sparkline.

Record Pool := {
  maxBytes : num;
  reservedBytes : num;
  reservedRevocableBytes : num;
  queryMemoryReservations : obj num;
  queryMemoryRevocableReservations : obj num
}.

(** The answer of [/v1/worker/<id>/status]; a missing pool is [undefined]. *)
Record ServerInfo := {
  nodeId : string;
  uptime : string;
  externalAddress : string;
  internalAddress : string;
  processors : num;
  sProcessCpuLoad : num;
  sSystemCpuLoad : num;
  heapUsed : num;
  heapAvailable : num;
  sNonHeapUsed : num;
  generalPool : option Pool;
  reservedPool : option Pool
}.

Record State := {
  serverInfo : option ServerInfo;
  initialized : bool;
  ended : bool;
  processCpuLoad : list num;
  systemCpuLoad : list num;
  heapPercentUsed : list num;
  nonHeapUsed : list num
}.

Definition initial_state : State := {|
  serverInfo := None; initialized := false; ended := false; processCpuLoad := [];
  systemCpuLoad := []; heapPercentUsed := []; nonHeapUsed := [] |}.

(** The URL [refreshLoop] asks. *)
Definition status_url (search : string) : string :=
  "/v1/worker/" +:+ getFirstParameter search +:+ "/status".

Definition refresh_success (i : ServerInfo) (s : State) : State := {|
  serverInfo := Some i;
  initialized := true;
  ended := ended s;
  processCpuLoad := addToHistory (sProcessCpuLoad i * num_of_Z 100)%js (processCpuLoad s);
  systemCpuLoad := addToHistory (sSystemCpuLoad i * num_of_Z 100)%js (systemCpuLoad s);
  heapPercentUsed := addToHistory ((heapUsed i * num_of_Z 100) / heapAvailable i)%js (heapPercentUsed s);
  nonHeapUsed := addToHistory (sNonHeapUsed i * num_of_Z 100)%js (nonHeapUsed s) |}.

Definition refresh_error (s : State) : State := {|
  serverInfo := serverInfo s; initialized := true; ended := ended s;
  processCpuLoad := processCpuLoad s; systemCpuLoad := systemCpuLoad s;
  heapPercentUsed := heapPercentUsed s; nonHeapUsed := nonHeapUsed s |}.

Definition SMALL_SPARKLINE_PROPERTIES : options :=
  [("width", Text "100%");
   ("height", Text "57px");
   ("fillColor", Text "#3F4552");
   ("lineColor", Text "#747F96");
   ("spotColor", Text "#1EDCFF");
   ("tooltipClassname", Text "sparkline-tooltip");
   ("disableHiddenCheck", Flag true)].

(** What [componentDidUpdate] draws. *)
Definition componentDidUpdate (s : State) : list Chart :=
  let chart selector history f :=
    sparkline selector (map Some history) SMALL_SPARKLINE_PROPERTIES
      [("chartRangeMin", Number (num_of_Z 0)); ("numberFormatter", Formatter f)] in
  [chart "#process-cpu-load-sparkline" (processCpuLoad s) precisionRound;
   chart "#system-cpu-load-sparkline" (systemCpuLoad s) precisionRound;
   chart "#heap-percent-used-sparkline" (heapPercentUsed s) precisionRound;
   chart "#nonheap-used-sparkline" (nonHeapUsed s) formatDataSize].

(** ** Memory pools *)

(** The widths of the bar: reserved, revocable, free. *)
Definition pool_percentages (p : Pool) : num * num * num :=
  let size := maxBytes p in
  let reserved := reservedBytes p in
  let revocable := reservedRevocableBytes p in
  let percentageReservedNonRevocable :=
    if neq (reserved - revocable)%js 0 then num_of_Z 0
    else math_max (math_round (((reserved - revocable) * num_of_Z 100) / size)%js) (num_of_Z 15) in
  let percentageRevocable :=
    if neq revocable 0 then num_of_Z 0
    else math_max (math_round ((revocable * num_of_Z 100) / size)%js) (num_of_Z 15) in
  let percentageFree := (num_of_Z 100 - (percentageRevocable + percentageReservedNonRevocable))%js in
  (percentageReservedNonRevocable, percentageRevocable, percentageFree).

Definition renderPoolBar {E} (name : string) (pool : option Pool) : vnode E :=
  match pool with
  | None => none
  | Some p =>
      let size := maxBytes p in
      let reserved := reservedBytes p in
      let revocable := reservedRevocableBytes p in
      let '(percentageReservedNonRevocable, percentageRevocable, percentageFree) := pool_percentages p in
      h "div" [cls "row"] [
        h "div" [cls "col-xs-12"] [
          h "div" [cls "row"] [
            h "div" [cls "col-xs-8"] [h "h4" [] [txt name; txt " Pool"]];
            h "div" [cls "col-xs-4"] [
              h "div" [cls "progress"; style [("marginTop", "6px")]] [
                h "div" [cls "progress-bar memory-progress-bar memory-progress-bar-info";
                    at_ "role" "progressbar"; style [("width", "100%")]] [
                  txt (formatDataSize size);
                  txt " total"]]]];
          h "div" [cls "row"] [
            h "div" [cls "col-xs-12"] [
              h "hr" [cls "h4-hr"] [];
              h "div" [cls "progress"] [
                h "div" [cls "progress-bar memory-progress-bar progress-bar-warning progress-bar-striped active";
                    at_ "role" "progressbar";
                    style [("width", num_to_string percentageReservedNonRevocable +:+ "%")]] [
                  txt (formatDataSize (reserved - revocable)%js)];
                h "div" [cls "progress-bar memory-progress-bar progress-bar-danger progress-bar-striped active";
                    at_ "role" "progressbar";
                    style [("width", num_to_string percentageRevocable +:+ "%")]] [
                  txt (formatDataSize revocable)];
                h "div" [cls "progress-bar memory-progress-bar progress-bar-success";
                    at_ "role" "progressbar";
                    style [("width", num_to_string percentageFree +:+ "%")]] [
                  txt (formatDataSize (size - reserved)%js)]]]]]]
  end.

Definition renderPoolQuery {E} (query : string) (reserved revocable total : num) : vnode E :=
  h "tr" [] [
    h "td" [] [
      h "div" [cls "row query-memory-list-header"] [
        h "div" [cls "col-xs-7"] [
          h "a" [at_ "href" ("query.html?" +:+ query); at_ "target" "_blank"] [txt query]];
        h "div" [cls "col-xs-5"] [
          h "div" [cls "row text-right"] [
            h "div" [cls "col-xs-6"] [
              h "span" [at_ "data-toggle" "tooltip"; at_ "data-placement" "top";
                  at_ "title" "% of pool memory reserved"] [
                txtn (math_round ((reserved * num_of_Z 100) / total)%js);
                txt "%"]];
            h "div" [cls "col-xs-6"] [
              h "span" [at_ "data-toggle" "tooltip"; at_ "data-placement" "top";
                  at_ "title" ("Reserved: " +:+ formatDataSize reserved +:+ ". Revocable: " +:+ formatDataSize revocable)] [
                txt (formatDataSize reserved)]]]]]]].

(** The dictionary of the two loops: query id to the pair of its
    reservations. *)
Definition pool_reserved (reservations : obj num) : obj (num * num) :=
  fold_left (fun queries query =>
      dict_set query (num_of_undefined (dict_get query reservations), num_of_Z 0) queries)
    (own_keys reservations) [].

Definition add_revocable (revocable : obj num) (queries : obj (num * num)) (query : string)
    : obj (num * num) :=
  match dict_get query queries with
  | Some (r, _) => dict_set query (r, num_of_undefined (dict_get query revocable)) queries
  | None => dict_set query (num_of_Z 0, num_of_undefined (dict_get query revocable)) queries
  end.

Definition pool_queries (p : Pool) : obj (num * num) :=
  fold_left (add_revocable (queryMemoryRevocableReservations p))
    (own_keys (queryMemoryRevocableReservations p))
    (pool_reserved (queryMemoryReservations p)).

Definition renderPoolQueries {E} (pool : option Pool) : vnode E :=
  match pool with
  | None => none
  | Some p =>
      let queries := pool_queries p in
      let size := maxBytes p in
      if alen (own_keys queries) =? 0 then
        h "div" [] [
          h "table" [cls "table table-condensed"] [
            h "tbody" [] [h "tr" [] [h "td" [] [txt "No queries using pool"]]]]]
      else
        h "div" [] [
          h "table" [cls "table"] [
            h "tbody" [] [
              frag (map (fun key => let '(reserved, revocable) := default (nan, nan) (dict_get key queries) in renderPoolQuery key reserved revocable size) (own_keys queries))]]]
  end.

(** The three parts of the page. *)
Definition renderOverview {E} (i : ServerInfo) : vnode E :=
  h "div" [cls "row"] [
    h "div" [cls "col-xs-6"] [
      h "table" [cls "table"] [
        h "tbody" [] [
          h "tr" [] [
            h "td" [cls "info-title"] [txt "Node ID"];
            h "td" [cls "info-text wrap-text"] [
              h "span" [at_ "id" "node-id"] [txt (nodeId i)];
              txt (nbsp +:+ nbsp);
              h "a" [at_ "href" "#"; cls "copy-button";
                  at_ "data-clipboard-target" "#node-id"; at_ "data-toggle" "tooltip";
                  at_ "data-placement" "right"; at_ "title" "Copy to clipboard"] [
                h "span" [cls "glyphicon glyphicon-copy"; at_ "alt" "Copy to clipboard"] []]]];
          h "tr" [] [
            h "td" [cls "info-title"] [txt "Heap Memory"];
            h "td" [cls "info-text wrap-text"] [
              h "span" [at_ "id" "internal-address"] [txt (formatDataSize (heapAvailable i))]]];
          h "tr" [] [
            h "td" [cls "info-title"] [txt "Processors"];
            h "td" [cls "info-text wrap-text"] [
              h "span" [at_ "id" "internal-address"] [txtn (processors i)]]]]]];
    h "div" [cls "col-xs-6"] [
      h "table" [cls "table"] [
        h "tbody" [] [
          h "tr" [] [
            h "td" [cls "info-title"] [txt "Uptime"];
            h "td" [cls "info-text wrap-text"] [txt (uptime i)]];
          h "tr" [] [
            h "td" [cls "info-title"] [txt "External Address"];
            h "td" [cls "info-text wrap-text"] [
              h "span" [at_ "id" "external-address"] [txt (externalAddress i)];
              txt (nbsp +:+ nbsp);
              h "a" [at_ "href" "#"; cls "copy-button";
                  at_ "data-clipboard-target" "#external-address";
                  at_ "data-toggle" "tooltip"; at_ "data-placement" "right";
                  at_ "title" "Copy to clipboard"] [
                h "span" [cls "glyphicon glyphicon-copy"; at_ "alt" "Copy to clipboard"] []]]];
          h "tr" [] [
            h "td" [cls "info-title"] [txt "Internal Address"];
            h "td" [cls "info-text wrap-text"] [
              h "span" [at_ "id" "internal-address"] [txt (internalAddress i)];
              txt (nbsp +:+ nbsp);
              h "a" [at_ "href" "#"; cls "copy-button";
                  at_ "data-clipboard-target" "#internal-address";
                  at_ "data-toggle" "tooltip"; at_ "data-placement" "right";
                  at_ "title" "Copy to clipboard"] [
                h "span" [cls "glyphicon glyphicon-copy"; at_ "alt" "Copy to clipboard"] []]]]]]]].

Definition renderUtilization {E} (s : State) : vnode E :=
  h "div" [cls "row"] [
    h "div" [cls "col-xs-12"] [
      h "h3" [] [txt "Resource Utilization"];
      h "hr" [cls "h3-hr"] [];
      h "div" [cls "row"] [
        h "div" [cls "col-xs-6"] [
          h "table" [cls "table"] [
            h "tbody" [] [
              h "tr" [] [
                h "td" [cls "info-title"] [txt "Process CPU Utilization"];
                h "td" [at_ "rowSpan" "2"] [
                  h "div" [cls "query-stats-sparkline-container"] [
                    h "span" [cls "sparkline"; at_ "id" "process-cpu-load-sparkline"] [
                      h "div" [cls "loader"] [txt "Loading ..."]]]]];
              h "tr" [cls "tr-noborder"] [
                h "td" [cls "info-sparkline-text"] [
                  txt (formatCount (num_of_undefined (last (processCpuLoad s))));
                  txt "%"]];
              h "tr" [] [
                h "td" [cls "info-title"] [txt "System CPU Utilization"];
                h "td" [at_ "rowSpan" "2"] [
                  h "div" [cls "query-stats-sparkline-container"] [
                    h "span" [cls "sparkline"; at_ "id" "system-cpu-load-sparkline"] [
                      h "div" [cls "loader"] [txt "Loading ..."]]]]];
              h "tr" [cls "tr-noborder"] [
                h "td" [cls "info-sparkline-text"] [
                  txt (formatCount (num_of_undefined (last (systemCpuLoad s))));
                  txt "%"]]]]];
        h "div" [cls "col-xs-6"] [
          h "table" [cls "table"] [
            h "tbody" [] [
              h "tr" [] [
                h "td" [cls "info-title"] [txt "Heap Utilization"];
                h "td" [at_ "rowSpan" "2"] [
                  h "div" [cls "query-stats-sparkline-container"] [
                    h "span" [cls "sparkline"; at_ "id" "heap-percent-used-sparkline"] [
                      h "div" [cls "loader"] [txt "Loading ..."]]]]];
              h "tr" [cls "tr-noborder"] [
                h "td" [cls "info-sparkline-text"] [
                  txt (formatCount (num_of_undefined (last (heapPercentUsed s))));
                  txt "%"]];
              h "tr" [] [
                h "td" [cls "info-title"] [txt "Non-Heap Memory Used"];
                h "td" [at_ "rowSpan" "2"] [
                  h "div" [cls "query-stats-sparkline-container"] [
                    h "span" [cls "sparkline"; at_ "id" "nonheap-used-sparkline"] [
                      h "div" [cls "loader"] [txt "Loading ..."]]]]];
              h "tr" [cls "tr-noborder"] [
                h "td" [cls "info-sparkline-text"] [
                  txt (formatDataSize (num_of_undefined (last (nonHeapUsed s))))]]]]]]]].

Definition renderPools {E} (i : ServerInfo) : vnode E :=
  h "div" [cls "row"] [
    h "div" [cls "col-xs-12"] [
      h "h3" [] [txt "Memory Pools"];
      h "hr" [cls "h3-hr"] [];
      h "div" [cls "row"] [
        h "div" [cls "col-xs-6"] [
          renderPoolBar "General" (generalPool i);
          renderPoolQueries (generalPool i)];
        h "div" [cls "col-xs-6"] [
          renderPoolBar "Reserved" (reservedPool i);
          renderPoolQueries (reservedPool i)]]]].

Definition render {E} (s : State) : vnode E :=
  match serverInfo s with
  | None =>
      if negb (initialized s)
      then h "div" [cls "loader"] [txt "Loading..."]
      else h "div" [cls "row error-message"]
             [h "div" [cls "col-xs-12"] [h "h4" [] [txt "Node information could not be loaded"]]]
  | Some i =>
      h "div" [] [
        h "div" [cls "row"] [
          h "div" [cls "col-xs-12"] [
            h "h3" [] [txt "Overview"];
            h "hr" [cls "h3-hr"] [];
            renderOverview i;
            renderUtilization s]];
        renderPools i]
  end.

(** ** The event loop *)

(** [this.state.query] is [undefined], so polling depends on [ended], which
    nothing sets. *)
#[global] Instance poller : Poller State unit ServerInfo unit := {|
  on_start s := (s, tt);
  on_success _ i s := Ok (refresh_success i s);
  on_error _ s := Ok (refresh_error s);
  keep_polling s := negb (ended s);
  local_step _ _ := False
|}.

#[global] Instance poller_laws : PollerLaws poller.
Proof. by intros ? ? []. Qed.

Lemma never_ends t (m : machine State unit) : reach (mounted initial_state) t m -> ended (comp m) = false.
Proof.
  apply (reach_inv (fun s => ended s = false)); [done| |by intros ? ? _ []|done].
  intros c [a|x] s s' H [= <-]; exact H.
Qed.

(** ** Histories *)

Definition refreshes (infos : list ServerInfo) : State := fold_left (fun s i => refresh_success i s) infos initial_state.

Lemma refreshes_snoc infos i : refreshes (infos ++ [i]) = refresh_success i (refreshes infos).
Proof. unfold refreshes. by rewrite fold_left_app. Qed.

(** ** The two loops over the reservations *)

Lemma pool_reserved_fold (r : obj num) ks acc :
  forall k, dict_get k (fold_left (fun q k => dict_set k (num_of_undefined (dict_get k r), num_of_Z 0) q) ks acc)
    = if decide (k ∈ ks) then Some (num_of_undefined (dict_get k r), num_of_Z 0) else dict_get k acc.
Proof.
  revert acc. induction ks as [|k0 ks IH]; intros acc k; cbn.
  - by rewrite decide_False by set_solver.
  - rewrite IH, dict_get_set. repeat case_decide; subst; set_solver.
Qed.

Lemma add_revocable_get rv q k0 k :
  dict_get k (add_revocable rv q k0) =
  if decide (k = k0) then Some (from_option fst (num_of_Z 0) (dict_get k q), num_of_undefined (dict_get k rv))
  else dict_get k q.
Proof.
  unfold add_revocable. destruct (dict_get k0 q) as [[r v]|] eqn:E; rewrite dict_get_set;
    repeat case_decide; subst; try done; by rewrite E.
Qed.

Lemma add_revocable_fold rv ks acc k :
  NoDup ks ->
  dict_get k (fold_left (add_revocable rv) ks acc) =
  if decide (k ∈ ks) then Some (from_option fst (num_of_Z 0) (dict_get k acc), num_of_undefined (dict_get k rv))
  else dict_get k acc.
Proof.
  revert acc. induction ks as [|k0 ks IH]; intros acc HN; cbn.
  - by rewrite decide_False by set_solver.
  - apply NoDup_cons in HN as [Hk HN]. rewrite IH by done. rewrite add_revocable_get.
    repeat case_decide; subst; set_solver.
Qed.

(** A JSON object: each key once. *)
Definition json_object {V} (o : obj V) : Prop := NoDup (dict_keys o).

Lemma own_keys_has {V} (o : obj V) k : k ∈ own_keys o <-> is_Some (dict_get k o).
Proof. by rewrite own_keys_perm, elem_of_dict_keys. Qed.

Definition nonzero_default (x : option num) : num := default (num_of_Z 0) x.

(** ** Properties *)

(** the table of a pool merges the two maps of the pool: a query has a
    row exactly when it has a reservation or a revocable reservation, with
    both amounts, zero for the one it does not have. *)
Theorem pool_queries_merge (p : Pool) (query : string) :
  json_object (queryMemoryReservations p) -> json_object (queryMemoryRevocableReservations p) ->
  dict_get query (pool_queries p) =
  match dict_get query (queryMemoryReservations p), dict_get query (queryMemoryRevocableReservations p) with
  | None, None => None
  | r, v => Some (nonzero_default r, nonzero_default v)
  end.
Proof.
  intros H1 H2. unfold pool_queries, pool_reserved. rewrite add_revocable_fold.
  2:{ by rewrite own_keys_perm. }
  rewrite pool_reserved_fold.
  destruct (decide (query ∈ own_keys (queryMemoryRevocableReservations p))) as [D|D];
    rewrite own_keys_has in D; destruct (decide (query ∈ own_keys (queryMemoryReservations p))) as [D'|D'];
    rewrite own_keys_has in D';
    destruct (dict_get query (queryMemoryReservations p)), (dict_get query (queryMemoryRevocableReservations p));
    try (by exfalso; eauto using mk_is_Some); try (destruct D as [? ?]; done); try (destruct D' as [? ?]; done);
    done.
Qed.

(** after any number of refreshes the four histories of a worker are the windows of
    the last 301 values: CPU loads and heap as percentages; the non-heap
    memory too is multiplied by a hundred, although it is shown as a number of
    bytes. *)
Theorem worker_histories (infos : list ServerInfo) :
  let s := refreshes infos in
  processCpuLoad s = last_n WINDOW (map (fun i => sProcessCpuLoad i * num_of_Z 100)%js infos) /\
  systemCpuLoad s = last_n WINDOW (map (fun i => sSystemCpuLoad i * num_of_Z 100)%js infos) /\
  heapPercentUsed s = last_n WINDOW (map (fun i => (heapUsed i * num_of_Z 100) / heapAvailable i)%js infos) /\
  nonHeapUsed s = last_n WINDOW (map (fun i => sNonHeapUsed i * num_of_Z 100)%js infos) /\
  serverInfo s = last infos /\ ended s = false.
Proof.
  cbv zeta. induction infos as [|i infos (IH1 & IH2 & IH3 & IH4 & IH5 & IH6)] using rev_ind; [done|].
  rewrite refreshes_snoc. unfold refresh_success. cbn [processCpuLoad systemCpuLoad heapPercentUsed
    nonHeapUsed serverInfo ended]. split_and!.
  - by apply (addToHistory_snoc (fun i => sProcessCpuLoad i * num_of_Z 100)%js).
  - by apply (addToHistory_snoc (fun i => sSystemCpuLoad i * num_of_Z 100)%js).
  - by apply (addToHistory_snoc (fun i => (heapUsed i * num_of_Z 100) / heapAvailable i)%js).
  - by apply (addToHistory_snoc (fun i => sNonHeapUsed i * num_of_Z 100)%js).
  - by rewrite last_snoc.
  - done.
Qed.

(** ** Examples *)

Definition sample_pool : Pool := {|
  maxBytes := num_of_Z 1000; reservedBytes := num_of_Z 960; reservedRevocableBytes := num_of_Z 10;
  queryMemoryReservations := [("q1", num_of_Z 950); ("q2", num_of_Z 10)];
  queryMemoryRevocableReservations := [("q2", num_of_Z 5); ("q3", num_of_Z 5)] |}.

Lemma pool_queries_merge_witness :
  dict_get "q3" (pool_queries sample_pool) = Some (num_of_Z 0, num_of_Z 5).
Proof.
  refine (eq_trans (pool_queries_merge sample_pool "q3" _ _) _).
  - apply (bool_decide_unpack _). vm_compute. exact I.
  - apply (bool_decide_unpack _). vm_compute. exact I.
  - vm_compute. reflexivity.
Defined.

(** Because each part of the bar gets at least 15%, the free part of an
    almost full pool has a negative width. *)
Example pool_percentages_negative :
  pool_percentages sample_pool = (num_of_Z 95, num_of_Z 15, num_of_Z (-10)).
Proof. vm_compute. reflexivity. Qed.
End WorkerStatus.

