(* ===== verification/WorkerThreadList.v ===== *)
(** * components/WorkerThreadList.jsx: the thread snapshot of a worker

    The grouping of a snapshot by thread name ([processThreads]), the two
    filters of the page and its rendering. *)
From S2P Require Import Prelude JsString JsNumber JsNumberFacts JsRegExp JsArray JsObject Html UtilsText.
Local Open Scope Z_scope.

Module WorkerThreadList.

(** ** Data *)

Record StackLine := { file : string; line : num; className : string; method : string }.

Record Thread := {
  id : num;
  name : string;
  tstate : string;
  lockOwnerId : option num;
  stackTrace : list StackLine
}.

Definition ALL_THREADS : string := "All Threads".
Definition QUERY_THREADS : string := "Running Queries".
Definition ALL_THREAD_STATE : string := "ALL".
Definition THREAD_STATES : list string :=
  [ALL_THREAD_STATE; "RUNNABLE"; "BLOCKED"; "WAITING"; "TIMED_WAITING"; "NEW"; "TERMINATED"].

(** [([0-9])*] *)
Definition re_digit_star (n : nat) : re := RStar true (RGroup n (RChar is_digit)).

Definition QUERY_THREAD_REGEX : re :=
  rseq [re_digit_star 1; RLit "_"; re_digit_star 2; RLit "_"; re_digit_star 3; RLit "_";
        RStar false RDot; RLit "."; re_digit_star 4; RLit "."; re_digit_star 5; RLit "-";
        re_digit_star 6; RLit "-"; re_digit_star 7].

Definition re_suffix : re := RSeq (RLit "-") (RPlus (RChar is_digit)).
Definition THREAD_GROUP_REGEXP : re := RSeq (RGroup 1 (RStar false RDot)) re_suffix.

(** ** Grouping *)

(** [match ? match[1] : thread.name] *)
Definition threadGroup (name : string) : string :=
  match exec THREAD_GROUP_REGEXP name with
  | Some (_, y) => default "" (capture 1 (caps y))
  | None => name
  end.

Definition groups : Type := obj (list Thread).

(** [result[key].push(thread)] on a key that is not [ALL_THREADS]. *)
Definition push (key : string) (t : Thread) (g : groups) : result groups :=
  match dict_get key g with
  | Some l => Ok (dict_set key (l ++ [t]) g)
  | None => Throw TypeError
  end.

(** The body of the loop.  The array under [ALL_THREADS] is [threads]
    itself, so pushing to it makes the array the loop runs over longer; [g]
    holds the other keys.  A name inherited from [Object.prototype] counts as
    present, and the value found there has no [push]. *)
Definition process_thread (t : Thread) (threads : list Thread) (g : groups) : result (list Thread * groups) :=
  g ← (if test QUERY_THREAD_REGEX (name t) then push QUERY_THREADS t g else Ok g);
  let key := threadGroup (name t) in
  if String.eqb key ALL_THREADS then Ok (threads ++ [t], g)
  else
    g ← (if dict_has key g then Ok g
         else if inherited key then Throw TypeError
         else Ok (dict_set key [] g));
    g ← push key t g;
    Ok (threads, g).

(** The loop from index [i] on, for at most [fuel] iterations; [None] when
    they do not suffice. *)
Fixpoint process_loop (fuel i : nat) (threads : list Thread) (g : groups) : option (result groups) :=
  match threads !! i with
  | None => Some (Ok ((ALL_THREADS, threads) :: g))
  | Some t =>
      match fuel with
      | O => None
      | S fuel' =>
          match process_thread t threads g with
          | Ok (threads', g') => process_loop fuel' (S i) threads' g'
          | Throw e => Some (Throw e)
          end
      end
  end.

Definition processThreads (threads : list Thread) : option (result groups) :=
  process_loop (length threads) 0 threads [].

(** ** State and handlers *)

(** [serverInfo] and [ended] are set by the constructor and used nowhere. *)
Record State := {
  initialized : bool;
  threads : option groups;
  snapshotTime : option Z;
  selectedGroup : string;
  selectedThreadState : string
}.

Definition initial_state : State := {|
  initialized := false; threads := None; snapshotTime := None;
  selectedGroup := ALL_THREADS; selectedThreadState := ALL_THREAD_STATE |}.

(** The URL [captureSnapshot] asks. *)
Definition snapshot_url (search : string) : string :=
  "/v1/worker/" +:+ getFirstParameter search +:+ "/thread".

(** The success callback of [captureSnapshot], on processed threads. *)
Definition snapshot_success (now : Z) (g : groups) (s : State) : State := {|
  initialized := true; threads := Some g; snapshotTime := Some now;
  selectedGroup := selectedGroup s; selectedThreadState := selectedThreadState s |}.

Definition snapshot_error (s : State) : State := {|
  initialized := true; threads := threads s; snapshotTime := snapshotTime s;
  selectedGroup := selectedGroup s; selectedThreadState := selectedThreadState s |}.

Definition handleGroupClick (group : string) (s : State) : State := {|
  initialized := initialized s; threads := threads s; snapshotTime := snapshotTime s;
  selectedGroup := group; selectedThreadState := selectedThreadState s |}.

Definition handleThreadStateClick (st : string) (s : State) : State := {|
  initialized := initialized s; threads := threads s; snapshotTime := snapshotTime s;
  selectedGroup := selectedGroup s; selectedThreadState := st |}.

(** [handleNewSnapshotClick], which also sends a request. *)
Definition handleNewSnapshotClick (s : State) : State := {|
  initialized := false; threads := threads s; snapshotTime := snapshotTime s;
  selectedGroup := selectedGroup s; selectedThreadState := selectedThreadState s |}.

Inductive event :=
| GroupClick (group : string)
| ThreadStateClick (st : string)
| NewSnapshotClick.

Definition handle (e : event) (s : State) : State :=
  match e with
  | GroupClick g => handleGroupClick g s
  | ThreadStateClick st => handleThreadStateClick st s
  | NewSnapshotClick => handleNewSnapshotClick s
  end.

(** ** Rendering *)

Section view.
(** [date.toTimeString()], in the browser's time zone. *)
Context (toTimeString : Z -> string).

Definition state_filter (st : string) (t : Thread) : bool :=
  String.eqb (tstate t) st || String.eqb st ALL_THREAD_STATE.

Definition filterThreads (g : groups) (group st : string) : result (list Thread) :=
  match dict_get group g with
  | Some l => Ok (filterb (state_filter st) l)
  | None => Throw TypeError
  end.

Definition selected (b : bool) : string := if b then "selected" else "".

Definition renderGroupListItem (s : State) (g : groups) (group : string) : result (vnode event) :=
  ts ← filterThreads g group (selectedThreadState s);
  Ok (h "li" [] [
    h "a" [at_ "href" "#"; cls (selected (String.eqb (selectedGroup s) group)); onClick (GroupClick group)]
      [txt group; txt " ("; txtn (num_of_Z (alen ts)); txt ")"]]).

Definition renderThreadStateListItem (s : State) (g : groups) (st : string) : result (vnode event) :=
  ts ← filterThreads g (selectedGroup s) st;
  Ok (h "li" [] [
    h "a" [at_ "href" "#"; cls (selected (String.eqb (selectedThreadState s) st)); onClick (ThreadStateClick st)]
      [txt st; txt " ("; txtn (num_of_Z (alen ts)); txt ")"]]).

Definition renderStackLine {E} (l : StackLine) : vnode E :=
  h "div" [] [
    txt (nbsp +:+ nbsp +:+ "at ");
    txt (className l);
    txt ".";
    txt (method l);
    txt "(";
    h "span" [cls "font-light"] [txt (file l); txt ":"; txtn (line l)];
    txt ")"].

Definition renderThread {E} (t : Thread) : vnode E :=
  h "div" [] [
    h "span" [cls "font-white"] [
      txt (name t);
      txt " ";
      txt (tstate t);
      txt " #";
      txtn (id t);
      txt " ";
      match lockOwnerId t with Some n => txtn n | None => none end];
    h "a" [cls "copy-button";
        at_ "data-clipboard-target" ("#stack-trace-" +:+ num_to_string (id t));
        at_ "data-toggle" "tooltip"; at_ "data-placement" "right";
        at_ "title" "Copy to clipboard"] [
      h "span" [cls "glyphicon glyphicon-copy"; at_ "alt" "Copy to clipboard"] []];
    h "br" [] [];
    h "span" [cls "stack-traces"; at_ "id" ("stack-trace-" +:+ num_to_string (id t))] [
      frag (map renderStackLine (stackTrace t))];
    h "div" [] [txt nbsp]].

(** [this.state.snapshotTime.toTimeString()] *)
Definition snapshot_time (s : State) : result string :=
  match snapshotTime s with Some t => Ok (toTimeString t) | None => Throw TypeError end.

Definition renderToolbar (s : State) (g : groups) : result (vnode event) :=
  time ← snapshot_time s;
  groupItems ← mapM (renderGroupListItem s g) (own_keys g);
  stateItems ← mapM (renderThreadStateListItem s g) THREAD_STATES;
  Ok (
    h "div" [cls "col-xs-9"] [
      h "table" [cls "header-inline-links"] [
        h "tbody" [] [
          h "tr" [] [
            h "td" [] [h "small" [] [txt "Snapshot at "; txt time]; txt (nbsp +:+ nbsp)];
            h "td" [] [
              h "button" [cls "btn btn-info live-button"; onClick NewSnapshotClick] [txt "New Snapshot"];
              txt (nbsp +:+ nbsp +:+ " " +:+ nbsp +:+ nbsp)];
            h "td" [] [
              h "div" [cls "input-group-btn text-right"] [
                h "button" [at_ "type" "button";
                    cls "btn btn-default dropdown-toggle pull-right text-right";
                    at_ "data-toggle" "dropdown"; at_ "aria-haspopup" "true";
                    at_ "aria-expanded" "false"] [
                  h "strong" [] [txt "Group:"];
                  txt " ";
                  txt (selectedGroup s);
                  txt " ";
                  h "span" [cls "caret"] []];
                h "ul" [cls "dropdown-menu"] [frag groupItems]]];
            h "td" [] [
              h "div" [cls "input-group-btn text-right"] [
                h "button" [at_ "type" "button";
                    cls "btn btn-default dropdown-toggle pull-right text-right";
                    at_ "data-toggle" "dropdown"; at_ "aria-haspopup" "true";
                    at_ "aria-expanded" "false"] [
                  h "strong" [] [txt "State:"];
                  txt " ";
                  txt (selectedThreadState s);
                  txt " ";
                  h "span" [cls "caret"] []];
                h "ul" [cls "dropdown-menu"] [frag stateItems]]]]]]]).

Definition renderThreads (s : State) (filteredThreads : list Thread) : vnode event :=
  let displayedThreads :=
    if (alen filteredThreads =? 0) && String.eqb (selectedThreadState s) ALL_THREAD_STATE then
      h "div" [cls "row error-message"] [
        h "div" [cls "col-xs-12"] [
          h "h4" [] [txt "No threads in group '"; txt (selectedGroup s); txt "'"]]]
    else if (alen filteredThreads =? 0) && String.eqb (selectedGroup s) ALL_THREADS then
      h "div" [cls "row error-message"] [
        h "div" [cls "col-xs-12"] [h "h4" [] [txt "No threads with state "; txt (selectedThreadState s)]]]
    else if alen filteredThreads =? 0 then
      h "div" [cls "row error-message"] [
        h "div" [cls "col-xs-12"] [
          h "h4" [] [
            txt "No threads in group '";
            txt (selectedGroup s);
            txt "' with state ";
            txt (selectedThreadState s)]]]
    else
      h "pre" [] [frag (map renderThread filteredThreads)]
  in
  h "div" [at_ "id" "stack-traces"] [displayedThreads].

Definition renderPage (toolbar display : vnode event) : vnode event :=
  h "div" [] [
    h "div" [cls "row"] [
      h "div" [cls "col-xs-3"] [
        h "h3" [] [
          txt "Thread Snapshot";
          h "a" [cls "btn copy-button"; at_ "data-clipboard-target" "#stack-traces";
              at_ "data-toggle" "tooltip"; at_ "data-placement" "right";
              at_ "title" "Copy to clipboard"] [
            h "span" [cls "glyphicon glyphicon-copy"; at_ "alt" "Copy to clipboard"] []];
          txt nbsp]];
      toolbar];
    h "div" [cls "row"] [h "div" [cls "col-xs-12"] [h "hr" [cls "h3-hr"] []; display]]].

Definition render (s : State) : result (vnode event) :=
  match threads s with
  | None =>
      let display :=
        if negb (initialized s) then
          h "div" [cls "row error-message"] [
            h "div" [cls "col-xs-12"] [
              h "button" [cls "btn btn-info live-button"; onClick NewSnapshotClick] [
                txt "Capture Snapshot"]]]
        else
          h "div" [cls "row error-message"] [
            h "div" [cls "col-xs-12"] [h "h4" [] [txt "Thread snapshot could not be loaded"]]]
      in
      Ok (renderPage none display)
  | Some g =>
      toolbar ← renderToolbar s g;
      filteredThreads ← filterThreads g (selectedGroup s) (selectedThreadState s);
      Ok (renderPage toolbar (renderThreads s filteredThreads))
  end.
End view.

End WorkerThreadList.
