(* ===== verification/WorkerThreadFacts.v ===== *)
(** * Properties of the thread snapshot

    What [THREAD_GROUP_REGEXP] selects, what [processThreads] computes on
    plain snapshots and where it fails, and when the page renders. *)
From S2P Require Import Prelude JsString JsNumber JsNumberFacts JsRegExp JsArray JsObject Html.
From S2P Require Import WorkerThreadList.
Import WorkerThreadList.
Local Open Scope Z_scope.

(** ** The group of a thread name *)

Definition head_digit (s : string) : bool :=
  match s with String c _ => is_digit c | "" => false end.

(** [s] starts with a dash and a digit. *)
Definition starts_suffix (s : string) : bool :=
  match s with String c s' => Ascii.eqb "-" c && head_digit s' | "" => false end.

(** The text before the first dash that a digit follows. *)
Fixpoint before_suffix (s : string) : option string :=
  if starts_suffix s then Some ""
  else match s with
       | "" => None
       | String c s' => String c <$> before_suffix s'
       end.

Lemma before_suffix_None a s : before_suffix (a +:+ s) = None -> starts_suffix s = false.
Proof.
  induction a as [|c a IH]; cbn [String.append before_suffix].
  - destruct s; cbn [before_suffix]; by case_if.
  - case_if; [done|]. destruct (before_suffix (a +:+ s)); [done|]. intros _. by apply IH.
Qed.

Lemma steps_suffix_inv x y :
  steps re_suffix x y -> starts_suffix (rest x) = true /\ caps y = caps x.
Proof.
  intros (z & H1 & H2)%steps_seq_inv. apply steps_char_inv in H1 as (c & Hc & [R1 _] & C1).
  apply steps_plus_char_inv in H2 as (t & Ht & Hne & [R2 _] & C2).
  destruct t as [|d t]; [done|]. cbn in Ht. apply andb_prop in Ht as [Hd _].
  rewrite C2, C1, R1, R2. cbn [String.append starts_suffix head_digit]. by rewrite Hc, Hd.
Qed.

(** The suffix pattern accepts exactly what starts with a dash and a digit,
    and leaves the captures alone. *)
Lemma suffix_match i s cs :
  match rmatch re_suffix Some (RState i s cs) with
  | Some y => starts_suffix s = true /\ caps y = cs
  | None => starts_suffix s = false
  end.
Proof.
  destruct (rmatch re_suffix Some (RState i s cs)) as [y|] eqn:E.
  - apply rmatch_sound in E as (z & Hz & [= ->]). by apply steps_suffix_inv in Hz.
  - destruct (starts_suffix s) eqn:Es; [|done]. exfalso.
    destruct s as [|c [|d s]]; cbn [starts_suffix head_digit] in Es; [done|by rewrite andb_false_r in Es|].
    apply andb_prop in Es as [Hc Hd].
    assert (steps re_suffix (RState i (String c (String d s)) cs) (RState (S i + 1) s cs)) as Hs.
    { apply (steps_seq _ _ _ (RState (S i) (String d s) cs)).
      - by constructor.
      - apply (steps_plus_char is_digit (S i) (String d "") s cs); [|done]. cbn. by rewrite Hd. }
    pose proof (rmatch_complete _ Some _ _ Hs ltac:(eauto)) as [y Hy]. congruence.
Qed.

(** What follows the group, in the continuation of the lazy repetition that
    started at [x]. *)
Definition group_tail (x y : rstate) : option rstate :=
  rmatch re_suffix Some (RState (pos y) (rest y) ((1%nat, consumed x y) :: caps y)).

(** The lazy repetition stops at the first suffix. *)
Lemma lazy_group a s :
  sforall (fun c => negb (is_line_terminator c)) s = true ->
  let x := RState 0 (a +:+ s) [] in
  match star_loop false (rmatch RDot) (group_tail x) (String.length s) (RState (String.length a) s []) with
  | Some y => exists b, before_suffix s = Some b /\ capture 1 (caps y) = Some (a +:+ b)
  | None => before_suffix s = None
  end.
Proof.
  cbv zeta. revert a. induction s as [|c s IH]; intros a Hs; cbn [String.length star_loop].
  - unfold group_tail. cbn [pos rest caps].
    match goal with |- context [rmatch re_suffix Some (RState ?i "" ?cs)] =>
      pose proof (suffix_match i "" cs) as H; destruct (rmatch re_suffix Some (RState i "" cs)) end;
      [by destruct H|done].
  - cbn in Hs. apply andb_prop in Hs as [Hc Hs].
    assert (consumed (RState 0 (a +:+ String c s) []) (RState (String.length a) (String c s) []) = a) as Ec.
    { unfold consumed. cbn [pos rest]. rewrite stake_app; [done|]. lia. }
    assert (H := suffix_match (String.length a) (String c s) [(1%nat, a)]).
    unfold group_tail at 1. cbn [pos rest caps]. rewrite Ec.
    destruct (rmatch re_suffix Some _) as [y|].
    + destruct H as [H1 H2]. exists "". cbn [before_suffix]. rewrite H1, H2. cbn. by rewrite sapp_nil_r.
    + cbn [before_suffix]. rewrite H. cbn [rmatch RDot rest pos caps]. rewrite Hc.
      replace (Nat.eqb (S (String.length a)) (String.length a)) with false
        by (symmetry; apply Nat.eqb_neq; lia).
      specialize (IH (a +:+ String c "") Hs).
      rewrite sapp_assoc, sapp_length in IH. cbn [String.append String.length] in IH.
      replace (String.length a + 1)%nat with (S (String.length a)) in IH by lia.
      destruct (star_loop _ _ _ _ _) as [y|].
      * destruct IH as (b & -> & E). exists (String c b). split; [done|].
        rewrite E. f_equal. by rewrite sapp_assoc.
      * by rewrite IH.
Qed.

(** Without a suffix there is no match at any position. *)
Lemma no_suffix_no_match i s :
  before_suffix s = None -> exec_from THREAD_GROUP_REGEXP i s = None.
Proof.
  assert (forall j t, before_suffix t = None ->
    rmatch THREAD_GROUP_REGEXP Some (RState j t []) = None) as H.
  { intros j t Ht. destruct (rmatch THREAD_GROUP_REGEXP Some (RState j t [])) as [y|] eqn:E; [|done].
    exfalso. apply rmatch_sound in E as (z & (u & Hu & Hv)%steps_seq_inv & _).
    apply steps_reads in Hu as [a [Ha _]]. cbn in Ha. apply steps_suffix_inv in Hv as [Hv _].
    subst t. apply before_suffix_None in Ht. congruence. }
  revert i. induction s as [|c s IH]; intros i Hs; cbn [exec_from]; rewrite (H _ _ Hs); [done|].
  apply IH. cbn [before_suffix] in Hs. destruct (starts_suffix (String c s)); [done|].
  by destruct (before_suffix s).
Qed.

(** the group of a thread is its name up to the first dash followed by
    a digit, and the whole name when there is no such dash (names have no
    line breaks). *)
Theorem threadGroup_spec (name : string) :
  sforall (fun c => negb (is_line_terminator c)) name = true ->
  threadGroup name = default name (before_suffix name).
Proof.
  intros Hs. unfold threadGroup. destruct (before_suffix name) as [b|] eqn:Eb.
  - pose proof (lazy_group "" name Hs) as H. cbv zeta in H. cbn [String.append String.length] in H.
    unfold exec. destruct name as [|c name]; [done|]. cbn [exec_from].
    assert (rmatch THREAD_GROUP_REGEXP Some (RState 0 (String c name) []) =
      star_loop false (rmatch RDot) (group_tail (RState 0 (String c name) []))
        (String.length (String c name)) (RState 0 (String c name) [])) as -> by done.
    destruct (star_loop _ _ _ _ _) as [y|]; [|congruence].
    destruct H as (b' & E1 & E2). rewrite E2. cbn. congruence.
  - unfold exec. by rewrite no_suffix_no_match.
Qed.

Lemma threadGroup_spec_witness : threadGroup "http-worker-17-acceptor-0" = "http-worker".
Proof. refine (eq_trans (threadGroup_spec "http-worker-17-acceptor-0" _) _); vm_compute; reflexivity. Defined.

(** ** Grouping *)

(** A thread the loop handles without a special case: it is not a query
    thread, and its group is neither [ALL_THREADS] nor inherited. *)
Definition plain (t : Thread) : bool :=
  negb (test QUERY_THREAD_REGEX (name t)) && negb (inherited (threadGroup (name t)))
  && negb (String.eqb (threadGroup (name t)) ALL_THREADS).

Definition in_group (key : string) (t : Thread) : bool := String.eqb (threadGroup (name t)) key.

(** The groups hold, under each key, the threads of [ts] in that group. *)
Definition grouped (ts : list Thread) (g : groups) : Prop :=
  forall key, dict_get key g =
    match filterb (in_group key) ts with [] => None | l => Some l end.

Lemma push_set key t l g : dict_get key g = Some l -> push key t g = Ok (dict_set key (l ++ [t]) g).
Proof. unfold push. by intros ->. Qed.

Lemma dict_set_set {V} k (v w : V) (o : obj V) : dict_set k w (dict_set k v o) = dict_set k w o.
Proof.
  induction o as [|[k' x] o IH]; cbn; [by rewrite decide_True|].
  repeat (case_decide; cbn); try done. by rewrite IH.
Qed.

Lemma process_plain t threads ts g :
  plain t = true -> grouped ts g ->
  exists g', process_thread t threads g = Ok (threads, g') /\ grouped (ts ++ [t]) g'.
Proof.
  unfold plain, process_thread. intros Hp Hg. bool_hyps.
  set (key := threadGroup (name t)) in *.
  destruct (test QUERY_THREAD_REGEX (name t)); [done|]. cbn [mbind result_bind].
  destruct (String.eqb key ALL_THREADS); [done|].
  exists (dict_set key (default [] (dict_get key g) ++ [t]) g). split.
  - unfold dict_has. destruct (dict_get key g) as [l|] eqn:E.
    + rewrite bool_decide_true by eauto. cbn [mbind result_bind].
      by rewrite (push_set key t l g E).
    + rewrite bool_decide_false by (by intros [? ?]). destruct (inherited key); [done|].
      cbn [mbind result_bind]. rewrite (push_set key t [] (dict_set key [] g)) by apply dict_get_set_eq.
      cbn [mbind result_bind default]. by rewrite dict_set_set.
  - intros k. rewrite dict_get_set, filterb_app. cbn [filterb]. unfold in_group at 2. fold key.
    destruct (String.eqb_spec key k) as [<-|Hk].
    + rewrite decide_True, Hg by done. by destruct (filterb (in_group key) ts).
    + rewrite decide_False by done. rewrite app_nil_r. apply Hg.
Qed.

Lemma process_loop_plain fuel : forall i ts g,
  length ts = (i + fuel)%nat -> forallb plain (drop i ts) = true -> grouped (take i ts) g ->
  exists g', process_loop fuel i ts g = Some (Ok ((ALL_THREADS, ts) :: g')) /\ grouped ts g'.
Proof.
  induction fuel as [|fuel IH]; intros i ts g Hl Hp Hg.
  - exists g. assert (ts !! i = None) as E by (apply lookup_ge_None; lia).
    cbn. rewrite E. split; [done|]. by rewrite take_ge in Hg by lia.
  - destruct (lookup_lt_is_Some_2 ts i) as [t Et]; [lia|]. cbn [process_loop]. rewrite Et.
    rewrite (drop_S _ _ _ Et) in Hp. cbn in Hp. apply andb_prop in Hp as [Hp1 Hp2].
    destruct (process_plain t ts (take i ts) g Hp1 Hg) as (g' & -> & Hg').
    apply IH; [lia|done|]. by rewrite (take_S_r _ _ _ Et).
Qed.

(** C15: on a snapshot of plain threads, which run no query, are not in the
    group of all threads and whose groups are no members of
    [Object.prototype], the grouping loop ends, keeps the whole snapshot under "All Threads", and puts under every other name
    exactly the threads of that group, in their order; a group without threads
    has no entry. *)
Theorem process_threads_groups (ts : list Thread) :
  forallb plain ts = true ->
  exists r, processThreads ts = Some (Ok r) /\ dict_get ALL_THREADS r = Some ts /\
    forall key, key <> ALL_THREADS ->
      dict_get key r = match filterb (in_group key) ts with [] => None | l => Some l end.
Proof.
  intros Hp. destruct (process_loop_plain (length ts) 0 ts []) as (g & E & Hg); [done|done|done|].
  exists ((ALL_THREADS, ts) :: g). split; [done|]. split.
  - cbn [dict_get]. by rewrite decide_True.
  - intros key Hk. cbn [dict_get]. rewrite decide_False by done. apply Hg.
Qed.

(** The loop over plain threads that are all before index [j]. *)
Lemma process_loop_prefix n : forall fuel i ts g,
  (i + n <= length ts)%nat -> (n <= fuel)%nat ->
  forallb plain (take n (drop i ts)) = true -> grouped (take i ts) g ->
  exists g', process_loop fuel i ts g = process_loop (fuel - n) (i + n) ts g' /\ grouped (take (i + n) ts) g'.
Proof.
  induction n as [|n IH]; intros fuel i ts g Hl Hf Hp Hg.
  - exists g. by rewrite Nat.sub_0_r, Nat.add_0_r.
  - destruct fuel as [|fuel]; [lia|]. destruct (lookup_lt_is_Some_2 ts i) as [t Et]; [lia|].
    rewrite (drop_S _ _ _ Et) in Hp. cbn in Hp. apply andb_prop in Hp as [Hp1 Hp2].
    destruct (process_plain t ts (take i ts) g Hp1 Hg) as (g' & E & Hg').
    destruct (IH fuel (S i) ts g') as (g'' & E' & Hg''); [lia|lia|done|by rewrite (take_S_r _ _ _ Et)|].
    exists g''. cbn [process_loop]. rewrite Et, E, E'.
    replace (S i + n)%nat with (i + S n)%nat in * by lia. done.
Qed.

Lemma process_threads_prefix a t b :
  forallb plain a = true ->
  exists g, processThreads (a ++ t :: b) = process_loop (S (length b)) (length a) (a ++ t :: b) g /\ grouped a g.
Proof.
  intros Ha. unfold processThreads.
  destruct (process_loop_prefix (length a) (length (a ++ t :: b)) 0 (a ++ t :: b) []) as (g & E & Hg);
    [rewrite length_app; lia|rewrite length_app; lia|by rewrite drop_0, take_app_length|done|].
  exists g. rewrite E. cbn [Nat.add] in *. rewrite take_app_length in Hg. split; [|done].
  f_equal. rewrite length_app. cbn. lia.
Qed.

(** the thread of a running query makes [processThreads] throw: the entry
    for "Running Queries" is never created, so pushing to it fails, the
    callback ends there and the snapshot is not shown. *)
Theorem query_thread_throws (a b : list Thread) (t : Thread) :
  forallb plain a = true -> test QUERY_THREAD_REGEX (name t) = true ->
  filterb (in_group QUERY_THREADS) a = [] ->
  processThreads (a ++ t :: b) = Some (Throw TypeError).
Proof.
  intros Ha Ht Hq. destruct (process_threads_prefix a t b Ha) as (g & -> & Hg). cbn [process_loop].
  rewrite lookup_app_r, Nat.sub_diag by lia. cbn [lookup list_lookup].
  unfold process_thread. rewrite Ht. unfold push. by rewrite Hg, Hq.
Qed.

(** A thread whose group is "All Threads", among plain ones. *)
Definition all_group (t : Thread) : bool :=
  negb (test QUERY_THREAD_REGEX (name t)) && String.eqb (threadGroup (name t)) ALL_THREADS.

Lemma all_group_not_plain t : all_group t = true -> plain t = false.
Proof. unfold all_group, plain. intros H. bool_hyps. rewrite H0. by rewrite andb_false_r. Qed.

Lemma process_loop_diverges fuel : forall i ts g j t,
  (i <= j)%nat -> ts !! j = Some t -> all_group t = true ->
  forallb (fun t => plain t || all_group t) ts = true -> grouped (filterb plain (take i ts)) g ->
  process_loop fuel i ts g = None.
Proof.
  induction fuel as [|fuel IH]; intros i ts g j t Hi Hj Ht Hp Hg;
    pose proof (lookup_lt_Some _ _ _ Hj);
    (destruct (lookup_lt_is_Some_2 ts i) as [u Eu]; [lia|]); cbn [process_loop]; rewrite Eu; [done|].
  assert (plain u || all_group u = true) as Hu.
  { rewrite forallb_forall in Hp. apply Hp, list_elem_of_In. by eapply list_elem_of_lookup_2. }
  destruct (plain u) eqn:Pu.
  - destruct (process_plain u ts _ g Pu Hg) as (g' & -> & Hg').
    apply (IH _ _ _ j t); [|done..|].
    + enough (i <> j) by lia. intros ->. simplify_eq. apply all_group_not_plain in Ht. congruence.
    + rewrite (take_S_r _ _ _ Eu), filterb_app. cbn. by rewrite Pu.
  - cbn in Hu. unfold process_thread. pose proof Hu as Hu'. unfold all_group in Hu'. bool_hyps.
    rewrite H0. cbn [mbind result_bind]. rewrite H1.
    apply (IH _ _ _ (length ts) u); [lia| |done| |].
    + by rewrite lookup_app_r, Nat.sub_diag by lia.
    + rewrite forallb_app, Hp. cbn. by rewrite Hu, orb_true_r.
    + rewrite take_app_le by lia. rewrite (take_S_r _ _ _ Eu), filterb_app. cbn. rewrite Pu.
      by rewrite app_nil_r.
Qed.

(** a snapshot with a thread whose group is named like the entry of all
    threads makes the grouping loop run for ever: each iteration on such a
    thread appends it to the array the loop runs over. *)
Theorem all_threads_diverges (ts : list Thread) (fuel : nat) :
  forallb (fun t => plain t || all_group t) ts = true -> existsb all_group ts = true ->
  process_loop fuel 0 ts [] = None.
Proof.
  intros Hp (t & Hin & Ht)%existsb_exists. apply list_elem_of_In, list_elem_of_lookup_1 in Hin as [j Hj].
  apply (process_loop_diverges fuel 0 ts [] j t); [lia|done..].
Qed.

(** ** The page *)

Lemma filterThreads_ok g group st :
  dict_has group g = true -> exists l, filterThreads g group st = Ok l.
Proof.
  unfold filterThreads, dict_has. intros [l ->]%bool_decide_eq_true. eauto.
Qed.

Lemma renderGroupListItem_ok s g group v :
  renderGroupListItem s g group = Ok v -> clicks v = [GroupClick group].
Proof. unfold renderGroupListItem. destruct (filterThreads _ _ _); [|done]. by intros [= <-]. Qed.

Lemma renderThreadStateListItem_ok s g st v :
  renderThreadStateListItem s g st = Ok v -> clicks v = [ThreadStateClick st].
Proof. unfold renderThreadStateListItem. destruct (filterThreads _ _ _); [|done]. by intros [= <-]. Qed.

Lemma flat_map_clicks {A E} (f : A -> result (vnode E)) (e : A -> E) l vs :
  (forall x v, f x = Ok v -> clicks v = [e x]) -> mapM f l = Ok vs -> flat_map clicks vs = map e l.
Proof.
  intros H. rewrite mapM_Forall2. induction 1 as [|x v l vs Hx _ IH]; cbn; [done|].
  by rewrite (H _ _ Hx), IH.
Qed.

Lemma flat_map_clicks_nil {A E} (f : A -> vnode E) l :
  (forall x, clicks (f x) = []) -> flat_map clicks (map f l) = [].
Proof. intros H. induction l as [|x l IH]; cbn; [done|]. by rewrite H, IH. Qed.

Lemma renderThread_clicks {E} t : clicks (renderThread (E := E) t) = [].
Proof.
  cbn -[num_to_string]. rewrite flat_map_clicks_nil by done. by destruct (lockOwnerId t).
Qed.

Lemma renderThreads_clicks s l : clicks (renderThreads s l) = [].
Proof.
  unfold renderThreads. repeat case_if; try done. cbn.
  by rewrite flat_map_clicks_nil by apply renderThread_clicks.
Qed.

Lemma render_snapshot tz s g :
  threads s = Some g -> dict_has (selectedGroup s) g = true -> is_Some (snapshotTime s) ->
  exists v, render tz s = Ok v /\
    clicks v = NewSnapshotClick :: map GroupClick (own_keys g) ++ map ThreadStateClick THREAD_STATES.
Proof.
  intros Hg Hs [t Ht]. unfold render, renderToolbar, snapshot_time. rewrite Hg, Ht.
  cbn [mbind result_bind].
  destruct (mapM_Ok (renderGroupListItem s g) (own_keys g)) as [gs Egs].
  { intros k Hk. unfold renderGroupListItem.
    destruct (filterThreads_ok g k (selectedThreadState s)) as [l ->]; [|cbn; eauto].
    unfold dict_has. rewrite own_keys_perm, elem_of_dict_keys in Hk. by apply bool_decide_eq_true. }
  destruct (mapM_Ok (renderThreadStateListItem s g) THREAD_STATES) as [sts Ests].
  { intros st _. unfold renderThreadStateListItem.
    destruct (filterThreads_ok g (selectedGroup s) st Hs) as [l ->]. cbn. eauto. }
  destruct (filterThreads_ok g (selectedGroup s) (selectedThreadState s) Hs) as [l El].
  rewrite Egs, Ests, El. cbn [mbind result_bind]. eexists. split; [done|].
  cbn -[renderThreads]. rewrite renderThreads_clicks.
  rewrite (flat_map_clicks _ GroupClick _ _ (renderGroupListItem_ok s g) Egs).
  rewrite (flat_map_clicks _ ThreadStateClick _ _ (renderThreadStateListItem_ok s g) Ests).
  rewrite !app_nil_r. done.
Qed.

Lemma render_missing_group tz s g :
  threads s = Some g -> dict_has (selectedGroup s) g = false -> render tz s = Throw TypeError.
Proof.
  intros Hg Hs. unfold render. rewrite Hg. unfold renderToolbar, snapshot_time.
  destruct (snapshotTime s); cbn [mbind result_bind]; [|done].
  destruct (mapM_Ok (renderGroupListItem s g) (own_keys g)) as [gs ->].
  { intros k Hk. unfold renderGroupListItem.
    destruct (filterThreads_ok g k (selectedThreadState s)) as [l ->]; [|cbn; eauto].
    unfold dict_has. rewrite own_keys_perm, elem_of_dict_keys in Hk. by apply bool_decide_eq_true. }
  cbn [mbind result_bind THREAD_STATES mapM]. unfold renderThreadStateListItem, filterThreads.
  apply bool_decide_eq_false, eq_None_not_Some in Hs. by rewrite Hs.
Qed.

(** the thread page renders exactly while the selected group is one of
    the groups of the snapshot; then its controls are one entry per group and
    per thread state and the snapshot button, and every click leads to a state
    in which the page renders again. *)
Theorem thread_page (tz : Z -> string) (s : State) (g : groups) :
  threads s = Some g -> is_Some (snapshotTime s) ->
  (dict_has (selectedGroup s) g = true ->
   exists v, render tz s = Ok v /\
     clicks v = NewSnapshotClick :: map GroupClick (own_keys g) ++ map ThreadStateClick THREAD_STATES /\
     forall e, e ∈ clicks v -> exists v', render tz (handle e s) = Ok v') /\
  (dict_has (selectedGroup s) g = false -> render tz s = Throw TypeError).
Proof.
  intros Hg Ht. split; [|by apply render_missing_group].
  intros Hs. destruct (render_snapshot tz s g Hg Hs Ht) as (v & E & Ec). exists v. split_and!; [done..|].
  rewrite Ec. intros e He.
  assert (dict_has (selectedGroup (handle e s)) g = true) as Hs'.
  { apply elem_of_cons in He as [->|He]; [done|]. apply elem_of_app in He as [He|He];
      apply list_elem_of_In, in_map_iff in He as (x & <- & Hx); [|done]. cbn.
    apply list_elem_of_In in Hx. unfold dict_has.
    rewrite own_keys_perm, elem_of_dict_keys in Hx. by apply bool_decide_eq_true. }
  destruct (render_snapshot tz (handle e s) g) as (v' & E' & _); [by destruct e|done|by destruct e|eauto].
Qed.

(** a new snapshot without the selected group breaks the page: the state
    it leads to cannot be rendered. *)
Theorem snapshot_breaks_page (tz : Z -> string) (now : Z) (g : groups) (s : State) :
  dict_has (selectedGroup s) g = false -> render tz (snapshot_success now g s) = Throw TypeError.
Proof. intros H. by apply (render_missing_group _ _ g). Qed.

(** ** Examples *)

Definition thread (n : Z) (nm st : string) : Thread :=
  {| id := num_of_Z n; name := nm; tstate := st; lockOwnerId := None;
     stackTrace := [{| file := "Thread.java"; line := num_of_Z 748; className := "java.lang.Thread"; method := "run" |}] |}.

Definition sample_threads : list Thread :=
  [thread 1 "main" "RUNNABLE"; thread 2 "http-worker-1" "WAITING"; thread 3 "http-worker-2" "RUNNABLE"].

Definition query_thread : Thread := thread 4 "SplitRunner-20190701_000000_00001_abcde.1.0-0-59" "RUNNABLE".

Lemma process_threads_groups_witness :
  exists r, processThreads sample_threads = Some (Ok r) /\ dict_get ALL_THREADS r = Some sample_threads /\
    dict_get "http-worker" r = Some [thread 2 "http-worker-1" "WAITING"; thread 3 "http-worker-2" "RUNNABLE"].
Proof.
  destruct (process_threads_groups sample_threads) as (r & H1 & H2 & H3).
  - vm_compute. reflexivity.
  - exists r. split; [exact H1|]. split; [exact H2|].
    refine (eq_trans (H3 "http-worker" _) _); [discriminate|]. vm_compute. reflexivity.
Defined.

Lemma query_thread_throws_witness :
  processThreads (sample_threads ++ query_thread :: []) = Some (Throw TypeError).
Proof. apply (query_thread_throws sample_threads [] query_thread); vm_compute; reflexivity. Defined.

Lemma all_threads_diverges_witness :
  process_loop 1000 0 (sample_threads ++ [thread 5 "All Threads-7" "NEW"]) [] = None.
Proof.
  apply (all_threads_diverges (sample_threads ++ [thread 5 "All Threads-7" "NEW"]) 1000); vm_compute; reflexivity.
Defined.

Definition sample_groups : groups := [(ALL_THREADS, sample_threads); ("main", [thread 1 "main" "RUNNABLE"])].

Lemma thread_page_witness :
  exists v, render (fun _ => "10:00:00") (snapshot_success 0 sample_groups initial_state) = Ok v.
Proof.
  destruct (thread_page (fun _ => "10:00:00") (snapshot_success 0 sample_groups initial_state) sample_groups)
    as [H _].
  - reflexivity.
  - exists 0. reflexivity.
  - destruct H as (v & H & _); [vm_compute; reflexivity|]. exists v. exact H.
Defined.

Lemma snapshot_breaks_page_witness :
  render (fun _ => "10:00:00") (snapshot_success 1 sample_groups (handleGroupClick "http-worker" initial_state))
  = Throw TypeError.
Proof. apply (snapshot_breaks_page (fun _ => "10:00:00") 1 sample_groups). vm_compute. reflexivity. Defined.
