(* ===== verification/QueryInfo.v ===== *)
(** * The query info of the detail pages

    What [/v1/query/<id>] answers, as far as the live plan, the stage page and
    the query page read it: the tree of stages with their plans, statistics
    and tasks.  A property that may be missing is an [option]; reading through
    a missing one throws. *)
From S2P Require Import Prelude JsString JsNumber JsObject UtilsQuery.
Local Open Scope Z_scope.

(** [x.y] for a property [x] that may be missing. *)
Definition require {A} (x : option A) : result A :=
  match x with Some a => Ok a | None => Throw TypeError end.

(** ** Operators and tasks *)

Record Operator := {
  pipelineId : Z;
  operatorId : Z;
  planNodeId : string;
  operatorType : string;
  addInputWall : string;
  getOutputWall : string;
  finishWall : string;
  blockedWall : string;
  inputPositions : num;
  inputDataSize : string;
  outputPositions : num;
  outputDataSize : string;
  opTotalDrivers : num
}.

Record Pipeline := { pPipelineId : Z; operatorSummaries : list Operator }.

Record TaskStatus := { taskId : string; self : string; nodeId : string; taskState : string }.

Record TaskStats := {
  tElapsedTime : string;
  tCreateTime : string;
  tTotalScheduledTime : string;
  tTotalCpuTime : string;
  tFullyBlocked : bool;
  tRawInputPositions : num;
  tRawInputDataSize : string;
  tQueuedDrivers : num;
  tRunningDrivers : num;
  tBlockedDrivers : num;
  tCompletedDrivers : num;
  pipelines : list Pipeline
}.

(** [totalBufferedBytes] is the field of [outputBuffers] that is read. *)
Record Task := { taskStatus : TaskStatus; stats : TaskStats; totalBufferedBytes : num }.

(** ** Plans *)

(** A plan node as the stage page reads it: its '@type', its id, the
    properties that hold one child each ([source], [left], ...), and [sources]. *)
Inductive PlanNode :=
| Node (type id : string) (fields : list (string * PlanNode)) (sources : option (list PlanNode)).

Definition ptype (n : PlanNode) : string := let '(Node t _ _ _) := n in t.
Definition pid (n : PlanNode) : string := let '(Node _ i _ _) := n in i.
Definition pfields (n : PlanNode) : list (string * PlanNode) := let '(Node _ _ f _) := n in f.
Definition psources (n : PlanNode) : option (list PlanNode) := let '(Node _ _ _ s) := n in s.

Record Plan := {
  planId : string;
  root : PlanNode;
  distribution : string;
  jsonRepresentation : string
}.

(** ** Stages *)

Record StageInfoStats := {
  sTotalScheduledTime : string;
  sTotalCpuTime : string;
  sTotalBlockedTime : string;
  sFullyBlocked : bool;
  sCumulativeUserMemory : num;
  sUserMemoryReservation : string;
  sPeakUserMemoryReservation : string;
  bufferedDataSize : string;
  sQueuedDrivers : num;
  sRunningDrivers : num;
  sCompletedDrivers : num;
  sRawInputDataSize : string;
  sRawInputPositions : num;
  sOutputDataSize : string;
  sOutputPositions : num;
  stageOperators : list Operator
}.

Inductive Stage :=
| mkStage (stageId state : string) (plan : option Plan) (stageStats : option StageInfoStats)
    (tasks : option (list Task)) (subStages : option (list Stage)).

Definition stageId (s : Stage) : string := let '(mkStage i _ _ _ _ _) := s in i.
Definition stageState (s : Stage) : string := let '(mkStage _ st _ _ _ _) := s in st.
Definition plan (s : Stage) : option Plan := let '(mkStage _ _ p _ _ _) := s in p.
Definition stageStats (s : Stage) : option StageInfoStats := let '(mkStage _ _ _ st _ _) := s in st.
Definition tasks (s : Stage) : option (list Task) := let '(mkStage _ _ _ _ t _) := s in t.
Definition subStages (s : Stage) : option (list Stage) := let '(mkStage _ _ _ _ _ l) := s in l.

(** Every stage of the tree, the stage itself first. *)
Fixpoint all_stages (s : Stage) : list Stage :=
  let '(mkStage _ _ _ _ _ subs) := s in
  s :: match subs with Some l => flat_map all_stages l | None => [] end.

(** [getStageStateColor(stage)]: statistics that are missing count as not
    blocked. *)
Definition stageColor (state : string) (st : option StageInfoStats) : string :=
  getStageStateColor state
    {| stageFullyBlocked := match st with Some st => sFullyBlocked st | None => false end |}.

(** ** Failures *)

(** A property that may be [null] or missing altogether, which the code tells
    apart. *)
Inductive field (A : Type) := Missing | Null | Value (a : A).
Arguments Missing {A}.
Arguments Null {A}.
Arguments Value {A} a.

Inductive Failure :=
| mkFailure (ftype : string) (message : field string) (stack : field (list string))
    (suppressed : option (list Failure)) (cause : option Failure).

(** ** The query *)

Record InfoStats := {
  endTime : option string;
  queuedTime : string;
  totalScheduledTime : string;
  totalBlockedTime : string;
  processedInputPositions : num;
  processedInputDataSize : string;
  rawInputPositions : num;
  rawInputDataSize : string;
  peakTotalMemoryReservation : string;
  qOutputPositions : num;
  qOutputDataSize : string;
  writtenPositions : num;
  logicalWrittenDataSize : string;
  physicalWrittenDataSize : string;
  spilledDataSize : string
}.

Record InfoSession := {
  catalog : option string;
  schema : option string;
  remoteUserAddress : option string;
  clientTags : list string;
  systemProperties : obj string;
  catalogProperties : obj (obj string);
  resourceEstimates : obj string
}.

Record Warning := { warningCodeName : string; warningMessage : string }.

(** [basic] holds the fields the query list has too. *)
Record QueryInfo := {
  basic : Query;
  infoStats : InfoStats;
  infoSession : InfoSession;
  outputStage : option Stage;
  finalQueryInfo : bool;
  warnings : list Warning;
  failureInfo : option Failure;
  errorCodeNumber : num
}.
