(* ===== verification/Graph.v ===== *)
(** * Graphs drawn with dagre-d3

    The pages draw through a graph object of a library.  The model keeps the
    calls made on it, in order, from its constructor on, and the elements that
    are appended to the canvas it is drawn on. *)
From S2P Require Import Prelude JsString.

Definition attrs : Type := list (string * string).

Inductive gcmd :=
| NewGraph (compound : bool)
| SetGraph (a : attrs)
| SetDefaultEdgeLabel (a : attrs)
| SetNode (id : string) (a : attrs)
| SetParent (child parent : string)
| SetEdge (from to : string) (a : attrs).

Definition initializeGraph : list gcmd :=
  [NewGraph true; SetGraph [("rankdir", "BT")]; SetDefaultEdgeLabel []].

(** A selected canvas and the tags of the elements it holds. *)
Record Svg := { selector : string; children : list string }.

(** [initializeSvg]: an element is appended to the canvas, which is still empty,
    when the page has it. *)
Definition initializeSvg (on_page : bool) (selector : string) : Svg :=
  {| selector := selector; children := if on_page then ["g"] else [] |}.

Definition node_ids (c : gcmd) : list string := match c with SetNode i _ => [i] | _ => [] end.

(** The nodes that are set by the calls. *)
Definition nodes_of (g : list gcmd) : list string := g ≫= node_ids.

Definition edge_of (c : gcmd) : list (string * string) :=
  match c with SetEdge v w _ => [(v, w)] | _ => [] end.

Definition edges_of (g : list gcmd) : list (string * string) := g ≫= edge_of.

(** A call whose arguments are among the nodes [ns]. *)
Definition call_in (ns : list string) (c : gcmd) : Prop :=
  match c with
  | SetParent v w | SetEdge v w _ => v ∈ ns /\ w ∈ ns
  | _ => True
  end.

(** Every edge and every parent refers to nodes the calls set themselves. *)
Definition closed (g : list gcmd) : Prop := Forall (call_in (nodes_of g)) g.

Lemma nodes_of_app g g' : nodes_of (g ++ g') = nodes_of g ++ nodes_of g'.
Proof. unfold nodes_of. apply bind_app. Qed.

Lemma edges_of_app g g' : edges_of (g ++ g') = edges_of g ++ edges_of g'.
Proof. unfold edges_of. apply bind_app. Qed.

Lemma call_in_mono ns ns' c : (forall n, n ∈ ns -> n ∈ ns') -> call_in ns c -> call_in ns' c.
Proof. destruct c; cbn; naive_solver. Qed.

Lemma elem_of_nodes_of g n : n ∈ nodes_of g <-> exists a, SetNode n a ∈ g.
Proof.
  unfold nodes_of. rewrite list_elem_of_bind. split.
  - intros (c & Hn & Hc). destruct c; cbn in Hn; set_solver.
  - intros [a Ha]. exists (SetNode n a). split; [cbn; set_solver|done].
Qed.

(** Neither the nodes nor the edges depend on how the graph was set up. *)
Lemma initialized_nodes g : nodes_of (initializeGraph ++ g) = nodes_of g.
Proof. by rewrite nodes_of_app. Qed.

Lemma initialized_edges g : edges_of (initializeGraph ++ g) = edges_of g.
Proof. by rewrite edges_of_app. Qed.

Lemma initialized_closed g : closed (initializeGraph ++ g) <-> closed g.
Proof.
  unfold closed. rewrite initialized_nodes, Forall_app. split; [tauto|]. intros H. split; [|done].
  by repeat constructor.
Qed.
