(* ===== verification/LivePlan.v ===== *)
(** * components/LivePlan.jsx: the live plan of a query

    The stages and plan nodes of a query are flattened into maps and drawn as
    a graph; the page polls until the query has its final info. *)
From S2P Require Import Prelude JsString JsNumber JsNumberFacts JsObject JsJson Html Graph.
From S2P Require Import UtilsQuery UtilsText UtilsFormat QueryInfo QueryHeader RefreshLoop.
Local Open Scope Z_scope.

Module LivePlan.

(** ** The plan in JSON *)

(** A node of [JSON.parse(plan.jsonRepresentation)], with the properties the
    code reads. *)
Inductive PlanJson :=
| PNode (id : string) (name identifier details : option string) (children : list PlanJson)
    (remoteSources : list string).

Definition node_id (n : PlanJson) : string := let '(PNode i _ _ _ _ _) := n in i.
Definition node_children (n : PlanJson) : list PlanJson := let '(PNode _ _ _ _ c _) := n in c.

Fixpoint jdepth (j : json) : nat :=
  match j with
  | JArr l => S (foldr (fun x n => Nat.max (jdepth x) n) O l)
  | JObj o => S (foldr (fun x n => Nat.max (jdepth x.2) n) O o)
  | _ => 1%nat
  end.

Definition jstring (j : option json) : option string :=
  match j with Some (JStr s) => Some s | _ => None end.

Definition jarray (j : option json) : result (list json) :=
  match j with Some (JArr l) => Ok l | _ => Throw TypeError end.

(** The nodes of a parsed plan.  The coordinator writes ids as strings and
    [children] and [remoteSources] as arrays; a plan without them is an
    error. *)
Fixpoint plan_of_json (fuel : nat) (j : json) : result PlanJson :=
  match fuel with
  | O => Throw TypeError
  | S fuel' =>
      id ← require (jstring (jget "id" j));
      children ← jarray (jget "children" j);
      children ← mapM (plan_of_json fuel') children;
      remoteSources ← jarray (jget "remoteSources" j);
      remoteSources ← mapM (fun r => require (jstring (Some r))) remoteSources;
      Ok (PNode id (jstring (jget "name" j)) (jstring (jget "identifier" j))
            (jstring (jget "details" j)) children remoteSources)
  end.

Definition parsePlan (text : string) : result PlanJson :=
  j ← JSON_parse text; plan_of_json (S (jdepth j)) j.

(** ** Flattening *)

(** An entry of the map of plan nodes ([PlanNodeProps]). *)
Record NodeInfo := {
  id : string;
  name : option string;
  identifier : option string;
  details : option string;
  sources : list string;
  remoteSources : list string
}.

Record StageNodeInfo := {
  infoStageId : string;
  infoId : string;
  infoRoot : string;
  infoDistribution : string;
  infoStats : option StageInfoStats;
  infoState : string;
  nodes : jsmap string NodeInfo
}.

Fixpoint flattenNode (node : PlanJson) (result : jsmap string NodeInfo) : jsmap string NodeInfo :=
  let '(PNode i nm ident det children remote) := node in
  let result := dict_set i {| id := i; name := nm; identifier := ident; details := det;
                              sources := map node_id children; remoteSources := remote |} result in
  fold_left (fun r child => flattenNode child r) children result.

Fixpoint flattenStage (stageInfo : Stage) (res : jsmap string StageNodeInfo)
    : result (jsmap string StageNodeInfo) :=
  let '(mkStage stageId state plan stageStats _ subStages) := stageInfo in
  res ← match subStages with
        | Some subs => foldM (fun stage r => flattenStage stage r) subs res
        | None => Throw TypeError
        end;
  p ← require plan;
  node ← parsePlan (jsonRepresentation p);
  Ok (dict_set (planId p)
        {| infoStageId := stageId; infoId := planId p; infoRoot := pid (root p);
           infoDistribution := distribution p; infoStats := stageStats; infoState := state;
           nodes := flattenNode node [] |} res).

Definition getStages (q : QueryInfo) : result (jsmap string StageNodeInfo) :=
  stage ← require (outputStage q);
  flattenStage stage [].

(** ** Rendering of the nodes *)

(** [StageStatistics.render] *)
Definition renderStageStatistics {E} (stage : StageNodeInfo) : result (vnode E) :=
  stats ← require (infoStats stage);
  Ok (
    h "div" [] [
      h "div" [] [
        h "h3" [cls "margin-top: 0"] [txt "Stage "; txt (infoId stage)];
        txt (infoState stage);
        h "hr" [] [];
        txt "CPU: ";
        txt (sTotalCpuTime stats);
        h "br" [] [];
        txt "Buffered: ";
        txt (bufferedDataSize stats);
        h "br" [] [];
        (if sFullyBlocked stats then h "div" [style [("color", "#ff0000")]] [txt "Blocked: "; txt (sTotalBlockedTime stats); txt " "] else h "div" [] [txt "Blocked: "; txt (sTotalBlockedTime stats); txt " "]);
        txt "Memory: ";
        txt (sUserMemoryReservation stats);
        h "br" [] [];
        txt "Splits: ";
        txt ("Q:" +:+ num_to_string (sQueuedDrivers stats) +:+ ", R:" +:+ num_to_string (sRunningDrivers stats) +:+ ", F:" +:+ num_to_string (sCompletedDrivers stats));
        h "hr" [] [];
        txt "Input: ";
        txt (sRawInputDataSize stats +:+ " / " +:+ formatRows (sRawInputPositions stats))]]).

(** A string that may be [undefined], in a concatenation. *)
Definition concat_text (s : option string) : string := default "undefined" s.

(** [PlanNode.render] *)
Definition renderPlanNode {E} (n : NodeInfo) : vnode E :=
  h "div" [style [("color", "#000")]; at_ "data-toggle" "tooltip";
      at_ "data-placement" "bottom"; at_ "data-container" "body";
      at_ "data-html" "true";
      at_ "title" ("<h4>" +:+ concat_text (name n) +:+ "</h4>" +:+ concat_text (identifier n))] [
    h "strong" [] [txto (name n)];
    h "div" [] [txto (truncateString (identifier n) 35)]].

(** ** The graph *)

Section graph.
(** [ReactDOMServer.renderToString] *)
Context (renderToString : vnode Empty_set -> string).

Definition remote_edges (allStages : jsmap string StageNodeInfo) (nodeId : string) (sourceIds : list string)
    : result (list gcmd) :=
  foldM (fun sourceId cmds =>
      match dict_get sourceId allStages with
      | Some source =>
          sourceStats ← require (infoStats source);
          Ok (cmds ++ [SetEdge ("stage-" +:+ sourceId +:+ "-root") nodeId
            [("class", "plan-edge"); ("style", "stroke-width: 4px"); ("arrowheadClass", "plan-arrowhead");
             ("label", sOutputDataSize sourceStats +:+ " / " +:+ formatRows (sOutputPositions sourceStats));
             ("labelStyle", "color: #fff; font-weight: bold; font-size: 24px;"); ("labelType", "html")]])
      | None => Ok cmds
      end) sourceIds [].

(** [if (node.remoteSources.length > 0)] *)
Definition remote_calls (allStages : jsmap string StageNodeInfo) (nodeId : string) (node : NodeInfo)
    : result (list gcmd) :=
  if (0 <? length (remoteSources node))%nat
  then es ← remote_edges allStages nodeId (remoteSources node);
       Ok (SetNode nodeId [("label", ""); ("shape", "circle")] :: es)
  else Ok [].

(** The body of [stage.nodes.forEach]. *)
Definition updateNode (clusterId : string) (allStages : jsmap string StageNodeInfo) (node : NodeInfo)
    : result (list gcmd) :=
  let nodeId := "node-" +:+ id node in
  let nodeHtml := renderToString (renderPlanNode node) in
  remote ← remote_calls allStages nodeId node;
  Ok ([SetNode nodeId [("label", nodeHtml); ("style", "fill: #fff"); ("labelType", "html")];
       SetParent nodeId clusterId]
      ++ map (fun source => SetEdge ("node-" +:+ source) nodeId
                [("class", "plan-edge"); ("arrowheadClass", "plan-arrowhead")]) (sources node)
      ++ remote).

Definition updateD3Stage (stage : StageNodeInfo) (allStages : jsmap string StageNodeInfo)
    : result (list gcmd) :=
  let clusterId := infoStageId stage in
  let stageRootNodeId := "stage-" +:+ infoId stage +:+ "-root" in
  let color := stageColor (infoState stage) (infoStats stage) in
  statistics ← renderStageStatistics stage;
  let html := renderToString statistics in
  nodeCmds ← mapM (updateNode clusterId allStages) (dict_values (nodes stage));
  Ok ([SetNode clusterId [("style", "fill: " +:+ color); ("labelStyle", "fill: #fff")];
       SetNode stageRootNodeId [("class", "stage-stats"); ("label", html); ("labelType", "html")];
       SetParent stageRootNodeId clusterId;
       SetEdge ("node-" +:+ infoRoot stage) stageRootNodeId [("style", "visibility: hidden")]]
      ++ concat nodeCmds).

(** Calls made before an exception are not kept: the page is lost then.
    [stages.forEach(stage => this.updateD3Stage(stage, graph, stages))] *)
Definition graph_calls (stages : jsmap string StageNodeInfo) : result (list gcmd) :=
  cmds ← mapM (fun stage => updateD3Stage stage stages) (dict_values stages);
  Ok (concat cmds).

(** ** State *)

(** [graph] holds the calls made on the graph object so far, [svg] the canvas
    once it is set up. *)
Record State := {
  initialized : bool;
  ended : bool;
  query : option QueryInfo;
  graph : list gcmd;
  svg : option Svg
}.

Definition initial_state : State :=
  {| initialized := false; ended := false; query := None; graph := initializeGraph; svg := None |}.

Definition refresh_success (q : QueryInfo) (s : State) : State :=
  {| initialized := true; ended := finalQueryInfo q; query := Some q; graph := graph s; svg := svg s |}.

Definition refresh_error (s : State) : State :=
  {| initialized := true; ended := ended s; query := query s; graph := graph s; svg := svg s |}.

(** [render] puts the canvas on the page. *)
Definition hasCanvas (s : State) : bool := bool_decide (is_Some (query s)) && initialized s.

(** [updateD3Graph], up to drawing the graph. *)
Definition updateD3Graph (s : State) : result State :=
  match svg s, query s with
  | None, _ =>
      Ok {| initialized := initialized s; ended := ended s; query := query s; graph := graph s;
            svg := Some (initializeSvg (hasCanvas s) "#plan-canvas") |}
  | _, None => Ok s
  | _, Some q =>
      stages ← getStages q;
      cmds ← graph_calls stages;
      Ok {| initialized := initialized s; ended := ended s; query := query s; graph := graph s ++ cmds;
            svg := svg s |}
  end.

(** What [handleStageClick] opens. *)
Definition handleStageClick (stageCssId : string) : string := "stage.html?" +:+ stageCssId.

(** The size of the canvas and, when the query has ended, the zoom: the
    initial scale and the horizontal translation.  [cssWidth] and [cssHeight]
    are the computed style of the page's element without the "px". *)
Definition canvas (ended : bool) (cssWidth cssHeight : string) (gWidth gHeight : num)
    : num * num * option (num * num) :=
  let width := (parseInt cssWidth - num_of_Z 50)%js in
  let height := (parseInt cssHeight - num_of_Z 50)%js in
  let graphHeight := (gHeight + num_of_Z 100)%js in
  let graphWidth := (gWidth + num_of_Z 100)%js in
  if ended then
    let initialScale := math_min (width / graphWidth)%js (height / graphHeight)%js in
    (height, width, Some (initialScale, ((width - gWidth * initialScale) / num_of_Z 2)%js))
  else (graphHeight, graphWidth, None).
End graph.

(** ** Rendering *)

Definition render (pathname : string) (isEmbedded : bool) (s : State) : result (vnode QueryHeader.Ajax) :=
  match query s with
  | Some q =>
      if initialized s then
        let loadingMessage :=
          match outputStage q with
          | Some _ => none
          | None =>
              h "div" [cls "row error-message"] [
                h "div" [cls "col-xs-12"] [
                  h "h4" [] [txt "Live plan graph will appear automatically when query starts running."];
                  h "div" [cls "loader"] [txt "Loading..."]]]
          end in
        queryHeader ← (if isEmbedded then Ok none else QueryHeader.render pathname (basic q));
        Ok (
          h "div" [] [
            queryHeader;
            h "div" [cls "row"] [
              h "div" [cls "col-xs-12"] [
                loadingMessage;
                h "div" [at_ "id" "live-plan"; cls "graph-container"] [
                  h "div" [cls "pull-right"] [
                    txt (if ended s then "Scroll to zoom." else "Zoom disabled while query is running.");
                    txt " Click stage to view additional statistics"];
                  h "svg" [at_ "id" "plan-canvas"] []]]]])
      else Ok (h "div" [cls "row error-message"] [h "div" [cls "col-xs-12"]
             [h "h4" [] [h "div" [cls "loader"] [txt "Loading..."]]]])
  | None =>
      let label := if initialized s then txt "Query not found" else h "div" [cls "loader"] [txt "Loading..."] in
      Ok (
        h "div" [cls "row error-message"] [h "div" [cls "col-xs-12"] [h "h4" [] [label]]])
  end.

(** ** The event loop *)

Section page.
Context (renderToString : vnode Empty_set -> string) (pathname : string) (isEmbedded : bool).

(** What React does when the state was set: it renders the page and runs
    [componentDidUpdate], whose [setState] does the same again. *)
Definition commit (s : State) : result State :=
  _ ← render pathname isEmbedded s;
  s1 ← updateD3Graph renderToString s;
  match svg s with
  | Some _ => Ok s1
  | None => _ ← render pathname isEmbedded s1; updateD3Graph renderToString s1
  end.

(** React takes a component that throws off the page; it keeps its state, and
    [setState] does nothing any more. *)
Inductive View := Shown (s : State) | Blank (s : State).

Definition state (v : View) : State := match v with Shown s | Blank s => s end.

(** An answer.  An exception of [setState] is caught by the handler of the
    failures, whose [setState] is the one that does nothing. *)
Definition onAnswer (q : QueryInfo) (v : View) : View :=
  match v with
  | Shown s => match commit (refresh_success q s) with Ok s' => Shown s' | Throw _ => Blank (refresh_success q s) end
  | Blank s => Blank s
  end.

Definition onFailure (v : View) : result View :=
  match v with
  | Shown s => s' ← commit (refresh_error s); Ok (Shown s')
  | Blank s => Ok (Blank s)
  end.

Definition poller : Poller View unit QueryInfo unit := {|
  on_start v := (v, tt);
  on_success _ q v := Ok (onAnswer q v);
  on_error _ v := onFailure v;
  keep_polling v := match query (state v) with None => true | Some _ => negb (ended (state v)) end;
  local_step _ _ := False
|}.

Lemma poller_laws : PollerLaws poller.
Proof. by intros ? ? []. Qed.
End page.
End LivePlan.
