(* ===== verification/LivePlanFacts.v ===== *)
(** * Properties of the live plan

    Flattening keeps every stage and every plan node; the calls on the graph
    refer only to nodes they set themselves; the page of a query without an
    output stage cannot be updated. *)
From S2P Require Import Prelude JsString JsNumber JsNumberFacts JsObject JsJson Html Graph.
From S2P Require Import UtilsQuery UtilsFormat QueryInfo QueryHeader RefreshLoop LivePlan.
Import LivePlan.
Local Open Scope Z_scope.

(** ** Induction over plans and stages *)

Fixpoint PlanJson_tree_ind (P : PlanJson -> Prop)
    (H : forall i n a d cs r, Forall P cs -> P (PNode i n a d cs r)) (x : PlanJson) {struct x} : P x.
Proof.
  destruct x as [i n a d cs r]. apply H. induction cs as [|c cs IH]; constructor.
  - by apply PlanJson_tree_ind.
  - exact IH.
Defined.

Fixpoint Stage_tree_ind (P : Stage -> Prop)
    (H : forall i st p ss ts subs, Forall P (default [] subs) -> P (mkStage i st p ss ts subs))
    (x : Stage) {struct x} : P x.
Proof.
  destruct x as [i st p ss ts [subs|]]; apply H; cbn; [|constructor].
  induction subs as [|s subs IH]; constructor.
  - by apply Stage_tree_ind.
  - exact IH.
Defined.

(** ** The depth is enough fuel *)

Lemma foldr_max_elem {A} (f : A -> nat) l x : x ∈ l -> (f x <= foldr (fun y n => Nat.max (f y) n) 0%nat l)%nat.
Proof. induction l as [|y l IH]; cbn; [set_solver|]. intros [->|H%IH]%elem_of_cons; lia. Qed.

Lemma jget_depth k j v : jget k j = Some v -> (jdepth v < jdepth j)%nat.
Proof.
  destruct j as [| | | | |o]; cbn [jget]; try done. intros H%dict_get_elem.
  apply list_elem_of_In, in_rev, list_elem_of_In in H.
  apply (foldr_max_elem (fun x => jdepth x.2) o (k, v)) in H. cbn in *. lia.
Qed.

Lemma jarray_depth k j l x : jarray (jget k j) = Ok l -> x ∈ l -> (S (jdepth x) < jdepth j)%nat.
Proof.
  destruct (jget k j) as [[| | | |l'|]|] eqn:E; try done. intros [= ->] Hx.
  apply jget_depth in E. cbn in E. pose proof (foldr_max_elem jdepth l x Hx). lia.
Qed.

Lemma mapM_ext {A B} (f g : A -> result B) l : (forall x, x ∈ l -> f x = g x) -> mapM f l = mapM g l.
Proof.
  induction l as [|x l IH]; intros H; cbn; [done|]. rewrite (H x) by set_solver.
  rewrite IH by set_solver. done.
Qed.

(** More fuel than [parsePlan] gives changes nothing. *)
Lemma plan_of_json_fuel f : forall g j,
  (jdepth j < f)%nat -> (jdepth j < g)%nat -> plan_of_json f j = plan_of_json g j.
Proof.
  induction f as [|f IH]; intros [|g] j Hf Hg; try lia. cbn [plan_of_json].
  destruct (require _) as [i|]; [|done]. cbn [mbind result_bind].
  destruct (jarray (jget "children" j)) as [cs|] eqn:Ec; [|done]. cbn [mbind result_bind].
  rewrite (mapM_ext (plan_of_json f) (plan_of_json g)); [done|].
  intros x Hx. pose proof (jarray_depth _ _ _ _ Ec Hx). apply IH; lia.
Qed.

(** ** Plan nodes *)

(** The ids of a plan. *)
Fixpoint plan_ids (n : PlanJson) : list string :=
  let '(PNode i _ _ _ cs _) := n in i :: flat_map plan_ids cs.

Lemma node_id_in n : node_id n ∈ plan_ids n.
Proof. destruct n. cbn. set_solver. Qed.

Lemma fold_flatten_keys cs r k :
  Forall (fun c => forall r, k ∈ dict_keys (flattenNode c r) <-> k ∈ plan_ids c \/ k ∈ dict_keys r) cs ->
  k ∈ dict_keys (fold_left (fun r c => flattenNode c r) cs r) <-> k ∈ flat_map plan_ids cs \/ k ∈ dict_keys r.
Proof.
  intros H. revert r. induction H as [|c cs Hc _ IH]; intros r; cbn; [set_solver|].
  rewrite IH, Hc, elem_of_app. tauto.
Qed.

Lemma flattenNode_keys n : forall r k,
  k ∈ dict_keys (flattenNode n r) <-> k ∈ plan_ids n \/ k ∈ dict_keys r.
Proof.
  induction n as [i nm a d cs rs IH] using PlanJson_tree_ind. intros r k. cbn [flattenNode plan_ids].
  rewrite fold_flatten_keys.
  - rewrite dict_keys_set. case_decide; rewrite ?elem_of_cons, ?elem_of_app, ?list_elem_of_singleton; [|tauto].
    split; [tauto|]. intros [[->|?]|?]; tauto.
  - eapply Forall_impl; [exact IH|]. naive_solver.
Qed.

(** An entry is filed under its own id and its sources are ids in [ns]. *)
Definition node_ok (ns : list string) (k : string) (e : NodeInfo) : Prop :=
  id e = k /\ forall s, s ∈ sources e -> s ∈ ns.

Lemma fold_flatten_entries ns cs r k e :
  Forall (fun c => forall r, dict_get k (flattenNode c r) = Some e ->
            (forall x, x ∈ plan_ids c -> x ∈ ns) -> dict_get k r = Some e \/ node_ok ns k e) cs ->
  dict_get k (fold_left (fun r c => flattenNode c r) cs r) = Some e ->
  (forall x, x ∈ flat_map plan_ids cs -> x ∈ ns) -> dict_get k r = Some e \/ node_ok ns k e.
Proof.
  intros H. revert r. induction H as [|c cs Hc _ IH]; intros r; cbn; [auto|].
  intros He Hn. destruct (IH _ He) as [He'|]; [set_solver| |auto]. apply Hc; [done|set_solver].
Qed.

Lemma flattenNode_entries ns n : forall r k e,
  dict_get k (flattenNode n r) = Some e -> (forall x, x ∈ plan_ids n -> x ∈ ns) ->
  dict_get k r = Some e \/ node_ok ns k e.
Proof.
  induction n as [i nm a d cs rs IH] using PlanJson_tree_ind. intros r k e. cbn [flattenNode plan_ids].
  intros He Hn. apply (fold_flatten_entries ns) in He; [| |set_solver].
  - destruct He as [He|]; [|auto]. rewrite dict_get_set in He. case_decide as Hk; [|auto].
    simplify_eq. right. split; [done|]. cbn. intros s (c & <- & Hc)%list_elem_of_In%in_map_iff.
    apply Hn, elem_of_cons. right. apply elem_of_flat_map. exists c.
    split; [by apply list_elem_of_In|apply node_id_in].
  - eapply Forall_impl; [exact IH|]. naive_solver.
Qed.

(** ** Stages *)

(** The ids of the plans of a stage tree. *)
Definition plan_keys (s : Stage) : list string := omap (fun st => planId <$> plan st) (all_stages s).

(** The root of a plan has the same id in both of its representations. *)
Definition roots_agree (s : Stage) : Prop :=
  forall st p n, st ∈ all_stages s -> plan st = Some p -> parsePlan (jsonRepresentation p) = Ok n ->
  node_id n = pid (root p).

(** What an entry of the map of stages satisfies. *)
Record stage_ok (k : string) (info : StageNodeInfo) : Prop := {
  stage_key : infoId info = k;
  stage_root : infoRoot info ∈ dict_keys (nodes info);
  stage_nodes n e : dict_get n (nodes info) = Some e -> node_ok (dict_keys (nodes info)) n e
}.

Definition stages_ok (m : jsmap string StageNodeInfo) : Prop :=
  forall k info, dict_get k m = Some info -> stage_ok k info.

Lemma flattenStage_step i st p ss ts subs res res' :
  flattenStage (mkStage i st p ss ts subs) res = Ok res' ->
  exists l m pl n, subs = Some l /\ p = Some pl /\ foldM (fun s r => flattenStage s r) l res = Ok m /\
    parsePlan (jsonRepresentation pl) = Ok n /\
    res' = dict_set (planId pl)
        {| infoStageId := i; infoId := planId pl; infoRoot := pid (root pl);
           infoDistribution := distribution pl; LivePlan.infoStats := ss; infoState := st;
           nodes := flattenNode n [] |} m.
Proof.
  cbn [flattenStage]. destruct subs as [l|]; [|done].
  destruct (foldM _ l res) as [m|] eqn:Em; [|done]. cbn [mbind result_bind].
  destruct p as [pl|]; [|done]. cbn [require mbind result_bind].
  destruct (parsePlan _) as [n|] eqn:En; [|done]. cbn [mbind result_bind]. intros [= <-].
  by exists l, m, pl, n.
Qed.

Lemma roots_agree_sub i st p ss ts l s :
  roots_agree (mkStage i st p ss ts (Some l)) -> s ∈ l -> roots_agree s.
Proof.
  intros H Hs x q n Hx. apply H. cbn. apply elem_of_cons. right. apply elem_of_flat_map. eauto.
Qed.

Lemma foldM_inv {A B} (I : A -> Prop) (f : B -> A -> result A) l a a' :
  Forall (fun x => forall a a', I a -> f x a = Ok a' -> I a') l -> I a -> foldM f l a = Ok a' -> I a'.
Proof.
  intros H. revert a. induction H as [|x l Hx _ IH]; intros a Ha; cbn; [by intros [= <-]|].
  destruct (f x a) as [b|] eqn:E; [|done]. eauto.
Qed.

Lemma foldM_total {A B} (f : B -> A -> result A) l a :
  (forall x a, x ∈ l -> exists a', f x a = Ok a') -> exists a', foldM f l a = Ok a'.
Proof.
  revert a. induction l as [|x l IH]; intros a H; cbn; [eauto|].
  destruct (H x a) as [b ->]; [set_solver|]. apply IH. set_solver.
Qed.

Lemma flattenStage_ok s : forall res res',
  roots_agree s -> stages_ok res -> flattenStage s res = Ok res' -> stages_ok res'.
Proof.
  induction s as [i st p ss ts subs IH] using Stage_tree_ind. intros res res' HR HS E.
  pose proof E as (l & m & pl & n & -> & -> & Em & En & ->)%flattenStage_step. cbn in IH.
  assert (stages_ok m) as Hm.
  { eapply (foldM_inv stages_ok); [|exact HS|exact Em]. rewrite Forall_forall in *.
    intros x Hx a a' Ha. apply IH; [done|eapply roots_agree_sub; [exact HR|done]|done]. }
  intros k info. rewrite dict_get_set. case_decide as Hk; [|apply Hm]. intros [= <-]. subst k. split; cbn.
  - done.
  - rewrite flattenNode_keys. left. rewrite <- (HR (mkStage i st (Some pl) ss ts (Some l)) pl n); [apply node_id_in| |done|done].
    cbn. set_solver.
  - intros x e He. apply (flattenNode_entries (dict_keys (flattenNode n []))) in He as [He|He]; [done|done|].
    intros y Hy. apply flattenNode_keys. by left.
Qed.

Lemma flattenStage_keys s : forall res res' k,
  flattenStage s res = Ok res' -> k ∈ dict_keys res' <-> k ∈ plan_keys s \/ k ∈ dict_keys res.
Proof.
  induction s as [i st p ss ts subs IH] using Stage_tree_ind. intros res res' k E.
  apply flattenStage_step in E as (l & m & pl & n & -> & -> & Em & _ & ->). cbn in IH.
  assert (k ∈ dict_keys m <-> k ∈ l ≫= plan_keys \/ k ∈ dict_keys res) as Hm.
  { clear -IH Em. revert res Em. induction l as [|s l IHl]; intros res; cbn.
    - intros [= <-]. set_solver.
    - apply Forall_cons in IH as [IHs IH]. destruct (flattenStage s res) as [r|] eqn:E; [|done].
      intros Em. rewrite (IHl IH _ Em), (IHs _ _ k E), elem_of_app. tauto. }
  assert (k ∈ plan_keys (mkStage i st (Some pl) ss ts (Some l)) <-> k = planId pl \/ k ∈ l ≫= plan_keys) as Hk.
  { unfold plan_keys. cbn. rewrite elem_of_cons. apply or_iff_compat_l. clear.
    induction l as [|s l IH]; cbn; [done|]. rewrite omap_app, !elem_of_app. by rewrite IH. }
  rewrite Hk, dict_keys_set. case_decide; rewrite ?elem_of_app, ?list_elem_of_singleton; rewrite Hm; [|tauto].
  split; [tauto|]. intros [[->|?]|?]; [by apply Hm|tauto|tauto].
Qed.

Lemma getStages_ok q s stages :
  outputStage q = Some s -> roots_agree s -> getStages q = Ok stages ->
  stages_ok stages /\ forall k, k ∈ dict_keys stages <-> k ∈ plan_keys s.
Proof.
  unfold getStages. intros -> HR E. cbn [require mbind result_bind] in E. split.
  - eapply flattenStage_ok; [exact HR| |exact E]. intros k info [=].
  - intros k. rewrite (flattenStage_keys _ _ _ k E). set_solver.
Qed.

(** ** The calls on the graph *)

Section calls.
Context (rts : vnode Empty_set -> string).

Definition root_node (k : string) : string := "stage-" +:+ k +:+ "-root".
Definition plan_node (n : string) : string := "node-" +:+ n.

Lemma remote_edges_spec stages nid l cmds :
  remote_edges stages nid l = Ok cmds ->
  Forall (fun c => exists k a info, c = SetEdge (root_node k) nid a /\ dict_get k stages = Some info) cmds.
Proof.
  unfold remote_edges. intros E. eapply (foldM_inv (Forall _)); [|by apply Forall_nil|exact E].
  apply Forall_forall. intros k _ a a' Ha. destruct (dict_get k stages) as [info|] eqn:Ek; [|by intros [= <-]].
  destruct (require _) as [sst|]; [|done]. cbn [mbind result_bind]. intros [= <-].
  apply Forall_app. split; [done|]. constructor; [|constructor]. eauto 10.
Qed.

(** The calls for one plan node of a stage: the node is set, and every call
    refers to the node, the cluster, its sources, or a drawn stage. *)
Lemma updateNode_spec cluster stages e cmds :
  updateNode rts cluster stages e = Ok cmds ->
  plan_node (id e) ∈ nodes_of cmds /\
  (forall s, s ∈ sources e -> (plan_node s, plan_node (id e)) ∈ edges_of cmds) /\
  (forall ns, plan_node (id e) ∈ ns -> cluster ∈ ns -> (forall s, s ∈ sources e -> plan_node s ∈ ns) ->
     (forall k info, dict_get k stages = Some info -> root_node k ∈ ns) -> Forall (call_in ns) cmds).
Proof.
  unfold updateNode. destruct (remote_calls _ _ _) as [remote|] eqn:Er; [|done].
  cbn [mbind result_bind]. intros [= <-]. split_and!.
  - apply elem_of_nodes_of. eexists. apply elem_of_cons. left. reflexivity.
  - intros s Hs. unfold edges_of. apply list_elem_of_bind.
    exists (SetEdge (plan_node s) (plan_node (id e)) [("class", "plan-edge"); ("arrowheadClass", "plan-arrowhead")]).
    split; [cbn; set_solver|]. do 2 (apply elem_of_cons; right). apply elem_of_app. left.
    apply list_elem_of_In, in_map_iff. exists s. split; [reflexivity|by apply list_elem_of_In].
  - intros ns H1 H2 H3 H4. cbn. constructor; [done|]. constructor; [done|]. rewrite Forall_app. split.
    + apply Forall_forall. intros c (s & <- & Hs)%list_elem_of_In%in_map_iff.
      cbn. split; [|done]. by apply H3, list_elem_of_In.
    + revert Er. unfold remote_calls. case_if; [|by intros [= <-]].
      destruct (remote_edges _ _ _) as [es|] eqn:Ee; [|done]. cbn [mbind result_bind]. intros [= <-].
      constructor; [done|]. eapply Forall_impl; [exact (remote_edges_spec _ _ _ _ Ee)|].
      intros c (k & a & info & -> & Hk). split; [by eapply H4|exact H1].
Qed.

(** The calls for one stage. *)
Lemma updateD3Stage_spec info stages cmds :
  updateD3Stage rts info stages = Ok cmds ->
  exists nodeCmds, Forall2 (fun e c => updateNode rts (infoStageId info) stages e = Ok c)
      (dict_values (nodes info)) nodeCmds /\
    infoStageId info ∈ nodes_of cmds /\ root_node (infoId info) ∈ nodes_of cmds /\
    (forall c, c ∈ concat nodeCmds -> c ∈ cmds) /\
    (forall ns, infoStageId info ∈ ns -> root_node (infoId info) ∈ ns -> plan_node (infoRoot info) ∈ ns ->
       Forall (call_in ns) (concat nodeCmds) -> Forall (call_in ns) cmds).
Proof.
  unfold updateD3Stage. destruct (renderStageStatistics info) as [v|]; [|done]. cbn [mbind result_bind].
  destruct (mapM _ _) as [ncs|] eqn:Em; [|done]. cbn [mbind result_bind]. intros [= <-].
  exists ncs. rewrite mapM_Forall2 in Em. split; [done|]. split_and!.
  - apply elem_of_nodes_of. eexists. apply elem_of_cons. left. reflexivity.
  - apply elem_of_nodes_of. eexists. apply elem_of_cons. right. apply elem_of_cons. left. reflexivity.
  - intros c Hc. do 4 (apply elem_of_cons; right). done.
  - intros ns H1 H2 H3 H4. do 4 (constructor; [done|]). done.
Qed.

Lemma elem_of_dict_values {V} (m : jsmap string V) v :
  v ∈ dict_values m <-> exists k, (k, v) ∈ m.
Proof.
  unfold dict_values. rewrite list_elem_of_In, in_map_iff. split.
  - intros ([k v'] & <- & H). exists k. by apply list_elem_of_In.
  - intros [k H]. exists (k, v). split; [done|]. by apply list_elem_of_In.
Qed.

Lemma nodes_of_mono g g' n : (forall c, c ∈ g -> c ∈ g') -> n ∈ nodes_of g -> n ∈ nodes_of g'.
Proof. intros H. rewrite !elem_of_nodes_of. intros [a Ha]. eauto. Qed.

Lemma edges_of_mono g g' e : (forall c, c ∈ g -> c ∈ g') -> e ∈ edges_of g -> e ∈ edges_of g'.
Proof. intros H. unfold edges_of. rewrite !list_elem_of_bind. intros (c & Hc & Hin). eauto. Qed.

(** Two lists related by [Forall2], from either side. *)
Lemma Forall2_elem_l {A B} (R : A -> B -> Prop) l k x :
  Forall2 R l k -> x ∈ l -> exists y, y ∈ k /\ R x y.
Proof. induction 1 as [|a b l k Hab _ IH]; intros Hx; [set_solver|]. set_solver. Qed.

Lemma Forall2_elem_r {A B} (R : A -> B -> Prop) l k y :
  Forall2 R l k -> y ∈ k -> exists x, x ∈ l /\ R x y.
Proof. induction 1 as [|a b l k Hab _ IH]; intros Hx; [set_solver|]. set_solver. Qed.

Lemma elem_of_values_get {V} (m : jsmap string V) v :
  NoDup (dict_keys m) -> v ∈ dict_values m <-> exists k, dict_get k m = Some v.
Proof.
  intros HD. rewrite elem_of_dict_values. split; intros [k Hk]; exists k; by apply elem_of_dict_get.
Qed.

(** The edges a plan node adds: from its sources, and from the stages it reads
    that are part of the query. *)
Definition node_edges (stages : jsmap string StageNodeInfo) (e : NodeInfo) : list (string * string) :=
  map (fun s => (plan_node s, plan_node (id e))) (sources e)
  ++ map (fun k => (root_node k, plan_node (id e))) (filterb (fun k => dict_has k stages) (remoteSources e)).

(** The edges a stage adds: from the root of its plan to its own node, and those
    of its plan nodes. *)
Definition stage_edges (stages : jsmap string StageNodeInfo) (info : StageNodeInfo) : list (string * string) :=
  (plan_node (infoRoot info), root_node (infoId info)) :: flat_map (node_edges stages) (dict_values (nodes info)).

Lemma edges_of_concat css : edges_of (concat css) = flat_map edges_of css.
Proof. induction css as [|c css IH]; cbn [concat flat_map]; [done|]. by rewrite edges_of_app, IH. Qed.

Lemma mapM_flat_map {A B C} (f : A -> result B) (g : A -> list C) (h : B -> list C) l :
  (forall x, x ∈ l -> exists y, f x = Ok y /\ h y = g x) ->
  exists ys, mapM f l = Ok ys /\ flat_map h ys = flat_map g l.
Proof.
  induction l as [|x l IH]; intros H; cbn; [eauto|]. destruct (H x) as (y & -> & Hy); [set_solver|].
  destruct IH as (ys & E & Hys); [set_solver|]. cbn. rewrite E. cbn. exists (y :: ys). cbn. by rewrite Hy, Hys.
Qed.

Section total.
Context (stages : jsmap string StageNodeInfo).
Context (HT : forall k info, dict_get k stages = Some info -> is_Some (LivePlan.infoStats info)).

Lemma remote_edges_total nid l : exists cmds,
  remote_edges stages nid l = Ok cmds /\
  edges_of cmds = map (fun k => (root_node k, nid)) (filterb (fun k => dict_has k stages) l).
Proof.
  unfold remote_edges.
  assert (forall acc, exists cmds, foldM (fun sourceId cmds =>
      match dict_get sourceId stages with
      | Some source =>
          sourceStats ← require (LivePlan.infoStats source);
          Ok (cmds ++ [SetEdge ("stage-" +:+ sourceId +:+ "-root") nid
            [("class", "plan-edge"); ("style", "stroke-width: 4px"); ("arrowheadClass", "plan-arrowhead");
             ("label", sOutputDataSize sourceStats +:+ " / " +:+ formatRows (sOutputPositions sourceStats));
             ("labelStyle", "color: #fff; font-weight: bold; font-size: 24px;"); ("labelType", "html")]])
      | None => Ok cmds
      end) l acc = Ok (acc ++ cmds) /\
    edges_of cmds = map (fun k => (root_node k, nid)) (filterb (fun k => dict_has k stages) l)) as H;
    [|exact (H [])].
  induction l as [|k l IH]; intros acc; cbn [foldM filterb]; [exists []; by rewrite app_nil_r|].
  unfold dict_has. destruct (dict_get k stages) as [info|] eqn:Ek.
  - destruct (HT _ _ Ek) as [st ->]. cbn [require mbind result_bind]. edestruct IH as (cmds & -> & E).
    rewrite bool_decide_true by eauto. rewrite <- app_assoc. eexists. split; [reflexivity|].
    rewrite edges_of_app, E. reflexivity.
  - rewrite bool_decide_false by (by intros [? ?]). apply IH.
Qed.

Lemma updateNode_total cluster e : exists cmds,
  updateNode rts cluster stages e = Ok cmds /\ edges_of cmds = node_edges stages e.
Proof.
  assert (exists remote, remote_calls stages (plan_node (id e)) e = Ok remote /\ edges_of remote =
    map (fun k => (root_node k, plan_node (id e))) (filterb (fun k => dict_has k stages) (remoteSources e)))
    as (remote & Er & Hr).
  { unfold remote_calls. destruct (remote_edges_total (plan_node (id e)) (remoteSources e)) as (es & Ee & He).
    destruct (0 <? length (remoteSources e))%nat eqn:Hl.
    - rewrite Ee. cbn [mbind result_bind]. eexists. split; [done|]. exact He.
    - exists []. split; [done|]. destruct (remoteSources e); [done|]. cbn in Hl. done. }
  unfold updateNode. fold (plan_node (id e)). rewrite Er. cbn [mbind result_bind]. eexists. split; [reflexivity|].
  rewrite !edges_of_app, Hr. unfold node_edges. rewrite app_assoc. f_equal.
  change (edges_of [_; _]) with (@nil (string * string)). cbn [app]. induction (sources e) as [|s l IH]; [done|]. cbn [map]. rewrite <- IH. reflexivity.
Qed.

Lemma updateD3Stage_total info : is_Some (LivePlan.infoStats info) -> exists cmds,
  updateD3Stage rts info stages = Ok cmds /\ edges_of cmds = stage_edges stages info.
Proof.
  intros [st Hst]. unfold updateD3Stage, renderStageStatistics. rewrite Hst. cbn [require mbind result_bind].
  destruct (mapM_flat_map (updateNode rts (infoStageId info) stages) (node_edges stages) edges_of
    (dict_values (nodes info))) as (ncs & -> & E); [intros; apply updateNode_total|].
  cbn [mbind result_bind]. eexists. split; [reflexivity|]. rewrite edges_of_app, edges_of_concat, E. reflexivity.
Qed.

Lemma graph_calls_total : NoDup (dict_keys stages) -> exists cmds,
  graph_calls rts stages = Ok cmds /\ edges_of cmds = flat_map (stage_edges stages) (dict_values stages).
Proof.
  intros HD. unfold graph_calls.
  destruct (mapM_flat_map (fun stage => updateD3Stage rts stage stages) (stage_edges stages) edges_of
    (dict_values stages)) as (css & -> & E).
  - intros info Hi. apply updateD3Stage_total. apply elem_of_values_get in Hi as [k Hk]; [by eapply HT|done].
  - cbn [mbind result_bind]. eexists. split; [reflexivity|]. by rewrite edges_of_concat.
Qed.
End total.

Section drawn.
Context (stages : jsmap string StageNodeInfo) (css : list (list gcmd)).
Context (HD : NoDup (dict_keys stages)) (HS : stages_ok stages).
Context (HN : forall k info, dict_get k stages = Some info -> NoDup (dict_keys (nodes info))).
Context (Em : Forall2 (fun info cs => updateD3Stage rts info stages = Ok cs) (dict_values stages) css).

(** Every stage, with its root and its plan nodes, is drawn. *)
Lemma stage_drawn k info : dict_get k stages = Some info ->
  infoStageId info ∈ nodes_of (concat css) /\ root_node k ∈ nodes_of (concat css) /\
  forall n e, dict_get n (nodes info) = Some e ->
    plan_node n ∈ nodes_of (concat css) /\
    forall s, s ∈ sources e -> (plan_node s, plan_node n) ∈ edges_of (concat css).
Proof.
  intros Hk. destruct (Forall2_elem_l _ _ _ info Em) as (cs & Hcs & E).
  { apply elem_of_values_get; [done|]. eauto. }
  assert (forall c, c ∈ cs -> c ∈ concat css) as Hc by (intros c Hc; apply elem_of_concat; eauto).
  destruct (updateD3Stage_spec _ _ _ E) as (ncs & Hncs & D1 & D2 & D3 & _).
  rewrite (stage_key _ _ (HS _ _ Hk)) in D2.
  split; [by eapply nodes_of_mono|]. split; [by eapply nodes_of_mono|]. intros n e He.
  destruct (Forall2_elem_l _ _ _ e Hncs) as (nc & Hnc & Eu).
  { apply elem_of_values_get; [by eapply HN|]. eauto. }
  destruct (updateNode_spec _ _ _ _ Eu) as (U1 & U2 & _).
  destruct (stage_nodes _ _ (HS _ _ Hk) _ _ He) as [<- _].
  assert (forall c, c ∈ nc -> c ∈ concat css) as Hsub.
  { intros c Hc'. apply Hc, D3, elem_of_concat. eauto. }
  split; [by eapply nodes_of_mono|]. intros s Hs. eapply edges_of_mono; eauto.
Qed.

Lemma node_drawn k info n : dict_get k stages = Some info -> n ∈ dict_keys (nodes info) ->
  plan_node n ∈ nodes_of (concat css).
Proof.
  intros Hk [e He]%elem_of_dict_keys. destruct (stage_drawn k info Hk) as (_ & _ & H).
  by destruct (H n e He).
Qed.

Lemma calls_closed : closed (concat css).
Proof.
  unfold closed. apply Forall_forall. intros c (cs & Hcs & Hc)%elem_of_concat.
  destruct (Forall2_elem_r _ _ _ cs Em Hcs) as (info & Hi & E).
  apply elem_of_values_get in Hi as [k Hk]; [|done].
  destruct (stage_drawn k info Hk) as (N1 & N2 & _).
  destruct (updateD3Stage_spec _ _ _ E) as (ncs & Hncs & _ & _ & _ & HC).
  pose proof (HS _ _ Hk) as [Sk Sr Sn].
  assert (Forall (call_in (nodes_of (concat css))) cs) as Hall; [|rewrite Forall_forall in Hall; auto].
  apply HC; [done|by rewrite Sk|by eapply node_drawn|].
  apply Forall_forall. intros d (nc & Hnc & Hd)%elem_of_concat.
  destruct (Forall2_elem_r _ _ _ nc Hncs Hnc) as (e & He & Eu).
  apply elem_of_values_get in He as [n He]; [|by eapply HN].
  destruct (updateNode_spec _ _ _ _ Eu) as (_ & _ & HU). destruct (Sn _ _ He) as [Hid Hsrc].
  assert (Forall (call_in (nodes_of (concat css))) nc) as Hall'; [|rewrite Forall_forall in Hall'; auto].
  apply HU; [|done| |].
  - rewrite Hid. eapply node_drawn; [done|]. apply elem_of_dict_keys. eauto.
  - intros s Hs. eapply node_drawn; eauto.
  - intros k' info' Hk'. by destruct (stage_drawn k' info' Hk') as (_ & ? & _).
Qed.
End drawn.
End calls.

(** ** Keys are distinct *)

Lemma flattenNode_NoDup n : forall r, NoDup (dict_keys r) -> NoDup (dict_keys (flattenNode n r)).
Proof.
  induction n as [i nm a d cs rs IH] using PlanJson_tree_ind. intros r Hr. cbn [flattenNode].
  apply (NoDup_dict_set i {| id := i; name := nm; identifier := a; details := d; sources := map node_id cs;
    remoteSources := rs |}) in Hr. revert Hr. generalize (dict_set i
    {| id := i; name := nm; identifier := a; details := d; sources := map node_id cs; remoteSources := rs |} r).
  induction IH as [|c cs Hc _ IH]; intros r' Hr'; cbn; [done|]. auto.
Qed.

Definition distinct_keys (m : jsmap string StageNodeInfo) : Prop :=
  NoDup (dict_keys m) /\ forall k info, dict_get k m = Some info -> NoDup (dict_keys (nodes info)).

Lemma flattenStage_distinct s : forall res res',
  distinct_keys res -> flattenStage s res = Ok res' -> distinct_keys res'.
Proof.
  induction s as [i st p ss ts subs IH] using Stage_tree_ind. intros res res' HS E.
  apply flattenStage_step in E as (l & m & pl & n & -> & -> & Em & _ & ->). cbn in IH.
  assert (distinct_keys m) as [M1 M2].
  { eapply (foldM_inv distinct_keys); [|exact HS|exact Em]. eapply Forall_impl; [exact IH|]. naive_solver. }
  split; [by apply NoDup_dict_set|]. intros k info. rewrite dict_get_set. case_decide; [|apply M2].
  intros [= <-]. cbn. apply flattenNode_NoDup. constructor.
Qed.

(** ** Flattening returns *)

(** A stage as the coordinator reports it once it is planned: it has a plan
    with a readable representation, whose root is the root of the plan, and
    it has statistics and a list of sub stages. *)
Definition planned_stage (s : Stage) : Prop :=
  exists p n, plan s = Some p /\ parsePlan (jsonRepresentation p) = Ok n /\ node_id n = pid (root p) /\
    is_Some (stageStats s) /\ is_Some (subStages s).

Lemma planned_roots s : Forall planned_stage (all_stages s) -> roots_agree s.
Proof.
  rewrite Forall_forall. intros H st p n Hst Hp Hn. destruct (H st Hst) as (p' & n' & Hp' & Hn' & E & _). congruence.
Qed.

Definition all_stats (m : jsmap string StageNodeInfo) : Prop :=
  forall k info, dict_get k m = Some info -> is_Some (LivePlan.infoStats info).

Lemma flattenStage_total s : Forall planned_stage (all_stages s) -> forall res, all_stats res ->
  exists res', flattenStage s res = Ok res' /\ all_stats res'.
Proof.
  induction s as [i st p ss ts subs IH] using Stage_tree_ind. intros HC res HS. cbn [all_stages] in HC.
  apply Forall_cons in HC as [(pl & n & Hp & Hn & _ & Hss & [l Hl]) HC]. cbn in *. subst p subs. cbn in IH.
  assert (exists m, foldM (fun stage r => flattenStage stage r) l res = Ok m /\ all_stats m) as (m & -> & Hm).
  { revert res HS. induction l as [|s l IHl]; intros res HS; cbn; [eauto|].
    apply Forall_cons in IH as [IHs IH]. cbn in HC. apply Forall_app in HC as [HCs HC].
    destruct (IHs HCs res HS) as (r & -> & Hr). by apply IHl. }
  cbn [mbind result_bind require]. rewrite Hn. cbn [mbind result_bind]. eexists. split; [reflexivity|].
  intros k info. rewrite dict_get_set. case_decide; [|apply Hm]. by intros [= <-].
Qed.

(** ** Properties *)


(** ** The page *)

Section page.
Context (rts : vnode Empty_set -> string) (pathname : string) (isEmbedded : bool).

(** A query whose page renders and whose graph can be drawn. *)
Definition drawable (q : QueryInfo) : Prop :=
  (exists stages cmds, getStages q = Ok stages /\ graph_calls rts stages = Ok cmds) /\
  (isEmbedded = false -> exists v, QueryHeader.render pathname (basic q) = Ok v).

(** What rendering and updating leave alone. *)
Definition same_query (s s' : State) : Prop :=
  query s' = query s /\ ended s' = ended s /\ initialized s' = initialized s.

Lemma updateD3Graph_keeps s s' : updateD3Graph rts s = Ok s' ->
  same_query s s' /\ forall c, svg s = Some c -> svg s' = Some c.
Proof.
  unfold updateD3Graph, same_query. destruct (svg s) as [c|] eqn:Es; [|intros [= <-]; by split_and!].
  destruct (query s) as [q|] eqn:Eq; [|intros [= <-]; by rewrite Eq, Es].
  destruct (getStages q); [|done]. cbn [mbind result_bind]. destruct (graph_calls rts _); [|done]. cbn.
  intros [= <-]. cbn. by split_and!.
Qed.

Lemma updateD3Graph_drawn s c q : svg s = Some c -> query s = Some q -> drawable q ->
  exists s', updateD3Graph rts s = Ok s' /\ same_query s s'.
Proof.
  intros Hc Hq [(stages & cmds & H1 & H2) _]. unfold updateD3Graph. rewrite Hc, Hq, H1. cbn [mbind result_bind].
  rewrite H2. by eexists.
Qed.

Lemma render_same s s' : same_query s s' -> render pathname isEmbedded s' = render pathname isEmbedded s.
Proof. unfold render. by intros (-> & -> & ->). Qed.

Lemma render_drawable s : (forall q, query s = Some q -> drawable q) -> exists v, render pathname isEmbedded s = Ok v.
Proof.
  intros H. unfold render. destruct (query s) as [q|]; [|by eexists]. destruct (H q eq_refl) as [_ Hh].
  destruct (initialized s); [|by eexists]. destruct isEmbedded; [by eexists|]. destruct (Hh eq_refl) as [v ->]. by eexists.
Qed.

(** The update of a page that can be drawn does not throw, and only such a
    page is shown after its update. *)
Lemma commit_ok s : (forall q, query s = Some q -> drawable q) ->
  exists s', commit rts pathname isEmbedded s = Ok s' /\ same_query s s'.
Proof.
  intros HD. unfold commit. destruct (render_drawable s HD) as [v Hv]. rewrite Hv. cbn [mbind result_bind].
  assert (forall s1 c, svg s1 = Some c -> same_query s s1 -> exists s', updateD3Graph rts s1 = Ok s' /\ same_query s s') as HU.
  { intros s1 c Hc H1. destruct (query s1) as [q|] eqn:Eq.
    - destruct (updateD3Graph_drawn s1 c q Hc Eq) as (s' & E & H2); [apply HD; destruct H1; congruence|].
      exists s'. split; [done|]. unfold same_query in *. naive_solver congruence.
    - exists s1. split; [|done]. unfold updateD3Graph. by rewrite Hc, Eq. }
  destruct (svg s) as [c|] eqn:Es.
  - destruct (HU s c Es) as (s' & -> & H); [done|]. by exists s'.
  - destruct (updateD3Graph rts s) as [s1|] eqn:E1; [|revert E1; unfold updateD3Graph; by rewrite Es].
    cbn [mbind result_bind]. destruct (updateD3Graph_keeps _ _ E1) as [HS _].
    rewrite (render_same s s1 HS), Hv. cbn [mbind result_bind].
    revert E1. unfold updateD3Graph at 1. rewrite Es. intros [= <-]. by eapply HU.
Qed.

Lemma commit_drawable s s' q : commit rts pathname isEmbedded s = Ok s' -> query s = Some q -> initialized s = true ->
  drawable q.
Proof.
  intros E Hq Hi. assert (forall s1 s2 c, svg s1 = Some c -> query s1 = Some q -> updateD3Graph rts s1 = Ok s2 ->
    exists stages cmds, getStages q = Ok stages /\ graph_calls rts stages = Ok cmds) as HU.
  { intros s1 s2 c Hc H1. unfold updateD3Graph. rewrite Hc, H1. destruct (getStages q) as [stages|]; [|done].
    cbn [mbind result_bind]. destruct (graph_calls rts stages) as [cmds|] eqn:Eg; [|done]. intros _. eauto. }
  unfold commit in E. destruct (render pathname isEmbedded s) as [v|] eqn:Er; [|done]. cbn [mbind result_bind] in E.
  destruct (updateD3Graph rts s) as [s1|] eqn:E1; [|done]. cbn [mbind result_bind] in E. split.
  - destruct (svg s) as [c|] eqn:Es; [by eapply HU|]. revert E1. unfold updateD3Graph at 1. rewrite Es. intros [= <-].
    destruct (render pathname isEmbedded _) as [v'|]; [|done]. cbn [mbind result_bind] in E. by eapply HU; [..|exact E].
  - intros ->. revert Er. unfold render. rewrite Hq, Hi. destruct (QueryHeader.render pathname (basic q)); [|done]. by eexists.
Qed.

(** The invariant of the page: what is shown can be drawn, and polling ends
    with the final information. *)
Definition view_ok (v : View) : Prop :=
  (forall s q, v = Shown s -> query s = Some q -> drawable q) /\
  (forall q, query (state v) = Some q -> ended (state v) = finalQueryInfo q).

Lemma onAnswer_ok q v : view_ok v -> view_ok (onAnswer rts pathname isEmbedded q v).
Proof.
  intros [H1 H2]. destruct v as [s|s]; cbn [onAnswer]; [|done].
  destruct (commit rts pathname isEmbedded (refresh_success q s)) as [s'|] eqn:E.
  - pose proof (commit_drawable _ _ q E eq_refl eq_refl) as HD.
    destruct (commit_ok (refresh_success q s)) as (s1 & E1 & Hq & He & _); [by intros ? [= <-]|].
    assert (s1 = s') as -> by congruence. cbn in Hq, He. split.
    + intros ? ? [= <-]. rewrite Hq. by intros [= <-].
    + cbn. rewrite Hq, He. by intros ? [= <-].
  - split; [done|]. cbn. by intros ? [= <-].
Qed.

Lemma onFailure_ok v : view_ok v -> exists v', onFailure rts pathname isEmbedded v = Ok v' /\ view_ok v'.
Proof.
  intros [H1 H2]. destruct v as [s|s]; cbn [onFailure]; [|by eexists].
  destruct (commit_ok (refresh_error s)) as (s' & -> & Hq & He & _); [intros q Hq; by eapply H1|].
  cbn [mbind result_bind]. eexists. split; [done|]. cbn in Hq, He. split.
  - intros ? ? [= <-]. rewrite Hq. by eapply H1.
  - cbn. rewrite Hq, He. exact H2.
Qed.

(** The view after a list of answers: it shows the last one as long as all
    could be drawn, and is blank, with the first one that could not, otherwise. *)
Definition plan_log (v : View * list QueryInfo) : Prop :=
  match v.1 with
  | Shown s => query s = last v.2 /\ Forall drawable v.2
  | Blank s => exists pre q post, v.2 = pre ++ q :: post /\ Forall drawable pre /\ ~ drawable q /\ query s = Some q
  end.

Lemma onAnswer_log q v l : view_ok v -> plan_log (v, l) -> plan_log (onAnswer rts pathname isEmbedded q v, l ++ [q]).
Proof.
  unfold plan_log. cbn [fst snd]. intros HV HI. destruct v as [s|s]; cbn [onAnswer].
  - destruct HI as [_ HF]. destruct (commit rts pathname isEmbedded (refresh_success q s)) as [s'|] eqn:E.
    + pose proof (commit_drawable _ _ q E eq_refl eq_refl) as HD.
      destruct (commit_ok (refresh_success q s)) as (s1 & E1 & Hq & _); [by intros ? [= <-]|].
      assert (s1 = s') as -> by congruence. cbn in Hq. rewrite Hq, last_snoc. split; [done|].
      apply Forall_app. split; [done|]. constructor; [done|constructor].
    + exists l, q, []. split_and!; [done..| |done]. intros HD.
      destruct (commit_ok (refresh_success q s)) as (s1 & E1 & _); [by intros ? [= <-]|congruence].
  - destruct HI as (pre & q0 & post & -> & H1 & H2 & H3). exists pre, q0, (post ++ [q]). by rewrite <- app_assoc.
Qed.

Lemma onFailure_log v l v' : view_ok v -> plan_log (v, l) -> onFailure rts pathname isEmbedded v = Ok v' -> plan_log (v', l).
Proof.
  intros [H1 _] HI. destruct v as [s|s]; cbn [onFailure]; [|by intros [= <-]].
  destruct (commit_ok (refresh_error s)) as (s' & -> & Hq & _); [intros q Hq; by eapply H1|].
  cbn [mbind result_bind]. intros [= <-]. unfold plan_log in *. cbn [fst snd] in *. by rewrite Hq.
Qed.

(** The page with the answers it has got. *)
Definition logged_plan : Poller (View * list QueryInfo) unit QueryInfo unit := logged (poller rts pathname isEmbedded).

Definition log_inv (v : View * list QueryInfo) : Prop := view_ok v.1 /\ plan_log v.

Lemma answered_log c a v : log_inv v -> exists v', answered (P := logged_plan) c a v = Ok v' /\ log_inv v'.
Proof.
  intros [H1 H2]. destruct v as [v l], a as [q|[]]; cbn [fst] in H1.
  - exists (onAnswer rts pathname isEmbedded q v, l ++ [q]). split; [done|]. split; [by apply onAnswer_ok|by apply onAnswer_log].
  - destruct (onFailure_ok v H1) as (v' & E & H3). exists (v', l).
    change (answered (P := logged_plan) c (inr tt) (v, l)) with (s' ← onFailure rts pathname isEmbedded v; Ok (s', l)).
    rewrite E. split; [done|]. split; [done|by apply (onFailure_log v)].
Qed.

Lemma plan_log_reach t m :
  reach (P := logged_plan) (mounted (P := logged_plan) (Shown initial_state, [])) t m -> t = false /\ log_inv (comp m).
Proof.
  assert (log_inv (Shown initial_state, [])) as H0 by (split; [split; [by intros ? ? [= <-]|done]|by split]).
  assert (forall v, log_inv v -> log_inv (on_start (Poller := logged_plan) v).1) as HS by (by intros [v l]).
  assert (forall v v', log_inv v -> local_step (Poller := logged_plan) v v' -> log_inv v') as HL by (by intros ? ? ? [[] _]).
  intros H. split; revert H.
  - by apply (reach_inv_no_throw (P := logged_plan) log_inv); [|apply answered_log|..].
  - apply (reach_inv (P := logged_plan) log_inv); [done| |done|done].
    intros c a s s' HI E. destruct (answered_log c a s HI) as (? & ? & ?). congruence.
Qed.

(** a query that has no output stage yet takes the page off for good: the page
    goes blank, although it announces that the plan will appear when the query
    starts running, and it stays blank, and polls on in vain, whatever comes
    later. *)
Theorem queued_plan_blank (q : QueryInfo) (s : State) (later : list QueryInfo) :
  outputStage q = None ->
  fold_left (fun v q => onAnswer rts pathname isEmbedded q v) (q :: later) (Shown s) = Blank (refresh_success q s).
Proof.
  intros Hq. cbn [fold_left]. assert (onAnswer rts pathname isEmbedded q (Shown s) = Blank (refresh_success q s)) as ->.
  { cbn [onAnswer]. destruct (commit _ _ _ _) as [s'|] eqn:E; [|done].
    destruct (commit_drawable _ _ q E eq_refl eq_refl) as [(stages & _ & Hs & _) _].
    revert Hs. unfold getStages. by rewrite Hq. }
  by induction later.
Qed.

(** The canvas is looked for at the first update only. *)
Lemma onAnswer_svg q s c s' : svg s = Some c -> onAnswer rts pathname isEmbedded q (Shown s) = Shown s' -> svg s' = Some c.
Proof.
  intros Hc. cbn [onAnswer]. destruct (commit _ _ _ _) as [s1|] eqn:E; [|done]. intros [= <-].
  revert E. unfold commit. destruct (render _ _ _); [|done]. cbn [mbind result_bind].
  destruct (updateD3Graph rts _) as [s2|] eqn:E2; [|done]. cbn [mbind result_bind refresh_success svg]. rewrite Hc.
  intros [= <-]. by apply updateD3Graph_keeps in E2 as [_ H]; apply H.
Qed.

(** a first request that fails leaves the plan without a canvas: the update
    that follows looks for it while the page shows an error, and no later
    answer looks again, so nothing is there to draw the plan on. *)
Theorem canvas_missed (later : list QueryInfo) (s : State) :
  (v ← onFailure rts pathname isEmbedded (Shown initial_state);
   Ok (fold_left (fun v q => onAnswer rts pathname isEmbedded q v) later v)) = Ok (Shown s) ->
  svg s = Some {| selector := "#plan-canvas"; children := [] |}.
Proof.
  cbn. intros [= H]. revert H.
  assert (forall s0, svg s0 = Some {| selector := "#plan-canvas"; children := [] |} ->
    fold_left (fun v q => onAnswer rts pathname isEmbedded q v) later (Shown s0) = Shown s ->
    svg s = Some {| selector := "#plan-canvas"; children := [] |}) as HF; [|by apply HF].
  induction later as [|q later IH]; intros s0 H0; cbn [fold_left]; [by intros [= <-]|].
  destruct (onAnswer rts pathname isEmbedded q (Shown s0)) as [s1|s1] eqn:E.
  - apply IH. by eapply onAnswer_svg.
  - intros H. exfalso. clear -H. by induction later.
Qed.
End page.

(** ** Examples *)

(** Two stages: an output node over a remote source, and a scan. *)
Definition q_ (k v : string) : string := quoted k +:+ ":" +:+ quoted v.

Definition plan_text (id name children remote : string) : string :=
  "{" +:+ q_ "id" id +:+ "," +:+ q_ "name" name +:+ "," +:+ q_ "identifier" "[]" +:+ "," +:+ q_ "details" ""
  +:+ "," +:+ quoted "children" +:+ ":[" +:+ children +:+ "]," +:+ quoted "remoteSources" +:+ ":[" +:+ remote +:+ "]}".

Definition sample_stats : StageInfoStats := {|
  sTotalScheduledTime := "1s"; sTotalCpuTime := "1s"; sTotalBlockedTime := "1s"; sFullyBlocked := false;
  sCumulativeUserMemory := num_of_Z 0; sUserMemoryReservation := "0B"; sPeakUserMemoryReservation := "0B";
  bufferedDataSize := "0B"; sQueuedDrivers := num_of_Z 0; sRunningDrivers := num_of_Z 1;
  sCompletedDrivers := num_of_Z 0; sRawInputDataSize := "10B"; sRawInputPositions := num_of_Z 1;
  sOutputDataSize := "10B"; sOutputPositions := num_of_Z 1; stageOperators := [] |}.

Definition plan_1 : Plan := {|
  planId := "1"; root := Node "tablescan" "9" [] None; distribution := "SOURCE";
  jsonRepresentation := plan_text "9" "TableScan" "" "" |}.
Definition plan_0 : Plan := {|
  planId := "0"; root := Node "output" "5" [] None; distribution := "SINGLE";
  jsonRepresentation := plan_text "5" "Output" (plan_text "7" "RemoteSource" "" (quoted "1")) "" |}.

Definition stage_1 : Stage := mkStage "q.1" "RUNNING" (Some plan_1) (Some sample_stats) (Some []) (Some []).
Definition stage_0 : Stage := mkStage "q.0" "RUNNING" (Some plan_0) (Some sample_stats) (Some []) (Some [stage_1]).

Definition sample_info (stage : option Stage) : QueryInfo := {|
  basic := QueryHeader.sample_query;
  QueryInfo.infoStats := {| endTime := None; queuedTime := "1s"; totalScheduledTime := "1s"; totalBlockedTime := "1s";
    processedInputPositions := num_of_Z 1; processedInputDataSize := "1B"; rawInputPositions := num_of_Z 1;
    rawInputDataSize := "1B"; peakTotalMemoryReservation := "1B"; qOutputPositions := num_of_Z 1;
    qOutputDataSize := "1B"; writtenPositions := num_of_Z 0; logicalWrittenDataSize := "0B";
    physicalWrittenDataSize := "0B"; spilledDataSize := "0B" |};
  infoSession := {| catalog := None; schema := None; remoteUserAddress := None; clientTags := [];
    systemProperties := []; catalogProperties := []; resourceEstimates := [] |};
  outputStage := stage; finalQueryInfo := false; warnings := []; failureInfo := None;
  errorCodeNumber := num_of_Z 0 |}.

Definition no_html (_ : vnode Empty_set) : string := "".

Definition sample_stages : jsmap string StageNodeInfo :=
  match getStages (sample_info (Some stage_0)) with Ok m => m | Throw _ => [] end.
Definition sample_calls : list gcmd :=
  match graph_calls no_html sample_stages with Ok c => c | Throw _ => [] end.


Lemma queued_plan_blank_witness :
  onAnswer no_html "/ui/plan.html" false (sample_info (Some stage_0))
    (onAnswer no_html "/ui/plan.html" false (sample_info None) (Shown initial_state))
  = Blank (refresh_success (sample_info None) initial_state).
Proof.
  apply (queued_plan_blank no_html "/ui/plan.html" false (sample_info None) initial_state [sample_info (Some stage_0)]).
  reflexivity.
Defined.

Definition plan_shown : State :=
  match onFailure no_html "/ui/plan.html" true (Shown initial_state) with
  | Ok v => state (onAnswer no_html "/ui/plan.html" true (sample_info (Some stage_0)) v)
  | Throw _ => initial_state
  end.

Lemma canvas_missed_witness :
  query plan_shown = Some (sample_info (Some stage_0)) /\
  svg plan_shown = Some {| selector := "#plan-canvas"; children := [] |}.
Proof.
  split; [vm_compute; reflexivity|].
  apply (canvas_missed no_html "/ui/plan.html" true [sample_info (Some stage_0)]). vm_compute. reflexivity.
Defined.
