(* ===== verification/StageDetail.v ===== *)
(** * components/StageDetail.jsx and getChildren: the stage page

    The operators of a stage, linked into one chain per pipeline along the
    plan, drawn as a graph; the details of an operator; the selection of a
    stage and the polling of its query. *)
From S2P Require Import Prelude JsString JsNumber JsNumberFacts JsArray JsObject Html Sparkline Graph.
From S2P Require Import UtilsQuery UtilsText UtilsFormat UtilsParse QueryInfo QueryHeader RefreshLoop.
Local Open Scope Z_scope.

(** ** utils.js: getChildren *)

Definition single_source_types : list string :=
  ["output"; "explainAnalyze"; "project"; "filter"; "aggregation"; "sort"; "markDistinct"; "window";
   "rowNumber"; "topnRowNumber"; "limit"; "distinctlimit"; "topn"; "sample"; "tablewriter"; "delete";
   "metadatadelete"; "tablecommit"; "groupid"; "unnest"; "scalar"].

(** The children of a node; a child property that is missing is [None], and
    so is a missing [sources]. *)
Definition getChildren (n : PlanNode) : option (list (option PlanNode)) :=
  let prop k := dict_get k (pfields n) in
  let t := ptype n in
  if bool_decide (t ∈ single_source_types) then Some [prop "source"]
  else if String.eqb t "join" then Some [prop "left"; prop "right"]
  else if String.eqb t "semijoin" then Some [prop "source"; prop "filteringSource"]
  else if String.eqb t "spatialjoin" then Some [prop "left"; prop "right"]
  else if String.eqb t "indexjoin" then Some [prop "probeSource"; prop "indexSource"]
  else if String.eqb t "union" || String.eqb t "exchange" then map Some <$> psources n
  else Some [].

Module StageDetail.
Import Sparkline.

(** A formatter applied to a number that may be [null]: [null.toFixed] is an
    error, and [null] is below every threshold. *)
Definition format_nullable (f : num -> string) (x : option num) : result string :=
  match x with Some n => Ok (f n) | None => Throw TypeError end.

(** ** Operators *)

(** [null] counts as zero in the sums. *)
Definition ms (value : string) : num := num_of_nullable (parseDuration value).
Definition bytes (value : string) : num := num_of_nullable (parseDataSize value).

Definition getTotalWallTime (o : Operator) : num :=
  (ms (addInputWall o) + ms (getOutputWall o) + ms (finishWall o) + ms (blockedWall o))%js.

(** [OperatorSummary.render] *)
Definition renderOperatorSummary {E} (o : Operator) : result (vnode E) :=
  let totalWallTime := getTotalWallTime o in
  let rowInputRate :=
    if neq totalWallTime 0 then num_of_Z 0
    else ((num_of_Z 1 * inputPositions o) / (totalWallTime / num_of_Z 1000))%js in
  let byteInputRate :=
    if neq totalWallTime 0 then num_of_Z 0
    else ((num_of_Z 1 * bytes (inputDataSize o)) / (totalWallTime / num_of_Z 1000))%js in
  blocked ← format_nullable formatDuration (parseDuration (blockedWall o));
  Ok (
    h "div" [] [
      h "div" [cls "highlight-row"] [
        h "div" [cls "header-row"] [txt (operatorType o)];
        h "div" [] [
          txt (formatCount rowInputRate +:+ " rows/s (" +:+ formatDataSize byteInputRate +:+ "/s)")]];
      h "table" [cls "table"] [
        h "tbody" [] [
          h "tr" [] [
            h "td" [] [txt "Output"];
            h "td" [] [txt (formatCount (outputPositions o) +:+ " rows (" +:+ outputDataSize o +:+ ")")]];
          h "tr" [] [h "td" [] [txt "Drivers"]; h "td" [] [txtn (opTotalDrivers o)]];
          h "tr" [] [h "td" [] [txt "Wall Time"]; h "td" [] [txt (formatDuration totalWallTime)]];
          h "tr" [] [h "td" [] [txt "Blocked"]; h "td" [] [txt blocked]];
          h "tr" [] [
            h "td" [] [txt "Input"];
            h "td" [] [txt (formatCount (inputPositions o) +:+ " rows (" +:+ inputDataSize o +:+ ")")]]]]]).

(** A statistic of [OperatorDetail]: its name, its id, what it shows of an
    operator and how. *)
Record Statistic := {
  statName : string;
  statId : string;
  supplier : Operator -> option num;
  renderer : num -> string
}.

Definition getInitialStatistics : list Statistic :=
  [{| statName := "Total Wall Time"; statId := "totalWallTime";
      supplier := fun o => Some (getTotalWallTime o); renderer := formatDuration |};
   {| statName := "Input Rows"; statId := "inputPositions";
      supplier := fun o => Some (inputPositions o); renderer := formatCount |};
   {| statName := "Input Data Size"; statId := "inputDataSize";
      supplier := fun o => parseDataSize (inputDataSize o); renderer := formatDataSize |};
   {| statName := "Output Rows"; statId := "outputPositions";
      supplier := fun o => Some (outputPositions o); renderer := formatCount |};
   {| statName := "Output Data Size"; statId := "outputDataSize";
      supplier := fun o => parseDataSize (outputDataSize o); renderer := formatDataSize |}].

Definition BAR_CHART_PROPERTIES : options :=
  [("type", Text "bar");
   ("barSpacing", Text "0");
   ("height", Text "80px");
   ("barColor", Text "#747F96");
   ("zeroColor", Text "#8997B3");
   ("tooltipClassname", Text "sparkline-tooltip");
   ("tooltipFormat", Text "Task {{offset:offset}} - {{value}}");
   ("disableHiddenCheck", Flag true)].

(** The bar chart [OperatorStatistic] draws when it is mounted. *)
Definition statisticChart (st : Statistic) (operators : list Operator) : Chart :=
  let numTasks := alen operators in
  let stageBarChartProperties :=
    extend [] [BAR_CHART_PROPERTIES;
               [("barWidth", Number (num_of_Z 800 / num_of_Z numTasks)%js);
                ("tooltipValueLookups", Offsets (map (fun i => num_to_string (num_of_Z i)) (seqZ 0 numTasks)))]] in
  sparkline ("#" +:+ statId st) (map (supplier st) operators) stageBarChartProperties
    [("numberFormatter", Formatter (renderer st))].

(** [OperatorStatistic.render] *)
Definition renderStatistic {E} (st : Statistic) : vnode E :=
  h "div" [cls "row operator-statistic"] [
    h "div" [cls "col-xs-2 italic-uppercase operator-statistic-title"] [txt (statName st)];
    h "div" [cls "col-xs-10"] [h "span" [cls "bar-chart"; at_ "id" (statId st)] []]].

Section with_sort.
Context {AS : ArraySort}.

(** The sort that the charts share: [getTaskNumber(a) - getTaskNumber(b)]. *)
Definition taskNumber (t : Task) : num := getTaskNumber (taskId (taskStatus t)).
Definition compareTaskNumber (a b : Task) : num := (taskNumber a - taskNumber b)%js.

(** The operators of a pipeline of a task that are the given one. *)
Definition taskOperators (o : Operator) (t : Task) : list Operator :=
  flat_map (fun p => if pPipelineId p =? pipelineId o
                     then filterb (fun x => operatorId o =? operatorId x) (operatorSummaries p)
                     else []) (pipelines (stats t)).

Definition getOperatorTasks (o : Operator) (ts : list Task) : list Operator :=
  flat_map (taskOperators o) (array_sort compareTaskNumber ts).

(** The four rates of [OperatorDetail.render]: rows in, bytes in, rows out,
    bytes out.  The rates of rows are per millisecond. *)
Definition detailRates (o : Operator) : num * num * num * num :=
  let totalWallTime := getTotalWallTime o in
  if neq totalWallTime 0 then (num_of_Z 0, num_of_Z 0, num_of_Z 0, num_of_Z 0)
  else (((num_of_Z 1 * inputPositions o) / totalWallTime)%js,
        ((num_of_Z 1 * bytes (inputDataSize o)) / (totalWallTime / num_of_Z 1000))%js,
        ((num_of_Z 1 * outputPositions o) / totalWallTime)%js,
        ((num_of_Z 1 * bytes (outputDataSize o)) / (totalWallTime / num_of_Z 1000))%js).

(** [OperatorDetail.render] *)
Definition renderOperatorDetail {E} (o : Operator) (ts : list Task) : result (vnode E) :=
  let operatorTasks := getOperatorTasks o ts in
  let totalWallTime := getTotalWallTime o in
  let '(rowInputRate, byteInputRate, rowOutputRate, byteOutputRate) := detailRates o in
  blocked ← format_nullable formatDuration (parseDuration (blockedWall o));
  Ok (
    h "div" [cls "row"] [
      h "div" [cls "col-xs-12"] [
        h "div" [cls "modal-header"] [
          h "button" [at_ "type" "button"; cls "close"; at_ "data-dismiss" "modal";
              at_ "aria-label" "Close"] [
            h "span" [at_ "aria-hidden" "true"] [txt times_sign]];
          h "h3" [] [
            h "small" [] [txt "Pipeline "; txtn (num_of_Z (pipelineId o))];
            h "br" [] [];
            txt (operatorType o)]];
        h "div" [cls "row"] [
          h "div" [cls "col-xs-6"] [
            h "table" [cls "table"] [
              h "tbody" [] [
                h "tr" [] [
                  h "td" [] [txt "Input"];
                  h "td" [] [
                    txt (formatCount (inputPositions o) +:+ " rows (" +:+ inputDataSize o +:+ ")")]];
                h "tr" [] [
                  h "td" [] [txt "Input Rate"];
                  h "td" [] [
                    txt (formatCount rowInputRate +:+ " rows/s (" +:+ formatDataSize byteInputRate +:+ "/s)")]];
                h "tr" [] [
                  h "td" [] [txt "Output"];
                  h "td" [] [
                    txt (formatCount (outputPositions o) +:+ " rows (" +:+ outputDataSize o +:+ ")")]];
                h "tr" [] [
                  h "td" [] [txt "Output Rate"];
                  h "td" [] [
                    txt (formatCount rowOutputRate +:+ " rows/s (" +:+ formatDataSize byteOutputRate +:+ "/s)")]]]]];
          h "div" [cls "col-xs-6"] [
            h "table" [cls "table"] [
              h "tbody" [] [
                h "tr" [] [h "td" [] [txt "Wall Time"]; h "td" [] [txt (formatDuration totalWallTime)]];
                h "tr" [] [h "td" [] [txt "Blocked"]; h "td" [] [txt blocked]];
                h "tr" [] [h "td" [] [txt "Drivers"]; h "td" [] [txtn (opTotalDrivers o)]];
                h "tr" [] [h "td" [] [txt "Tasks"]; h "td" [] [txtn (num_of_Z (alen operatorTasks))]]]]]];
        h "div" [cls "row font-white"] [
          h "div" [cls "col-xs-2 italic-uppercase"] [h "strong" [] [txt "Statistic"]];
          h "div" [cls "col-xs-10 italic-uppercase"] [h "strong" [] [txt "Tasks"]]];
        frag (map renderStatistic getInitialStatistics);
        h "p" [] [];
        h "p" [] []]]).

(** ** The graph of operators *)

(** An operator with its [child] property. *)
Inductive LinkedOp := Linked (op : Operator) (child : option LinkedOp).

Definition group_push {K} `{EqDecision K} (k : K) (o : Operator) (m : jsmap K (list Operator))
    : jsmap K (list Operator) :=
  let m := if dict_has k m then m else dict_set k [] m in
  dict_set k (default [] (dict_get k m) ++ [o]) m.

Definition computeOperatorMap (operators : list Operator) : jsmap string (list Operator) :=
  fold_left (fun m o => group_push (planNodeId o) o m) operators [].

(** [sourceResults.set], with the warning for a pipeline that is already
    there. *)
Definition add_source (sr : jsmap Z LinkedOp) (entry : Z * LinkedOp) : jsmap Z LinkedOp :=
  if dict_has entry.1 sr then sr else dict_set entry.1 entry.2 sr.

Definition compareOperatorId (a b : Operator) : num :=
  (num_of_Z (operatorId a) - num_of_Z (operatorId b))%js.

(** The chain of the operators of one node in one pipeline, from the source
    to the sink, on top of the child's chain. *)
Definition link (child : option LinkedOp) (operators : list Operator) : option LinkedOp :=
  match array_sort compareOperatorId operators with
  | [] => None
  | source :: rest =>
      Some (fold_left (fun current o => Linked o (Some current)) rest (Linked source child))
  end.

(** The chains of a node: those of its pipelines, then the other pipelines of
    its sources. *)
Definition node_chains (nodeOperators : list Operator) (sourceResults : jsmap Z LinkedOp) : jsmap Z LinkedOp :=
  let pipelineOperators := fold_left (fun m o => group_push (pipelineId o) o m) nodeOperators [] in
  let result := fold_left (fun r '(p, ops) =>
      match link (dict_get p sourceResults) ops with
      | Some sink => dict_set p sink r
      | None => r
      end) pipelineOperators [] in
  fold_left add_source sourceResults result.

Fixpoint pheight (n : PlanNode) : nat :=
  let '(Node _ _ fields sources) := n in
  S (Nat.max (foldr (fun x k => Nat.max (pheight x.2) k) O fields)
             (match sources with Some l => foldr (fun x k => Nat.max (pheight x) k) O l | None => O end)).

Fixpoint compute_graphs (fuel : nat) (operatorMap : jsmap string (list Operator)) (planNode : PlanNode)
    : result (jsmap Z LinkedOp) :=
  match fuel with
  | O => Throw TypeError
  | S fuel' =>
      sources ← require (getChildren planNode);
      sourceResults ← foldM (fun source sr =>
          source ← require source;
          r ← compute_graphs fuel' operatorMap source;
          Ok (fold_left add_source r sr)) sources [];
      match dict_get (pid planNode) operatorMap with
      | None | Some [] => Ok sourceResults
      | Some nodeOperators => Ok (node_chains nodeOperators sourceResults)
      end
  end.

Definition computeOperatorGraphs (planNode : PlanNode) (operatorMap : jsmap string (list Operator))
    : result (jsmap Z LinkedOp) :=
  compute_graphs (pheight planNode) operatorMap planNode.

Section graph.
(** [ReactDOMServer.renderToString] *)
Context (renderToString : vnode Empty_set -> string).

Definition dec (z : Z) : string := num_to_string (num_of_Z z).

Definition operatorNodeId (o : Operator) : string :=
  "operator-" +:+ dec (pipelineId o) +:+ "-" +:+ dec (operatorId o).

Fixpoint computeD3StageOperatorGraph (l : LinkedOp) (sink : option string) (pipelineNode : string)
    : result (list gcmd) :=
  let '(Linked o child) := l in
  let nodeId := operatorNodeId o in
  v ← renderOperatorSummary o;
  childCmds ← match child with
              | Some c => computeD3StageOperatorGraph c (Some nodeId) pipelineNode
              | None => Ok []
              end;
  Ok ([SetNode nodeId [("class", "operator-stats"); ("label", renderToString v); ("labelType", "html")]]
      ++ childCmds
      ++ match sink with
         | Some k => [SetEdge nodeId k [("class", "plan-edge"); ("arrowheadClass", "plan-arrowhead")]]
         | None => []
         end
      ++ [SetParent nodeId pipelineNode]).

Definition pipelineCalls (entry : Z * LinkedOp) : result (list gcmd) :=
  let '(p, operator) := entry in
  let pipelineNodeId := "pipeline-" +:+ dec p in
  cmds ← computeD3StageOperatorGraph operator None pipelineNodeId;
  Ok (SetNode pipelineNodeId [("label", "Pipeline " +:+ dec p +:+ " "); ("clusterLabelPos", "top");
                              ("style", "fill: #2b2b2b"); ("labelStyle", "fill: #fff")] :: cmds).

(** [updateD3Graph]: the calls on a fresh graph, and the canvas it is drawn
    on, an element of stage.html that was emptied before, when the graph is
    shown. *)
Definition updateD3Graph (stage : Stage) : result (list gcmd * option Svg) :=
  st ← require (stageStats stage);
  let operatorMap := computeOperatorMap (stageOperators st) in
  p ← require (plan stage);
  operatorGraphs ← computeOperatorGraphs (root p) operatorMap;
  cmds ← mapM pipelineCalls operatorGraphs;
  Ok (initializeGraph ++ concat cmds,
      if (0 <? length operatorGraphs)%nat then Some (initializeSvg true "#operator-canvas") else None).
End graph.

(** [handleOperatorClick]: the operator whose details are shown, the last one
    with the two numbers of the css id. *)
Definition clickedOperator (operatorCssId : string) (operators : list Operator) : option Operator :=
  let part i := match split_on "-" operatorCssId !! i with Some s => parseInt s | None => nan end in
  last (filterb (fun o => neq (num_of_Z (pipelineId o)) (part 1%nat)
                          && neq (num_of_Z (operatorId o)) (part 2%nat)) operators).

Definition handleOperatorClick {E} (operatorCssId : string) (stage : Stage) : result (vnode E) :=
  st ← require (stageStats stage);
  o ← require (clickedOperator operatorCssId (stageOperators st));
  ts ← require (tasks stage);
  renderOperatorDetail o ts.

(** [StageOperatorGraph.render] *)
Definition renderStageOperatorGraph {E} (stage : Stage) : vnode E :=
  match plan stage with
  | None =>
      h "div" [cls "row error-message"] [
        h "div" [cls "col-xs-12"] [h "h4" [] [txt "Stage does not have a plan"]]]
  | Some _ =>
      if match stageStats stage with
         | None => true
         | Some st => alen (stageOperators st) =? 0
         end
      then
        h "div" [cls "row error-message"] [
          h "div" [cls "col-xs-12"] [
            h "h4" [] [txt "Operator data not available for "; txt (stageId stage)]]]
      else none
  end.
End with_sort.

(** ** The page *)

(** [selectedStageId] is a number at first and the id of a plan after a click. *)
Inductive Selection := SelNumber (n : num) | SelPlan (id : string).

Definition selection_text (s : Selection) : string :=
  match s with SelNumber n => num_to_string n | SelPlan i => i end.

Record State := {
  initialized : bool;
  ended : bool;
  selectedStageId : option Selection;
  query : option QueryInfo
}.

Definition initial_state : State :=
  {| initialized := false; ended := false; selectedStageId := None; query := None |}.

(** The start of [refreshLoop]: the query it asks for and the selection the
    callback will write back. *)
Definition queryString (search : string) : list string := split_on "." (getFirstParameter search).

Definition refresh_start (search : string) (s : State) : Selection :=
  match selectedStageId s with
  | Some sel => sel
  | None =>
      match queryString search with
      | _ :: stage :: _ => SelNumber (parseInt stage)
      | _ => SelNumber (num_of_Z 0)
      end
  end.

Definition refresh_success (selected : Selection) (q : QueryInfo) (s : State) : State :=
  {| initialized := true; ended := finalQueryInfo q; selectedStageId := Some selected; query := Some q |}.

Definition refresh_error (s : State) : State :=
  {| initialized := true; ended := ended s; selectedStageId := selectedStageId s; query := query s |}.

Definition selectStage (id : string) (s : State) : State :=
  {| initialized := initialized s; ended := ended s; selectedStageId := Some (SelPlan id); query := query s |}.

(** The id is a string here, so the test for [null] never succeeds. *)
Fixpoint findStage (id : string) (currentStage : Stage) : result (option Stage) :=
  let '(mkStage i _ _ _ _ subs) := currentStage in
  if String.eqb i id then Ok (Some currentStage)
  else
    match subs with
    | None => Throw TypeError
    | Some l =>
        (fix loop l :=
           match l with
           | [] => Ok None
           | s :: l' =>
               r ← findStage id s;
               match r with Some st => Ok (Some st) | None => loop l' end
           end) l
    end.

Fixpoint getAllStageIds (currentStage : Stage) (acc : list string) : result (list string) :=
  let '(mkStage _ _ p _ _ subs) := currentStage in
  pl ← require p;
  match subs with
  | None => Throw TypeError
  | Some l => foldM (fun s r => getAllStageIds s r) l (acc ++ [planId pl])
  end.

(** What the page can raise. *)
Inductive event :=
| SelectStage (id : string)
| HeaderAjax (a : QueryHeader.Ajax).

Definition render (pathname : string) (s : State) : result (vnode event) :=
  match query s with
  | None =>
      let label := if initialized s then txt "Query not found" else h "div" [cls "loader"] [txt "Loading..."] in
      Ok (
        h "div" [cls "row error-message"] [h "div" [cls "col-xs-12"] [h "h4" [] [label]]])
  | Some q =>
      match outputStage q with
      | None =>
          Ok (
            h "div" [cls "row error-message"] [
              h "div" [cls "col-xs-12"] [h "h4" [] [txt "Query does not have an output stage"]]])
      | Some output =>
          allStages ← getAllStageIds output [];
          let wanted := match selectedStageId s with Some sel => selection_text sel | None => "null" end in
          found ← findStage (queryId (basic q) +:+ "." +:+ wanted) output;
          match found with
          | None =>
              Ok (
                h "div" [cls "row error-message"] [
                  h "div" [cls "col-xs-12"] [h "h4" [] [txt "Stage not found"]]])
          | Some stage =>
              let stageOperatorGraph :=
                if negb (isQueryEnded (qstate (basic q))) then
                  h "div" [cls "row error-message"] [
                    h "div" [cls "col-xs-12"] [
                      h "h4" [] [txt "Operator graph will appear automatically when query completes."];
                      h "div" [cls "loader"] [txt "Loading..."]]]
                else renderStageOperatorGraph stage in
              header ← QueryHeader.render pathname (basic q);
              pl ← require (plan stage);
              Ok (
                h "div" [] [
                  vmap HeaderAjax header;
                  h "div" [cls "row"] [
                    h "div" [cls "col-xs-12"] [
                      h "div" [cls "row"] [
                        h "div" [cls "col-xs-2"] [h "h3" [] [txt "Stage "; txt (planId pl)]];
                        h "div" [cls "col-xs-8"] [];
                        h "div" [cls "col-xs-2 stage-dropdown"] [
                          h "div" [cls "input-group-btn"] [
                            h "button" [at_ "type" "button";
                                cls "btn btn-default dropdown-toggle";
                                at_ "data-toggle" "dropdown";
                                at_ "aria-haspopup" "true"; at_ "aria-expanded" "false"] [
                              txt "Select Stage ";
                              h "span" [cls "caret"] []];
                            h "ul" [cls "dropdown-menu"] [
                              frag (map (fun i => h "li" [] [h "a" [onClick (SelectStage i)] [txt i]]) allStages)]]]]]];
                  h "hr" [cls "h3-hr"] [];
                  h "div" [cls "row"] [h "div" [cls "col-xs-12"] [stageOperatorGraph]]])
          end
      end
  end.

(** The stage whose operator graph is on the page. *)
Definition graphStage (s : State) : result (option Stage) :=
  match query s with
  | Some q =>
      match outputStage q with
      | Some output =>
          let wanted := match selectedStageId s with Some sel => selection_text sel | None => "null" end in
          found ← findStage (queryId (basic q) +:+ "." +:+ wanted) output;
          Ok (if isQueryEnded (qstate (basic q)) then found else None)
      | None => Ok None
      end
  | None => Ok None
  end.

(** Rendering the page, and the update of the operator graph when it is
    there. *)
Definition commit (renderToString : vnode Empty_set -> string) (pathname : string) (s : State) : result State :=
  _ ← render pathname s;
  stage ← graphStage s;
  match stage with
  | Some stage => _ ← updateD3Graph renderToString stage; Ok s
  | None => Ok s
  end.

(** ** The event loop *)

Section poller.
Context (search : string) (renderToString : vnode Empty_set -> string) (pathname : string).

Definition poller : Poller State Selection QueryInfo unit := {|
  on_start s := (s, refresh_start search s);
  on_success selected q s := commit renderToString pathname (refresh_success selected q s);
  on_error _ s := commit renderToString pathname (refresh_error s);
  keep_polling s := match query s with None => true | Some _ => negb (ended s) end;
  local_step s s' := exists id, s' = selectStage id s
|}.
End poller.
End StageDetail.
