(* ===== verification/StageDetailFacts.v ===== *)
(** * Properties of the stage page

    The chains of operators against a reference definition, the calls on the
    graph, the way from a drawn operator to its details, the stage menu and
    the selection of a stage. *)
From S2P Require Import Prelude JsString JsNumber JsNumberFacts JsArray JsObject Html Graph.
From S2P Require Import UtilsQuery UtilsText UtilsFormat UtilsParse QueryInfo QueryHeader RefreshLoop.
From S2P Require Import StageDetail LivePlanFacts.
Import StageDetail.
Local Open Scope Z_scope.

Section chains.
Context {AS : ArraySort}.

(** ** Chains *)

(** The operators of a chain, from the source to the sink. *)
Fixpoint ops_of (l : LinkedOp) : list Operator :=
  let '(Linked o child) := l in
  match child with Some c => ops_of c | None => [] end ++ [o].

Definition chain_of (l : option LinkedOp) : list Operator :=
  match l with Some l => ops_of l | None => [] end.

Definition chain (r : jsmap Z LinkedOp) (p : Z) : list Operator := chain_of (dict_get p r).

Lemma ops_of_ne l : ops_of l <> [].
Proof. destruct l as [o c]. cbn. by destruct (match c with Some c => _ | None => _ end). Qed.

Lemma chain_nil r p : chain r p = [] <-> dict_get p r = None.
Proof.
  unfold chain. destruct (dict_get p r) as [l|]; cbn; [|done]. split; [|done].
  intros H. by apply ops_of_ne in H.
Qed.

Lemma ops_of_fold rest l :
  ops_of (fold_left (fun current o => Linked o (Some current)) rest l) = ops_of l ++ rest.
Proof.
  revert l. induction rest as [|o rest IH]; intros l; cbn; [by rewrite app_nil_r|].
  rewrite IH. cbn. by rewrite <- app_assoc.
Qed.

Lemma link_chain child ops : ops <> [] ->
  exists l, link child ops = Some l /\ ops_of l = chain_of child ++ array_sort compareOperatorId ops.
Proof.
  intros Hne. unfold link. destruct (array_sort compareOperatorId ops) as [|o rest] eqn:E.
  { exfalso. apply Hne. apply nil_length_inv. by rewrite <- (array_sort_length compareOperatorId), E. }
  eexists. split; [done|]. rewrite ops_of_fold. cbn. by destruct child; rewrite <- app_assoc.
Qed.

(** ** Grouping *)

Lemma group_push_get {K} `{EqDecision K} (k k' : K) o m :
  dict_get k (group_push k' o m) =
  if decide (k = k') then Some (default [] (dict_get k' m) ++ [o]) else dict_get k m.
Proof.
  unfold group_push, dict_has. destruct (dict_get k' m) as [l|] eqn:E.
  - rewrite bool_decide_true by eauto. rewrite dict_get_set, E. done.
  - rewrite bool_decide_false by (by intros [? ?]). rewrite dict_get_set, dict_get_set_eq. cbn.
    case_decide; [done|]. by rewrite dict_get_set_ne.
Qed.

Lemma group_push_NoDup {K} `{EqDecision K} (k : K) o m :
  NoDup (dict_keys m) -> NoDup (dict_keys (group_push k o m)).
Proof. intros H1. unfold group_push. case_if; by repeat apply NoDup_dict_set. Qed.

(** The groups of a list under a key. *)
Lemma group_fold {K} `{EqDecision K} (key : Operator -> K) os : forall m k,
  dict_get k (fold_left (fun m o => group_push (key o) o m) os m) =
  match filterb (fun o => bool_decide (key o = k)) os with
  | [] => dict_get k m
  | l => Some (default [] (dict_get k m) ++ l)
  end.
Proof.
  induction os as [|o os IH]; intros m k; cbn; [done|]. rewrite IH, group_push_get.
  case_bool_decide as Hk; case_decide; try congruence.
  subst k. cbn. destruct (filterb _ os); [done|]. by rewrite <- app_assoc.
Qed.

Lemma group_fold_NoDup {K} `{EqDecision K} (key : Operator -> K) os : forall m,
  NoDup (dict_keys m) -> NoDup (dict_keys (fold_left (fun m o => group_push (key o) o m) os m)).
Proof. induction os as [|o os IH]; intros m Hm; cbn; [done|]. by apply IH, group_push_NoDup. Qed.

(** ** The chains of a node *)

Definition in_pipeline (p : Z) (o : Operator) : bool := bool_decide (pipelineId o = p).

Lemma add_source_get sr e k :
  dict_get k (add_source sr e) =
  match dict_get k sr with Some l => Some l | None => if decide (k = e.1) then Some e.2 else None end.
Proof.
  unfold add_source, dict_has. destruct e as [p l]. cbn. case_bool_decide as Hp.
  - destruct (dict_get k sr) eqn:E; [done|]. case_decide; [|done]. subst. rewrite E in Hp. by destruct Hp.
  - rewrite dict_get_set. case_decide; [|by destruct (dict_get k sr)]. subst.
    destruct (dict_get p sr) eqn:E; [|done]. exfalso. eauto.
Qed.

Lemma add_source_NoDup sr e : NoDup (dict_keys sr) -> NoDup (dict_keys (add_source sr e)).
Proof. intros H. unfold add_source. case_if; [done|]. by apply NoDup_dict_set. Qed.

Lemma add_sources_get r : forall sr k, NoDup (dict_keys r) ->
  dict_get k (fold_left add_source r sr) =
  match dict_get k sr with Some l => Some l | None => dict_get k r end.
Proof.
  induction r as [|[p l] r IH]; intros sr k HN; cbn.
  - by destruct (dict_get k sr).
  - apply NoDup_cons in HN as [Hp HN]. rewrite IH, add_source_get by done. cbn.
    destruct (dict_get k sr); [done|]. case_decide as Hk; [|done]. done.
Qed.

Lemma add_sources_NoDup r : forall sr, NoDup (dict_keys sr) -> NoDup (dict_keys (fold_left add_source r sr)).
Proof. induction r as [|e r IH]; intros sr H; cbn; [done|]. by apply IH, add_source_NoDup. Qed.

(** The loop over the pipelines of a node. *)
Definition link_step (sr : jsmap Z LinkedOp) (r : jsmap Z LinkedOp) (e : Z * list Operator) : jsmap Z LinkedOp :=
  let '(p, ops) := e in
  match link (dict_get p sr) ops with Some sink => dict_set p sink r | None => r end.

Lemma link_fold sr po : forall r k, NoDup (dict_keys po) -> Forall (fun e => e.2 <> []) po ->
  dict_get k (fold_left (link_step sr) po r) =
  match dict_get k po with Some ops => link (dict_get k sr) ops | None => dict_get k r end.
Proof.
  induction po as [|[p ops] po IH]; intros r k HN HF; cbn; [done|].
  apply NoDup_cons in HN as [Hp HN]. apply Forall_cons in HF as [Hops HF]. cbn in Hops.
  rewrite IH by done. destruct (link_chain (dict_get p sr) ops Hops) as (l & E & El).
  rewrite E. case_decide as Hk.
  - subst k. rewrite E. destruct (dict_get p po) eqn:Ep; [|by rewrite dict_get_set_eq].
    exfalso. apply Hp, elem_of_dict_keys. eauto.
  - destruct (dict_get k po); [done|]. by rewrite dict_get_set_ne.
Qed.

Lemma link_fold_NoDup sr po : forall r, NoDup (dict_keys r) -> NoDup (dict_keys (fold_left (link_step sr) po r)).
Proof.
  induction po as [|[p ops] po IH]; intros r H; cbn; [done|]. apply IH.
  destruct (link _ _); [|done]. by apply NoDup_dict_set.
Qed.

Lemma node_chains_spec os sr p : NoDup (dict_keys sr) ->
  chain (node_chains os sr) p = chain sr p ++ array_sort compareOperatorId (filterb (in_pipeline p) os).
Proof.
  intros HN. unfold chain, node_chains.
  set (po := fold_left (fun m o => group_push (pipelineId o) o m) os []).
  assert (forall k, dict_get k po = match filterb (in_pipeline k) os with [] => None | l => Some l end) as Hpo.
  { intros k. unfold po. rewrite (group_fold pipelineId). unfold in_pipeline. by destruct (filterb _ os). }
  assert (NoDup (dict_keys po)) as Npo by (apply group_fold_NoDup; constructor).
  assert (Forall (fun e => e.2 <> []) po) as Fpo.
  { apply Forall_forall. intros [k l] Hk. apply elem_of_dict_get in Hk; [|done]. rewrite Hpo in Hk.
    cbn. destruct (filterb _ os); [done|]. by simplify_eq. }
  rewrite add_sources_get by done. fold (link_step sr). rewrite link_fold, Hpo by done. cbn [dict_get].
  destruct (filterb (in_pipeline p) os) as [|o os'] eqn:Eo.
  - assert (array_sort compareOperatorId [] = []) as ->; [|by rewrite app_nil_r].
    apply nil_length_inv. by rewrite array_sort_length.
  - destruct (link_chain (dict_get p sr) (o :: os')) as (l & -> & El); [done|]. cbn. by rewrite El.
Qed.

Lemma node_chains_NoDup os sr : NoDup (dict_keys (node_chains os sr)).
Proof. unfold node_chains. apply add_sources_NoDup. fold (link_step sr). apply link_fold_NoDup. constructor. Qed.

(** ** The chains of a plan *)

(** The operators of a node in a pipeline. *)
Definition node_ops (opMap : jsmap string (list Operator)) (p : Z) (n : PlanNode) : list Operator :=
  filterb (in_pipeline p) (default [] (dict_get (pid n) opMap)).

Definition children (n : PlanNode) : list PlanNode := omap (fun c => c) (default [] (getChildren n)).

Fixpoint first_nonempty {A} (ls : list (list A)) : list A :=
  match ls with [] => [] | [] :: ls' => first_nonempty ls' | l :: _ => l end.

(** Reference: a pipeline runs through the first source that has operators of
    it, then through the node's own operators in the order of their ids. *)
Fixpoint ref_chain (fuel : nat) (opMap : jsmap string (list Operator)) (p : Z) (n : PlanNode) : list Operator :=
  match fuel with
  | O => []
  | S fuel' =>
      first_nonempty (map (ref_chain fuel' opMap p) (children n))
      ++ array_sort compareOperatorId (node_ops opMap p n)
  end.

Lemma chain_add_sources r sr p : NoDup (dict_keys r) ->
  chain (fold_left add_source r sr) p = match chain sr p with [] => chain r p | l => l end.
Proof.
  intros HN. unfold chain. rewrite add_sources_get by done. destruct (dict_get p sr) as [l|]; cbn; [|done].
  destruct (ops_of l) eqn:E; [|done]. by apply ops_of_ne in E.
Qed.

Lemma sources_fold f opMap cs :
  (forall n r, compute_graphs f opMap n = Ok r ->
     NoDup (dict_keys r) /\ forall p, chain r p = ref_chain f opMap p n) ->
  forall sr sr', NoDup (dict_keys sr) ->
  foldM (fun source sr =>
      source ← require source;
      r ← compute_graphs f opMap source;
      Ok (fold_left add_source r sr)) cs sr = Ok sr' ->
  NoDup (dict_keys sr') /\
  forall p, chain sr' p = first_nonempty (chain sr p :: map (ref_chain f opMap p) (omap (fun c => c) cs)).
Proof.
  intros IH. induction cs as [|[c|] cs IHc]; intros sr sr' HN; cbn.
  - intros [= <-]. split; [done|]. intros p. by destruct (chain sr p).
  - destruct (compute_graphs f opMap c) as [r|] eqn:E; [|done]. cbn. intros Hf.
    destruct (IH c r E) as [Nr Hr]. destruct (IHc _ _ (add_sources_NoDup r sr HN) Hf) as [N' H'].
    split; [done|]. intros p. rewrite H', chain_add_sources, Hr by done. cbn. by destruct (chain sr p).
  - done.
Qed.

Lemma sort_nil : array_sort compareOperatorId [] = [].
Proof. apply nil_length_inv. by rewrite array_sort_length. Qed.

Lemma compute_graphs_ref f opMap : forall n r,
  compute_graphs f opMap n = Ok r -> NoDup (dict_keys r) /\ forall p, chain r p = ref_chain f opMap p n.
Proof.
  induction f as [|f IH]; intros n r; [done|]. cbn [compute_graphs ref_chain]. unfold children, node_ops.
  destruct (getChildren n) as [cs|]; [|done]. cbn [require mbind result_bind default].
  destruct (foldM _ cs []) as [sr|] eqn:E; [|done]. cbn [mbind result_bind].
  destruct (sources_fold f opMap cs IH [] sr ltac:(constructor) E) as [Ns Hs].
  destruct (dict_get (pid n) opMap) as [[|o os]|]; intros [= <-].
  - split; [done|]. intros p. rewrite Hs. cbn. by rewrite sort_nil, app_nil_r.
  - split; [apply node_chains_NoDup|]. intros p. by rewrite node_chains_spec, Hs by done.
  - split; [done|]. intros p. rewrite Hs. cbn. by rewrite sort_nil, app_nil_r.
Qed.

(** The nodes of a plan. *)
Fixpoint plan_nodes (fuel : nat) (n : PlanNode) : list PlanNode :=
  match fuel with O => [] | S fuel' => n :: flat_map (plan_nodes fuel') (children n) end.

Definition nonempty {A} (l : list A) : bool := match l with [] => false | _ => true end.

(** A pipeline never comes out of two sources of a node: the condition under
    which the code prints no error. *)
Fixpoint linear (fuel : nat) (opMap : jsmap string (list Operator)) (p : Z) (n : PlanNode) : bool :=
  match fuel with
  | O => true
  | S fuel' =>
      (length (filterb nonempty (map (ref_chain fuel' opMap p) (children n))) <=? 1)%nat
      && forallb (linear fuel' opMap p) (children n)
  end.

Lemma no_nonempty_concat {A} (ls : list (list A)) : filterb nonempty ls = [] -> concat ls = [].
Proof. induction ls as [|[|x l] ls IH]; cbn; [done|done|]. done. Qed.

Lemma first_nonempty_concat {A} (ls : list (list A)) :
  (length (filterb nonempty ls) <= 1)%nat -> first_nonempty ls = concat ls.
Proof.
  induction ls as [|[|x l] ls IH]; cbn; [done|done|]. intros H.
  rewrite no_nonempty_concat, app_nil_r; [done|]. apply nil_length_inv. lia.
Qed.

Lemma ref_chain_complete f opMap p : forall n,
  linear f opMap p n = true -> ref_chain f opMap p n ≡ₚ flat_map (node_ops opMap p) (plan_nodes f n).
Proof.
  induction f as [|f IH]; intros n; [done|]. cbn [linear ref_chain plan_nodes flat_map].
  intros [H1%Nat.leb_le H2]%andb_prop. rewrite first_nonempty_concat, array_sort_perm by done.
  rewrite Permutation_app_comm. apply Permutation_app_head. clear H1.
  induction (children n) as [|c cs IHc]; cbn in *; [done|]. apply andb_prop in H2 as [Hc H2].
  rewrite flat_map_app. by rewrite IH, IHc.
Qed.

(** ** The height is enough fuel *)

Lemma getChildren_height n cs c : getChildren n = Some cs -> Some c ∈ cs -> (pheight c < pheight n)%nat.
Proof.
  assert (forall k, dict_get k (pfields n) = Some c -> (pheight c < pheight n)%nat) as HF.
  { intros k H%dict_get_elem. destruct n as [t i fs ss]. cbn in *.
    pose proof (foldr_max_elem (fun x => pheight x.2) fs (k, c) H). cbn in *. lia. }
  assert (forall l, psources n = Some l -> c ∈ l -> (pheight c < pheight n)%nat) as HL.
  { intros l Hl Hc. destruct n as [t i fs ss]. cbn in *. subst ss.
    pose proof (foldr_max_elem pheight l c Hc). lia. }
  unfold getChildren. repeat case_if; try (intros [= <-]; set_solver).
  destruct (psources n) as [l|] eqn:El; cbn; [|done]. intros [= <-] Hc.
  apply (HL l eq_refl). apply list_elem_of_In, in_map_iff in Hc as (x & [= ->] & Hx). by apply list_elem_of_In.
Qed.

Lemma foldM_ext {A B} (f g : B -> A -> result A) l a :
  (forall x b, x ∈ l -> f x b = g x b) -> foldM f l a = foldM g l a.
Proof.
  revert a. induction l as [|x l IH]; intros a H; cbn; [done|]. rewrite (H x a) by set_solver.
  destruct (g x a); [|done]. apply IH. set_solver.
Qed.

(** More fuel than [computeOperatorGraphs] gives changes nothing. *)
Lemma compute_graphs_fuel opMap f : forall g n,
  (pheight n <= f)%nat -> (pheight n <= g)%nat -> compute_graphs f opMap n = compute_graphs g opMap n.
Proof.
  induction f as [|f IH]; intros g n Hf Hg; [destruct n; cbn in Hf; lia|].
  destruct g as [|g]; [destruct n; cbn in Hg; lia|]. cbn [compute_graphs].
  destruct (getChildren n) as [cs|] eqn:Ec; [|done]. cbn [require mbind result_bind].
  erewrite (foldM_ext _ _ cs []); [reflexivity|]. intros [c|] sr Hc; [|done]. cbn [require mbind result_bind].
  pose proof (getChildren_height _ _ _ Ec Hc). rewrite (IH g c) by lia. done.
Qed.

(** ** Which plans have chains *)

(** Every property that [getChildren] reads below the node is there. *)
Fixpoint whole (fuel : nat) (n : PlanNode) : bool :=
  match fuel with
  | O => false
  | S fuel' =>
      match getChildren n with
      | Some cs => forallb (fun c => match c with Some c => whole fuel' c | None => false end) cs
      | None => false
      end
  end.

Lemma foldM_throws {A B} (f : B -> A -> result A) l x a e :
  x ∈ l -> (forall a, f x a = Throw e) -> (forall y b e', f y b = Throw e' -> e' = e) -> foldM f l a = Throw e.
Proof.
  intros Hx Ht He. revert a. induction l as [|y l IH]; intros a; cbn; [set_solver|].
  apply elem_of_cons in Hx as [<-|Hx]; [by rewrite Ht|].
  destruct (f y a) as [b|e'] eqn:E; [by apply IH|]. by rewrite (He _ _ _ E).
Qed.

(** Linking throws nothing else than a [TypeError]. *)
Lemma compute_graphs_throw f opMap : forall n e, compute_graphs f opMap n = Throw e -> e = TypeError.
Proof.
  induction f as [|f IH]; intros n e; cbn [compute_graphs]; [by intros [= <-]|].
  destruct (getChildren n) as [cs|]; cbn [require mbind result_bind]; [|by intros [= <-]].
  destruct (foldM _ cs []) as [sr|e'] eqn:E; cbn [mbind result_bind].
  - by destruct (dict_get _ opMap) as [[|]|].
  - intros [= <-]. revert E. generalize (@nil (Z * LinkedOp)). induction cs as [|[c|] cs IHc]; intros r; cbn; try done.
    + destruct (compute_graphs f opMap c) as [r'|] eqn:Ec; cbn; [apply IHc|]. intros [= <-]. by eapply IH.
    + by intros [= <-].
Qed.

(** Linking returns exactly on the plans that are whole. *)
Lemma compute_graphs_whole f opMap : forall n,
  if whole f n then exists r, compute_graphs f opMap n = Ok r else compute_graphs f opMap n = Throw TypeError.
Proof.
  induction f as [|f IH]; intros n; cbn [whole compute_graphs]; [done|].
  destruct (getChildren n) as [cs|]; cbn [require mbind result_bind]; [|done].
  destruct (forallb _ cs) eqn:Ew.
  - rewrite forallb_forall in Ew. edestruct (foldM_total (fun source sr =>
      source ← require source; r ← compute_graphs f opMap source; Ok (fold_left add_source r sr)) cs []) as [sr ->].
    + intros [c|] a Hc%list_elem_of_In%Ew; [|done]. specialize (IH c). rewrite Hc in IH.
      destruct IH as [r Er]. cbn. rewrite Er. cbn. eauto.
    + cbn [mbind result_bind]. destruct (dict_get _ opMap) as [[|]|]; eauto.
  - assert (exists c, c ∈ cs /\ match c with Some c => whole f c | None => false end = false) as (c & Hc & Hf).
    { clear -Ew. induction cs as [|c cs IHc]; [done|]. cbn in Ew. apply andb_false_iff in Ew as [H|H]; [set_solver|].
      destruct (IHc H) as (c' & ? & ?). set_solver. }
    erewrite foldM_throws; [reflexivity|exact Hc| |].
    + intros a. destruct c as [c|]; [|done]. specialize (IH c). rewrite Hf in IH. cbn. by rewrite IH.
    + intros [y|] b e'; cbn; [|by intros [= <-]]. destruct (compute_graphs f opMap y) eqn:Ey; cbn; [done|].
      intros [= <-]. by eapply compute_graphs_throw.
Qed.

Lemma ref_chain_ops f opMap p : forall n o,
  o ∈ ref_chain f opMap p n -> exists m, o ∈ node_ops opMap p m.
Proof.
  induction f as [|f IH]; intros n o; cbn [ref_chain]; [set_solver|]. rewrite elem_of_app. intros [H|H].
  - assert (forall ls : list (list Operator), o ∈ first_nonempty ls -> exists l, l ∈ ls /\ o ∈ l) as HF.
    { induction ls as [|[|x l] ls IHl]; cbn; [by intros ?%elem_of_nil| |].
      - intros (l & Hl & Ho)%IHl. exists l. split; [by apply elem_of_cons; right|done].
      - intros Ho. exists (x :: l). split; [by apply elem_of_cons; left|done]. }
    apply HF in H as (l & (c & <- & _)%list_elem_of_In%in_map_iff & Ho). eauto.
  - rewrite array_sort_perm in H. eauto.
Qed.
End chains.
