(* ===== verification/StageDetailClaims.v ===== *)
(** * The stage page: theorems

    The chains of operators and the graph drawn from them, the details behind
    a drawn operator, the stage menu and the selected stage. *)
From S2P Require Import Prelude JsString JsNumber JsNumberFacts JsArray JsObject Html Graph.
From S2P Require Import UtilsQuery UtilsText UtilsFormat UtilsParse QueryInfo QueryHeader RefreshLoop.
From S2P Require Import StageDetail LivePlanFacts StageDetailFacts.
From Stdlib Require Import SpecFloat.
Import StageDetail.
Local Open Scope Z_scope.

Section claims.
Context {AS : ArraySort}.

(** ** Chains *)

(** The operators of a stage that belong to a plan node and a pipeline. *)
Definition operators_at (ops : list Operator) (p : Z) (n : PlanNode) : list Operator :=
  filterb (fun o => bool_decide (planNodeId o = pid n) && in_pipeline p o) ops.

Lemma node_ops_map ops p n : node_ops (computeOperatorMap ops) p n = operators_at ops p n.
Proof.
  unfold node_ops, computeOperatorMap, operators_at. rewrite (group_fold planNodeId). cbn [dict_get].
  assert (forall l, filterb (in_pipeline p) (filterb (fun o => bool_decide (planNodeId o = pid n)) l)
    = filterb (fun o => bool_decide (planNodeId o = pid n) && in_pipeline p o) l) as H.
  { induction l as [|o l IH]; cbn; [done|]. case_bool_decide; cbn; by rewrite IH. }
  rewrite <- H. by destruct (filterb _ ops).
Qed.


(** The operators of the chains are operators of the stage. *)
Lemma graphs_ops plan ops r k l o :
  computeOperatorGraphs plan (computeOperatorMap ops) = Ok r -> (k, l) ∈ r -> o ∈ ops_of l -> o ∈ ops.
Proof.
  intros E Hl Ho. destruct (compute_graphs_ref _ _ _ _ E) as [HN H].
  apply elem_of_dict_get in Hl; [|done].
  assert (chain r k = ops_of l) as Hc by (unfold chain; by rewrite Hl). rewrite <- Hc, H in Ho.
  apply ref_chain_ops in Ho as [m Hm]. rewrite node_ops_map in Hm. by apply elem_of_filterb in Hm as [? _].
Qed.

(** ** The graph *)

Fixpoint LinkedOp_tree_ind (P : LinkedOp -> Prop) (H0 : forall o, P (Linked o None))
    (H1 : forall o c, P c -> P (Linked o (Some c))) (l : LinkedOp) {struct l} : P l.
Proof. destruct l as [o [c|]]; [by apply H1, LinkedOp_tree_ind|apply H0]. Defined.

(** The edges along a chain, and out of it to a sink. *)
Definition chain_edges (ids : list string) (sink : option string) : list (string * string) :=
  zip ids (tail ids ++ match sink with Some k => [k] | None => [] end).

Definition chain_ids (l : LinkedOp) : list string := map operatorNodeId (ops_of l).

Section graph.
Context (rts : vnode Empty_set -> string).

Lemma graph_step o child sink pipe cmds :
  computeD3StageOperatorGraph rts (Linked o child) sink pipe = Ok cmds ->
  exists cs a,
    match child with
    | Some c => computeD3StageOperatorGraph rts c (Some (operatorNodeId o)) pipe = Ok cs
    | None => cs = []
    end /\
    cmds = [SetNode (operatorNodeId o) a] ++ cs
      ++ match sink with
         | Some k => [SetEdge (operatorNodeId o) k [("class", "plan-edge"); ("arrowheadClass", "plan-arrowhead")]]
         | None => []
         end
      ++ [SetParent (operatorNodeId o) pipe].
Proof.
  cbn [computeD3StageOperatorGraph]. destruct (renderOperatorSummary o) as [v|]; [|done].
  cbn [mbind result_bind]. destruct child as [c|].
  - destruct (computeD3StageOperatorGraph rts c _ pipe) as [cs|] eqn:E; [|done].
    cbn [mbind result_bind]. intros [= <-]. exists cs. by eexists.
  - cbn [mbind result_bind]. intros [= <-]. exists []. by eexists.
Qed.

Lemma chain_edges_snoc ids x k :
  ids <> [] -> chain_edges (ids ++ [x]) k = chain_edges ids (Some x) ++ chain_edges [x] k.
Proof.
  intros Hne. unfold chain_edges. destruct ids as [|i ids]; [done|]. cbn [tail].
  change (tail ((i :: ids) ++ [x])) with (ids ++ [x]). rewrite <- app_assoc.
  clear Hne. revert i. induction ids as [|j ids IH]; intros i; cbn; [done|]. f_equal. apply (IH j).
Qed.

Lemma graph_edges l : forall sink pipe cmds,
  computeD3StageOperatorGraph rts l sink pipe = Ok cmds -> edges_of cmds = chain_edges (chain_ids l) sink.
Proof.
  induction l as [o|o c IH] using LinkedOp_tree_ind; intros sink pipe cmds (cs & a & Hc & ->)%graph_step;
    rewrite !edges_of_app.
  - subst cs. by destruct sink.
  - rewrite (IH _ _ _ Hc). unfold chain_ids at 2. cbn [ops_of]. rewrite map_app. cbn [map].
    rewrite chain_edges_snoc; [by destruct sink|]. intros H%map_eq_nil. by apply ops_of_ne in H.
Qed.

Lemma graph_nodes l : forall sink pipe cmds,
  computeD3StageOperatorGraph rts l sink pipe = Ok cmds ->
  forall n, n ∈ nodes_of cmds <-> n ∈ chain_ids l.
Proof.
  induction l as [o|o c IH] using LinkedOp_tree_ind; intros sink pipe cmds (cs & a & Hc & ->)%graph_step n;
    rewrite !nodes_of_app; unfold chain_ids; cbn [ops_of].
  - subst cs. destruct sink; cbn; set_solver.
  - rewrite !elem_of_app, (IH _ _ _ Hc). rewrite map_app, elem_of_app. destruct sink; cbn; set_solver.
Qed.

Lemma graph_calls_in l ns : forall sink pipe cmds,
  computeD3StageOperatorGraph rts l sink pipe = Ok cmds ->
  (forall n, n ∈ chain_ids l -> n ∈ ns) -> pipe ∈ ns -> (forall k, sink = Some k -> k ∈ ns) ->
  Forall (call_in ns) cmds.
Proof.
  assert (forall o c, operatorNodeId o ∈ chain_ids (Linked o c)) as Hself.
  { intros o c. unfold chain_ids. cbn [ops_of]. rewrite map_app. cbn. set_solver. }
  induction l as [o|o c IH] using LinkedOp_tree_ind;
    intros sink pipe cmds (cs & a & Hc & ->)%graph_step Hn Hp Hk; rewrite !Forall_app; split_and!.
  all: try (by repeat constructor).
  - by subst cs.
  - destruct sink; repeat constructor; auto.
  - repeat constructor; auto.
  - eapply IH; [exact Hc| |done|].
    + intros n H. apply Hn. unfold chain_ids in *. cbn [ops_of]. rewrite map_app. set_solver.
    + intros k [= <-]. auto.
  - destruct sink; repeat constructor; auto.
  - repeat constructor; auto.
Qed.

Definition pipeline_node (p : Z) : string := "pipeline-" +:+ dec p.

Lemma pipelineCalls_spec p l cmds :
  pipelineCalls rts (p, l) = Ok cmds ->
  edges_of cmds = chain_edges (chain_ids l) None /\
  (forall n, n ∈ nodes_of cmds <-> n = pipeline_node p \/ n ∈ chain_ids l) /\ closed cmds.
Proof.
  unfold pipelineCalls. destruct (computeD3StageOperatorGraph rts l None _) as [cs|] eqn:E; [|done].
  cbn [mbind result_bind]. intros [= <-]. fold (pipeline_node p) in *.
  split; [exact (graph_edges _ _ _ _ E)|].
  assert (forall a n, n ∈ nodes_of (SetNode (pipeline_node p) a :: cs) <-> n = pipeline_node p \/ n ∈ chain_ids l) as HN.
  { intros a n. change (SetNode (pipeline_node p) a :: cs) with ([SetNode (pipeline_node p) a] ++ cs).
    rewrite nodes_of_app, elem_of_app, (graph_nodes _ _ _ _ E). cbn. set_solver. }
  split; [apply HN|]. unfold closed. constructor; [done|].
  eapply graph_calls_in; [exact E| | |done]; intros; apply HN; auto.
Qed.

Lemma closed_app g g' : closed g -> closed g' -> closed (g ++ g').
Proof.
  unfold closed. intros H1 H2. rewrite nodes_of_app, Forall_app. split.
  - eapply Forall_impl; [exact H1|]. intros c. apply call_in_mono. set_solver.
  - eapply Forall_impl; [exact H2|]. intros c. apply call_in_mono. set_solver.
Qed.

(** An operator whose blocked time the page can format. *)
Definition has_blocked (o : Operator) : Prop := is_Some (parseDuration (blockedWall o)).

Lemma graph_total l : Forall has_blocked (ops_of l) ->
  forall sink pipe, exists cmds, computeD3StageOperatorGraph rts l sink pipe = Ok cmds.
Proof.
  induction l as [o|o c IH] using LinkedOp_tree_ind; cbn [ops_of]; rewrite Forall_app, Forall_singleton;
    intros [Hc [b Hb]] sink pipe; cbn [computeD3StageOperatorGraph]; unfold renderOperatorSummary; rewrite Hb;
    cbn [format_nullable mbind result_bind]; [eauto|].
  destruct (IH Hc (Some (operatorNodeId o)) pipe) as [cs ->]. cbn [mbind result_bind]. eauto.
Qed.

Lemma pipelines_total plan ops graphs : Forall has_blocked ops ->
  computeOperatorGraphs plan (computeOperatorMap ops) = Ok graphs ->
  exists css, mapM (pipelineCalls rts) graphs = Ok css.
Proof.
  intros HB E. apply mapM_Ok. intros [k l] Hl. unfold pipelineCalls.
  edestruct (graph_total l) as [cs ->]; [|cbn [mbind result_bind]; eauto].
  apply Forall_forall. intros o Ho. rewrite Forall_forall in HB. by eapply HB, graphs_ops.
Qed.

(** The calls for the chains, pipeline by pipeline. *)
Lemma pipelines_spec graphs css : Forall2 (fun e c => pipelineCalls rts e = Ok c) graphs css ->
  edges_of (concat css) = concat (map (fun e => chain_edges (chain_ids e.2) None) graphs) /\
  (forall n, n ∈ nodes_of (concat css) <->
     exists k l, (k, l) ∈ graphs /\ (n = pipeline_node k \/ n ∈ chain_ids l)) /\
  closed (concat css).
Proof.
  induction 1 as [|[k l] cs graphs css Hcs _ (I1 & I2 & I3)]; cbn.
  - split_and!; [done|set_solver|constructor].
  - destruct (pipelineCalls_spec _ _ _ Hcs) as (S1 & S2 & S3). split_and!.
    + by rewrite edges_of_app, S1, I1.
    + intros n. rewrite nodes_of_app, elem_of_app, S2, I2. setoid_rewrite elem_of_cons. naive_solver.
    + by apply closed_app.
Qed.

Lemma updateD3Graph_total (stage : Stage) (st : StageInfoStats) (p : Plan) :
  stageStats stage = Some st -> plan stage = Some p -> whole (pheight (root p)) (root p) = true ->
  Forall has_blocked (stageOperators st) ->
  exists graphs css,
    computeOperatorGraphs (root p) (computeOperatorMap (stageOperators st)) = Ok graphs /\
    mapM (pipelineCalls rts) graphs = Ok css /\
    updateD3Graph rts stage = Ok (initializeGraph ++ concat css,
      if nonempty graphs then Some (initializeSvg true "#operator-canvas") else None).
Proof.
  intros Hst Hp HW HB.
  pose proof (compute_graphs_whole (pheight (root p)) (computeOperatorMap (stageOperators st)) (root p)) as Hg.
  rewrite HW in Hg. destruct Hg as [graphs Eg]. destruct (pipelines_total _ _ _ HB Eg) as [css Em].
  exists graphs, css. split; [done|]. split; [done|].
  unfold updateD3Graph, computeOperatorGraphs. rewrite Hst, Hp. cbn [require mbind result_bind].
  rewrite Eg. cbn [mbind result_bind]. rewrite Em. cbn [mbind result_bind]. by destruct graphs.
Qed.

(** C36: the operator graph of a stage with statistics and a whole plan is
    drawn when the blocked time of every operator can be read.  Its nodes are
    exactly a node per pipeline and a node per operator of a chain, its edges
    lead from each operator of a chain to the next one, no call refers to a
    node that is not drawn, and the graph is shown when there is a chain. *)
Theorem operator_graph (stage : Stage) (st : StageInfoStats) (p : Plan) :
  stageStats stage = Some st -> plan stage = Some p -> whole (pheight (root p)) (root p) = true ->
  Forall has_blocked (stageOperators st) ->
  exists graphs cmds,
    computeOperatorGraphs (root p) (computeOperatorMap (stageOperators st)) = Ok graphs /\
    updateD3Graph rts stage =
      Ok (cmds, if nonempty graphs then Some (initializeSvg true "#operator-canvas") else None) /\
    edges_of cmds = concat (map (fun e => chain_edges (chain_ids e.2) None) graphs) /\
    (forall n, n ∈ nodes_of cmds <->
       exists k l, (k, l) ∈ graphs /\ (n = pipeline_node k \/ n ∈ chain_ids l)) /\
    closed cmds.
Proof.
  intros Hst Hp HW HB. destruct (updateD3Graph_total stage st p Hst Hp HW HB) as (graphs & css & Eg & Em & E).
  exists graphs, (initializeGraph ++ concat css). split; [done|]. split; [done|].
  rewrite initialized_edges, initialized_nodes, initialized_closed. apply pipelines_spec.
  by rewrite mapM_Forall2 in Em.
Qed.
End graph.

(** ** The details of an operator *)

Definition small_ids (o : Operator) : Prop := 0 <= pipelineId o < 2 ^ 52 /\ 0 <= operatorId o < 2 ^ 52.

Lemma operatorNodeId_split o : small_ids o ->
  split_on "-" (operatorNodeId o) = ["operator"; Z_to_dec (pipelineId o); Z_to_dec (operatorId o)].
Proof.
  intros [H1 H2]. unfold operatorNodeId, dec. rewrite !num_to_string_int by done.
  change ("operator-" +:+ Z_to_dec (pipelineId o) +:+ "-" +:+ Z_to_dec (operatorId o))
    with ("operator" +:+ String "-" (Z_to_dec (pipelineId o) +:+ String "-" (Z_to_dec (operatorId o)))).
  rewrite !split_on_app; [|by apply Z_to_dec_no_char; [lia|]|done].
  by rewrite split_on_nosep by (by apply Z_to_dec_no_char; [lia|]).
Qed.

Lemma last_filterb {A} (p : A -> bool) l x : x ∈ l -> p x = true -> exists y, last (filterb p l) = Some y /\ p y = true /\ y ∈ l.
Proof.
  intros Hx Hp. assert (x ∈ filterb p l) as Hf by (by apply elem_of_filterb).
  destruct (last (filterb p l)) as [y|] eqn:E.
  - exists y. split; [done|]. apply last_Some_elem_of, elem_of_filterb in E as [? ?]. done.
  - apply last_None in E. rewrite E in Hf. set_solver.
Qed.

(** a click on a drawn operator leads back to it: from the css id of its
    node the page finds an operator of the stage with the same pipeline and
    operator number. *)
Theorem operator_click (ops : list Operator) (o : Operator) :
  Forall small_ids ops -> o ∈ ops ->
  exists o', clickedOperator (operatorNodeId o) ops = Some o' /\ o' ∈ ops /\
    pipelineId o' = pipelineId o /\ operatorId o' = operatorId o.
Proof.
  intros HF Ho. rewrite Forall_forall in HF. pose proof (HF o Ho) as Hs.
  assert (forall z, 0 <= z < 2 ^ 52 -> parseInt (Z_to_dec z) = num_of_Z z) as HP.
  { intros z Hz. rewrite <- (sapp_nil_r (Z_to_dec z)). apply parseInt_dec; [lia|done]. }
  unfold clickedOperator. rewrite operatorNodeId_split by done. cbn [lookup list_lookup].
  destruct Hs as [S1 S2]. rewrite !HP by done.
  destruct (last_filterb (fun x => neq (num_of_Z (pipelineId x)) (num_of_Z (pipelineId o))
    && neq (num_of_Z (operatorId x)) (num_of_Z (operatorId o))) ops o Ho) as (y & E & Hy & Hin).
  { by rewrite !neq_num_of_Z, !Z.eqb_refl by (unfold small; lia). }
  exists y. destruct (HF y Hin) as [Y1 Y2]. rewrite !neq_num_of_Z in Hy by (unfold small; lia).
  apply andb_prop in Hy as [->%Z.eqb_eq ->%Z.eqb_eq]. done.
Qed.
End claims.

(** ** The menu of stages *)

(** The stages of a query as the coordinator names them: each has a plan and
    a list of sub stages, and its id is the query's id and the plan's. *)
Definition named_stage (qid : string) (s : Stage) : Prop :=
  exists p l, plan s = Some p /\ subStages s = Some l /\ stageId s = qid +:+ "." +:+ planId p.

Definition plan_name (s : Stage) : string := match plan s with Some p => planId p | None => "" end.

Lemma all_stages_tree i st p ss ts l qid :
  Forall (named_stage qid) (all_stages (mkStage i st p ss ts (Some l))) <->
  named_stage qid (mkStage i st p ss ts (Some l)) /\ Forall (fun s => Forall (named_stage qid) (all_stages s)) l.
Proof. cbn [all_stages]. by rewrite Forall_cons, !Forall_forall; setoid_rewrite Forall_forall;
  split; (intros [H1 H2]; split; [done|]); [|intros x (s & Hs & Hx)%list_elem_of_In%in_flat_map];
  [intros s Hs x Hx; apply H2, list_elem_of_In, in_flat_map; exists s; split; by apply list_elem_of_In
  |apply (H2 s); by apply list_elem_of_In]. Qed.

Lemma find_app {A} (f : A -> bool) l l' :
  List.find f (l ++ l') = match List.find f l with Some x => Some x | None => List.find f l' end.
Proof. induction l as [|x l IH]; cbn; [done|]. by destruct (f x). Qed.

Lemma findStage_find qid id s : Forall (named_stage qid) (all_stages s) ->
  findStage id s = Ok (List.find (fun st => String.eqb (stageId st) id) (all_stages s)).
Proof.
  induction s as [i st p ss ts subs IH] using Stage_tree_ind. intros H.
  destruct subs as [l|]; [|apply Forall_cons in H as [(? & ? & _ & [=] & _) _]].
  apply all_stages_tree in H as [_ H]. cbn [findStage all_stages List.find stageId].
  destruct (String.eqb i id); [done|]. cbn in IH.
  induction l as [|s l IHl]; [done|]. apply Forall_cons in IH as [IH1 IH2]. apply Forall_cons in H as [H1 H2].
  rewrite IH1 by done. cbn [mbind result_bind flat_map]. rewrite find_app.
  destruct (List.find _ (all_stages s)); [done|]. by apply IHl.
Qed.

Lemma getAllStageIds_preorder qid s : Forall (named_stage qid) (all_stages s) ->
  forall acc, getAllStageIds s acc = Ok (acc ++ map plan_name (all_stages s)).
Proof.
  induction s as [i st p ss ts subs IH] using Stage_tree_ind. intros H acc.
  destruct subs as [l|]; [|apply Forall_cons in H as [(? & ? & _ & [=] & _) _]].
  apply all_stages_tree in H as [(pl & _ & Hp & _ & _) H]. cbn in Hp. subst p.
  cbn [getAllStageIds require mbind result_bind all_stages map]. cbn in IH.
  replace (acc ++ plan_name (mkStage i st (Some pl) ss ts (Some l)) :: map plan_name (flat_map all_stages l))
    with ((acc ++ [planId pl]) ++ map plan_name (flat_map all_stages l)) by (by rewrite <- app_assoc).
  generalize (acc ++ [planId pl]). induction l as [|s l IHl]; intros r; cbn [foldM flat_map map].
  - by rewrite app_nil_r.
  - apply Forall_cons in IH as [IH1 IH2]. apply Forall_cons in H as [H1 H2].
    rewrite IH1 by done. rewrite IHl by done. by rewrite map_app, app_assoc.
Qed.

(** the menu of the stage page lists every stage of the query, parents
    before their sources, and whatever is chosen in it is found: the page
    then shows a stage of the query with the chosen id. *)
Theorem stage_menu (qid : string) (output : Stage) :
  Forall (named_stage qid) (all_stages output) ->
  getAllStageIds output [] = Ok (map plan_name (all_stages output)) /\
  forall s, s ∈ all_stages output ->
    exists found, findStage (qid +:+ "." +:+ plan_name s) output = Ok (Some found) /\
      found ∈ all_stages output /\ stageId found = stageId s.
Proof.
  intros H. split; [by rewrite (getAllStageIds_preorder qid)|]. intros s Hs.
  rewrite (findStage_find qid) by done.
  assert (stageId s = qid +:+ "." +:+ plan_name s) as Hid.
  { rewrite Forall_forall in H. destruct (H s Hs) as (p & l & Hp & _ & E). unfold plan_name. by rewrite Hp. }
  destruct (List.find _ _) as [st|] eqn:E.
  - apply find_some in E as [Hin He%String.eqb_eq]. exists st. split; [done|]. split; [by apply list_elem_of_In|congruence].
  - eapply find_none in E; [|by apply list_elem_of_In]. cbn in E. rewrite Hid, String.eqb_refl in E. done.
Qed.

(** ** The selected stage *)

(** a stage that is chosen while a refresh is under way does not stay
    chosen: the page goes to the chosen stage, and on the answer back to the
    one it showed before. *)
Theorem selection_reverts (search pathname id : string) (rts : vnode Empty_set -> string)
    (m : machine State Selection) (captured : Selection) (q : QueryInfo) :
  let P := poller search rts pathname in
  let s := refresh_success captured q (selectStage id (comp m)) in
  in_flight m = [captured] -> commit rts pathname s = Ok s ->
  exists m1 m2, step (P := P) false m m1 /\ step (P := P) false m1 m2 /\
    selectedStageId (comp m1) = Some (SelPlan id) /\ selectedStageId (comp m2) = Some captured /\
    query (comp m2) = Some q.
Proof.
  intros P s Hm Hc. exists (with_comp m (selectStage id (comp m))).
  exists (resetTimer (P := P) (with_comp (with_in_flight (with_comp m (selectStage id (comp m))) []) s)).
  split; [apply step_local; by exists id|]. split.
  - eapply (step_answer (P := P) _ captured [] (inl q)); [cbn; by rewrite Hm|exact Hc].
  - unfold resetTimer. cbn. by destruct (finalQueryInfo q).
Qed.

(** ** Examples *)

Definition op (p i : Z) (node type : string) : Operator := {|
  pipelineId := p; operatorId := i; planNodeId := node; operatorType := type;
  addInputWall := "1ms"; getOutputWall := "1ms"; finishWall := "0ns"; blockedWall := "2ms";
  inputPositions := num_of_Z 8; inputDataSize := "8kB"; outputPositions := num_of_Z 8;
  outputDataSize := "4kB"; opTotalDrivers := num_of_Z 1 |}.

(** A join: pipeline 0 scans, probes and outputs, pipeline 1 builds. *)
Definition join_ops : list Operator :=
  [op 0 2 "5" "TaskOutputOperator"; op 0 0 "9" "ScanFilterAndProjectOperator"; op 0 1 "6" "LookupJoinOperator";
   op 1 1 "6" "HashBuilderOperator"; op 1 0 "8" "TableScanOperator"].
Definition join_plan : PlanNode :=
  Node "output" "5"
    [("source", Node "join" "6" [("left", Node "tablescan" "9" [] None); ("right", Node "tablescan" "8" [] None)] None)]
    None.
Definition join_graphs : jsmap Z LinkedOp :=
  match computeOperatorGraphs join_plan (computeOperatorMap join_ops) with Ok r => r | Throw _ => [] end.


Definition join_stage : Stage :=
  mkStage "q.0" "FINISHED"
    (Some {| planId := "0"; root := join_plan; distribution := "SINGLE"; jsonRepresentation := "" |})
    (Some {| sTotalScheduledTime := "1s"; sTotalCpuTime := "1s"; sTotalBlockedTime := "1s"; sFullyBlocked := false;
             sCumulativeUserMemory := num_of_Z 0; sUserMemoryReservation := "0B"; sPeakUserMemoryReservation := "0B";
             bufferedDataSize := "0B"; sQueuedDrivers := num_of_Z 0; sRunningDrivers := num_of_Z 0;
             sCompletedDrivers := num_of_Z 2; sRawInputDataSize := "8kB"; sRawInputPositions := num_of_Z 8;
             sOutputDataSize := "4kB"; sOutputPositions := num_of_Z 8; stageOperators := join_ops |})
    (Some []) (Some [stage_1]).
Definition join_calls : list gcmd :=
  match updateD3Graph no_html join_stage with Ok (c, _) => c | Throw _ => [] end.

Definition join_stats : StageInfoStats := default sample_stats (stageStats join_stage).

Lemma operator_graph_witness :
  edges_of join_calls = [("operator-0-0", "operator-0-1"); ("operator-0-1", "operator-0-2");
                         ("operator-1-0", "operator-1-1")] /\
  closed join_calls.
Proof.
  split; [vm_compute; reflexivity|].
  destruct (operator_graph no_html join_stage join_stats
    {| planId := "0"; root := join_plan; distribution := "SINGLE"; jsonRepresentation := "" |})
    as (g & cmds & _ & E & _ & _ & H).
  - reflexivity.
  - reflexivity.
  - vm_compute. reflexivity.
  - repeat constructor; vm_compute; by eexists.
  - replace join_calls with cmds by (unfold join_calls; rewrite E; reflexivity). exact H.
Defined.

Lemma operator_click_witness :
  exists o, clickedOperator "operator-1-1" join_ops = Some o /\ operatorType o = "HashBuilderOperator".
Proof.
  destruct (operator_click join_ops (op 1 1 "6" "HashBuilderOperator")) as (o & H & _).
  - repeat constructor; done.
  - set_solver.
  - exists o. split; [exact H|]. revert H. vm_compute. by intros [= <-].
Defined.

Lemma stage_menu_witness :
  getAllStageIds join_stage [] = Ok ["0"; "1"] /\
  exists found, findStage "q.1" join_stage = Ok (Some found) /\ stageId found = "q.1".
Proof.
  destruct (stage_menu "q" join_stage) as [H1 H2].
  - apply Forall_forall. intros s [->|[->|[]%elem_of_nil]%elem_of_cons]%elem_of_cons; by repeat eexists.
  - split; [exact H1|]. destruct (H2 stage_1) as (f & Hf & _ & E); [set_solver|]. by exists f.
Defined.

Definition stage_page (sel : Selection) : machine State Selection :=
  {| comp := refresh_success sel (sample_info (Some join_stage)) initial_state; timers := []; timeoutId := Some 3%nat;
     in_flight := [sel]; next_id := 4 |}.

Lemma selection_reverts_witness :
  let P := poller "?q.0" no_html "/ui/stage.html" in
  exists m1 m2, step (P := P) false (stage_page (SelPlan "0")) m1 /\ step (P := P) false m1 m2 /\
    selectedStageId (comp m1) = Some (SelPlan "1") /\ selectedStageId (comp m2) = Some (SelPlan "0").
Proof.
  destruct (selection_reverts "?q.0" "/ui/stage.html" "1" no_html (stage_page (SelPlan "0")) (SelPlan "0")
    (sample_info (Some join_stage))) as (m1 & m2 & H1 & H2 & H3 & H4 & _); [done|vm_compute; reflexivity|]. by exists m1, m2.
Defined.

(** The same operator, 8 rows in 4 ms: the graph says 2000 rows a second, the
    details 2. *)
Example detail_rates_per_ms :
  match detailRates (op 0 0 "9" "ScanFilterAndProjectOperator") with
  | (rowInputRate, _, rowOutputRate, _) => formatCount rowInputRate = "2.00" /\ formatCount rowOutputRate = "2.00"
  end /\
  exists v, renderOperatorSummary (E := Empty_set) (op 0 0 "9" "ScanFilterAndProjectOperator") = Ok v /\
    "2.00K rows/s (1.95MB/s)" ∈ texts v.
Proof. split; [vm_compute; done|]. eexists. split; [vm_compute; reflexivity|]. apply list_elem_of_In. vm_compute. tauto. Qed.
