(* ===== verification/StagePage.v ===== *)
(** * The stage page while it polls

    Every state the page reaches renders and its operator graph is drawn, when
    the coordinator gives the plans and statistics of all stages. *)
From S2P Require Import Prelude JsString JsNumber JsArray Html.
From S2P Require Import UtilsQuery UtilsParse QueryInfo QueryHeader RefreshLoop.
From S2P Require Import StageDetail StageDetailFacts StageDetailClaims.
Import StageDetail.
Local Open Scope Z_scope.

Section page.
Context (search : string) (renderToString : vnode Empty_set -> string) (pathname : string).

(** A stage under its name, with statistics and a whole plan. *)
Definition drawable_stage (qid : string) (s : Stage) : Prop :=
  named_stage qid s /\
  exists st p, stageStats s = Some st /\ plan s = Some p /\ whole (pheight (root p)) (root p) = true /\
    Forall has_blocked (stageOperators st).

Definition good_answer (q : QueryInfo) : Prop :=
  well_formed (basic q) /\
  forall output, outputStage q = Some output -> Forall (drawable_stage (queryId (basic q))) (all_stages output).

Definition page_inv (s : State) : Prop :=
  forall q, query s = Some q -> good_answer q /\ ended s = finalQueryInfo q.

(** The page renders, and the graph of the chosen stage is drawn, whichever
    stage that is. *)
Lemma inv_commits s : page_inv s -> commit renderToString pathname s = Ok s.
Proof.
  intros HI. unfold commit, render, graphStage. destruct (query s) as [q|] eqn:Eq; [|done].
  destruct (HI q Eq) as [[Hw Hs] _]. destruct (outputStage q) as [output|]; [|done]. specialize (Hs output eq_refl).
  assert (Forall (named_stage (queryId (basic q))) (all_stages output)) as HN by (eapply Forall_impl; [exact Hs|by intros ? [? _]]).
  rewrite (getAllStageIds_preorder _ _ HN). cbn [mbind result_bind]. rewrite (findStage_find _ _ _ HN). cbn [mbind result_bind].
  destruct (List.find _ _) as [stage|] eqn:E; [|by case_if].
  apply find_some in E as [Hin%list_elem_of_In _]. rewrite Forall_forall in Hs.
  destruct (Hs stage Hin) as [_ (st & p & H1 & H2 & H3 & H4)].
  destruct (QueryHeader.header_renders pathname (basic q) Hw) as (v & -> & _). cbn [mbind result_bind]. rewrite H2.
  cbn [require mbind result_bind]. case_if; [|done].
  by destruct (updateD3Graph_total renderToString stage st p H1 H2 H3 H4) as (? & ? & _ & _ & ->).
Qed.

(** The page of a coordinator that gives complete information. *)
Definition good_poller : Poller State Selection { q : QueryInfo | good_answer q } unit :=
  restricted good_answer (poller search renderToString pathname).

#[global] Instance good_poller_laws : PollerLaws good_poller.
Proof. intros s s' [id ->]. done. Qed.

(** The page with the answers it has got: its query is the last one. *)
Definition logged_stage : Poller (State * list { q : QueryInfo | good_answer q }) Selection { q : QueryInfo | good_answer q } unit :=
  logged good_poller.

Definition log_inv (s : State * list { q : QueryInfo | good_answer q }) : Prop :=
  page_inv s.1 /\ query s.1 = last (map (@proj1_sig _ _) s.2).

Lemma stage_answered_log c a s : log_inv s -> exists s', answered (P := logged_stage) c a s = Ok s' /\ log_inv s'.
Proof.
  intros [HI HQ]. destruct s as [s l], a as [[q HG]|[]]; cbn [fst snd] in *.
  - assert (page_inv (refresh_success c q s)) as H by (by intros ? [= <-]).
    exists (refresh_success c q s, l ++ [exist _ q HG]). split.
    { transitivity (s' ← commit renderToString pathname (refresh_success c q s); Ok (s', l ++ [exist _ q HG])); [done|].
      by rewrite (inv_commits _ H). }
    split; [done|]. cbn [fst snd]. rewrite map_app. cbn [map proj1_sig]. by rewrite last_snoc.
  - exists (refresh_error s, l). split; [|by split].
    transitivity (s' ← commit renderToString pathname (refresh_error s); Ok (s', l)); [done|].
    by rewrite (inv_commits (refresh_error s) HI).
Qed.

Lemma stage_log_reach t m : reach (P := logged_stage) (mounted (P := logged_stage) (initial_state, [])) t m ->
  t = false /\ log_inv (comp m).
Proof.
  assert (log_inv (initial_state, [])) as H0 by (by split).
  assert (forall s, log_inv s -> log_inv (on_start (Poller := logged_stage) s).1) as HS by (by intros [s l]).
  assert (forall s s', log_inv s -> local_step (Poller := logged_stage) s s' -> log_inv s') as HL.
  { intros [s l] [s' l'] [HI HQ] [[id E] E']. cbn in E, E'. subst s' l'. by split. }
  intros H. split; revert H.
  - by apply (reach_inv_no_throw (P := logged_stage) log_inv); [|apply stage_answered_log|..].
  - apply (reach_inv (P := logged_stage) log_inv); [done| |done|done].
    intros c a s s' HI E. destruct (stage_answered_log c a s HI) as (s1 & E1 & H1).
    assert (Ok s1 = Ok s') as [= <-] by (by rewrite <- E1, <- E). exact H1.
Qed.
End page.
