(* ===== verification/StackTrace.v ===== *)
(** * components/QueryDetail.jsx: the stack trace of a failed query

    [formatStackTrace] prints a failure the way Java does: the frames of each
    failure, without those it shares with the failure around it, then the
    suppressed failures and the cause. *)
From S2P Require Import Prelude JsString JsNumber JsArray QueryInfo.
Local Open Scope Z_scope.

Module StackTrace.

(** ** Definitions *)

(** The message is compared with [null] only: a missing one prints as
    "undefined". *)
Definition failureInfoToString (t : Failure) : string :=
  let '(mkFailure type message _ _ _) := t in
  match message with
  | Null => type
  | Missing => type +:+ ": " +:+ "undefined"
  | Value m => type +:+ ": " +:+ m
  end.

(** [a[a.length - 1 - n]] *)
Definition from_end (a : list string) (n : nat) : option string := a !! (length a - 1 - n)%nat.

(** The loop; its condition bounds [n], so [minStackLength] turns are enough. *)
Fixpoint count_loop (fuel n : nat) (stack parentStack : list string) : nat :=
  match fuel with
  | O => n
  | S fuel' =>
      let minStackLength := Nat.min (length stack) (length parentStack) in
      if (n <? minStackLength)%nat && bool_decide (from_end stack n = from_end parentStack n)
      then count_loop fuel' (S n) stack parentStack
      else n
  end.

Definition countSharedStackFrames (stack parentStack : list string) : nat :=
  count_loop (Nat.min (length stack) (length parentStack)) 0 stack parentStack.

(** The frames of one failure. The parent's stack is compared with [null]
    only: reading the length of a missing one throws. *)
Definition frame_lines (linePrefix : string) (stack parentStack : field (list string)) : result string :=
  match stack with
  | Missing | Null => Ok ""
  | Value st =>
      sharedStackFrames ← match parentStack with
        | Null => Ok O
        | Missing => Throw TypeError
        | Value parent => Ok (countSharedStackFrames st parent)
        end;
      let frames := String.concat ""
        (map (fun f => linePrefix +:+ tab +:+ "at " +:+ f +:+ newline)
             (take (length st - sharedStackFrames) st)) in
      Ok (frames +:+
          if Nat.eqb sharedStackFrames 0 then ""
          else linePrefix +:+ tab +:+ "... " +:+ num_to_string (num_of_Z (Z.of_nat sharedStackFrames))
               +:+ " more" +:+ newline)
  end.

Fixpoint formatStackTraceHelper (info : Failure) (parentStack : field (list string))
    (prefix linePrefix : string) : result string :=
  let '(mkFailure _ _ stack suppressed cause) := info in
  let s := linePrefix +:+ prefix +:+ failureInfoToString info +:+ newline in
  frames ← frame_lines linePrefix stack parentStack;
  suppressedText ← match suppressed with
    | None => Ok ""
    | Some l =>
        (fix loop l :=
           match l with
           | [] => Ok ""
           | f :: l' =>
               t ← formatStackTraceHelper f stack "Suppressed: " (linePrefix +:+ tab);
               t' ← loop l';
               Ok (t +:+ t')
           end) l
    end;
  causeText ← match cause with
    | None => Ok ""
    | Some c => formatStackTraceHelper c stack "Caused by: " linePrefix
    end;
  Ok (s +:+ frames +:+ suppressedText +:+ causeText).

Definition formatStackTrace (info : Failure) : result string := formatStackTraceHelper info (Value []) "" "".
End StackTrace.
Import StackTrace.

(** ** Shared frames *)

(** Reference: the length of the longest common prefix. *)
Fixpoint common (a b : list string) : nat :=
  match a, b with
  | x :: a', y :: b' => if bool_decide (x = y) then S (common a' b') else O
  | _, _ => O
  end.

Lemma common_le a b : (common a b <= length a)%nat /\ (common a b <= length b)%nat.
Proof. revert b. induction a as [|x a IH]; intros [|y b]; cbn; try lia. specialize (IH b). case_bool_decide; lia. Qed.

Lemma common_take a b : take (common a b) a = take (common a b) b.
Proof. revert b. induction a as [|x a IH]; intros [|y b]; cbn; try done. case_bool_decide; [|done]. cbn. by subst; rewrite IH. Qed.

Lemma common_max n a b :
  (n <= length a)%nat -> (n <= length b)%nat -> take n a = take n b -> (n <= common a b)%nat.
Proof.
  revert a b. induction n as [|n IH]; intros [|x a] [|y b] Ha Hb; cbn in *; try lia.
  intros [= -> E]. rewrite bool_decide_true by done. apply le_n_S, IH; [lia|lia|done].
Qed.

Lemma from_end_reverse a n : (n < length a)%nat -> from_end a n = reverse a !! n.
Proof. intros H. unfold from_end. rewrite reverse_lookup by done. f_equal. lia. Qed.

Lemma common_drop a b n :
  common (drop n a) (drop n b) =
  match a !! n, b !! n with
  | Some x, Some y => if bool_decide (x = y) then S (common (drop (S n) a) (drop (S n) b)) else O
  | _, _ => O
  end.
Proof.
  destruct (a !! n) as [x|] eqn:Ea; [rewrite (drop_S _ _ _ Ea)|by rewrite drop_ge by (by apply lookup_ge_None)].
  destruct (b !! n) as [y|] eqn:Eb; [by rewrite (drop_S _ _ _ Eb)|].
  by rewrite (drop_ge b) by (by apply lookup_ge_None).
Qed.

Lemma count_loop_common a b fuel : forall n,
  (Nat.min (length a) (length b) - n <= fuel)%nat ->
  count_loop fuel n a b = (n + common (drop n (reverse a)) (drop n (reverse b)))%nat.
Proof.
  induction fuel as [|fuel IH]; intros n Hf; cbn [count_loop].
  - destruct (decide (length a <= n)%nat).
    + rewrite (drop_ge (reverse a)) by (by rewrite length_reverse). cbn. lia.
    + rewrite (drop_ge (reverse b)) by (rewrite length_reverse; lia).
      by destruct (drop n (reverse a)); cbn; lia.
  - rewrite common_drop. destruct (Nat.ltb_spec n (Nat.min (length a) (length b))) as [Hn|Hn]; cbn [andb].
    + rewrite !from_end_reverse by lia.
      destruct (lookup_lt_is_Some_2 (reverse a) n) as [x Hx]; [rewrite length_reverse; lia|].
      destruct (lookup_lt_is_Some_2 (reverse b) n) as [y Hy]; [rewrite length_reverse; lia|].
      rewrite Hx, Hy. repeat case_bool_decide; simplify_eq; try lia. rewrite IH by lia. lia.
    + destruct (decide (length a <= n)%nat).
      * rewrite (lookup_ge_None_2 (reverse a)) by (by rewrite length_reverse). lia.
      * rewrite (lookup_ge_None_2 (reverse b)) by (rewrite length_reverse; lia).
        by destruct (reverse a !! n); lia.
Qed.

Lemma count_common a b : countSharedStackFrames a b = common (reverse a) (reverse b).
Proof. unfold countSharedStackFrames. rewrite count_loop_common by lia. done. Qed.

(** The last [n] frames of a stack. *)
Lemma last_n_reverse n (a : list string) : last_n n a = reverse (take n (reverse a)).
Proof. unfold last_n. by rewrite take_reverse, reverse_involutive. Qed.

(** two stacks share exactly the longest suffix they have in common:
    the counted frames are equal, no larger number of last frames is, and the
    frames that are left to print, with the parent's last ones, give the stack
    back. *)
Theorem shared_frames_longest (stack parentStack : list string) :
  let n := countSharedStackFrames stack parentStack in
  (n <= length stack)%nat /\ (n <= length parentStack)%nat /\ last_n n stack = last_n n parentStack /\
  take (length stack - n) stack ++ last_n n parentStack = stack /\
  forall n', (n' <= length stack)%nat -> (n' <= length parentStack)%nat ->
    last_n n' stack = last_n n' parentStack -> (n' <= n)%nat.
Proof.
  cbn. rewrite count_common. pose proof (common_le (reverse stack) (reverse parentStack)) as [H1 H2].
  rewrite length_reverse in H1, H2. split; [done|]. split; [done|].
  assert (last_n (common (reverse stack) (reverse parentStack)) stack
    = last_n (common (reverse stack) (reverse parentStack)) parentStack) as E
    by (by rewrite !last_n_reverse, common_take).
  split; [done|]. split.
  - rewrite <- E. apply take_drop.
  - intros n' L1 L2. rewrite !last_n_reverse. intros E'%(inj reverse).
    apply common_max; by rewrite ?length_reverse.
Qed.

(** ** The text *)

(** A line of a trace: the failure itself, a frame, or the number of frames
    that the enclosing failure has printed. *)
Inductive line :=
| LFailure (prefix what : string)
| LFrame (frame : string)
| LMore (n : nat).

(** A failure at a depth of indentation. *)
Definition print_line (l : string * line) : string :=
  let '(indent, l) := l in
  indent +:+ match l with
             | LFailure prefix what => prefix +:+ what +:+ newline
             | LFrame f => tab +:+ "at " +:+ f +:+ newline
             | LMore n => tab +:+ "... " +:+ num_to_string (num_of_Z (Z.of_nat n)) +:+ " more" +:+ newline
             end.

(** The frames of a stack below another one: the stack frame by frame, up to
    the point from which it is the end of the other one; what is left there
    is only counted. *)
Fixpoint own_frames (stack parent : list string) : list line :=
  match stack with
  | [] => []
  | f :: stack' =>
      if bool_decide (stack `suffix_of` parent) then [LMore (length stack)] else LFrame f :: own_frames stack' parent
  end.

Definition frames (stack : field (list string)) : list string :=
  match stack with Value l => l | _ => [] end.

Definition fstack (f : Failure) : field (list string) := let '(mkFailure _ _ stack _ _) := f in stack.

(** The lines of a failure below one with the given stack: its own, those of
    its suppressed failures, one step further in, and those of its cause. *)
Fixpoint trace (f : Failure) (parent : list string) (prefix indent : string) : list (string * line) :=
  let '(mkFailure _ _ stack suppressed cause) := f in
  map (pair indent) (LFailure prefix (failureInfoToString f) :: own_frames (frames stack) parent)
  ++ match suppressed with
     | Some l => flat_map (fun g => trace g (frames stack) "Suppressed: " (indent +:+ tab)) l
     | None => []
     end
  ++ match cause with Some c => trace c (frames stack) "Caused by: " indent | None => [] end.

Definition print_lines (l : list (string * line)) : string := String.concat "" (map print_line l).

(** A failure with a stack stands below one without the property. *)
Definition orphan (stack parent : field (list string)) : bool :=
  match stack, parent with Value _, Missing => true | _, _ => false end.

(** No failure with a stack is a suppressed failure or the cause of one that
    has no such property; a stack that is [null] does no harm. *)
Fixpoint printable (f : Failure) (parent : field (list string)) : bool :=
  let '(mkFailure _ _ stack suppressed cause) := f in
  negb (orphan stack parent)
  && match suppressed with Some l => forallb (fun g => printable g stack) l | None => true end
  && match cause with Some c => printable c stack | None => true end.

(** Every failure has a stack or [null] for it, as those of the coordinator
    do. *)
Fixpoint stacked (f : Failure) : bool :=
  let '(mkFailure _ _ stack suppressed cause) := f in
  match stack with Missing => false | _ => true end
  && match suppressed with Some l => forallb stacked l | None => true end
  && match cause with Some c => stacked c | None => true end.

Fixpoint Failure_tree_ind (P : Failure -> Prop)
    (H : forall t m st sup c, Forall P (default [] sup) -> from_option P True c -> P (mkFailure t m st sup c))
    (f : Failure) {struct f} : P f.
Proof.
  destruct f as [t m st sup c]. apply H.
  - destruct sup as [l|]; [|constructor]. cbn. induction l; constructor; [by apply Failure_tree_ind|done].
  - destruct c as [c|]; [|exact I]. exact (Failure_tree_ind P H c).
Defined.

Lemma stacked_printable f : forall parent, parent <> Missing -> stacked f = true -> printable f parent = true.
Proof.
  induction f as [t m st sup c IHs IHc] using Failure_tree_ind. intros parent Hp.
  cbn [stacked printable]. intros [[H1 H2]%andb_prop H3]%andb_prop.
  assert (st <> Missing) as Hst by (by destruct st).
  replace (orphan st parent) with false by (by destruct st, parent). cbn [negb andb].
  apply andb_true_intro. split.
  - destruct sup as [l|]; [|done]. cbn in IHs, H2. rewrite forallb_forall in *. rewrite List.Forall_forall in IHs.
    intros g Hg. by apply IHs, H2.
  - destruct c as [c|]; [|done]. by apply IHc.
Qed.

Lemma concat_app l l' : String.concat "" (l ++ l') = String.concat "" l +:+ String.concat "" l'.
Proof.
  assert (forall x k, String.concat "" (x :: k) = x +:+ String.concat "" k) as Hc.
  { intros x [|y k]; cbn; [by rewrite sapp_nil_r|done]. }
  induction l as [|x l IH]; [done|]. change ((x :: l) ++ l') with (x :: (l ++ l')).
  by rewrite !Hc, IH, sapp_assoc.
Qed.

Lemma print_lines_app l l' : print_lines (l ++ l') = print_lines l +:+ print_lines l'.
Proof. unfold print_lines. by rewrite map_app, concat_app. Qed.

Lemma common_snoc (a b : list string) x :
  common (a ++ [x]) b = if bool_decide ((a ++ [x]) `prefix_of` b) then S (length a) else common a b.
Proof.
  revert b. induction a as [|y a IH]; intros [|z b]; cbn [app common length].
  - done.
  - repeat case_bool_decide; simplify_eq; try done; [exfalso; eauto using prefix_cons, prefix_nil|].
    by match goal with H : _ `prefix_of` _ |- _ => apply prefix_cons_inv_1 in H end.
  - rewrite bool_decide_false; [done|]. apply prefix_nil_not.
  - rewrite IH. case_bool_decide as E; [subst z|].
    + case_bool_decide as H1; case_bool_decide as H2; try done.
      * by destruct H2; apply prefix_cons.
      * by apply prefix_cons_inv_2 in H2.
    + rewrite bool_decide_false; [done|]. by intros H%prefix_cons_inv_1.
Qed.

(** The frames that the code prints are those of the reference. *)
Lemma own_frames_counted stack parent :
  map LFrame (take (length stack - countSharedStackFrames stack parent) stack)
    ++ (if Nat.eqb (countSharedStackFrames stack parent) 0 then [] else [LMore (countSharedStackFrames stack parent)])
  = own_frames stack parent.
Proof.
  rewrite count_common. induction stack as [|f stack IH]; [done|].
  cbn [own_frames]. rewrite <- IH. rewrite reverse_cons, common_snoc, <- reverse_cons.
  rewrite (bool_decide_ext _ _ (iff_sym (suffix_prefix_reverse _ _))). case_bool_decide.
  - by rewrite length_reverse, Nat.sub_diag.
  - pose proof (common_le (reverse stack) (reverse parent)) as [L _]. rewrite length_reverse in L.
    cbn [length]. by rewrite Nat.sub_succ_l by done.
Qed.

Lemma own_frames_nil stack : own_frames stack [] = map LFrame stack.
Proof.
  induction stack as [|f stack IH]; [done|]. cbn. rewrite bool_decide_false; [by rewrite IH|].
  by intros H%suffix_nil_inv.
Qed.

Lemma frame_lines_print linePrefix stack parent :
  frame_lines linePrefix stack parent =
  if orphan stack parent then Throw TypeError
  else Ok (print_lines (map (pair linePrefix) (own_frames (frames stack) (frames parent)))).
Proof.
  destruct stack as [| |st]; [done..|].
  assert (forall n, String.concat ""
        (map (fun f => linePrefix +:+ tab +:+ "at " +:+ f +:+ newline) (take (length st - n) st))
      +:+ (if Nat.eqb n 0 then "" else linePrefix +:+ tab +:+ "... " +:+ num_to_string (num_of_Z (Z.of_nat n))
               +:+ " more" +:+ newline)
    = print_lines (map (pair linePrefix)
        (map LFrame (take (length st - n) st) ++ if Nat.eqb n 0 then [] else [LMore n]))) as H.
  { intros n. rewrite map_app, print_lines_app, map_map. unfold print_lines at 1. rewrite map_map. f_equal.
    by destruct (Nat.eqb _ 0). }
  destruct parent as [| |parent]; [done| |]; cbn [frame_lines orphan mbind result_bind frames]; f_equal;
    rewrite H; [|by rewrite own_frames_counted].
  rewrite own_frames_nil, Nat.sub_0_r, firstn_all. cbn. by rewrite app_nil_r.
Qed.

Lemma helper_trace f : forall parent prefix linePrefix,
  formatStackTraceHelper f parent prefix linePrefix =
  if printable f parent then Ok (print_lines (trace f (frames parent) prefix linePrefix)) else Throw TypeError.
Proof.
  induction f as [t m st sup c IHs IHc] using Failure_tree_ind. intros parent prefix lp.
  cbn [formatStackTraceHelper trace printable]. rewrite frame_lines_print.
  destruct (orphan st parent); [done|]. cbn [mbind result_bind negb andb].
  set (F := mkFailure t m st sup c).
  assert (match sup with
    | Some l =>
        (fix loop l := match l with
           | [] => Ok ""
           | f :: l' =>
               t ← formatStackTraceHelper f st "Suppressed: " (lp +:+ tab);
               t' ← loop l'; Ok (t +:+ t')
           end) l
    | None => Ok ""
    end = if match sup with Some l => forallb (fun g => printable g st) l | None => true end
          then Ok (print_lines match sup with
                          | Some l => flat_map (fun g => trace g (frames st) "Suppressed: " (lp +:+ tab)) l
                          | None => []
                          end)
          else Throw TypeError) as ->.
  { destruct sup as [l|]; [|done]. clear F. cbn in IHs |- *. induction l as [|f l IHl]; [done|].
    apply Forall_cons in IHs as [IH1 IH2]. rewrite IH1. cbn [forallb].
    destruct (printable f st); [|done]. cbn [mbind result_bind andb]. rewrite IHl by done.
    destruct (forallb _ l); [|done]. cbn [mbind result_bind flat_map]. by rewrite print_lines_app. }
  destruct (match sup with Some l => forallb _ l | None => true end); [|done]. cbn [mbind result_bind andb].
  assert (match c with Some c => formatStackTraceHelper c st "Caused by: " lp | None => Ok "" end
    = if match c with Some c => printable c st | None => true end
      then Ok (print_lines match c with Some c => trace c (frames st) "Caused by: " lp | None => [] end)
      else Throw TypeError) as ->.
  { destruct c as [c|]; [|done]. by apply IHc. }
  destruct (match c with Some c => printable c st | None => true end); [|done].
  cbn [mbind result_bind]. f_equal. rewrite !print_lines_app. rewrite <- sapp_assoc. f_equal.
  change (map (pair lp) (LFailure prefix (failureInfoToString F) :: own_frames (frames st) (frames parent)))
    with ([(lp, LFailure prefix (failureInfoToString F))] ++ map (pair lp) (own_frames (frames st) (frames parent))).
  by rewrite print_lines_app.
Qed.

(** The stack trace of a failure of the coordinator. *)
Lemma stacked_trace f : stacked f = true -> formatStackTrace f = Ok (print_lines (trace f [] "" "")).
Proof. intros H. unfold formatStackTrace. by rewrite helper_trace, stacked_printable. Qed.

(** C7: for every failure, however deep, the stack trace is printed completely
    or printing throws. It throws exactly when a failure with a stack stands
    directly below one without the property. Otherwise the text is the line of
    the failure, its frames up to the point from which its stack is the end of
    that of the failure around it, the number of the frames from there on, the
    suppressed failures in the same form and indented by a tab, and the chain
    of causes. *)
Theorem stack_trace_text (info : Failure) :
  formatStackTrace info =
  if printable info (Value []) then Ok (print_lines (trace info [] "" "")) else Throw TypeError.
Proof. apply helper_trace. Qed.

(** a failure whose stack is present cannot be printed below one whose
    stack is missing: the page throws. *)
Theorem missing_stack_throws (t t' : string) (m m' : field string) (st : list string)
    (sup : option (list Failure)) (cause : option Failure) :
  formatStackTrace (mkFailure t m Missing None (Some (mkFailure t' m' (Value st) sup cause))) = Throw TypeError.
Proof. done. Qed.

(** ** Examples *)

Definition sample_failure : Failure :=
  mkFailure "java.lang.RuntimeException" (Value "outer") (Value ["A.f(A.java:1)"; "M.main(M.java:9)"])
    (Some [mkFailure "java.io.IOException" Missing (Value ["B.g(B.java:2)"; "M.main(M.java:9)"]) (Some []) None])
    (Some (mkFailure "java.lang.Error" Null (Value ["C.h(C.java:3)"; "A.f(A.java:1)"; "M.main(M.java:9)"]) None None)).

Lemma stack_trace_text_witness :
  formatStackTrace sample_failure =
  Ok ("java.lang.RuntimeException: outer" +:+ newline
      +:+ tab +:+ "at A.f(A.java:1)" +:+ newline
      +:+ tab +:+ "at M.main(M.java:9)" +:+ newline
      +:+ tab +:+ "Suppressed: java.io.IOException: undefined" +:+ newline
      +:+ tab +:+ tab +:+ "at B.g(B.java:2)" +:+ newline
      +:+ tab +:+ tab +:+ "... 1 more" +:+ newline
      +:+ "Caused by: java.lang.Error" +:+ newline
      +:+ tab +:+ "at C.h(C.java:3)" +:+ newline
      +:+ tab +:+ "... 2 more" +:+ newline).
Proof. rewrite (stack_trace_text sample_failure). vm_compute. reflexivity. Defined.
