(* ===== verification/TaskList.v ===== *)
(** * components/QueryDetail.jsx: the table of tasks

    [TaskList] shows the tasks of a query in a Reactable table; the table
    sorts its rows by the column the user picks, the ids with
    [compareTaskId]. *)
From S2P Require Import Prelude JsString JsNumber JsNumberFacts JsArray JsObject JsDate Html.
From S2P Require Import UtilsQuery UtilsText UtilsFormat UtilsParse QueryInfo StageDetail.
Local Open Scope Z_scope.

Module TaskList.

(** ** Definitions *)

Definition removeQueryId (id : string) : string :=
  let pos := indexOf id "." in
  if negb (pos =? -1) then js_substring_from id (pos + 1) else id.

(** The loop over the parts of the ids; a part that is missing parses to
    NaN, which differs from every number and is not below one. *)
Fixpoint compare_parts (taskIdArrA taskIdArrB : list string) : num :=
  match taskIdArrA, taskIdArrB with
  | [], _ => num_of_Z 0
  | a :: arrA, b :: arrB =>
      let anum := parseInt a in
      let bnum := parseInt b in
      if negb (neq anum bnum) then (if ngt anum bnum then num_of_Z 1 else num_of_Z (-1))
      else compare_parts arrA arrB
  | _ :: _, [] => num_of_Z (-1)
  end.

Definition compareTaskId (taskA taskB : string) : num :=
  let taskIdArrA := split_on "." (removeQueryId taskA) in
  let taskIdArrB := split_on "." (removeQueryId taskB) in
  if alen taskIdArrB <? alen taskIdArrA then num_of_Z 1
  else compare_parts taskIdArrA taskIdArrB.

Definition formatState (state : string) (fullyBlocked : bool) : string :=
  if fullyBlocked && String.eqb state "RUNNING" then "BLOCKED" else state.

Section addresses.
Context (URL : string -> result URLParts).

(** [(hostname in map) && (map[hostname] !== port)]: a property that the map
    inherits is there, and never equal to a port. *)
Definition other_port (hostname port : string) (hostToPortNumber : obj string) : bool :=
  obj_in hostname hostToPortNumber
  && match dict_get hostname hostToPortNumber with Some p => negb (String.eqb p port) | None => true end.

Fixpoint port_loop (tasks : list Task) (hostToPortNumber : obj string) : result bool :=
  match tasks with
  | [] => Ok false
  | t :: tasks' =>
      let taskUri := self (taskStatus t) in
      hostname ← getHostname URL taskUri;
      port ← getPort URL taskUri;
      if other_port hostname port hostToPortNumber then Ok true
      else port_loop tasks' (dict_set hostname port hostToPortNumber)
  end.

Definition showPortNumbers (tasks : list Task) : result bool := port_loop tasks [].

(** [computeRate(count, ms)] where [ms] may be [null], which is not [0] but
    divides like it. *)
Definition rate (count : num) (ms : option num) : num :=
  match ms with
  | Some n => computeRate count n
  | None => ((count / num_of_nullable None) * num_of_Z 1000)%js
  end.

(** The time the rates of a task are over: since its creation when no time
    has been recorded. *)
Definition task_elapsed (now : Z) (st : TaskStats) : option num :=
  match parseDuration (tElapsedTime st) with
  | Some e => if neq e 0 then Some (num_of_Z now - Date_parse (tCreateTime st))%js else Some e
  | None => None
  end.

(** The [value] of a cell. *)
Definition val {E} (n : num) : attr E := at_ "value" (num_to_string n).
Definition valo {E} (n : option num) : attr E :=
  at_ "value" match n with Some n => num_to_string n | None => "null" end.

(** A row of the table. *)
Definition renderTask {E} (now : Z) (showPortNumbers : bool) (t : Task) : result (vnode E) :=
  let st := stats t in
  let elapsedTime := task_elapsed now st in
  let rowRate := rate (tRawInputPositions st) elapsedTime in
  let size := parseDataSize (tRawInputDataSize st) in
  let byteRate := rate (num_of_nullable size) elapsedTime in
  let state := formatState (taskState (taskStatus t)) (tFullyBlocked st) in
  hostname ← getHostname URL (self (taskStatus t));
  host ← if showPortNumbers then getHostAndPort URL (self (taskStatus t)) else Ok hostname;
  sizeText ← StageDetail.format_nullable formatDataSizeBytes size;
  Ok (
    h "Tr" [] [
      h "Td" [at_ "column" "id"; at_ "value" (taskId (taskStatus t))] [
        h "a" [at_ "href" (self (taskStatus t) +:+ "?pretty")] [
          txt (getTaskIdSuffix (taskId (taskStatus t)))]];
      h "Td" [at_ "column" "host"; at_ "value" hostname] [
        h "a" [at_ "href" ("worker.html?" +:+ nodeId (taskStatus t)); cls "font-light";
            at_ "target" "_blank"] [
          txt host]];
      h "Td" [at_ "column" "state"; at_ "value" state] [txt state];
      h "Td" [at_ "column" "rows"; (val (tRawInputPositions st))] [
        txt (formatCount (tRawInputPositions st))];
      h "Td" [at_ "column" "rowsSec"; (val rowRate)] [txt (formatCount rowRate)];
      h "Td" [at_ "column" "bytes"; (valo size)] [txt sizeText];
      h "Td" [at_ "column" "bytesSec"; (val byteRate)] [txt (formatDataSizeBytes byteRate)];
      h "Td" [at_ "column" "splitsPending"; (val (tQueuedDrivers st))] [txtn (tQueuedDrivers st)];
      h "Td" [at_ "column" "splitsRunning"; (val (tRunningDrivers st))] [txtn (tRunningDrivers st)];
      h "Td" [at_ "column" "splitsBlocked"; (val (tBlockedDrivers st))] [txtn (tBlockedDrivers st)];
      h "Td" [at_ "column" "splitsDone"; (val (tCompletedDrivers st))] [txtn (tCompletedDrivers st)];
      h "Td" [at_ "column" "elapsedTime"; (valo (parseDuration (tElapsedTime st)))] [
        txt (tElapsedTime st)];
      h "Td" [at_ "column" "cpuTime"; (valo (parseDuration (tTotalCpuTime st)))] [txt (tTotalCpuTime st)];
      h "Td" [at_ "column" "bufferedBytes"; (val (totalBufferedBytes t))] [
        txt (formatDataSizeBytes (totalBufferedBytes t))]]).

(** The columns the table can be sorted by; [None] is the library's own
    order. *)
Definition sortable : list (string * option (string -> string -> num)) :=
  [("id", Some compareTaskId); ("host", None); ("state", None); ("splitsPending", None);
   ("splitsRunning", None); ("splitsBlocked", None); ("splitsDone", None); ("rows", None);
   ("rowsSec", None); ("bytes", None); ("bytesSec", None); ("elapsedTime", None);
   ("cpuTime", None); ("bufferedBytes", None)].

Definition render {E} (now : Z) (tasks : list Task) : result (vnode E) :=
  match tasks with
  | [] =>
      Ok (
        h "div" [cls "row error-message"] [
          h "div" [cls "col-xs-12"] [h "h4" [] [txt "No threads in the selected group"]]])
  | _ =>
      showPortNumbers ← showPortNumbers tasks;
      renderedTasks ← mapM (renderTask now showPortNumbers) tasks;
      Ok (
        h "Table" [at_ "id" "tasks"; cls "table table-striped sortable"; at_ "defaultSort" "id asc"] [
          h "Thead" [] [
            h "Th" [at_ "column" "id"] [txt "ID"];
            h "Th" [at_ "column" "host"] [txt "Host"];
            h "Th" [at_ "column" "state"] [txt "State"];
            h "Th" [at_ "column" "splitsPending"] [
              h "span" [cls "glyphicon glyphicon-pause"; style GLYPHICON_HIGHLIGHT;
                  at_ "data-toggle" "tooltip"; at_ "data-placement" "top";
                  at_ "title" "Pending splits"] []];
            h "Th" [at_ "column" "splitsRunning"] [
              h "span" [cls "glyphicon glyphicon-play"; style GLYPHICON_HIGHLIGHT;
                  at_ "data-toggle" "tooltip"; at_ "data-placement" "top";
                  at_ "title" "Running splits"] []];
            h "Th" [at_ "column" "splitsBlocked"] [
              h "span" [cls "glyphicon glyphicon-bookmark"; style GLYPHICON_HIGHLIGHT;
                  at_ "data-toggle" "tooltip"; at_ "data-placement" "top";
                  at_ "title" "Blocked splits"] []];
            h "Th" [at_ "column" "splitsDone"] [
              h "span" [cls "glyphicon glyphicon-ok"; style GLYPHICON_HIGHLIGHT;
                  at_ "data-toggle" "tooltip"; at_ "data-placement" "top";
                  at_ "title" "Completed splits"] []];
            h "Th" [at_ "column" "rows"] [txt "Rows"];
            h "Th" [at_ "column" "rowsSec"] [txt "Rows/s"];
            h "Th" [at_ "column" "bytes"] [txt "Bytes"];
            h "Th" [at_ "column" "bytesSec"] [txt "Bytes/s"];
            h "Th" [at_ "column" "elapsedTime"] [txt "Elapsed"];
            h "Th" [at_ "column" "cpuTime"] [txt "CPU Time"];
            h "Th" [at_ "column" "bufferedBytes"] [txt "Buffered"]];
          frag renderedTasks])
  end.
End addresses.
End TaskList.

