(* ===== verification/TaskListFacts.v ===== *)
(** * Properties of the table of tasks

    The order of the task ids, the decision to show port numbers, and the
    rows and columns of the table. *)
From S2P Require Import Prelude JsString JsNumber JsNumberFacts JsArray JsObject JsDate Html.
From S2P Require Import UtilsQuery UtilsText UtilsFormat UtilsParse QueryInfo StageDetail TaskList.
Import TaskList.
Local Open Scope Z_scope.

(** ** The order of the ids *)

Definition task_id (q : string) (stage task : Z) : string :=
  q +:+ "." +:+ Z_to_dec stage +:+ "." +:+ Z_to_dec task.

Definition sign_num (c : comparison) : num :=
  num_of_Z match c with Lt => -1 | Eq => 0 | Gt => 1 end.

Lemma removeQueryId_dot q s : has_char "." q = false -> removeQueryId (q +:+ "." +:+ s) = s.
Proof.
  intros H. unfold removeQueryId. change (q +:+ "." +:+ s) with (q +:+ String "." s).
  rewrite indexOf_char by done. pose proof (slen_nonneg q). replace (slen q =? -1) with false by lia.
  cbn [negb]. replace (slen q + 1) with (slen (q +:+ ".")) by (rewrite slen_app; done).
  change (q +:+ String "." s) with (q +:+ ("." +:+ s)). rewrite <- sapp_assoc. apply js_substring_suffix.
Qed.

Lemma parseInt_Z_to_dec z : 0 <= z -> parseInt (Z_to_dec z) = num_of_Z z.
Proof. intros H. rewrite <- (sapp_nil_r (Z_to_dec z)). by apply parseInt_dec. Qed.

Lemma ngt_num_of_Z a b : small a -> small b -> ngt (num_of_Z a) (num_of_Z b) = (b <? a).
Proof.
  intros Ha Hb. unfold ngt, nlt, SpecFloat.SFltb. rewrite compare_num_of_Z by done.
  rewrite Z.ltb_compare. by destruct (b ?= a).
Qed.

Lemma compare_parts_cons x y a b : small x -> small y -> 0 <= x -> 0 <= y ->
  compare_parts (Z_to_dec x :: a) (Z_to_dec y :: b) =
  match x ?= y with Eq => compare_parts a b | c => sign_num c end.
Proof.
  intros Sx Sy Hx Hy. cbn [compare_parts]. rewrite !parseInt_Z_to_dec by done. rewrite neq_num_of_Z, ngt_num_of_Z by done.
  destruct (Z.compare_spec x y) as [->|H|H].
  - by rewrite Z.eqb_refl.
  - replace (x =? y) with false by lia. by replace (y <? x) with false by lia.
  - replace (x =? y) with false by lia. by replace (y <? x) with true by lia.
Qed.

(** task ids are ordered by the number of their stage, then by their own
    number, as numbers and not as texts, whatever the ids of their queries. *)
Theorem compareTaskId_lex (q q' : string) (s t s' t' : Z) :
  has_char "." q = false -> has_char "." q' = false ->
  0 <= s < 2 ^ 53 -> 0 <= t < 2 ^ 53 -> 0 <= s' < 2 ^ 53 -> 0 <= t' < 2 ^ 53 ->
  compareTaskId (task_id q s t) (task_id q' s' t') =
  sign_num match s ?= s' with Eq => t ?= t' | c => c end.
Proof.
  intros Hq Hq' Hs Ht Hs' Ht'. unfold compareTaskId, task_id. rewrite !removeQueryId_dot by done.
  assert (forall a b, 0 <= a -> 0 <= b ->
    split_on "." (Z_to_dec a +:+ "." +:+ Z_to_dec b) = [Z_to_dec a; Z_to_dec b]) as Hsp.
  { intros a b Ha Hb. change ("." +:+ Z_to_dec b) with (String "." (Z_to_dec b)).
    rewrite split_on_app, split_on_nosep by (by apply Z_to_dec_no_char). done. }
  rewrite !Hsp by lia. cbn [alen length Z.of_nat Z.ltb].
  rewrite compare_parts_cons by (unfold small; lia).
  destruct (s ?= s'); [|done|done]. rewrite compare_parts_cons by (unfold small; lia).
  by destruct (t ?= t').
Qed.

Lemma compareTaskId_lex_witness :
  compareTaskId (task_id "20190301_120000_00001_abcde" 2 10) (task_id "20190301_120000_00001_abcde" 2 9) = num_of_Z 1.
Proof.
  rewrite (compareTaskId_lex "20190301_120000_00001_abcde" "20190301_120000_00001_abcde" 2 10 2 9);
    [reflexivity|reflexivity|reflexivity|lia|lia|lia|lia].
Defined.

(** Ids of different lengths are not ordered: the shorter one is equal to the
    longer one, the longer one is greater. *)
Example compareTaskId_lengths :
  compareTaskId "q.1" "q.1.2" = num_of_Z 0 /\ compareTaskId "q.1.2" "q.1" = num_of_Z 1.
Proof. vm_compute. done. Qed.

(** ** Port numbers *)

Section ports.
Context (URL : string -> result URLParts).

Definition address (t : Task) : result (string * string) :=
  h ← getHostname URL (self (taskStatus t)); p ← getPort URL (self (taskStatus t)); Ok (h, p).

(** The tasks have addresses, and no host is named like a property every
    object has. *)
Definition addressed (tasks : list Task) (addrs : list (string * string)) : Prop :=
  Forall2 (fun t a => address t = Ok a) tasks addrs /\ Forall (fun a => inherited a.1 = false) addrs.

Lemma address_inv t h p : address t = Ok (h, p) ->
  getHostname URL (self (taskStatus t)) = Ok h /\ getPort URL (self (taskStatus t)) = Ok p.
Proof.
  unfold address. destruct (getHostname _ _); [|done]. cbn. destruct (getPort _ _); [|done]. cbn. naive_solver.
Qed.

Lemma other_port_get h p m : inherited h = false ->
  other_port h p m = match dict_get h m with Some p' => negb (String.eqb p' p) | None => false end.
Proof.
  intros H. unfold other_port, obj_in, dict_has. rewrite H. destruct (dict_get h m) as [p'|].
  - by rewrite bool_decide_true by eauto.
  - by rewrite bool_decide_false by (by intros [? ?]).
Qed.

(** Two ports of one host. *)
Definition two_ports (addrs : list (string * string)) : Prop :=
  exists h p p', (h, p) ∈ addrs /\ (h, p') ∈ addrs /\ p <> p'.

Lemma port_loop_spec tasks addrs m (seen : list (string * string)) : addressed tasks addrs ->
  (forall h p, dict_get h m = Some p <-> (h, p) ∈ seen) ->
  exists b, port_loop URL tasks m = Ok b /\ (b = true <-> two_ports (seen ++ addrs)).
Proof.
  intros [HA HI]. revert m seen. induction HA as [|t [h p] tasks addrs Ht HA IH]; intros m seen Hm.
  - exists false. split; [done|]. split; [done|]. intros (h & p & p' & H1 & H2 & Hne).
    rewrite app_nil_r in *. apply Hm in H1, H2. congruence.
  - apply Forall_cons in HI as [Hh HI]. cbn in Hh. apply address_inv in Ht as [E1 E2].
    cbn [port_loop]. rewrite E1. cbn [mbind result_bind]. rewrite E2. cbn [mbind result_bind].
    rewrite other_port_get by done. destruct (dict_get h m) as [p'|] eqn:Eg.
    + destruct (String.eqb_spec p' p) as [->|Hp]; cbn [negb].
      * destruct (IH HI (dict_set h p m) seen) as (b & Eb & Hb).
        { intros h0 p0. rewrite dict_get_set. case_decide; [subst; rewrite <- Hm; naive_solver|apply Hm]. }
        exists b. split; [done|]. rewrite Hb. apply Hm in Eg.
        split; intros (h0 & a & a' & H1 & H2 & Hne); exists h0, a, a'; split_and!; set_solver.
      * exists true. split; [done|]. split; [|done]. intros _. exists h, p', p. apply Hm in Eg. set_solver.
    + destruct (IH HI (dict_set h p m) (seen ++ [(h, p)])) as (b & Eb & Hb).
      { intros h0 p0. rewrite dict_get_set, elem_of_app, list_elem_of_singleton. case_decide as Hc.
        - subst. split; [intros [= ->]; by right|]. intros [H%Hm|[= ->]]; [congruence|done].
        - rewrite Hm. naive_solver. }
      exists b. split; [done|]. rewrite Hb. by rewrite <- app_assoc.
Qed.

(** port numbers are shown exactly when they are needed: when two of the
    tasks run on one host under different ports. *)
Theorem showPortNumbers_spec (tasks : list Task) (addrs : list (string * string)) :
  addressed tasks addrs ->
  exists b, showPortNumbers URL tasks = Ok b /\ (b = true <-> two_ports addrs).
Proof. intros H. apply (port_loop_spec tasks addrs [] []); [done|]. intros h p. cbn. set_solver. Qed.

(** ** The table *)

(** A task whose address can be read and whose input size is a data size. *)
Definition showable (t : Task) : Prop :=
  (exists u, URL (self (taskStatus t)) = Ok u) /\ is_Some (parseDataSize (tRawInputDataSize (stats t))).

Definition row_columns {E} (r : list (attr E) * list (vnode E)) : list string :=
  flat_map (attr_values "column") r.2.
Definition row_id {E} (r : list (attr E) * list (vnode E)) : option string :=
  head (flat_map (attr_values "value") r.2).

Lemma getHostname_ok url u : URL url = Ok u -> exists h, getHostname URL url = Ok h.
Proof. intros E. unfold getHostname. rewrite E. cbn. case_if; eauto. Qed.

Lemma showPortNumbers_ok tasks : Forall showable tasks -> forall m, exists b, port_loop URL tasks m = Ok b.
Proof.
  induction 1 as [|t tasks [[u Hu] _] _ IH]; intros m; cbn [port_loop]; [eauto|].
  destruct (getHostname_ok _ _ Hu) as [h ->]. unfold getPort. rewrite Hu. cbn. case_if; eauto.
Qed.

Lemma renderTask_row {E} now b t : showable t ->
  exists v, renderTask (E := E) URL now b t = Ok v /\
    exists r, elements "Tr" v = [r] /\ elements "Thead" v = [] /\
      row_id r = Some (taskId (taskStatus t)) /\ row_columns r ≡ₚ map fst sortable.
Proof.
  intros [[u Hu] [size Hs]]. unfold renderTask. rewrite Hs. destruct (getHostname_ok _ _ Hu) as [h ->].
  cbn [mbind result_bind]. unfold getHostAndPort. rewrite Hu.
  assert (exists host, (if b then u' ← Ok u; Ok (hostname u' +:+ ":" +:+ port u') else Ok h) = Ok host) as [host ->]
    by (destruct b; cbn; eauto).
  cbn [mbind result_bind StageDetail.format_nullable]. eexists. split; [done|].
  eexists. split; [reflexivity|]. split; [reflexivity|]. split; [reflexivity|].
  cbn. apply (bool_decide_unpack _). vm_compute. exact I.
Qed.

(** the table of tasks has one row for each task, in the order of the
    tasks, under the task's id; and the columns of every row and of the
    header are the columns the table can be sorted by. *)
Theorem task_table {E} (now : Z) (tasks : list Task) :
  tasks <> [] -> Forall showable tasks ->
  exists v, render (E := E) URL now tasks = Ok v /\
    map row_id (elements "Tr" v) = map (fun t => Some (taskId (taskStatus t))) tasks /\
    Forall (fun r => row_columns r ≡ₚ map fst sortable) (elements "Tr" v) /\
    exists header, elements "Thead" v = [header] /\ row_columns header ≡ₚ map fst sortable.
Proof.
  intros Hne HS. destruct tasks as [|t0 ts]; [done|]. clear Hne. set (tasks := t0 :: ts) in *.
  unfold render. change (match tasks with [] => _ | _ => ?x end) with x.
  destruct (showPortNumbers_ok tasks HS []) as [b Eb]. unfold showPortNumbers. rewrite Eb. cbn [mbind result_bind].
  destruct (mapM_Ok (renderTask (E := E) URL now b) tasks) as [rows Er].
  { rewrite Forall_forall in HS. intros t Ht. destruct (renderTask_row (E := E) now b t (HS t Ht)) as (v & ? & _). eauto. }
  rewrite Er. cbn [mbind result_bind]. eexists. split; [done|]. rewrite mapM_Forall2 in Er.
  assert (map row_id (flat_map (elements "Tr") rows) = map (fun t => Some (taskId (taskStatus t))) tasks /\
    Forall (fun r => row_columns r ≡ₚ map fst sortable) (flat_map (elements "Tr") rows) /\
    flat_map (elements "Thead") rows = []) as (R1 & R2 & R3).
  { clearbody tasks. clear Eb. induction Er as [|t v tasks rows Hv _ IH]; [done|].
    apply Forall_cons in HS as [Ht HS]. destruct (renderTask_row (E := E) now b t Ht) as (v' & Hv' & r & H1 & H2 & H3 & H4).
    rewrite Hv in Hv'. injection Hv' as <-. destruct (IH HS) as (I1 & I2 & I3). cbn [flat_map]. rewrite H1, H2. cbn [app map]. rewrite H3, I1, I3.
    split_and!; [done| |done]. by constructor. }
  split; [|split].
  - cbn. by rewrite app_nil_r.
  - cbn. by rewrite app_nil_r.
  - eexists. split; [cbn; by rewrite app_nil_r, R3|]. apply (bool_decide_unpack _). vm_compute. exact I.
Qed.
End ports.

(** ** Examples *)

(** A parser for addresses of the form scheme://host:port/path. *)
Definition simple_URL (s : string) : result URLParts :=
  match split_on "/" s with
  | _ :: _ :: authority :: _ =>
      match split_on ":" authority with
      | [host; p] => Ok {| hostname := host; port := p |}
      | _ => Throw TypeError
      end
  | _ => Throw TypeError
  end.

Definition sample_task (stage task : Z) (state host : string) : Task := {|
  taskStatus := {| taskId := task_id "q" stage task; self := "http://" +:+ host +:+ "/v1/task/" +:+ task_id "q" stage task;
                   nodeId := "node"; taskState := state |};
  stats := {| tElapsedTime := "2.00s"; tCreateTime := "2019-03-01T12:34:56.789Z"; tTotalScheduledTime := "1.50s";
              tTotalCpuTime := "1.00s"; tFullyBlocked := false; tRawInputPositions := num_of_Z 100;
              tRawInputDataSize := "10kB"; tQueuedDrivers := num_of_Z 0; tRunningDrivers := num_of_Z 1;
              tBlockedDrivers := num_of_Z 0; tCompletedDrivers := num_of_Z 3; pipelines := [] |};
  totalBufferedBytes := num_of_Z 512 |}.

Definition sample_tasks : list Task :=
  [sample_task 1 0 "RUNNING" "a:8080"; sample_task 1 1 "FINISHED" "b:8080"; sample_task 2 0 "RUNNING" "a:8081"].

Lemma showPortNumbers_spec_witness :
  showPortNumbers simple_URL sample_tasks = Ok true /\ showPortNumbers simple_URL (take 2 sample_tasks) = Ok false.
Proof.
  destruct (showPortNumbers_spec simple_URL sample_tasks [("a", "8080"); ("b", "8080"); ("a", "8081")])
    as (b & H1 & H2).
  - split; [repeat constructor|apply (bool_decide_unpack _); vm_compute; exact I].
  - split; [|vm_compute; reflexivity]. rewrite H1. f_equal. apply H2. exists "a", "8080", "8081". set_solver.
Defined.

Lemma task_table_witness :
  exists v, TaskList.render (E := Empty_set) simple_URL 0 sample_tasks = Ok v /\
    map row_id (elements "Tr" v) = [Some "q.1.0"; Some "q.1.1"; Some "q.2.0"].
Proof.
  destruct (task_table (E := Empty_set) simple_URL 0 sample_tasks) as (v & H1 & H2 & _).
  - done.
  - repeat (constructor; [split; [eexists; reflexivity|vm_compute; eauto]|]). constructor.
  - exists v. split; [exact H1|]. rewrite H2. vm_compute. reflexivity.
Defined.
