(* ===== verification/StageSummary.v ===== *)
(** * components/QueryDetail.jsx: the list of stages

    [StageSummary] shows one stage: its statistics, the histograms of the
    times of its tasks and, when it is expanded, a bar for each task;
    [StageList] shows every stage of a query. *)
From S2P Require Import Prelude JsString JsNumber JsNumberFacts JsArray JsObject Html Sparkline.
From S2P Require Import UtilsQuery UtilsText UtilsFormat UtilsParse QueryInfo StageDetail.
From Stdlib Require Import SpecFloat.
Local Open Scope Z_scope.

Module StageSummary.
Import Sparkline.

Definition BAR_CHART_WIDTH : Z := 800.
Definition HISTOGRAM_WIDTH : Z := 175.

Record State := { expanded : bool; lastRender : option Z }.

Definition initial_state : State := {| expanded := false; lastRender := None |}.

Definition getExpandedIcon (s : State) : string :=
  if expanded s then "glyphicon-chevron-up" else "glyphicon-chevron-down".

Definition getExpandedStyle (s : State) : list (string * string) :=
  if expanded s then [] else [("display", "none")].

Definition toggleExpanded (s : State) : State :=
  {| expanded := negb (expanded s); lastRender := lastRender s |}.

(** ** Histograms *)

(** A number as the index of an array: [None] when it names a property that
    is not an element. *)
Definition num_index (x : num) : option Z :=
  match x with
  | S754_zero _ => Some 0
  | S754_finite false m e =>
      let n := mag_num m e / mag_den e in
      if (n * mag_den e =? mag_num m e) && (n <? 2 ^ 32 - 1) then Some n else None
  | _ => None
  end.

(** [histogramData[bucket] = histogramData[bucket] + 1]: an element that is
    not there reads as [undefined], and writing behind the end leaves holes. *)
Definition hist_add (bucket : num) (histogramData : list (option num)) : list (option num) :=
  match num_index bucket with
  | None => histogramData
  | Some i =>
      if i <? alen histogramData
      then alter (fun x => Some (num_of_undefined x + num_of_Z 1)%js) (Z.to_nat i) histogramData
      else histogramData ++ replicate (Z.to_nat (i - alen histogramData)) None ++ [Some nan]
  end.

(** The first loop pushes a zero for every [i] below [numBuckets + 1], which
    is at most 176. *)
Fixpoint zero_bars (fuel : nat) (i : Z) (limit : num) : list (option num) :=
  match fuel with
  | O => []
  | S fuel' => if nlt (num_of_Z i) limit then Some (num_of_Z 0) :: zero_bars fuel' (i + 1) limit else []
  end.

Definition bars_fuel : nat := 200.

(** A missing time is [null], which counts as zero. *)
Definition numBuckets (inputData : list (option num)) : num :=
  math_min (num_of_Z HISTOGRAM_WIDTH) (nsqrt (num_of_Z (alen inputData))).
Definition dataMin (inputData : list (option num)) : num :=
  foldr (fun x m => math_min (num_of_nullable x) m) infinity inputData.
Definition dataMax (inputData : list (option num)) : num :=
  foldr (fun x m => math_max (num_of_nullable x) m) (nneg infinity) inputData.
Definition bucketSize (inputData : list (option num)) : num :=
  ((dataMax inputData - dataMin inputData) / numBuckets inputData)%js.

Definition bucket (inputData : list (option num)) (dataPoint : option num) : num :=
  math_floor ((num_of_nullable dataPoint - dataMin inputData) / bucketSize inputData)%js.

Definition histogramData (inputData : list (option num)) : list (option num) :=
  if neq (bucketSize inputData) 0 then [Some (num_of_Z (alen inputData))]
  else fold_left (fun hist dataPoint => hist_add (bucket inputData dataPoint) hist) inputData
         (zero_bars bars_fuel 0 (numBuckets inputData + num_of_Z 1)%js).

Definition HISTOGRAM_PROPERTIES : options :=
  [("type", Text "bar");
   ("barSpacing", Text "0");
   ("height", Text "80px");
   ("barColor", Text "#747F96");
   ("zeroColor", Text "#747F96");
   ("zeroAxis", Flag true);
   ("chartRangeMin", Number (num_of_Z 0));
   ("tooltipClassname", Text "sparkline-tooltip");
   ("tooltipFormat", Text "{{offset:offset}} -- {{value}} tasks");
   ("disableHiddenCheck", Flag true)].

Definition renderHistogram (histogramId : string) (inputData : list (option num)) (numberFormatter : num -> string)
    : Chart :=
  let hist := histogramData inputData in
  let size := bucketSize inputData in
  let label i := numberFormatter (dataMin inputData + (num_of_Z i * size))%js +:+ "-"
                 +:+ numberFormatter (dataMin inputData + (num_of_Z (i + 1) * size))%js in
  sparkline histogramId hist HISTOGRAM_PROPERTIES
    [("barWidth", Number (num_of_Z HISTOGRAM_WIDTH / num_of_Z (alen hist))%js);
     ("tooltipValueLookups", Offsets (map label (seqZ 0 (alen hist))))].

Definition BAR_CHART_PROPERTIES : options :=
  [("type", Text "bar");
   ("barSpacing", Text "0");
   ("height", Text "80px");
   ("barColor", Text "#747F96");
   ("zeroColor", Text "#8997B3");
   ("chartRangeMin", Number (num_of_Z 0));
   ("tooltipClassname", Text "sparkline-tooltip");
   ("tooltipFormat", Text "Task {{offset:offset}} - {{value}}");
   ("disableHiddenCheck", Flag true)].

Section with_sort.
Context {AS : ArraySort}.

Definition stageNumber (stage : Stage) : string := num_to_string (getStageNumber (stageId stage)).

(** The bar charts of an expanded stage. *)
Definition barCharts (stage : Stage) (scheduledTimes cpuTimes : list (option num)) : list Chart :=
  let numTasks := alen scheduledTimes in
  let lookups := map (fun i => stageNumber stage +:+ "." +:+ num_to_string (num_of_Z i)) (seqZ 0 numTasks) in
  let stageBarChartProperties :=
    extend [] [BAR_CHART_PROPERTIES;
               [("barWidth", Number (num_of_Z BAR_CHART_WIDTH / num_of_Z numTasks)%js);
                ("tooltipValueLookups", Offsets lookups)]] in
  [sparkline ("#scheduled-time-bar-chart-" +:+ stageNumber stage) scheduledTimes stageBarChartProperties
     [("numberFormatter", Formatter formatDuration)];
   sparkline ("#cpu-time-bar-chart-" +:+ stageNumber stage) cpuTimes stageBarChartProperties
     [("numberFormatter", Formatter formatDuration)]].

Definition set_tasks (ts : list Task) (stage : Stage) : Stage :=
  let '(mkStage i st p ss _ subs) := stage in mkStage i st p ss (Some ts) subs.

(** [componentDidUpdate] with its two readings of the clock: the stage, whose
    array of tasks it has sorted in place, the new state and what it drew. *)
Definition componentDidUpdate (now now' : Z) (stage : Stage) (s : State) : result (Stage * State * list Chart) :=
  ts ← require (tasks stage);
  let ts := array_sort StageDetail.compareTaskNumber ts in
  let scheduledTimes := map (fun t => parseDuration (tTotalScheduledTime (stats t))) ts in
  let cpuTimes := map (fun t => parseDuration (tTotalCpuTime (stats t))) ts in
  if match lastRender s with None => true | Some t => 1000 <=? now - t end
  then
    let histograms :=
      [renderHistogram ("#scheduled-time-histogram-" +:+ stageNumber stage) scheduledTimes formatDuration;
       renderHistogram ("#cpu-time-histogram-" +:+ stageNumber stage) cpuTimes formatDuration] in
    let bars := if expanded s then barCharts stage scheduledTimes cpuTimes else [] in
    Ok (set_tasks ts stage, {| expanded := expanded s; lastRender := Some now' |}, histograms ++ bars)
  else Ok (set_tasks ts stage, s, []).
End with_sort.

(** ** The page *)

Definition renderTimeTable {E} (st : StageInfoStats) : vnode E :=
  h "table" [cls "stage-table stage-table-time"] [
    h "thead" [] [
      h "tr" [] [
        h "th" [cls "stage-table-stat-title stage-table-stat-header"] [txt "Time"];
        h "th" [] []]];
    h "tbody" [] [
      h "tr" [] [
        h "td" [cls "stage-table-stat-title"] [txt "Scheduled"];
        h "td" [cls "stage-table-stat-text"] [txt (sTotalScheduledTime st)]];
      h "tr" [] [
        h "td" [cls "stage-table-stat-title"] [txt "Blocked"];
        h "td" [cls "stage-table-stat-text"] [txt (sTotalBlockedTime st)]];
      h "tr" [] [
        h "td" [cls "stage-table-stat-title"] [txt "CPU"];
        h "td" [cls "stage-table-stat-text"] [txt (sTotalCpuTime st)]]]].

Definition renderMemoryTable {E} (st : StageInfoStats) (totalBufferedBytes : num) : vnode E :=
  h "table" [cls "stage-table stage-table-memory"] [
    h "thead" [] [
      h "tr" [] [
        h "th" [cls "stage-table-stat-title stage-table-stat-header"] [txt "Memory"];
        h "th" [] []]];
    h "tbody" [] [
      h "tr" [] [
        h "td" [cls "stage-table-stat-title"] [txt "Cumulative"];
        h "td" [cls "stage-table-stat-text"] [
          txt (formatDataSizeBytes (sCumulativeUserMemory st / num_of_Z 1000)%js)]];
      h "tr" [] [
        h "td" [cls "stage-table-stat-title"] [txt "Current"];
        h "td" [cls "stage-table-stat-text"] [txt (sUserMemoryReservation st)]];
      h "tr" [] [
        h "td" [cls "stage-table-stat-title"] [txt "Buffers"];
        h "td" [cls "stage-table-stat-text"] [txt (formatDataSize totalBufferedBytes)]];
      h "tr" [] [
        h "td" [cls "stage-table-stat-title"] [txt "Peak"];
        h "td" [cls "stage-table-stat-text"] [txt (sPeakUserMemoryReservation st)]]]].

Definition in_state (state : string) (t : Task) : bool := String.eqb (taskState (taskStatus t)) state.

Definition renderTasksTable {E} (ts : list Task) : vnode E :=
  h "table" [cls "stage-table stage-table-tasks"] [
    h "thead" [] [
      h "tr" [] [
        h "th" [cls "stage-table-stat-title stage-table-stat-header"] [txt "Tasks"];
        h "th" [] []]];
    h "tbody" [] [
      h "tr" [] [
        h "td" [cls "stage-table-stat-title"] [txt "Pending"];
        h "td" [cls "stage-table-stat-text"] [txtn (num_of_Z (alen (filterb (in_state "PLANNED") ts)))]];
      h "tr" [] [
        h "td" [cls "stage-table-stat-title"] [txt "Running"];
        h "td" [cls "stage-table-stat-text"] [txtn (num_of_Z (alen (filterb (in_state "RUNNING") ts)))]];
      h "tr" [] [
        h "td" [cls "stage-table-stat-title"] [txt "Blocked"];
        h "td" [cls "stage-table-stat-text"] [
          txtn (num_of_Z (alen (filterb (fun t => tFullyBlocked (stats t)) ts)))]];
      h "tr" [] [
        h "td" [cls "stage-table-stat-title"] [txt "Total"];
        h "td" [cls "stage-table-stat-text"] [txtn (num_of_Z (alen ts))]]]].

Definition renderScheduledSkew {E} (stageId : string) : vnode E :=
  h "table" [cls "stage-table histogram-table"] [
    h "thead" [] [
      h "tr" [] [
        h "th" [cls "stage-table-stat-title stage-table-chart-header"] [txt "Scheduled Time Skew"]]];
    h "tbody" [] [
      h "tr" [] [
        h "td" [cls "histogram-container"] [
          h "span" [cls "histogram"; at_ "id" ("scheduled-time-histogram-" +:+ stageId)] [
            h "div" [cls "loader"] []]]]]].

Definition renderCpuSkew {E} (stageId : string) : vnode E :=
  h "table" [cls "stage-table histogram-table"] [
    h "thead" [] [
      h "tr" [] [h "th" [cls "stage-table-stat-title stage-table-chart-header"] [txt "CPU Time Skew"]]];
    h "tbody" [] [
      h "tr" [] [
        h "td" [cls "histogram-container"] [
          h "span" [cls "histogram"; at_ "id" ("cpu-time-histogram-" +:+ stageId)] [
            h "div" [cls "loader"] []]]]]].

(** The button and the two rows that it unfolds. *)
Definition renderExpandButton {E} (s : State) (toggle : E) : vnode E :=
  h "td" [cls "expand-charts-container"] [
    h "a" [onClick toggle; cls "expand-charts-button"] [
      h "span" [cls ("glyphicon " +:+ getExpandedIcon s); style GLYPHICON_HIGHLIGHT;
          at_ "data-toggle" "tooltip"; at_ "data-placement" "top"; at_ "title" "More"] []]].

Definition renderScheduledBars {E} (s : State) (stageId : string) : vnode E :=
  h "tr" [style (getExpandedStyle s)] [
    h "td" [at_ "colSpan" "6"] [
      h "table" [cls "expanded-chart"] [
        h "tbody" [] [
          h "tr" [] [
            h "td" [cls "stage-table-stat-title expanded-chart-title"] [txt "Task Scheduled Time"];
            h "td" [cls "bar-chart-container"] [
              h "span" [cls "bar-chart"; at_ "id" ("scheduled-time-bar-chart-" +:+ stageId)] [
                h "div" [cls "loader"] []]]]]]]].

Definition renderCpuBars {E} (s : State) (stageId : string) : vnode E :=
  h "tr" [style (getExpandedStyle s)] [
    h "td" [at_ "colSpan" "6"] [
      h "table" [cls "expanded-chart"] [
        h "tbody" [] [
          h "tr" [] [
            h "td" [cls "stage-table-stat-title expanded-chart-title"] [txt "Task CPU Time"];
            h "td" [cls "bar-chart-container"] [
              h "span" [cls "bar-chart"; at_ "id" ("cpu-time-bar-chart-" +:+ stageId)] [
                h "div" [cls "loader"] []]]]]]]].

Definition render {E} (toggle : E) (s : State) (stage : Stage) : result (vnode E) :=
  match plan stage with
  | None =>
      Ok (
        h "tr" [] [h "td" [] [txt "Information about this stage is unavailable."]])
  | Some _ =>
      ts ← require (tasks stage);
      let totalBufferedBytes := fold_left (fun a t => (a + totalBufferedBytes t)%js) ts (num_of_Z 0) in
      let stageId := num_to_string (getStageNumber (stageId stage)) in
      st ← require (stageStats stage);
      Ok (
        h "tr" [] [
          h "td" [cls "stage-id"] [
            h "div" [cls "stage-state-color";
                style [("borderLeftColor", stageColor (stageState stage) (Some st))]] [
              txt stageId]];
          h "td" [] [
            h "table" [cls "table single-stage-table"] [
              h "tbody" [] [
                h "tr" [] [
                  h "td" [] [renderTimeTable st];
                  h "td" [] [renderMemoryTable st totalBufferedBytes];
                  h "td" [] [renderTasksTable ts];
                  h "td" [] [renderScheduledSkew stageId];
                  h "td" [] [renderCpuSkew stageId];
                  renderExpandButton s toggle];
                renderScheduledBars s stageId;
                renderCpuBars s stageId]]]])
  end.
End StageSummary.

Module StageList.

(** [[].concat.apply(stage, ...)]: the stage, then the stages of each of its
    sub stages; a stage without sub stages is no stage at all. *)
Fixpoint getStages (stage : Stage) : list Stage :=
  let '(mkStage _ _ _ _ _ subs) := stage in
  match subs with
  | None => []
  | Some l => stage :: flat_map getStages l
  end.

Definition getStages_opt (stage : option Stage) : list Stage :=
  match stage with None => [] | Some s => getStages s end.

(** [summary] is the state of each stage's component, which React keeps under
    the stage's id. *)
Definition render {E} (toggle : string -> E) (summary : string -> StageSummary.State) (outputStage : option Stage)
    : result (vnode E) :=
  match getStages_opt outputStage with
  | [] =>
      Ok (
        h "div" [cls "row"] [h "div" [cls "col-xs-12"] [txt "No stage information available."]])
  | stages =>
      renderedStages ← mapM (fun stage => StageSummary.render (toggle (stageId stage)) (summary (stageId stage)) stage) stages;
      Ok (
        h "div" [cls "row"] [
          h "div" [cls "col-xs-12"] [
            h "table" [cls "table"; at_ "id" "stage-list"] [h "tbody" [] [frag renderedStages]]]])
  end.
End StageList.

