(* ===== verification/StageSummaryFacts.v ===== *)
(** * Properties of the list of stages

    The histograms of task times, what an update of a stage draws and
    changes, and the completeness of the list. *)
From Stdlib Require Import SpecFloat.
From S2P Require Import Prelude JsString JsNumber JsNumberFacts JsRounding JsArray JsObject Html Sparkline.
From S2P Require Import UtilsQuery UtilsText UtilsFormat UtilsParse QueryInfo LivePlanFacts StageDetail StageSummary.
Import Sparkline StageSummary.
Local Open Scope Z_scope.

(** ** Histograms *)

Lemma zero_bars_replicate fuel : forall i limit,
  zero_bars fuel i limit = replicate (length (zero_bars fuel i limit)) (Some (num_of_Z 0)).
Proof. induction fuel as [|fuel IH]; intros i limit; cbn; [done|]. case_if; [|done]. cbn. by rewrite <- IH. Qed.

(** The loop ends at the first [i] that is not below the limit, so fuel up to
    any such [i] is enough. *)
Lemma zero_bars_fuel limit k f : forall g i,
  (k <= f)%nat -> (k <= g)%nat -> nlt (num_of_Z (i + Z.of_nat k)) limit = false ->
  zero_bars f i limit = zero_bars g i limit.
Proof.
  revert k. induction f as [|f IH]; intros k g i Hf Hg Hk.
  - assert (k = 0%nat) as -> by lia. rewrite Z.add_0_r in Hk. destruct g; cbn; [done|]. by rewrite Hk.
  - destruct g as [|g].
    + assert (k = 0%nat) as -> by lia. rewrite Z.add_0_r in Hk. cbn. by rewrite Hk.
    + cbn. destruct (nlt (num_of_Z i) limit) eqn:E; [|done]. f_equal.
      destruct k as [|k]; [rewrite Z.add_0_r in Hk; congruence|].
      apply (IH k); [lia|lia|]. by replace (i + 1 + Z.of_nat k) with (i + Z.of_nat (S k)) by lia.
Qed.

(** The limit of the loop for a number of values. *)
Definition limit_of (n : Z) : num := (math_min (num_of_Z HISTOGRAM_WIDTH) (nsqrt (num_of_Z n)) + num_of_Z 1)%js.

(** A number below 175, plus one, is at most 177. *)
Lemma add_1_bounded p e : is_double (S754_finite false p e) = true -> Z.log2 (Zpos p) = 52 -> -100 <= e <= 0 ->
  nlt (num_of_Z 175) (S754_finite false p e) = false -> nlt (num_of_Z 177) (S754_finite false p e + num_of_Z 1)%js = false.
Proof.
  intros D Hp He H. destruct (nadd_1 p e Hp He) as (p' & e' & -> & D' & HA). unfold nlt, SFltb in *.
  rewrite SFcompare_scaled in * by (done || (vm_compute; reflexivity)). rewrite scaled_num_of_Z in * by (unfold small; lia).
  cbn [scaled signed] in *. assert (0 < 2 ^ 1074) as HK by (apply Z.pow_pos_nonneg; lia). revert H HA HK.
  generalize (Zpos p * 2 ^ (e + 1074)), (Zpos p' * 2 ^ (e' + 1074)), (2 ^ 1074). intros X Y K H HA HK.
  destruct (Z.compare_spec (175 * K) X); [| |]; try done; destruct (Z.compare_spec (177 * K) Y); done || lia.
Qed.

Lemma limit_checked n : 0 <= n < 2 ^ 53 -> nlt (num_of_Z 177) (limit_of n) = false.
Proof.
  intros Hn. unfold limit_of. destruct (decide (n = 0)) as [->|Hn0]; [vm_compute; reflexivity|].
  destruct (nsqrt_int n ltac:(lia)) as (p & e & -> & D & Hp & He). change (num_of_Z HISTOGRAM_WIDTH) with (num_of_Z 175).
  unfold math_min. change (num_of_Z 175) with (S754_finite false 6157265115545600 (-45)) at 1. cbv iota.
  destruct (nlt (num_of_Z 175) (S754_finite false p e)) eqn:E; [vm_compute; reflexivity|].
  replace (if nlt _ _ then _ else _) with (S754_finite false p e) by (by case_if). apply add_1_bounded; done || lia.
Qed.

(** The fuel of [histogramData] is enough. *)
Lemma bars_fuel_enough (data : list (option num)) (f : nat) :
  alen data < 2 ^ 53 -> (bars_fuel <= f)%nat ->
  zero_bars f 0 (numBuckets data + num_of_Z 1)%js = zero_bars bars_fuel 0 (numBuckets data + num_of_Z 1)%js.
Proof.
  intros Hn Hf. apply (zero_bars_fuel _ 177); [unfold bars_fuel in Hf; lia|unfold bars_fuel; lia|].
  replace (0 + Z.of_nat 177) with 177 by lia. unfold numBuckets. apply (limit_checked (alen data)).
  unfold alen in *. lia.
Qed.

(** The number of points in a bucket. *)
Definition in_bucket (data : list (option num)) (i : Z) (p : option num) : bool :=
  bool_decide (num_index (bucket data p) = Some i).
Definition bucket_count (data points : list (option num)) (i : Z) : Z := alen (filterb (in_bucket data i) points).

Definition as_bars (counts : list Z) : list (option num) := map (fun c => Some (num_of_Z c)) counts.

Lemma hist_add_bars b i counts : num_index b = Some i -> 0 <= i < alen counts ->
  Forall (fun c => 0 <= c < 2 ^ 53 - 1) counts ->
  hist_add b (as_bars counts) = as_bars (alter Z.succ (Z.to_nat i) counts).
Proof.
  intros E Hi HF. unfold hist_add, as_bars. rewrite E. unfold alen in *. rewrite length_map.
  replace (i <? Z.of_nat (length counts)) with true by lia.
  apply list_eq. intros j. destruct (decide (j = Z.to_nat i)) as [->|Hj].
  - rewrite list_lookup_alter, decide_True by done.
    change (map (fun c => Some (num_of_Z c))) with (fmap (M := list) (fun c => Some (num_of_Z c))).
    rewrite !list_lookup_fmap, list_lookup_alter, decide_True by done.
    destruct (lookup_lt_is_Some_2 counts (Z.to_nat i)) as [c Hc]; [lia|]. rewrite Hc.
    change (Some (Some (num_of_Z c + num_of_Z 1)%js) = Some (Some (num_of_Z (Z.succ c)))).
    rewrite Forall_forall in HF. specialize (HF c ltac:(by eapply list_elem_of_lookup_2)).
    do 2 f_equal. rewrite nadd_int by (unfold small; lia). done.
  - change (map (fun c => Some (num_of_Z c))) with (fmap (M := list) (fun c => Some (num_of_Z c))).
    rewrite list_lookup_alter_ne by done. rewrite !list_lookup_fmap, list_lookup_alter_ne by done. done.
Qed.

Lemma bucket_count_snoc data l p i :
  bucket_count data (l ++ [p]) i = bucket_count data l i + (if in_bucket data i p then 1 else 0).
Proof.
  unfold bucket_count, alen. induction l as [|x l IH]; cbn.
  - by destruct (in_bucket data i p).
  - destruct (in_bucket data i x); cbn [length]; lia.
Qed.

Lemma bucket_count_bound data l i : 0 <= bucket_count data l i <= alen l.
Proof. unfold bucket_count, alen. pose proof (sublist_length _ _ (filterb_sublist (in_bucket data i) l)). lia. Qed.

Definition counts (data points : list (option num)) (n : Z) : list Z := map (bucket_count data points) (seqZ 0 n).

Lemma counts_length data l n : 0 <= n -> alen (counts data l n) = n.
Proof. intros H. unfold counts, alen. rewrite length_map, length_seqZ. lia. Qed.

Lemma counts_snoc data l p n i : num_index (bucket data p) = Some i -> 0 <= i < n ->
  counts data (l ++ [p]) n = alter Z.succ (Z.to_nat i) (counts data l n).
Proof.
  intros E Hi. apply list_eq. intros j. unfold counts.
  change (map (bucket_count data (l ++ [p]))) with (fmap (M := list) (bucket_count data (l ++ [p]))).
  change (map (bucket_count data l)) with (fmap (M := list) (bucket_count data l)).
  rewrite list_lookup_fmap. destruct (decide (j = Z.to_nat i)) as [->|Hj].
  - rewrite list_lookup_alter, decide_True by done. rewrite list_lookup_fmap, lookup_seqZ_lt by lia. cbn.
    rewrite bucket_count_snoc. unfold in_bucket. rewrite E, bool_decide_true by (f_equal; lia). f_equal; lia.
  - rewrite list_lookup_alter_ne, list_lookup_fmap by done. destruct (decide (Z.of_nat j < n)).
    + rewrite lookup_seqZ_lt by lia. cbn. rewrite bucket_count_snoc. unfold in_bucket.
      rewrite E, bool_decide_false by (intros [= ?]; lia). f_equal; lia.
    + by rewrite lookup_seqZ_ge by lia.
Qed.

Lemma counts_nil data n : counts data [] n = replicate (Z.to_nat n) 0.
Proof.
  unfold counts. rewrite <- (length_seqZ 0 n). generalize (seqZ 0 n). intros l.
  induction l; cbn; [done|]. by f_equal.
Qed.

(** Every point falls on a bar. *)
Definition on_bars (data : list (option num)) (n : Z) (p : option num) : Prop :=
  exists i, num_index (bucket data p) = Some i /\ 0 <= i < n.

Lemma hist_fold data n points : forall l, 0 <= n -> alen (l ++ points) < 2 ^ 53 - 1 -> Forall (on_bars data n) points ->
  fold_left (fun hist p => hist_add (bucket data p) hist) points (as_bars (counts data l n))
  = as_bars (counts data (l ++ points) n).
Proof.
  induction points as [|p points IH]; intros l Hn Hl HF; cbn [fold_left]; [by rewrite app_nil_r|].
  apply Forall_cons in HF as [(i & E & Hi) HF]. unfold alen in Hl. rewrite length_app in Hl. cbn in Hl.
  rewrite (hist_add_bars _ i); [|done|by rewrite counts_length|].
  - rewrite <- (counts_snoc data l p n i) by done. rewrite IH; [by rewrite <- app_assoc|done| |done].
    unfold alen. rewrite !length_app. cbn. lia.
  - unfold counts. apply Forall_map, Forall_forall. intros j _. cbn.
    pose proof (bucket_count_bound data l j). unfold alen in *. lia.
Qed.

(** Every point is in one of the buckets. *)
Lemma counts_total data n points : 0 <= n -> Forall (on_bars data n) points ->
  foldr Z.add 0 (counts data points n) = alen points.
Proof.
  intros Hn. induction points as [|p points IH] using rev_ind; intros HF.
  - rewrite counts_nil. induction (Z.to_nat n); cbn; [done|]. done.
  - apply Forall_app in HF as [HF [(i & E & Hi) _]%Forall_cons].
    rewrite (counts_snoc _ _ _ _ i) by done.
    assert (forall k l, (k < length l)%nat -> foldr Z.add 0 (alter Z.succ k l) = foldr Z.add 0 l + 1) as Ha.
    { intros k l. revert k. induction l as [|x l IHl]; intros k Hk; cbn in Hk; [lia|].
      destruct k as [|k]; cbn; [lia|]. fold (alter Z.succ k l). rewrite IHl by lia. lia. }
    rewrite Ha, IH by (done || (pose proof (counts_length data points n); unfold alen in *; lia)).
    unfold alen. rewrite length_app. cbn. lia.
Qed.

(** a histogram counts its data: when every value falls on a bar, each
    bar is as high as the number of values in its bucket, and together they
    are as high as there are values; equal values make one bar. *)
Theorem histogram_counts (data : list (option num)) :
  let n := alen (zero_bars bars_fuel 0 (numBuckets data + num_of_Z 1)%js) in
  alen data < 2 ^ 53 - 1 ->
  (neq (bucketSize data) 0 = true -> histogramData data = [Some (num_of_Z (alen data))]) /\
  (neq (bucketSize data) 0 = false -> Forall (on_bars data n) data ->
     histogramData data = as_bars (counts data data n) /\ foldr Z.add 0 (counts data data n) = alen data).
Proof.
  intros n Hl. unfold histogramData. split; intros ->; [done|]. intros HF.
  assert (0 <= n) by (unfold n, alen; lia). split; [|by apply counts_total].
  rewrite zero_bars_replicate.
  replace (replicate _ (Some (num_of_Z 0))) with (as_bars (counts data [] n)); [by apply (hist_fold data n data [])|].
  rewrite counts_nil. unfold as_bars, n, alen. rewrite Nat2Z.id.
  generalize (length (zero_bars bars_fuel 0 (numBuckets data + num_of_Z 1)%js)). intros k.
  induction k; cbn [replicate map]; [done|]. by f_equal.
Qed.

Definition sample_times : list (option num) := map (fun z => Some (num_of_Z z)) [1; 2; 3; 10].

Lemma histogram_counts_witness : histogramData sample_times = as_bars [3; 0; 1].
Proof.
  destruct (histogram_counts sample_times) as [_ H]; [vm_compute; reflexivity|].
  destruct H as [H _].
  - vm_compute. reflexivity.
  - repeat (constructor; [eexists; split; [vm_compute; reflexivity|vm_compute; split; congruence]|]). constructor.
  - rewrite H. vm_compute. reflexivity.
Defined.

(** ** Updates of a stage *)

Section updates.
Context {AS : ArraySort}.

Definition scheduled_times (ts : list Task) : list (option num) :=
  map (fun t => parseDuration (tTotalScheduledTime (stats t))) ts.
Definition cpu_times (ts : list Task) : list (option num) :=
  map (fun t => parseDuration (tTotalCpuTime (stats t))) ts.

(** Tasks with numbers, as [task_id] makes them. *)
Definition numbered (n : Task -> Z) (t : Task) : Prop := small (n t) /\ StageDetail.taskNumber t = num_of_Z (n t).

Lemma sort_numbered n ts : Forall (numbered n) ts ->
  StronglySorted (fun a b => n a <= n b) (array_sort StageDetail.compareTaskNumber ts).
Proof.
  rewrite Forall_forall. intros H.
  assert (forall t, t ∈ ts -> finite_key StageDetail.taskNumber t) as Hk.
  { intros t [S E]%H. unfold finite_key. rewrite E. auto using is_double_num_of_Z, is_finite_num_of_Z. }
  assert (StronglySorted (fun x y => cmp_le StageDetail.compareTaskNumber x y = true)
            (array_sort StageDetail.compareTaskNumber ts)) as HS.
  { apply array_sort_sorted. eapply consistent_weaken; [exact Hk|]. apply consistent_ascending. }
  assert (forall t, t ∈ array_sort StageDetail.compareTaskNumber ts -> t ∈ ts) as Hin
    by (intros t; apply array_sort_elem).
  induction HS as [|a l _ IH HF]; constructor; [apply IH; set_solver|].
  rewrite Forall_forall in *. intros b Hb. specialize (HF b Hb).
  assert (a ∈ ts) as Ha by (apply Hin, elem_of_cons; by left).
  assert (b ∈ ts) as Hb' by (apply Hin, elem_of_cons; by right).
  unfold StageDetail.compareTaskNumber in HF. rewrite cmp_le_ascending in HF by auto.
  destruct (H a Ha) as [Sa Ea]. destruct (H b Hb') as [Sb Eb].
  rewrite Ea, Eb, !scaled_num_of_Z in HF by done.
  apply Z.leb_le, Z.mul_le_mono_pos_r in HF; [done|]. apply Z.pow_pos_nonneg; lia.
Qed.

(** One label for each bar. *)
Lemma histogram_labels x data f : length (labels (renderHistogram x data f)) = length (values (renderHistogram x data f)).
Proof.
  unfold labels, renderHistogram, sparkline. cbn [chart_options values].
  erewrite extra_get; [|plain_object|plain_object|reflexivity].
  cbv iota. rewrite length_map, length_seqZ. unfold alen. lia.
Qed.

Lemma bar_labels stage scheduled cpu : length cpu = length scheduled ->
  Forall (fun c => length (labels c) = length (values c)) (barCharts stage scheduled cpu).
Proof.
  intros E. unfold barCharts, sparkline.
  repeat constructor; unfold labels; cbn [chart_options values];
    (erewrite constant_get; [|plain_object|plain_object|reflexivity|apply extra_get; [plain_object|plain_object|reflexivity]]);
    cbv iota; rewrite length_map, length_seqZ; unfold alen; lia.
Qed.

(** C40: an update of a stage reorders its tasks by their numbers and changes
    nothing else of the stage; at most once a second it draws, from the tasks
    in this order, the two histograms and, when the stage is expanded, one
    bar for each task. *)
Theorem stage_update (now now' : Z) (stage : Stage) (s : State) (ts : list Task) (n : Task -> Z) :
  tasks stage = Some ts -> Forall (numbered n) ts ->
  exists ts' s' charts,
    componentDidUpdate now now' stage s = Ok (set_tasks ts' stage, s', charts) /\
    ts' ≡ₚ ts /\ StronglySorted (fun a b => n a <= n b) ts' /\ expanded s' = expanded s /\
    ((exists t, lastRender s = Some t /\ now - t < 1000) -> s' = s /\ charts = []) /\
    ((forall t, lastRender s = Some t -> 1000 <= now - t) ->
       lastRender s' = Some now' /\
       map values charts =
         [histogramData (scheduled_times ts'); histogramData (cpu_times ts')]
         ++ (if expanded s then [scheduled_times ts'; cpu_times ts'] else []) /\
       Forall (fun c => length (labels c) = length (values c)) charts).
Proof.
  intros Ht Hn. unfold componentDidUpdate. rewrite Ht. cbn [require mbind result_bind].
  set (ts' := array_sort StageDetail.compareTaskNumber ts). exists ts'.
  assert (ts' ≡ₚ ts) by apply array_sort_perm.
  assert (StronglySorted (fun a b => n a <= n b) ts') by (by apply sort_numbered).
  destruct (match lastRender s with None => true | Some t => 1000 <=? now - t end) eqn:E.
  - eexists _, _. split; [done|]. split_and!; [done|done|done| |].
    + intros (t & Hl & Hlt). rewrite Hl in E. lia.
    + intros _. split; [done|]. split; [by destruct (expanded s)|].
      apply Forall_app. split; [repeat constructor; apply histogram_labels|].
      destruct (expanded s); [|constructor].
      apply bar_labels; by rewrite !length_map.
  - eexists _, _. split; [done|]. split_and!; [done|done|done|done|].
    intros Hd. destruct (lastRender s) as [t|]; [|done]. specialize (Hd t eq_refl). lia.
Qed.
End updates.

(** ** The list *)

Lemma getStages_all s :
  Forall (fun st => is_Some (subStages st)) (all_stages s) -> StageList.getStages s = all_stages s.
Proof.
  induction s as [i st p ss ts subs IH] using Stage_tree_ind. intros H.
  pose proof H as [[l Hl] _]%Forall_cons. cbn in Hl. subst subs. cbn [StageList.getStages all_stages] in *.
  f_equal. apply Forall_cons in H as [_ H]. cbn in IH.
  induction l as [|s l IHl]; [done|]. cbn in *. apply Forall_cons in IH as [IH1 IH2].
  apply Forall_app in H as [H1 H2]. by rewrite IH1, IHl.
Qed.

(** A stage with everything its summary reads. *)
Definition complete_stage (s : Stage) : Prop :=
  is_Some (plan s) /\ is_Some (stageStats s) /\ is_Some (tasks s) /\ is_Some (subStages s).

Lemma summary_clicks {E} (toggle : E) s stage : complete_stage stage ->
  exists v, StageSummary.render toggle s stage = Ok v /\ clicks v = [toggle].
Proof.
  intros ([p Hp] & [st Hst] & [ts Hts] & _). unfold StageSummary.render. rewrite Hp, Hts, Hst.
  cbn [require mbind result_bind]. eexists. split; [done|]. done.
Qed.

Lemma stage_list_ok {E} (toggle : string -> E) (summary : string -> State) (output : Stage) :
  Forall complete_stage (all_stages output) ->
  exists v, StageList.render toggle summary (Some output) = Ok v /\
    clicks v = map (fun s => toggle (stageId s)) (all_stages output).
Proof.
  intros H. unfold StageList.render, StageList.getStages_opt. rewrite getStages_all.
  2:{ eapply Forall_impl; [exact H|]. by intros s (_ & _ & _ & ?). }
  destruct (all_stages output) as [|s0 l] eqn:Es; [by destruct output|]. rewrite <- Es in *. clear Es s0 l.
  destruct (mapM_Ok (fun stage => StageSummary.render (toggle (stageId stage)) (summary (stageId stage)) stage)
    (all_stages output)) as [vs Hvs].
  { rewrite Forall_forall in H. intros s Hs. destruct (summary_clicks (toggle (stageId s)) (summary (stageId s)) s (H s Hs)) as (v & ? & _). eauto. }
  rewrite Hvs. cbn [mbind result_bind]. eexists. split; [done|]. cbn. rewrite !app_nil_r.
  rewrite mapM_Forall2 in Hvs. induction Hvs as [|s v l vs Hv _ IH]; [done|].
  apply Forall_cons in H as [Hs H]. cbn [flat_map map]. rewrite IH by done.
  destruct (summary_clicks (toggle (stageId s)) (summary (stageId s)) s Hs) as (v' & Hv' & Hc).
  rewrite Hv in Hv'. injection Hv' as <-. by rewrite Hc.
Qed.

(** the page lists every stage of the query, the output stage first and
    each stage before its sources, and next to each the button that expands
    it, and no other. *)
Theorem stage_list_page {E} (toggle : string -> E) (summary : string -> State) (output : Stage) :
  Forall complete_stage (all_stages output) ->
  exists v, StageList.render toggle summary (Some output) = Ok v /\
    clicks v = map (fun s => toggle (stageId s)) (all_stages output).
Proof. apply stage_list_ok. Qed.

(** ** Examples *)

Definition sample_stage_tasks : list Task := map (fun i => {|
    taskStatus := {| taskId := "q.1." +:+ i; self := ""; nodeId := "n"; taskState := "RUNNING" |};
    stats := {| tElapsedTime := "2.00s"; tCreateTime := ""; tTotalScheduledTime := "1" +:+ i +:+ ".00s";
                tTotalCpuTime := "1.00s"; tFullyBlocked := false; tRawInputPositions := num_of_Z 100;
                tRawInputDataSize := "10kB"; tQueuedDrivers := num_of_Z 0; tRunningDrivers := num_of_Z 1;
                tBlockedDrivers := num_of_Z 0; tCompletedDrivers := num_of_Z 3; pipelines := [] |};
    totalBufferedBytes := num_of_Z 512 |}) ["2"; "0"; "1"].

Definition sample_number (t : Task) : Z :=
  if String.eqb (taskId (taskStatus t)) "q.1.2" then 2 else if String.eqb (taskId (taskStatus t)) "q.1.1" then 1 else 0.

Definition busy_stage : Stage :=
  mkStage "q.1" "RUNNING" (Some plan_1) (Some sample_stats) (Some sample_stage_tasks) (Some []).

Lemma stage_update_witness :
  exists ts' s' charts,
    componentDidUpdate 5000 5001 busy_stage (toggleExpanded initial_state) = Ok (set_tasks ts' busy_stage, s', charts) /\
    map sample_number ts' = [0; 1; 2] /\ length charts = 4%nat.
Proof.
  destruct (stage_update 5000 5001 busy_stage (toggleExpanded initial_state) sample_stage_tasks sample_number)
    as (ts' & s' & charts & H & _).
  - reflexivity.
  - repeat (constructor; [split; vm_compute; reflexivity|]). constructor.
  - exists ts', s', charts. split; [exact H|].
    pose proof (f_equal (fun r => match r with Ok (_, _, l) => length l | Throw _ => 0%nat end) H) as HL.
    apply (f_equal (fun r => match r with Ok (st, _, _) => map sample_number <$> tasks st | Throw _ => None end)) in H.
    vm_compute in H, HL. injection H as ->. done.
Defined.

Lemma stage_list_page_witness :
  exists v, StageList.render (fun i => i) (fun _ => initial_state) (Some stage_0) = Ok v /\ clicks v = ["q.0"; "q.1"].
Proof.
  destruct (stage_list_page (fun i => i) (fun _ => initial_state) stage_0) as (v & H1 & H2).
  - apply Forall_forall. intros s [->|[->|[]%elem_of_nil]%elem_of_cons]%elem_of_cons; repeat split; eauto.
  - exists v. split; [exact H1|]. rewrite H2. reflexivity.
Defined.
