(* ===== verification/Histogram.v ===== *)
(** * The histograms of task times

    Every time of a task falls on a bar of its histogram, although the bars are
    found by rounded arithmetic: the rounding errors are too small to lead past
    the last bar. *)
From Stdlib Require Import SpecFloat.
From S2P Require Import Prelude JsString JsNumber JsNumberFacts JsRounding JsArray.
From S2P Require Import UtilsParse UtilsRoundtrip QueryInfo StageSummary StageSummaryFacts.
Import StageSummary.
Local Open Scope Z_scope.

(** ** Times *)

(** A double of 53 bits with an exponent of at most [B]. *)
Definition normal (B : Z) (x : num) : Prop :=
  exists p e, x = S754_finite false p e /\ Z.log2 (Zpos p) = 52 /\ - B <= e <= B.

Definition time (x : num) : Prop := x = plus_zero \/ normal 190 x.

Lemma normal_double B x : normal B x -> B <= 970 -> is_double x = true /\ is_finite x = true /\ 0 < scaled x.
Proof.
  intros (p & e & -> & Hp & He) HB. split_and!; [apply double_53; [|lia]|done|apply scaled_pos; lia].
  pose proof (log2_bounds (Zpos p) ltac:(lia)) as HL. by rewrite Hp in HL.
Qed.

Lemma time_double x : time x -> is_double x = true /\ is_finite x = true /\ 0 <= scaled x.
Proof. intros [->|H]; [done|]. destruct (normal_double 190 x H ltac:(lia)) as (? & ? & ?). split_and!; [done|done|lia]. Qed.

(** The texts of the coordinator: a decimal of at most ten places and a unit. *)
Definition written (text : string) : Prop :=
  exists n f u N D, 0 <= n < 2 ^ 53 /\ 0 <= f <= 10 /\ (u, (N, D)) ∈ duration_scale /\ text = decimal_text n f +:+ u.

Lemma written_time text : written text -> time (num_of_nullable (parseDuration text)).
Proof.
  intros (n & f & u & N & D & Hn & Hf & Hin & ->). destruct (duration_unit_alpha u N D Hin) as (Hu & Hne & _ & _).
  rewrite parse_duration_text by (done || lia). destruct (decide (n = 0)) as [->|Hn0].
  - left. change (num_of_decimal 0 (- f)) with plus_zero. revert Hin. unfold duration_scale. rewrite !elem_of_cons, elem_of_nil.
    intros [[=]|[[=]|[[=]|[[=]|[[=]|[[=]|[[=]|[]]]]]]]]; subst; vm_compute; reflexivity.
  - right. destruct (duration_approx n f u N D (num_of_decimal n (- f))) as (B & j & y & -> & HB & _ & HA);
      [lia|lia|done|apply approx_decimal; lia|lia|]. destruct (approx_form _ _ _ _ _ HA) as (p & e & -> & Hp & He).
    exists p, e. split_and!; [done|done|lia|lia].
Qed.

(** ** Differences and quotients of times *)

(** [d] is [X], scaled, up to one rounding. *)
Definition near (d : num) (X : Z) : Prop :=
  (X = 0 /\ d = plus_zero) \/ (0 < X /\ normal 250 d /\ 2 ^ 52 * Z.abs (scaled d - X) <= X).

Lemma near_self x : normal 190 x -> near x (scaled x).
Proof.
  intros H. right. destruct (normal_double 190 x H ltac:(lia)) as (_ & _ & H0). split_and!; [done| |].
  - destruct H as (p & e & -> & Hp & He). exists p, e. split_and!; [done|done|lia|lia].
  - replace (scaled x - scaled x) with 0 by lia. change (Z.abs 0) with 0. lia.
Qed.

Lemma time_sub a b : time a -> time b -> scaled b <= scaled a -> near (a - b)%js (scaled a - scaled b).
Proof.
  intros [->|Ha] [->|Hb] Hle; [by left| | |].
  - destruct (normal_double 190 b Hb ltac:(lia)) as (_ & _ & H0). cbn in Hle. lia.
  - replace (scaled a - scaled plus_zero) with (scaled a) by (cbn; lia). replace (a - plus_zero)%js with a; [by apply near_self|].
    by destruct Ha as (p & e & -> & _).
  - destruct Ha as (p & e & -> & Hp & He), Hb as (q & f & -> & Hq & Hf). unfold nsub, SFsub. cbn [cond_Zopp].
    set (ez := Z.min e f). rewrite (scaled_align false p e ez), (scaled_align false q f ez) in * by lia. cbn [cond_Zopp] in *.
    pose proof (shl_align_fst p e ez ltac:(lia)) as Ap.
    set (P := Zpos (fst (shl_align p e ez))) in *. set (Q := Zpos (fst (shl_align q f ez))) in *.
    assert (0 < 2 ^ (ez + 1074)) as HK by (apply Z.pow_pos_nonneg; lia). rewrite <- Z.mul_sub_distr_r.
    apply Z.mul_le_mono_pos_r in Hle; [|done]. destruct (P - Q) as [|R|R] eqn:ER; [by left| |lia]. right.
    assert (0 <= Z.log2 (Zpos R) <= 800) as HL.
    { split; [apply Z.log2_nonneg|]. transitivity (Z.log2 P); [apply Z.log2_le_mono; unfold Q in *; lia|].
      rewrite Ap, log2_shifted by lia. lia. }
    assert (Z.log2 (Zpos R) + ez <= 242) as HL2.
    { enough (Z.log2 (Zpos R) <= Z.log2 P) as H by (rewrite Ap, log2_shifted in H by lia; lia).
      apply Z.log2_le_mono; unfold Q in *; lia. }
    destruct (binary_round_accuracy R ez ltac:(lia) ltac:(lia)) as (p' & e' & E & D & Hp' & He' & HA).
    cbn [binary_normalize]. rewrite E. split_and!; [apply Z.mul_pos_pos; lia|exists p', e'; split_and!; [done|done|lia|lia]|exact HA].
Qed.

(** A quotient of two normal numbers. *)
Lemma normal_div B C x y : normal B x -> normal C y -> 0 <= B -> 0 <= C -> B + C <= 900 ->
  normal (B + C + 60) (x / y)%js /\
  2 ^ 52 * Z.abs (scaled (x / y)%js * scaled y - scaled x * 2 ^ 1074) <= scaled x * 2 ^ 1074.
Proof.
  intros (p & e & -> & Hp & He) (q & f & -> & Hq & Hf) HB HC Hs.
  destruct (ndiv_normal p e q f Hp Hq ltac:(lia) ltac:(lia)) as (p' & e' & -> & Hp' & He' & HA).
  split; [exists p', e'; split_and!; [done|done|lia|lia]|]. apply HA. lia.
Qed.

(** ** The smallest and the largest time *)

Notation value := num_of_nullable.

Lemma nlt_scaled a b : time a -> time b -> nlt a b = (scaled a <? scaled b).
Proof.
  intros (D & F & _)%time_double (D' & F' & _)%time_double. unfold nlt, SFltb. rewrite SFcompare_scaled by done.
  unfold Z.ltb. by destruct (_ ?= _).
Qed.

Lemma time_not_nan a : time a -> a <> nan.
Proof. intros [->|(p & e & -> & _)]; done. Qed.

Lemma time_min a b : time a -> time b -> time (math_min a b) /\ scaled (math_min a b) <= scaled a /\ scaled (math_min a b) <= scaled b.
Proof.
  intros Ha Hb. pose proof (nlt_scaled a b Ha Hb) as H1. pose proof (nlt_scaled b a Hb Ha) as H2.
  assert (math_min a b = a /\ scaled a <= scaled b \/ math_min a b = b /\ scaled b <= scaled a) as [[-> ?]|[-> ?]];
    [|split_and!; done || lia..].
  unfold math_min. destruct Ha as [->|(p & e & -> & _)], Hb as [->|(q & f & -> & _)]; cbv iota; rewrite ?H1, ?H2;
    repeat case_if; eqb_hyps; first [left; split; [done|cbn in *; lia]|right; split; [done|cbn in *; lia]].
Qed.

Lemma time_max a b : time a -> time b -> time (math_max a b) /\ scaled a <= scaled (math_max a b) /\ scaled b <= scaled (math_max a b).
Proof.
  intros Ha Hb. pose proof (nlt_scaled a b Ha Hb) as H1. pose proof (nlt_scaled b a Hb Ha) as H2.
  assert (math_max a b = a /\ scaled b <= scaled a \/ math_max a b = b /\ scaled a <= scaled b) as [[-> ?]|[-> ?]];
    [|split_and!; done || lia..].
  unfold math_max. destruct Ha as [->|(p & e & -> & _)], Hb as [->|(q & f & -> & _)]; cbv iota; rewrite ?H1, ?H2;
    repeat case_if; eqb_hyps; first [left; split; [done|cbn in *; lia]|right; split; [done|cbn in *; lia]].
Qed.

Lemma data_range data : data <> [] -> Forall (fun x => time (value x)) data ->
  time (dataMin data) /\ time (dataMax data) /\
  forall x, x ∈ data -> scaled (dataMin data) <= scaled (value x) <= scaled (dataMax data).
Proof.
  induction data as [|x data IH]; [done|]. intros _ [Hx HF]%Forall_cons. destruct data as [|y data].
  - assert (dataMin [x] = value x /\ dataMax [x] = value x) as [-> ->].
    { unfold dataMin, dataMax. cbn [foldr]. destruct Hx as [->|(p & e & -> & _)]; done. }
    split_and!; [done|done|]. intros z ->%list_elem_of_singleton. lia.
  - destruct (IH ltac:(done) HF) as (T1 & T2 & HR). change (dataMin (x :: y :: data)) with (math_min (value x) (dataMin (y :: data))).
    change (dataMax (x :: y :: data)) with (math_max (value x) (dataMax (y :: data))).
    destruct (time_min _ _ Hx T1) as (M1 & M2 & M3), (time_max _ _ Hx T2) as (N1 & N2 & N3). split_and!; [done|done|].
    intros z [->|Hz]%elem_of_cons; [lia|]. specialize (HR z Hz). lia.
Qed.

(** ** The bar of a time *)

Lemma num_index_int n : 0 < n < 2 ^ 31 -> num_index (num_of_Z n) = Some n.
Proof.
  intros Hn. rewrite num_of_Z_small by (unfold small; lia).
  replace (int_sign n) with false by (symmetry; apply Z.ltb_ge; lia). rewrite Z.abs_eq by lia.
  destruct (mag_int n ltac:(lia)) as [E H0]. cbn [num_index]. rewrite E, Z.div_mul, Z.eqb_refl by lia.
  by replace (n <? 2 ^ 32 - 1) with true by lia.
Qed.

Lemma floor_index t : normal 680 t -> scaled t < 1000 * 2 ^ 1074 ->
  exists i, num_index (math_floor t) = Some i /\ 0 <= i < 1000 /\ i * 2 ^ 1074 <= scaled t.
Proof.
  intros Ht HT. destruct (normal_double 680 t Ht ltac:(lia)) as (D & _ & H0). destruct Ht as (p & e & -> & Hp & He).
  assert (0 < 2 ^ 1074) as HK by (apply Z.pow_pos_nonneg; lia). cbn [scaled signed] in *.
  assert (e < 0) as He0.
  { apply (exponent_negative p e D). etrans; [exact HT|]. apply Z.mul_lt_mono_pos_r; lia. }
  pose proof (scaled_mag p e ltac:(lia)) as HS. pose proof (mag_den_pos e) as HD.
  unfold math_floor. replace (0 <=? e) with false by lia. cbn [signed]. set (n := mag_num p e / mag_den e).
  assert (0 <= mag_num p e) as HN by (apply Z.mul_nonneg_nonneg; [lia|apply Z.pow_nonneg; lia]).
  assert (0 <= n) as Hn by (apply Z.div_pos; lia).
  assert (n * mag_den e <= mag_num p e) as Hle by (rewrite Z.mul_comm; apply Z.mul_div_le; lia).
  assert (n * 2 ^ 1074 <= Zpos p * 2 ^ (e + 1074)) as HnK.
  { apply (Z.mul_le_mono_pos_r _ _ (mag_den e)); [done|]. rewrite HS.
    revert Hle HK. generalize (2 ^ 1074), (mag_den e), (mag_num p e). intros K d a Hle HK.
    replace (n * K * d) with (n * d * K) by ring. apply Z.mul_le_mono_nonneg_r; lia. }
  exists n. assert (n < 1000) as Hn'.
  { apply (Z.mul_lt_mono_pos_r (2 ^ 1074)); [done|]. eapply Z.le_lt_trans; [exact HnK|exact HT]. }
  split; [|done]. destruct (Z.eqb_spec n 0) as [->|]; [done|]. apply num_index_int. lia.
Qed.

(** The errors of four roundings: the difference [dx] of a time from the
    smallest, that [dM] of the largest, the size [S] of a bucket and the quotient
    [T]. *)
Lemma quotient_bound g G dx dM NB S T K : 0 < K -> 0 < NB -> 0 < S -> 0 <= T -> 0 <= g <= G -> 0 < G ->
  2 ^ 52 * Z.abs (dx - g) <= g -> 2 ^ 52 * Z.abs (dM - G) <= G ->
  2 ^ 52 * Z.abs (S * NB - dM * K) <= dM * K -> 2 ^ 52 * Z.abs (T * S - dx * K) <= dx * K ->
  T * 2 ^ 45 <= (2 ^ 45 + 1) * NB.
Proof.
  intros HK HNB HS HT Hg HG E1 E2 E3 E4.
  assert (2 ^ 52 * dx <= (2 ^ 52 + 1) * G) as A1 by lia. assert ((2 ^ 52 - 1) * G <= 2 ^ 52 * dM) as A2 by lia.
  assert (2 ^ 52 * (T * S) <= (2 ^ 52 + 1) * (dx * K)) as A3 by lia.
  assert ((2 ^ 52 - 1) * (dM * K) <= 2 ^ 52 * (S * NB)) as A4 by lia.
  assert (2 ^ 104 * (T * S) <= (2 ^ 52 + 1) ^ 2 * (G * K)) as B1.
  { assert (2 ^ 52 * dx * K <= (2 ^ 52 + 1) * G * K) by (apply Z.mul_le_mono_nonneg_r; lia). lia. }
  assert ((2 ^ 52 - 1) ^ 2 * (G * K) <= 2 ^ 104 * (S * NB)) as B2.
  { assert ((2 ^ 52 - 1) * G * K <= 2 ^ 52 * dM * K) by (apply Z.mul_le_mono_nonneg_r; lia). lia. }
  assert (T * ((2 ^ 52 - 1) ^ 2 * S) <= (2 ^ 52 + 1) ^ 2 * NB * S) as B3 by lia.
  assert (T * (2 ^ 52 - 1) ^ 2 <= (2 ^ 52 + 1) ^ 2 * NB) as B4 by (apply (Z.mul_le_mono_pos_r _ _ S); lia).
  lia.
Qed.

(** ** The number of bars *)

Lemma zero_bars_length limit k : forall fuel i, (k <= fuel)%nat ->
  (forall j, i <= j < i + Z.of_nat k -> nlt (num_of_Z j) limit = true) -> (k <= length (zero_bars fuel i limit))%nat.
Proof.
  induction k as [|k IH]; intros fuel i Hf H; [lia|]. destruct fuel as [|fuel]; [lia|]. cbn [zero_bars].
  rewrite H by lia. cbn [length]. apply le_n_S, IH; [lia|]. intros j Hj. apply H. lia.
Qed.

Lemma buckets_form data : 0 < alen data < 2 ^ 53 ->
  normal 60 (numBuckets data) /\ scaled (numBuckets data) <= 175 * 2 ^ 1074 /\
  exists p e, (numBuckets data + num_of_Z 1)%js = S754_finite false p e /\ is_double (S754_finite false p e) = true /\
    2 ^ 52 * Z.abs (Zpos p * 2 ^ (e + 1074) - (scaled (numBuckets data) + 2 ^ 1074)) <= scaled (numBuckets data) + 2 ^ 1074.
Proof.
  intros Hn. assert (exists p e, numBuckets data = S754_finite false p e /\ is_double (S754_finite false p e) = true /\
    Z.log2 (Zpos p) = 52 /\ -60 <= e <= 0 /\ nlt (num_of_Z 175) (S754_finite false p e) = false) as (p & e & -> & D & Hp & He & HL).
  { unfold numBuckets. destruct (nsqrt_int (alen data) Hn) as (p & e & -> & D & Hp & He).
    change (num_of_Z HISTOGRAM_WIDTH) with (num_of_Z 175). unfold math_min.
    change (num_of_Z 175) with (S754_finite false 6157265115545600 (-45)) at 1. cbv iota.
    destruct (nlt (num_of_Z 175) (S754_finite false p e)) eqn:E.
    - exists 6157265115545600%positive, (-45). split_and!; try lia; vm_compute; done.
    - exists p, e. split_and!; [by case_if|done|done|lia|lia|done]. }
  split; [exists p, e; split_and!; [done|done|lia|lia]|]. split.
  - unfold nlt, SFltb in HL. rewrite SFcompare_scaled in HL by (done || (vm_compute; reflexivity)).
    rewrite scaled_num_of_Z in HL by (unfold small; lia). destruct (Z.compare_spec (175 * 2 ^ 1074) (scaled (S754_finite false p e))); [|done|]; lia.
  - destruct (nadd_1 p e Hp ltac:(lia)) as (p' & e' & E & D' & HA). by exists p', e'.
Qed.

(** The bucket of a time. *)
Lemma bucket_index dM dx nb g G : normal 60 nb -> scaled nb <= 175 * 2 ^ 1074 -> near dM G -> near dx g -> g <= G ->
  neq (dM / nb)%js 0 = false ->
  exists i, num_index (math_floor (dx / (dM / nb))%js) = Some i /\ 0 <= i < 1000 /\ i * 2 ^ 1074 * 2 ^ 45 <= (2 ^ 45 + 1) * scaled nb.
Proof.
  intros NB HNB HM Hd Hg Hz. destruct (normal_double 60 nb NB ltac:(lia)) as (_ & _ & HNB0).
  destruct HM as [[_ ->]|(HG & NM & AM)]; [by destruct NB as (p & e & -> & _)|].
  destruct (normal_div 250 60 dM nb NM NB ltac:(lia) ltac:(lia) ltac:(lia)) as [NS AS].
  set (size := (dM / nb)%js) in *. destruct (normal_double _ size NS ltac:(lia)) as (_ & _ & HS0).
  destruct Hd as [[-> ->]|(Hg0 & Nx & Ax)].
  - exists 0. split_and!; [|lia|lia|lia]. by destruct NS as (p & e & -> & _).
  - destruct (normal_div 250 (250 + 60 + 60) dx size Nx NS ltac:(lia) ltac:(lia) ltac:(lia)) as [NT AT].
    set (t := (dx / size)%js) in *. destruct (normal_double _ t NT ltac:(lia)) as (_ & _ & HT0).
    assert (0 < 2 ^ 1074) as HK by (apply Z.pow_pos_nonneg; lia).
    pose proof (quotient_bound g G (scaled dx) (scaled dM) (scaled nb) (scaled size) (scaled t) (2 ^ 1074)
      HK HNB0 HS0 ltac:(lia) ltac:(lia) HG Ax AM AS AT) as HQ.
    destruct (floor_index t NT) as (i & Ei & Hi & HiK); [revert HQ HNB HK; generalize (2 ^ 1074); lia|].
    exists i. split_and!; [exact Ei|lia|lia|]. revert HQ HiK. generalize (2 ^ 1074). lia.
Qed.

(** The bar of a time is there. *)
Lemma bar_exists data x : Forall (fun x => time (value x)) data -> alen data < 2 ^ 53 - 1 ->
  neq (bucketSize data) 0 = false -> x ∈ data ->
  on_bars data (alen (zero_bars bars_fuel 0 (numBuckets data + num_of_Z 1)%js)) x.
Proof.
  intros HF Hl Hz Hx. assert (data <> []) as Hne by (intros ->; by apply elem_of_nil in Hx).
  assert (0 < alen data) as Hl0 by (destruct data; [done|unfold alen; cbn; lia]).
  destruct (data_range data Hne HF) as (TM & TX & HR). pose proof (HR x Hx) as Hr.
  assert (time (value x)) as Tx by (rewrite Forall_forall in HF; by apply HF).
  destruct (buckets_form data ltac:(lia)) as (NB & HNB & p & e & EL & DL & HL).
  destruct (bucket_index _ _ _ _ _ NB HNB (time_sub (dataMax data) (dataMin data) TX TM ltac:(lia))
    (time_sub (value x) (dataMin data) Tx TM ltac:(lia)) ltac:(lia) Hz) as (i & Ei & Hi & HiK).
  exists i. split; [exact Ei|]. split; [lia|].
  assert (0 < 2 ^ 1074) as HK by (apply Z.pow_pos_nonneg; lia).
  assert (i * 2 ^ 1074 < Zpos p * 2 ^ (e + 1074)) as HB.
  { revert HiK HL HNB HK. generalize (2 ^ 1074), (scaled (numBuckets data)), (Zpos p * 2 ^ (e + 1074)). intros K NB' L. lia. }
  assert (i < 177) as Hi'.
  { apply (Z.mul_lt_mono_pos_r (2 ^ 1074)); [done|]. revert HiK HNB HK. generalize (2 ^ 1074), (scaled (numBuckets data)). lia. }
  pose proof (zero_bars_length (numBuckets data + num_of_Z 1)%js (Z.to_nat (i + 1)) bars_fuel 0) as HZ.
  enough (Z.to_nat (i + 1) <= length (zero_bars bars_fuel 0 (numBuckets data + num_of_Z 1)%js))%nat by (unfold alen; lia).
  apply HZ; [unfold bars_fuel; lia|]. intros j Hj. rewrite EL. unfold nlt, SFltb.
  rewrite SFcompare_scaled by (done || (apply is_double_num_of_Z; unfold small; lia) || (apply is_finite_num_of_Z; unfold small; lia)).
  rewrite scaled_num_of_Z by (unfold small; lia). cbn [scaled signed].
  assert (j * 2 ^ 1074 <= i * 2 ^ 1074) by (apply Z.mul_le_mono_nonneg_r; lia).
  destruct (Z.compare_spec (j * 2 ^ 1074) (Zpos p * 2 ^ (e + 1074))); [lia|done|lia].
Qed.

(** C17: a histogram of task times that the coordinator has written counts every
    task: its bars are the numbers of times in the buckets and add up to the
    number of tasks.  Equal times make one bar; otherwise every time falls on a
    bar, in spite of the rounding of the differences and quotients. *)
Theorem histogram_bars (texts : list string) :
  Forall written texts -> alen texts < 2 ^ 53 - 1 ->
  let data := map parseDuration texts in
  exists cs, histogramData data = as_bars cs /\ foldr Z.add 0 cs = alen texts /\
    (neq (bucketSize data) 0 = true -> cs = [alen texts]) /\
    (neq (bucketSize data) 0 = false -> cs = counts data data (alen cs) /\ Forall (on_bars data (alen cs)) data).
Proof.
  intros HW Hl data. assert (alen data = alen texts) as El by (unfold data, alen; by rewrite length_map).
  assert (Forall (fun x => time (value x)) data) as HF.
  { apply Forall_map, Forall_forall. intros t Ht. rewrite Forall_forall in HW. by apply written_time, HW. }
  set (n := alen (zero_bars bars_fuel 0 (numBuckets data + num_of_Z 1)%js)).
  destruct (histogram_counts data ltac:(lia)) as [H1 H2]. destruct (neq (bucketSize data) 0) eqn:E.
  - exists [alen texts]. rewrite <- El. split_and!; [by apply H1|cbn; lia|done|done].
  - assert (Forall (on_bars data n) data) as HB by (apply Forall_forall; intros x Hx; apply bar_exists; [done|lia|done|done]).
    destruct (H2 eq_refl HB) as [H3 H4]. exists (counts data data n).
    rewrite counts_length by (unfold n, alen; lia). split_and!; [done|by rewrite <- El|done|done].
Qed.

Lemma histogram_bars_witness :
  exists cs, histogramData (map parseDuration ["1.00s"; "2.00s"; "10.00m"; "3.50ms"]) = as_bars cs /\ foldr Z.add 0 cs = 4.
Proof.
  destruct (histogram_bars ["1.00s"; "2.00s"; "10.00m"; "3.50ms"]) as (cs & H1 & H2 & _); [|vm_compute; reflexivity|exists cs; split; [exact H1|exact H2]].
  assert (forall n f u N D, (u, (N, D)) ∈ duration_scale -> 0 <= n < 2 ^ 53 -> 0 <= f <= 10 -> written (decimal_text n f +:+ u)) as HW
    by (intros n f u N D ???; by exists n, f, u, N, D).
  constructor; [|constructor; [|constructor; [|constructor; [|constructor]]]].
  - apply (HW 100 2 "s" 1000 1); [|lia..]. unfold duration_scale. repeat first [left|right].
  - apply (HW 200 2 "s" 1000 1); [|lia..]. unfold duration_scale. repeat first [left|right].
  - apply (HW 1000 2 "m" 60000 1); [|lia..]. unfold duration_scale. repeat first [left|right].
  - apply (HW 350 2 "ms" 1 1); [|lia..]. unfold duration_scale. repeat first [left|right].
Defined.
