(* ===== verification/QueryDetail.v ===== *)
(** * components/QueryDetail.jsx: the query page

    The state of the page, its refreshes with the rate histories, the
    snapshots of the stages that the two lists show, the handlers, and the
    rendered page.

    The stages of an answer are one object that [query], [lastSnapshotStage]
    and [lastSnapshotTasks] may share, and [StageSummary] sorts its arrays of
    tasks in place.  So the page holds references into a store of the stages
    received. *)
From S2P Require Import Prelude JsString JsNumber JsNumberFacts JsArray JsObject JsDate Html Sparkline.
From S2P Require Import UtilsQuery UtilsHistory UtilsText UtilsFormat UtilsParse QueryInfo QueryHeader RefreshLoop.
From S2P Require Import StageDetail StackTrace TaskList StageSummary.
Local Open Scope Z_scope.

Module QueryDetail.
Import Sparkline.

(** ** TASK_FILTER *)

Inductive TASK_FILTER := ALL | PLANNED | RUNNING | FINISHED | FAILED.
#[global] Instance TASK_FILTER_eq_dec : EqDecision TASK_FILTER.
Proof. solve_decision. Defined.

Definition accepts (f : TASK_FILTER) (state : string) : bool :=
  match f with
  | ALL => true
  | PLANNED => String.eqb state "PLANNED"
  | RUNNING => String.eqb state "RUNNING"
  | FINISHED => String.eqb state "FINISHED"
  | FAILED => String.eqb state "FAILED" || String.eqb state "ABORTED" || String.eqb state "CANCELED"
  end.

(** ** State *)

(** A place in the store. *)
Notation ref := nat.

(** [outputRef] is [query.outputStage].  The constructor names one of the
    snapshots [lastSnapshotStages]; the page reads and refreshes
    [lastSnapshotStage], which is [undefined] at first. *)
Record State := {
  query : option QueryInfo;
  outputRef : option ref;
  lastSnapshotStages : field ref;
  lastSnapshotStage : option ref;
  lastSnapshotTasks : field ref;
  lastScheduledTime : option num;
  lastCpuTime : option num;
  lastRowInput : num;
  lastByteInput : option num;
  scheduledTimeRate : list num;
  cpuTimeRate : list num;
  rowInputRate : list num;
  byteInputRate : list num;
  reservedMemory : list (option num);
  initialized : bool;
  ended : bool;
  lastRefresh : option Z;
  lastRender : option Z;
  stageRefresh : bool;
  taskRefresh : bool;
  taskFilter : TASK_FILTER;
  store : list Stage
}.

Definition initial_state : State := {|
  query := None; outputRef := None; lastSnapshotStages := Null; lastSnapshotStage := None;
  lastSnapshotTasks := Null; lastScheduledTime := Some (num_of_Z 0); lastCpuTime := Some (num_of_Z 0);
  lastRowInput := num_of_Z 0; lastByteInput := Some (num_of_Z 0); scheduledTimeRate := [];
  cpuTimeRate := []; rowInputRate := []; byteInputRate := []; reservedMemory := [];
  initialized := false; ended := false; lastRefresh := None; lastRender := None;
  stageRefresh := true; taskRefresh := true; taskFilter := ALL; store := [] |}.

Definition ref_field (r : option ref) : field ref := match r with Some r => Value r | None => Missing end.

(** ** refreshLoop *)

(** The object an answer brings: its stages get the next place of the store. *)
Definition received (q : QueryInfo) (s : State) : option ref * list Stage :=
  match outputStage q with
  | Some stage => (Some (length (store s)), store s ++ [stage])
  | None => (None, store s)
  end.

(** The first [setState] of the success callback. *)
Definition set_query (nowMillis : Z) (q : QueryInfo) (s : State) : State :=
  let '(r, objects) := received q s in {|
  query := Some q;
  outputRef := r;
  lastSnapshotStages := lastSnapshotStages s;
  lastSnapshotStage := if stageRefresh s then r else lastSnapshotStage s;
  lastSnapshotTasks := if taskRefresh s then ref_field r else lastSnapshotTasks s;
  lastScheduledTime := parseDuration (totalScheduledTime (infoStats q));
  lastCpuTime := parseDuration (totalCpuTime (queryStats (basic q)));
  lastRowInput := processedInputPositions (infoStats q);
  lastByteInput := parseDataSize (processedInputDataSize (infoStats q));
  scheduledTimeRate := scheduledTimeRate s; cpuTimeRate := cpuTimeRate s; rowInputRate := rowInputRate s;
  byteInputRate := byteInputRate s; reservedMemory := reservedMemory s;
  initialized := true;
  ended := finalQueryInfo q;
  lastRefresh := Some nowMillis;
  lastRender := lastRender s; stageRefresh := stageRefresh s; taskRefresh := taskRefresh s;
  taskFilter := taskFilter s; store := objects |}.

(** The second one. *)
Definition set_histories (scheduled cpu rows bytes : num) (memory : option num) (s : State) : State := {|
  query := query s; outputRef := outputRef s; lastSnapshotStages := lastSnapshotStages s;
  lastSnapshotStage := lastSnapshotStage s; lastSnapshotTasks := lastSnapshotTasks s;
  lastScheduledTime := lastScheduledTime s; lastCpuTime := lastCpuTime s; lastRowInput := lastRowInput s;
  lastByteInput := lastByteInput s;
  scheduledTimeRate := addToHistory scheduled (scheduledTimeRate s);
  cpuTimeRate := addToHistory cpu (cpuTimeRate s);
  rowInputRate := addToHistory rows (rowInputRate s);
  byteInputRate := addToHistory bytes (byteInputRate s);
  reservedMemory := addToHistory memory (reservedMemory s);
  initialized := initialized s; ended := ended s; lastRefresh := lastRefresh s; lastRender := lastRender s;
  stageRefresh := stageRefresh s; taskRefresh := taskRefresh s; taskFilter := taskFilter s; store := store s |}.

(** [nowMillis - lastRefresh], in seconds; on the first refresh the time the
    query has run. *)
Definition elapsedSecsSinceLastRefresh (nowMillis : Z) (q : QueryInfo) (s : State) : num :=
  let last := match lastRefresh s with
              | Some t => num_of_Z t
              | None => (num_of_Z nowMillis
                         - num_of_nullable (parseDuration (elapsedTime (queryStats (basic q)))))%js
              end in
  ((num_of_Z nowMillis - last) / num_of_Z 1000)%js.

(** The success callback of [refreshLoop] up to [resetTimer]; [null] counts as
    zero in a difference. *)
Definition refresh_success (nowMillis : Z) (q : QueryInfo) (s : State) : State :=
  let s1 := set_query nowMillis q s in
  if ended s || (match lastRefresh s with None => true | Some _ => false end
                 && String.eqb (qstate (basic q)) "RUNNING")
  then s1
  else
    let secs := elapsedSecsSinceLastRefresh nowMillis q s in
    if nge secs 0 then
      let since (x last : option num) := (num_of_nullable x - num_of_nullable last)%js in
      set_histories
        (since (parseDuration (totalScheduledTime (infoStats q))) (lastScheduledTime s) / (secs * num_of_Z 1000))%js
        (since (parseDuration (totalCpuTime (queryStats (basic q)))) (lastCpuTime s) / (secs * num_of_Z 1000))%js
        ((processedInputPositions (infoStats q) - lastRowInput s) / secs)%js
        (since (parseDataSize (processedInputDataSize (infoStats q))) (lastByteInput s) / secs)%js
        (parseDataSize (userMemoryReservation (queryStats (basic q)))) s1
    else s1.

Definition refresh_error (s : State) : State := {|
  query := query s; outputRef := outputRef s; lastSnapshotStages := lastSnapshotStages s;
  lastSnapshotStage := lastSnapshotStage s; lastSnapshotTasks := lastSnapshotTasks s;
  lastScheduledTime := lastScheduledTime s; lastCpuTime := lastCpuTime s; lastRowInput := lastRowInput s;
  lastByteInput := lastByteInput s; scheduledTimeRate := scheduledTimeRate s; cpuTimeRate := cpuTimeRate s;
  rowInputRate := rowInputRate s; byteInputRate := byteInputRate s; reservedMemory := reservedMemory s;
  initialized := true; ended := ended s; lastRefresh := lastRefresh s; lastRender := lastRender s;
  stageRefresh := stageRefresh s; taskRefresh := taskRefresh s; taskFilter := taskFilter s; store := store s |}.

(** ** Handlers *)

Definition set_refresh (stages tasks : bool) (snapStages snapTasks : field ref) (f : TASK_FILTER) (s : State) : State := {|
  query := query s; outputRef := outputRef s; lastSnapshotStages := snapStages;
  lastSnapshotStage := lastSnapshotStage s; lastSnapshotTasks := snapTasks;
  lastScheduledTime := lastScheduledTime s; lastCpuTime := lastCpuTime s; lastRowInput := lastRowInput s;
  lastByteInput := lastByteInput s; scheduledTimeRate := scheduledTimeRate s; cpuTimeRate := cpuTimeRate s;
  rowInputRate := rowInputRate s; byteInputRate := byteInputRate s; reservedMemory := reservedMemory s;
  initialized := initialized s; ended := ended s; lastRefresh := lastRefresh s; lastRender := lastRender s;
  stageRefresh := stages; taskRefresh := tasks; taskFilter := f; store := store s |}.

(** [this.state.query.outputStage] throws when there is no query. *)
Definition handleTaskRefreshClick (s : State) : result State :=
  if taskRefresh s then
    _ ← require (query s);
    Ok (set_refresh (stageRefresh s) false (lastSnapshotStages s) (ref_field (outputRef s)) (taskFilter s) s)
  else Ok (set_refresh (stageRefresh s) true (lastSnapshotStages s) (lastSnapshotTasks s) (taskFilter s) s).

Definition handleStageRefreshClick (s : State) : result State :=
  if stageRefresh s then
    _ ← require (query s);
    Ok (set_refresh false (taskRefresh s) (ref_field (outputRef s)) (lastSnapshotTasks s) (taskFilter s) s)
  else Ok (set_refresh true (taskRefresh s) (lastSnapshotStages s) (lastSnapshotTasks s) (taskFilter s) s).

Definition handleTaskFilterClick (filter : TASK_FILTER) (s : State) : State :=
  set_refresh (stageRefresh s) (taskRefresh s) (lastSnapshotStages s) (lastSnapshotTasks s) filter s.

(** ** componentDidUpdate *)

Definition with_render (t : option Z) (objects : list Stage) (s : State) : State := {|
  query := query s; outputRef := outputRef s; lastSnapshotStages := lastSnapshotStages s;
  lastSnapshotStage := lastSnapshotStage s; lastSnapshotTasks := lastSnapshotTasks s;
  lastScheduledTime := lastScheduledTime s; lastCpuTime := lastCpuTime s; lastRowInput := lastRowInput s;
  lastByteInput := lastByteInput s; scheduledTimeRate := scheduledTimeRate s; cpuTimeRate := cpuTimeRate s;
  rowInputRate := rowInputRate s; byteInputRate := byteInputRate s; reservedMemory := reservedMemory s;
  initialized := initialized s; ended := ended s; lastRefresh := lastRefresh s; lastRender := t;
  stageRefresh := stageRefresh s; taskRefresh := taskRefresh s; taskFilter := taskFilter s; store := objects |}.

Definition SMALL_SPARKLINE_PROPERTIES : options :=
  [("width", Text "100%");
   ("height", Text "57px");
   ("fillColor", Text "#3F4552");
   ("lineColor", Text "#747F96");
   ("spotColor", Text "#1EDCFF");
   ("tooltipClassname", Text "sparkline-tooltip");
   ("disableHiddenCheck", Flag true)].

Definition draw (s : State) : list Chart :=
  let chart selector vs extra := sparkline selector vs SMALL_SPARKLINE_PROPERTIES extra in
  [chart "#scheduled-time-rate-sparkline" (map Some (scheduledTimeRate s))
     [("chartRangeMin", Number (num_of_Z 0)); ("numberFormatter", Formatter precisionRound)];
   chart "#cpu-time-rate-sparkline" (map Some (cpuTimeRate s))
     [("chartRangeMin", Number (num_of_Z 0)); ("numberFormatter", Formatter precisionRound)];
   chart "#row-input-rate-sparkline" (map Some (rowInputRate s)) [("numberFormatter", Formatter formatCount)];
   chart "#byte-input-rate-sparkline" (map Some (byteInputRate s)) [("numberFormatter", Formatter formatDataSize)];
   chart "#reserved-memory-sparkline" (reservedMemory s) [("numberFormatter", Formatter formatDataSize)]].

(** With its two readings of the clock: the new state, the charts, and whether
    the text of the query is highlighted. *)
Definition componentDidUpdate (now now' : Z) (s : State) : State * list Chart * bool :=
  if match lastRender s with None => true | Some t => 1000 <=? now - t end
  then (with_render (Some now') (store s) s, draw s, match lastRender s with None => true | Some _ => false end)
  else (s, [], false).

(** What the update of a [StageSummary] does to the store: the tasks of the
    stages it shows under that id are sorted where they are. *)
Section with_sort.
Context {AS : ArraySort}.

Fixpoint sort_in_place (id : string) (stage : Stage) : Stage :=
  let '(mkStage i st p ss ts subs) := stage in
  mkStage i st p ss
    (if String.eqb i id then array_sort StageDetail.compareTaskNumber <$> ts else ts)
    (match subs with Some l => Some (map (sort_in_place id) l) | None => None end).

Definition stage_updated (id : string) (s : State) : State :=
  match lastSnapshotStage s with
  | Some r => with_render (lastRender s) (alter (sort_in_place id) r (store s)) s
  | None => s
  end.
End with_sort.

(** ** The page *)

Inductive event :=
| TaskRefreshClick
| StageRefreshClick
| TaskFilterClick (f : TASK_FILTER)
| ToggleExpanded (stage : string)
| HeaderAjax (a : QueryHeader.Ajax).

Fixpoint getTasksFromStage (stage : Stage) : list Task :=
  let '(mkStage _ _ _ _ ts subs) := stage in
  match subs, ts with
  | Some l, Some t => t ++ flat_map getTasksFromStage l
  | _, _ => []
  end.

Definition deref (s : State) (r : option ref) : option Stage := r ≫= (fun r => store s !! r).

(** The tasks that [renderTasks] shows. *)
Definition shown_tasks (s : State) : list Task :=
  let stage := match lastSnapshotTasks s with Value r => deref s (Some r) | _ => None end in
  filterb (fun t => accepts (taskFilter s) (taskState (taskStatus t)))
    (match stage with Some st => getTasksFromStage st | None => [] end).

Definition renderTaskRefreshButton (s : State) : vnode event :=
  if taskRefresh s then
    h "button" [cls "btn btn-info live-button"; onClick TaskRefreshClick] [txt "Auto-Refresh: On"]
  else
    h "button" [cls "btn btn-info live-button"; onClick TaskRefreshClick] [txt "Auto-Refresh: Off"].

Definition renderStageRefreshButton (s : State) : vnode event :=
  if stageRefresh s then
    h "button" [cls "btn btn-info live-button"; onClick StageRefreshClick] [txt "Auto-Refresh: On"]
  else
    h "button" [cls "btn btn-info live-button"; onClick StageRefreshClick] [txt "Auto-Refresh: Off"].

Definition renderTaskFilterListItem (s : State) (filter : TASK_FILTER) (taskFilterText : string) : vnode event :=
  h "li" [] [
    h "a" [at_ "href" "#";
        cls (if bool_decide (taskFilter s = filter) then "selected" else "");
        onClick (TaskFilterClick filter)] [
      txt taskFilterText]].

Definition renderTasks (URL : string -> result URLParts) (now : Z) (s : State) : result (vnode event) :=
  match lastSnapshotTasks s with
  | Null => Ok none
  | _ =>
      taskList ← TaskList.render URL now (shown_tasks s);
      Ok (
        h "div" [] [
          h "div" [cls "row"] [
            h "div" [cls "col-xs-9"] [h "h3" [] [txt "Tasks"]];
            h "div" [cls "col-xs-3"] [
              h "table" [cls "header-inline-links"] [
                h "tbody" [] [
                  h "tr" [] [
                    h "td" [] [
                      h "div" [cls "input-group-btn text-right"] [
                        h "button" [at_ "type" "button";
                            cls "btn btn-default dropdown-toggle pull-right text-right";
                            at_ "data-toggle" "dropdown"; at_ "aria-haspopup" "true";
                            at_ "aria-expanded" "false"] [
                          txt "Show ";
                          h "span" [cls "caret"] []];
                        h "ul" [cls "dropdown-menu"] [
                          renderTaskFilterListItem s ALL "All";
                          renderTaskFilterListItem s PLANNED "Planned";
                          renderTaskFilterListItem s RUNNING "Running";
                          renderTaskFilterListItem s FINISHED "Finished";
                          renderTaskFilterListItem s FAILED "Aborted/Canceled/Failed"]]];
                    h "td" [] [txt (nbsp +:+ nbsp); renderTaskRefreshButton s]]]]]];
          h "div" [cls "row"] [h "div" [cls "col-xs-12"] [taskList]]])
  end.

(** [lastSnapshotStage] is never [null]. *)
Definition renderStages (summary : string -> StageSummary.State) (s : State) : result (vnode event) :=
  stageList ← StageList.render ToggleExpanded summary (deref s (lastSnapshotStage s));
  Ok (
    h "div" [] [
      h "div" [cls "row"] [
        h "div" [cls "col-xs-9"] [h "h3" [] [txt "Stages"]];
        h "div" [cls "col-xs-3"] [
          h "table" [cls "header-inline-links"] [
            h "tbody" [] [h "tr" [] [h "td" [] [renderStageRefreshButton s]]]]]];
      h "div" [cls "row"] [h "div" [cls "col-xs-12"] [stageList]]]).

Definition renderSessionProperties {E} (q : QueryInfo) : list (vnode E) :=
  let system := systemProperties (infoSession q) in
  let catalogs := catalogProperties (infoSession q) in
  let value_of (property : string) (o : obj string) := default "undefined" (dict_get property o) in
  map (fun property =>
      let value := value_of property system in
      h "span" [] [txt "- "; txt (property +:+ "=" +:+ value); txt " "; h "br" [] []]) (own_keys system)
  ++ flat_map (fun catalog =>
      let properties := default [] (dict_get catalog catalogs) in
      map (fun property =>
          let value := value_of property properties in
          h "span" [] [
            txt "- ";
            txt (catalog +:+ "." +:+ property +:+ "=" +:+ value);
            txt " ";
            h "br" [] []]) (own_keys properties))
    (own_keys catalogs).

(** [s.replace(new RegExp(c), t)] for a letter: its first occurrence. *)
Fixpoint replace_first (c : ascii) (t s : string) : string :=
  match s with
  | "" => ""
  | String d s' => if Ascii.eqb d c then t +:+ s' else String d (replace_first c t s')
  end.

(** [s.match(/([A-Z])/g) || []] *)
Fixpoint upperChars (s : string) : list ascii :=
  match s with
  | "" => []
  | String c s' => if is_upper c then c :: upperChars s' else upperChars s'
  end.

Definition snakeCased (resource : string) : string :=
  fold_left (fun s c => replace_first c (String "_" (String (lower_char c) "")) s) (upperChars resource) resource.

Definition renderResourceEstimates {E} (q : QueryInfo) : list (vnode E) :=
  let estimates := resourceEstimates (infoSession q) in
  map (fun resource =>
      let value := default "undefined" (dict_get resource estimates) in
      h "span" [] [txt "- "; txt (snakeCased resource +:+ "=" +:+ value); txt " "; h "br" [] []]) (own_keys estimates).

Definition renderWarning {E} (w : Warning) : vnode E :=
  h "tr" [] [h "td" [] [txt (warningCodeName w)]; h "td" [] [txt (warningMessage w)]].

Definition renderWarningInfo {E} (q : QueryInfo) : vnode E :=
  if 0 <? alen (warnings q) then
    h "div" [cls "row"] [
      h "div" [cls "col-xs-12"] [
        h "h3" [] [txt "Warnings"];
        h "hr" [cls "h3-hr"] [];
        h "table" [cls "table"; at_ "id" "warnings-table"] [frag (map renderWarning (warnings q))]]]
  else none.

Definition renderFailureInfo {E} (q : QueryInfo) : result (vnode E) :=
  match failureInfo q with
  | Some f =>
      name ← errorCode_name (basic q);
      trace ← StackTrace.formatStackTrace f;
      Ok (
        h "div" [cls "row"] [
          h "div" [cls "col-xs-12"] [
            h "h3" [] [txt "Error Information"];
            h "hr" [cls "h3-hr"] [];
            h "table" [cls "table"] [
              h "tbody" [] [
                h "tr" [] [
                  h "td" [cls "info-title"] [txt "Error Type"];
                  h "td" [cls "info-text"] [txto (errorType (basic q))]];
                h "tr" [] [
                  h "td" [cls "info-title"] [txt "Error Code"];
                  h "td" [cls "info-text"] [
                    txt (name +:+ " (" +:+ num_to_string (errorCodeNumber q) +:+ ")")]];
                h "tr" [] [
                  h "td" [cls "info-title"] [
                    txt "Stack Trace";
                    h "a" [cls "btn copy-button";
                        at_ "data-clipboard-target" "#stack-trace";
                        at_ "data-toggle" "tooltip"; at_ "data-placement" "right";
                        at_ "title" "Copy to clipboard"] [
                      h "span" [cls "glyphicon glyphicon-copy"; at_ "aria-hidden" "true";
                          at_ "alt" "Copy to clipboard"] []]];
                  h "td" [cls "info-text"] [h "pre" [at_ "id" "stack-trace"] [txt trace]]]]]]])
  | None => Ok (txt "")
  end.

(** The four blocks of figures. *)
Definition renderSession {E} (q : QueryInfo) : vnode E :=
  h "div" [cls "col-xs-6"] [
    h "h3" [] [txt "Session"];
    h "hr" [cls "h3-hr"] [];
    h "table" [cls "table"] [
      h "tbody" [] [
        h "tr" [] [
          h "td" [cls "info-title"] [txt "User"];
          h "td" [cls "info-text wrap-text"] [
            h "span" [at_ "id" "query-user"] [txto (user (session (basic q)))];
            txt (nbsp +:+ nbsp);
            h "a" [at_ "href" "#"; cls "copy-button";
                at_ "data-clipboard-target" "#query-user"; at_ "data-toggle" "tooltip";
                at_ "data-placement" "right"; at_ "title" "Copy to clipboard"] [
              h "span" [cls "glyphicon glyphicon-copy"; at_ "aria-hidden" "true";
                  at_ "alt" "Copy to clipboard"] []]]];
        h "tr" [] [
          h "td" [cls "info-title"] [txt "Principal"];
          h "td" [cls "info-text wrap-text"] [txto (principal (session (basic q)))]];
        h "tr" [] [
          h "td" [cls "info-title"] [txt "Source"];
          h "td" [cls "info-text wrap-text"] [txto (source (session (basic q)))]];
        h "tr" [] [
          h "td" [cls "info-title"] [txt "Catalog"];
          h "td" [cls "info-text"] [txto (catalog (infoSession q))]];
        h "tr" [] [
          h "td" [cls "info-title"] [txt "Schema"];
          h "td" [cls "info-text"] [txto (schema (infoSession q))]];
        h "tr" [] [
          h "td" [cls "info-title"] [txt "Client Address"];
          h "td" [cls "info-text"] [txto (remoteUserAddress (infoSession q))]];
        h "tr" [] [
          h "td" [cls "info-title"] [txt "Client Tags"];
          h "td" [cls "info-text"] [txt (join ", " (clientTags (infoSession q)))]];
        h "tr" [] [
          h "td" [cls "info-title"] [txt "Session Properties"];
          h "td" [cls "info-text wrap-text"] [frag (renderSessionProperties q)]];
        h "tr" [] [
          h "td" [cls "info-title"] [txt "Resource Estimates"];
          h "td" [cls "info-text wrap-text"] [frag (renderResourceEstimates q)]]]]].

Definition renderExecution {E} (local : num -> Date) (q : QueryInfo) : vnode E :=
  h "div" [cls "col-xs-6"] [
    h "h3" [] [txt "Execution"];
    h "hr" [cls "h3-hr"] [];
    h "table" [cls "table"] [
      h "tbody" [] [
        h "tr" [] [
          h "td" [cls "info-title"] [txt "Resource Group"];
          h "td" [cls "info-text wrap-text"] [
            txt (match resourceGroupId (basic q) with Some g => join "." g | None => "n/a" end)]];
        h "tr" [] [
          h "td" [cls "info-title"] [txt "Submission Time"];
          h "td" [cls "info-text"] [
            txt (formatShortDateTime (local (Date_parse (createTime (queryStats (basic q))))))]];
        h "tr" [] [
          h "td" [cls "info-title"] [txt "Completion Time"];
          h "td" [cls "info-text"] [
            txt (if truthy_string (endTime (infoStats q)) then formatShortDateTime (local (Date_parse (default "" (endTime (infoStats q))))) else "")]];
        h "tr" [] [
          h "td" [cls "info-title"] [txt "Elapsed Time"];
          h "td" [cls "info-text"] [txt (elapsedTime (queryStats (basic q)))]];
        h "tr" [] [
          h "td" [cls "info-title"] [txt "Queued Time"];
          h "td" [cls "info-text"] [txt (queuedTime (infoStats q))]];
        h "tr" [] [
          h "td" [cls "info-title"] [txt "Execution Time"];
          h "td" [cls "info-text"] [txt (executionTime (queryStats (basic q)))]]]]].

Definition renderSpilled {E} (q : QueryInfo) : vnode E :=
  h "tr" [] [
    h "td" [cls "info-title"] [txt "Spilled Data"];
    h "td" [cls "info-text"] [txt (spilledDataSize (infoStats q))]].

Definition renderUtilization {E} (q : QueryInfo) : vnode E :=
  h "div" [cls "col-xs-6"] [
    h "h3" [] [txt "Resource Utilization Summary"];
    h "hr" [cls "h3-hr"] [];
    h "table" [cls "table"] [
      h "tbody" [] [
        h "tr" [] [
          h "td" [cls "info-title"] [txt "CPU Time"];
          h "td" [cls "info-text"] [txt (totalCpuTime (queryStats (basic q)))]];
        h "tr" [] [
          h "td" [cls "info-title"] [txt "Scheduled Time"];
          h "td" [cls "info-text"] [txt (totalScheduledTime (infoStats q))]];
        h "tr" [] [
          h "td" [cls "info-title"] [txt "Blocked Time"];
          h "td" [cls "info-text"] [txt (totalBlockedTime (infoStats q))]];
        h "tr" [] [
          h "td" [cls "info-title"] [txt "Input Rows"];
          h "td" [cls "info-text"] [txt (formatCount (processedInputPositions (infoStats q)))]];
        h "tr" [] [
          h "td" [cls "info-title"] [txt "Input Data"];
          h "td" [cls "info-text"] [txt (processedInputDataSize (infoStats q))]];
        h "tr" [] [
          h "td" [cls "info-title"] [txt "Raw Input Rows"];
          h "td" [cls "info-text"] [txt (formatCount (rawInputPositions (infoStats q)))]];
        h "tr" [] [
          h "td" [cls "info-title"] [txt "Raw Input Data"];
          h "td" [cls "info-text"] [txt (rawInputDataSize (infoStats q))]];
        h "tr" [] [
          h "td" [cls "info-title"] [txt "Peak User Memory"];
          h "td" [cls "info-text"] [txt (peakUserMemoryReservation (queryStats (basic q)))]];
        h "tr" [] [
          h "td" [cls "info-title"] [txt "Peak Total Memory"];
          h "td" [cls "info-text"] [txt (peakTotalMemoryReservation (infoStats q))]];
        h "tr" [] [
          h "td" [cls "info-title"] [txt "Memory Pool"];
          h "td" [cls "info-text"] [txto (memoryPool (basic q))]];
        h "tr" [] [
          h "td" [cls "info-title"] [txt "Cumulative User Memory"];
          h "td" [cls "info-text"] [
            txt (formatDataSizeBytes (cumulativeUserMemory (queryStats (basic q)) / num_of_Z 1000)%js +:+ " seconds")]];
        h "tr" [] [
          h "td" [cls "info-title"] [txt "Output Rows"];
          h "td" [cls "info-text"] [txt (formatCount (qOutputPositions (infoStats q)))]];
        h "tr" [] [
          h "td" [cls "info-title"] [txt "Output Data"];
          h "td" [cls "info-text"] [txt (qOutputDataSize (infoStats q))]];
        h "tr" [] [
          h "td" [cls "info-title"] [txt "Written Rows"];
          h "td" [cls "info-text"] [txt (formatCount (writtenPositions (infoStats q)))]];
        h "tr" [] [
          h "td" [cls "info-title"] [txt "Logical Written Data"];
          h "td" [cls "info-text"] [txt (logicalWrittenDataSize (infoStats q))]];
        h "tr" [] [
          h "td" [cls "info-title"] [txt "Physical Written Data"];
          h "td" [cls "info-text"] [txt (physicalWrittenDataSize (infoStats q))]];
        (if ngt (num_of_nullable (parseDataSize (spilledDataSize (infoStats q)))) 0 then renderSpilled q else none)]]].

(** A formatter applied to the last entry of a history: [undefined] when
    there is none, which prints as NaN, or [null], which throws. *)
Definition format_last (f : num -> string) (history : list (option num)) : result string :=
  match last history with
  | None => Ok (f (num_of_undefined None))
  | Some x => StageDetail.format_nullable f x
  end.

Definition renderTimeline {E} (s : State) : result (vnode E) :=
  memory ← format_last formatDataSize (reservedMemory s);
  Ok (
    h "div" [cls "col-xs-6"] [
      h "h3" [] [txt "Timeline"];
      h "hr" [cls "h3-hr"] [];
      h "table" [cls "table"] [
        h "tbody" [] [
          h "tr" [] [
            h "td" [cls "info-title"] [txt "Parallelism"];
            h "td" [at_ "rowSpan" "2"] [
              h "div" [cls "query-stats-sparkline-container"] [
                h "span" [cls "sparkline"; at_ "id" "cpu-time-rate-sparkline"] [
                  h "div" [cls "loader"] [txt "Loading ..."]]]]];
          h "tr" [cls "tr-noborder"] [
            h "td" [cls "info-sparkline-text"] [
              txt (formatCount (num_of_undefined (last (cpuTimeRate s))))]];
          h "tr" [] [
            h "td" [cls "info-title"] [txt "Scheduled Time/s"];
            h "td" [at_ "rowSpan" "2"] [
              h "div" [cls "query-stats-sparkline-container"] [
                h "span" [cls "sparkline"; at_ "id" "scheduled-time-rate-sparkline"] [
                  h "div" [cls "loader"] [txt "Loading ..."]]]]];
          h "tr" [cls "tr-noborder"] [
            h "td" [cls "info-sparkline-text"] [
              txt (formatCount (num_of_undefined (last (scheduledTimeRate s))))]];
          h "tr" [] [
            h "td" [cls "info-title"] [txt "Input Rows/s"];
            h "td" [at_ "rowSpan" "2"] [
              h "div" [cls "query-stats-sparkline-container"] [
                h "span" [cls "sparkline"; at_ "id" "row-input-rate-sparkline"] [
                  h "div" [cls "loader"] [txt "Loading ..."]]]]];
          h "tr" [cls "tr-noborder"] [
            h "td" [cls "info-sparkline-text"] [
              txt (formatCount (num_of_undefined (last (rowInputRate s))))]];
          h "tr" [] [
            h "td" [cls "info-title"] [txt "Input Bytes/s"];
            h "td" [at_ "rowSpan" "2"] [
              h "div" [cls "query-stats-sparkline-container"] [
                h "span" [cls "sparkline"; at_ "id" "byte-input-rate-sparkline"] [
                  h "div" [cls "loader"] [txt "Loading ..."]]]]];
          h "tr" [cls "tr-noborder"] [
            h "td" [cls "info-sparkline-text"] [
              txt (formatDataSize (num_of_undefined (last (byteInputRate s))))]];
          h "tr" [] [
            h "td" [cls "info-title"] [txt "Memory Utilization"];
            h "td" [at_ "rowSpan" "2"] [
              h "div" [cls "query-stats-sparkline-container"] [
                h "span" [cls "sparkline"; at_ "id" "reserved-memory-sparkline"] [
                  h "div" [cls "loader"] [txt "Loading ..."]]]]];
          h "tr" [cls "tr-noborder"] [h "td" [cls "info-sparkline-text"] [txt memory]]]]]).

Definition renderQueryText {E} (q : QueryInfo) : vnode E :=
  h "div" [cls "row"] [
    h "div" [cls "col-xs-12"] [
      h "h3" [] [
        txt "Query";
        h "a" [cls "btn copy-button"; at_ "data-clipboard-target" "#query-text";
            at_ "data-toggle" "tooltip"; at_ "data-placement" "right";
            at_ "title" "Copy to clipboard"] [
          h "span" [cls "glyphicon glyphicon-copy"; at_ "aria-hidden" "true";
              at_ "alt" "Copy to clipboard"] []]];
      h "pre" [at_ "id" "query"] [
        h "code" [cls "lang-sql"; at_ "id" "query-text"] [txt (UtilsQuery.query (basic q))]]]].

Section page.
(** The browser: its URL parser, its time zone, the page's path, and the
    states of the stage components. *)
Context (URL : string -> result URLParts) (local : num -> Date) (pathname : string).
Context (summary : string -> StageSummary.State).

Definition render (now : Z) (s : State) : result (vnode event) :=
  match query s with
  | Some q =>
      if initialized s then
        header ← QueryHeader.render pathname (basic q);
        timeline ← renderTimeline s;
        failure ← renderFailureInfo q;
        stages ← renderStages summary s;
        tasks ← renderTasks URL now s;
        Ok (
          h "div" [] [
            vmap HeaderAjax header;
            h "div" [cls "row"] [renderSession q; renderExecution local q];
            h "div" [cls "row"] [
              h "div" [cls "col-xs-12"] [h "div" [cls "row"] [renderUtilization q; timeline]]];
            renderWarningInfo q;
            failure;
            renderQueryText q;
            stages;
            tasks])
      else Ok (
        let label := h "div" [cls "loader"] [txt "Loading..."] in
        h "div" [cls "row error-message"] [h "div" [cls "col-xs-12"] [h "h4" [] [label]]])
  | None =>
      let label := if initialized s then txt "Query not found" else h "div" [cls "loader"] [txt "Loading..."] in
      Ok (
        h "div" [cls "row error-message"] [h "div" [cls "col-xs-12"] [h "h4" [] [label]]])
  end.
End page.

(** ** The event loop *)

Section poller.
Context {AS : ArraySort}.

(** What happens between two answers: clicks, and updates of the page and of
    the stages it shows. *)
Inductive local_update (s : State) : State -> Prop :=
| update_task_click s' : handleTaskRefreshClick s = Ok s' -> local_update s s'
| update_stage_click s' : handleStageRefreshClick s = Ok s' -> local_update s s'
| update_filter f : local_update s (handleTaskFilterClick f s)
| update_page now now' : local_update s (componentDidUpdate now now' s).1.1
| update_stage id : local_update s (stage_updated id s).

(** Rendering may throw, after every [setState].  The environment of an answer:
    the time and the states of the stages. *)
Context (URL : string -> result URLParts) (local : num -> Date) (pathname : string).
Definition env : Type := Z * (string -> StageSummary.State).

Definition commit (e : env) (s : State) : result State :=
  _ ← render URL local pathname e.2 e.1 s; Ok s.

Definition poller : Poller State unit (env * (Z * QueryInfo)) env := {|
  on_start s := (s, tt);
  on_success _ '(e, (now, q)) s := _ ← commit e (set_query now q s); commit e (refresh_success now q s);
  on_error e s := commit e (refresh_error s);
  keep_polling s := match query s with None => true | Some _ => negb (ended s) end;
  local_step := local_update
|}.
End poller.
End QueryDetail.

