(* ===== verification/QueryDetailFacts.v ===== *)
(** * Properties of the query page

    Polling until the query is final, the snapshots behind the two lists, the
    rate histories, and the names of resource estimates. *)
From S2P Require Import Prelude JsString JsNumber JsNumberFacts JsArray JsObject JsDate Html.
From S2P Require Import UtilsQuery UtilsHistory UtilsText UtilsFormat UtilsParse QueryInfo QueryHeader RefreshLoop.
From S2P Require Import StageDetail StackTrace TaskList StageSummary QueryDetail LivePlanFacts.
Import QueryDetail.
Local Open Scope Z_scope.

Section facts.
Context {AS : ArraySort}.

(** ** Polling *)

Definition ended_inv (s : State) : Prop := forall q, query s = Some q -> ended s = finalQueryInfo q.

Lemma refresh_query now q s :
  query (refresh_success now q s) = Some q /\ ended (refresh_success now q s) = finalQueryInfo q.
Proof.
  unfold refresh_success, set_query. destruct (received q s) as [r o]. cbn. by repeat case_if.
Qed.

Lemma page_update_frame now now' s : exists t, (componentDidUpdate now now' s).1.1 = with_render t (store s) s.
Proof.
  unfold componentDidUpdate. destruct (lastRender s) as [t|] eqn:E; [destruct (1000 <=? now - t)|];
    [by eexists| |by eexists]. exists (lastRender s). by destruct s.
Qed.

Lemma local_query s s' : local_update s s' -> query s' = query s /\ ended s' = ended s.
Proof.
  intros [s1 H|s1 H|f|now now'|id]; try (revert H).
  - unfold handleTaskRefreshClick. case_if; [destruct (query s) eqn:E; [|done]|]; intros [= <-]; cbn; by rewrite ?E.
  - unfold handleStageRefreshClick. case_if; [destruct (query s) eqn:E; [|done]|]; intros [= <-]; cbn; by rewrite ?E.
  - done.
  - by destruct (page_update_frame now now' s) as [t ->].
  - unfold stage_updated. by destruct (lastSnapshotStage s).
Qed.

(** ** Traces *)

Inductive op :=
| Refresh (now : Z) (q : QueryInfo)
| RefreshError
| TaskClick
| StageClick
| FilterClick (f : TASK_FILTER)
| PageUpdate (now now' : Z)
| StageUpdate (id : string).

Definition exec (o : op) (s : State) : result State :=
  match o with
  | Refresh now q => Ok (refresh_success now q s)
  | RefreshError => Ok (refresh_error s)
  | TaskClick => handleTaskRefreshClick s
  | StageClick => handleStageRefreshClick s
  | FilterClick f => Ok (handleTaskFilterClick f s)
  | PageUpdate now now' => Ok (componentDidUpdate now now' s).1.1
  | StageUpdate id => Ok (stage_updated id s)
  end.

Definition run (ops : list op) (s : State) : result State := foldM exec ops s.

Lemma trace_inv (I : State -> Prop) ops s s' :
  (forall o s s', o ∈ ops -> I s -> exec o s = Ok s' -> I s') -> I s -> run ops s = Ok s' -> I s'.
Proof.
  unfold run. revert s. induction ops as [|o ops IH]; intros s Hstep Hs; cbn; [by intros [= <-]|].
  destruct (exec o s) as [s1|] eqn:E; [|done]. apply IH; [|eapply (Hstep o); [set_solver|done|done]].
  intros o' a b Ho. apply Hstep. set_solver.
Qed.

(** ** Snapshots *)

(** The references of the page point into its store. *)
Definition valid (s : State) (r : option ref) : Prop := forall i, r = Some i -> (i < length (store s))%nat.
Definition task_ref (s : State) : option ref := match lastSnapshotTasks s with Value r => Some r | _ => None end.
Definition valid_refs (s : State) : Prop :=
  valid s (outputRef s) /\ valid s (lastSnapshotStage s) /\ valid s (task_ref s).

(** The fields of a state that snapshots depend on, after an operation. *)
Lemma refresh_snapshots now q s :
  let s' := refresh_success now q s in
  let r := (received q s).1 in
  store s' = (received q s).2 /\ outputRef s' = r /\
  lastSnapshotStage s' = (if stageRefresh s then r else lastSnapshotStage s) /\
  lastSnapshotTasks s' = (if taskRefresh s then ref_field r else lastSnapshotTasks s) /\
  stageRefresh s' = stageRefresh s /\ taskRefresh s' = taskRefresh s /\ taskFilter s' = taskFilter s.
Proof.
  cbn. unfold refresh_success, set_query. destruct (received q s) as [r o]. cbn. by repeat case_if.
Qed.

Lemma received_spec q s :
  exists tail, (received q s).2 = store s ++ tail /\
    (forall i, (received q s).1 = Some i -> i = length (store s) /\ tail <> []) /\
    ((received q s).1 ≫= (fun i => (received q s).2 !! i)) = outputStage q.
Proof.
  unfold received. destruct (outputStage q) as [st|]; cbn.
  - exists [st]. split; [done|]. split; [by intros i [= <-]|]. by rewrite list_lookup_middle.
  - exists []. rewrite app_nil_r. done.
Qed.

Lemma task_ref_field r : match ref_field r with Value r => Some r | _ => None end = r.
Proof. by destruct r. Qed.

Lemma valid_exec o s s' : valid_refs s -> exec o s = Ok s' -> valid_refs s'.
Proof.
  unfold valid_refs, valid, task_ref. intros (V1 & V2 & V3). destruct o as [now q| | | |f|now now'|id]; cbn.
  - intros [= <-]. destruct (refresh_snapshots now q s) as (-> & -> & -> & -> & _).
    destruct (received_spec q s) as (tail & -> & Hr & _). rewrite length_app.
    assert (forall i, (received q s).1 = Some i -> (i < length (store s) + length tail)%nat) as Hn.
    { intros i [-> Hne]%Hr. destruct tail; [done|]. cbn. lia. }
    split; [done|]. split.
    + case_if; [done|]. intros i Hi. specialize (V2 i Hi). lia.
    + case_if; [by rewrite task_ref_field|]. intros i Hi. specialize (V3 i Hi). lia.
  - by intros [= <-].
  - unfold handleTaskRefreshClick. case_if; [destruct (query s); [|done]|]; intros [= <-]; cbn; [|done].
    by rewrite task_ref_field.
  - unfold handleStageRefreshClick. case_if; [destruct (query s); [|done]|]; by intros [= <-].
  - by intros [= <-].
  - destruct (page_update_frame now now' s) as [t ->]. by intros [= <-].
  - unfold stage_updated. intros [= <-]. destruct (lastSnapshotStage s) as [r|] eqn:E; [|by rewrite E].
    cbn. rewrite length_alter, E. done.
Qed.

Lemma valid_run ops s s' : valid_refs s -> run ops s = Ok s' -> valid_refs s'.
Proof. intros H. apply trace_inv; [|done]. intros o a b _. apply valid_exec. Qed.

Lemma valid_initial : valid_refs initial_state.
Proof. by split_and!. Qed.

(** Two stages that differ at most in the order of the tasks, of the stage
    itself and of the stages below it. *)
Inductive same_stage : Stage -> Stage -> Prop :=
| same_node i st p ss ts ts' subs subs' :
    option_Forall2 (≡ₚ) ts ts' -> option_Forall2 (Forall2 same_stage) subs subs' ->
    same_stage (mkStage i st p ss ts subs) (mkStage i st p ss ts' subs').

#[global] Instance same_stage_refl : Reflexive same_stage.
Proof.
  intros s. induction s as [i st p ss ts subs IH] using Stage_tree_ind. constructor; [reflexivity|].
  destruct subs as [l|]; constructor. cbn in IH. by induction IH; constructor.
Qed.

#[global] Instance same_stage_trans : Transitive same_stage.
Proof.
  intros a. induction a as [i st p ss ts subs IH] using Stage_tree_ind. intros b c Hab Hbc.
  inversion Hab as [????? ts' ? subs' Ht Hs]; subst. inversion Hbc as [????? ts'' ? subs'' Ht' Hs']; subst.
  constructor; [by etrans|]. destruct Hs as [l l' Hl|]; inversion Hs' as [? l'' Hl'|]; subst; constructor.
  cbn in IH. clear -IH Hl Hl'. revert l'' Hl'.
  induction Hl as [|x y l l' Hxy _ IHl]; intros l'' Hl'; inversion Hl'; subst; constructor;
    apply Forall_cons in IH as [IH1 IH2]; eauto.
Qed.

Lemma sort_tasks id st : getTasksFromStage (sort_in_place id st) ≡ₚ getTasksFromStage st.
Proof.
  induction st as [i st p ss ts subs IH] using Stage_tree_ind. cbn.
  destruct subs as [l|]; [|done]. cbn in IH.
  assert (flat_map getTasksFromStage (map (sort_in_place id) l) ≡ₚ flat_map getTasksFromStage l) as Hl.
  { induction IH as [|x l Hx _ IHl]; cbn; [done|]. by rewrite Hx, IHl. }
  case_if; destruct ts as [t|]; cbn; try done; by rewrite ?array_sort_perm, Hl.
Qed.

Lemma sort_same id st : same_stage (sort_in_place id st) st.
Proof.
  induction st as [i st p ss ts subs IH] using Stage_tree_ind. cbn. constructor.
  - destruct (String.eqb i id); [|reflexivity]. destruct ts; constructor. apply array_sort_perm.
  - destruct subs as [l|]; constructor. cbn in IH. by induction IH; constructor.
Qed.

(** The tasks behind the list of tasks, and the stage behind the list of
    stages. *)
Definition snapshot_tasks (s : State) : list Task :=
  match deref s (task_ref s) with Some st => getTasksFromStage st | None => [] end.
Definition snapshot_stage (s : State) : option Stage := deref s (lastSnapshotStage s).

Lemma shown_snapshot s :
  shown_tasks s = filterb (fun t => accepts (taskFilter s) (taskState (taskStatus t))) (snapshot_tasks s).
Proof. unfold shown_tasks, snapshot_tasks, task_ref. by destruct (lastSnapshotTasks s). Qed.

(** What a reference shows after the store has grown or has been reordered. *)
Lemma deref_app s s' r tail : valid s r -> store s' = store s ++ tail -> deref s' r = deref s r.
Proof.
  unfold deref, valid. intros V E. destruct r as [i|]; cbn; [|done]. rewrite E.
  by rewrite lookup_app_l by (by apply V).
Qed.

Lemma deref_sorted s id r : deref (stage_updated id s) r = deref s r \/
  exists st, deref s r = Some st /\ deref (stage_updated id s) r = Some (sort_in_place id st).
Proof.
  unfold stage_updated. destruct (lastSnapshotStage s) as [k|]; [|by left]. destruct r as [i|]; [|by left].
  change (deref s (Some i)) with (store s !! i).
  change (deref _ (Some i)) with (alter (sort_in_place id) k (store s) !! i).
  destruct (decide (i = k)) as [->|Hne].
  - rewrite list_lookup_alter, decide_True by done. destruct (store s !! k) as [st|]; [right; eauto|by left].
  - left. by rewrite list_lookup_alter_ne.
Qed.

Lemma frozen_tasks_step o s s' : o <> TaskClick -> valid_refs s -> taskRefresh s = false -> exec o s = Ok s' ->
  taskRefresh s' = false /\ snapshot_tasks s' ≡ₚ snapshot_tasks s.
Proof.
  intros Ho (_ & _ & V) HT. destruct o as [now q| | | |f|now now'|id]; cbn; [| |done| | | |].
  - intros [= <-]. destruct (refresh_snapshots now q s) as (E1 & _ & _ & E2 & _ & E3 & _).
    rewrite HT in E2. rewrite E3. split; [done|]. unfold snapshot_tasks, task_ref in *. rewrite E2.
    destruct (received_spec q s) as (tail & Et & _). by rewrite (deref_app s _ _ tail) by (done || congruence).
  - by intros [= <-].
  - unfold handleStageRefreshClick. case_if; [destruct (query s); [|done]|]; by intros [= <-].
  - by intros [= <-].
  - destruct (page_update_frame now now' s) as [t ->]. by intros [= <-].
  - intros [= <-]. split; [by unfold stage_updated; destruct (lastSnapshotStage s)|].
    assert (task_ref (stage_updated id s) = task_ref s) as E by (unfold stage_updated; by destruct (lastSnapshotStage s)).
    unfold snapshot_tasks. rewrite E.
    destruct (deref_sorted s id (task_ref s)) as [->|(st & -> & ->)]; [done|apply sort_tasks].
Qed.

Lemma frozen_stages_step o s s' : o <> StageClick -> valid_refs s -> stageRefresh s = false -> exec o s = Ok s' ->
  stageRefresh s' = false /\ option_Forall2 same_stage (snapshot_stage s') (snapshot_stage s).
Proof.
  intros Ho (_ & V & _) HT. destruct o as [now q| | | |f|now now'|id]; cbn; [| | |done| | |].
  - intros [= <-]. destruct (refresh_snapshots now q s) as (E1 & _ & E2 & _ & E3 & _).
    rewrite HT in E2. rewrite E3. split; [done|]. unfold snapshot_stage. rewrite E2.
    destruct (received_spec q s) as (tail & Et & _). by rewrite (deref_app s _ _ tail) by (done || congruence).
  - by intros [= <-].
  - unfold handleTaskRefreshClick. case_if; [destruct (query s); [|done]|]; by intros [= <-].
  - by intros [= <-].
  - destruct (page_update_frame now now' s) as [t ->]. by intros [= <-].
  - intros [= <-]. split; [by unfold stage_updated; destruct (lastSnapshotStage s)|].
    assert (lastSnapshotStage (stage_updated id s) = lastSnapshotStage s) as E
      by (unfold stage_updated; destruct (lastSnapshotStage s) eqn:?; done).
    unfold snapshot_stage. rewrite E.
    destruct (deref_sorted s id (lastSnapshotStage s)) as [->|(st & -> & ->)]; [reflexivity|]. constructor. apply sort_same.
Qed.

(** What is not refreshed stays as it is. *)
Lemma frozen_run (pre ops : list op) (s s' : State) :
  run pre initial_state = Ok s -> run ops s = Ok s' ->
  (taskRefresh s = false -> TaskClick ∉ ops ->
     shown_tasks s' ≡ₚ filterb (fun t => accepts (taskFilter s') (taskState (taskStatus t))) (snapshot_tasks s)) /\
  (stageRefresh s = false -> StageClick ∉ ops -> option_Forall2 same_stage (snapshot_stage s') (snapshot_stage s)).
Proof.
  intros Hpre Hrun. pose proof (valid_run _ _ _ valid_initial Hpre) as HV. split; intros HT Hn.
  - rewrite shown_snapshot. apply filterb_permutation.
    assert (valid_refs s' /\ taskRefresh s' = false /\ snapshot_tasks s' ≡ₚ snapshot_tasks s) as (_ & _ & ?); [|done].
    eapply (trace_inv (fun x => valid_refs x /\ taskRefresh x = false /\ snapshot_tasks x ≡ₚ snapshot_tasks s));
      [|done|exact Hrun].
    intros o a b Ho (H1 & H2 & H3) E. destruct (frozen_tasks_step o a b) as [? Hp]; [by intros ->|done..|].
    split; [by eapply valid_exec|]. by rewrite Hp.
  - assert (valid_refs s' /\ stageRefresh s' = false /\ option_Forall2 same_stage (snapshot_stage s') (snapshot_stage s))
      as (_ & _ & ?); [|done].
    eapply (trace_inv (fun x => valid_refs x /\ stageRefresh x = false /\
      option_Forall2 same_stage (snapshot_stage x) (snapshot_stage s))); [|split_and!; [done..|reflexivity]|exact Hrun].
    intros o a b Ho (H1 & H2 & H3) E. destruct (frozen_stages_step o a b) as [? Hp]; [by intros ->|done..|].
    split; [by eapply valid_exec|]. split; [done|]. by etrans.
Qed.

(** what is refreshed shows the answer: with auto-refresh on, after every
    answer the lists show its tasks, as far as the filter accepts them, and
    its stages. *)
Theorem live_snapshots (now : Z) (q : QueryInfo) (s : State) :
  let s' := refresh_success now q s in
  (taskRefresh s = true ->
     shown_tasks s' = filterb (fun t => accepts (taskFilter s) (taskState (taskStatus t)))
                        (match outputStage q with Some st => getTasksFromStage st | None => [] end)) /\
  (stageRefresh s = true -> snapshot_stage s' = outputStage q).
Proof.
  cbn. destruct (refresh_snapshots now q s) as (E1 & _ & E2 & E3 & _ & _ & E4).
  destruct (received_spec q s) as (tail & _ & _ & Hr). split; intros HT; rewrite HT in *.
  - rewrite shown_snapshot, E4. unfold snapshot_tasks, task_ref. rewrite E3, task_ref_field.
    unfold deref. by rewrite E1, Hr.
  - unfold snapshot_stage, deref. by rewrite E1, E2, Hr.
Qed.

(** the button of the stages takes no snapshot.  Clicked twice, the button
    of the tasks shows the tasks of the last answer; the one of the stages
    leaves the list of stages as it was, so that a list which was switched off
    before the final answer never shows the final stages. *)
Theorem stage_button_stale (s s1 s2 : State) :
  (handleStageRefreshClick s = Ok s1 -> handleStageRefreshClick s1 = Ok s2 -> snapshot_stage s2 = snapshot_stage s) /\
  (taskRefresh s = false -> handleTaskRefreshClick s = Ok s1 -> handleTaskRefreshClick s1 = Ok s2 ->
     task_ref s2 = outputRef s).
Proof.
  split.
  - assert (forall a b, handleStageRefreshClick a = Ok b -> snapshot_stage b = snapshot_stage a) as H.
    { intros a b. unfold handleStageRefreshClick. case_if; [destruct (query a); [|done]|]; by intros [= <-]. }
    intros H1 H2. rewrite (H _ _ H2). by apply H.
  - unfold handleTaskRefreshClick. intros ->. intros [= <-]. cbn. destruct (query s); [|done]. intros [= <-].
    unfold task_ref. cbn. apply task_ref_field.
Qed.

(** ** Names of resource estimates *)

(** Reference: each capital letter becomes an underscore and its small one. *)
Fixpoint snake_case (s : string) : string :=
  match s with
  | "" => ""
  | String c s' => if is_upper c then String "_" (String (lower_char c) (snake_case s')) else String c (snake_case s')
  end.

Lemma lower_not_upper c : is_upper c = true -> is_upper (lower_char c) = false.
Proof. destruct c as [[] [] [] [] [] [] [] []]; vm_compute; done. Qed.

Lemma replace_first_skip p c t s : sforall (fun d => negb (is_upper d)) p = true -> is_upper c = true ->
  replace_first c t (p +:+ String c s) = p +:+ t +:+ s.
Proof.
  intros Hp Hc. induction p as [|d p IH]; cbn.
  - by rewrite Ascii.eqb_refl.
  - cbn in Hp. apply andb_prop in Hp as [Hd Hp]. destruct (Ascii.eqb_spec d c) as [->|_]; [by rewrite Hc in Hd|].
    by rewrite IH.
Qed.

Lemma snake_fold t : forall p, sforall (fun d => negb (is_upper d)) p = true ->
  fold_left (fun s c => replace_first c (String "_" (String (lower_char c) "")) s) (upperChars t) (p +:+ t)
  = p +:+ snake_case t.
Proof.
  induction t as [|c t IH]; intros p Hp; cbn [upperChars snake_case]; [done|].
  destruct (is_upper c) eqn:Hc; cbn [fold_left].
  - rewrite replace_first_skip by done. rewrite <- sapp_assoc, IH.
    + by rewrite sapp_assoc.
    + rewrite sforall_app, Hp. cbn. by rewrite lower_not_upper.
  - change (String c t) with (String c "" +:+ t). rewrite <- sapp_assoc, IH; [by rewrite sapp_assoc|].
    rewrite sforall_app, Hp. cbn. by rewrite Hc.
Qed.

(** the name of a resource estimate is printed in snake case: although
    the loop replaces first occurrences, one at a time, every capital letter
    of the name, repeated ones too, becomes an underscore and its small
    letter, and nothing else changes. *)
Theorem snakeCased_spec (resource : string) : snakeCased resource = snake_case resource.
Proof. apply (snake_fold resource ""). done. Qed.
End facts.

Example snakeCased_ex : snakeCased "peakTaskMemory" = "peak_task_memory".
Proof. reflexivity. Qed.
