(* ===== verification/QueryDetailView.v ===== *)
(** * The rendered query page

    The page of a query whose information is complete renders, and its
    controls are those of its parts.  The examples at the end show that the
    hypotheses of the theorems about the query page can be met. *)
From S2P Require Import Prelude JsString JsNumber JsNumberFacts JsArray JsObject JsDate Html.
From S2P Require Import UtilsQuery UtilsHistory UtilsText UtilsFormat UtilsParse QueryInfo QueryHeader RefreshLoop.
From S2P Require Import StageDetail StackTrace TaskList TaskListFacts StageSummary StageSummaryFacts.
From S2P Require Import LivePlanFacts QueryDetail QueryDetailFacts.
Import QueryDetail.
Local Open Scope Z_scope.

(** ** Parts without controls *)

Lemma clicks_map_nil {A E} (g : A -> vnode E) l : (forall x, clicks (g x) = []) -> flat_map clicks (map g l) = [].
Proof. intros H. induction l as [|x l IH]; cbn; [done|]. by rewrite H, IH. Qed.

Lemma clicks_session {E} q : clicks (renderSession (E := E) q) = [].
Proof.
  cbn. rewrite !clicks_txto. unfold renderSessionProperties, renderResourceEstimates.
  rewrite flat_map_app, !clicks_map_nil by done.
  induction (own_keys (catalogProperties (infoSession q))) as [|k l IH]; [done|]. cbn [flat_map].
  rewrite flat_map_app, clicks_map_nil by done. exact IH.
Qed.

Lemma clicks_execution {E} local q : clicks (renderExecution (E := E) local q) = [].
Proof. done. Qed.

Lemma clicks_utilization {E} q : clicks (renderUtilization (E := E) q) = [].
Proof. cbn. rewrite clicks_txto. by case_if. Qed.

Lemma clicks_warnings {E} q : clicks (renderWarningInfo (E := E) q) = [].
Proof. unfold renderWarningInfo. case_if; [|done]. cbn. by rewrite clicks_map_nil. Qed.

Lemma failure_ok {E} q :
  (forall f, failureInfo q = Some f -> stacked f = true /\ is_Some (errorCode (basic q))) ->
  exists v, renderFailureInfo (E := E) q = Ok v /\ clicks v = [].
Proof.
  intros H. unfold renderFailureInfo. destruct (failureInfo q) as [f|]; [|by eexists].
  destruct (H f eq_refl) as [Hs [n Hn]]. unfold errorCode_name. rewrite Hn. cbn [mbind result_bind].
  rewrite stacked_trace by done. cbn [mbind result_bind].
  eexists. split; [done|]. cbn. by rewrite clicks_txto.
Qed.

Lemma timeline_ok {E} s : last (reservedMemory s) <> Some None ->
  exists v, renderTimeline (E := E) s = Ok v /\ clicks v = [].
Proof.
  intros H. unfold renderTimeline, format_last.
  destruct (last (reservedMemory s)) as [[n|]|]; [| |]; [by eexists|done|by eexists].
Qed.

Lemma task_row_clicks {E} URL now b t v : TaskList.renderTask (E := E) URL now b t = Ok v -> clicks v = [].
Proof.
  unfold TaskList.renderTask. destruct (getHostname URL _) as [hn|]; [|done]. cbn [mbind result_bind].
  destruct (if b then _ else _) as [host|]; [|done]. cbn [mbind result_bind].
  destruct (StageDetail.format_nullable _ _) as [sz|]; [|done]. cbn [mbind result_bind]. by intros [= <-].
Qed.

Lemma task_list_ok {E} URL now ts : Forall (showable URL) ts ->
  exists v, TaskList.render (E := E) URL now ts = Ok v /\ clicks v = [].
Proof.
  intros HS. unfold TaskList.render. destruct ts as [|t0 ts']; [by eexists|]. set (ts := t0 :: ts') in *. clearbody ts.
  destruct (showPortNumbers_ok URL ts HS []) as [b Eb]. unfold TaskList.showPortNumbers. rewrite Eb. cbn [mbind result_bind].
  destruct (mapM_Ok (TaskList.renderTask (E := E) URL now b) ts) as [rows Er].
  { rewrite Forall_forall in HS. intros t Ht. destruct (renderTask_row (E := E) URL now b t (HS t Ht)) as (v & ? & _). eauto. }
  rewrite Er. cbn [mbind result_bind]. eexists. split; [done|]. rewrite mapM_Forall2 in Er. cbn. rewrite app_nil_r.
  clear HS Eb. induction Er as [|t v ts rows Hv _ IH]; [done|]. cbn [flat_map].
  rewrite (task_row_clicks _ _ _ _ _ Hv). exact IH.
Qed.

(** ** The page *)

(** What the page needs of its state: a query with a well-formed error and
    complete stages, and tasks that can be shown. *)
Record complete (URL : string -> result URLParts) (q : QueryInfo) (s : State) : Prop := {
  complete_query : query s = Some q;
  complete_initialized : initialized s = true;
  complete_basic : well_formed (basic q);
  complete_failure f : failureInfo q = Some f -> stacked f = true /\ is_Some (errorCode (basic q));
  complete_memory : last (reservedMemory s) <> Some None;
  complete_stages st : snapshot_stage s = Some st -> Forall complete_stage (all_stages st);
  complete_snapshot : lastSnapshotTasks s <> Null;
  complete_tasks : Forall (showable URL) (shown_tasks s)
}.

Definition filters : list TASK_FILTER := [ALL; PLANNED; RUNNING; FINISHED; FAILED].

Definition stage_buttons (s : State) : list event :=
  match snapshot_stage s with Some st => map (fun x => ToggleExpanded (stageId x)) (all_stages st) | None => [] end.

Lemma page_renders (URL : string -> result URLParts) (local : num -> Date) (pathname : string)
    (summary : string -> StageSummary.State) (now : Z) (q : QueryInfo) (s : State) :
  complete URL q s ->
  exists v, render URL local pathname summary now s = Ok v /\
    clicks v = map HeaderAjax (QueryHeader.header_buttons (basic q))
      ++ [StageRefreshClick] ++ stage_buttons s ++ map TaskFilterClick filters ++ [TaskRefreshClick].
Proof.
  intros [H1 H2 H3 H4 H5 H6 H7 H8]. unfold render. rewrite H1, H2.
  destruct (QueryHeader.header_renders pathname (basic q) H3) as (hv & -> & Hc & _). cbn [mbind result_bind].
  destruct (timeline_ok (E := event) s H5) as (tv & -> & Ht). cbn [mbind result_bind].
  destruct (failure_ok (E := event) q H4) as (fv & -> & Hf). cbn [mbind result_bind].
  assert (exists v, renderStages summary s = Ok v /\ clicks v = StageRefreshClick :: stage_buttons s) as (sv & -> & Hs).
  { unfold renderStages, stage_buttons. change (deref s (lastSnapshotStage s)) with (snapshot_stage s).
    destruct (snapshot_stage s) as [st|].
    - destruct (stage_list_ok ToggleExpanded summary st (H6 st eq_refl)) as (v & -> & Hv). cbn [mbind result_bind].
      eexists. split; [done|]. unfold renderStageRefreshButton. case_if; cbn; by rewrite Hv, !app_nil_r.
    - eexists. split; [done|]. unfold renderStageRefreshButton. by case_if. }
  cbn [mbind result_bind].
  assert (exists v, renderTasks URL now s = Ok v /\ clicks v = map TaskFilterClick filters ++ [TaskRefreshClick])
    as (kv & -> & Hk).
  { destruct (task_list_ok (E := event) URL now _ H8) as (v & Ev & Hv). unfold renderTasks. rewrite Ev.
    destruct (lastSnapshotTasks s); [|done|]; cbn [mbind result_bind]; eexists; (split; [done|]);
      unfold renderTaskRefreshButton; case_if; cbn; by rewrite Hv. }
  cbn [mbind result_bind]. eexists. split; [done|].
  cbn [clicks h flat_map attr_clicks app cls].
  rewrite clicks_vmap, Hc, Ht, Hf, Hs, Hk, clicks_session, clicks_execution, clicks_utilization, clicks_warnings.
  done.
Qed.

(** C34: the page of a query renders, and its controls are those of its parts:
    the buttons of the header, the auto-refresh of the stages and one button
    for each stage of the snapshot, the five filters, and the auto-refresh of
    the tasks. *)
Theorem query_page (URL : string -> result URLParts) (local : num -> Date) (pathname : string)
    (summary : string -> StageSummary.State) (now : Z) (q : QueryInfo) (s : State) :
  complete URL q s ->
  exists v, render URL local pathname summary now s = Ok v /\
    clicks v = map HeaderAjax (QueryHeader.header_buttons (basic q))
      ++ [StageRefreshClick] ++ stage_buttons s ++ map TaskFilterClick filters ++ [TaskRefreshClick].
Proof. apply page_renders. Qed.

(** ** Examples *)

Definition page_stage : Stage :=
  mkStage "q.0" "RUNNING" (Some plan_0) (Some sample_stats) (Some [sample_task 0 0 "RUNNING" "a:8080"])
    (Some [mkStage "q.1" "RUNNING" (Some plan_1) (Some sample_stats)
             (Some [sample_task 1 1 "FINISHED" "a:8080"; sample_task 1 0 "RUNNING" "b:8080"]) (Some [])]).

Definition with_final (final : bool) (q : QueryInfo) : QueryInfo := {|
  basic := basic q; infoStats := infoStats q; infoSession := infoSession q; outputStage := outputStage q;
  finalQueryInfo := final; warnings := warnings q; failureInfo := failureInfo q; errorCodeNumber := errorCodeNumber q |}.

Definition page_info : QueryInfo := sample_info (Some page_stage).

(** Two answers, then the lists are switched off. *)
Definition before_off : list op := [Refresh 1000 page_info; Refresh 4000 page_info; TaskClick; StageClick].

Definition state_of (r : result State) : State := match r with Ok s => s | Throw _ => initial_state end.
Definition off_state : State := state_of (run before_off initial_state).

Lemma live_snapshots_witness :
  let s := refresh_success 1000 page_info initial_state in
  map (fun t => taskId (taskStatus t)) (shown_tasks s) = ["q.0.0"; "q.1.1"; "q.1.0"] /\ snapshot_stage s = Some page_stage.
Proof.
  cbn zeta. destruct (live_snapshots 1000 page_info initial_state) as [H1 H2].
  split; [rewrite H1 by reflexivity; vm_compute; reflexivity|]. apply H2. reflexivity.
Defined.

Definition clicked (f : State -> result State) (s : State) : State := state_of (f s).

Lemma stage_button_stale_witness :
  let s := state_of (run [Refresh 1000 page_info; StageClick; TaskClick; Refresh 4000 (with_final true page_info)] initial_state) in
  lastSnapshotStage (clicked handleStageRefreshClick (clicked handleStageRefreshClick s)) = Some 0%nat /\
  task_ref (clicked handleTaskRefreshClick (clicked handleTaskRefreshClick s)) = Some 1%nat.
Proof.
  intros s. split; [vm_compute; reflexivity|].
  destruct (stage_button_stale s (clicked handleTaskRefreshClick s)
    (clicked handleTaskRefreshClick (clicked handleTaskRefreshClick s))) as [_ H].
  rewrite H; vm_compute; reflexivity.
Defined.

Lemma page_complete : complete simple_URL page_info (state_of (run [Refresh 1000 page_info] initial_state)).
Proof.
  split; try done.
  - intros [? [=]].
  - intros st [= <-]. apply Forall_forall.
    intros x [->|[->|[]%elem_of_nil]%elem_of_cons]%elem_of_cons; repeat split; eauto.
  - repeat (constructor; [split; [eexists; reflexivity|vm_compute; eauto]|]). constructor.
Qed.

Lemma query_page_witness :
  exists v, render simple_URL (fun _ => local_date 0 0) "/ui/query.html" (fun _ => StageSummary.initial_state) 1000
      (state_of (run [Refresh 1000 page_info] initial_state)) = Ok v /\
    ToggleExpanded "q.1" ∈ clicks v.
Proof.
  destruct (query_page simple_URL (fun _ => local_date 0 0) "/ui/query.html" (fun _ => StageSummary.initial_state) 1000
    page_info _ page_complete) as (v & H1 & H2).
  exists v. split; [exact H1|]. rewrite H2. apply list_elem_of_In. vm_compute. tauto.
Defined.
