(* ===== verification/Rates.v ===== *)
(** * The rates are never negative

    The overview and the query page chart rates: differences of counters over
    the time between two answers.  When the counters grow and the clock moves,
    no value of a chart is negative or NaN; without workers the overview's CPU
    chart becomes NaN and stays so, and the charts of a query that failed at once
    show NaN. *)
From Stdlib Require Import SpecFloat.
From S2P Require Import Prelude JsString JsNumber JsNumberFacts JsRounding JsArray.
From S2P Require Import UtilsQuery UtilsHistory UtilsParse QueryInfo ClusterHUD QueryDetail QueryDetailFacts QueryDetailView.
Local Open Scope Z_scope.

(** A counter as the coordinator reports it: a double that is not negative. *)
Definition counter (x : num) : Prop := is_double x = true /\ is_finite x = true /\ nge x 0 = true.

(** A chart without negative values and without NaN. *)
Definition chart (l : list num) : Prop := Forall (fun x => nge x 0 = true) l.

Lemma chart_slice n l : chart l -> chart (array_slice n l).
Proof. intros H. by apply Forall_drop. Qed.

Lemma chart_add v l : nge v 0 = true -> chart l -> chart (addToHistory v l).
Proof.
  intros Hv Hl. unfold addToHistory. case_if; [|apply chart_slice]; (apply Forall_app; split; [done|by constructor]).
Qed.

Lemma average_nonneg v last : nge v 0 = true -> nge last 0 = true -> nge (movingAverage v last) 0 = true.
Proof.
  intros Hv Hl. unfold movingAverage. case_if; [done|]. apply nonneg_add; apply nonneg_mul; done.
Qed.

Lemma chart_average v l : nge v 0 = true -> chart l -> chart (addExponentiallyWeightedToHistory v l).
Proof.
  intros Hv Hl. unfold addExponentiallyWeightedToHistory. case_if.
  - apply Forall_app. split; [done|by constructor].
  - apply chart_slice, Forall_app. split; [done|]. constructor; [|constructor]. apply average_nonneg; [done|].
    destruct (last l) as [x|] eqn:E; [|destruct l; [done|by apply last_None in E]].
    apply last_Some_elem_of in E. unfold chart in Hl. rewrite Forall_forall in Hl. by apply Hl.
Qed.

(** The difference of a counter that has grown. *)
Lemma counter_grows x y : counter x -> counter y -> nle x y = true -> nge (y - x)%js 0 = true.
Proof. intros (D & F & _) (D' & F' & _) H. by apply nonneg_sub. Qed.

(** Seconds between two readings of the clock. *)
Lemma seconds_positive n : 0 < n < 2 ^ 53 ->
  positive (num_of_Z n / num_of_Z 1000)%js = true /\ positive (num_of_Z n / num_of_Z 1000 * num_of_Z 1000)%js = true.
Proof.
  intros Hn. destruct (int_double n Hn) as (p & e & -> & Hp & He & _).
  destruct (ndiv_int p e 1000 Hp ltac:(lia) ltac:(lia)) as (p1 & e1 & -> & Hp1 & He1 & _).
  change (Z.log2 1000) with 9 in He1.
  destruct (nmul_int p1 e1 1000 Hp1 ltac:(lia) ltac:(lia)) as (p2 & e2 & -> & _). done.
Qed.

(** ** The overview *)

Module ClusterRates.
Import ClusterHUD.

Record measured (c : ClusterStats) : Prop := {
  m_rows : counter (totalInputRows c);
  m_bytes : counter (totalInputBytes c);
  m_cpu : counter (totalCpuTimeSecs c);
  m_workers : positive (cActiveWorkers c) = true
}.

(** The answer [r'] follows [r]: the clock has moved, the counters have not
    gone back. *)
Definition follows (r r' : Z * Z * ClusterStats) : Prop :=
  r.1.2 < r'.1.1 < r.1.2 + 2 ^ 53 /\
  nle (totalInputRows r.2) (totalInputRows r'.2) = true /\
  nle (totalInputBytes r.2) (totalInputBytes r'.2) = true /\
  nle (totalCpuTimeSecs r.2) (totalCpuTimeSecs r'.2) = true.

Definition charts (s : State) : Prop :=
  chart (rowInputRate s) /\ chart (byteInputRate s) /\ chart (perWorkerCpuTimeRate s).

(** The state keeps what the last answer reported. *)
Definition remembers (r : Z * Z * ClusterStats) (s : State) : Prop :=
  lastRefresh s = Some r.1.2 /\ lastInputRows s = Some (totalInputRows r.2) /\
  lastInputBytes s = Some (totalInputBytes r.2) /\ lastCpuTime s = Some (totalCpuTimeSecs r.2).

Lemma remembers_refresh now now' c s : remembers (now, now', c) (refresh_success now now' c s).
Proof. unfold refresh_success. by destruct (new_rates now c s) as [[? ?] ?]. Qed.

Lemma cluster_refresh_charts r now now' c s : remembers r s -> follows r (now, now', c) -> measured r.2 -> measured c ->
  charts s -> charts (refresh_success now now' c s).
Proof.
  intros (E1 & E2 & E3 & E4) (Ht & Hr & Hb & Hc) [] [] (C1 & C2 & C3). cbn in *.
  unfold refresh_success, new_rates. rewrite E1, E2, E3, E4. cbn [num_of_nullable default].
  destruct (seconds_positive (now - r.1.2) ltac:(lia)) as [HP _].
  split_and!; apply chart_average; try done; repeat (apply nonneg_div; [|done]); by apply counter_grows.
Qed.

Lemma refreshes_charts rs : forall r s, remembers r s -> Sorted follows (r :: rs) -> measured r.2 ->
  Forall (fun r => measured r.2) rs -> charts s -> charts (refreshes rs s).
Proof.
  induction rs as [|[[now now'] c] rs IH]; intros r s HR HS HM HA HC; [done|]. cbn.
  apply Sorted_inv in HS as [HS Hh]. inversion Hh; subst. inversion HA; subst.
  apply (IH (now, now', c)); try done; [apply remembers_refresh|]. by eapply cluster_refresh_charts.
Qed.

(** C19: on the overview, when the clock moves between two answers, the counters
    of the coordinator never go back and there are workers, every value of the
    row, byte and CPU charts is at least 0: none is negative and none is NaN,
    after any number of answers. *)
Theorem cluster_rates (rs : list (Z * Z * ClusterStats)) :
  Sorted follows rs -> Forall (fun r => measured r.2) rs -> charts (refreshes rs initial_state).
Proof.
  destruct rs as [|[[now now'] c] rs]; intros HS HA; [by split_and!; constructor|]. inversion HA; subst.
  apply (refreshes_charts rs (now, now', c)); [apply remembers_refresh|done|done|done|]. by split_and!; constructor.
Qed.

Definition example_stats (n workers : Z) : ClusterStats := {|
  cRunningQueries := num_of_Z 1; cBlockedQueries := num_of_Z 0; cQueuedQueries := num_of_Z 0;
  cActiveWorkers := num_of_Z workers; cRunningDrivers := num_of_Z n; cReservedMemory := num_of_Z n;
  totalInputRows := num_of_Z n; totalInputBytes := num_of_Z n; totalCpuTimeSecs := num_of_Z n |}.

Lemma cluster_rates_witness :
  charts (refreshes [(0, 1, example_stats 0 2); (1001, 1002, example_stats 500 2); (2001, 2002, example_stats 500 3)] initial_state).
Proof.
  apply cluster_rates; repeat constructor; vm_compute; done.
Defined.

(** Without workers and without CPU time the quotient is NaN; a NaN in the
    average makes every later average NaN as long as the rate is at least 1. *)
Lemma average_nan v : nlt v 1 = false -> movingAverage v nan = nan.
Proof.
  intros Hv. unfold movingAverage. rewrite Hv. unfold nmul at 2. cbn [SFmul nan]. unfold nadd.
  destruct (v * MOVING_AVERAGE_ALPHA)%js; done.
Qed.

(** Two answers without workers, then one with workers and a busy cluster: the
    chart of the CPU time per worker shows NaN. *)
Theorem no_workers_nan :
  perWorkerCpuTimeRate (refreshes
    [(0, 0, example_stats 0 0); (1000, 1000, example_stats 0 0); (2000, 2000, example_stats 9 1);
     (3000, 3000, example_stats 18 1)] initial_state) = [nan; nan; nan].
Proof. vm_compute. reflexivity. Qed.
End ClusterRates.

(** ** The query page *)

Module QueryRates.
Import QueryDetail.

(** The four counters of an answer; [null] counts as zero. *)
Definition scheduled (q : QueryInfo) : option num := parseDuration (totalScheduledTime (infoStats q)).
Definition cpu (q : QueryInfo) : option num := parseDuration (totalCpuTime (queryStats (basic q))).
Definition rows (q : QueryInfo) : num := processedInputPositions (infoStats q).
Definition bytes (q : QueryInfo) : option num := parseDataSize (processedInputDataSize (infoStats q)).

Definition measured (q : QueryInfo) : Prop :=
  counter (num_of_nullable (scheduled q)) /\ counter (num_of_nullable (cpu q)) /\ counter (rows q) /\
  counter (num_of_nullable (bytes q)).

Definition grows (p q : QueryInfo) : Prop :=
  nle (num_of_nullable (scheduled p)) (num_of_nullable (scheduled q)) = true /\
  nle (num_of_nullable (cpu p)) (num_of_nullable (cpu q)) = true /\ nle (rows p) (rows q) = true /\
  nle (num_of_nullable (bytes p)) (num_of_nullable (bytes q)) = true.

(** The first answer of a query that is not running: the time it has run, as
    the page computes it, is above zero. *)
Definition has_run (now : Z) (q : QueryInfo) : Prop :=
  let secs := elapsedSecsSinceLastRefresh now q initial_state in
  positive secs = true /\ positive (secs * num_of_Z 1000)%js = true.

(** The answers among the events: the clock moves and the counters grow. *)
Fixpoint steady (prev : option (Z * QueryInfo)) (ops : list op) : Prop :=
  match ops with
  | [] => True
  | Refresh now q :: ops' =>
      measured q /\
      match prev with
      | Some (t, p) => 0 <= t < now /\ now < 2 ^ 53 /\ grows p q
      | None => qstate (basic q) = "RUNNING" \/ has_run now q
      end /\ steady (Some (now, q)) ops'
  | _ :: ops' => steady prev ops'
  end.

Definition charts (s : State) : Prop :=
  chart (scheduledTimeRate s) /\ chart (cpuTimeRate s) /\ chart (rowInputRate s) /\ chart (byteInputRate s).

(** What the state keeps of the last answer. *)
Definition memory (s : State) : option Z * option num * option num * num * option num :=
  (lastRefresh s, lastScheduledTime s, lastCpuTime s, lastRowInput s, lastByteInput s).

Definition remembered (prev : option (Z * QueryInfo)) : option Z * option num * option num * num * option num :=
  match prev with
  | Some (t, p) => (Some t, scheduled p, cpu p, rows p, bytes p)
  | None => memory initial_state
  end.

Definition previously (prev : option (Z * QueryInfo)) : Prop := match prev with Some (_, p) => measured p | None => True end.

Lemma exec_frame o s s' : exec o s = Ok s' ->
  match o with
  | Refresh now q => s' = refresh_success now q s
  | _ => memory s' = memory s /\ (charts s -> charts s')
  end.
Proof.
  destruct o as [now q| | | |f|now now'|id]; cbn.
  - by intros [= <-].
  - by intros [= <-].
  - unfold handleTaskRefreshClick. case_if; [destruct (query s); [|done]|]; by intros [= <-].
  - unfold handleStageRefreshClick. case_if; [destruct (query s); [|done]|]; by intros [= <-].
  - by intros [= <-].
  - destruct (page_update_frame now now' s) as [t ->]. by intros [= <-].
  - unfold stage_updated. intros [= <-]. by destruct (lastSnapshotStage s).
Qed.

Lemma zero_counter : counter (num_of_Z 0).
Proof. done. Qed.

(** The samples of an answer. *)
Lemma query_refresh_charts prev now q s : memory s = remembered prev -> previously prev -> steady prev [Refresh now q] -> charts s ->
  memory (refresh_success now q s) = remembered (Some (now, q)) /\ charts (refresh_success now q s).
Proof.
  intros HM HP (Hq & Ht & _) HC. unfold refresh_success, set_query. destruct (received q s) as [r o].
  destruct (ended s || _) eqn:Ee; [done|]. apply orb_false_elim in Ee as [_ Ee].
  destruct (nge (elapsedSecsSinceLastRefresh now q s) 0); [|done]. split; [done|].
  assert (let secs := elapsedSecsSinceLastRefresh now q s in
    positive secs = true /\ positive (secs * num_of_Z 1000)%js = true) as [HS HS'].
  { destruct prev as [[t p]|]; injection HM; intros _ _ _ _ Er; unfold elapsedSecsSinceLastRefresh.
    - rewrite Er. rewrite nsub_int by (unfold small; lia). apply seconds_positive. lia.
    - destruct Ht as [Ht|Ht]; [by rewrite Er, Ht in Ee|]. rewrite Er. exact Ht. }
  assert (nge (num_of_nullable (scheduled q) - num_of_nullable (lastScheduledTime s))%js 0 = true /\
    nge (num_of_nullable (cpu q) - num_of_nullable (lastCpuTime s))%js 0 = true /\
    nge (rows q - lastRowInput s)%js 0 = true /\
    nge (num_of_nullable (bytes q) - num_of_nullable (lastByteInput s))%js 0 = true) as (D1 & D2 & D3 & D4).
  { destruct Hq as (Q1 & Q2 & Q3 & Q4), prev as [[t p]|]; injection HM; intros -> -> -> -> _.
    - destruct HP as (P1 & P2 & P3 & P4), Ht as (_ & _ & G1 & G2 & G3 & G4). split_and!; by apply counter_grows.
    - split_and!; apply counter_grows; try done; [apply Q1|apply Q2|apply Q3|apply Q4]. }
  destruct HC as (C1 & C2 & C3 & C4).
  split_and!; (apply chart_add; [|done]); by apply nonneg_div.
Qed.

Lemma run_charts ops : forall prev s s', memory s = remembered prev -> previously prev -> steady prev ops -> charts s ->
  run ops s = Ok s' -> charts s'.
Proof.
  induction ops as [|o ops IH]; intros prev s s' HM HP HS HC; [by intros [= <-]|]. unfold run. cbn [foldM].
  destruct (exec o s) as [s1|] eqn:E; [|done]. apply exec_frame in E. fold (run ops s1).
  destruct o as [now q| | | |f|now now'|id].
  2-7: destruct E as [E1 E2]; by apply (IH prev); [rewrite E1| | |apply E2].
  cbn [steady] in HS. destruct HS as (Hq & Ht & HS). subst s1.
  destruct (query_refresh_charts prev now q s HM HP (conj Hq (conj Ht I)) HC) as [HM' HC'].
  by apply (IH (Some (now, q))).
Qed.

(** C20: on the query page, when the first answer is that of a running query, or
    of one whose elapsed time, as the page computes it, is above zero, and from
    then on the clock moves between two answers and the counters of the query
    never go back, every value of the charts of scheduled
    time, CPU time, rows and bytes is at least 0: none is negative and none is
    NaN, whatever errors, clicks and updates come between the answers. *)
Theorem query_rates (ops : list op) (s : State) :
  steady None ops -> run ops initial_state = Ok s -> charts s.
Proof.
  intros HS HR. apply (run_charts ops None initial_state s); try done. by split_and!; constructor.
Qed.

(** A query whose counters are all zero and that ended at once. *)
Definition idle (q : QueryInfo) : Prop :=
  qstate (basic q) <> "RUNNING" /\ parseDuration (elapsedTime (queryStats (basic q))) = Some (num_of_Z 0) /\
  scheduled q = Some (num_of_Z 0) /\ cpu q = Some (num_of_Z 0) /\ rows q = num_of_Z 0 /\ bytes q = Some (num_of_Z 0).

(** the charts of a query that failed at once show NaN: its elapsed time is
    zero and so is every counter, and the page divides the one by the other. *)
Theorem immediate_failure_nan (now : Z) (q : QueryInfo) :
  0 <= now < 2 ^ 53 -> idle q ->
  let s := refresh_success now q initial_state in
  scheduledTimeRate s = [nan] /\ cpuTimeRate s = [nan] /\ rowInputRate s = [nan] /\ byteInputRate s = [nan].
Proof.
  intros Hn (H1 & H2 & H3 & H4 & H5 & H6). cbn zeta. unfold refresh_success.
  assert (elapsedSecsSinceLastRefresh now q initial_state = num_of_Z 0) as ->.
  { unfold elapsedSecsSinceLastRefresh. rewrite H2. change (num_of_nullable (Some (num_of_Z 0))) with (num_of_Z 0). cbn [lastRefresh initial_state].
    rewrite (nsub_int now 0), Z.sub_0_r, nsub_int, Z.sub_diag by (unfold small; lia). reflexivity. }
  unfold scheduled, cpu, rows, bytes in *. rewrite H3, H4, H5, H6. apply String.eqb_neq in H1. rewrite H1.
  unfold set_query. destruct (received q initial_state) as [r o]. vm_compute. done.
Qed.

(** A query that was rejected, as the coordinator reports it. *)
Definition rejected_info : QueryInfo :=
  let q := LivePlanFacts.sample_info None in
  let b := basic q in {|
  basic := {| queryId := queryId b; session := session b; resourceGroupId := resourceGroupId b; qstate := "FAILED";
    memoryPool := memoryPool b; UtilsQuery.scheduled := UtilsQuery.scheduled b; UtilsQuery.query := UtilsQuery.query b;
    queryStats := {| createTime := createTime (queryStats b); elapsedTime := "0.00ms"; executionTime := "0.00ms";
      totalCpuTime := "0.00ms"; cumulativeUserMemory := num_of_Z 0; userMemoryReservation := "0B";
      peakUserMemoryReservation := "0B"; totalDrivers := num_of_Z 0; queuedDrivers := num_of_Z 0;
      runningDrivers := num_of_Z 0; completedDrivers := num_of_Z 0; progressPercentage := None; fullyBlocked := false;
      blockedReasons := Some [] |};
    errorType := Some "USER_ERROR"; errorCode := Some "SYNTAX_ERROR" |};
  infoStats := {| endTime := None; queuedTime := "0.00ms"; totalScheduledTime := "0.00ms"; totalBlockedTime := "0.00ms";
    processedInputPositions := num_of_Z 0; processedInputDataSize := "0B"; rawInputPositions := num_of_Z 0;
    rawInputDataSize := "0B"; peakTotalMemoryReservation := "0B"; qOutputPositions := num_of_Z 0;
    qOutputDataSize := "0B"; writtenPositions := num_of_Z 0; logicalWrittenDataSize := "0B";
    physicalWrittenDataSize := "0B"; spilledDataSize := "0B" |};
  infoSession := infoSession q; outputStage := None; finalQueryInfo := true; warnings := [];
  failureInfo := failureInfo q; errorCodeNumber := num_of_Z 1 |}.

Lemma immediate_failure_nan_witness :
  rowInputRate (refresh_success 1570000000000 rejected_info initial_state) = [nan].
Proof.
  apply (immediate_failure_nan 1570000000000 rejected_info); [lia|]. split_and!; [done|vm_compute; reflexivity..].
Defined.

Lemma query_rates_witness :
  charts (state_of (run [Refresh 1000 page_info; TaskClick; Refresh 4000 page_info] initial_state)).
Proof.
  apply (query_rates [Refresh 1000 page_info; TaskClick; Refresh 4000 page_info]); [|reflexivity].
  cbn [steady]. split_and!; try (vm_compute; done). left. reflexivity.
Defined.
End QueryRates.
