(* ===== verification/QueryHistories.v ===== *)
(** * The charts of the query page, sample by sample

    A reference for the five histories of the page, computed from the answers
    alone, and that the page keeps the window of its last samples whatever
    errors, clicks and updates come between the answers. *)
From S2P Require Import Prelude JsString JsNumber JsNumberFacts JsArray.
From S2P Require Import UtilsQuery UtilsHistory UtilsParse QueryInfo QueryDetail QueryDetailFacts QueryDetailView Rates.
Import QueryDetail QueryRates.
Local Open Scope Z_scope.

(** An answer with the clock when it came. *)
Definition answer : Type := Z * QueryInfo.

Record Sample := {
  sScheduled : num;
  sCpu : num;
  sRows : num;
  sBytes : num;
  sMemory : option num
}.

(** ** The reference *)

(** A counter before the first answer is zero. *)
Definition before {A} (zero : A) (f : QueryInfo -> A) (prev : option answer) : A :=
  match prev with Some (_, p) => f p | None => zero end.

(** Seconds since the last answer; the first answer covers the time the query
    has run. *)
Definition period (prev : option answer) (now : Z) (q : QueryInfo) : num :=
  match prev with
  | Some (t, _) => ((num_of_Z now - num_of_Z t) / num_of_Z 1000)%js
  | None =>
      ((num_of_Z now - (num_of_Z now - num_of_nullable (parseDuration (elapsedTime (queryStats (basic q))))))
       / num_of_Z 1000)%js
  end.

(** The growth of a counter that may be [null]. *)
Definition growth (f : QueryInfo -> option num) (prev : option answer) (q : QueryInfo) : num :=
  (num_of_nullable (f q) - num_of_nullable (before (Some (num_of_Z 0)) f prev))%js.

Definition sample (prev : option answer) (now : Z) (q : QueryInfo) : Sample :=
  let secs := period prev now q in {|
  sScheduled := (growth scheduled prev q / (secs * num_of_Z 1000))%js;
  sCpu := (growth cpu prev q / (secs * num_of_Z 1000))%js;
  sRows := ((rows q - before (num_of_Z 0) rows prev) / secs)%js;
  sBytes := (growth bytes prev q / secs)%js;
  sMemory := parseDataSize (userMemoryReservation (queryStats (basic q))) |}.

(** An answer gives a sample unless the query was over before it, or it is the
    first one and the query runs, or the clock has gone back. *)
Definition sampled (prev : option answer) (now : Z) (q : QueryInfo) : bool :=
  match prev with
  | Some (_, p) => negb (finalQueryInfo p)
  | None => negb (String.eqb (qstate (basic q)) "RUNNING")
  end && nge (period prev now q) 0.

Fixpoint samples (prev : option answer) (l : list answer) : list Sample :=
  match l with
  | [] => []
  | (now, q) :: l' =>
      (if sampled prev now q then [sample prev now q] else []) ++ samples (Some (now, q)) l'
  end.

(** The answers among the events of a run. *)
Definition answers (ops : list op) : list answer :=
  omap (fun o => match o with Refresh now q => Some (now, q) | _ => None end) ops.

Lemma samples_bound prev l : (length (samples prev l) <= length l)%nat.
Proof.
  revert prev. induction l as [|[now q] l IH]; intros prev; [done|]. cbn [samples]. rewrite length_app.
  specialize (IH (Some (now, q))). destruct (sampled prev now q); cbn [length] in *; lia.
Qed.

(** ** The page follows it *)

(** The five histories hold the window of these samples. *)
Record histories (l : list Sample) (s : State) : Prop := {
  h_scheduled : scheduledTimeRate s = last_n WINDOW (map sScheduled l);
  h_cpu : cpuTimeRate s = last_n WINDOW (map sCpu l);
  h_rows : rowInputRate s = last_n WINDOW (map sRows l);
  h_bytes : byteInputRate s = last_n WINDOW (map sBytes l);
  h_memory : reservedMemory s = last_n WINDOW (map sMemory l)
}.

(** What the page knows of the last answer. *)
Definition knows (prev : option answer) (s : State) : Prop :=
  memory s = remembered prev /\ ended s = match prev with Some (_, p) => finalQueryInfo p | None => false end.

Lemma histories_snoc l x sch c r b m s :
  histories l s -> x = Build_Sample sch c r b m -> histories (l ++ [x]) (set_histories sch c r b m s).
Proof.
  intros [] ->. split; cbn [scheduledTimeRate cpuTimeRate rowInputRate byteInputRate reservedMemory set_histories].
  - by apply (addToHistory_snoc sScheduled l (Build_Sample sch c r b m)).
  - by apply (addToHistory_snoc sCpu l (Build_Sample sch c r b m)).
  - by apply (addToHistory_snoc sRows l (Build_Sample sch c r b m)).
  - by apply (addToHistory_snoc sBytes l (Build_Sample sch c r b m)).
  - by apply (addToHistory_snoc sMemory l (Build_Sample sch c r b m)).
Qed.

Lemma set_query_frame now q s l : histories l s -> histories l (set_query now q s) /\ knows (Some (now, q)) (set_query now q s).
Proof. intros []. unfold set_query. by destruct (received q s). Qed.

Lemma knows_refresh prev s : knows prev s -> lastRefresh s = fst <$> prev.
Proof. intros [E _]. destruct prev as [[t p]|]; by injection E. Qed.

Lemma period_elapsed prev now q s : knows prev s -> elapsedSecsSinceLastRefresh now q s = period prev now q.
Proof. intros E%knows_refresh. unfold elapsedSecsSinceLastRefresh. rewrite E. by destruct prev as [[t p]|]. Qed.

Lemma sampled_iff prev now q s : knows prev s ->
  sampled prev now q =
  negb (ended s || (match lastRefresh s with None => true | Some _ => false end && String.eqb (qstate (basic q)) "RUNNING"))
  && nge (period prev now q) 0.
Proof.
  intros HK. rewrite (knows_refresh _ _ HK). destruct HK as [_ ->]. unfold sampled. destruct prev as [[t p]|]; [|done]. cbn.
  by rewrite orb_false_r.
Qed.

Lemma refresh_samples prev now q s l : knows prev s -> histories l s ->
  knows (Some (now, q)) (refresh_success now q s) /\
  histories (l ++ if sampled prev now q then [sample prev now q] else []) (refresh_success now q s).
Proof.
  intros HK HH. destruct (set_query_frame now q s l HH) as [H1 H2].
  rewrite (sampled_iff prev now q s HK). unfold refresh_success. rewrite (period_elapsed prev now q s HK).
  destruct (ended s || _); cbn [negb andb]; [by rewrite app_nil_r|].
  destruct (nge (period prev now q) 0); [|by rewrite app_nil_r].
  split; [exact H2|]. apply histories_snoc; [done|].
  destruct HK as [HM _]. destruct prev as [[t p]|]; by injection HM as _ -> -> -> ->.
Qed.

(** Every other event leaves the histories and the last answer alone. *)
Lemma exec_other o s s' : exec o s = Ok s' ->
  match o with
  | Refresh now q => s' = refresh_success now q s
  | _ => forall prev l, knows prev s -> histories l s -> knows prev s' /\ histories l s'
  end.
Proof.
  destruct o as [now q| | | |f|now now'|id]; cbn.
  - by intros [= <-].
  - by intros [= <-] ? ? ? [].
  - unfold handleTaskRefreshClick. case_if; [destruct (query s); [|done]|]; by intros [= <-] ? ? ? [].
  - unfold handleStageRefreshClick. case_if; [destruct (query s); [|done]|]; by intros [= <-] ? ? ? [].
  - by intros [= <-] ? ? ? [].
  - destruct (page_update_frame now now' s) as [t ->]. by intros [= <-] ? ? ? [].
  - unfold stage_updated. intros [= <-] ? ? ? []. by destruct (lastSnapshotStage s).
Qed.

Lemma run_samples ops : forall prev l s s', knows prev s -> histories l s -> run ops s = Ok s' ->
  histories (l ++ samples prev (answers ops)) s'.
Proof.
  induction ops as [|o ops IH]; intros prev l s s' HK HH; unfold run; cbn [foldM].
  { intros [= <-]. by rewrite app_nil_r. }
  destruct (exec o s) as [s1|] eqn:E; [|done]. apply exec_other in E. fold (run ops s1).
  destruct o as [now q| | | |f|now now'|id].
  2-7: destruct (E prev l HK HH); by apply IH.
  subst s1. destruct (refresh_samples prev now q s l HK HH) as [K H]. cbn [answers omap list_omap samples].
  rewrite app_assoc. by apply IH.
Qed.

(** ** Property *)

(** C22: the five charts of the query page are exactly what a reference computes
    from the answers: after any sequence of answers, errors, clicks and updates
    that does not throw, each history is the window of the last 301 samples,
    oldest first; a sample is the growth of the counters since the previous
    answer (from zero, for the first one) over the time between the two (the
    time the query has run, for the first one); there is none after the end, on
    the first answer of a running query, or when the clock has gone back, so
    there are never more samples than answers. *)
Theorem query_histories (ops : list op) (s : State) :
  run ops initial_state = Ok s ->
  histories (samples None (answers ops)) s /\ (length (samples None (answers ops)) <= length (answers ops))%nat.
Proof.
  intros HR. split; [|apply samples_bound].
  apply (run_samples ops None [] initial_state s); [done|by split|done].
Qed.

Lemma query_histories_witness :
  histories (samples None (answers before_off)) off_state /\
  (length (samples None (answers before_off)) <= length (answers before_off))%nat.
Proof. apply query_histories. vm_compute. reflexivity. Defined.
