(* ===== verification/ChartUpdates.v ===== *)
(** * When the charts of the query page are drawn

    The success callback of the query page calls [setState] twice: with the
    answer, and with the histories.  React runs [componentDidUpdate] inside each
    of them, and again inside the [setState] of [componentDidUpdate] itself; the
    charts are drawn when the last drawing is a second old.  The first of these
    updates comes before the new samples and the others come within a second of
    it, so the charts are always one answer behind the numbers. *)
From S2P Require Import Prelude JsString JsNumber JsArray Html Sparkline.
From S2P Require Import UtilsQuery UtilsHistory UtilsParse QueryInfo QueryDetail QueryDetailFacts QueryDetailView Rates QueryHistories.
Import Sparkline QueryDetail QueryRates.
Local Open Scope Z_scope.

(** ** The two updates of an answer *)

(** The second [setState] of the success callback, if there is one: what it
    does to the state it finds.  The counters are those from before the answer. *)
Definition second_update (nowMillis : Z) (q : QueryInfo) (s : State) : option (State -> State) :=
  if ended s || (match lastRefresh s with None => true | Some _ => false end
                 && String.eqb (qstate (basic q)) "RUNNING")
  then None
  else
    let secs := elapsedSecsSinceLastRefresh nowMillis q s in
    if nge secs 0 then
      let since (x last : option num) := (num_of_nullable x - num_of_nullable last)%js in
      Some (set_histories
        (since (parseDuration (totalScheduledTime (infoStats q))) (lastScheduledTime s) / (secs * num_of_Z 1000))%js
        (since (parseDuration (totalCpuTime (queryStats (basic q)))) (lastCpuTime s) / (secs * num_of_Z 1000))%js
        ((processedInputPositions (infoStats q) - lastRowInput s) / secs)%js
        (since (parseDataSize (processedInputDataSize (infoStats q))) (lastByteInput s) / secs)%js
        (parseDataSize (userMemoryReservation (queryStats (basic q)))))
    else None.

Lemma refresh_updates now q s :
  refresh_success now q s = match second_update now q s with Some f => f (set_query now q s) | None => set_query now q s end.
Proof. unfold refresh_success, second_update. case_if; [done|]. by destruct (nge _ 0). Qed.

(** Updates of the component, each with its two readings of the clock: the state
    and the drawings. *)
Fixpoint updates (rs : list (Z * Z)) (s : State) : State * list (list Chart) :=
  match rs with
  | [] => (s, [])
  | (t, t') :: rs' =>
      let '(s1, charts, _) := componentDidUpdate t t' s in
      let '(s2, drawings) := updates rs' s1 in
      (s2, match charts with [] => drawings | _ => charts :: drawings end)
  end.

(** An answer: when it came, what it was, the readings of the clock of the update
    of the first [setState], those of the updates that follow it, and those of
    the updates after the second one. *)
Record tick := {
  t_now : Z;
  t_query : QueryInfo;
  t_first : Z * Z;
  t_nested : list (Z * Z);
  t_second : list (Z * Z)
}.

Definition answered (x : tick) (s : State) : State * list (list Chart) :=
  let '(s1, d1) := updates (t_first x :: t_nested x) (set_query (t_now x) (t_query x) s) in
  let s2 := match second_update (t_now x) (t_query x) s with Some f => f s1 | None => s1 end in
  let '(s3, d2) := updates (t_second x) s2 in
  (s3, d1 ++ d2).

Definition all_answered (xs : list tick) (s : State) : State * list (list Chart) :=
  fold_left (fun '(s, d) x => let '(s', d') := answered x s in (s', d ++ d')) xs (s, []).

(** An answer comes at least a second after the last drawing and its updates take
    less than a second. *)
Definition timely (previous : option Z) (x : tick) : Prop :=
  (forall t, previous = Some t -> t + 1000 <= (t_first x).1) /\
  Forall (fun r => r.1 < (t_first x).2 + 1000) (t_nested x ++ t_second x).

Fixpoint paced (previous : option Z) (xs : list tick) : Prop :=
  match xs with
  | [] => True
  | x :: xs' => timely previous x /\ paced (Some (t_first x).2) xs'
  end.

Definition answers_of (xs : list tick) : list answer := map (fun x => (t_now x, t_query x)) xs.

(** ** One answer *)

Lemma updates_quiet rs s t : lastRender s = Some t -> Forall (fun r => r.1 < t + 1000) rs -> updates rs s = (s, []).
Proof.
  intros Hs. induction 1 as [|[u u'] rs Hu _ IH]; [done|]. cbn [updates]. cbn in Hu. unfold componentDidUpdate.
  rewrite Hs. rewrite (proj2 (Z.leb_gt _ _)) by lia. by rewrite IH.
Qed.

(** The first update draws. *)
Lemma updates_first t t' rs s : (forall u, lastRender s = Some u -> u + 1000 <= t) -> Forall (fun r => r.1 < t' + 1000) rs ->
  updates ((t, t') :: rs) s = (with_render (Some t') (store s) s, [draw s]).
Proof.
  intros Hs Hr. cbn [updates]. unfold componentDidUpdate.
  assert ((match lastRender s with None => true | Some u => 1000 <=? t - u end) = true) as ->.
  { destruct (lastRender s) as [u|]; [|done]. specialize (Hs u eq_refl). apply Z.leb_le. lia. }
  by rewrite (updates_quiet rs _ t').
Qed.

(** One drawing, of the charts from before the answer. *)
Lemma answered_timely x s : timely (lastRender s) x ->
  exists objects, answered x s = (with_render (Some (t_first x).2) objects (refresh_success (t_now x) (t_query x) s), [draw s]).
Proof.
  intros [Hf Hr]. apply Forall_app in Hr as [H1 H2]. destruct x as [now q [t t'] nested second]. cbn in *.
  unfold answered. cbn [t_first t_nested t_second t_now t_query].
  rewrite updates_first; [|unfold set_query; by destruct (received q s)|done].
  assert (draw (set_query now q s) = draw s) as -> by (unfold set_query; by destruct (received q s)).
  rewrite refresh_updates. unfold second_update.
  case_if; [|destruct (nge _ 0)]; (rewrite (updates_quiet second _ t'); [by eexists|done|done]).
Qed.

(** ** All answers *)

(** The charts of given samples. *)
Definition charts_of (l : list Sample) : list (list (option num)) :=
  [map Some (last_n WINDOW (map sScheduled l)); map Some (last_n WINDOW (map sCpu l));
   map Some (last_n WINDOW (map sRows l)); map Some (last_n WINDOW (map sBytes l)); last_n WINDOW (map sMemory l)].

Lemma draw_samples l s : histories l s -> map values (draw s) = charts_of l.
Proof. intros []. unfold draw, charts_of. cbn [map values sparkline]. by rewrite h_scheduled, h_cpu, h_rows, h_bytes, h_memory. Qed.

(** The samples of the answers before each answer. *)
Fixpoint earlier (prev : option answer) (l : list Sample) (xs : list answer) : list (list Sample) :=
  match xs with
  | [] => []
  | (now, q) :: xs' =>
      l :: earlier (Some (now, q)) (l ++ if sampled prev now q then [sample prev now q] else []) xs'
  end.

Lemma all_answered_cons x xs s : all_answered (x :: xs) s =
  let '(s1, d1) := answered x s in let '(s2, d2) := all_answered xs s1 in (s2, d1 ++ d2).
Proof.
  unfold all_answered. cbn [fold_left]. destruct (answered x s) as [s1 d1]. cbn [app].
  assert (forall ys s d, fold_left (fun '(s, d) x => let '(s', d') := answered x s in (s', d ++ d')) ys (s, d)
    = let '(s', d') := fold_left (fun '(s, d) x => let '(s', d') := answered x s in (s', d ++ d')) ys (s, []) in (s', d ++ d')) as H.
  { induction ys as [|y ys IH]; intros s0 d; cbn [fold_left]; [by rewrite app_nil_r|].
    destruct (answered y s0) as [s2 d2]. rewrite IH, (IH s2 ([] ++ d2)). cbn [app].
    destruct (fold_left _ ys (s2, [])) as [s3 d3]. by rewrite app_assoc. }
  rewrite H. by destruct (fold_left _ xs (s1, [])) as [s2 d2].
Qed.

Lemma paced_drawings xs : forall prev l s, paced (lastRender s) xs -> knows prev s -> histories l s ->
  let '(s', drawings) := all_answered xs s in
  map (map values) drawings = map charts_of (earlier prev l (answers_of xs)) /\
  histories (l ++ samples prev (answers_of xs)) s'.
Proof.
  induction xs as [|x xs IH]; intros prev l s HP HK HH.
  { cbn. by rewrite app_nil_r. }
  destruct HP as [Ht HP]. rewrite all_answered_cons. destruct (answered_timely x s Ht) as [objects ->].
  destruct (refresh_samples prev (t_now x) (t_query x) s l HK HH) as [K H].
  specialize (IH (Some (t_now x, t_query x)) (l ++ if sampled prev (t_now x) (t_query x) then [sample prev (t_now x) (t_query x)] else [])
    (with_render (Some (t_first x).2) objects (refresh_success (t_now x) (t_query x) s)) HP K).
  destruct (all_answered xs _) as [s' d]. destruct IH as [I1 I2]; [by destruct H|].
  cbn [answers_of map earlier samples app]. rewrite I1, (draw_samples l s HH), app_assoc. done.
Qed.

Lemma earlier_prefixes l : forall prev acc,
  earlier prev acc l = map (fun k => acc ++ samples prev (take k l)) (seq 0 (length l)).
Proof.
  induction l as [|[now q] l IH]; intros prev acc; [done|]. cbn [earlier length seq map take samples].
  rewrite app_nil_r. f_equal. rewrite IH, <- seq_shift, map_map. apply map_ext. intros k.
  cbn [take samples]. by rewrite app_assoc.
Qed.

(** ** Property *)

(** C24: the charts of the query page are one answer behind.  When the answers come
    at least a second after the last drawing and each is processed within a
    second, every answer draws the charts once, and with the samples of the
    answers before it, although the state then holds its own sample too.  So the
    charts of a query that had finished when the page was opened, which is asked
    for once, are drawn empty. *)
Theorem charts_behind (xs : list tick) :
  paced None xs ->
  let '(s, drawings) := all_answered xs initial_state in
  map (map values) drawings = map (fun k => charts_of (samples None (take k (answers_of xs)))) (seq 0 (length xs)) /\
  histories (samples None (answers_of xs)) s.
Proof.
  intros HP. pose proof (paced_drawings xs None [] initial_state HP ltac:(done) ltac:(by split)) as H.
  destruct (all_answered xs initial_state) as [s d]. destruct H as [H1 H2]. split; [|exact H2].
  rewrite H1, earlier_prefixes, map_map. unfold answers_of at 2. by rewrite length_map.
Qed.

(** Two answers of a running query, three seconds apart. *)
Definition example_ticks : list tick :=
  [{| t_now := 1000; t_query := page_info; t_first := (1001, 1001); t_nested := [(1002, 1002)]; t_second := [] |};
   {| t_now := 4000; t_query := page_info; t_first := (4001, 4001); t_nested := [(4002, 4002)]; t_second := [(4003, 4003)] |}].

Lemma charts_behind_witness :
  let '(s, drawings) := all_answered example_ticks initial_state in
  map (map (@length (option num))) (map (map values) drawings) = [[0; 0; 0; 0; 0]; [0; 0; 0; 0; 0]]%nat /\
  length (scheduledTimeRate s) = 1%nat.
Proof.
  pose proof (charts_behind example_ticks ltac:(cbn; repeat first [split|constructor]; cbn; try lia; intros ? [= <-]; lia)) as H.
  destruct (all_answered example_ticks initial_state) as [s d]. destruct H as [-> [-> _ _ _ _]]. split; vm_compute; reflexivity.
Defined.

(** ** The text of the query is highlighted once *)

(** Whether the page has been drawn. *)
Definition drawn (s : State) : Prop := is_Some (lastRender s).

Lemma drawn_exec o s s' : drawn s -> exec o s = Ok s' -> drawn s'.
Proof.
  intros HD. destruct o as [now q| | | |f|now now'|id]; cbn.
  - intros [= <-]. unfold refresh_success, set_query. destruct (received q s). repeat case_if; done.
  - by intros [= <-].
  - unfold handleTaskRefreshClick. case_if; [destruct (query s); [|done]|]; by intros [= <-].
  - unfold handleStageRefreshClick. case_if; [destruct (query s); [|done]|]; by intros [= <-].
  - by intros [= <-].
  - destruct HD as [x Hx]. unfold componentDidUpdate. rewrite Hx. case_if; intros [= <-]; by eexists.
  - unfold stage_updated. intros [= <-]. by destruct (lastSnapshotStage s).
Qed.

(** After the first update of the page no update highlights the text of the
    query, also when that update followed a failed request and the page had no
    query to show. *)
Theorem highlight_once (ops : list op) (s : State) (t t' u u' : Z) :
  run (RefreshError :: PageUpdate t t' :: ops) initial_state = Ok s -> (componentDidUpdate u u' s).2 = false.
Proof.
  intros HR. assert (drawn s) as [x Hx].
  { unfold run in HR. cbn [foldM exec] in HR.
    refine (trace_inv drawn ops _ s (fun o a b _ => drawn_exec o a b) _ HR). by eexists. }
  unfold componentDidUpdate. rewrite Hx. by case_if.
Qed.
