(* ===== verification/Selectors.v ===== *)
(** * Elements that scripts look up

    The charts are drawn on elements found by their ids, and the copy buttons
    copy the text of the element their target selects: the first one of the
    document with that id.  The ids of the pages and of their parts, that they
    are unique where the scripts rely on it, and what the buttons copy. *)
From S2P Require Import Prelude JsString JsNumber JsNumberFacts JsArray JsObject JsDate Html Sparkline.
From S2P Require Import UtilsQuery UtilsText QueryInfo QueryHeader StageDetail StackTrace TaskList TaskListFacts.
From S2P Require Import StageSummary StageSummaryFacts QueryDetail QueryDetailFacts QueryDetailView ClusterHUD WorkerStatus WorkerThreadList.
Import Sparkline.
Local Open Scope Z_scope.

(** ** Selecting by id *)

Abbreviation ids v := (attr_values "id" v).

(** The text of an element. *)
Definition text_content {E} (v : vnode E) : string := String.concat "" (texts v).

(** The elements with an id, in document order: the id and the text. *)
Fixpoint targets {E} (v : vnode E) : list (string * string) :=
  match v with
  | Txt _ => []
  | Elem tag attrs children =>
      map (fun i => (i, text_content v)) (flat_map (attr_value "id") attrs) ++ flat_map targets children
  | Frag children => flat_map targets children
  end.

(** The texts of the elements that [#id] selects. *)
Definition select {E} (selector : string) (v : vnode E) : list string :=
  map snd (filterb (fun t => String.eqb selector ("#" +:+ t.1)) (targets v)).

(** What the button with this [data-clipboard-target] copies: the text of the
    first element that is selected. *)
Definition copied {E} (target : string) (v : vnode E) : option string := head (select target v).

Abbreviation copy_targets v := (attr_values "data-clipboard-target" v).

Lemma targets_ids {E} (v : vnode E) : map fst (targets v) = ids v.
Proof.
  assert (forall cs, Forall (fun v : vnode E => map fst (targets v) = attr_values "id" v) cs ->
    map fst (flat_map targets cs) = flat_map (attr_values "id") cs) as HF.
  { induction 1 as [|c cs Hc _ IH]; [done|]. cbn. by rewrite map_app, Hc, IH. }
  induction v as [s|tag attrs cs IH|cs IH] using vnode_tree_ind; cbn [targets attr_values]; [done| |by apply HF].
  rewrite map_app, HF by done. f_equal. rewrite map_map. apply map_id.
Qed.

Lemma select_absent i (l : list (string * string)) : i ∉ map fst l ->
  filterb (fun t => String.eqb ("#" +:+ i) ("#" +:+ t.1)) l = [].
Proof.
  induction l as [|[k w] l IH]; [done|]. cbn [map fst filterb]. intros [Hne Hj]%not_elem_of_cons.
  destruct (String.eqb_spec ("#" +:+ i) ("#" +:+ k)) as [E1|_]; [|by apply IH]. injection E1 as ->. done.
Qed.

(** A page whose ids are all different: a selector finds the element. *)
Lemma select_unique {E} (v : vnode E) i t : NoDup (ids v) -> (i, t) ∈ targets v -> select ("#" +:+ i) v = [t].
Proof.
  rewrite <- targets_ids. unfold select. induction (targets v) as [|[j u] l IH]; [by intros _ ?%elem_of_nil|].
  cbn [map fst filterb]. intros [Hj HN]%NoDup_cons [[= -> ->]|Hin]%elem_of_cons.
  - rewrite String.eqb_refl. cbn [map snd]. by rewrite select_absent.
  - destruct (String.eqb_spec ("#" +:+ i) ("#" +:+ j)) as [E1|_]; [|by apply IH]. injection E1 as ->.
    exfalso. apply Hj. change j with (fst (j, t)). by apply list_elem_of_fmap_2.
Qed.

Lemma texts_vmap {E F} (f : E -> F) v : texts (vmap f v) = texts v.
Proof.
  assert (forall cs, Forall (fun v : vnode E => texts (vmap f v) = texts v) cs ->
    flat_map texts (map (vmap f) cs) = flat_map texts cs) as HF.
  { induction 1 as [|c cs Hc _ IH]; [done|]. cbn. by rewrite Hc, IH. }
  induction v as [s|tag attrs cs IH|cs IH] using vnode_tree_ind; cbn [vmap texts]; [done| |]; by apply HF.
Qed.

Lemma attr_values_vmap {E F} (f : E -> F) n v : attr_values n (vmap f v) = attr_values n v.
Proof.
  assert (forall attrs : list (attr E), flat_map (attr_value n) (map (attr_map f) attrs) = flat_map (attr_value n) attrs) as HA.
  { induction attrs as [|a attrs IH]; [done|]. cbn. rewrite IH. by destruct a. }
  assert (forall cs, Forall (fun v : vnode E => attr_values n (vmap f v) = attr_values n v) cs ->
    flat_map (attr_values n) (map (vmap f) cs) = flat_map (attr_values n) cs) as HF.
  { induction 1 as [|c cs Hc _ IH]; [done|]. cbn. by rewrite Hc, IH. }
  induction v as [s|tag attrs cs IH|cs IH] using vnode_tree_ind; cbn [vmap attr_values]; [done| |by apply HF].
  by rewrite HA, HF.
Qed.

Lemma targets_vmap {E F} (f : E -> F) v : targets (vmap f v) = targets v.
Proof.
  assert (forall attrs : list (attr E),
    flat_map (attr_value "id") (map (attr_map f) attrs) = flat_map (attr_value "id") attrs) as HA.
  { induction attrs as [|a attrs IH]; [done|]. cbn. rewrite IH. by destruct a. }
  assert (forall cs, Forall (fun v : vnode E => targets (vmap f v) = targets v) cs ->
    flat_map targets (map (vmap f) cs) = flat_map targets cs) as HF.
  { induction 1 as [|c cs Hc _ IH]; [done|]. cbn. by rewrite Hc, IH. }
  induction v as [s|tag attrs cs IH|cs IH] using vnode_tree_ind; [done| |by apply HF].
  pose proof (texts_vmap f (Elem tag attrs cs)) as HT. cbn [vmap targets] in *. unfold text_content.
  by rewrite HA, HF, HT.
Qed.

Lemma targets_txto {E} s : targets (txto (E := E) s) = [].
Proof. by destruct s. Qed.

(** ** The overview *)

Lemma overview_ids {E} (s : ClusterHUD.State) : ids (ClusterHUD.render (E := E) s) =
  ["running-queries-sparkline"; "active-workers-sparkline"; "row-input-rate-sparkline"; "queued-queries-sparkline";
   "running-drivers-sparkline"; "byte-input-rate-sparkline"; "blocked-queries-sparkline"; "reserved-memory-sparkline";
   "cpu-time-rate-sparkline"].
Proof.
  assert (forall l, attr_values (E := E) "id" (ClusterHUD.latest l) = []) as HL
    by (intros l; unfold ClusterHUD.latest; by destruct (last l)).
  cbn -[ClusterHUD.latest]. by rewrite !HL.
Qed.

(** ** The worker page *)

Lemma flat_map_map_nil {A B C} (f : B -> list C) (g : A -> B) l : (forall x, f (g x) = []) -> flat_map f (map g l) = [].
Proof. intros H. induction l as [|x l IH]; cbn; [done|]. by rewrite H, IH. Qed.

Lemma pool_bar_ids {E} n p : ids (WorkerStatus.renderPoolBar (E := E) n p) = [].
Proof. unfold WorkerStatus.renderPoolBar. by destruct p. Qed.

Lemma pool_queries_ids {E} p : ids (WorkerStatus.renderPoolQueries (E := E) p) = [].
Proof.
  unfold WorkerStatus.renderPoolQueries. destruct p as [p|]; [|done]. case_if; [done|].
  cbn. rewrite flat_map_map_nil; [done|]. intros k. by destruct (default _ _).
Qed.

Lemma worker_ids {E} (s : WorkerStatus.State) i : WorkerStatus.serverInfo s = Some i ->
  ids (WorkerStatus.render (E := E) s) =
  ["node-id"; "internal-address"; "internal-address"; "external-address"; "internal-address";
   "process-cpu-load-sparkline"; "system-cpu-load-sparkline"; "heap-percent-used-sparkline"; "nonheap-used-sparkline"].
Proof.
  intros Hi. unfold WorkerStatus.render. rewrite Hi.
  cbn -[WorkerStatus.renderPoolBar WorkerStatus.renderPoolQueries].
  rewrite !pool_bar_ids, !pool_queries_ids. done.
Qed.

(** ** The query page *)

Import QueryDetail.

(** The ids of the stages: four charts for each stage with a plan. *)
Definition chart_ids (n : string) : list string :=
  ["scheduled-time-histogram-" +:+ n; "cpu-time-histogram-" +:+ n; "scheduled-time-bar-chart-" +:+ n;
   "cpu-time-bar-chart-" +:+ n].

Definition planned (stages : list Stage) : list Stage :=
  filterb (fun st => match plan st with Some _ => true | None => false end) stages.

Definition stage_ids (stages : list Stage) : list string :=
  match stages with
  | [] => []
  | _ => "stage-list" :: flat_map (fun st => chart_ids (StageSummary.stageNumber st)) (planned stages)
  end.

Lemma summary_ids {E} (toggle : E) s st v : StageSummary.render toggle s st = Ok v ->
  ids v = (match plan st with Some _ => chart_ids (StageSummary.stageNumber st) | None => [] end) /\ copy_targets v = [].
Proof.
  unfold StageSummary.render. destruct (plan st); [|by intros [= <-]]. destruct (tasks st); [|done].
  cbn [require mbind result_bind]. destruct (stageStats st); [|done]. cbn [require mbind result_bind].
  by intros [= <-].
Qed.

Lemma summaries_ids {E} (toggle : string -> E) summary stages vs :
  Forall2 (fun st v => StageSummary.render (toggle (stageId st)) (summary (stageId st)) st = Ok v) stages vs ->
  flat_map (attr_values "id") vs = flat_map (fun st => chart_ids (StageSummary.stageNumber st)) (planned stages) /\
  flat_map (attr_values "data-clipboard-target") vs = [].
Proof.
  induction 1 as [|st v stages vs Hv _ [IH1 IH2]]; [done|]. destruct (summary_ids _ _ _ _ Hv) as [H1 H2].
  cbn [flat_map planned filterb]. rewrite H1, H2, IH1, IH2. split; [|done]. by destruct (plan st).
Qed.

Lemma stage_list_ids {E} (toggle : string -> E) summary output v : StageList.render toggle summary output = Ok v ->
  ids v = stage_ids (StageList.getStages_opt output) /\ copy_targets v = [].
Proof.
  unfold StageList.render. destruct (StageList.getStages_opt output) as [|s0 l]; [by intros [= <-]|].
  destruct (mapM _ (s0 :: l)) as [vs|] eqn:Em; [|done]. intros [= <-].
  apply mapM_Forall2, summaries_ids in Em as [E1 E2].
  cbn [h frag attr_values attr_value flat_map cls at_ String.eqb app]. cbn. by rewrite E1, E2, !app_nil_r.
Qed.

(** The ids of the tasks. *)
Lemma task_row_ids {E} URL now b t v : TaskList.renderTask (E := E) URL now b t = Ok v ->
  ids v = [] /\ copy_targets v = [].
Proof.
  unfold TaskList.renderTask. destruct (getHostname URL _) as [hn|]; [|done]. cbn [mbind result_bind].
  destruct (if b then _ else _) as [host|]; [|done]. cbn [mbind result_bind].
  destruct (StageDetail.format_nullable _ _) as [sz|]; [|done]. cbn [mbind result_bind]. by intros [= <-].
Qed.

Definition task_ids (ts : list Task) : list string := match ts with [] => [] | _ => ["tasks"] end.

Lemma task_list_ids {E} URL now ts v : TaskList.render (E := E) URL now ts = Ok v ->
  ids v = task_ids ts /\ copy_targets v = [].
Proof.
  unfold TaskList.render. destruct ts as [|t0 ts']; [by intros [= <-]|].
  destruct (TaskList.showPortNumbers URL _) as [b|]; [|done]. cbn [mbind result_bind].
  destruct (mapM _ _) as [rows|] eqn:Er; [|done]. cbn [mbind result_bind]. intros [= <-].
  apply mapM_Forall2 in Er. assert (flat_map (attr_values "id") rows = [] /\ flat_map (attr_values "data-clipboard-target") rows = []) as [E1 E2].
  { revert Er. generalize (t0 :: ts'). induction 1 as [|t v ts rows Hv _ [IH1 IH2]]; [done|]. cbn.
    destruct (task_row_ids _ _ _ _ _ Hv) as [-> ->]. by rewrite IH1, IH2. }
  cbn. by rewrite E1, E2.
Qed.

(** The other parts of the page. *)
Lemma header_targets pathname q v : QueryHeader.render pathname q = Ok v ->
  targets v = [("query-id", queryId q)] /\ copy_targets v = ["#query-id"].
Proof.
  unfold QueryHeader.render. destruct (QueryHeader.renderProgressBar q) as [bar|] eqn:Eb; [|done].
  assert (targets bar = [] /\ copy_targets bar = []) as [B1 B2].
  { revert Eb. unfold QueryHeader.renderProgressBar.
    destruct (getProgressBarTitle q); [|destruct (getQueryStateColor q)]; cbn [mbind result_bind]; try done.
    destruct (getQueryStateColor q); cbn [mbind result_bind]; try done. case_if; by intros [= <-]. }
  cbn [mbind result_bind]. intros [= <-]. cbn -[QueryHeader.renderTab text_content]. rewrite B1, B2.
  unfold QueryHeader.renderTab. repeat case_if; done.
Qed.

Definition user_text (q : QueryInfo) : string := default "" (user (session (basic q))).

Lemma session_targets {E} q : targets (renderSession (E := E) q) = [("query-user", user_text q)] /\
  copy_targets (renderSession (E := E) q) = ["#query-user"].
Proof.
  assert (flat_map targets (renderSessionProperties (E := E) q) = [] /\
    flat_map (attr_values "data-clipboard-target") (renderSessionProperties (E := E) q) = []) as [P1 P2].
  { unfold renderSessionProperties. rewrite !flat_map_app, !flat_map_map_nil by done. cbn [app].
    induction (own_keys (catalogProperties (infoSession q))) as [|k l [IH1 IH2]]; [done|]. cbn [flat_map].
    rewrite !flat_map_app, !flat_map_map_nil by done. by rewrite IH1, IH2. }
  assert (flat_map targets (renderResourceEstimates (E := E) q) = [] /\
    flat_map (attr_values "data-clipboard-target") (renderResourceEstimates (E := E) q) = []) as [R1 R2].
  { unfold renderResourceEstimates. by rewrite !flat_map_map_nil. }
  cbn -[text_content renderSessionProperties renderResourceEstimates].
  rewrite P1, P2, R1, R2, !targets_txto, !attr_values_txto. unfold user_text.
  by destruct (user (session (basic q))).
Qed.

Lemma execution_targets {E} local q : targets (renderExecution (E := E) local q) = [] /\
  copy_targets (renderExecution (E := E) local q) = [].
Proof. done. Qed.

Lemma utilization_targets {E} q : targets (renderUtilization (E := E) q) = [] /\
  copy_targets (renderUtilization (E := E) q) = [].
Proof. cbn. rewrite targets_txto, attr_values_txto. by case_if. Qed.

Definition timeline_ids : list string :=
  ["cpu-time-rate-sparkline"; "scheduled-time-rate-sparkline"; "row-input-rate-sparkline";
   "byte-input-rate-sparkline"; "reserved-memory-sparkline"].

Lemma timeline_targets {E} s v : renderTimeline (E := E) s = Ok v ->
  targets v = map (fun i => (i, "Loading ...")) timeline_ids /\ copy_targets v = [].
Proof. unfold renderTimeline. destruct (format_last _ _); [|done]. by intros [= <-]. Qed.

Definition warning_ids (q : QueryInfo) : list string := if 0 <? alen (warnings q) then ["warnings-table"] else [].

Lemma warning_targets {E} q : ids (renderWarningInfo (E := E) q) = warning_ids q /\
  copy_targets (renderWarningInfo (E := E) q) = [].
Proof. unfold renderWarningInfo, warning_ids. case_if; [|done]. cbn. by rewrite !flat_map_map_nil. Qed.

(** The text of the error, when there is one. *)
Definition trace_text (q : QueryInfo) : list string :=
  match failureInfo q with
  | Some f => match StackTrace.formatStackTrace f with Ok t => [t] | Throw _ => [] end
  | None => []
  end.

Lemma failure_targets {E} q v : renderFailureInfo (E := E) q = Ok v ->
  targets v = map (fun t => ("stack-trace", t)) (trace_text q) /\ copy_targets v = map (fun _ => "#stack-trace") (trace_text q).
Proof.
  unfold renderFailureInfo, trace_text. destruct (failureInfo q) as [f|]; [|by intros [= <-]].
  destruct (errorCode_name (basic q)); [|done]. cbn [mbind result_bind].
  destruct (StackTrace.formatStackTrace f); [|done]. cbn [mbind result_bind]. intros [= <-].
  cbn -[text_content]. by rewrite targets_txto, attr_values_txto.
Qed.

Lemma text_targets {E} q : targets (renderQueryText (E := E) q) =
    [("query", UtilsQuery.query (basic q)); ("query-text", UtilsQuery.query (basic q))] /\
  copy_targets (renderQueryText (E := E) q) = ["#query-text"].
Proof. done. Qed.

(** The ids of the whole page. *)
Definition shown_stages (s : State) : list Stage := StageList.getStages_opt (deref s (lastSnapshotStage s)).

Definition page_ids (q : QueryInfo) (s : State) : list string :=
  ["query-id"; "query-user"] ++ timeline_ids ++ warning_ids q ++ map (fun _ => "stack-trace") (trace_text q)
  ++ ["query"; "query-text"] ++ stage_ids (shown_stages s)
  ++ match lastSnapshotTasks s with Null => [] | _ => task_ids (shown_tasks s) end.

Section page.
Context (URL : string -> result URLParts) (local : num -> Date) (pathname : string).
Context (summary : string -> StageSummary.State).

Lemma stages_part s v : renderStages summary s = Ok v -> ids v = stage_ids (shown_stages s) /\ copy_targets v = [].
Proof.
  unfold renderStages, shown_stages. destruct (StageList.render _ _ _) as [l|] eqn:El; [|done]. cbn [mbind result_bind].
  intros [= <-]. apply stage_list_ids in El as [E1 E2]. unfold renderStageRefreshButton.
  case_if; cbn; by rewrite E1, E2, !app_nil_r.
Qed.

Lemma task_controls s f text :
  ids (renderTaskFilterListItem s f text) = [] /\ copy_targets (renderTaskFilterListItem s f text) = [] /\
  ids (renderTaskRefreshButton s) = [] /\ copy_targets (renderTaskRefreshButton s) = [].
Proof. unfold renderTaskFilterListItem, renderTaskRefreshButton. split_and!; repeat case_if; done. Qed.

Lemma tasks_part now s v : renderTasks URL now s = Ok v ->
  ids v = match lastSnapshotTasks s with Null => [] | _ => task_ids (shown_tasks s) end /\ copy_targets v = [].
Proof.
  unfold renderTasks. destruct (lastSnapshotTasks s); try (by intros [= <-]);
    (destruct (TaskList.render _ _ _) as [l|] eqn:El; [|done]); cbn [mbind result_bind]; intros [= <-];
    apply task_list_ids in El as [E1 E2]; cbn -[renderTaskFilterListItem renderTaskRefreshButton];
    rewrite !(fun f text => proj1 (task_controls s f text)), !(fun f text => proj1 (proj2 (task_controls s f text)));
    destruct (task_controls s ALL "") as (_ & _ & -> & ->); by rewrite E1, E2, !app_nil_r.
Qed.

(** What a script finds on the page of a query. *)
Lemma page_targets now s q v : query s = Some q -> initialized s = true ->
  render URL local pathname summary now s = Ok v ->
  ids v = page_ids q s /\
  copy_targets v = ["#query-id"; "#query-user"] ++ map (fun _ => "#stack-trace") (trace_text q) ++ ["#query-text"] /\
  [("query-id", queryId (basic q)); ("query-user", user_text q); ("query-text", UtilsQuery.query (basic q))]
    ++ map (fun t => ("stack-trace", t)) (trace_text q) ⊆ targets v.
Proof.
  intros Hq Hi. unfold render. rewrite Hq, Hi.
  destruct (QueryHeader.render _ _) as [hv|] eqn:Eh; [|done]. apply header_targets in Eh as [H1 H2]. cbn [mbind result_bind].
  destruct (renderTimeline s) as [tv|] eqn:Et; [|done]. apply timeline_targets in Et as [T1 T2]. cbn [mbind result_bind].
  destruct (renderFailureInfo q) as [fv|] eqn:Ef; [|done]. apply failure_targets in Ef as [F1 F2]. cbn [mbind result_bind].
  destruct (renderStages summary s) as [sv|] eqn:Es; [|done]. apply stages_part in Es as [S1 S2]. cbn [mbind result_bind].
  destruct (renderTasks URL now s) as [kv|] eqn:Ek; [|done]. apply tasks_part in Ek as [K1 K2]. cbn [mbind result_bind].
  intros [= <-]. destruct (session_targets (E := event) q) as [P1 P2].
  destruct (warning_targets (E := event) q) as [W1 W2]. destruct (utilization_targets (E := event) q) as [U1 U2].
  set (v := h "div" _ _).
  assert (targets v = targets (vmap HeaderAjax hv) ++ targets (renderSession (E := event) q) ++ targets tv
    ++ targets (renderWarningInfo (E := event) q) ++ targets fv ++ targets (renderQueryText (E := event) q)
    ++ targets sv ++ targets kv) as EV.
  { subst v. cbn -[renderSession renderExecution renderUtilization renderWarningInfo renderQueryText].
    rewrite U1. destruct (execution_targets (E := event) local q) as [-> _]. by rewrite !app_nil_r, <- !app_assoc. }
  split_and!.
  - rewrite <- targets_ids, EV, !map_app, targets_vmap, !targets_ids, S1, K1, W1.
    rewrite <- targets_ids, H1. rewrite <- (targets_ids tv), T1. rewrite <- (targets_ids fv), F1.
    rewrite <- (targets_ids (renderSession q)), P1. rewrite !map_map. done.
  - subst v. cbn -[renderSession renderExecution renderUtilization renderWarningInfo renderQueryText].
    rewrite attr_values_vmap, H2, P2, T2, W2, F2, S2, K2, U2. destruct (execution_targets (E := event) local q) as [_ ->].
    destruct (text_targets (E := event) q) as [_ ->]. by rewrite !app_nil_r.
  - rewrite EV, targets_vmap, H1, P1, F1. destruct (text_targets (E := event) q) as [-> _].
    intros x. rewrite !elem_of_app, !elem_of_cons. naive_solver.
Qed.
End page.

(** ** No id twice *)

Lemma chart_ids_inj n m x : x ∈ chart_ids n -> x ∈ chart_ids m -> n = m.
Proof.
  unfold chart_ids. rewrite !elem_of_cons, elem_of_nil.
  intros [->|[->|[->|[->|[]]]]] [H|[H|[H|[H|[]]]]]; cbn in H; congruence.
Qed.

Lemma chart_ids_NoDup n : NoDup (chart_ids n).
Proof.
  unfold chart_ids. repeat (apply NoDup_cons; split; [rewrite ?elem_of_cons, elem_of_nil; cbn; intuition congruence|]).
  constructor.
Qed.

Lemma flat_chart_ids_NoDup ns : NoDup ns -> NoDup (flat_map chart_ids ns).
Proof.
  induction 1 as [|n ns Hn _ IH]; cbn [flat_map]; [constructor|]. apply NoDup_app. split_and!; [apply chart_ids_NoDup| |done].
  intros x Hx (m & Hm & Hx')%elem_of_flat_map. by rewrite (chart_ids_inj n m x Hx Hx') in Hn.
Qed.

(** None of the ids of the charts of a stage is one of the others. *)
Definition static_ids : list string :=
  ["query-id"; "query-user"] ++ timeline_ids ++ ["warnings-table"; "stack-trace"; "query"; "query-text"; "stage-list"; "tasks"].

Lemma chart_ids_static n x : x ∈ chart_ids n -> x ∉ static_ids.
Proof.
  unfold chart_ids, static_ids, timeline_ids. cbn [app]. rewrite !elem_of_cons, !elem_of_nil.
  intros [->|[->|[->|[->|[]]]]]; cbn; intuition congruence.
Qed.

Lemma flat_map_map {A B C} (f : B -> list C) (g : A -> B) l : flat_map f (map g l) = flat_map (fun x => f (g x)) l.
Proof. induction l as [|x l IH]; cbn; [done|]. by rewrite IH. Qed.

(** The parts of the page that are there or not: a selection of the static ids. *)
Lemma page_ids_split q s : exists static,
  page_ids q s ≡ₚ static ++ flat_map chart_ids (map StageSummary.stageNumber (planned (shown_stages s))) /\
  sublist static static_ids.
Proof.
  unfold page_ids. set (tasks := match lastSnapshotTasks s with Null => [] | _ => _ end).
  assert (tasks = [] \/ tasks = ["tasks"]) as Ht.
  { subst tasks. unfold task_ids. destruct (lastSnapshotTasks s), (shown_tasks s); auto. }
  assert (exists l, (l = [] \/ l = ["stage-list"]) /\
    stage_ids (shown_stages s) = l ++ flat_map chart_ids (map StageSummary.stageNumber (planned (shown_stages s)))) as (l & Hl & ->).
  { unfold stage_ids. destruct (shown_stages s) as [|s0 ss]; [by exists []; auto|].
    exists ["stage-list"]. rewrite flat_map_map. auto. }
  exists (["query-id"; "query-user"] ++ timeline_ids ++ warning_ids q ++ map (fun _ => "stack-trace") (trace_text q)
    ++ ["query"; "query-text"] ++ l ++ tasks). split; [by solve_Permutation|].
  assert (map (fun _ => "stack-trace") (trace_text q) = [] \/ map (fun _ => "stack-trace") (trace_text q) = ["stack-trace"]) as Hf.
  { unfold trace_text. destruct (failureInfo q) as [f|]; [destruct (StackTrace.formatStackTrace f)|]; auto. }
  assert (warning_ids q = [] \/ warning_ids q = ["warnings-table"]) as Hw by (unfold warning_ids; case_if; auto).
  unfold static_ids, timeline_ids.
  destruct Ht as [->| ->], Hl as [->| ->], Hf as [->| ->], Hw as [->| ->]; cbn; repeat constructor.
Qed.

Lemma page_ids_unique q s : NoDup (map StageSummary.stageNumber (planned (shown_stages s))) -> NoDup (page_ids q s).
Proof.
  intros HN. destruct (page_ids_split q s) as (static & -> & HS). apply NoDup_app. split_and!.
  - eapply sublist_NoDup; [|exact HS]. apply (bool_decide_eq_true_1 _). vm_compute. reflexivity.
  - intros x Hx (n & _ & Hc)%elem_of_flat_map. apply (chart_ids_static n x Hc). exact (elem_of_sublist _ _ _ Hx HS).
  - by apply flat_chart_ids_NoDup.
Qed.

(** ** Properties *)

(** A chart has one element to be drawn on. *)
Definition drawn_on {E} (v : vnode E) (c : Chart) : Prop := length (select (element c) v) = 1%nat.

(** A chart has no element to be drawn on. *)
Definition drawn_nowhere {E} (v : vnode E) (c : Chart) : Prop := select (element c) v = [].

Lemma drawn_by_id {E} (v : vnode E) c i : NoDup (ids v) -> i ∈ ids v -> element c = "#" +:+ i -> drawn_on v c.
Proof.
  intros HN Hi Hc. rewrite <- targets_ids in Hi. apply list_elem_of_fmap in Hi as ([j t] & -> & Hin).
  unfold drawn_on. rewrite Hc. cbn [fst]. by rewrite (select_unique v j t).
Qed.

(** A page whose ids are known. *)
Lemma drawn_ids {E} (v : vnode E) charts l : ids v = l -> NoDup l ->
  Forall (fun c => exists i, i ∈ l /\ element c = "#" +:+ i) charts -> Forall (drawn_on v) charts.
Proof.
  intros Hv HN HC. eapply Forall_impl; [exact HC|]. intros c (i & Hi & Hc). cbv beta in *. subst l.
  by eapply drawn_by_id.
Qed.

(** How many elements a selector finds. *)
Lemma select_count {E} (v : vnode E) i : length (select ("#" +:+ i) v) = length (filterb (String.eqb i) (ids v)).
Proof.
  rewrite <- targets_ids. unfold select. rewrite length_map. induction (targets v) as [|[j t] l IH]; [done|].
  cbn [filterb map fst]. destruct (String.eqb_spec i j) as [->|Hne].
  - rewrite String.eqb_refl. cbn [length]. by rewrite IH.
  - destruct (String.eqb_spec ("#" +:+ i) ("#" +:+ j)) as [[= Heq]|_]; [done|exact IH].
Qed.

Lemma query_charts_on_ids q s : Forall (fun c => exists i, i ∈ page_ids q s /\ element c = "#" +:+ i) (draw s).
Proof.
  unfold page_ids, timeline_ids, draw. cbn [app].
  repeat constructor; eexists; (split; [|reflexivity]); cbn [app]; rewrite !elem_of_cons; tauto.
Qed.

(** The charts of a stage that is listed with its plan. *)
Lemma stage_charts_on_ids {AS : ArraySort} q s st now now' c st' c' charts : st ∈ planned (shown_stages s) ->
  StageSummary.componentDidUpdate now now' st c = Ok (st', c', charts) ->
  Forall (fun c => exists i, i ∈ page_ids q s /\ element c = "#" +:+ i) charts.
Proof.
  intros Hst HU. assert (forall i, i ∈ chart_ids (StageSummary.stageNumber st) -> i ∈ page_ids q s) as HI.
  { intros i Hi. destruct (page_ids_split q s) as (static & -> & _). apply elem_of_app. right.
    apply elem_of_flat_map. eexists. split; [|exact Hi]. by apply list_elem_of_fmap_2. }
  revert HU. unfold StageSummary.componentDidUpdate. destruct (tasks st) as [ts|]; [|done]. cbn [require mbind result_bind].
  destruct (match StageSummary.lastRender c with None => _ | Some t => _ end); intros [= _ _ <-]; [|constructor].
  destruct (StageSummary.expanded c); repeat constructor;
    (eexists; split; [apply HI; unfold chart_ids; rewrite !elem_of_cons|reflexivity]; tauto).
Qed.

(** C26: where the charts are drawn.  On the overview each chart that an update
    draws has exactly one element of the page.  On the worker page it has one
    when the worker has answered, and none before, also when the first request
    failed.  On the page of a query it has one when the page has a query, is
    initialized and renders and no two stages that are listed with their plans
    have the same number, and then so has each chart of such a stage; it has
    none when there is no query yet. *)
Theorem charts_drawn {AS : ArraySort} (URL : string -> result URLParts) (local : num -> Date) (pathname : string)
    (summary : string -> StageSummary.State) (now now' : Z) :
  (forall E c, Forall (drawn_on (ClusterHUD.render (E := E) c)) (ClusterHUD.draw c)) /\
  (forall E w, Forall match WorkerStatus.serverInfo w with
                      | Some _ => drawn_on (WorkerStatus.render (E := E) w)
                      | None => drawn_nowhere (WorkerStatus.render (E := E) w)
                      end (WorkerStatus.componentDidUpdate w)) /\
  (forall s q v, query s = Some q -> initialized s = true -> render URL local pathname summary now s = Ok v ->
     NoDup (map StageSummary.stageNumber (planned (shown_stages s))) ->
     Forall (drawn_on v) (draw s) /\
     forall stage c stage' c' charts, stage ∈ planned (shown_stages s) ->
       StageSummary.componentDidUpdate now now' stage c = Ok (stage', c', charts) -> Forall (drawn_on v) charts) /\
  (forall s, query s = None -> exists v, render URL local pathname summary now s = Ok v /\ Forall (drawn_nowhere v) (draw s)).
Proof.
  split_and!.
  - intros E c. eapply drawn_ids; [apply overview_ids|apply (bool_decide_eq_true_1 _); vm_compute; reflexivity|].
    repeat constructor; eexists; (split; [|reflexivity]); rewrite !elem_of_cons; tauto.
  - intros E w. destruct (WorkerStatus.serverInfo w) as [i|] eqn:Hi.
    + pose proof (worker_ids (E := E) w i Hi) as HI.
      repeat constructor; unfold drawn_on; cbn [element]; apply (eq_trans (select_count _ _)); by rewrite HI.
    + unfold WorkerStatus.render. rewrite Hi. destruct (WorkerStatus.initialized w); by repeat constructor.
  - intros s q v Hq Hi Hv HN. destruct (page_targets URL local pathname summary now s q v Hq Hi Hv) as (HI & _ & _).
    pose proof (page_ids_unique q s HN) as HU.
    split; [by eapply drawn_ids; [|exact HU|apply query_charts_on_ids]|].
    intros stage c stage' c' charts Hst Hup. by eapply drawn_ids; [|exact HU|by eapply stage_charts_on_ids].
  - intros s Hq. unfold render. rewrite Hq. eexists. split; [reflexivity|]. by destruct (initialized s); repeat constructor.
Qed.

(** The text a button copies, on a page without double ids. *)
Lemma copied_target {E} (v : vnode E) i t : NoDup (ids v) -> (i, t) ∈ targets v -> copied ("#" +:+ i) v = Some t.
Proof. intros HN Hin. unfold copied. by rewrite (select_unique v i t). Qed.

(** The page of a query. *)
Lemma query_copy (URL : string -> result URLParts) (local : num -> Date) (pathname : string)
    (summary : string -> StageSummary.State) (now : Z) (s : State) (q : QueryInfo) (v : vnode event) :
  query s = Some q -> initialized s = true -> render URL local pathname summary now s = Ok v ->
  NoDup (map StageSummary.stageNumber (planned (shown_stages s))) ->
  map (fun t => copied t v) (copy_targets v)
  = map Some ([queryId (basic q); user_text q] ++ trace_text q ++ [UtilsQuery.query (basic q)]).
Proof.
  intros Hq Hi Hv HN. destruct (page_targets URL local pathname summary now s q v Hq Hi Hv) as (HI & -> & HT).
  pose proof (page_ids_unique q s HN) as HU. rewrite <- HI in HU.
  assert (forall i t, (i, t) ∈ [("query-id", queryId (basic q)); ("query-user", user_text q);
    ("query-text", UtilsQuery.query (basic q))] ++ map (fun t => ("stack-trace", t)) (trace_text q) ->
    copied ("#" +:+ i) v = Some t) as HC by (intros i t Hin; by apply copied_target, HT).
  rewrite !map_app, map_map. cbn [map].
  assert (copied "#query-id" v = Some (queryId (basic q))) as -> by (apply (HC "query-id"); cbn [app]; set_solver).
  assert (copied "#query-user" v = Some (user_text q)) as -> by (apply (HC "query-user"); cbn [app]; set_solver).
  assert (copied "#query-text" v = Some (UtilsQuery.query (basic q))) as -> by (apply (HC "query-text"); cbn [app]; set_solver).
  assert (map (fun _ => copied "#stack-trace" v) (trace_text q) = map Some (trace_text q)) as ->; [|done].
  apply map_ext_in. intros t Ht. apply (HC "stack-trace"), elem_of_app. right.
  apply (list_elem_of_fmap_2 (fun t => ("stack-trace", t))). by apply list_elem_of_In.
Qed.

(** The worker page gives three elements the id of the internal address; the
    button next to the address copies the first one, the size of the heap. *)
Lemma worker_copies {E} (s : WorkerStatus.State) (i : WorkerStatus.ServerInfo) : WorkerStatus.serverInfo s = Some i ->
  copy_targets (WorkerStatus.render (E := E) s) = ["#node-id"; "#external-address"; "#internal-address"] /\
  map (fun t => copied t (WorkerStatus.render (E := E) s)) ["#node-id"; "#external-address"; "#internal-address"]
  = [Some (WorkerStatus.nodeId i); Some (WorkerStatus.externalAddress i);
     Some (UtilsFormat.formatDataSize (WorkerStatus.heapAvailable i))].
Proof.
  intros Hi. unfold WorkerStatus.render. rewrite Hi.
  assert (forall n p, copy_targets (WorkerStatus.renderPoolBar (E := E) n p) = [] /\ copy_targets (WorkerStatus.renderPoolQueries (E := E) p) = []) as HP.
  { intros n p. split; [by destruct p|]. unfold WorkerStatus.renderPoolQueries. destruct p as [p|]; [|done]. case_if; [done|].
    cbn. rewrite flat_map_map_nil; [done|]. intros k. by destruct (default _ _). }
  split.
  - cbn -[WorkerStatus.renderPoolBar WorkerStatus.renderPoolQueries].
    by rewrite !(fun n p => proj1 (HP n p)), !(fun p => proj2 (HP "" p)).
  - set (pools := WorkerStatus.renderPools i). cbn -[pools text_content]. done.
Qed.

(** The thread page: the threads it shows, under their ids. *)
Module Threads.
Import WorkerThreadList.

Definition thread_id (t : Thread) : string := "stack-trace-" +:+ num_to_string (id t).
Definition thread_text (t : Thread) : string := String.concat "" (flat_map texts (map (renderStackLine (E := event)) (stackTrace t))).

Lemma threads_targets (l : list Thread) :
  flat_map targets (map (renderThread (E := event)) l) = map (fun t => (thread_id t, thread_text t)) l /\
  flat_map (attr_values "data-clipboard-target") (map (renderThread (E := event)) l) = map (fun t => "#" +:+ thread_id t) l.
Proof.
  induction l as [|t l [IH1 IH2]]; [done|]. cbn [map flat_map]. rewrite IH1, IH2.
  assert (flat_map targets (map (renderStackLine (E := event)) (stackTrace t)) = [] /\
    flat_map (attr_values "data-clipboard-target") (map (renderStackLine (E := event)) (stackTrace t)) = []) as [S1 S2]
    by (by rewrite !flat_map_map_nil).
  cbn -[text_content renderStackLine]. destruct (lockOwnerId t); cbn -[text_content renderStackLine];
    rewrite S1, S2; unfold text_content, thread_text; cbn -[renderStackLine]; by rewrite !app_nil_r.
Qed.

Lemma group_item_targets s g x v : renderGroupListItem s g x = Ok v -> targets v = [] /\ copy_targets v = [].
Proof. unfold renderGroupListItem. destruct (filterThreads _ _ _); [|done]. by intros [= <-]. Qed.

Lemma state_item_targets s g x v : renderThreadStateListItem s g x = Ok v -> targets v = [] /\ copy_targets v = [].
Proof. unfold renderThreadStateListItem. destruct (filterThreads _ _ _); [|done]. by intros [= <-]. Qed.

Lemma toolbar_targets tz s g v : renderToolbar tz s g = Ok v -> targets v = [] /\ copy_targets v = [].
Proof.
  unfold renderToolbar. destruct (snapshot_time tz s) as [t|]; [|done]. cbn [mbind result_bind].
  destruct (mapM (renderGroupListItem s g) (own_keys g)) as [gs|] eqn:Eg; [|done]. cbn [mbind result_bind].
  destruct (mapM (renderThreadStateListItem s g) THREAD_STATES) as [ss|] eqn:Es; [|done]. cbn [mbind result_bind].
  assert (forall A (f : A -> result (vnode event)) l vs,
    (forall x v, f x = Ok v -> targets v = [] /\ copy_targets v = []) -> mapM f l = Ok vs ->
    flat_map targets vs = [] /\ flat_map (attr_values "data-clipboard-target") vs = []) as HM.
  { intros A f l vs Hf HF%mapM_Forall2. induction HF as [|x w l vs Hx _ [IH1 IH2]]; [done|]. cbn [flat_map].
    destruct (Hf x w Hx) as [-> ->]. by rewrite IH1, IH2. }
  destruct (HM _ _ _ _ (fun x v => group_item_targets s g x v) Eg) as [G1 G2].
  destruct (HM _ _ _ _ (fun x v => state_item_targets s g x v) Es) as [S1 S2].
  intros [= <-]. cbn. by rewrite G1, G2, S1, S2.
Qed.
Lemma display_targets s l : exists text,
  targets (renderThreads s l) = ("stack-traces", text) :: map (fun t => (thread_id t, thread_text t)) l /\
  copy_targets (renderThreads s l) = map (fun t => "#" +:+ thread_id t) l.
Proof.
  destruct (threads_targets l) as [T1 T2]. unfold renderThreads. destruct l as [|t l].
  - cbn [alen length Z.of_nat Z.eqb andb]. repeat case_if; eexists; split; reflexivity.
  - replace (alen (t :: l) =? 0) with false by (symmetry; apply Z.eqb_neq; unfold alen; cbn [length]; lia).
    cbn [andb]. rewrite <- T1, <- T2. clear T1 T2. generalize (map (renderThread (E := event)) (t :: l)). intros shown.
    eexists. cbn -[text_content]. rewrite !app_nil_r. split; reflexivity.
Qed.

Lemma thread_copies tz s g l v : threads s = Some g ->
  filterThreads g (selectedGroup s) (selectedThreadState s) = Ok l -> render tz s = Ok v -> NoDup (map thread_id l) ->
  copy_targets v = "#stack-traces" :: map (fun t => "#" +:+ thread_id t) l /\
  Forall (fun t => copied ("#" +:+ thread_id t) v = Some (thread_text t)) l.
Proof.
  intros Hg Hl. unfold render. rewrite Hg, Hl. destruct (renderToolbar tz s g) as [bar|] eqn:Eb; [|done].
  apply toolbar_targets in Eb as [B1 B2]. cbn [mbind result_bind]. intros [= <-] HN.
  destruct (display_targets s l) as (text & D1 & D2).
  assert (targets (renderPage bar (renderThreads s l)) = targets (renderThreads s l)) as HT.
  { cbn -[renderThreads]. by rewrite B1, !app_nil_r. }
  split; [cbn -[renderThreads]; by rewrite B2, D2, !app_nil_r|].
  apply Forall_forall. intros t Ht. apply copied_target.
  - rewrite <- targets_ids, HT, D1. cbn [map fst]. rewrite map_map. apply NoDup_cons. split; [|exact HN].
    intros (u & Hu & _)%list_elem_of_fmap. unfold thread_id in Hu. cbn in Hu. congruence.
  - rewrite HT, D1. right. by apply (list_elem_of_fmap_2 (fun t => (thread_id t, thread_text t))).
Qed.
End Threads.

(** C25: what the copy buttons of the pages copy.  On the page of a query: its id,
    the user, the stack trace when it has failed, and the text of the query, in
    this order and no others.  On the thread page: each thread's button the
    stack of this thread, when the threads have different ids.  On the worker
    page the buttons of the node id and of the external address copy these; the
    one of the internal address copies the size of the heap. *)
Theorem copy_buttons (URL : string -> result URLParts) (local : num -> Date) (pathname : string)
    (summary : string -> StageSummary.State) (now : Z) (tz : Z -> string) :
  (forall s q v, query s = Some q -> initialized s = true -> render URL local pathname summary now s = Ok v ->
     NoDup (map StageSummary.stageNumber (planned (shown_stages s))) ->
     map (fun t => copied t v) (copy_targets v)
     = map Some ([queryId (basic q); user_text q] ++ trace_text q ++ [UtilsQuery.query (basic q)])) /\
  (forall s g l v, WorkerThreadList.threads s = Some g ->
     WorkerThreadList.filterThreads g (WorkerThreadList.selectedGroup s) (WorkerThreadList.selectedThreadState s) = Ok l ->
     WorkerThreadList.render tz s = Ok v -> NoDup (map Threads.thread_id l) ->
     copy_targets v = "#stack-traces" :: map (fun t => "#" +:+ Threads.thread_id t) l /\
     Forall (fun t => copied ("#" +:+ Threads.thread_id t) v = Some (Threads.thread_text t)) l) /\
  (forall s i, WorkerStatus.serverInfo s = Some i ->
     let v := WorkerStatus.render (E := unit) s in
     map (fun t => (t, copied t v)) (copy_targets v)
     = [("#node-id", Some (WorkerStatus.nodeId i)); ("#external-address", Some (WorkerStatus.externalAddress i));
        ("#internal-address", Some (UtilsFormat.formatDataSize (WorkerStatus.heapAvailable i)))]).
Proof.
  split_and!; [intros s q v; apply query_copy|intros s g l v; apply Threads.thread_copies|].
  intros s i Hi. destruct (worker_copies (E := unit) s i Hi) as [H1 H2]. cbv zeta. rewrite H1.
  cbn [map] in *. injection H2 as -> -> ->. done.
Qed.

(** ** Examples *)

Definition shown_page : State := state_of (run [Refresh 1000 page_info] initial_state).

Lemma shown_page_numbers : NoDup (map StageSummary.stageNumber (planned (shown_stages shown_page))).
Proof. apply (bool_decide_eq_true_1 _). vm_compute. reflexivity. Qed.

Lemma charts_drawn_witness : exists v,
  render simple_URL (fun _ => local_date 0 0) "/ui/query.html" (fun _ => StageSummary.initial_state) 1000 shown_page = Ok v /\
  Forall (drawn_on v) (draw shown_page).
Proof.
  destruct (page_renders simple_URL (fun _ => local_date 0 0) "/ui/query.html" (fun _ => StageSummary.initial_state) 1000
    page_info shown_page page_complete) as (v & Hv & _).
  exists v. split; [exact Hv|].
  destruct (charts_drawn simple_URL (fun _ => local_date 0 0) "/ui/query.html" (fun _ => StageSummary.initial_state) 1000 1000)
    as (_ & _ & H & _).
  apply (H shown_page page_info v); [reflexivity|reflexivity|exact Hv|apply shown_page_numbers].
Defined.

Lemma copy_buttons_witness : exists v,
  render simple_URL (fun _ => local_date 0 0) "/ui/query.html" (fun _ => StageSummary.initial_state) 1000 shown_page = Ok v /\
  map (fun t => copied t v) (copy_targets v) = [Some "20190701_000000_00001_abcde"; Some "ann"; Some "SELECT 1"].
Proof.
  destruct (page_renders simple_URL (fun _ => local_date 0 0) "/ui/query.html" (fun _ => StageSummary.initial_state) 1000
    page_info shown_page page_complete) as (v & Hv & _).
  exists v. split; [exact Hv|].
  destruct (copy_buttons simple_URL (fun _ => local_date 0 0) "/ui/query.html" (fun _ => StageSummary.initial_state) 1000
    (fun _ => "")) as (H & _ & _).
  rewrite (H shown_page page_info v); [reflexivity|reflexivity|reflexivity|exact Hv|apply shown_page_numbers].
Defined.
