(* ===== verification/QueryPage.v ===== *)
(** * The query page while it polls

    Rendering may throw, and an exception takes the page off and stops its
    polling.  A coordinator that gives complete information keeps the page
    going: every state the page reaches renders. *)
From S2P Require Import Prelude JsString JsNumber JsArray JsDate Html.
From S2P Require Import UtilsQuery UtilsHistory UtilsText UtilsParse QueryInfo QueryHeader RefreshLoop.
From S2P Require Import LivePlanFacts StackTrace TaskList TaskListFacts StageSummary StageSummaryFacts.
From S2P Require Import QueryDetail QueryDetailFacts QueryDetailView.
Import QueryDetail.
Local Open Scope Z_scope.

Section page.
Context {AS : ArraySort} (URL : string -> result URLParts) (local : num -> Date) (pathname : string).

(** ** Complete information *)

Definition good_stage (st : Stage) : Prop :=
  Forall complete_stage (all_stages st) /\ Forall (showable URL) (getTasksFromStage st).

(** A query whose header and failure can be shown. *)
Definition good_query (q : QueryInfo) : Prop :=
  well_formed (basic q) /\
  forall f, failureInfo q = Some f -> stacked f = true /\ is_Some (errorCode (basic q)).

(** An answer with complete stages, tasks that can be shown, and a readable
    amount of memory. *)
Definition good_answer (q : QueryInfo) : Prop :=
  good_query q /\ is_Some (parseDataSize (userMemoryReservation (queryStats (basic q)))) /\
  forall st, outputStage q = Some st -> good_stage st.

(** ** The invariant *)

Record page_inv (s : State) : Prop := {
  inv_first : query s = None -> taskRefresh s = true;
  inv_query q : query s = Some q -> good_query q /\ initialized s = true /\ lastSnapshotTasks s <> Null;
  inv_ended : ended_inv s;
  inv_memory : Forall is_Some (reservedMemory s);
  inv_store : Forall good_stage (store s)
}.

Lemma page_inv_initial : page_inv initial_state.
Proof. by split. Qed.

Lemma deref_good s r st : page_inv s -> deref s r = Some st -> good_stage st.
Proof.
  intros HI. unfold deref. destruct r as [r|]; [|done]. cbn. intros H%list_elem_of_lookup_2.
  by eapply Forall_forall in H; [|apply (inv_store _ HI)].
Qed.

(** The page renders in every state with the invariant. *)
Lemma inv_renders s e : page_inv s -> commit URL local pathname e s = Ok s.
Proof.
  intros HI. unfold commit. destruct (query s) as [q|] eqn:Eq; [|unfold render; by rewrite Eq].
  destruct (inv_query _ HI q Eq) as ([Hw Hf] & Hi & Hn).
  assert (complete URL q s) as HC.
  { split; [done..| | | |].
    - intros H. apply last_Some_elem_of in H. eapply Forall_forall in H; [|apply (inv_memory _ HI)]. by destruct H.
    - intros st H. by apply (deref_good _ _ _ HI) in H as [? _].
    - done.
    - rewrite shown_snapshot. apply Forall_forall. intros t [Ht _]%elem_of_filterb. revert Ht.
      unfold snapshot_tasks. destruct (deref s (task_ref s)) as [st|] eqn:Ed; [|by intros ?%elem_of_nil].
      apply (deref_good _ _ _ HI) in Ed as [_ Hd]. rewrite Forall_forall in Hd. apply Hd. }
  destruct (page_renders URL local pathname e.2 e.1 q s HC) as (v & -> & _). done.
Qed.

(** ** Sorting the tasks of a stage *)

Lemma all_stages_sorted id st : all_stages (sort_in_place id st) = map (sort_in_place id) (all_stages st).
Proof.
  induction st as [i x p ss ts subs IH] using Stage_tree_ind. cbn. f_equal. destruct subs as [l|]; [|done]. cbn in IH.
  induction IH as [|y l Hy _ IHl]; cbn; [done|]. by rewrite Hy, IHl, map_app.
Qed.

Lemma complete_sorted id st : complete_stage st -> complete_stage (sort_in_place id st).
Proof.
  destruct st as [i x p ss ts subs]. unfold complete_stage. cbn. intros (H1 & H2 & [t ->] & [l ->]).
  split_and!; [done..| |by eexists]. case_if; by eexists.
Qed.

Lemma good_sorted id st : good_stage st -> good_stage (sort_in_place id st).
Proof.
  intros [H1 H2]. split.
  - rewrite all_stages_sorted. apply Forall_map. eapply Forall_impl; [exact H1|]. apply complete_sorted.
  - by rewrite sort_tasks.
Qed.

(** ** Preservation *)

Lemma addToHistory_Forall {A} (P : A -> Prop) v l : P v -> Forall P l -> Forall P (addToHistory v l).
Proof.
  intros Hv Hl. assert (Forall P (l ++ [v])) as H by (apply Forall_app; by repeat constructor).
  unfold addToHistory, array_slice. case_if; [done|]. by apply Forall_drop.
Qed.

Lemma set_query_inv now q s : good_answer q -> page_inv s -> page_inv (set_query now q s).
Proof.
  intros (Hq & _ & Hs) HI.
  assert (forall r, (if taskRefresh s then ref_field r else lastSnapshotTasks s) <> Null) as HN.
  { intros r. destruct (taskRefresh s) eqn:Et; [by destruct r|].
    destruct (query s) as [q'|] eqn:Eq; [by apply (inv_query _ HI q')|]. rewrite (inv_first _ HI Eq) in Et. done. }
  unfold set_query, received. destruct (outputStage q) as [st|];
    (split; cbn [query taskRefresh initialized lastSnapshotTasks reservedMemory store]; [done|intros ? [= <-]; split; [exact Hq|split; [done|exact (HN _)]]|by intros ? [= <-]|apply HI|]).
  - apply Forall_app. split; [apply HI|]. constructor; [by apply Hs|constructor].
  - apply HI.
Qed.

Lemma query_refresh_inv now q s : good_answer q -> page_inv s -> page_inv (refresh_success now q s).
Proof.
  intros HG HI. pose proof (set_query_inv now q s HG HI) as H1. unfold refresh_success.
  case_if; [done|]. case_if; [|done]. destruct H1. split; try done. cbn.
  apply addToHistory_Forall; [apply HG|done].
Qed.

Lemma error_inv s : page_inv s -> page_inv (refresh_error s).
Proof. intros [H1 H2 H3 H4 H5]. split; try done. cbn. intros q Hq. by destruct (H2 q Hq) as (? & _ & ?). Qed.

Lemma local_inv s s' : page_inv s -> local_update s s' -> page_inv s'.
Proof.
  intros HI [x E|x E|f|now now'|id].
  - revert E. unfold handleTaskRefreshClick. case_if.
    + destruct (query s) as [q|] eqn:Eq; [|done]. cbn. intros [= <-]. destruct HI as [H1 H2 H3 H4 H5].
      split; try done; cbn; [by rewrite Eq|]. intros q' Hq. destruct (H2 q' Hq) as (? & ? & _).
      split_and!; [done..|]. by destruct (outputRef s).
    + intros [= <-]. by destruct HI.
  - revert E. unfold handleStageRefreshClick.
    case_if; [destruct (query s) as [q|] eqn:Eq; [|done]|]; intros [= <-]; by destruct HI.
  - by destruct HI.
  - destruct (page_update_frame now now' s) as [t ->]. by destruct HI.
  - unfold stage_updated. destruct (lastSnapshotStage s) as [r|]; [|done]. destruct HI as [H1 H2 H3 H4 H5].
    split; try done. cbn. apply Forall_alter; [done|]. intros st _. apply good_sorted.
Qed.

(** ** The event loop *)

(** The page of a coordinator that gives complete information. *)
Definition good_poller : Poller State unit { a : env * (Z * QueryInfo) | good_answer a.2.2 } env :=
  restricted (fun a => good_answer a.2.2) (poller URL local pathname).

#[global] Instance good_poller_laws : PollerLaws good_poller.
Proof. intros s s' [H1 H2]%local_query. cbn. by rewrite H1, H2. Qed.

Lemma answered_good c e now q (HG : good_answer (e, (now, q)).2.2) s : page_inv s ->
  answered (P := good_poller) c (inl (exist _ (e, (now, q)) HG)) s = Ok (refresh_success now q s).
Proof. intros HI. cbn in *. by rewrite !inv_renders by auto using set_query_inv, query_refresh_inv. Qed.

Lemma query_answered_inv c a s : page_inv s -> exists s', answered (P := good_poller) c a s = Ok s' /\ page_inv s'.
Proof.
  intros HI. destruct a as [[[e [now q]] HG]|e].
  - exists (refresh_success now q s). split; [by apply answered_good|by apply query_refresh_inv].
  - cbn. rewrite inv_renders by (by apply error_inv). eexists. split; [done|]. by apply error_inv.
Qed.

Lemma query_page_reach t m : reach (P := good_poller) (mounted (P := good_poller) initial_state) t m ->
  t = false /\ page_inv (comp m).
Proof.
  intros H. split; revert H.
  - apply (reach_inv_no_throw (P := good_poller) page_inv); [done|apply query_answered_inv|exact local_inv|apply page_inv_initial].
  - apply (reach_inv (P := good_poller) page_inv); [done| |exact local_inv|apply page_inv_initial].
    intros c a s s' HI E. destruct (query_answered_inv c a s HI) as (? & ? & ?). congruence.
Qed.

(** ** Events with everything that follows them *)

(** The update of the summaries of a stage: those of the listed stages with
    its id.  What it does to the shared arrays is [stage_updated]. *)
Definition summary_updates (e : env) (now' : Z) (id : string) (s : State) : result (list (Stage * StageSummary.State * list Sparkline.Sparkline.Chart)) :=
  match snapshot_stage s with
  | Some st => mapM (fun x => StageSummary.componentDidUpdate e.1 now' x (e.2 id))
                 (filterb (fun x => String.eqb (stageId x) id) (StageList.getStages st))
  | None => Ok []
  end.

(** An event with the environment of its rendering and a second reading of the
    clock: every [setState] renders the page, that of [componentDidUpdate]
    included, and the summaries of the stages update. *)
Definition page_op : Type := env * Z * op.

Definition page_exec (o : page_op) (s : State) : result State :=
  let '(e, t, o) := o in
  match o with
  | Refresh now q => _ ← commit URL local pathname e (set_query now q s); commit URL local pathname e (refresh_success now q s)
  | RefreshError => commit URL local pathname e (refresh_error s)
  | TaskClick => s' ← handleTaskRefreshClick s; commit URL local pathname e s'
  | StageClick => s' ← handleStageRefreshClick s; commit URL local pathname e s'
  | FilterClick f => commit URL local pathname e (handleTaskFilterClick f s)
  | PageUpdate now now' =>
      let '(s', charts, _) := componentDidUpdate now now' s in
      match charts with [] => Ok s' | _ => commit URL local pathname e s' end
  | StageUpdate id => _ ← summary_updates e t id s; Ok (stage_updated id s)
  end.

Definition run_page (ops : list page_op) (s : State) : result State := foldM page_exec ops s.

Lemma commit_id e s s' : commit URL local pathname e s = Ok s' -> s' = s.
Proof. unfold commit. destruct (render _ _ _ _ _ _); [|done]. by intros [= <-]. Qed.

(** The summary leaves the tasks in the order in which the store has them. *)
Lemma summary_sorts now now' st m st' m' charts :
  StageSummary.componentDidUpdate now now' st m = Ok (st', m', charts) ->
  tasks (sort_in_place (stageId st) st) = tasks st'.
Proof.
  destruct st as [i x p ss [ts|] subs]; [|done]. unfold StageSummary.componentDidUpdate. cbn.
  rewrite String.eqb_refl. case_if; by intros [= <- <- <-].
Qed.

Lemma page_exec_exec o s s' : page_exec o s = Ok s' -> exec o.2 s = Ok s'.
Proof.
  destruct o as [[e t] [now q| | | |f|now now'|id]]; cbn [page_exec exec snd].
  - destruct (commit _ _ _ e (set_query now q s)); [|done]. by intros ->%commit_id.
  - by intros ->%commit_id.
  - destruct (handleTaskRefreshClick s); [|done]. by intros ->%commit_id.
  - destruct (handleStageRefreshClick s); [|done]. by intros ->%commit_id.
  - by intros ->%commit_id.
  - destruct (componentDidUpdate now now' s) as [[s1 [|c cs]] b]; [done|]. by intros ->%commit_id.
  - by destruct (summary_updates e t id s).
Qed.

Lemma run_page_run ops : forall s s', run_page ops s = Ok s' -> run ops.*2 s = Ok s'.
Proof.
  unfold run_page, run. induction ops as [|o ops IH]; intros s s'; cbn; [done|].
  destruct (page_exec o s) as [s1|] eqn:E; [|done]. rewrite (page_exec_exec _ _ _ E). apply IH.
Qed.

(** ** Nothing throws *)

Definition good_op (o : page_op) : Prop := forall now q, o.2 = Refresh now q -> good_answer q.

Lemma summary_updates_ok e t id s : page_inv s -> exists l, summary_updates e t id s = Ok l.
Proof.
  intros HI. unfold summary_updates. destruct (snapshot_stage s) as [st|] eqn:E; [|eauto].
  apply (deref_good _ _ _ HI) in E as [HC _]. apply mapM_Ok. intros x [Hx _]%elem_of_filterb.
  rewrite getStages_all in Hx by (eapply Forall_impl; [exact HC|]; by intros y (_ & _ & _ & ?)).
  rewrite Forall_forall in HC. destruct (HC x Hx) as (_ & _ & [ts Hts] & _).
  unfold StageSummary.componentDidUpdate. rewrite Hts. cbn [require mbind result_bind]. case_if; eauto.
Qed.

Lemma page_exec_good o s : good_op o -> page_inv s -> is_Some (query s) ->
  exists s', page_exec o s = Ok s' /\ page_inv s' /\ is_Some (query s').
Proof.
  intros HG HI [q0 Hq].
  assert (forall s', local_update s s' -> page_inv s' /\ is_Some (query s')) as HL.
  { intros s' H. split; [by eapply local_inv|]. destruct (local_query _ _ H) as [-> _]. eauto. }
  assert (forall e s', page_inv s' /\ is_Some (query s') ->
    exists s'', commit URL local pathname e s' = Ok s'' /\ page_inv s'' /\ is_Some (query s'')) as HR.
  { intros e s' [H1 H2]. exists s'. by rewrite inv_renders. }
  destruct o as [[e t] [now q| | | |f|now now'|id]]; cbn [page_exec].
  - specialize (HG now q eq_refl). rewrite (inv_renders (set_query now q s)) by (by apply set_query_inv). cbn [mbind result_bind].
    apply HR. split; [by apply query_refresh_inv|]. destruct (refresh_query now q s) as [-> _]. eauto.
  - apply HR. split; [by apply error_inv|]. cbn. eauto.
  - destruct (handleTaskRefreshClick s) as [s1|] eqn:E; [by apply HR, HL, update_task_click|].
    unfold handleTaskRefreshClick in E. rewrite Hq in E. by destruct (taskRefresh s).
  - destruct (handleStageRefreshClick s) as [s1|] eqn:E; [by apply HR, HL, update_stage_click|].
    unfold handleStageRefreshClick in E. rewrite Hq in E. by destruct (stageRefresh s).
  - apply HR, HL, update_filter.
  - pose proof (HL _ (update_page s now now')) as H. destruct (componentDidUpdate now now' s) as [[s1 [|c cs]] b];
      [by exists s1|by apply HR].
  - destruct (summary_updates_ok e t id s HI) as [l ->]. cbn [mbind result_bind]. eexists. split; [done|].
    apply HL, update_stage.
Qed.

Lemma run_page_good ops : Forall good_op ops -> forall s, page_inv s -> is_Some (query s) ->
  exists s', run_page ops s = Ok s'.
Proof.
  unfold run_page. induction 1 as [|o ops Ho _ IH]; intros s HI Hq; cbn; [eauto|].
  destruct (page_exec_good o s Ho HI Hq) as (s1 & -> & H1 & H2). by apply IH.
Qed.

(** The invariant of a page that did not throw so far; before the first
    answer a click may throw. *)
Lemma run_page_inv ops s s' : Forall good_op ops -> page_inv s -> run_page ops s = Ok s' -> page_inv s'.
Proof.
  intros HG. unfold run_page. revert s. induction HG as [|o ops Ho _ IH]; intros s HI; cbn; [by intros [= <-]|].
  destruct (page_exec o s) as [s1|] eqn:E; [|done]. apply IH. apply page_exec_exec in E.
  destruct o as [[e t] [now q| | | |f|now now'|id]]; cbn [exec snd] in E.
  - injection E as <-. apply query_refresh_inv; [by eapply Ho|done].
  - injection E as <-. by apply error_inv.
  - eapply local_inv; [done|]. by apply update_task_click.
  - eapply local_inv; [done|]. by apply update_stage_click.
  - injection E as <-. eapply local_inv; [done|]. apply update_filter.
  - injection E as <-. eapply local_inv; [done|]. apply update_page.
  - injection E as <-. eapply local_inv; [done|]. apply update_stage.
Qed.

(** C4: what is not refreshed stays as it is.  After any events, and as far as
    the page goes on without an exception: while the auto-refresh of the tasks
    is off, and until its button is clicked again, the list shows the same
    tasks, as far as the filter accepts them, whatever answers arrive and
    although the list of stages reorders shared arrays; and the same holds for
    the stages, which keep their number, their data and their tasks, up to the
    order of the tasks.  And once the page has the query it does go on: when
    every answer is complete, no answer, error, click or update throws, the
    rendering of the page and the updates of the stages included. *)
Theorem frozen_snapshots (pre ops : list page_op) (s : State) :
  run_page pre initial_state = Ok s ->
  (forall s', run_page ops s = Ok s' ->
     (taskRefresh s = false -> TaskClick ∉ ops.*2 ->
        shown_tasks s' ≡ₚ filterb (fun t => accepts (taskFilter s') (taskState (taskStatus t))) (snapshot_tasks s)) /\
     (stageRefresh s = false -> StageClick ∉ ops.*2 ->
        option_Forall2 same_stage (snapshot_stage s') (snapshot_stage s))) /\
  (Forall good_op pre -> Forall good_op ops -> is_Some (query s) -> exists s', run_page ops s = Ok s').
Proof.
  intros Hpre. split.
  - intros s' Hrun. apply (frozen_run pre.*2); by apply run_page_run.
  - intros G1 G2 Hq. apply run_page_good; [done| |done]. by eapply run_page_inv, Hpre; [|apply page_inv_initial].
Qed.
End page.

(** ** Example *)

(** The lists have been switched off; the stages update, and an answer without
    stages comes. *)
Definition at_time (o : op) : page_op := ((5000, fun _ => StageSummary.initial_state), 5001, o).
Definition page_before : list page_op := map at_time before_off.
Definition after_off : list page_op :=
  map at_time [StageUpdate "q.1"; FilterClick FINISHED; Refresh 7000 (sample_info None); PageUpdate 7001 7002].
Definition sample_run : list page_op -> State -> result State :=
  run_page simple_URL (fun _ => local_date 0 0) "/ui/query.html".

Lemma page_info_good st : st = None \/ st = Some page_stage -> good_answer simple_URL (sample_info st).
Proof.
  intros H. split; [|split].
  - split; [by intros [? [=]]|done].
  - vm_compute. eauto.
  - destruct H as [-> | ->]; [done|]. intros ? [= <-]. split.
    + apply Forall_forall. intros x [->|[->|[]%elem_of_nil]%elem_of_cons]%elem_of_cons; repeat split; eauto.
    + repeat (constructor; [split; [eexists; reflexivity|vm_compute; eauto]|]). constructor.
Qed.

Lemma frozen_snapshots_witness :
  exists s', sample_run after_off off_state = Ok s' /\
    map (fun t => taskId (taskStatus t)) (shown_tasks s') = ["q.1.1"] /\
    option_Forall2 same_stage (snapshot_stage s') (Some page_stage).
Proof.
  destruct (frozen_snapshots simple_URL (fun _ => local_date 0 0) "/ui/query.html" page_before after_off off_state)
    as [H1 H2].
  - vm_compute. reflexivity.
  - destruct H2 as [s' E].
    + repeat (constructor; [intros now q [= <- <-] || intros now q [=]; apply page_info_good; eauto|]). constructor.
    + repeat (constructor; [intros now q [= <- <-] || intros now q [=]; apply page_info_good; eauto|]). constructor.
    + vm_compute. eexists. reflexivity.
    + exists s'. split; [exact E|]. destruct (H1 s' E) as [_ H3]. split.
      * vm_compute in E. injection E as <-. vm_compute. reflexivity.
      * apply H3; [vm_compute; reflexivity|]. intros H. repeat (apply elem_of_cons in H as [H|H]; [discriminate H|]).
        by apply elem_of_nil in H.
Defined.
