(* ===== verification/StatementClient.v ===== *)
(** * tableau/presto-client.js: the client of the Tableau web connector

    [StatementClient] runs a statement: it posts it, then follows the
    [nextUri] of each answer, and hands columns, rows and errors to three
    callbacks.  Its requests are synchronous, so a call returns when the
    coordinator has answered.  The answers are a list that the calls consume;
    what the client does is a list of requests and callbacks. *)
From S2P Require Import Prelude JsString JsNumber JsArray JsObject JsJson UtilsQuery.
Local Open Scope Z_scope.

Module StatementClient.

(** ** Data *)

(** [undefined] fields are [None]. *)
Record ConnectionData := {
  cdQuery : string;
  cdCatalog : option string;
  cdSchema : option string;
  userName : option string;
  cdSessionParameters : option string
}.

Record Error := { errorName : string; message : string }.

Section client.
(** Columns and rows are handed on as they are. *)
Context {columns_t data_t : Type}.

Record Response := {
  nextUri : option string;
  columns : option columns_t;
  data : option data_t;
  error : option Error
}.

(** What the coordinator answers to a request. *)
Inductive answer :=
| Success (response : Response)
| Failure (responseText errorStr : string).

Inductive header := HString (s : string) | HList (l : list string).
Definition headers_t : Type := list (string * header).

(** What the client does. *)
Inductive event :=
| Request (method url : string) (headers : headers_t) (body : option string)
| HeaderCallback (columns : option columns_t)
| DataCallback (data : data_t) (columns : option columns_t) (lastRecordNumber : Z)
| ErrorCallback (name message : string).

Record Client := {
  query : string;
  headers : headers_t;
  currentResults : option Response;
  valid : bool
}.

(** ** The constructor *)

(** ToString of a parsed value; an array joins its elements, [null] ones
    empty. *)
Fixpoint json_to_string (j : json) : string :=
  match j with
  | JNull => "null"
  | JBool b => if b then "true" else "false"
  | JNum n => num_to_string n
  | JStr s => s
  | JArr l => join "," (map (fun x => match x with JNull => "" | _ => json_to_string x end) l)
  | JObj _ => "[object Object]"
  end.

Definition index_names {A} (l : list A) : list (string * A) :=
  zip (map (fun i => num_to_string (num_of_Z i)) (seqZ 0 (alen l))) l.

(** What [for (var name in parameterMap)] visits, with the values. *)
Definition enumerate (j : json) : list (string * json) :=
  match j with
  | JObj members =>
      let o := fold_left (fun d e => dict_set e.1 e.2 d) members [] in
      map (fun name => (name, default JNull (dict_get name o))) (own_keys o)
  | JArr l => index_names l
  | JStr s => index_names (map (fun c => JStr (String c "")) (String.list_ascii_of_string s))
  | _ => []
  end.

Definition session_parameters (cd : ConnectionData) : result (list string) :=
  match cdSessionParameters cd with
  | None => Ok []
  | Some text =>
      parameterMap ← JSON_parse text;
      Ok (map (fun '(name, value) => name +:+ "=" +:+ json_to_string value) (enumerate parameterMap))
  end.

Definition make_headers (cd : ConnectionData) (sessionParameters : list string) : headers_t :=
  [("X-Presto-User", HString (if truthy_string (userName cd) then default "" (userName cd) else "N/A"));
   ("X-Presto-Source", HString "Tableau Web Connector");
   ("X-Presto-Session", HList sessionParameters)]
  ++ match cdCatalog cd with Some c => [("X-Presto-Catalog", HString c)] | None => [] end
  ++ match cdSchema cd with Some s => [("X-Presto-Schema", HString s)] | None => [] end.

(** ** Operations *)

Definition set_results (r : Response) (c : Client) : Client :=
  {| query := query c; headers := headers c; currentResults := Some r; valid := valid c |}.

Definition responseHandler (response : Response) (lastRecordNumber : Z) : list event :=
  match error response with Some e => [ErrorCallback (errorName e) (message e)] | None => [] end
  ++ match columns response with Some c => [HeaderCallback (Some c)] | None => [] end
  ++ match data response with
     | Some d => [HeaderCallback (columns response); DataCallback d (columns response) lastRecordNumber]
     | None => []
     end.

(** A call consumes answers; it does not return while the coordinator has not
    answered. *)
Definition submitQuery (lastRecordNumber : Z) (c : Client) (answers : list answer)
    : option (Client * list event * list answer) :=
  let post := Request "POST" "/v1/statement" (headers c) (Some (query c)) in
  match answers with
  | [] => None
  | Failure text str :: rest => Some (c, [post; ErrorCallback text str], rest)
  | Success r :: rest => Some (set_results r c, post :: responseHandler r lastRecordNumber, rest)
  end.

(** [this.currentResults.nextUri], when both are true. *)
Definition next (c : Client) : option string :=
  match currentResults c with
  | Some r => if truthy_string (nextUri r) then nextUri r else None
  | None => None
  end.

Definition stop (c : Client) : Client :=
  {| query := query c; headers := headers c; currentResults := currentResults c; valid := false |}.

Definition has_result (r : Response) : bool := bool_decide (is_Some (data r)) || bool_decide (is_Some (error r)).

Fixpoint advance (lastRecordNumber : Z) (c : Client) (answers : list answer)
    : option (Client * list event * list answer) :=
  match next c with
  | None => Some (stop c, [], answers)
  | Some uri =>
      let get := Request "GET" uri (headers c) None in
      match answers with
      | [] => None
      | Failure text str :: rest => Some (c, [get; ErrorCallback text str], rest)
      | Success r :: rest =>
          let c := set_results r c in
          let events := get :: responseHandler r lastRecordNumber in
          if has_result r then Some (c, events, rest)
          else
            (* no data in this batch, schedule another GET *)
            match advance lastRecordNumber c rest with
            | Some (c', events', rest') => Some (c', events ++ events', rest')
            | None => None
            end
      end
  end.

(** [new StatementClient(connectionData, ...)] *)
Definition create (cd : ConnectionData) (answers : list answer)
    : result (option (Client * list event * list answer)) :=
  params ← session_parameters cd;
  Ok (submitQuery 0 {| query := cdQuery cd; headers := make_headers cd params;
                       currentResults := None; valid := true |} answers).
End client.
End StatementClient.
Import StatementClient.

(** ** Following a statement to its end *)

Section script.
Context {columns_t data_t : Type}.
Notation Response := (@Response columns_t data_t).
Notation Client := (@Client columns_t data_t).
Notation event := (@event columns_t data_t).
Notation answer := (@answer columns_t data_t).

(** The loop of the callers: [while (client.valid) client.advance(0)]. *)
Fixpoint drain (fuel : nat) (c : Client) (answers : list answer) : option (Client * list event * list answer) :=
  if valid c then
    match fuel with
    | O => None
    | S fuel' =>
        match advance 0 c answers with
        | None => None
        | Some (c', events, rest) =>
            match drain fuel' c' rest with
            | Some (c'', events', rest') => Some (c'', events ++ events', rest')
            | None => None
            end
        end
    end
  else Some (c, [], answers).

(** The answers to one statement: each but the last one names the next. *)
Fixpoint chained (r : Response) (rest : list Response) : Prop :=
  match rest with
  | [] => truthy_string (nextUri r) = false
  | r' :: rest' => truthy_string (nextUri r) = true /\ chained r' rest'
  end.

(** What a client does that follows them; [n] is the record number it was
    given. *)
Fixpoint followed (n : Z) (hs : headers_t) (r : Response) (rest : list Response) : list event :=
  match rest with
  | [] => []
  | r' :: rest' =>
      Request "GET" (default "" (nextUri r)) hs None :: responseHandler r' n ++ followed n hs r' rest'
  end.

Definition last_of (r : Response) (l : list Response) : Response := default r (last l).

Lemma last_of_cons r x pre : last_of r (x :: pre) = last_of x pre.
Proof.
  unfold last_of. destruct pre as [|y pre]; [done|]. change (last (x :: y :: pre)) with (last (y :: pre)).
  destruct (last (y :: pre)) eqn:E; [done|]. by apply last_None in E.
Qed.

Lemma followed_app n hs pre : forall r post,
  followed n hs r (pre ++ post) = followed n hs r pre ++ followed n hs (last_of r pre) post.
Proof.
  induction pre as [|x pre IH]; intros r post; cbn [followed app]; [done|]. f_equal.
  by rewrite IH, last_of_cons, app_assoc.
Qed.

Lemma next_chained c r r' rest : currentResults c = Some r -> chained r (r' :: rest) ->
  next c = Some (default "" (nextUri r)).
Proof.
  intros E [H _]. unfold next. rewrite E, H. destruct (nextUri r); [done|]. done.
Qed.

(** One call of [advance]: it goes on to the first answer with a result, or to
    the end. *)
Lemma advance_prefix n more rest : forall r c, currentResults c = Some r -> chained r rest ->
  exists pre post c', rest = pre ++ post /\
    advance n c (map Success rest ++ more) = Some (c', followed n (headers c) r pre, map Success post ++ more) /\
    headers c' = headers c /\ currentResults c' = Some (last_of r pre) /\ chained (last_of r pre) post /\
    ((valid c' = false /\ post = []) \/
     (pre <> [] /\ valid c' = valid c /\ has_result (last_of r pre) = true)).
Proof.
  induction rest as [|r' rest IH]; intros r c Ec Hch.
  - exists [], [], (stop c). split; [done|]. split; [|by split_and!; [..|left]].
    assert (next c = None) as Hn by (unfold next; rewrite Ec; cbn in Hch; by rewrite Hch).
    destruct more as [|a more]; cbn [map app advance]; by rewrite Hn.
  - cbn [map app advance]. rewrite (next_chained c r r' rest) by done. destruct Hch as [Hr Hch].
    destruct (has_result r') eqn:Eh.
    + exists [r'], rest, (set_results r' c). split; [done|]. split; [cbn; by rewrite app_nil_r|].
      split_and!; [done..|]. by right.
    + destruct (IH r' (set_results r' c) eq_refl Hch) as (pre & post & c' & -> & -> & Hh & E & H & Hcase).
      exists (r' :: pre), post, c'. rewrite last_of_cons. split_and!; [done..|].
      destruct Hcase as [?|(_ & Hv & Hres)]; [by left|by right].
Qed.

Lemma drain_followed fuel : forall rest r c more,
  (length rest < fuel)%nat -> valid c = true -> currentResults c = Some r -> chained r rest ->
  exists c', drain fuel c (map Success rest ++ more) = Some (c', followed 0 (headers c) r rest, more) /\ valid c' = false.
Proof.
  induction fuel as [|fuel IH]; intros rest r c more Hf Hv Ec Hch; [lia|].
  cbn [drain]. rewrite Hv.
  destruct (advance_prefix 0 more rest r c Ec Hch) as (pre & post & c' & -> & -> & Hh & E & H & Hcase).
  destruct (valid c') eqn:Hv'.
  - destruct Hcase as [[? _]|(Hne & _ & _)]; [done|].
    rewrite length_app in Hf. assert (length pre <> 0%nat) by (destruct pre; done).
    destruct (IH post (last_of r pre) c' more) as (c'' & -> & Hv''); [lia|done|done|done|].
    exists c''. split; [|done]. by rewrite followed_app, Hh.
  - exists c'. destruct Hcase as [[_ ->]|(_ & Hvc & _)]; [|congruence].
    split; [|done]. rewrite app_nil_r. destruct fuel; cbn; rewrite Hv'; by rewrite app_nil_r.
Qed.

(** ** What the callbacks get *)

Definition rows_of (es : list event) : list data_t :=
  omap (fun e => match e with DataCallback d _ _ => Some d | _ => None end) es.
Definition errors_of (es : list event) : list (string * string) :=
  omap (fun e => match e with ErrorCallback n m => Some (n, m) | _ => None end) es.
Definition requests_of (es : list event) : list (string * string) :=
  omap (fun e => match e with Request m u _ _ => Some (m, u) | _ => None end) es.

Definition error_pair (r : Response) : option (string * string) := (fun e => (errorName e, message e)) <$> error r.

Lemma handler_rows r n : rows_of (responseHandler r n) = option_list (data r).
Proof. unfold responseHandler. by destruct (error r), (columns r), (data r). Qed.
Lemma handler_errors r n : errors_of (responseHandler r n) = option_list (error_pair r).
Proof. unfold responseHandler, error_pair. by destruct (error r), (columns r), (data r). Qed.
Lemma handler_requests r n : requests_of (responseHandler r n) = [].
Proof. unfold responseHandler. by destruct (error r), (columns r), (data r). Qed.

Lemma omap_cons_list {A B} (f : A -> option B) x l : omap f (x :: l) = option_list (f x) ++ omap f l.
Proof. cbn. by destruct (f x). Qed.

Lemma followed_spec n hs rest : forall r,
  rows_of (followed n hs r rest) = omap data rest /\ errors_of (followed n hs r rest) = omap error_pair rest /\
  requests_of (followed n hs r rest) = map (fun x => ("GET", default "" (nextUri x))) (take (length rest) (r :: rest)).
Proof.
  induction rest as [|r' rest IH]; intros r; cbn [followed]; [done|]. destruct (IH r') as (H1 & H2 & H3).
  rewrite !omap_cons_list. unfold rows_of, errors_of, requests_of in *. cbn [omap list_omap].
  rewrite !omap_app, H1, H2, H3. fold (rows_of (responseHandler r' n)) (errors_of (responseHandler r' n)).
  fold (requests_of (responseHandler r' n)). by rewrite handler_rows, handler_errors, handler_requests.
Qed.

(** ** Requests that fail on the way *)

(** The answers to one statement when requests may fail: a request that fails
    is made again, until the coordinator answers it; the last answer names no
    next one. *)
Fixpoint served (r : Response) (answers : list answer) : Prop :=
  match answers with
  | [] => truthy_string (nextUri r) = false
  | Failure _ _ :: rest => truthy_string (nextUri r) = true /\ served r rest
  | Success r' :: rest => truthy_string (nextUri r) = true /\ served r' rest
  end.

(** What the client does when it gets them. *)
Fixpoint exchanged (n : Z) (hs : headers_t) (r : Response) (answers : list answer) : list event :=
  match answers with
  | [] => []
  | Failure text str :: rest =>
      Request "GET" (default "" (nextUri r)) hs None :: ErrorCallback text str :: exchanged n hs r rest
  | Success r' :: rest =>
      Request "GET" (default "" (nextUri r)) hs None :: responseHandler r' n ++ exchanged n hs r' rest
  end.

(** The response the client holds after them. *)
Fixpoint current (r : Response) (answers : list answer) : Response :=
  match answers with
  | [] => r
  | Failure _ _ :: rest => current r rest
  | Success r' :: rest => current r' rest
  end.

Lemma exchanged_app n hs pre : forall r post,
  exchanged n hs r (pre ++ post) = exchanged n hs r pre ++ exchanged n hs (current r pre) post.
Proof. induction pre as [|[x|t e] pre IH]; intros r post; cbn; [done| |]; by rewrite IH, ?app_assoc. Qed.

Lemma next_truthy (c : Client) (r : Response) : currentResults c = Some r ->
  next c = if truthy_string (nextUri r) then Some (default "" (nextUri r)) else None.
Proof. intros E. unfold next. rewrite E. by destruct (nextUri r) as [[|]|]. Qed.

Lemma advance_served n more answers : forall r c, currentResults c = Some r -> served r answers ->
  exists pre post c', answers = pre ++ post /\
    advance n c (answers ++ more) = Some (c', exchanged n (headers c) r pre, post ++ more) /\
    headers c' = headers c /\ currentResults c' = Some (current r pre) /\ served (current r pre) post /\
    ((valid c' = false /\ post = []) \/ (pre <> [] /\ valid c' = valid c)).
Proof.
  induction answers as [|[r'|t e] answers IH]; intros r c Ec Hch.
  - exists [], [], (stop c). split; [done|]. split; [|by split_and!; [..|left]]. cbn in Hch.
    destruct more; cbn [app advance]; by rewrite (next_truthy c r), Hch.
  - destruct Hch as [Hr Hch]. cbn [app advance]. rewrite (next_truthy c r), Hr by done.
    destruct (has_result r').
    + exists [Success r'], answers, (set_results r' c). split; [done|]. split; [cbn; by rewrite app_nil_r|].
      split_and!; [done..|]. by right.
    + destruct (IH r' (set_results r' c) eq_refl Hch) as (pre & post & c' & -> & -> & Hh & E & H & Hcase).
      exists (Success r' :: pre), post, c'. split_and!; [done..|]. destruct Hcase as [?|(_ & Hv)]; [by left|by right].
  - destruct Hch as [Hr Hch]. cbn [app advance]. rewrite (next_truthy c r), Hr by done.
    exists [Failure t e], answers, c. split_and!; [done..|]. by right.
Qed.

Lemma drain_served fuel : forall answers r c more,
  (length answers < fuel)%nat -> valid c = true -> currentResults c = Some r -> served r answers ->
  exists c', drain fuel c (answers ++ more) = Some (c', exchanged 0 (headers c) r answers, more) /\ valid c' = false.
Proof.
  induction fuel as [|fuel IH]; intros answers r c more Hf Hv Ec Hch; [lia|].
  cbn [drain]. rewrite Hv.
  destruct (advance_served 0 more answers r c Ec Hch) as (pre & post & c' & -> & -> & Hh & E & H & Hcase).
  destruct (valid c') eqn:Hv'.
  - destruct Hcase as [[? _]|(Hne & _)]; [done|].
    rewrite length_app in Hf. assert (length pre <> 0%nat) by (destruct pre; done).
    destruct (IH post (current r pre) c' more) as (c'' & -> & Hv''); [lia|done|done|done|].
    exists c''. split; [|done]. by rewrite exchanged_app, Hh.
  - exists c'. destruct Hcase as [[_ ->]|(_ & Hvc)]; [|congruence].
    split; [|done]. rewrite app_nil_r. destruct fuel; cbn; rewrite Hv'; by rewrite app_nil_r.
Qed.

Definition response_of (a : answer) : option Response := match a with Success r => Some r | Failure _ _ => None end.

(** The error that an answer brings. *)
Definition answer_error (a : answer) : option (string * string) :=
  match a with Success r => error_pair r | Failure text str => Some (text, str) end.

(** The addresses that are asked: the [nextUri] of the last response, once for
    each answer. *)
Fixpoint asked (r : Response) (answers : list answer) : list string :=
  match answers with
  | [] => []
  | a :: rest => default "" (nextUri r) :: asked (default r (response_of a)) rest
  end.

Lemma exchanged_spec n hs answers : forall r,
  rows_of (exchanged n hs r answers) = omap data (omap response_of answers) /\
  errors_of (exchanged n hs r answers) = omap answer_error answers /\
  requests_of (exchanged n hs r answers) = map (pair "GET") (asked r answers).
Proof.
  induction answers as [|[r'|t e] answers IH]; intros r; cbn [exchanged asked response_of default]; [done| |].
  - destruct (IH r') as (H1 & H2 & H3). rewrite !omap_cons_list. cbn [response_of answer_error option_list app].
    unfold rows_of, errors_of, requests_of in *. cbn [omap list_omap map].
    rewrite !omap_app, H1, H2, H3. fold (rows_of (responseHandler r' n)) (errors_of (responseHandler r' n)).
    fold (requests_of (responseHandler r' n)). by rewrite handler_rows, handler_errors, handler_requests.
  - destruct (IH r) as (H1 & H2 & H3). unfold rows_of, errors_of, requests_of in *. cbn.
    by rewrite H1, H2, H3.
Qed.

(** C8: a statement is followed to its end, also when requests fail on the
    way.  Let the coordinator answer the post, and let every later request be
    answered at last, after any number of failures, each answer but the last
    one with a [nextUri].  Then a caller that advances while the client is
    valid stops, after at most one call more than there are answers; it has
    asked the [nextUri] of each response until it was answered, and nothing
    else; every batch of rows has been handed to its callback once, in order,
    also when batches without rows come between; and so has every error, of a
    response or of a failed request.  When the post itself fails the error is
    handed over and the next call stops without a request. *)
Theorem statement_followed (c : Client) (r : Response) (answers more : list answer) :
  valid c = true -> currentResults c = None -> served r answers ->
  (exists c1 events1 c2 events2,
    submitQuery 0 c (Success r :: answers ++ more) = Some (c1, events1, answers ++ more) /\
    drain (S (length answers)) c1 (answers ++ more) = Some (c2, events2, more) /\
    valid c2 = false /\
    requests_of (events1 ++ events2) = ("POST", "/v1/statement") :: map (pair "GET") (asked r answers) /\
    rows_of (events1 ++ events2) = omap data (r :: omap response_of answers) /\
    errors_of (events1 ++ events2) = omap answer_error (Success r :: answers)) /\
  forall text str,
    submitQuery 0 c (Failure text str :: more) =
      Some (c, [Request "POST" "/v1/statement" (headers c) (Some (query c)); ErrorCallback text str], more) /\
    drain 1 c more = Some (stop c, [], more).
Proof.
  intros Hv Hn Hch. split.
  - exists (set_results r c). eexists.
    destruct (drain_served (S (length answers)) answers r (set_results r c) more) as (c2 & Hd & Hv2); [lia|done|done|done|].
    exists c2. eexists. split; [done|]. split; [exact Hd|]. split; [done|].
    destruct (exchanged_spec 0 (headers (set_results r c)) answers r) as (H1 & H2 & H3).
    rewrite !omap_cons_list. cbn [answer_error]. rewrite <- (handler_rows r 0), <- (handler_errors r 0).
    unfold rows_of, errors_of, requests_of in *. cbn [omap list_omap app]. rewrite !omap_app, H1, H2, H3.
    fold (requests_of (responseHandler r 0)). rewrite handler_requests. done.
  - intros text str. split; [done|]. cbn [drain]. rewrite Hv.
    assert (next c = None) as E by (unfold next; by rewrite Hn). by destruct more; cbn [advance]; rewrite E.
Qed.

(** a failed request changes nothing of the client: it stays valid and
    will ask the same [nextUri] again, so a caller that advances while the
    client is valid never stops as long as the requests fail. *)
Theorem failed_request_repeats (c : Client) (failures : list (string * string)) (fuel : nat) :
  valid c = true -> is_Some (next c) -> (fuel <= length failures)%nat ->
  drain fuel c (map (fun f => Failure f.1 f.2) failures) = None.
Proof.
  intros Hv [uri Hn]. revert failures. induction fuel as [|fuel IH]; intros failures Hf; cbn [drain]; rewrite Hv; [done|].
  destruct failures as [|[t e] failures]; [cbn in Hf; lia|]. cbn [map advance]. rewrite Hn.
  rewrite IH by (cbn in Hf; lia). done.
Qed.
End script.

(** ** Examples *)

Definition sample_connection : ConnectionData := {|
  cdQuery := "SELECT 1"; cdCatalog := Some "hive"; cdSchema := None; userName := Some "";
  cdSessionParameters := Some ("{" +:+ quoted "b" +:+ ":1," +:+ quoted "a" +:+ ":[true,null]}") |}.

(** An empty user name, a catalog and two session parameters. *)
Example create_ex : exists c es,
  create (columns_t := unit) (data_t := nat) sample_connection [Failure "503" "unavailable"] = Ok (Some (c, es, [])) /\
  headers c = [("X-Presto-User", HString "N/A"); ("X-Presto-Source", HString "Tableau Web Connector");
               ("X-Presto-Session", HList ["b=1"; "a=true,"]); ("X-Presto-Catalog", HString "hive")] /\
  errors_of es = [("503", "unavailable")].
Proof. eexists _, _. split; [vm_compute; reflexivity|]. done. Qed.

Definition reply (uri : option string) (rows : option nat) : @Response unit nat :=
  {| nextUri := uri; columns := Some tt; data := rows; error := None |}.

Definition fresh : @Client unit nat := {| query := "SELECT 1"; headers := []; currentResults := None; valid := true |}.

(** Rows, an empty batch, rows, the end, with two failures on the way. *)
Definition interrupted : list (@answer unit nat) :=
  [Failure "503" "busy"; Success (reply (Some "/2") (Some 10%nat)); Success (reply (Some "/3") None);
   Failure "500" "down"; Success (reply (Some "/4") (Some 20%nat)); Success (reply None None)].

Lemma statement_followed_witness :
  exists c1 es1 c2 es2,
    submitQuery 0 fresh (Success (reply (Some "/1") None) :: interrupted) = Some (c1, es1, interrupted) /\
    drain 7 c1 interrupted = Some (c2, es2, []) /\
    rows_of (es1 ++ es2) = [10%nat; 20%nat] /\
    errors_of (es1 ++ es2) = [("503", "busy"); ("500", "down")] /\
    requests_of (es1 ++ es2) =
      [("POST", "/v1/statement"); ("GET", "/1"); ("GET", "/1"); ("GET", "/2"); ("GET", "/3"); ("GET", "/3"); ("GET", "/4")].
Proof.
  destruct (statement_followed fresh (reply (Some "/1") None) interrupted [])
    as [(c1 & e1 & c2 & e2 & H1 & H2 & _ & H3 & H4 & H5) _].
  - reflexivity.
  - reflexivity.
  - vm_compute. tauto.
  - rewrite app_nil_r in H1, H2. exists c1, e1, c2, e2. split; [exact H1|]. split; [exact H2|].
    rewrite H3, H4, H5. split_and!; reflexivity.
Defined.

Lemma failed_request_repeats_witness :
  drain 2 (set_results (reply (Some "/1") None) fresh) [Failure "503" "a"; Failure "503" "b"] = None.
Proof.
  apply (failed_request_repeats (set_results (reply (Some "/1") None) fresh) [("503", "a"); ("503", "b")] 2).
  - reflexivity.
  - vm_compute. eauto.
  - cbn. lia.
Defined.
