(* ===== verification/PrestoConnector.v ===== *)
(** * tableau/presto-connector.html: the Tableau web connector

    The script of the connector page.  In its interactive phase it shows a
    form for a statement and its settings and stores them as JSON text; in the
    data gathering phase Tableau asks it for the column headers, then for the
    rows, page by page.  The connector runs the statement with a
    [StatementClient], whose callbacks fill the connector's variables.

    The calls of the page on Tableau are values; log calls are left out.  As
    for [StatementClient], the coordinator is the list of its answers, and a
    call that waits for an answer that does not come is [None].  The client calls
    its callbacks from the load event of a request, so the browser reports an
    exception of a callback and the call that sent the request goes on. *)
From S2P Require Import Prelude JsString JsNumber JsArray JsObject JsJson JsJsonPrint UtilsQuery QueryInfo StatementClient.
Import StatementClient.
Local Open Scope Z_scope.

Module PrestoConnector.

(** ** Data *)

Record Column := { columnName : string; columnType : string }.

Abbreviation columns_t := (list Column).
Abbreviation data_t := (list (list json)).
Abbreviation Client := (@StatementClient.Client columns_t data_t).
Abbreviation Response := (@StatementClient.Response columns_t data_t).
Abbreviation answer := (@StatementClient.answer columns_t data_t).
Abbreviation event := (@StatementClient.event columns_t data_t).

(** A row for Tableau; [None] is the value [undefined]. *)
Definition row : Type := obj (option json).

(** What the page asks of Tableau. *)
Inductive call :=
| HeadersCallback (fieldNames fieldTypes : list string)
| TableDataCallback (data : list row) (lastRecordNumber : Z) (moreData : bool)
| AbortWithError (message : string).

(** The global variables of the script. *)
Record State := {
  headersPushed : bool;
  statementClient : option Client;
  getTableDataCalled : bool;
  buffer : list data_t;
  schema : option columns_t;
  errorName : option string;
  errorMessage : option string
}.

Definition initial_state : State :=
  {| headersPushed := false; statementClient := None; getTableDataCalled := false; buffer := []; schema := None;
     errorName := None; errorMessage := None |}.

(** ** Callbacks *)

Definition tableauType (columnType : string) : string :=
  if String.eqb columnType "boolean" then "bool"
  else if String.eqb columnType "date" then "date"
  else "string".

Definition set_headers (columns : columns_t) (s : State) : State :=
  {| headersPushed := true; statementClient := statementClient s; getTableDataCalled := getTableDataCalled s;
     buffer := buffer s; schema := Some columns; errorName := errorName s; errorMessage := errorMessage s |}.

Definition pushHeadersToTableau (columns : option columns_t) (s : State) : State * list call :=
  match columns with
  | Some columns =>
      if headersPushed s then (s, [])
      else (set_headers columns s,
            [HeadersCallback (map columnName columns) (map (fun c => tableauType (columnType c)) columns)])
  | None => (s, [])
  end.

Definition isComplexType (typeName : string) : bool :=
  (indexOf typeName "map" =? 0) || (indexOf typeName "array" =? 0) || (indexOf typeName "row" =? 0).

(** since Tableau doesn't support complex types convert them to json strings
    so at least they get rendered *)
Definition tableauCell (c : Column) (value : option json) : option json :=
  if isComplexType (columnType c) then (fun v => JStr (JSON_stringify v)) <$> value else value.

(** The loop over the columns, from the [j]th value on. *)
Fixpoint fillRow (columns : columns_t) (dataArray : list json) (r : row) : row :=
  match columns with
  | [] => r
  | c :: columns' => fillRow columns' (tail dataArray) (obj_assign (columnName c) (tableauCell c (head dataArray)) r)
  end.

Definition with_buffer (b : list data_t) (s : State) : State :=
  {| headersPushed := headersPushed s; statementClient := statementClient s;
     getTableDataCalled := getTableDataCalled s; buffer := b; schema := schema s; errorName := errorName s;
     errorMessage := errorMessage s |}.

Definition pushDataToTableau (data : data_t) (columns : option columns_t) (lastRecordNumber : Z) (s : State)
    : result (State * list call) :=
  match data with
  | [] => Ok (s, [])
  | _ =>
      if getTableDataCalled s then
        columns ← require columns;
        Ok (s, [TableDataCallback (map (fun dataArray => fillRow columns dataArray []) data) lastRecordNumber true])
      else Ok (with_buffer (buffer s ++ [data]) s, [])
  end.

Definition errorHandler (errName errMessage : string) (s : State) : State :=
  {| headersPushed := headersPushed s; statementClient := statementClient s;
     getTableDataCalled := getTableDataCalled s; buffer := buffer s; schema := schema s;
     errorName := Some errName; errorMessage := Some errMessage |}.

(** An exception in an event handler is reported, not passed on. *)
Definition reported (s : State) (r : result (State * list call)) : State * list call :=
  match r with Ok x => x | Throw _ => (s, []) end.

(** The client calls its callbacks one after the other.  Only the one for the
    rows can throw, and nothing of the same response comes after it. *)
Definition callback (e : event) (s : State) : result (State * list call) :=
  match e with
  | Request _ _ _ _ => Ok (s, [])
  | HeaderCallback columns => Ok (pushHeadersToTableau columns s)
  | DataCallback data columns lastRecordNumber => Ok (reported s (pushDataToTableau data columns lastRecordNumber s))
  | ErrorCallback name message => Ok (errorHandler name message s, [])
  end.

Fixpoint callbacks (es : list event) (s : State) : result (State * list call) :=
  match es with
  | [] => Ok (s, [])
  | e :: es' =>
      '(s1, calls1) ← callback e s;
      '(s2, calls2) ← callbacks es' s1;
      Ok (s2, calls1 ++ calls2)
  end.

(** ** The connector *)

Definition with_client (c : Client) (s : State) : State :=
  {| headersPushed := headersPushed s; statementClient := Some c; getTableDataCalled := getTableDataCalled s;
     buffer := buffer s; schema := schema s; errorName := errorName s; errorMessage := errorMessage s |}.

(** [statementClient.advance(lastRecordNumber)] *)
Definition advanceClient (lastRecordNumber : Z) (s : State) (answers : list answer)
    : option (result (State * list call * list answer)) :=
  match statementClient s with
  | None => Some (Throw TypeError)
  | Some c =>
      match advance lastRecordNumber c answers with
      | None => None
      | Some (c', es, rest) =>
          Some ('(s', calls) ← callbacks es (with_client c' s); Ok (s', calls, rest))
      end
  end.

(** [while (!(headersPushed || errorMessage))]; [None] also when the loop has
    not ended after [fuel] rounds. *)
Fixpoint headerLoop (fuel : nat) (s : State) (answers : list answer)
    : option (result (State * list call * list answer)) :=
  if headersPushed s || truthy_string (errorMessage s) then Some (Ok (s, [], answers))
  else match fuel with
  | O => None
  | S fuel' =>
      match advanceClient 0 s answers with
      | None => None
      | Some (Throw e) => Some (Throw e)
      | Some (Ok (s1, calls1, rest1)) =>
          match headerLoop fuel' s1 rest1 with
          | None => None
          | Some (Throw e) => Some (Throw e)
          | Some (Ok (s2, calls2, rest2)) => Some (Ok (s2, calls1 ++ calls2, rest2))
          end
      end
  end.

(** A field of the connection data, as the client reads it. *)
Definition textField (k : string) (j : json) : option string := json_to_string <$> jget k j.

(** What the constructor of the client takes from the parsed connection data.
    A [null] user counts as none. *)
Definition connectionDataOf (j : json) : ConnectionData := {|
  cdQuery := default "" (textField "query" j);
  cdCatalog := textField "catalog" j;
  cdSchema := textField "schema" j;
  userName := match jget "userName" j with Some JNull => None | _ => textField "userName" j end;
  cdSessionParameters := textField "sessionParameters" j
|}.

Definition headersError (s : State) : string :=
  "Error: [" +:+ default "null" (errorName s) +:+ "]: " +:+ default "null" (errorMessage s).

Definition getColumnHeaders (fuel : nat) (connectionData : string) (s : State) (answers : list answer)
    : option (result (State * list call * list answer)) :=
  match (j ← JSON_parse connectionData; create (connectionDataOf j) answers) with
  | Throw e => Some (Throw e)
  | Ok None => None
  | Ok (Some (c, es, rest)) =>
      match callbacks es s with
      | Throw e => Some (Throw e)
      | Ok (s1, calls1) =>
          (* Tableau waits for the headers before calling getTableData() *)
          match headerLoop fuel (with_client c s1) rest with
          | None => None
          | Some (Throw e) => Some (Throw e)
          | Some (Ok (s2, calls2, rest2)) =>
              let abort := if truthy_string (errorMessage s2) then [AbortWithError (headersError s2)] else [] in
              Some (Ok (s2, calls1 ++ calls2 ++ abort, rest2))
          end
      end
  end.

Definition with_called (s : State) : State :=
  {| headersPushed := headersPushed s; statementClient := statementClient s; getTableDataCalled := true;
     buffer := buffer s; schema := schema s; errorName := errorName s; errorMessage := errorMessage s |}.

Definition clientValid (s : State) : bool := match statementClient s with Some c => valid c | None => false end.

Definition getTableData (lastRecordNumber : Z) (s : State) (answers : list answer)
    : option (result (State * list call * list answer)) :=
  let s := with_called s in
  match buffer s with
  | data :: rest =>
      (* exhaust the buffer first *)
      Some ('(s', calls) ← pushDataToTableau data (schema s) lastRecordNumber (with_buffer rest s);
            Ok (s', calls, answers))
  | [] =>
      match advanceClient lastRecordNumber s answers with
      | None => None
      | Some (Throw e) => Some (Throw e)
      | Some (Ok (s', calls, rest)) =>
          let done := if clientValid s' then [] else [TableDataCallback [] lastRecordNumber false] in
          Some (Ok (s', calls ++ done, rest))
      end
  end.
End PrestoConnector.
