(* ===== verification/PrestoConnectorFacts.v ===== *)
(** * Properties of the Tableau connector

    What Tableau gets of a statement: its headers once, all its rows in order,
    or its error; when the calls return and when they do not. *)
From S2P Require Import Prelude JsString JsNumber JsArray JsObject JsJson JsJsonPrint UtilsQuery QueryInfo.
From S2P Require Import StatementClient PrestoConnector.
Import StatementClient PrestoConnector.
Local Open Scope Z_scope.

(** ** Tableau *)

(** What Tableau does with the calls of [getTableData]: rows that are delivered
    with [moreData] make it ask again with the record number it was given;
    without it the import is complete.  A page that delivers nothing is never
    asked again. *)
Inductive import := Imported (rows : list row) | Stalled (rows : list row).

Definition add_rows (rs : list row) (i : import) : import :=
  match i with Imported rs' => Imported (rs ++ rs') | Stalled rs' => Stalled (rs ++ rs') end.

Definition rows_in (calls : list call) : list row :=
  flat_map (fun c => match c with TableDataCallback rs _ _ => rs | _ => [] end) calls.

Fixpoint gather (fuel : nat) (n : Z) (s : State) (answers : list answer) : option (result import) :=
  match fuel with
  | O => None
  | S fuel' =>
      match getTableData n s answers with
      | None => None
      | Some (Throw e) => Some (Throw e)
      | Some (Ok (s', calls, rest)) =>
          match last calls with
          | Some (TableDataCallback _ n' true) => fmap (M := result) (add_rows (rows_in calls)) <$> gather fuel' n' s' rest
          | Some (TableDataCallback _ _ false) => Some (Ok (Imported (rows_in calls)))
          | _ => Some (Ok (Stalled (rows_in calls)))
          end
      end
  end.

(** ** Responses *)

Definition has_columns (r : Response) : bool := bool_decide (is_Some (columns r)).

(** A response of a statement with the columns [cols] that succeeds: rows come
    with the columns, and batches are not empty. *)
Definition good (cols : columns_t) (r : Response) : Prop :=
  StatementClient.error r = None /\ data r <> Some [] /\
  (columns r = Some cols \/ (columns r = None /\ data r = None)).

Definition tableauRows (cols : columns_t) (d : data_t) : list row := map (fun values => fillRow cols values []) d.

Definition headers_call (cols : columns_t) : call :=
  HeadersCallback (map columnName cols) (map (fun c => tableauType (columnType c)) cols).

Lemma callbacks_app es es' s :
  callbacks (es ++ es') s =
  ('(s1, c1) ← callbacks es s; '(s2, c2) ← callbacks es' s1; Ok (s2, c1 ++ c2)).
Proof.
  revert s. induction es as [|e es IH]; intros s; cbn [callbacks app].
  - cbn. by destruct (callbacks es' s) as [[]|].
  - destruct (callback e s) as [[s1 c1]|]; [|done]. cbn [mbind result_bind]. rewrite IH.
    destruct (callbacks es s1) as [[s2 c2]|]; [|done]. cbn [mbind result_bind].
    destruct (callbacks es' s2) as [[s3 c3]|]; [|done]. cbn. by rewrite <- app_assoc.
Qed.

(** ** Before the first request for rows *)

(** What the responses leave in the variables while rows are only buffered. *)
Record buffered (cols : columns_t) (rs : list Response) (s s' : State) (calls : list call) : Prop := {
  buf_called : getTableDataCalled s' = false;
  buf_error : errorMessage s' = errorMessage s;
  buf_rows : buffer s' = buffer s ++ omap data rs;
  buf_headers : headersPushed s' = headersPushed s || existsb has_columns rs;
  buf_schema : headersPushed s' = true -> headersPushed s = true -> schema s' = schema s;
  buf_schema' : headersPushed s' = true -> headersPushed s = false -> schema s' = Some cols;
  buf_calls : calls = if headersPushed s' && negb (headersPushed s) then [headers_call cols] else []
}.

Lemma handler_buffers cols r n s : good cols r -> getTableDataCalled s = false ->
  exists s' calls, callbacks (responseHandler r n) s = Ok (s', calls) /\ buffered cols [r] s s' calls.
Proof.
  intros (He & Hd & Hc) Hs. unfold responseHandler. rewrite He. destruct s as [hp cl gt bf sc en em]. cbn in Hs. subst gt.
  destruct Hc as [Hc|[Hc Hnd]].
  - assert (has_columns r = true) as Hcol by (unfold has_columns; by rewrite Hc).
    rewrite Hc. destruct (data r) as [[|v d]|] eqn:Ed; [done| |];
      cbn [app callbacks callback mbind result_bind pushHeadersToTableau headersPushed];
      destruct hp; cbn; (do 2 eexists; split; [reflexivity|]);
      split; cbn; rewrite ?Hcol, ?Ed, ?app_nil_r; done.
  - assert (has_columns r = false) as Hcol by (unfold has_columns; by rewrite Hc).
    rewrite Hc, Hnd. cbn. do 2 eexists. split; [reflexivity|].
    split; cbn; rewrite ?Hcol, ?Hnd, ?app_nil_r, ?orb_false_r; try done; [by intros -> |by destruct hp].
Qed.

Lemma buffered_trans cols rs rs' s1 s2 s3 c c' :
  buffered cols rs s1 s2 c -> buffered cols rs' s2 s3 c' -> buffered cols (rs ++ rs') s1 s3 (c ++ c').
Proof.
  intros [A1 A2 A4 A5 A6 A7 A8] [B1 B2 B4 B5 B6 B7 B8]. split; try congruence.
  - by rewrite B4, A4, omap_app, app_assoc.
  - by rewrite B5, A5, existsb_app, orb_assoc.
  - intros H H1. assert (headersPushed s2 = true) as E by (by rewrite A5, H1). by rewrite B6, A6.
  - intros H H1. destruct (headersPushed s2) eqn:E2; [|by apply B7]. by rewrite B6, A7.
  - subst c c'. rewrite B5, A5.
    by destruct (headersPushed s1), (existsb has_columns rs), (existsb has_columns rs').
Qed.

Lemma buffered_refl cols s : getTableDataCalled s = false -> buffered cols [] s s [].
Proof.
  intros H. split; try done; [by rewrite app_nil_r|by rewrite orb_false_r|by intros -> |by destruct (headersPushed s)].
Qed.

Lemma followed_buffers cols n hs pre : forall r s, Forall (good cols) pre -> getTableDataCalled s = false ->
  exists s' calls, callbacks (followed n hs r pre) s = Ok (s', calls) /\ buffered cols pre s s' calls.
Proof.
  induction pre as [|x pre IH]; intros r s HG Hs.
  - exists s, []. split; [done|by apply buffered_refl].
  - apply Forall_cons in HG as [Hx HG]. cbn [followed callbacks callback mbind result_bind].
    rewrite callbacks_app. destruct (handler_buffers cols x n s Hx Hs) as (s1 & c1 & -> & B1).
    cbn [mbind result_bind]. destruct (IH x s1 HG (buf_called _ _ _ _ _ B1)) as (s2 & c2 & -> & B2).
    cbn [mbind result_bind]. exists s2, (c1 ++ c2). split; [done|]. apply (buffered_trans _ [x] pre _ _ _ _ _ B1 B2).
Qed.

(** The callbacks do not touch the client. *)
Lemma callbacks_client es : forall s s' calls,
  callbacks es s = Ok (s', calls) -> statementClient s' = statementClient s.
Proof.
  induction es as [|e es IH]; intros s s' calls; cbn [callbacks]; [by intros [= <- _]|].
  destruct (callback e s) as [[s1 c1]|] eqn:E; [|done]. cbn [mbind result_bind].
  destruct (callbacks es s1) as [[s2 c2]|] eqn:E2; [|done]. cbn [mbind result_bind]. intros [= <- _].
  rewrite (IH _ _ _ E2). destruct e as [| |d o z|]; cbn in E.
  - by injection E as <- _.
  - injection E as E. unfold pushHeadersToTableau in E. repeat case_match; by injection E as <- _.
  - unfold pushDataToTableau in E. destruct d; [by injection E as <- _|]. case_match; [|by injection E as <- _].
    destruct o; by injection E as <- _.
  - by injection E as <- _.
Qed.

Lemma buffered_client cols rs c s s' calls : buffered cols rs (with_client c s) s' calls -> buffered cols rs s s' calls.
Proof. intros [? ? ? ? ? ? ?]. by split. Qed.

(** The state of the client between two calls: the answers [post] are still to
    come, and it is invalid only at the end. *)
Definition client_at (post : list Response) (s : State) : Prop :=
  exists c r, statementClient s = Some c /\ currentResults c = Some r /\ chained r post /\
    (valid c = true \/ post = []).

(** One call of [advance] before rows are asked for. *)
Lemma advance_buffers cols n rest more s :
  client_at rest s -> Forall (good cols) rest -> getTableDataCalled s = false ->
  exists pre post s' calls, rest = pre ++ post /\
    advanceClient n s (map Success rest ++ more) = Some (Ok (s', calls, map Success post ++ more)) /\
    buffered cols pre s s' calls /\ client_at post s' /\ (post = [] \/ pre <> []).
Proof.
  intros (c & r & Hc & Hr & Hch & Hv) HG Hs.
  destruct (advance_prefix n more rest r c Hr Hch) as (pre & post & c' & -> & Ea & _ & Hr' & Hch' & Hcase).
  apply Forall_app in HG as [HG _].
  destruct (followed_buffers cols n (headers c) pre r (with_client c' s) HG Hs) as (s' & calls & Ec & B).
  exists pre, post, s', calls. split; [done|]. unfold advanceClient. rewrite Hc, Ea, Ec. split; [done|].
  split; [by eapply buffered_client|]. split; [|naive_solver].
  exists c', (last_of r pre). split; [by rewrite (callbacks_client _ _ _ _ Ec)|]. split; [done|]. split; [done|].
  destruct Hcase as [[_ ->]|(Hne & -> & _)]; [by right|]. destruct Hv as [?|Hv]; [by left|].
  apply app_eq_nil in Hv as [-> _]. done.
Qed.

Lemma headerLoop_returns cols more fuel : forall rest s,
  (length rest < fuel)%nat -> client_at rest s -> Forall (good cols) rest -> getTableDataCalled s = false ->
  errorMessage s = None -> headersPushed s || existsb has_columns rest = true ->
  exists pre post s' calls, rest = pre ++ post /\
    headerLoop fuel s (map Success rest ++ more) = Some (Ok (s', calls, map Success post ++ more)) /\
    buffered cols pre s s' calls /\ client_at post s' /\ headersPushed s' = true.
Proof.
  induction fuel as [|fuel IH]; intros rest s Hf Hat HG Hs Hem Hcol; [lia|].
  cbn [headerLoop]. rewrite Hem, orb_false_r. destruct (headersPushed s) eqn:Eh.
  { exists [], rest, s, []. split_and!; [done|done|by apply buffered_refl|done|done]. }
  destruct (advance_buffers cols 0 rest more s Hat HG Hs) as (pre & post & s1 & c1 & -> & -> & B & Hat1 & Hp).
  apply Forall_app in HG as [_ HG]. pose proof (buf_headers _ _ _ _ _ B) as Hh. rewrite Eh in Hh. cbn in Hh.
  destruct Hp as [->|Hp].
  - rewrite app_nil_r in Hcol. cbn in Hcol. rewrite Hcol in Hh. exists pre, [], s1, c1.
    assert (headerLoop fuel s1 (map Success [] ++ more) = Some (Ok (s1, [], map Success [] ++ more))) as ->.
    { destruct fuel; cbn [headerLoop]; by rewrite Hh. }
    rewrite !app_nil_r. by split_and!.
  - rewrite length_app in Hf. assert (length pre <> 0%nat) by (destruct pre; done).
    destruct (IH post s1) as (pre' & post' & s2 & c2 & -> & -> & B2 & Hat2 & Hh2); [lia|done|done|..].
    + apply B.
    + by rewrite (buf_error _ _ _ _ _ B).
    + rewrite Hh. by rewrite existsb_app in Hcol.
    + exists (pre ++ pre'), post', s2, (c1 ++ c2). rewrite <- app_assoc. split_and!; [done|done| |done|done].
      by eapply buffered_trans.
Qed.

(** ** Once rows are asked for *)

Definition delivery (cols : columns_t) (n : Z) (d : data_t) : call := TableDataCallback (tableauRows cols d) n true.

Lemma handler_delivers cols r n s : good cols r -> getTableDataCalled s = true -> headersPushed s = true ->
  callbacks (responseHandler r n) s = Ok (s, map (delivery cols n) (option_list (data r))).
Proof.
  intros (He & Hd & Hc) Hs Hh. unfold responseHandler. rewrite He. destruct Hc as [Hc|[Hc Hnd]].
  - rewrite Hc. destruct (data r) as [[|v d]|]; [done| |]; cbn; rewrite Hh; cbn; by rewrite ?Hh, ?Hs; cbn; rewrite ?Hs.
  - by rewrite Hc, Hnd.
Qed.

Lemma followed_delivers cols n hs pre : forall r s,
  Forall (good cols) pre -> getTableDataCalled s = true -> headersPushed s = true ->
  callbacks (followed n hs r pre) s = Ok (s, map (delivery cols n) (omap data pre)).
Proof.
  induction pre as [|x pre IH]; intros r s HG Hs Hh; [done|]. apply Forall_cons in HG as [Hx HG].
  cbn [followed callbacks callback mbind result_bind]. rewrite callbacks_app, (handler_delivers cols) by done.
  cbn [mbind result_bind]. rewrite IH by done. cbn [mbind result_bind app]. by rewrite omap_cons_list, map_app.
Qed.

Lemma rows_delivered cols n ds : rows_in (map (delivery cols n) ds) = flat_map (tableauRows cols) ds.
Proof. unfold rows_in. by rewrite !flat_map_concat_map, map_map. Qed.

Lemma last_delivery cols n ds : ds <> [] -> exists d, last (map (delivery cols n) ds) = Some (delivery cols n d).
Proof.
  intros Hne. destruct (exists_last Hne) as (ds' & d & ->). exists d. rewrite map_app. apply last_snoc.
Qed.

Lemma gather_rows cols more n fuel : forall ds post s,
  (length ds + length post < fuel)%nat -> headersPushed s = true -> schema s = Some cols -> buffer s = ds ->
  Forall (fun d => d <> []) ds -> client_at post s -> Forall (good cols) post ->
  gather fuel n s (map Success post ++ more) = Some (Ok (Imported (flat_map (tableauRows cols) (ds ++ omap data post)))).
Proof.
  induction fuel as [|fuel IH]; intros ds post s Hf Hh Hsc Hb Hds Hat HG; [lia|].
  cbn [gather]. unfold getTableData. cbn [with_called buffer]. rewrite Hb. destruct ds as [|d ds].
  - destruct Hat as (c & r & Hc & Hr & Hch & Hv). unfold advanceClient. cbn [with_called statementClient]. rewrite Hc.
    destruct (advance_prefix n more post r c Hr Hch) as (pre & post' & c' & -> & -> & _ & Hr' & Hch' & Hcase).
    apply Forall_app in HG as [HG HG']. rewrite (followed_delivers cols) by done.
    cbn [mbind result_bind app]. unfold clientValid. cbn [with_client statementClient].
    destruct Hcase as [[-> ->]|(Hne & Hv' & Hres)].
    + rewrite last_snoc. unfold rows_in. rewrite flat_map_app. cbn. by rewrite !app_nil_r, <- (rows_delivered cols n).
    + assert (valid c' = true) as ->.
      { rewrite Hv'. destruct Hv as [?|Hv]; [done|]. by apply app_eq_nil in Hv as [-> _]. }
      rewrite app_nil_r. assert (omap data pre <> []) as Hd.
      { destruct (exists_last Hne) as (pre' & x & ->). unfold last_of in Hres. rewrite last_snoc in Hres.
        apply Forall_app in HG as [_ HG]. apply Forall_singleton in HG as (He & _ & _). unfold has_result in Hres.
        cbn in Hres. rewrite He, orb_false_r in Hres. apply bool_decide_eq_true in Hres as [d Hd].
        rewrite omap_app. cbn. rewrite Hd. by destruct (omap data pre'). }
      destruct (last_delivery cols n _ Hd) as [d ->]. unfold delivery at 1.
      rewrite (IH [] post'); [|rewrite length_app in Hf; cbn in *; destruct pre; [done|cbn in Hf; lia]|done|done|done|constructor| |done].
      * cbn. by rewrite rows_delivered, omap_app, flat_map_app.
      * exists c', (last_of r pre). split_and!; [done..|]. left. rewrite Hv'. destruct Hv as [?|Hv]; [done|].
        by apply app_eq_nil in Hv as [-> _].
  - apply Forall_cons in Hds as [Hd Hds]. cbn [with_called schema]. rewrite Hsc. destruct d as [|v d]; [done|].
    cbn [pushDataToTableau with_buffer with_called getTableDataCalled require mbind result_bind last].
    rewrite (IH ds post); [|cbn in Hf; lia|done|done|done|done|done|done].
    cbn. by rewrite app_nil_r.
Qed.

(** ** A statement that succeeds *)

Lemma client_made text j params (r : Response) (rest : list Response) (more : list answer) :
  JSON_parse text = Ok j -> session_parameters (connectionDataOf j) = Ok params ->
  exists c : Client, (j ← JSON_parse text; create (connectionDataOf j) (Success r :: map Success rest ++ more)) =
    Ok (Some (c, Request "POST" "/v1/statement" (make_headers (connectionDataOf j) params) (Some (cdQuery (connectionDataOf j)))
                 :: responseHandler r 0, map Success rest ++ more)) /\
    currentResults c = Some r /\ valid c = true.
Proof. intros -> Hp. cbn [mbind result_bind]. unfold create. rewrite Hp. cbn. by eexists. Qed.

Lemma length_omap_le {A B} (f : A -> option B) l : (length (omap f l) <= length l)%nat.
Proof. induction l as [|x l IH]; [done|]. rewrite omap_cons_list, length_app. destruct (f x); cbn in *; lia. Qed.

Lemma omap_data_nonempty cols rs : Forall (good cols) rs -> Forall (fun d => d <> []) (omap data rs).
Proof.
  intros H. apply Forall_forall. intros d (x & Hx & Hd)%list_elem_of_omap. rewrite Forall_forall in H.
  destruct (H x Hx) as (_ & Hne & _). intros ->. congruence.
Qed.

(** A statement that succeeds reaches Tableau completely: [getColumnHeaders]
    returns with the headers pushed once, and asking for rows as long as there
    are more gives every row of every batch, in order and once. *)
Lemma import_delivers (text : string) (j : json) (params : list string) (cols : columns_t)
    (r : Response) (rest : list Response) (more : list answer) (n : Z) :
  JSON_parse text = Ok j -> session_parameters (connectionDataOf j) = Ok params ->
  chained r rest -> Forall (good cols) (r :: rest) -> existsb has_columns (r :: rest) = true ->
  exists s left,
    getColumnHeaders (S (length rest)) text initial_state (map Success (r :: rest) ++ more)
      = Some (Ok (s, [headers_call cols], left)) /\
    gather (S (S (length rest))) n s left
      = Some (Ok (Imported (flat_map (tableauRows cols) (omap data (r :: rest))))).
Proof.
  intros Hj Hp Hch HG Hcol. pose proof HG as [Hr HG']%Forall_cons.
  destruct (client_made text j params r rest more Hj Hp) as (c & Ec & Hc & Hv).
  destruct (handler_buffers cols r 0 initial_state Hr eq_refl) as (s1 & c1 & E1 & B1).
  destruct (headerLoop_returns cols more (S (length rest)) rest (with_client c s1))
    as (pre & post & s2 & c2 & -> & E2 & B2 & Hat & Hh); [lia| |done|apply B1|apply B1| |].
  { exists c, r. by split_and!; [..|left]. }
  { cbn. rewrite (buf_headers _ _ _ _ _ B1). cbn in *. by rewrite orb_false_r. }
  pose proof (buffered_trans _ [r] pre _ _ _ _ _ B1 (buffered_client _ _ _ _ _ _ B2)) as [B3 B4 B5 B6 B7 B8 B9].
  exists s2, (map Success post ++ more). split.
  - unfold getColumnHeaders. cbn [map app]. rewrite Ec. cbn [callbacks callback mbind result_bind].
    rewrite E1. cbn [mbind result_bind app]. rewrite E2, B4. cbn [truthy_string initial_state errorMessage].
    rewrite app_nil_r, B9, Hh. done.
  - rewrite (gather_rows cols more n _ (omap data (r :: pre)) post); [|..].
    + by rewrite <- omap_app.
    + pose proof (length_omap_le data (r :: pre)). rewrite length_app. cbn in *. lia.
    + done.
    + by apply B8.
    + done.
    + apply (omap_data_nonempty cols). rewrite app_comm_cons in HG. by apply Forall_app in HG as [? _].
    + done.
    + rewrite app_comm_cons in HG. by apply Forall_app in HG as [_ ?].
Qed.
