(* ===== verification/PrestoConnectorErrors.v ===== *)
(** * The Tableau connector: rows, errors and what never ends

    The shape of the rows that Tableau gets; a statement that fails before its
    headers aborts the import; a failure after them, and a statement without
    columns, leave Tableau waiting. *)
From S2P Require Import Prelude JsString JsNumber JsArray JsObject JsJson JsJsonPrint UtilsQuery QueryInfo.
From S2P Require Import StatementClient PrestoConnector PrestoConnectorFacts.
Import StatementClient PrestoConnector.
Local Open Scope Z_scope.

(** ** Rows *)

Definition cells (cols : columns_t) (values : list json) : row :=
  zip_with (fun c v => (columnName c, tableauCell c (Some v))) cols values.

Lemma dict_set_new {K V} `{EqDecision K} (k : K) (v : V) o : k ∉ dict_keys o -> dict_set k v o = o ++ [(k, v)].
Proof.
  unfold dict_keys. induction o as [|[k' v'] o IH]; cbn; [done|]. intros H.
  rewrite decide_False by set_solver. f_equal. apply IH. set_solver.
Qed.

Lemma fillRow_cells cols : forall values r,
  NoDup (dict_keys r ++ map columnName cols) -> "__proto__" ∉ map columnName cols -> length values = length cols ->
  fillRow cols values r = r ++ cells cols values.
Proof.
  induction cols as [|c cols IH]; intros [|v values] r HN Hp Hl; try done; cbn [fillRow cells zip_with tail head].
  - by rewrite app_nil_r.
  - cbn [map] in *. unfold obj_assign. destruct (String.eqb_spec (columnName c) "__proto__"); [set_solver|].
    assert (columnName c ∉ dict_keys r) as Hk by (apply NoDup_app in HN as (_ & HN & _); set_solver).
    rewrite dict_set_new by done. rewrite IH; [by rewrite <- app_assoc| |set_solver|by injection Hl].
    unfold dict_keys in *. rewrite map_app, <- app_assoc. done.
Qed.

Lemma cells_keys cols : forall values, length values = length cols -> dict_keys (cells cols values) = map columnName cols.
Proof.
  unfold dict_keys. induction cols as [|c cols IH]; intros [|v values] Hl; try done. cbn. f_equal. apply IH.
  by injection Hl.
Qed.

Lemma cells_lookup cols values j c v : cols !! j = Some c -> values !! j = Some v ->
  (columnName c, tableauCell c (Some v)) ∈ cells cols values.
Proof.
  intros Hc Hv. apply (list_elem_of_lookup_2 _ j). unfold cells. rewrite lookup_zip_with, Hc, Hv. done.
Qed.

(** C38: the rows have the type that was announced.  When the names of the
    columns are distinct and none of them is [__proto__], and a row has a value
    for each column: the types of the headers are types of Tableau; the row has exactly the fields of the headers, in their
    order; the field of a column of complex type is a string that holds the
    value as JSON, and the other fields are the values themselves. *)
Theorem rows_typed (cols : columns_t) (values : list json) :
  NoDup (map columnName cols) -> "__proto__" ∉ map columnName cols -> length values = length cols ->
  Forall (fun t => t ∈ ["bool"; "date"; "string"]) (map (fun c => tableauType (columnType c)) cols) /\
  dict_keys (fillRow cols values []) = map columnName cols /\
  forall j c v, cols !! j = Some c -> values !! j = Some v -> normal v ->
    exists cell, dict_get (columnName c) (fillRow cols values []) = Some (Some cell) /\
      if isComplexType (columnType c) then exists text, cell = JStr text /\ JSON_parse text = Ok v else cell = v.
Proof.
  intros HN Hp Hl. rewrite fillRow_cells by done. cbn [app]. rewrite cells_keys by done. split_and!; [|done|].
  - apply Forall_map, Forall_true. intros c. cbn. unfold tableauType. repeat case_if; set_solver.
  - intros j c v Hc Hv Hn. pose proof (cells_lookup _ _ _ _ _ Hc Hv) as Hin.
    apply elem_of_dict_get in Hin; [|by rewrite cells_keys]. rewrite Hin. unfold tableauCell.
    destruct (isComplexType (columnType c)); cbn; eexists; split; [done| |done|done].
    eexists. split; [done|]. by apply stringify_parse.
Qed.

(** columns of the same name lose values: a row is an object with the names of
    the columns as its keys, so that the value of a later column overwrites
    that of an earlier one, although both are among the headers. *)
Theorem equal_names_overwrite (c c' : Column) (v v' : json) :
  columnName c = columnName c' -> columnName c <> "__proto__" ->
  fillRow [c; c'] [v; v'] [] = [(columnName c', tableauCell c' (Some v'))].
Proof.
  intros E Hp. cbn [fillRow head tail]. unfold obj_assign. rewrite E in *.
  destruct (String.eqb_spec (columnName c') "__proto__"); [done|]. cbn. by rewrite decide_True.
Qed.

(** ** Failures *)

(** A response before anything has happened, and one that is followed by
    another. *)
Definition quiet (x : Response) : Prop := columns x = None /\ data x = None /\ StatementClient.error x = None.
Definition waiting (x : Response) : Prop := quiet x /\ truthy_string (nextUri x) = true.

(** The answer that reports a failure: a failed request, or a response with an
    error. *)
Inductive failing (name msg : string) : answer -> Prop :=
| failed_request : failing name msg (Failure name msg)
| failed_statement uri : failing name msg (Success {| nextUri := uri; columns := None; data := None;
    StatementClient.error := Some {| StatementClient.errorName := name; message := msg |} |}).

Lemma quiet_handler x n : quiet x -> responseHandler x n = [] /\ has_result x = false.
Proof. intros (H1 & H2 & H3). unfold responseHandler, has_result. by rewrite H1, H2, H3. Qed.

Lemma advance_fails n name msg a rest qs : forall r c,
  currentResults c = Some r -> truthy_string (nextUri r) = true -> Forall waiting qs -> failing name msg a ->
  exists c' es, advance n c (map Success qs ++ a :: rest) = Some (c', es, rest) /\ valid c' = valid c /\
    forall s, callbacks es s = Ok (errorHandler name msg s, []).
Proof.
  induction qs as [|q qs IH]; intros r c Hr Ht HQ Ha; cbn [map app advance];
    (assert (next c = nextUri r) as -> by (unfold next; by rewrite Hr, Ht)); destruct (nextUri r) as [uri|]; try done.
  - destruct Ha; cbn; eexists _, _; by split_and!.
  - apply Forall_cons in HQ as [[Hq Hq'] HQ]. destruct (quiet_handler q n Hq) as [-> ->].
    destruct (IH q (set_results q c)) as (c' & es & -> & Hv & Hes); [done..|]. eexists _, _. split_and!; [done..|].
    intros s. cbn. by rewrite Hes.
Qed.

Lemma headerLoop_round fuel s answers : headersPushed s = false -> truthy_string (errorMessage s) = false ->
  headerLoop (S fuel) s answers =
  match advanceClient 0 s answers with
  | None => None
  | Some (Throw e) => Some (Throw e)
  | Some (Ok (s1, calls1, rest1)) =>
      match headerLoop fuel s1 rest1 with
      | None => None
      | Some (Throw e) => Some (Throw e)
      | Some (Ok (s2, calls2, rest2)) => Some (Ok (s2, calls1 ++ calls2, rest2))
      end
  end.
Proof. intros H1 H2. cbn [headerLoop]. by rewrite H1, H2. Qed.

(** C11: a statement that fails before its headers is reported: when the answers
    wait for the statement to start and then a request fails, or an answer
    carries an error, with a message that is not empty, [getColumnHeaders]
    returns, aborts the import with the name and the message of the failure,
    and pushes nothing. *)
Theorem failure_aborts (text : string) (j : json) (params : list string) (qs : list Response) (a : answer)
    (rest : list answer) (name msg : string) :
  JSON_parse text = Ok j -> session_parameters (connectionDataOf j) = Ok params ->
  Forall waiting qs -> failing name msg a -> msg <> "" ->
  exists s, getColumnHeaders 1 text initial_state (map Success qs ++ a :: rest)
    = Some (Ok (s, [AbortWithError ("Error: [" +:+ name +:+ "]: " +:+ msg)], rest)) /\ headersPushed s = false.
Proof.
  intros Hj Hp HQ Ha Hm. assert (truthy_string (Some msg) = true) as Ht by (by destruct msg).
  unfold getColumnHeaders. rewrite Hj. cbn [mbind result_bind]. unfold create. rewrite Hp. cbn [mbind result_bind].
  destruct qs as [|q qs]; cbn [map app].
  - destruct Ha; cbn -[truthy_string]; rewrite Ht; cbn -[truthy_string]; rewrite Ht; eexists; by split.
  - apply Forall_cons in HQ as [[Hq Hq'] HQ]. cbn [submitQuery]. destruct (quiet_handler q 0 Hq) as [-> _].
    cbn [callbacks callback mbind result_bind app].
    match goal with |- context [with_client ?c initial_state] =>
      destruct (advance_fails 0 name msg a rest qs q c) as (c' & es & E & _ & Hes); [done..|] end.
    rewrite headerLoop_round by done. unfold advanceClient. cbn [with_client statementClient]. rewrite E, Hes.
    cbn [mbind result_bind headerLoop errorHandler errorMessage with_client]. rewrite Ht, orb_true_r.
    cbn [errorHandler errorMessage]. rewrite Ht. eexists. by split.
Qed.

(** ** What never ends *)

(** A client that has nothing to ask stays so, and the loop over it does not
    end. *)
Lemma headerLoop_stuck fuel answers : forall s c,
  statementClient s = Some c -> next c = None -> headersPushed s = false -> truthy_string (errorMessage s) = false ->
  headerLoop fuel s answers = None.
Proof.
  induction fuel as [|fuel IH]; intros s c Hc Hn Hh He; cbn [headerLoop]; rewrite Hh, He; [done|]. cbn [orb].
  unfold advanceClient. rewrite Hc.
  assert (advance 0 c answers = Some (stop c, [], answers)) as -> by (destruct answers; cbn; by rewrite Hn).
  cbn [callbacks mbind result_bind]. rewrite (IH _ (stop c)); done.
Qed.

Lemma callbacks_quiet n hs qs : forall r s, Forall quiet qs -> callbacks (followed n hs r qs) s = Ok (s, []).
Proof.
  induction qs as [|q qs IH]; intros r s HQ; [done|]. apply Forall_cons in HQ as [Hq HQ].
  cbn [followed callbacks callback mbind result_bind]. destruct (quiet_handler q n Hq) as [-> _]. cbn [app].
  by rewrite IH.
Qed.

(** C14: [getColumnHeaders] hangs on a statement that ends without columns and
    without an error, and when the post fails with an empty message, as it does
    when the coordinator cannot be reached: the loop waits for headers that
    will not come. *)
Theorem headers_never_come (text : string) (j : json) (params : list string) (r : Response) (rest : list Response)
    (more : list answer) (name : string) (fuel : nat) :
  JSON_parse text = Ok j -> session_parameters (connectionDataOf j) = Ok params ->
  chained r rest -> Forall quiet (r :: rest) ->
  getColumnHeaders fuel text initial_state (map Success (r :: rest) ++ more) = None /\
  getColumnHeaders fuel text initial_state (Failure name "" :: more) = None.
Proof.
  intros Hj Hp Hch HQ. split.
  - destruct (client_made text j params r rest more Hj Hp) as (c & Ec & Hc & Hv).
    apply Forall_cons in HQ as [Hq HQ]. unfold getColumnHeaders. cbn [map app]. rewrite Ec.
    destruct (quiet_handler r 0 Hq) as [-> _]. cbn [callbacks callback mbind result_bind].
    destruct fuel as [|fuel]; [done|]. rewrite headerLoop_round by done. unfold advanceClient.
    cbn [with_client statementClient].
    destruct (advance_prefix 0 more rest r c Hc Hch) as (pre & post & c' & -> & -> & _ & Hr' & Hch' & Hcase).
    apply Forall_app in HQ as [HQ _]. rewrite callbacks_quiet by done. cbn [mbind result_bind].
    destruct Hcase as [[_ ->]|(Hne & _ & Hres)].
    + rewrite (headerLoop_stuck _ _ _ c'); [done|done| |done|done]. unfold next. rewrite Hr'. cbn in Hch'. by rewrite Hch'.
    + exfalso. destruct (exists_last Hne) as (pre' & x & ->). unfold last_of in Hres. rewrite last_snoc in Hres.
      apply Forall_app in HQ as [_ [HQ _]%Forall_cons]. cbn in Hres.
      destruct (quiet_handler x 0 HQ). congruence.
  - unfold getColumnHeaders. rewrite Hj. cbn [mbind result_bind]. unfold create. rewrite Hp. cbn [mbind result_bind submitQuery].
    cbn [callbacks callback mbind result_bind]. erewrite headerLoop_stuck; done.
Qed.

(** a failure after the headers is not reported: [getTableData] returns and
    delivers nothing, neither rows nor an error nor the end, so that Tableau
    waits. *)
Theorem failure_stalls (n : Z) (s : State) (c : Client) (r : Response) (qs : list Response) (a : answer)
    (rest : list answer) (name msg : string) (fuel : nat) :
  statementClient s = Some c -> currentResults c = Some r -> truthy_string (nextUri r) = true -> valid c = true ->
  buffer s = [] -> Forall waiting qs -> failing name msg a ->
  gather (S fuel) n s (map Success qs ++ a :: rest) = Some (Ok (Stalled [])).
Proof.
  intros Hc Hr Ht Hv Hb HQ Ha. destruct (advance_fails n name msg a rest qs r c) as (c' & es & E & Hv' & Hes); [done..|].
  cbn [gather]. unfold getTableData. cbn [with_called buffer]. rewrite Hb. unfold advanceClient.
  cbn [with_called statementClient]. rewrite Hc, E, Hes. cbn [mbind result_bind].
  unfold clientValid. cbn. by rewrite Hv', Hv.
Qed.
