(* ===== verification/ConnectorForm.v ===== *)
(** * tableau/presto-connector.html: the form

    What the page does when it is ready: it fills the menus of catalogs and
    schemas, restores the form from the stored connection data, and on submit
    stores it again.  The browser's reading of an attribute between double
    quotes is a parameter; the page writes the names and values of the session
    parameters into HTML as they are, so only those without special characters
    are sure to come back. *)
From S2P Require Import Prelude JsString JsNumber JsArray JsObject JsJson JsJsonPrint UtilsQuery QueryInfo.
From S2P Require Import StatementClient PrestoConnector PrestoConnectorFacts PrestoConnectorErrors.
Import StatementClient PrestoConnector.
Local Open Scope Z_scope.

Module ConnectorForm.

(** ** The menus *)

Record SelectOption := { optionText : string; optionSelected : bool }.

(** The value of a menu: the last option that is marked, or else the first. *)
Definition selectedValue (options : list SelectOption) : option string :=
  optionText <$> match last (filterb optionSelected options) with Some o => Some o | None => head options end.

(** What the callbacks of a menu do: each row is an option, under its text. *)
Fixpoint fillOptions (make : string -> SelectOption) (es : list event) (options : list SelectOption) (s : State)
    : list SelectOption * State :=
  match es with
  | [] => (options, s)
  | DataCallback data _ _ :: es' =>
      fillOptions make es' (options ++ map (fun r => make (json_to_string (JArr r))) data) s
  | ErrorCallback name message :: es' => fillOptions make es' options (errorHandler name message s)
  | _ :: es' => fillOptions make es' options s
  end.

(** A statement whose rows go to a menu, with the loop over its answers. *)
Definition populate (make : string -> SelectOption) (fuel : nat) (cd : ConnectionData) (options : list SelectOption)
    (s : State) (answers : list answer) : option (result (list SelectOption * State * list answer)) :=
  match create cd answers with
  | Throw e => Some (Throw e)
  | Ok None => None
  | Ok (Some (c, es, rest)) =>
      match drain fuel c rest with
      | None => None
      | Some (_, es', rest') =>
          let '(options, s) := fillOptions make (es ++ es') options s in Some (Ok (options, s, rest'))
      end
  end.

Definition statement (catalog schema : option string) (query : string) : ConnectionData :=
  {| cdQuery := query; cdCatalog := catalog; cdSchema := schema; userName := None; cdSessionParameters := None |}.

Definition populateCatalogs : nat -> list SelectOption -> State -> list answer -> _ :=
  fun fuel catalogs => populate (fun t => {| optionText := t; optionSelected := false |}) fuel
    (statement None None "show catalogs") catalogs.

(** The existing options are removed first. *)
Definition populateSchemas (fuel : nat) (catalogName : option string) : State -> list answer -> _ :=
  populate (fun t => {| optionText := t; optionSelected := String.eqb t "default" |}) fuel
    (statement catalogName (Some "default") "show schemas") [].

(** ** The session parameters *)

(** A row of the form: the number in its ids, its two inputs, and how many
    handlers are on its link. *)
Record SessionRow := { rowId : Z; nameInput : string; valueInput : string; handlers : nat }.

Record SessionRows := { rows : list SessionRow; sessionParameterCount : Z }.

(** [$('#removeSessionProp_' + n).click(...)] puts a handler on the first
    element with that id. *)
Fixpoint addHandler (n : Z) (l : list SessionRow) : list SessionRow :=
  match l with
  | [] => []
  | r :: l' =>
      if rowId r =? n
      then {| rowId := rowId r; nameInput := nameInput r; valueInput := valueInput r; handlers := S (handlers r) |} :: l'
      else r :: addHandler n l'
  end.

Section html.
(** The value of an attribute whose text is written between double quotes
    without escaping.  A text with a double quote ends the attribute early; the
    row below is then the one the browser makes as long as what follows the
    quote does not close the tag or open another quote. *)
Context (attribute : string -> string).

Definition addSessionParameterToForm (name value : string) (f : SessionRows) : SessionRows :=
  let n := sessionParameterCount f in
  {| rows := addHandler n (rows f ++ [{| rowId := n; nameInput := attribute name; valueInput := attribute value;
                                         handlers := 0 |}]);
     sessionParameterCount := n + 1 |}.

(** [tableau.connectionData] restores the rows.  The form stores a text under
    [sessionParameters]. *)
Definition restoreSession (connectionData : string) (f : SessionRows) : result SessionRows :=
  j ← JSON_parse connectionData;
  match jget "sessionParameters" j with
  | Some (JStr text) =>
      if truthy_string (Some text) then
        parameterMap ← JSON_parse text;
        Ok (fold_left (fun f '(name, value) => addSessionParameterToForm name (json_to_string value) f)
              (enumerate parameterMap) f)
      else Ok f
  | _ => Ok f
  end.

(** [$(...).val(value)] *)
Definition inputValue (value : option json) : string :=
  match value with None | Some JNull => "" | Some j => json_to_string j end.

(** The form when the page is ready. *)
Record Form := {
  catalogOptions : list SelectOption;
  schemaOptions : list SelectOption;
  queryInput : string;
  userInput : string;
  dsnameInput : string;
  sessionRows : SessionRows
}.

(** The query, the user and the rows of the stored connection data, when there
    is some. *)
Definition restore (connectionData : option string) : result (string * string * SessionRows) :=
  let none := {| rows := []; sessionParameterCount := 0 |} in
  match connectionData with
  | Some text =>
      if truthy_string (Some text) then
        j ← JSON_parse text;
        session ← restoreSession text none;
        Ok (inputValue (jget "query" j), inputValue (jget "userName" j), session)
      else Ok ("", "", none)
  | None => Ok ("", "", none)
  end.

(** What the page does when it is ready: the catalogs, the schemas of the
    first catalog, then what is stored. *)
Definition ready (fuel : nat) (connectionData connectionName : option string) (s : State) (answers : list answer)
    : option (result (Form * State * list answer)) :=
  match populateCatalogs fuel [] s answers with
  | None => None
  | Some (Throw e) => Some (Throw e)
  | Some (Ok (catalogs, s, answers)) =>
      match populateSchemas fuel (selectedValue catalogs) s answers with
      | None => None
      | Some (Throw e) => Some (Throw e)
      | Some (Ok (schemas, s, answers)) =>
          Some ('(query, user, session) ← restore connectionData;
                Ok ({| catalogOptions := catalogs; schemaOptions := schemas; queryInput := query; userInput := user;
                       dsnameInput := default "" connectionName; sessionRows := session |}, s, answers))
      end
  end.
End html.

(** A click on the link of row [i]: every handler removes the row and counts
    down. *)
Definition removeClick (i : nat) (f : SessionRows) : SessionRows :=
  match rows f !! i with
  | Some r =>
      match handlers r with
      | O => f
      | h => {| rows := delete i (rows f); sessionParameterCount := sessionParameterCount f - Z.of_nat h |}
      end
  | None => f
  end.

(** ** Submitting *)

Record Fields := {
  fQuery : string;
  fSchema : option string;
  fCatalog : option string;
  fUserName : string;
  dataSourceName : string
}.

(** Name and value inputs alternate. *)
Definition sessionParameters (l : list SessionRow) : obj json :=
  fold_left (fun o r => obj_assign (nameInput r) (JStr (valueInput r)) (obj_assign (nameInput r) JNull o)) l [].

Definition json_nullable (s : option string) : json := match s with Some s => JStr s | None => JNull end.

Definition connectionData (f : Fields) (l : list SessionRow) : string :=
  JSON_stringify (JObj
    [("catalog", json_nullable (fCatalog f)); ("schema", json_nullable (fSchema f)); ("query", JStr (fQuery f));
     ("userName", JStr (fUserName f)); ("sessionParameters", JStr (JSON_stringify (JObj (sessionParameters l))))]).

Inductive action := Alert (message : string) | Submit.

(** start with a new client; clear global state *)
Definition cleared (s : State) : State :=
  {| headersPushed := false; statementClient := None; getTableDataCalled := getTableDataCalled s; buffer := buffer s;
     schema := schema s; errorName := errorName s; errorMessage := errorMessage s |}.

(** The variables, [tableau.connectionData], [tableau.connectionName], and what
    happens then. *)
Definition submit (f : Fields) (l : list SessionRow) (s : State) : State * string * string * action :=
  (cleared s, connectionData f l, dataSourceName f,
   if negb (truthy_string (Some (fQuery f))) || negb (truthy_string (fSchema f)) || negb (truthy_string (fCatalog f))
      || negb (truthy_string (Some (fUserName f))) || negb (truthy_string (Some (dataSourceName f)))
   then Alert "Please fill in all the fields" else Submit).
End ConnectorForm.
Import ConnectorForm.

(** ** The form comes back *)

Lemma sessionParameters_inv l : forall o,
  NoDup (dict_keys o) -> Forall (fun e => exists v, e.2 = JStr v) o ->
  let o' := fold_left (fun o r => obj_assign (nameInput r) (JStr (valueInput r)) (obj_assign (nameInput r) JNull o)) l o in
  NoDup (dict_keys o') /\ Forall (fun e => exists v, e.2 = JStr v) o'.
Proof.
  induction l as [|r l IH]; intros o HN HF; cbn [fold_left]; [done|]. apply IH; unfold obj_assign; case_if; try done.
  - by repeat apply NoDup_dict_set.
  - clear -HF. induction HF as [|[k v] o Hv HF IH]; cbn.
    + rewrite decide_True by done. constructor; [by eexists|constructor].
    + case_decide as Hk; cbn; [rewrite decide_True by done|rewrite decide_False by done]; constructor; eauto.
Qed.

Lemma sessionParameters_strings l :
  NoDup (dict_keys (sessionParameters l)) /\ Forall (fun e => exists v, e.2 = JStr v) (sessionParameters l).
Proof. apply sessionParameters_inv; constructor. Qed.

Lemma sessionParameters_parse l :
  JSON_parse (JSON_stringify (JObj (sessionParameters l))) = Ok (JObj (enumerated (sessionParameters l))).
Proof.
  destruct (sessionParameters_strings l) as [HN HF]. apply stringify_parse_obj; [done|].
  eapply Forall_impl; [exact HF|]. by intros [k ?] [v ->].
Qed.

Lemma enumerate_normal o : NoDup (dict_keys o) -> own_keys o = dict_keys o -> enumerate (JObj o) = o.
Proof.
  intros HN HE. cbn [enumerate]. fold (properties o). rewrite properties_id, HE by done.
  clear HE. unfold dict_keys. rewrite map_map. apply list_eq. intros i. rewrite list_lookup_fmap.
  destruct (o !! i) as [[k v]|] eqn:E; [|done]. cbn. apply list_elem_of_lookup_2 in E.
  apply elem_of_dict_get in E; [|done]. by rewrite E.
Qed.

Lemma enumerate_parameters l : enumerate (JObj (enumerated (sessionParameters l))) = enumerated (sessionParameters l).
Proof.
  destruct (sessionParameters_strings l) as [HN _]. destruct (enumerated_normal _ HN). by apply enumerate_normal.
Qed.

Definition header_entry (e : string * json) : string := e.1 +:+ "=" +:+ json_to_string e.2.

Lemma connectionData_parse f l : exists j, JSON_parse (connectionData f l) = Ok j /\
  connectionDataOf j =
    {| cdQuery := fQuery f; cdCatalog := Some (default "null" (fCatalog f)); cdSchema := Some (default "null" (fSchema f));
       userName := Some (fUserName f); cdSessionParameters := Some (JSON_stringify (JObj (sessionParameters l))) |} /\
  jget "sessionParameters" j = Some (JStr (JSON_stringify (JObj (sessionParameters l)))) /\
  jget "query" j = Some (JStr (fQuery f)) /\ jget "userName" j = Some (JStr (fUserName f)).
Proof.
  unfold connectionData. eexists. split.
  - apply stringify_parse. split_and!; [|vm_compute; reflexivity|].
    + change (NoDup ["catalog"; "schema"; "query"; "userName"; "sessionParameters"]).
      by refine (bool_decide_eq_true_1 _ _).
    + cbn. by destruct (fCatalog f), (fSchema f).
  - generalize (JSON_stringify (JObj (sessionParameters l))). intros t. split; [|done].
    unfold connectionDataOf, textField. by destruct (fCatalog f), (fSchema f).
Qed.

(** Distinct names that are no array indices keep their order. *)
Lemma sessionParameters_rows l :
  NoDup (map nameInput l) -> Forall (fun r => is_index (nameInput r) = false /\ nameInput r <> "__proto__") l ->
  enumerated (sessionParameters l) = map (fun r => (nameInput r, JStr (valueInput r))) l.
Proof.
  intros HN HF.
  assert (sessionParameters l = map (fun r => (nameInput r, JStr (valueInput r))) l) as E.
  { unfold sessionParameters. change (map ?g l) with ([] ++ map g l).
    assert (forall o : obj json, NoDup (dict_keys o ++ map nameInput l) ->
      fold_left (fun o r => obj_assign (nameInput r) (JStr (valueInput r)) (obj_assign (nameInput r) JNull o)) l o
      = o ++ map (fun r => (nameInput r, JStr (valueInput r))) l) as H; [|by apply H].
    clear HN. induction HF as [|r l [_ Hp] HF IH]; intros o HN; cbn [fold_left map]; [by rewrite app_nil_r|].
    unfold obj_assign. destruct (String.eqb_spec (nameInput r) "__proto__"); [done|].
    assert (nameInput r ∉ dict_keys o) as Hk by (apply NoDup_app in HN as (_ & HN & _); set_solver).
    rewrite (dict_set_new (nameInput r) JNull o) by done.
    assert (dict_set (nameInput r) (JStr (valueInput r)) (o ++ [(nameInput r, JNull)]) = o ++ [(nameInput r, JStr (valueInput r))]) as ->.
    { clear -Hk. unfold dict_keys in Hk. induction o as [|[k v] o IHo]; cbn in *; [by rewrite decide_True|].
      rewrite decide_False by set_solver. f_equal. apply IHo. set_solver. }
    rewrite IH; [by rewrite <- app_assoc|]. unfold dict_keys in *. rewrite map_app, <- app_assoc. done. }
  rewrite E. assert (dict_keys (map (fun r => (nameInput r, JStr (valueInput r))) l) = map nameInput l) as Ek.
  { unfold dict_keys. by rewrite map_map. }
  apply enumerated_id; [by rewrite Ek|]. apply own_keys_no_index. rewrite Ek. apply Forall_map.
  eapply Forall_impl; [exact HF|]. by intros r [? _].
Qed.

Lemma addHandler_new n r l : Forall (fun x => rowId x < n) l -> rowId r = n ->
  addHandler n (l ++ [r]) =
  l ++ [{| rowId := rowId r; nameInput := nameInput r; valueInput := valueInput r; handlers := S (handlers r) |}].
Proof.
  intros HF Hr. induction HF as [|x l Hx HF IH]; cbn; [by rewrite Hr, Z.eqb_refl|].
  destruct (Z.eqb_spec (rowId x) n); [lia|]. by rewrite IH.
Qed.

(** The rows of a form to which parameters are only added. *)
Definition fresh_rows (f : SessionRows) : Prop :=
  Forall (fun r => rowId r < sessionParameterCount f) (rows f) /\ NoDup (map rowId (rows f)) /\
  Forall (fun r => handlers r = 1%nat) (rows f).

Lemma add_fresh attribute name value f : fresh_rows f ->
  fresh_rows (addSessionParameterToForm attribute name value f) /\
  map (fun r => (nameInput r, valueInput r)) (rows (addSessionParameterToForm attribute name value f))
    = map (fun r => (nameInput r, valueInput r)) (rows f) ++ [(attribute name, attribute value)].
Proof.
  intros (H1 & H2 & H3). unfold addSessionParameterToForm. rewrite addHandler_new by done. unfold fresh_rows. cbn.
  rewrite !map_app, !Forall_app. split_and!.
  - eapply Forall_impl; [exact H1|]. cbn. lia.
  - repeat constructor. cbn. lia.
  - apply NoDup_app. split_and!; [done| |apply NoDup_singleton]. intros i Hi ->%list_elem_of_singleton. cbn in Hi.
    apply list_elem_of_In, in_map_iff in Hi as (r & Hr & Hin%list_elem_of_In). rewrite Forall_forall in H1.
    specialize (H1 r Hin). lia.
  - done.
  - by repeat constructor.
  - done.
Qed.

Lemma add_all_fresh attribute ps : forall f, fresh_rows f ->
  let f' := fold_left (fun f '(name, value) => addSessionParameterToForm attribute name (json_to_string value) f) ps f in
  fresh_rows f' /\
  map (fun r => (nameInput r, valueInput r)) (rows f') =
    map (fun r => (nameInput r, valueInput r)) (rows f) ++ map (fun e => (attribute e.1, attribute (json_to_string e.2))) ps.
Proof.
  induction ps as [|[k v] ps IH]; intros f Hf; cbn [fold_left map]; [by rewrite app_nil_r|].
  destruct (add_fresh attribute k (json_to_string v) f Hf) as [H1 H2].
  destruct (IH _ H1) as [H3 H4]. split; [exact H3|]. rewrite H4, H2, <- app_assoc. done.
Qed.

(** The rows that are restored from what the form stored. *)
Definition restored (attribute : string -> string) (l : list SessionRow) : SessionRows :=
  fold_left (fun f '(name, value) => addSessionParameterToForm attribute name (json_to_string value) f)
    (enumerated (sessionParameters l)) {| rows := []; sessionParameterCount := 0 |}.

Lemma restoreSession_stored attribute f l :
  restoreSession attribute (connectionData f l) {| rows := []; sessionParameterCount := 0 |} = Ok (restored attribute l).
Proof.
  destruct (connectionData_parse f l) as (j & Hj & _ & Hs & _). unfold restoreSession. rewrite Hj.
  cbn [mbind result_bind]. rewrite Hs.
  assert (truthy_string (Some (JSON_stringify (JObj (sessionParameters l)))) = true) as -> by done.
  rewrite sessionParameters_parse. cbn [mbind result_bind]. by rewrite enumerate_parameters.
Qed.

(** The session parameters of the client. *)
Lemma stored_session j f l :
  connectionDataOf j =
    {| cdQuery := fQuery f; cdCatalog := Some (default "null" (fCatalog f)); cdSchema := Some (default "null" (fSchema f));
       userName := Some (fUserName f); cdSessionParameters := Some (JSON_stringify (JObj (sessionParameters l))) |} ->
  session_parameters (connectionDataOf j) = Ok (map header_entry (enumerated (sessionParameters l))).
Proof.
  intros ->. unfold session_parameters. cbn [cdSessionParameters]. rewrite sessionParameters_parse. cbn [mbind result_bind].
  rewrite enumerate_parameters. f_equal. apply map_ext. by intros [].
Qed.

(** C13: what the form stores comes back.  The stored text parses; the client
    that is made from it runs the statement of the form with its catalog,
    schema and user and sends each session parameter once, the last value of a
    name, in the order of enumeration; and the page restores a row for each of
    them, with what the browser reads from the two attributes (texts whose
    quotes close the tag aside), every row with its own id and one handler.
    Names that are distinct and no array indices keep their order. *)
Theorem form_roundtrip (attribute : string -> string) (f : Fields) (l : list SessionRow) :
  exists j f', JSON_parse (connectionData f l) = Ok j /\
    cdQuery (connectionDataOf j) = fQuery f /\ cdCatalog (connectionDataOf j) = Some (default "null" (fCatalog f)) /\
    cdSchema (connectionDataOf j) = Some (default "null" (fSchema f)) /\
    userName (connectionDataOf j) = Some (fUserName f) /\
    session_parameters (connectionDataOf j) = Ok (map header_entry (enumerated (sessionParameters l))) /\
    restoreSession attribute (connectionData f l) {| rows := []; sessionParameterCount := 0 |} = Ok f' /\
    map (fun r => (nameInput r, valueInput r)) (rows f') =
      map (fun e => (attribute e.1, attribute (json_to_string e.2))) (enumerated (sessionParameters l)) /\
    fresh_rows f' /\
    (NoDup (map nameInput l) -> Forall (fun r => is_index (nameInput r) = false /\ nameInput r <> "__proto__") l ->
     enumerated (sessionParameters l) = map (fun r => (nameInput r, JStr (valueInput r))) l).
Proof.
  destruct (connectionData_parse f l) as (j & Hj & Hd & Hs & _).
  destruct (add_all_fresh attribute (enumerated (sessionParameters l)) {| rows := []; sessionParameterCount := 0 |})
    as [Hf Hr]; [by repeat constructor|].
  pose proof (stored_session j f l Hd) as Hp.
  eexists j, _. rewrite Hd in *. cbn [cdQuery cdCatalog cdSchema userName]. split_and!; [done..| | |exact Hr|exact Hf|].
  - exact Hp.
  - apply restoreSession_stored.
  - apply sessionParameters_rows.
Qed.

(** C9: from the form to the rows, when all goes well.  Let the page be loaded
    anew, without an error of an earlier statement, let every request succeed
    and no answer carry an error, let the answers be chained, let rows come with
    the columns in batches that are not empty and some answer have the columns.
    Then, whatever is in the form
    when it is submitted, the client that is made from the stored text posts the
    statement of the form under its user, catalog, schema and session parameters;
    [getColumnHeaders] returns after at most as many rounds as there are answers, having pushed the headers exactly once, and
    Tableau, asking for rows as long as it is told that there are more, ends with
    every row of every batch, in order and once. *)
Theorem tableau_import (f : Fields) (l : list SessionRow) (cols : columns_t) (r : Response) (rest : list Response)
    (more : list answer) (n : Z) :
  chained r rest -> Forall (good cols) (r :: rest) -> existsb has_columns (r :: rest) = true ->
  exists j c s left,
    JSON_parse (connectionData f l) = Ok j /\
    create (connectionDataOf j) (map Success (r :: rest) ++ more) =
      Ok (Some (c, Request "POST" "/v1/statement"
        [("X-Presto-User", HString (if String.eqb (fUserName f) "" then "N/A" else fUserName f));
         ("X-Presto-Source", HString "Tableau Web Connector");
         ("X-Presto-Session", HList (map header_entry (enumerated (sessionParameters l))));
         ("X-Presto-Catalog", HString (default "null" (fCatalog f)));
         ("X-Presto-Schema", HString (default "null" (fSchema f)))] (Some (fQuery f)) :: responseHandler r 0,
        map Success rest ++ more)) /\
    getColumnHeaders (S (length rest)) (connectionData f l) initial_state (map Success (r :: rest) ++ more)
      = Some (Ok (s, [headers_call cols], left)) /\
    gather (S (S (length rest))) n s left
      = Some (Ok (Imported (flat_map (tableauRows cols) (omap data (r :: rest))))).
Proof.
  intros Hch HG Hcol. destruct (connectionData_parse f l) as (j & Hj & Hd & Hs & _).
  pose proof (stored_session j f l Hd) as Hp.
  destruct (client_made _ j _ r rest more Hj Hp) as (c & Ec & _ & _). rewrite Hj in Ec. cbn [mbind result_bind] in Ec.
  destruct (import_delivers _ j _ cols r rest more n Hj Hp Hch HG Hcol) as (s & left & H1 & H2).
  exists j, c, s, left. split_and!; [done| |exact H1|exact H2].
  change (map Success (r :: rest) ++ more) with (Success r :: map Success rest ++ more). rewrite Ec, Hd.
  unfold make_headers. cbn [userName cdCatalog cdSchema cdQuery app]. by destruct (fUserName f).
Qed.

(** ** The menus *)

Lemma fillOptions_rows make es : forall options s,
  (fillOptions make es options s).1 =
    options ++ map (fun r => make (json_to_string (JArr r))) (concat (rows_of es)) /\
  (errors_of es = [] -> (fillOptions make es options s).2 = s).
Proof.
  induction es as [|e es IH]; intros options s; [by cbn; rewrite app_nil_r|].
  destruct e as [| |d o z|n m]; cbn [fillOptions]; unfold rows_of, errors_of in *; rewrite !omap_cons_list; cbn [option_list app].
  - apply IH.
  - apply IH.
  - cbn [concat]. destruct (IH (options ++ map (fun r => make (json_to_string (JArr r))) d) s) as [-> H2]. split; [|done].
    match goal with |- context [concat (?x ++ ?y)] => change (concat (x ++ y)) with (d ++ concat y) end.
    by rewrite map_app, app_assoc.
  - destruct (IH options (errorHandler n m s)) as [-> _]. by split.
Qed.

(** The texts of the rows of the answers. *)
Definition row_texts (rs : list Response) : list string :=
  map (fun r => json_to_string (JArr r)) (concat (omap data rs)).

Lemma populate_followed make fuel cd s r rest more :
  (length rest < fuel)%nat -> cdSessionParameters cd = None -> chained r rest -> omap error_pair (r :: rest) = [] ->
  populate make fuel cd [] s (map Success (r :: rest) ++ more) =
    Some (Ok (map make (row_texts (r :: rest)), s, more)).
Proof.
  intros Hf Hp Hch He. unfold populate, create, session_parameters. rewrite Hp. cbn [mbind result_bind map app submitQuery].
  match goal with |- context [drain _ ?c _] =>
    destruct (drain_followed fuel rest r c more) as (c' & -> & _); [done..|];
    destruct (followed_spec 0 (StatementClient.headers c) rest r) as (H1 & H2 & _); revert H1 H2; generalize (StatementClient.headers c) end.
  intros hs H1 H2. match goal with |- context [fillOptions make ?es [] s] => set (events := es) end.
  assert (rows_of events = omap data (r :: rest) /\ errors_of events = []) as [E1 E2].
  { rewrite <- He, !omap_cons_list, <- (handler_rows r 0), <- (handler_errors r 0), <- H1, <- H2. unfold events, rows_of, errors_of.
    cbn [app omap list_omap]. by rewrite !omap_app. }
  destruct (fillOptions_rows make events [] s) as [F1 F2]. destruct (fillOptions make events [] s) as [os s'].
  cbn [fst snd app] in F1, F2. rewrite F1, (F2 E2), E1. unfold row_texts. by rewrite map_map.
Qed.

Lemma last_marked_none {A} (p : A -> bool) l : last (filterb p l) = None -> forall x, x ∈ l -> p x = false.
Proof.
  intros H x Hx. apply last_None in H. destruct (p x) eqn:E; [|done].
  assert (x ∈ filterb p l) as Hf by (by apply elem_of_filterb). rewrite H in Hf. by apply elem_of_nil in Hf.
Qed.

(** The menu of schemas offers exactly the schemas of the catalog, in the
    order of the answers, and selects the schema [default] when there is one
    and the first schema otherwise. *)
Lemma schemas_offered (fuel : nat) (catalogName : option string) (s : State) (r : Response) (rest : list Response)
    (more : list answer) :
  (length rest < fuel)%nat -> chained r rest -> omap error_pair (r :: rest) = [] ->
  exists options, populateSchemas fuel catalogName s (map Success (r :: rest) ++ more)
      = Some (Ok (options, s, more)) /\
    map optionText options = row_texts (r :: rest) /\
    selectedValue options =
      if bool_decide ("default" ∈ row_texts (r :: rest)) then Some "default" else head (row_texts (r :: rest)).
Proof.
  intros Hf Hch He. unfold populateSchemas. rewrite populate_followed by done. eexists. split; [reflexivity|].
  generalize (row_texts (r :: rest)). intros l. rewrite map_map. split; [apply map_id|]. unfold selectedValue.
  destruct (last (filterb _ _)) as [o|] eqn:El.
  - apply last_Some_elem_of, elem_of_filterb in El as [Ho Hs].
    apply list_elem_of_In, in_map_iff in Ho as (t & <- & Ht%list_elem_of_In). cbn in Hs. apply String.eqb_eq in Hs as ->.
    by rewrite bool_decide_true.
  - rewrite bool_decide_false; [by destruct l|]. intros Hd.
    enough (true = false) by done.
    apply (last_marked_none _ _ El {| optionText := "default"; optionSelected := true |}).
    apply list_elem_of_In, in_map_iff. exists "default". split; [done|by apply list_elem_of_In].
Qed.

Lemma catalogs_offered (fuel : nat) (s : State) (r : Response) (rest : list Response) (more : list answer) :
  (length rest < fuel)%nat -> chained r rest -> omap error_pair (r :: rest) = [] ->
  exists options, populateCatalogs fuel [] s (map Success (r :: rest) ++ more) = Some (Ok (options, s, more)) /\
    map optionText options = row_texts (r :: rest) /\ selectedValue options = head (row_texts (r :: rest)).
Proof.
  intros Hf Hch He. unfold populateCatalogs. rewrite populate_followed by done. eexists. split; [reflexivity|].
  generalize (row_texts (r :: rest)). intros l. rewrite map_map. split; [apply map_id|]. unfold selectedValue.
  destruct (last (filterb _ _)) as [o|] eqn:El; [|by destruct l].
  apply last_Some_elem_of, elem_of_filterb in El as [Ho Hs].
  by apply list_elem_of_In, in_map_iff in Ho as (t & <- & _).
Qed.

(** A text that means itself in an attribute between double quotes: it has no
    quote, no character reference, no tag and no control character. *)
Definition dquote : ascii := "034"%char.
Definition plain_char (c : ascii) : bool :=
  (32 <=? code c)%N && negb (existsb (Ascii.eqb c) [dquote; "&"; "<"; ">"]%char).
Definition plain (t : string) : bool := forallb plain_char (String.list_ascii_of_string t).
Definition plain_row (r : SessionRow) : bool := plain (nameInput r) && plain (valueInput r).

Definition row_pair (r : SessionRow) : string * string := (nameInput r, valueInput r).

Lemma enumerated_elem {A} (o : obj A) e : e ∈ enumerated o -> e ∈ o.
Proof.
  unfold enumerated. destruct e as [k v]. intros (k' & Hk & Hv)%list_elem_of_omap.
  destruct (dict_get k' o) as [v'|] eqn:E; [|done]. cbn in Hv. injection Hv as -> ->. by apply dict_get_elem.
Qed.

Lemma enumerated_single {A} k (v : A) : enumerated [(k, v)] = [(k, v)].
Proof. apply enumerated_id; [apply NoDup_singleton|]. apply Permutation_singleton_r, own_keys_perm. Qed.

(** The parameters that are stored are names and values of rows. *)
Lemma sessionParameters_from (P : string -> Prop) l : Forall (fun r => P (nameInput r) /\ P (valueInput r)) l ->
  Forall (fun e => P e.1 /\ P (json_to_string e.2)) (sessionParameters l).
Proof.
  intros HP.
  assert (forall o : obj json, Forall (fun e => P e.1 /\ P (json_to_string e.2)) o ->
    Forall (fun e => P e.1 /\ P (json_to_string e.2))
      (fold_left (fun o r => obj_assign (nameInput r) (JStr (valueInput r)) (obj_assign (nameInput r) JNull o)) l o)) as H;
    [|by apply H].
  induction HP as [|r l [H1 H2] HP IH]; intros o HF; cbn [fold_left]; [done|]. apply IH. unfold obj_assign. case_if; [done|].
  clear -HF H1 H2. induction HF as [|[k v] o Hv HF IH]; cbn; [rewrite decide_True by done; by repeat constructor|].
  case_decide as Hk; cbn; [rewrite decide_True by done|rewrite decide_False by done]; constructor; auto.
Qed.

Lemma restored_plain attribute l : (forall t, plain t = true -> attribute t = t) -> forallb plain_row l = true ->
  fresh_rows (restored attribute l) /\
  map row_pair (rows (restored attribute l)) =
    map (fun e => (e.1, json_to_string e.2)) (enumerated (sessionParameters l)).
Proof.
  intros HA HP.
  destruct (add_all_fresh attribute (enumerated (sessionParameters l)) {| rows := []; sessionParameterCount := 0 |})
    as [Hf Hr]; [by repeat constructor|]. split; [exact Hf|]. etrans; [exact Hr|]. cbn [map app rows].
  assert (Forall (fun e => plain e.1 = true /\ plain (json_to_string e.2) = true) (sessionParameters l)) as HF.
  { apply (sessionParameters_from (fun t => plain t = true)). apply Forall_forall. intros r Hin%list_elem_of_In. rewrite forallb_forall in HP.
    by apply andb_prop, HP. }
  apply map_ext_in. intros [k v] Hin%list_elem_of_In. apply enumerated_elem in Hin.
  rewrite Forall_forall in HF. destruct (HF _ Hin). cbn in *. by rewrite !HA.
Qed.

(** C37: the form of a stored connection is complete when the page is ready.
    When the coordinator lists the catalogs and the schemas, both loops over
    the answers end; the menus offer exactly the catalogs and the schemas, in
    the order of the answers; the first catalog and the schema [default], or
    the first one without it, are selected; and the query, the user and the
    name of the source are those that were stored.  The session parameters are
    those that were stored, the last value of each name, when their names and
    values are plain texts, which the browser reads as they are; rows with
    distinct names that are no array indices all come back, in their order. *)
Theorem form_ready (attribute : string -> string) (fuel : nat) (f : Fields) (l : list SessionRow) (s : State)
    (c : Response) (cs : list Response) (r : Response) (rs : list Response) :
  (forall t, plain t = true -> attribute t = t) ->
  (length cs < fuel)%nat -> (length rs < fuel)%nat ->
  chained c cs -> omap error_pair (c :: cs) = [] -> chained r rs -> omap error_pair (r :: rs) = [] ->
  exists form,
    ready attribute fuel (Some (connectionData f l)) (Some (dataSourceName f)) s
      (map Success (c :: cs) ++ map Success (r :: rs)) = Some (Ok (form, s, [])) /\
    map optionText (catalogOptions form) = row_texts (c :: cs) /\
    selectedValue (catalogOptions form) = head (row_texts (c :: cs)) /\
    map optionText (schemaOptions form) = row_texts (r :: rs) /\
    selectedValue (schemaOptions form) =
      (if bool_decide ("default" ∈ row_texts (r :: rs)) then Some "default" else head (row_texts (r :: rs))) /\
    queryInput form = fQuery f /\ userInput form = fUserName f /\ dsnameInput form = dataSourceName f /\
    (forallb plain_row l = true ->
       fresh_rows (sessionRows form) /\
       map row_pair (rows (sessionRows form)) =
         map (fun e => (e.1, json_to_string e.2)) (enumerated (sessionParameters l)) /\
       (NoDup (map nameInput l) -> Forall (fun r => is_index (nameInput r) = false /\ nameInput r <> "__proto__") l ->
        map row_pair (rows (sessionRows form)) = map row_pair l)).
Proof.
  intros HA Hcf Hrf Hc Hce Hr Hre. unfold ready.
  destruct (catalogs_offered fuel s c cs (map Success (r :: rs)) Hcf Hc Hce) as (catalogs & -> & C1 & C2).
  destruct (schemas_offered fuel (selectedValue catalogs) s r rs [] Hrf Hr Hre) as (schemas & E & S1 & S2).
  rewrite app_nil_r in E. rewrite E. unfold restore.
  assert (truthy_string (Some (connectionData f l)) = true) as -> by done.
  destruct (connectionData_parse f l) as (j & Hj & _ & _ & Hq & Hu). rewrite Hj. cbn [mbind result_bind].
  rewrite restoreSession_stored. cbn [mbind result_bind]. rewrite Hq, Hu. eexists. split; [reflexivity|].
  split_and!; [done..|]. cbn [sessionRows]. intros HP. destruct (restored_plain attribute l HA HP) as [Hf ->].
  split_and!; [done..|]. intros HN HI. rewrite sessionParameters_rows, map_map by done. done.
Qed.

(** ** What goes wrong *)

Lemma delete_app_before {A} (l k : list A) i : (i < length l)%nat -> delete i (l ++ k) = delete i l ++ k.
Proof. revert i. induction l as [|x l IH]; intros [|i] H; cbn in *; try lia; [done|]. f_equal. apply IH. lia. Qed.

(** a row that is added after another one was removed cannot be removed
    itself: the ids count the rows, so it gets the id of the last row, and its
    handler is put on that row's link. *)
Theorem added_row_stays (attribute : string -> string) (f : SessionRows) (i : nat) (name value : string) :
  map rowId (rows f) = seqZ 0 (Z.of_nat (length (rows f))) -> sessionParameterCount f = Z.of_nat (length (rows f)) ->
  Forall (fun r => handlers r = 1%nat) (rows f) -> (S i < length (rows f))%nat ->
  let f' := addSessionParameterToForm attribute name value (removeClick i f) in
  last (map nameInput (rows f')) = Some (attribute name) /\
  removeClick (pred (length (rows f'))) f' = f'.
Proof.
  intros Hid Hc Hh Hi. cbn zeta. destruct (lookup_lt_is_Some_2 (rows f) i ltac:(lia)) as [r Hr].
  assert (handlers r = 1%nat) as Hr1 by (rewrite Forall_forall in Hh; by eapply Hh, list_elem_of_lookup_2).
  set (n := Z.of_nat (length (rows f)) - Z.of_nat 1).
  assert (removeClick i f = {| rows := delete i (rows f); sessionParameterCount := n |}) as ->
    by (unfold removeClick; by rewrite Hr, Hr1, Hc).
  unfold addSessionParameterToForm. cbn [rows sessionParameterCount].
  set (x := {| rowId := n; nameInput := attribute name; valueInput := attribute value; handlers := 0 |}).
  assert (exists l1 y l2, delete i (rows f) = l1 ++ y :: l2 /\ rowId y = n /\ Forall (fun z => rowId z <> n) l1) as (l1 & y & l2 & E & Hy & Hl1).
  { destruct (exists_last (l := rows f)) as (l & y & El); [by destruct (rows f)|].
    assert (length (rows f) = S (length l)) as Hlen by (rewrite El, length_app; cbn; lia).
    rewrite El, map_app, length_app in Hid. cbn [map length] in Hid.
    replace (Z.of_nat (length l + 1)) with (Z.of_nat (length l) + 1) in Hid by lia.
    rewrite seqZ_app in Hid by lia. apply app_inj_1 in Hid as [Hid1 Hid2]; [|rewrite length_map, length_seqZ; lia].
    exists (delete i l), y, []. rewrite El, delete_app_before by lia. split; [done|]. split.
    { cbn in Hid2. injection Hid2 as ->. unfold n. lia. }
    apply Forall_forall. intros z Hz. assert (z ∈ l) as Hz' by (by eapply list_elem_of_delete_inv).
    assert (rowId z ∈ seqZ 0 (Z.of_nat (length l))) as Hs by (rewrite <- Hid1; apply list_elem_of_In, in_map, list_elem_of_In; done).
    apply elem_of_seqZ in Hs. unfold n. lia. }
  rewrite E.
  assert (addHandler n ((l1 ++ y :: l2) ++ [x]) = l1 ++ {| rowId := rowId y; nameInput := nameInput y;
    valueInput := valueInput y; handlers := S (handlers y) |} :: l2 ++ [x]) as ->.
  { rewrite <- app_assoc. cbn [app]. clear -Hy Hl1. induction Hl1 as [|z l1 Hz _ IH]; cbn.
    - by rewrite Hy, Z.eqb_refl.
    - destruct (Z.eqb_spec (rowId z) n); [done|]. by rewrite IH. }
  rewrite app_comm_cons, app_assoc. split; [rewrite map_app; apply last_snoc|].
  unfold removeClick. cbn [rows]. rewrite length_app. cbn [length]. rewrite Nat.add_1_r. cbn [pred].
  by rewrite list_lookup_middle by done.
Qed.

(** a name or a value with a double quote does not come back: the page writes
    it into an attribute as it is, so that only the part before the quote is
    restored. *)
Theorem quote_cuts_value (attribute : string -> string) (f : Fields) (i : Z) (name a b : string) :
  (forall t, plain t = true -> attribute t = t) ->
  (forall t u, plain t = true -> attribute (t +:+ String dquote u) = t) ->
  plain name = true -> plain a = true -> name <> "__proto__" ->
  exists f', restoreSession attribute
      (connectionData f [{| rowId := i; nameInput := name; valueInput := a +:+ String dquote b; handlers := 1 |}])
      {| rows := []; sessionParameterCount := 0 |} = Ok f' /\
    map row_pair (rows f') = [(name, a)].
Proof.
  intros HA HQ Hn Ha Hp. rewrite restoreSession_stored. eexists. split; [done|]. unfold restored, sessionParameters.
  cbn [fold_left nameInput valueInput]. unfold obj_assign. destruct (String.eqb_spec name "__proto__"); [done|].
  cbn [dict_set]. rewrite decide_True by done. rewrite enumerated_single. cbn. by rewrite HA, HQ.
Qed.

(** an error message of an earlier statement, such as the one that lists the
    schemas when the page is loaded, outlives the submit and aborts the import
    of a statement that succeeds. *)
Theorem stale_error_aborts (text : string) (j : json) (params : list string) (cols : columns_t) (f : Fields)
    (l : list SessionRow) (s : State) (r : Response) (rest : list Response) (more : list answer) (fuel : nat) :
  JSON_parse text = Ok j -> session_parameters (connectionDataOf j) = Ok params ->
  truthy_string (errorMessage s) = true -> getTableDataCalled s = false -> good cols r ->
  exists s' calls, getColumnHeaders fuel text (submit f l s).1.1.1 (map Success (r :: rest) ++ more)
    = Some (Ok (s', calls ++ [AbortWithError (headersError s')], map Success rest ++ more)) /\
    errorMessage s' = errorMessage s.
Proof.
  intros Hj Hp He Hs Hr. destruct (client_made text j params r rest more Hj Hp) as (c & Ec & _).
  destruct (handler_buffers cols r 0 (cleared s) Hr Hs) as (s1 & c1 & E1 & B1).
  pose proof (buf_error _ _ _ _ _ B1) as Hm. cbn in Hm.
  exists (with_client c s1), c1. unfold getColumnHeaders. cbn [map app submit fst]. rewrite Ec.
  cbn [callbacks callback mbind result_bind]. rewrite E1. cbn [mbind result_bind app].
  assert (truthy_string (errorMessage (with_client c s1)) = true) as Ht by (cbn; by rewrite Hm).
  assert (headerLoop fuel (with_client c s1) (map Success rest ++ more)
    = Some (Ok (with_client c s1, [], map Success rest ++ more))) as ->.
  { destruct fuel; cbn [headerLoop]; by rewrite Ht, orb_true_r. }
  rewrite Ht. done.
Qed.

(** ** Examples *)

Definition sample_fields : Fields := {|
  fQuery := "SELECT id, tags FROM t"; fSchema := Some "default"; fCatalog := Some "hive"; fUserName := "me";
  dataSourceName := "t" |}.

Definition sample_row (i : Z) (name value : string) : SessionRow :=
  {| rowId := i; nameInput := name; valueInput := value; handlers := 1 |}.

Definition sample_rows : list SessionRow :=
  [sample_row 0 "b" (quoted "x"); sample_row 1 "a" "1"; sample_row 2 "b" "2"; sample_row 3 "7" "s"].

Definition sample_text : string := connectionData sample_fields sample_rows.

Definition sample_json : json := match JSON_parse sample_text with Ok j => j | Throw _ => JNull end.

(** The last value of a name counts, and an array index comes first. *)
Example sample_session : session_parameters (connectionDataOf sample_json) = Ok ["7=s"; "b=2"; "a=1"].
Proof. vm_compute. reflexivity. Qed.

Definition sample_columns : columns_t :=
  [{| columnName := "id"; columnType := "bigint" |}; {| columnName := "tags"; columnType := "array(varchar)" |}].

Definition sample_answer (uri : option string) (c : option columns_t) (d : option data_t) : Response :=
  {| nextUri := uri; columns := c; data := d; StatementClient.error := None |}.

Definition sample_value (i : Z) (tag : string) : list json := [JNum (num_of_Z i); JArr [JStr tag]].

(** The statement is queued, then two batches of rows with an empty answer
    between them. *)
Definition sample_first : Response := sample_answer (Some "/1") None None.
Definition sample_rest : list Response :=
  [sample_answer (Some "/2") None None;
   sample_answer (Some "/3") (Some sample_columns) (Some [sample_value 1 "x"; sample_value 2 "y"]);
   sample_answer (Some "/4") (Some sample_columns) None;
   sample_answer None (Some sample_columns) (Some [sample_value 3 "z"])].

Lemma import_good : Forall (good sample_columns) (sample_first :: sample_rest).
Proof. repeat (apply Forall_cons; split; [split_and!; [done|done|cbn; auto]|]). by apply Forall_nil. Qed.

Lemma tableau_import_witness : exists s left,
  getColumnHeaders 5 sample_text initial_state (map Success (sample_first :: sample_rest) ++ [])
    = Some (Ok (s, [HeadersCallback ["id"; "tags"] ["string"; "string"]], left)) /\
  gather 6 0 s left = Some (Ok (Imported
    (map (fun '(i, t) => [("id", Some (JNum (num_of_Z i))); ("tags", Some (JStr ("[" +:+ quoted t +:+ "]")))])
       [(1, "x"); (2, "y"); (3, "z")]))).
Proof.
  destruct (tableau_import sample_fields sample_rows sample_columns sample_first sample_rest [] 0)
    as (j & c & s & left & _ & _ & H1 & H2).
  - vm_compute. tauto.
  - exact import_good.
  - reflexivity.
  - exists s, left. split; [exact H1|]. etransitivity; [exact H2|]. vm_compute. reflexivity.
Defined.

Lemma rows_typed_witness :
  dict_keys (fillRow sample_columns (sample_value 1 "x") []) = ["id"; "tags"] /\
  exists cell, dict_get "tags" (fillRow sample_columns (sample_value 1 "x") []) = Some (Some cell) /\
    exists text, cell = JStr text /\ JSON_parse text = Ok (JArr [JStr "x"]).
Proof.
  destruct (rows_typed sample_columns (sample_value 1 "x")) as (_ & H1 & H2).
  - by refine (bool_decide_eq_true_1 _ _).
  - by refine (bool_decide_eq_true_1 _ _).
  - reflexivity.
  - split; [exact H1|]. destruct (H2 1%nat {| columnName := "tags"; columnType := "array(varchar)" |} (JArr [JStr "x"]))
      as (cell & Hc & Ht); [reflexivity|reflexivity|done|]. exists cell. split; [exact Hc|exact Ht].
Defined.

Definition sample_failure : answer :=
  Success {| nextUri := None; columns := None; data := None;
    StatementClient.error := Some {| StatementClient.errorName := "SYNTAX_ERROR"; message := "line 1:1" |} |}.

Lemma failure_aborts_witness : exists s,
  getColumnHeaders 1 sample_text initial_state [Success sample_first; sample_failure]
  = Some (Ok (s, [AbortWithError "Error: [SYNTAX_ERROR]: line 1:1"], [])) /\ headersPushed s = false.
Proof.
  apply (failure_aborts sample_text sample_json ["7=s"; "b=2"; "a=1"] [sample_first] sample_failure []
    "SYNTAX_ERROR" "line 1:1").
  - vm_compute. reflexivity.
  - vm_compute. reflexivity.
  - by repeat constructor.
  - constructor.
  - done.
Defined.

Lemma headers_never_come_witness :
  getColumnHeaders 100 sample_text initial_state [Success (sample_answer None None None)] = None /\
  getColumnHeaders 100 sample_text initial_state [Failure "" ""] = None.
Proof.
  apply (headers_never_come sample_text sample_json ["7=s"; "b=2"; "a=1"] (sample_answer None None None) [] [] "" 100).
  - vm_compute. reflexivity.
  - vm_compute. reflexivity.
  - vm_compute. reflexivity.
  - by repeat constructor.
Defined.

(** A client that waits for the first answer with rows. *)
Definition waiting_client : Client :=
  {| StatementClient.query := "SELECT 1"; headers := []; currentResults := Some sample_first; valid := true |}.

Lemma failure_stalls_witness :
  gather 1 0 (with_client waiting_client initial_state) [sample_failure] = Some (Ok (Stalled [])).
Proof.
  apply (failure_stalls 0 (with_client waiting_client initial_state) waiting_client sample_first [] sample_failure []
    "SYNTAX_ERROR" "line 1:1" 0); try reflexivity; constructor.
Defined.

Definition schema_answer (uri : option string) (names : list string) : Response :=
  sample_answer uri (Some []) (Some (map (fun n => [JStr n]) names)).

(** The attribute of a text without character references: what stands before
    the first double quote. *)
Fixpoint upto_quote (t : string) : string :=
  match t with
  | "" => ""
  | String c t' => if Ascii.eqb c dquote then "" else String c (upto_quote t')
  end.

Lemma upto_quote_plain t : plain t = true -> upto_quote t = t.
Proof.
  unfold plain. induction t as [|c t IH]; cbn; [done|]. intros [H1 H2]%andb_prop.
  unfold plain_char in H1. cbn in H1. destruct (Ascii.eqb c dquote); [by rewrite andb_false_r in H1|]. by rewrite IH.
Qed.

Lemma upto_quote_cut t u : plain t = true -> upto_quote (t +:+ String dquote u) = t.
Proof.
  unfold plain. induction t as [|c t IH]; cbn; [done|]. intros [H1 H2]%andb_prop.
  unfold plain_char in H1. cbn in H1. destruct (Ascii.eqb c dquote); [by rewrite andb_false_r in H1|]. by rewrite IH.
Qed.

Definition plain_rows : list SessionRow := [sample_row 0 "b" "x y"; sample_row 1 "a" "1"].

Lemma form_ready_witness : exists form,
  ready upto_quote 2 (Some (connectionData sample_fields plain_rows)) (Some (dataSourceName sample_fields)) initial_state
    (map Success [schema_answer (Some "/1") ["hive"]; schema_answer None ["tpch"]] ++
     map Success [schema_answer (Some "/1") ["a"; "default"]; schema_answer None ["z"]])
    = Some (Ok (form, initial_state, [])) /\
  map optionText (catalogOptions form) = ["hive"; "tpch"] /\ selectedValue (catalogOptions form) = Some "hive" /\
  map optionText (schemaOptions form) = ["a"; "default"; "z"] /\ selectedValue (schemaOptions form) = Some "default" /\
  queryInput form = fQuery sample_fields /\
  map row_pair (rows (sessionRows form)) = [("b", "x y"); ("a", "1")].
Proof.
  destruct (form_ready upto_quote 2 sample_fields plain_rows initial_state
    (schema_answer (Some "/1") ["hive"]) [schema_answer None ["tpch"]]
    (schema_answer (Some "/1") ["a"; "default"]) [schema_answer None ["z"]])
    as (form & H & H1 & H2 & H3 & H4 & H5 & _ & _ & H6).
  - apply upto_quote_plain.
  - cbn. lia.
  - cbn. lia.
  - vm_compute. tauto.
  - reflexivity.
  - vm_compute. tauto.
  - reflexivity.
  - exists form. split; [exact H|]. split; [exact H1|]. split; [exact H2|]. split; [exact H3|]. split; [exact H4|].
    split; [exact H5|]. destruct H6 as (_ & _ & H7); [reflexivity|]. apply H7.
    + by refine (bool_decide_eq_true_1 _ _).
    + by repeat constructor.
Defined.

(** A value of which only the first letter comes back. *)
Lemma quote_cuts_value_witness : exists f',
  restoreSession upto_quote
    (connectionData sample_fields [{| rowId := 0; nameInput := "p"; valueInput := "x" +:+ String dquote "y"; handlers := 1 |}])
    {| rows := []; sessionParameterCount := 0 |} = Ok f' /\ map row_pair (rows f') = [("p", "x")].
Proof.
  apply (quote_cuts_value upto_quote sample_fields 0 "p" "x" "y"); try done.
  - apply upto_quote_plain.
  - apply upto_quote_cut.
Defined.

Definition two_rows : SessionRows :=
  {| rows := [sample_row 0 "a" "1"; sample_row 1 "b" "2"]; sessionParameterCount := 2 |}.

Lemma added_row_stays_witness :
  let f' := addSessionParameterToForm (fun s => s) "c" "3" (removeClick 0 two_rows) in
  last (map nameInput (rows f')) = Some "c" /\ removeClick 1 f' = f'.
Proof.
  apply (added_row_stays (fun s => s) two_rows 0 "c" "3").
  - reflexivity.
  - reflexivity.
  - by repeat constructor.
  - cbn. lia.
Defined.

Definition failed_listing : State := errorHandler "503" "Service Unavailable" initial_state.

Lemma stale_error_aborts_witness : exists s' calls,
  getColumnHeaders 1 sample_text (submit sample_fields sample_rows failed_listing).1.1.1
    [Success (sample_answer None (Some sample_columns) None)]
  = Some (Ok (s', calls ++ [AbortWithError (headersError s')], [])) /\ errorMessage s' = Some "Service Unavailable".
Proof.
  apply (stale_error_aborts sample_text sample_json ["7=s"; "b=2"; "a=1"] sample_columns sample_fields sample_rows
    failed_listing (sample_answer None (Some sample_columns) None) [] [] 1).
  - vm_compute. reflexivity.
  - vm_compute. reflexivity.
  - reflexivity.
  - reflexivity.
  - by repeat constructor.
Defined.
