(* ===== verification/PageLoop.v ===== *)
(** * Several components on one page

    A page mounts several components.  Each runs the loop of [RefreshLoop] on
    its own state, but the timers belong to the page: [setTimeout] numbers
    them in one sequence, and [clearTimeout] takes any number.  The page is a
    state for each component, indexed by [I], over one list of timers.

    The page refines its components: in an execution of the page every
    component runs an execution of its own machine ([page_projects]), so a
    component never clears a timer of another one, and what is proved of a
    component alone holds on the page. *)
From S2P Require Import Prelude RefreshLoop.
From Stdlib Require Import Eqdep_dec.
Local Open Scope nat_scope.

Section page.
Context {I : Type} `{EqDecision I} {S C R X : I -> Type}.
Context (P : forall i, Poller (S i) (C i) (R i) (X i)).

(** ** The page *)

Record part (i : I) := mkPart {
  part_comp : S i;
  part_timeoutId : option nat;
  part_in_flight : list (C i)
}.
Arguments mkPart {i}.
Arguments part_comp {i}.
Arguments part_timeoutId {i}.
Arguments part_in_flight {i}.

(** A timer with the component whose [refreshLoop] it calls. *)
Record page := mkPage {
  parts : forall i, part i;
  page_timers : list (nat * I);
  page_next_id : nat
}.

Definition set_part (i : I) (x : part i) (p : forall i, part i) (j : I) : part j :=
  match decide (i = j) with
  | left e => eq_rect i part x j e
  | right _ => p j
  end.

Lemma set_part_eq i x p : set_part i x p i = x.
Proof.
  unfold set_part. case_decide as H; [|done].
  symmetry. apply eq_rect_eq_dec. intros a b. destruct (decide (a = b)); auto.
Qed.

Lemma set_part_ne i j x p : i <> j -> set_part i x p j = p j.
Proof. intros H. unfold set_part. by case_decide. Qed.

(** [clearTimeout]: any timer with that number. *)
Definition clearTimeout (id : option nat) (ts : list (nat * I)) : list (nat * I) :=
  match id with
  | Some k => filterb (fun e => negb (Nat.eqb e.1 k)) ts
  | None => ts
  end.

Definition page_refreshLoop (i : I) (p : page) : page :=
  let x := parts p i in
  let '(s, c) := on_start (Poller := P i) (part_comp x) in
  mkPage (set_part i (mkPart s (part_timeoutId x) (part_in_flight x ++ [c])) (parts p))
    (clearTimeout (part_timeoutId x) (page_timers p)) (page_next_id p).

Definition page_resetTimer (i : I) (p : page) : page :=
  let x := parts p i in
  let ts := clearTimeout (part_timeoutId x) (page_timers p) in
  if keep_polling (Poller := P i) (part_comp x)
  then mkPage (set_part i (mkPart (part_comp x) (Some (page_next_id p)) (part_in_flight x)) (parts p))
         (ts ++ [(page_next_id p, i)]) (Datatypes.S (page_next_id p))
  else mkPage (parts p) ts (page_next_id p).

Definition with_part (i : I) (x : part i) (p : page) : page :=
  mkPage (set_part i x (parts p)) (page_timers p) (page_next_id p).

Definition with_page_timers (p : page) (ts : list (nat * I)) : page := mkPage (parts p) ts (page_next_id p).

(** All components are mounted: each has sent its first request. *)
Definition mounted_page (s0 : forall i, S i) : page :=
  mkPage (fun i => let '(s, c) := on_start (Poller := P i) (s0 i) in mkPart s None [c]) [] 0.

(** One turn of the event loop of the page, with the component whose callback
    threw, if one did. *)
Inductive page_step : option I -> page -> page -> Prop :=
| page_timer p i k l1 l2 :
    page_timers p = l1 ++ (k, i) :: l2 ->
    page_step None p (page_refreshLoop i (with_page_timers p (l1 ++ l2)))
| page_answer p i c l1 l2 a s' :
    part_in_flight (parts p i) = l1 ++ c :: l2 -> answered (P := P i) c a (part_comp (parts p i)) = Ok s' ->
    page_step None p (page_resetTimer i (with_part i (mkPart s' (part_timeoutId (parts p i)) (l1 ++ l2)) p))
| page_throw p i c l1 l2 a e :
    part_in_flight (parts p i) = l1 ++ c :: l2 -> answered (P := P i) c a (part_comp (parts p i)) = Throw e ->
    page_step (Some i) p
      (with_part i (mkPart (part_comp (parts p i)) (part_timeoutId (parts p i)) (l1 ++ l2)) p)
| page_local p i s' :
    local_step (Poller := P i) (part_comp (parts p i)) s' ->
    page_step None p (with_part i (mkPart s' (part_timeoutId (parts p i)) (part_in_flight (parts p i))) p)
| page_other p n : page_next_id p <= n -> page_step None p (mkPage (parts p) (page_timers p) n).

(** Executions, with the components whose callbacks threw. *)
Inductive page_reach (p0 : page) : list I -> page -> Prop :=
| page_refl : page_reach p0 [] p0
| page_trans threw t p p' : page_reach p0 threw p -> page_step t p p' -> page_reach p0 (option_list t ++ threw) p'.

(** ** Projections *)

Definition owned_by (i : I) (ts : list (nat * I)) : list nat :=
  map fst (filterb (fun e => bool_decide (e.2 = i)) ts).

Definition project (i : I) (p : page) : machine (S i) (C i) :=
  {| comp := part_comp (parts p i); timers := owned_by i (page_timers p); timeoutId := part_timeoutId (parts p i);
     in_flight := part_in_flight (parts p i); next_id := page_next_id p |}.

Lemma owned_by_app i l k : owned_by i (l ++ k) = owned_by i l ++ owned_by i k.
Proof. unfold owned_by. by rewrite filterb_app, map_app. Qed.

Lemma owned_by_cons i k j l : owned_by i ((k, j) :: l) = (if decide (j = i) then [k] else []) ++ owned_by i l.
Proof. unfold owned_by. cbn. case_decide; [rewrite bool_decide_true by done|rewrite bool_decide_false by done]; done. Qed.

(** Clearing by number commutes with looking at one component. *)
Lemma owned_by_clear i id ts : owned_by i (clearTimeout id ts) = clear id (owned_by i ts).
Proof.
  destruct id as [k|]; [|done]. unfold owned_by, clear, clearTimeout.
  induction ts as [|[n j] ts IH]; cbn; [done|].
  destruct (Nat.eqb n k) eqn:En; cbn; case_bool_decide; cbn; rewrite ?En; cbn; by rewrite ?IH.
Qed.

(** ** Timers have owners *)

(** A number is given once; the number that a component remembers is a timer of
    that component or none. *)
Record owners (p : page) : Prop := {
  timers_below k i : (k, i) ∈ page_timers p -> k < page_next_id p;
  timeouts_below i k : part_timeoutId (parts p i) = Some k -> k < page_next_id p;
  timeouts_own i k j : part_timeoutId (parts p i) = Some k -> (k, j) ∈ page_timers p -> j = i
}.

Lemma elem_of_clear e id ts : e ∈ clearTimeout id ts -> e ∈ ts.
Proof. destruct id; cbn; [|done]. by intros [? _]%elem_of_filterb. Qed.

(** A step that sets no timer keeps the owners. *)
Lemma owners_sub p p' : owners p ->
  (forall e, e ∈ page_timers p' -> e ∈ page_timers p) -> page_next_id p <= page_next_id p' ->
  (forall i, part_timeoutId (parts p' i) = part_timeoutId (parts p i)) -> owners p'.
Proof.
  intros [H1 H2 H3] Ht Hn Hi. split.
  - intros k i Hk%Ht%H1. lia.
  - intros i k. rewrite Hi. intros Hk%H2. lia.
  - intros i k j. rewrite Hi. eauto.
Qed.

Lemma owners_resetTimer i p : owners p -> owners (page_resetTimer i p).
Proof.
  intros HO. unfold page_resetTimer. case_if; [|eapply owners_sub; [exact HO|intros e He; by apply elem_of_clear in He|done|done]].
  destruct HO as [H1 H2 H3]. set (n := page_next_id p).
  assert (forall j k, part_timeoutId (set_part i (mkPart (part_comp (parts p i)) (Some n) (part_in_flight (parts p i))) (parts p) j) = Some k ->
    (j = i /\ k = n) \/ (j <> i /\ part_timeoutId (parts p j) = Some k)) as HT.
  { intros j k. destruct (decide (i = j)) as [<-|Hne]; [rewrite set_part_eq|rewrite set_part_ne by done].
    - cbn. intros [= <-]. by left.
    - intros ?. right. by split; [intros ->|]. }
  split; cbn [parts page_timers page_next_id].
  - intros k j [Hk|Hk]%elem_of_app; [apply elem_of_clear, H1 in Hk; lia|].
    apply list_elem_of_singleton in Hk. simplify_eq. lia.
  - intros j k [[_ ->]|[_ Hk%H2]]%HT; lia.
  - intros j k j' Hj [Ht|Ht]%elem_of_app.
    + apply elem_of_clear in Ht. apply HT in Hj as [[-> ->]|[_ Hk]]; [|by eauto]. apply H1 in Ht. lia.
    + apply list_elem_of_singleton in Ht. apply HT in Hj as [[-> ->]|[_ Hk]]; simplify_eq; [done|].
      apply H2 in Hk. lia.
Qed.

Lemma set_part_timeout i x p : part_timeoutId x = part_timeoutId (parts p i) ->
  forall j, part_timeoutId (set_part i x (parts p) j) = part_timeoutId (parts p j).
Proof.
  intros H j. destruct (decide (i = j)) as [<-|Hne]; [by rewrite set_part_eq|by rewrite set_part_ne].
Qed.

Lemma owners_with_part i x p : owners p -> part_timeoutId x = part_timeoutId (parts p i) -> owners (with_part i x p).
Proof. intros HO H. eapply owners_sub; [exact HO|done|done|]. by apply set_part_timeout. Qed.

Lemma owners_step t p p' : owners p -> page_step t p p' -> owners p'.
Proof.
  intros HO Hs. destruct Hs as [p i k l1 l2 E|p i c l1 l2 a s' E _|p i c l1 l2 a e E _|p i s' _|p n Hn].
  - unfold page_refreshLoop. cbn [with_page_timers parts page_timers page_next_id].
    destruct (on_start (part_comp (parts p i))) as [s c]. eapply owners_sub; [exact HO| |done|].
    + cbn. intros e He%elem_of_clear. rewrite E. set_solver.
    + by apply (set_part_timeout i (mkPart s (part_timeoutId (parts p i)) (part_in_flight (parts p i) ++ [c]))).
  - by apply owners_resetTimer, owners_with_part.
  - by apply owners_with_part.
  - by apply owners_with_part.
  - by eapply owners_sub.
Qed.

(** ** The page refines its components *)

Lemma project_with_part i x p : part_timeoutId x = part_timeoutId (parts p i) ->
  project i (with_part i x p) = with_comp (with_in_flight (project i p) (part_in_flight x)) (part_comp x).
Proof. intros H. unfold project, with_part. cbn. rewrite set_part_eq, H. done. Qed.

Lemma project_with_part_ne i j x p : i <> j -> project j (with_part i x p) = project j p.
Proof. intros H. unfold project, with_part. cbn. by rewrite set_part_ne. Qed.

Lemma project_resetTimer i p : project i (page_resetTimer i p) = resetTimer (P := P i) (project i p).
Proof.
  unfold page_resetTimer, resetTimer. cbn [project comp timers timeoutId in_flight next_id].
  case_if; unfold project; cbn [parts page_timers page_next_id].
  - by rewrite set_part_eq, owned_by_app, owned_by_clear, owned_by_cons, decide_True by done.
  - by rewrite owned_by_clear.
Qed.

Lemma project_refreshLoop i p : project i (page_refreshLoop i p) = refreshLoop (P := P i) (project i p).
Proof.
  unfold page_refreshLoop, refreshLoop. cbn [project comp timers timeoutId in_flight next_id].
  destruct (on_start (part_comp (parts p i))) as [s c]. unfold project. cbn [parts page_timers page_next_id].
  by rewrite set_part_eq, owned_by_clear.
Qed.

(** What one component remembers is no timer of another one. *)
Lemma clear_other i j p ts : owners p -> i <> j -> (forall e, e ∈ ts -> e ∈ page_timers p) ->
  owned_by j (clearTimeout (part_timeoutId (parts p i)) ts) = owned_by j ts.
Proof.
  intros HO Hne Hts. rewrite owned_by_clear. destruct (part_timeoutId (parts p i)) as [k|] eqn:Ek; [|done]. cbn.
  apply filterb_all. intros n Hn. apply negb_true_iff, Nat.eqb_neq. intros ->.
  apply list_elem_of_In, in_map_iff in Hn as ([k' j'] & Hk & Hin%list_elem_of_In). cbn in Hk. subst k'.
  apply elem_of_filterb in Hin as [Hin Hj]. apply bool_decide_eq_true in Hj. cbn in Hj. subst j'.
  apply Hne. symmetry. eapply timeouts_own; eauto.
Qed.

Lemma project_resetTimer_ne i j p : owners p -> i <> j ->
  project j (page_resetTimer i p) = with_next_id (project j p) (page_next_id (page_resetTimer i p)) /\
  page_next_id p <= page_next_id (page_resetTimer i p).
Proof.
  intros HO Hne. unfold page_resetTimer. case_if; (split; [|cbn; lia]); unfold project, with_next_id; cbn [parts page_timers page_next_id comp timers timeoutId in_flight].
  - rewrite set_part_ne, owned_by_app, clear_other, owned_by_cons, decide_False by done. by rewrite app_nil_r.
  - by rewrite clear_other.
Qed.

Lemma project_refreshLoop_ne i j p ts : owners p -> i <> j -> (forall e, e ∈ ts -> e ∈ page_timers p) ->
  project j (page_refreshLoop i (with_page_timers p ts)) = with_timers (project j p) (owned_by j ts).
Proof.
  intros HO Hne Hts. unfold page_refreshLoop. cbn [with_page_timers parts page_timers page_next_id].
  destruct (on_start (part_comp (parts p i))) as [s c]. unfold project, with_timers.
  cbn [parts page_timers page_next_id comp timeoutId in_flight next_id]. by rewrite set_part_ne, clear_other.
Qed.

Lemma project_stutter j (m : machine (S j) (C j)) : step (P := P j) false m m.
Proof. destruct m as [a b c d n]. exact (step_other (P := P j) {| comp := a; timers := b; timeoutId := c; in_flight := d; next_id := n |} n (le_n n)). Qed.

Lemma middle_perm {A} (l1 l2 : list A) x : l1 ++ x :: l2 ≡ₚ x :: l1 ++ l2.
Proof. symmetry. apply Permutation_middle. Qed.

(** The answer to a request of component [i], seen from component [j]. *)
Lemma project_answer i j p x :
  owners p -> part_timeoutId x = part_timeoutId (parts p i) ->
  let m' := project j (page_resetTimer i (with_part i x p)) in
  (i = j /\ m' = resetTimer (P := P j) (project j (with_part i x p))) \/ step (P := P j) false (project j p) m'.
Proof.
  intros HO Hx m'. destruct (decide (i = j)) as [<-|Hne].
  - left. split; [done|]. apply project_resetTimer.
  - right. destruct (project_resetTimer_ne i j (with_part i x p)) as [E Hn]; [by apply owners_with_part|done|].
    unfold m'. rewrite E, project_with_part_ne by done. by apply step_other.
Qed.

Lemma page_step_projects t p p' : owners p -> page_step t p p' ->
  forall j, step (P := P j) (bool_decide (t = Some j)) (project j p) (project j p').
Proof.
  intros HO Hs j. destruct Hs as [p i k l1 l2 E|p i c l1 l2 a s' E Ec|p i c l1 l2 a e E Ec|p i s' HL|p n Hn];
    rewrite ?bool_decide_false by done.
  - destruct (decide (i = j)) as [<-|Hne].
    + rewrite project_refreshLoop. apply (step_timer (P := P i) (project i p) k (owned_by i (l1 ++ l2))).
      cbn [project timers]. rewrite E, !owned_by_app, owned_by_cons, decide_True by done. apply middle_perm.
    + rewrite project_refreshLoop_ne; [|done..|rewrite E; set_solver].
      assert (owned_by j (l1 ++ l2) = timers (project j p)) as ->; [|apply project_stutter].
      cbn [project timers]. rewrite E, !owned_by_app, owned_by_cons, decide_False by done. done.
  - destruct (project_answer i j p (mkPart s' (part_timeoutId (parts p i)) (l1 ++ l2)) HO eq_refl)
      as [[<- ->]|H]; [rewrite project_with_part by done|exact H].
    apply (step_answer (P := P i) (project i p) c (l1 ++ l2) a s'); [cbn; rewrite E; apply middle_perm|done].
  - destruct (decide (i = j)) as [<-|Hne].
    + rewrite bool_decide_true, project_with_part by done.
      apply (step_throw (P := P i) (project i p) c (l1 ++ l2) a e); [cbn; rewrite E; apply middle_perm|done].
    + rewrite bool_decide_false by congruence. rewrite project_with_part_ne by done. apply project_stutter.
  - destruct (decide (i = j)) as [<-|Hne]; [|rewrite project_with_part_ne by done; apply project_stutter].
    rewrite project_with_part by done. by apply (step_local (P := P i) (project i p) s').
  - by apply (step_other (P := P j) (project j p) n).
Qed.

Lemma owners_mounted s0 : owners (mounted_page s0).
Proof.
  unfold mounted_page. split; cbn.
  - set_solver.
  - intros i k. by destruct (on_start (s0 i)).
  - set_solver.
Qed.

Lemma reach_owners s0 threw p : page_reach (mounted_page s0) threw p -> owners p.
Proof. induction 1; [apply owners_mounted|by eapply owners_step]. Qed.

Lemma reach_projects s0 threw p : page_reach (mounted_page s0) threw p ->
  forall i, reach (P := P i) (mounted (P := P i) (s0 i)) (bool_decide (i ∈ threw)) (project i p).
Proof.
  induction 1 as [|threw t p p' Hr IH Hs]; intros i.
  - rewrite bool_decide_false by set_solver.
    assert (project i (mounted_page s0) = mounted (P := P i) (s0 i)) as ->; [|constructor].
    unfold project, mounted_page, mounted, refreshLoop. cbn. by destruct (on_start (s0 i)).
  - pose proof (page_step_projects _ _ _ (reach_owners _ _ _ Hr) Hs i) as H.
    pose proof (reach_step (P := P i) _ _ _ _ _ (IH i) H) as H'.
    assert (bool_decide (i ∈ threw) || bool_decide (t = Some i) = bool_decide (i ∈ option_list t ++ threw)) as <-; [|done].
    destruct t as [j|]; cbn [option_list app].
    + destruct (decide (j = i)) as [->|Hne].
      * rewrite (bool_decide_true (Some i = Some i)), orb_true_r by done. by rewrite bool_decide_true by set_solver.
      * rewrite (bool_decide_false (Some j = Some i)), orb_false_r by congruence. apply bool_decide_ext. set_solver.
    + by rewrite (bool_decide_false (None = Some i)), orb_false_r by done.
Qed.

(** The pending timers and outstanding requests of a component. *)
Definition activity (i : I) (p : page) : nat := length (owned_by i (page_timers p)) + length (part_in_flight (parts p i)).

(** A component whose callbacks never throw is active exactly while it wants to
    go on. *)
Lemma part_activity s0 threw p i :
  page_reach (mounted_page s0) threw p -> PollerLaws (P i) ->
  (forall s, keep_polling (Poller := P i) (on_start (Poller := P i) s).1 = keep_polling (Poller := P i) s) ->
  keep_polling (Poller := P i) (s0 i) = true -> i ∉ threw ->
  activity i p = if keep_polling (Poller := P i) (part_comp (parts p i)) then 1 else 0.
Proof.
  intros Hr HL Hs Hk Ht. pose proof (reach_projects _ _ _ Hr i) as H. rewrite bool_decide_false in H by done.
  destruct (keep_polling (part_comp (parts p i))) eqn:E.
  - destruct (reach_alive (P := P i) _ _ _ H eq_refl) as [Ha|Ha]; [exact Ha|]. cbn in Ha. congruence.
  - exact (reach_stopped (P := P i) _ _ _ Hs Hk H E).
Qed.

(** A component whose callback threw has stopped. *)
Lemma part_dead s0 threw p i : page_reach (mounted_page s0) threw p -> i ∈ threw -> activity i p = 0.
Proof.
  intros Hr Hi. pose proof (reach_projects _ _ _ Hr i) as H. rewrite bool_decide_true in H by done.
  exact (reach_dead (P := P i) _ _ _ H eq_refl).
Qed.

(** Callbacks that never throw. *)
Lemma part_no_throw s0 threw p i :
  page_reach (mounted_page s0) threw p ->
  (forall t m, reach (P := P i) (mounted (P := P i) (s0 i)) t m -> t = false) -> i ∉ threw.
Proof. intros Hr H. apply (bool_decide_eq_false _). by eapply H, reach_projects. Qed.

(** C10: the components of a page do not disturb each other, although they share
    one sequence of timers: in every execution of the page each component runs
    an execution of its own event loop, from its own mounting on.  So a
    component never has two pending timers or requests, and it has one as long
    as it wants to go on and none of its own callbacks threw, whatever the
    other components do. *)
Theorem page_refines (s0 : forall i, S i) (threw : list I) (p : page) :
  (forall i, PollerLaws (P i)) -> page_reach (mounted_page s0) threw p ->
  forall i, reach (P := P i) (mounted (P := P i) (s0 i)) (bool_decide (i ∈ threw)) (project i p) /\
    activity i p <= 1 /\
    (i ∉ threw -> keep_polling (Poller := P i) (part_comp (parts p i)) = true -> activity i p = 1).
Proof.
  intros HL Hr i. pose proof (reach_projects _ _ _ Hr i) as H. split; [done|]. split.
  - by apply (reach_single (P := P i)) in H as [? _].
  - intros Ht Hk. rewrite bool_decide_false in H by done.
    destruct (reach_alive (P := P i) _ _ _ H eq_refl) as [Ha|Ha]; [exact Ha|]. cbn in Ha. congruence.
Qed.
End page.
