(* ===== verification/Pages.v ===== *)
(** * The pages of the web UI

    The entry points ([index.jsx] and the others) mount components into
    elements of the HTML pages.  What they mount where, checked against the
    pages and the bundles webpack builds; and the pages as compositions of
    their polling components ([PageLoop]): how long each page polls. *)
From S2P Require Import Prelude JsString JsNumber JsArray JsDate Html UtilsText QueryInfo RefreshLoop PageLoop.
From S2P Require Import QueryList QueryListFacts QueryListClaims ClusterHUD PageTitle WorkerStatus.
From S2P Require Import LivePlan LivePlanFacts StageDetail StageSummary QueryDetail QueryDetailFacts QueryDetailView.
From S2P Require QueryPage StagePage.
Local Open Scope nat_scope.

(** ** Entry points *)

Module EntryPoints.

(** The components with their properties. *)
Inductive element :=
| PageTitleElement (title : string)
| ClusterHUDElement
| QueryListElement
| QueryDetailElement
| LivePlanElement (queryId : string) (isEmbedded : bool)
| StageDetailElement
| WorkerStatusElement
| WorkerThreadListElement.

(** [ReactDOM.render(element, document.getElementById(container))] *)
Definition index : list (element * string) :=
  [(PageTitleElement "Cluster Overview", "title"); (ClusterHUDElement, "cluster-hud"); (QueryListElement, "query-list")].
Definition query : list (element * string) :=
  [(PageTitleElement "Query Details", "title"); (QueryDetailElement, "query-detail")].
Definition plan (search : string) : list (element * string) :=
  [(PageTitleElement "Query Details", "title");
   (LivePlanElement (getFirstParameter search) false, "live-plan-container")].
Definition embedded_plan (search : string) : list (element * string) :=
  [(LivePlanElement (getFirstParameter search) true, "live-plan-container")].
Definition stage : list (element * string) :=
  [(PageTitleElement "Query Details", "title"); (StageDetailElement, "stage-performance-header")].
Definition worker : list (element * string) :=
  [(PageTitleElement "Worker Status", "title"); (WorkerStatusElement, "worker-status");
   (WorkerThreadListElement, "worker-threads")].

(** webpack.config.js: the entries, each built from [<name>.jsx], and the file
    of the bundle of an entry. *)
Definition entries : list string := ["index"; "query"; "plan"; "embedded_plan"; "stage"; "worker"].
Definition bundle (name : string) : string := "dist/" +:+ name +:+ ".js".

(** An HTML page: the ids of its elements and the bundle it loads. *)
Record html_page := { ids : list string; script : string }.

Definition index_html : html_page :=
  {| ids := ["title"; "cluster-hud"; "query-list-container"; "query-list-title"; "query-list"];
     script := "dist/index.js" |}.
Definition query_html : html_page := {| ids := ["title"; "query-detail"]; script := "dist/query.js" |}.
Definition plan_html : html_page := {| ids := ["title"; "live-plan-container"]; script := "dist/plan.js" |}.
Definition embedded_plan_html : html_page := {| ids := ["live-plan-container"]; script := "dist/embedded_plan.js" |}.
Definition stage_html : html_page :=
  {| ids := ["title"; "stage-performance-header"; "operator-canvas"; "operator-detail-modal"; "operator-detail"];
     script := "dist/stage.js" |}.
Definition worker_html : html_page := {| ids := ["title"; "worker-status"; "worker-threads"]; script := "dist/worker.js" |}.

(** A page fits its entry point: it loads its bundle, and every container is
    one element of the page. *)
Definition fits (name : string) (mounts : list (element * string)) (page : html_page) : Prop :=
  name ∈ entries /\ script page = bundle name /\ NoDup (ids page) /\ NoDup (map snd mounts) /\
  forall c, c ∈ map snd mounts -> c ∈ ids page.

Lemma pages_fit (search : string) :
  fits "index" index index_html /\ fits "query" query query_html /\ fits "plan" (plan search) plan_html /\
  fits "embedded_plan" (embedded_plan search) embedded_plan_html /\ fits "stage" stage stage_html /\
  fits "worker" worker worker_html.
Proof.
  assert (forall name mounts page, name ∈ entries -> script page = bundle name ->
    forallb (fun c => bool_decide (c ∈ ids page)) (map snd mounts) = true ->
    bool_decide (NoDup (ids page)) = true -> bool_decide (NoDup (map snd mounts)) = true -> fits name mounts page) as H.
  { intros name mounts page H1 H2 H3 H4%bool_decide_eq_true H5%bool_decide_eq_true. split_and!; try done.
    intros c Hc. rewrite forallb_forall in H3. by apply (bool_decide_eq_true_1 _), H3, list_elem_of_In. }
  split_and!; (apply H; [set_solver|reflexivity..]).
Qed.
End EntryPoints.

(** ** The overview *)

Inductive overview_part := TitlePart | HudPart | QueriesPart.

#[export] Instance overview_part_eq_dec : EqDecision overview_part.
Proof. solve_decision. Defined.

Section overview.
Context {AS : ArraySort}.

Definition overview_state (i : overview_part) : Type :=
  match i with TitlePart => PageTitle.State | HudPart => ClusterHUD.State | QueriesPart => (QueryList.State * bool)%type end.
Definition overview_answer (i : overview_part) : Type :=
  match i with TitlePart => (Z * PageTitle.Info)%type | HudPart => (Z * Z * ClusterHUD.ClusterStats)%type
  | QueriesPart => QueryListClaims.answer end.
Definition overview_failure (i : overview_part) : Type :=
  match i with TitlePart => (Z * string)%type | _ => unit end.

Definition overview_poller (i : overview_part) : Poller (overview_state i) unit (overview_answer i) (overview_failure i) :=
  match i with
  | TitlePart => PageTitle.poller
  | HudPart => ClusterHUD.poller
  | QueriesPart => query_list_poller
  end.

Definition overview_initial (now : Z) (i : overview_part) : overview_state i :=
  match i with
  | TitlePart => PageTitle.initial_state now
  | HudPart => ClusterHUD.initial_state
  | QueriesPart => (QueryList.initial_state now, false)
  end.

Lemma overview_no_throw now threw p :
  page_reach overview_poller (mounted_page overview_poller (overview_initial now)) threw p -> threw = [].
Proof.
  intros Hr. assert (forall i, i ∉ threw) as H; [|by destruct threw as [|i l]; [|destruct (H i); set_solver]].
  intros i. apply (part_no_throw overview_poller _ _ _ i Hr). intros t m. destruct i.
  - apply (reach_no_throw (P := PageTitle.poller)). intros c [[]|[]] ?; by eexists.
  - apply (reach_no_throw (P := ClusterHUD.poller)). intros c [[[] ?]|x] ?; by eexists.
  - intros [? _]%page_reach_inv. done.
Qed.

(** C32: the overview never stops: on the page that [index.jsx] mounts, whatever
    the answers, failures and the user's actions, no callback throws, each of
    the title, the cluster overview and the query list has exactly one pending
    timer or request, and the displayed queries are distinct queries of the last
    response. *)
Theorem overview_polls (now : Z) (threw : list overview_part) 
    (p : PageLoop.page (S := overview_state) (C := fun _ => unit)) :
  page_reach overview_poller (mounted_page overview_poller (overview_initial now)) threw p ->
  threw = [] /\ (forall i, activity i p = 1) /\ list_inv (part_comp QueriesPart (parts p QueriesPart)).1.
Proof.
  intros Hr. pose proof (overview_no_throw _ _ _ Hr) as ->. split; [done|]. split.
  - intros i. rewrite (part_activity overview_poller _ _ _ i Hr).
    + by destruct i.
    + destruct i; apply _.
    + by destruct i.
    + by destruct i.
    + set_solver.
  - pose proof (reach_projects overview_poller _ _ _ Hr QueriesPart) as H. by apply page_reach_inv in H as [_ ?].
Qed.
End overview.

(** ** Pages with a title and one more polling component *)

Inductive titled_part := TitleOf | Body.

#[export] Instance titled_part_eq_dec : EqDecision titled_part.
Proof. solve_decision. Defined.

Section titled.
Context {S C R X : Type}.

Definition titled_state (i : titled_part) : Type := match i with TitleOf => PageTitle.State | Body => S end.
Definition titled_capture (i : titled_part) : Type := match i with TitleOf => unit | Body => C end.
Definition titled_answer (i : titled_part) : Type := match i with TitleOf => (Z * PageTitle.Info)%type | Body => R end.
Definition titled_failure (i : titled_part) : Type := match i with TitleOf => (Z * string)%type | Body => X end.

Context (Q : Poller S C R X) (HL : PollerLaws Q).

Definition titled_poller (i : titled_part)
    : Poller (titled_state i) (titled_capture i) (titled_answer i) (titled_failure i) :=
  match i with TitleOf => PageTitle.poller | Body => Q end.

Definition titled_initial (now : Z) (s0 : S) (i : titled_part) : titled_state i :=
  match i with TitleOf => PageTitle.initial_state now | Body => s0 end.

(** The page mounted by an entry point, with the component in state [s0], and
    what it can become. *)
Definition titled_page : Type := PageLoop.page (S := titled_state) (C := titled_capture).
Definition titled_reach (now : Z) (s0 : S) : list titled_part -> titled_page -> Prop :=
  page_reach titled_poller (mounted_page titled_poller (titled_initial now s0)).

Definition body (p : titled_page) : S := part_comp Body (parts p Body).

Hypothesis Hstart : forall s, keep_polling (on_start s).1 = keep_polling s.

(** Polling on a page with a title, where the other component does not throw. *)
Lemma titled_polls now s0 threw p :
  (forall t m, reach (mounted s0) t m -> t = false) -> keep_polling s0 = true -> titled_reach now s0 threw p ->
  threw = [] /\ activity TitleOf p = 1 /\ activity Body p = (if keep_polling (body p) then 1 else 0) /\
  exists m, reach (mounted s0) false m /\ comp m = body p.
Proof.
  intros Hok Hk Hr. assert (threw = []) as ->.
  { assert (forall i, i ∉ threw) as H; [|by destruct threw as [|i l]; [|destruct (H i); set_solver]].
    intros i. apply (part_no_throw titled_poller _ _ _ i Hr). intros t m. destruct i.
    - apply (reach_no_throw (P := PageTitle.poller)). intros c [[]|[]] ?; by eexists.
    - by apply Hok. }
  split; [done|]. split_and!.
  - rewrite (part_activity titled_poller _ _ _ TitleOf Hr); [done|apply _|done|done|set_solver].
  - rewrite (part_activity titled_poller _ _ _ Body Hr); [done|done|done|done|set_solver].
  - exists (project Body p). split; [|done]. exact (reach_projects titled_poller _ _ _ Hr Body).
Qed.
End titled.

(** What is left of the polling of a query. *)
Definition polls_for (q : option QueryInfo) : nat :=
  match q with Some q => if finalQueryInfo q then 0 else 1 | None => 1 end.

Lemma polls_for_ended q e : (forall i, q = Some i -> e = finalQueryInfo i) ->
  (if match q with None => true | Some _ => negb e end then 1 else 0) = polls_for q.
Proof. intros H. destruct q as [i|]; [|done]. rewrite (H i eq_refl). cbn. by destruct (finalQueryInfo i). Qed.

(** The first element of a list that does not satisfy a predicate. *)
Lemma first_unique {A} (P : A -> Prop) pre x post pre' x' post' : pre ++ x :: post = pre' ++ x' :: post' ->
  Forall P pre -> ~ P x -> Forall P pre' -> ~ P x' -> x' = x.
Proof.
  revert pre'. induction pre as [|y pre IH]; intros [|y' pre'] E H1 H2 H3 H4; injection E as E1 E2; subst; try done.
  - by apply Forall_cons in H3 as [? _].
  - by apply Forall_cons in H1 as [? _].
  - apply Forall_cons in H1 as [_ ?], H3 as [_ ?]. by eapply IH.
Qed.

Section pages.
Context {AS : ArraySort} (URL : string -> result URLParts) (local : num -> Date) (pathname : string).
Context (search : string) (renderToString : vnode Empty_set -> string) (isEmbedded : bool).

(** C3: the page of a query polls exactly as long as the query runs.  On the page
    that [query.jsx] mounts, when the answers of the coordinator are complete,
    whatever they are and in whatever order errors, clicks and updates come,
    no callback throws and every state of the page renders; the title polls for
    ever; and the query page has one pending timer or outstanding request until
    the answer with the final information comes, and none afterwards. *)
Theorem query_page_polls (now : Z) (threw : list titled_part) (p : titled_page) :
  titled_reach (QueryPage.good_poller URL local pathname) now QueryDetail.initial_state threw p ->
  threw = [] /\ activity TitleOf p = 1 /\ activity Body p = polls_for (QueryDetail.query (body p)) /\
  forall now summary, exists v, QueryDetail.render URL local pathname summary now (body p) = Ok v.
Proof.
  intros Hr. destruct (titled_polls (QueryPage.good_poller URL local pathname) _ (fun s => eq_refl) now
    QueryDetail.initial_state threw p) as (H1 & H2 & H3 & m & Hm & Hb);
    [intros t m Hm; by apply QueryPage.query_page_reach in Hm as [? _]|done|exact Hr|].
  apply QueryPage.query_page_reach in Hm as [_ HI]. rewrite Hb in HI. split; [done|]. split; [done|]. split.
  - rewrite H3. apply polls_for_ended, HI.
  - intros now' summary. pose proof (QueryPage.inv_renders URL local pathname (body p) (now', summary) HI) as E.
    revert E. unfold QueryDetail.commit. cbn [fst snd].
    destruct (QueryDetail.render URL local pathname summary now' (body p)); [by eexists|done].
Qed.

End pages.

(** ** Examples *)

(** The request for the cluster statistics fails: its component sets timer 0,
    the others still wait. *)
Definition overview_start : PageLoop.page := mounted_page overview_poller (overview_initial 0).
Definition overview_failed : PageLoop.page :=
  page_resetTimer overview_poller HudPart
    (with_part HudPart (mkPart HudPart ClusterHUD.initial_state None []) overview_start).

Lemma overview_failed_reach : page_reach overview_poller overview_start [] overview_failed.
Proof.
  apply (page_trans overview_poller overview_start [] None overview_start overview_failed); [constructor|].
  exact (page_answer overview_poller overview_start HudPart tt [] [] (inr tt) _ eq_refl eq_refl).
Qed.

Lemma page_refines_witness :
  activity HudPart overview_failed <= 1 /\ activity QueriesPart overview_failed = 1.
Proof.
  assert (forall i, PollerLaws (overview_poller i)) as HL by (intros []; apply _).
  destruct (page_refines overview_poller (overview_initial 0) [] overview_failed HL overview_failed_reach HudPart) as (_ & H1 & _).
  destruct (page_refines overview_poller (overview_initial 0) [] overview_failed HL overview_failed_reach QueriesPart) as (_ & _ & H2).
  split; [exact H1|]. apply H2; [set_solver|reflexivity].
Defined.

Lemma overview_polls_witness :
  page_timers overview_failed = [(0, HudPart)] /\ forall i, activity i overview_failed = 1.
Proof. split; [reflexivity|]. apply (overview_polls 0 [] overview_failed overview_failed_reach). Defined.

(** The page of a query that has already ended: after the first answer only the
    title goes on. *)
Definition ended_info : QueryInfo := QueryDetailView.with_final true QueryDetailView.page_info.

Lemma ended_good : QueryPage.good_answer TaskListFacts.simple_URL ended_info.
Proof.
  split; [split; [intros [? [=]]|done]|]. split; [vm_compute; eauto|]. intros st [= <-]. split.
  - apply Forall_forall. intros x [->|[->|[]%elem_of_nil]%elem_of_cons]%elem_of_cons; repeat split; eauto.
  - repeat (constructor; [split; [eexists; reflexivity|vm_compute; eauto]|]). constructor.
Qed.

Definition here (_ : num) : Date := local_date 0 0.

Definition sample_poller : Poller QueryDetail.State unit
    { a : QueryDetail.env * (Z * QueryInfo) | QueryPage.good_answer TaskListFacts.simple_URL a.2.2 } QueryDetail.env :=
  QueryPage.good_poller TaskListFacts.simple_URL here "/ui/query.html".

Definition query_start : titled_page :=
  mounted_page (titled_poller sample_poller) (titled_initial 0 QueryDetail.initial_state).
Definition query_answered : titled_page :=
  page_resetTimer (titled_poller sample_poller) Body
    (with_part Body (mkPart Body (QueryDetail.refresh_success 1 ended_info QueryDetail.initial_state) None []) query_start).

Lemma query_answered_reach : titled_reach sample_poller 0 QueryDetail.initial_state [] query_answered.
Proof.
  apply (page_trans (titled_poller sample_poller) query_start [] None query_start query_answered); [constructor|].
  refine (page_answer (titled_poller sample_poller) query_start Body tt [] []
    (inl (exist _ ((1%Z, fun _ => StageSummary.initial_state), (1%Z, ended_info)) ended_good)) _ eq_refl _).
  apply (QueryPage.answered_good TaskListFacts.simple_URL here "/ui/query.html"), QueryPage.page_inv_initial.
Qed.

Lemma query_page_polls_witness : activity TitleOf query_answered = 1 /\ activity Body query_answered = 0.
Proof.
  destruct (query_page_polls TaskListFacts.simple_URL here "/ui/query.html" 0 [] query_answered query_answered_reach)
    as (_ & H1 & H2 & _). by split.
Defined.

(** The page that follows the first answer or failure of the other component. *)
Definition titled_start {S C R X} (Q : Poller S C R X) (s0 : S) : titled_page :=
  mounted_page (titled_poller Q) (titled_initial 0 s0).
Definition titled_answered {S C R X} (Q : Poller S C R X) (s0 s1 : S) : titled_page :=
  page_resetTimer (titled_poller Q) Body (with_part Body (mkPart Body s1 None []) (titled_start Q s0)).

Lemma titled_answered_reach {S C R X} (Q : Poller S C R X) (s0 s1 : S) (a : R + X) :
  (on_start s0).1 = s0 -> answered (P := Q) (on_start s0).2 a s0 = Ok s1 ->
  titled_reach Q 0 s0 [] (titled_answered Q s0 s1).
Proof.
  intros Hs E. apply (page_trans (titled_poller Q) (titled_start Q s0) [] None (titled_start Q s0) (titled_answered Q s0 s1));
    [constructor|].
  pose proof (page_answer (titled_poller Q) (titled_start Q s0) Body (on_start s0).2 [] [] a s1) as H.
  unfold titled_answered. unfold titled_start in *. cbn in *. destruct (on_start s0) as [s c]. cbn in *. subst s.
  by apply H.
Qed.

Definition plan_poller : Poller (LivePlan.View * list QueryInfo) unit QueryInfo unit := logged_plan no_html "/ui/plan.html" false.
Definition plan_start : LivePlan.View * list QueryInfo := (LivePlan.Shown LivePlan.initial_state, []).
Definition plan_after (q : QueryInfo) : titled_page :=
  titled_answered plan_poller plan_start (LivePlan.onAnswer no_html "/ui/plan.html" false q plan_start.1, [q]).

Lemma plan_after_reach q : titled_reach plan_poller 0 plan_start [] (plan_after q).
Proof. by apply (titled_answered_reach plan_poller plan_start _ (inl q)). Qed.

Lemma ended_drawable : drawable no_html "/ui/plan.html" false ended_info.
Proof.
  split; [|intros _; vm_compute; by eexists].
  exists (match LivePlan.getStages ended_info with Ok m => m | Throw _ => [] end).
  exists (match LivePlan.graph_calls no_html (match LivePlan.getStages ended_info with Ok m => m | Throw _ => [] end) with
          | Ok l => l | Throw _ => [] end).
  split; vm_compute; reflexivity.
Qed.

Lemma queued_not_drawable : ~ drawable no_html "/ui/plan.html" false (sample_info None).
Proof. by intros [(stages & cmds & [=] & _) _]. Qed.

(** An answer that is final, without stages. *)
Definition final_answer : { q : QueryInfo | StagePage.good_answer q }.
Proof. exists (QueryDetailView.with_final true (sample_info None)). by split; [intros [? [=]]|]. Defined.

Definition stage_poller : Poller (StageDetail.State * list { q : QueryInfo | StagePage.good_answer q }) StageDetail.Selection
    { q : QueryInfo | StagePage.good_answer q } unit := StagePage.logged_stage "" no_html "/ui/stage.html".
Definition stage_start : StageDetail.State * list { q : QueryInfo | StagePage.good_answer q } := (StageDetail.initial_state, []).
Definition stage_after : StageDetail.State * list { q : QueryInfo | StagePage.good_answer q } :=
  (StageDetail.refresh_success (StageDetail.refresh_start "" StageDetail.initial_state) (proj1_sig final_answer)
     StageDetail.initial_state, [final_answer]).

