(* ===== verification/Timeline.v ===== *)
(** * The page of the splits (timeline.html)

    The script of the page asks for one query and draws, for every task of its
    stages, the time from its creation to its end as four bars of a vis.js
    timeline.  Modelled are the tasks it collects, the groups and the items it
    adds to the two data sets of vis.js, and the exceptions on the way; d3
    sends the request and hands over the answer, and vis.js draws. *)
From S2P Require Import Prelude JsString JsNumber JsNumberFacts JsArray JsObject UtilsParse Html QueryInfo.
Open Scope string_scope.
Open Scope list_scope.
Open Scope Z_scope.

(** ** [Number(s)] *)

(** What may follow the digits of a decimal literal. *)
Definition is_exponent (s : string) : bool :=
  match s with
  | "" => true
  | String c s' =>
      (Ascii.eqb c "e" || Ascii.eqb c "E") &&
      let ds := snd (strip_sign s') in negb (String.eqb ds "") && sforall is_digit ds
  end.

(** An unsigned decimal literal that is all of the string. *)
Definition is_decimal (s : string) : bool :=
  let '(int_part, rest) := span_while is_digit s in
  let '(frac_part, rest') :=
    match rest with
    | "" => ("", "")
    | String c rest' => if Ascii.eqb c dot then span_while is_digit rest' else ("", rest)
    end in
  negb (String.eqb (int_part +:+ frac_part) "") && is_exponent rest'.

(** The digits of a literal with a base, with their value. *)
Definition based_value (base : Z) (s : string) : num :=
  let digit c := match hex_digit c with Some d => d <? base | None => false end in
  if negb (String.eqb s "") && sforall digit s
  then num_of_Z ((fix value s acc := match s with
                  | "" => acc
                  | String c s' => value s' (base * acc + default 0 (hex_digit c))
                  end) s 0)
  else nan.

(** [Number(s)], the conversion of [s == 0] and of [-s]: unlike [parseFloat]
    it takes the whole string, and the empty string is 0. *)
Definition to_number (s : string) : num :=
  let t := trim s in
  let is_base a b := String.prefix (String "0" (String a "")) t || String.prefix (String "0" (String b "")) t in
  if String.eqb t "" then plus_zero
  else if is_base "x"%char "X"%char then based_value 16 (sdrop 2 t)
  else if is_base "o"%char "O"%char then based_value 8 (sdrop 2 t)
  else if is_base "b"%char "B"%char then based_value 2 (sdrop 2 t)
  else
    let u := snd (strip_sign t) in
    if String.eqb u "Infinity" || is_decimal u then parseFloat t else nan.

Example to_number_ex : map to_number ["12"; " -1.5e1 "; ""; "0x1F"; "0b101"; "7a"; "-0x1"; "."; "1e"; "-Infinity"]
  = [num_of_Z 12; num_of_Z (-15); plus_zero; num_of_Z 31; num_of_Z 5; nan; nan; nan; nan; nneg infinity].
Proof. vm_compute. reflexivity. Qed.

Module Timeline.

(** ** Data *)

(** A task of the answer: the fields the script reads.  A time may be
    missing. *)
Record TaskInfo := {
  taskId : string;
  createTime : option string;
  firstStartTime : option string;
  lastStartTime : option string;
  lastEndTime : option string;
  endTime : option string
}.

Inductive Stage := mkStage (tasks : option (list TaskInfo)) (subStages : option (list Stage)).

Record Query := { queryId : string; outputStage : option Stage }.

Record Times := { create : option string; firstStart : option string; lastStart : option string;
                  lastEnd : option string; end_ : option string }.

(** A task as [tasks.map] leaves it. *)
Record Task := { shortId : string; time : Times }.

Record Group := { id : string; content : string; groupSort : string; subgroupOrder : string }.

Record Item := { group : string; start : option string; stop : option string; className : string;
                 subgroup : string; sort : num }.

(** ** The script *)

(** [[].concat.apply(stage.tasks, stage.subStages.map(getTasks))] throws
    without [subStages], and without an array to call [concat] on. *)
Fixpoint getTasks (stage : Stage) : result (list TaskInfo) :=
  let '(mkStage tasks subStages) := stage in
  match subStages with
  | None => Throw TypeError
  | Some l =>
      rest ← mapM getTasks l;
      own ← require tasks;
      Ok (own ++ concat rest)
  end.

(** The function given to [tasks.map]. *)
Definition taskTimes (task : TaskInfo) : Task := {|
  shortId := js_substring_from (taskId task) (indexOf (taskId task) "." + 1);
  time := {| create := createTime task; firstStart := firstStartTime task; lastStart := lastStartTime task;
             lastEnd := lastEndTime task; end_ := endTime task |} |}.

Definition stageId (task : Task) : string := js_substr (shortId task) 0 (indexOf (shortId task) ".").

Definition taskNumber (task : Task) : string :=
  js_substr (shortId task) (indexOf (shortId task) "." + 1) (slen (shortId task)).

(** [groups.add] of vis.js: it looks the id up in the plain object [_data],
    and throws when there is something under it. *)
Definition addGroup (g : Group) (groups : list Group) : result (list Group) :=
  if bool_decide (id g ∈ map id groups) || inherited (id g) then Throw PlainError else Ok (groups ++ [g]).

(** The four items of a task. *)
Definition taskItems (task : Task) : list Item :=
  let item start stop className :=
    {| group := stageId task; start := start; stop := stop; className := className;
       subgroup := taskNumber task; sort := nneg (to_number (taskNumber task)) |} in
  [item (create (time task)) (firstStart (time task)) "red";
   item (firstStart (time task)) (lastStart (time task)) "green";
   item (lastStart (time task)) (lastEnd (time task)) "blue";
   item (lastEnd (time task)) (end_ (time task)) "orange"].

(** The body of the loop over the tasks. *)
Definition addTask (task : Task) (data : list Group * list Item) : result (list Group * list Item) :=
  let '(groups, items) := data in
  groups' ← (if neq (to_number (taskNumber task)) plus_zero then
               addGroup {| id := stageId task; content := stageId task; groupSort := stageId task;
                           subgroupOrder := "sort" |} groups
             else Ok groups);
  Ok (groups', items ++ taskItems task).

(** What the timeline is created with. *)
Definition renderTimeline (data : Query) : result (list Group * list Item) :=
  stage ← require (outputStage data);
  tasks ← getTasks stage;
  foldM addTask (map taskTimes tasks) ([], []).

(** The resource the page asks for; [search] is [window.location.search]. *)
Definition request (search : string) : string := "/v1/query/" +:+ js_substring_from search 1.

(** The callback of the request: the text of the heading, when it is set, and
    the timeline.  d3 hands over null for an answer it could not get. *)
Definition onAnswer (query : option Query) : option string * result (list Group * list Item) :=
  match query with
  | None => (None, Throw TypeError)
  | Some q => (Some (queryId q), renderTimeline q)
  end.

(** ** Numbers *)

Lemma trim_end_digits s : sforall is_digit s = true -> trim_end s = s.
Proof.
  induction s as [|c s IH]; [done|]. cbn [sforall]. intros [Hc Hs]%andb_prop. cbn [trim_end sforall].
  rewrite digit_not_space by done. by rewrite IH.
Qed.

Lemma digits_no_base a c s : is_digit a = false -> sforall is_digit (String c s) = true ->
  String.prefix (String "0" (String a "")) (String c s) = false.
Proof.
  intros Ha [_ Hs]%andb_prop. rewrite prefix_two. destruct s as [|d s]; [by rewrite andb_false_r|].
  apply andb_prop in Hs as [Hd _]. rewrite Ascii.eqb_sym, (Ascii.eqb_sym a d).
  by rewrite (digit_not_char d a), andb_false_r.
Qed.

Lemma to_number_dec z : 0 <= z -> to_number (Z_to_dec z) = num_of_Z z.
Proof.
  intros Hz. pose proof (Z_to_dec_digits z Hz) as Hd. pose proof (Z_to_dec_ne z Hz) as Hn.
  rewrite <- parseFloat_dec by done. destruct (Z_to_dec z) as [|c s]; [done|].
  pose proof Hd as [Hc _]%andb_prop. unfold to_number, trim. cbn [trim_start].
  rewrite digit_not_space, trim_end_digits, !digits_no_base by done. cbn [orb String.eqb strip_sign].
  rewrite !digit_not_char by done. cbn [snd]. unfold is_decimal.
  rewrite <- (sapp_nil_r (String c s)) at 2. rewrite span_while_app by done. cbn. by rewrite orb_true_r.
Qed.

Lemma Z_to_dec_inj a b : 0 <= a -> 0 <= b -> Z_to_dec a = Z_to_dec b -> a = b.
Proof. intros Ha Hb E. rewrite <- (dec_value_Z_to_dec a), <- (dec_value_Z_to_dec b) by done. by rewrite E. Qed.

Lemma digits_not_inherited k : sforall is_digit k = true -> inherited k = false.
Proof.
  intros Hk. apply bool_decide_eq_false. intros Hi.
  assert (Forall (fun n => sforall is_digit n = false) object_prototype_names) as HF
    by (unfold object_prototype_names; repeat constructor).
  rewrite Forall_forall in HF. apply HF in Hi. congruence.
Qed.

(** ** The tasks *)

Lemma stage_tree_ind (P : Stage -> Prop) :
  (forall ts subs, Forall P (default [] subs) -> P (mkStage ts subs)) -> forall s, P s.
Proof.
  intros step. fix go 1. intros [ts [l|]]; apply step; [|constructor].
  cbn. induction l; constructor; [apply go|done].
Qed.

(** Every stage of the tree has its tasks and its list of stages. *)
Fixpoint complete (s : Stage) : bool :=
  let '(mkStage ts subs) := s in
  match ts, subs with Some _, Some l => forallb complete l | _, _ => false end.

(** The tasks of the tree in preorder. *)
Fixpoint all_tasks (s : Stage) : list TaskInfo :=
  let '(mkStage ts subs) := s in
  default [] ts ++ match subs with Some l => flat_map all_tasks l | None => [] end.

Lemma getTasks_spec s : getTasks s = if complete s then Ok (all_tasks s) else Throw TypeError.
Proof.
  induction s as [ts [l|] IH] using stage_tree_ind; cbn [getTasks complete all_tasks]; [|by destruct ts].
  cbn in IH.
  assert (mapM getTasks l = if forallb complete l then Ok (map all_tasks l) else Throw TypeError) as ->.
  { induction IH as [|x l E _ IHl]; cbn; [done|]. rewrite E. destruct (complete x); [|done]. cbn.
    rewrite IHl. by destruct (forallb complete l). }
  rewrite flat_map_concat_map. destruct ts; destruct (forallb complete l); done.
Qed.

(** Task [n] of stage [s] of the query [q]. *)
Definition numbered (q : string) (t : TaskInfo) (k : Z * Z) : Prop :=
  taskId t = q +:+ String "." (Z_to_dec k.1 +:+ String "." (Z_to_dec k.2)) /\ 0 <= k.1 /\ 0 <= k.2 < 2 ^ 53.

Section numbers.
Context (q : string) (t : TaskInfo) (k : Z * Z) (Hq : has_char "." q = false) (Ht : numbered q t k).

Lemma suffix_after a b : has_char "." a = false ->
  js_substring_from (a +:+ String "." b) (indexOf (a +:+ String "." b) "." + 1) = b.
Proof.
  intros Ha. rewrite indexOf_char by done.
  replace (a +:+ String "." b) with ((a +:+ ".") +:+ b) by (by rewrite sapp_assoc).
  replace (slen a + 1) with (slen (a +:+ ".")) by (by rewrite slen_app). apply js_substring_suffix.
Qed.

Lemma shortId_numbered : shortId (taskTimes t) = Z_to_dec k.1 +:+ String "." (Z_to_dec k.2).
Proof. destruct Ht as [E _]. cbn. rewrite E. by apply suffix_after. Qed.

Lemma stageId_numbered : stageId (taskTimes t) = Z_to_dec k.1.
Proof.
  unfold stageId. rewrite shortId_numbered. destruct Ht as (_ & H1 & _).
  rewrite indexOf_char by (by apply Z_to_dec_no_char). unfold js_substr.
  rewrite slen_app. pose proof (slen_nonneg (Z_to_dec k.1)). pose proof (slen_nonneg (String "." (Z_to_dec k.2))).
  replace (Z.min (Z.max 0 0) _) with 0 by lia. replace (Z.min (Z.max _ 0) _) with (slen (Z_to_dec k.1)) by lia.
  apply stake_app. unfold slen. lia.
Qed.

Lemma taskNumber_numbered : taskNumber (taskTimes t) = Z_to_dec k.2.
Proof.
  unfold taskNumber. rewrite shortId_numbered. destruct Ht as (_ & H1 & _).
  assert (forall s i, js_substr s i (slen s) = js_substring_from s i) as ->.
  { intros s i. unfold js_substr, js_substring_from, js_substring. pose proof (slen_nonneg s).
    rewrite (Z.max_l (slen s) 0), (Z.min_l (slen s) (slen s)) by lia. f_equal; [|f_equal]; lia. }
  apply suffix_after. by apply Z_to_dec_no_char.
Qed.
End numbers.

(** ** The groups and the items *)

(** The phases of a task's life and their colours. *)
Definition phases (t : TaskInfo) : list (option string * option string * string) :=
  [(createTime t, firstStartTime t, "red"); (firstStartTime t, lastStartTime t, "green");
   (lastStartTime t, lastEndTime t, "blue"); (lastEndTime t, endTime t, "orange")].

(** The bars of task [k.2] of stage [k.1]. *)
Definition bars (k : Z * Z) (t : TaskInfo) : list Item :=
  map (fun '(a, b, c) => {| group := Z_to_dec k.1; start := a; stop := b; className := c;
                            subgroup := Z_to_dec k.2; sort := nneg (num_of_Z k.2) |}) (phases t).

(** The stages of the first tasks, in order. *)
Definition first_stages (keys : list (Z * Z)) : list string :=
  map (fun k => Z_to_dec k.1) (filterb (fun k => k.2 =? 0) keys).

Lemma first_stages_app ks ks' : first_stages (ks ++ ks') = first_stages ks ++ first_stages ks'.
Proof. unfold first_stages. by rewrite filterb_app, map_app. Qed.

Lemma elem_of_first_stages ks x : x ∈ first_stages ks <-> exists s, (s, 0) ∈ ks /\ x = Z_to_dec s.
Proof.
  unfold first_stages. rewrite list_elem_of_fmap. setoid_rewrite elem_of_filterb. split.
  - intros ([s n] & -> & Hk & Hn). cbn in Hn. apply Z.eqb_eq in Hn as ->. eauto.
  - intros (s & Hk & ->). by exists (s, 0).
Qed.

Lemma taskItems_numbered q t k : has_char "." q = false -> numbered q t k -> taskItems (taskTimes t) = bars k t.
Proof.
  intros Hq Ht. unfold taskItems. rewrite (stageId_numbered q t k Hq Ht), (taskNumber_numbered q t k Hq Ht).
  destruct Ht as (_ & _ & H2 & _). by rewrite to_number_dec.
Qed.

(** One turn of the loop. *)
Lemma addTask_numbered q t k done_ groups items :
  has_char "." q = false -> numbered q t k -> Forall (fun k => 0 <= k.1) done_ -> k ∉ done_ ->
  map id groups = first_stages done_ ->
  exists groups', addTask (taskTimes t) (groups, items) = Ok (groups', items ++ bars k t) /\
    map id groups' = first_stages (done_ ++ [k]).
Proof.
  intros Hq Ht Hp Hk Hg. unfold addTask.
  rewrite (taskItems_numbered q t k Hq Ht), (stageId_numbered q t k Hq Ht), (taskNumber_numbered q t k Hq Ht).
  destruct Ht as (_ & H1 & H2 & H3). rewrite to_number_dec by done.
  change plus_zero with (num_of_Z 0). rewrite neq_num_of_Z by (unfold small; lia).
  rewrite first_stages_app, <- Hg. destruct k as [s n]; cbn in *. destruct (Z.eqb_spec n 0) as [->|Hn].
  - unfold addGroup. cbn [id]. rewrite digits_not_inherited, orb_false_r by (by apply Z_to_dec_digits).
    rewrite bool_decide_eq_false_2.
    + cbn. eexists. split; [done|]. by rewrite map_app.
    + rewrite Hg. intros (s' & Hs & E)%elem_of_first_stages. rewrite Forall_forall in Hp.
      apply Z_to_dec_inj in E as ->; [done|done|by apply (Hp _ Hs)].
  - cbn. eexists. split; [done|]. unfold first_stages. cbn.
    destruct (Z.eqb_spec n 0); [done|]. cbn. by rewrite app_nil_r.
Qed.

Lemma tasks_added q ts keys :
  has_char "." q = false -> Forall2 (numbered q) ts keys ->
  forall done_ groups items, Forall (fun k => 0 <= k.1) done_ -> NoDup (done_ ++ keys) ->
  map id groups = first_stages done_ ->
  exists groups', foldM addTask (map taskTimes ts) (groups, items)
                  = Ok (groups', items ++ concat (zip_with bars keys ts)) /\
    map id groups' = first_stages (done_ ++ keys).
Proof.
  intros Hq. induction 1 as [|t k ts keys Ht _ IH]; intros done_ groups items Hp HN Hg.
  - exists groups. cbn. by rewrite !app_nil_r.
  - destruct (addTask_numbered q t k done_ groups items Hq Ht Hp) as (groups' & E & Hg'); [|done|].
    { apply NoDup_app in HN as (_ & HN & _). intros Hk. apply (HN k Hk). set_solver. }
    destruct (IH (done_ ++ [k]) groups' (items ++ bars k t)) as (gs & Eg & Hgs).
    + apply Forall_app. split; [done|]. constructor; [apply Ht|constructor].
    + by rewrite <- app_assoc.
    + done.
    + exists gs. cbn [map foldM zip_with concat]. rewrite E, Eg, Hgs.
      by rewrite <- !app_assoc.
Qed.

Lemma numbered_keys q ts keys : Forall2 (numbered q) ts keys -> Forall (fun k => 0 <= k.1) keys.
Proof. induction 1 as [|t k ts keys Ht]; constructor; [apply Ht|done]. Qed.

Lemma NoDup_first_stages keys : NoDup keys -> Forall (fun k => 0 <= k.1) keys -> NoDup (first_stages keys).
Proof.
  induction 1 as [|[s n] keys Hk _ IH]; intros HP; [constructor|].
  apply Forall_cons in HP as [H1 HP]. unfold first_stages. cbn. destruct (Z.eqb_spec n 0) as [->|]; [|by apply IH].
  constructor; [|by apply IH]. intros (s' & Hs & E)%elem_of_first_stages. rewrite Forall_forall in HP.
  cbn in E. apply Z_to_dec_inj in E as ->; [done|done|by apply (HP _ Hs)].
Qed.

(** ** Properties *)

(** C39: the timeline of a query whose stages are complete and whose tasks are
    numbered apart is drawn.  The groups are the stages that have a first
    task, in the order of the stage tree, each once; every task has four bars
    in the row of its number, one from each of its times to the next; and
    when every stage has its first task, every bar belongs to a group. *)
Theorem timeline_drawn (query : Query) (stage : Stage) (q : string) (keys : list (Z * Z)) :
  outputStage query = Some stage -> complete stage = true -> has_char "." q = false ->
  Forall2 (numbered q) (all_tasks stage) keys -> NoDup keys ->
  exists groups items,
    renderTimeline query = Ok (groups, items) /\
    map id groups = first_stages keys /\ NoDup (map id groups) /\
    items = concat (zip_with bars keys (all_tasks stage)) /\
    ((forall s n, (s, n) ∈ keys -> (s, 0) ∈ keys) -> forall i, i ∈ items -> group i ∈ map id groups).
Proof.
  intros Hs Hc Hq HF HN. destruct (tasks_added q _ _ Hq HF [] [] []) as (groups & E & Hg); [constructor|done|done|].
  exists groups, (concat (zip_with bars keys (all_tasks stage))). unfold renderTimeline. rewrite Hs. cbn [require mbind result_bind].
  rewrite getTasks_spec, Hc. cbn [mbind result_bind app] in *. rewrite E, Hg. split_and!; [done|done| |done|].
  - apply NoDup_first_stages; [done|]. by eapply numbered_keys.
  - intros H0 i (l & Hl & Hi)%elem_of_concat. apply elem_of_lookup_zip_with in Hl as (n & k & t & -> & Hk & _).
    apply elem_of_first_stages. destruct k as [s m]. exists s. split; [apply (H0 s m); by eapply list_elem_of_lookup_2|].
    unfold bars in Hi. apply list_elem_of_fmap in Hi as ([[a b] c] & -> & _). done.
Qed.

(** what the page does with an answer that is not complete: without an
    answer it shows nothing; a query that has no output stage yet, or a stage
    without its tasks or its list of stages anywhere in the tree, leaves the
    heading alone on the page, since the script throws before it creates the
    timeline. *)
Theorem timeline_throws (query : Query) :
  onAnswer None = (None, Throw TypeError) /\
  (outputStage query = None -> onAnswer (Some query) = (Some (queryId query), Throw TypeError)) /\
  (forall stage, outputStage query = Some stage -> complete stage = false ->
     onAnswer (Some query) = (Some (queryId query), Throw TypeError)).
Proof.
  split; [done|]. unfold onAnswer, renderTimeline. split.
  - by intros ->.
  - intros stage -> Hc. cbn. by rewrite getTasks_spec, Hc.
Qed.

(** ** Examples *)

Definition task (id : string) : TaskInfo := {|
  taskId := id; createTime := Some "10:00:00"; firstStartTime := Some "10:00:01"; lastStartTime := Some "10:00:02";
  lastEndTime := Some "10:00:03"; endTime := None |}.

Definition stage_1 : Stage :=
  mkStage (Some [task "20200101_000000_00001_abcde.1.0"; task "20200101_000000_00001_abcde.1.1"]) (Some []).
Definition stage_0 : Stage := mkStage (Some [task "20200101_000000_00001_abcde.0.0"]) (Some [stage_1]).
Definition sample : Query := {| queryId := "20200101_000000_00001_abcde"; outputStage := Some stage_0 |}.

Lemma timeline_drawn_witness : exists groups items,
  renderTimeline sample = Ok (groups, items) /\ map id groups = ["0"; "1"] /\ length items = 12%nat /\
  forall i, i ∈ items -> group i ∈ ["0"; "1"].
Proof.
  destruct (timeline_drawn sample stage_0 "20200101_000000_00001_abcde" [(0, 0); (1, 0); (1, 1)])
    as (groups & items & E & Hg & _ & Hi & H).
  - reflexivity.
  - reflexivity.
  - reflexivity.
  - do 3 (constructor; [split; [vm_compute; reflexivity|cbn [fst snd]; lia]|]). constructor.
  - apply (bool_decide_unpack _). vm_compute. reflexivity.
  - exists groups, items. split; [exact E|]. split; [exact Hg|]. split; [rewrite Hi; vm_compute; reflexivity|].
    intros i Hin. change (group i ∈ first_stages [(0, 0); (1, 0); (1, 1)]). rewrite <- Hg. apply H, Hin. clear.
    intros s n Hk. repeat (apply elem_of_cons in Hk as [[= -> ->]|Hk]; [repeat constructor|]). by apply elem_of_nil in Hk.
Defined.

Lemma timeline_throws_witness :
  onAnswer (Some {| queryId := "q"; outputStage := Some (mkStage (Some []) None) |}) = (Some "q", Throw TypeError).
Proof.
  destruct (timeline_throws {| queryId := "q"; outputStage := Some (mkStage (Some []) None) |}) as (_ & _ & H).
  apply (H (mkStage (Some []) None)); reflexivity.
Defined.
End Timeline.
