(* ===== verification/Navigation.v ===== *)
(** * Links between the pages

    The pages link to each other by the id of a query, of a stage or of a worker
    after a question mark, and each page reads the id it was opened with from
    [window.location.search].  A link leads to the page of the thing it stands
    for: the page that opens asks the coordinator for that thing. *)
From S2P Require Import Prelude JsString JsNumber JsNumberFacts JsArray JsObject Html.
From S2P Require Import UtilsQuery UtilsText QueryInfo QueryHeader QueryList QueryListView WorkerStatus WorkerThreadList.
From S2P Require Import LivePlan LivePlanFacts StageDetail StageDetailClaims TaskList Pages Timeline.
Local Open Scope Z_scope.

(** ** The browser *)

Fixpoint until (stop : ascii -> bool) (s : string) : string :=
  match s with
  | "" => ""
  | String c s' => if stop c then "" else String c (until stop s')
  end.

Fixpoint from (start : ascii -> bool) (s : string) : string :=
  match s with
  | "" => ""
  | String c s' => if start c then s else from start s'
  end.

Definition is_hash (c : ascii) : bool := Ascii.eqb c "#".
Definition is_question (c : ascii) : bool := Ascii.eqb c "?".

(** A relative address: the file, and what [window.location.search] is there. *)
Definition page_of (href : string) : string := until is_question (until is_hash href).
Definition search_of (href : string) : string := from is_question (until is_hash href).

(** ** What the pages ask for *)

Definition query_request (search : string) : string := "/v1/query/" +:+ getFirstParameter search.
Definition plan_request (queryId : string) : string := "/v1/query/" +:+ queryId.
Definition stage_request (search : string) : string :=
  "/v1/query/" +:+ default "undefined" (head (StageDetail.queryString search)).

(** The resources that the components of a page ask for when it is opened. *)
Definition element_request (search : string) (e : EntryPoints.element) : list string :=
  match e with
  | EntryPoints.QueryDetailElement => [query_request search]
  | EntryPoints.LivePlanElement queryId _ => [plan_request queryId]
  | EntryPoints.StageDetailElement => [stage_request search]
  | EntryPoints.WorkerStatusElement => [WorkerStatus.status_url search]
  | _ => []
  end.

Definition opened (href : string) : list string :=
  let search := search_of href in
  let requests mounts := flat_map (fun m => element_request search m.1) mounts in
  if String.eqb (page_of href) "query.html" then requests EntryPoints.query
  else if String.eqb (page_of href) "plan.html" then requests (EntryPoints.plan search)
  else if String.eqb (page_of href) "stage.html" then requests EntryPoints.stage
  else if String.eqb (page_of href) "worker.html" then requests EntryPoints.worker
  else if String.eqb (page_of href) "timeline.html" then [Timeline.request search]
  else [].

(** ** Ids in addresses *)

(** The characters of the ids of queries, stages and nodes, which addresses keep
    as they are. *)
Definition url_safe_char (c : ascii) : bool :=
  is_digit c || is_alpha c || Ascii.eqb c "_" || Ascii.eqb c "-" || Ascii.eqb c ".".
Definition url_safe (s : string) : bool := sforall url_safe_char s.

Lemma until_safe stop s : sforall (fun c => negb (stop c)) s = true -> until stop s = s.
Proof.
  induction s as [|c s IH]; cbn; [done|]. intros [Hc Hs]%andb_prop. apply negb_true_iff in Hc.
  by rewrite Hc, IH.
Qed.

Lemma safe_no_char c s : url_safe_char c = false -> url_safe s = true -> has_char c s = false.
Proof. intros Hc Hs. by eapply sforall_has_char. Qed.

Lemma safe_no_hash s : url_safe s = true -> sforall (fun c => negb (is_hash c)) s = true.
Proof.
  unfold url_safe. induction s as [|c s IH]; cbn [sforall]; [done|]. intros [Hc Hs]%andb_prop. rewrite IH by done.
  unfold is_hash. destruct (Ascii.eqb_spec c "#") as [->|]; [discriminate Hc|reflexivity].
Qed.

(** An address made of a file and an id. *)
Lemma address_split file p : sforall (fun c => negb (is_hash c) && negb (is_question c)) file = true -> url_safe p = true ->
  page_of (file +:+ "?" +:+ p) = file /\ search_of (file +:+ "?" +:+ p) = "?" +:+ p.
Proof.
  intros Hf Hp. unfold page_of, search_of.
  assert (until is_hash (file +:+ "?" +:+ p) = file +:+ "?" +:+ p) as ->.
  { apply until_safe. rewrite !sforall_app, (safe_no_hash p Hp). cbn [sforall andb is_hash]. rewrite andb_true_r.
    induction file as [|c f IH]; [done|]. cbn in *. apply andb_prop in Hf as [[Hc _]%andb_prop Hf]. by rewrite Hc, IH. }
  induction file as [|c f IH]; [done|]. cbn in *. apply andb_prop in Hf as [[_ Hc]%andb_prop Hf].
  apply negb_true_iff in Hc. rewrite Hc. destruct (IH Hf) as [-> E]. split; [done|exact E].
Qed.

Lemma first_parameter p : url_safe p = true -> getFirstParameter ("?" +:+ p) = p.
Proof. intros Hp. apply (getFirstParameter_spec p ""), safe_no_char; done. Qed.

(** The pages that are opened with the id of a query. *)
Lemma opens_query p file : url_safe p = true -> has_char "." p = false ->
  file ∈ ["query.html"; "plan.html"; "stage.html"; "timeline.html"] ->
  opened (file +:+ "?" +:+ p) = ["/v1/query/" +:+ p].
Proof.
  intros Hp Hd Hf. assert (sforall (fun c => negb (is_hash c) && negb (is_question c)) file = true) as Hs.
  { revert Hf. rewrite !elem_of_cons, elem_of_nil. intros [->|[->|[->|[->|[]]]]]; reflexivity. }
  unfold opened. destruct (address_split file p Hs Hp) as [-> ->]. clear Hs.
  revert Hf. rewrite !elem_of_cons, elem_of_nil.
  intros [->|[->|[->|[->|[]]]]]; cbn [String.eqb Ascii.eqb eqb EntryPoints.query EntryPoints.plan EntryPoints.stage flat_map fst element_request app].
  - unfold query_request. by rewrite first_parameter.
  - unfold plan_request. by rewrite first_parameter.
  - unfold stage_request, StageDetail.queryString. by rewrite first_parameter, split_on_nosep.
  - unfold Timeline.request. by rewrite (js_substring_suffix "?").
Qed.

Lemma opens_worker n : url_safe n = true -> opened ("worker.html?" +:+ n) = ["/v1/worker/" +:+ n +:+ "/status"].
Proof.
  intros Hn. unfold opened. destruct (address_split "worker.html" n eq_refl Hn) as [E1 E2].
  change ("worker.html?" +:+ n) with ("worker.html" +:+ "?" +:+ n). rewrite E1, E2.
  cbn [String.eqb Ascii.eqb eqb EntryPoints.worker flat_map fst element_request app].
  unfold WorkerStatus.status_url. by rewrite first_parameter.
Qed.

(** ** The links *)

Lemma header_hrefs pathname q v : QueryHeader.render pathname q = Ok v -> attr_values "href" v = QueryHeader.header_links q.
Proof.
  unfold QueryHeader.render, QueryHeader.renderProgressBar. destruct (getQueryStateColor q); [|done]. cbn [mbind result_bind].
  destruct (getProgressBarTitle q); [|done]. cbn [mbind result_bind].
  destruct (isQueryEnded (qstate q)); cbn [mbind result_bind]; intros [= <-]; unfold QueryHeader.renderTab;
    repeat case_if; reflexivity.
Qed.

Lemma task_hrefs {E} URL now b t v : TaskList.renderTask (E := E) URL now b t = Ok v ->
  attr_values "href" v = [self (taskStatus t) +:+ "?pretty"; "worker.html?" +:+ nodeId (taskStatus t)].
Proof.
  unfold TaskList.renderTask. destruct (getHostname URL _) as [hn|]; [|done]. cbn [mbind result_bind].
  destruct (if b then _ else _) as [host|]; [|done]. cbn [mbind result_bind].
  destruct (StageDetail.format_nullable _ _) as [sz|]; [|done]. cbn [mbind result_bind]. by intros [= <-].
Qed.

Lemma safe_app a b : url_safe (a +:+ b) = url_safe a && url_safe b.
Proof. apply sforall_app. Qed.

Lemma safe_dec n : 0 <= n -> url_safe (Z_to_dec n) = true.
Proof.
  intros Hn. unfold url_safe. pose proof (Z_to_dec_digits n Hn) as HD. revert HD. generalize (Z_to_dec n).
  induction s as [|c s IH]; [done|]. cbn [sforall]. intros [Hc Hs]%andb_prop. rewrite IH by done.
  unfold url_safe_char. by rewrite Hc.
Qed.

(** The stage page that a click on a stage of the plan opens. *)
Lemma stage_click p n : url_safe p = true -> has_char "." p = false -> 0 <= n < 2 ^ 52 ->
  let href := LivePlan.handleStageClick (p +:+ "." +:+ Z_to_dec n) in
  opened href = ["/v1/query/" +:+ p] /\
  StageDetail.selection_text (StageDetail.refresh_start (search_of href) StageDetail.initial_state) = Z_to_dec n.
Proof.
  intros Hp Hd Hn href. assert (url_safe (p +:+ "." +:+ Z_to_dec n) = true) as Hs.
  { rewrite !safe_app, Hp, safe_dec by lia. done. }
  destruct (address_split "stage.html" _ eq_refl Hs) as [E1 E2].
  assert (StageDetail.queryString ("?" +:+ p +:+ "." +:+ Z_to_dec n) = [p; Z_to_dec n]) as HQ.
  { unfold StageDetail.queryString. rewrite (first_parameter _ Hs).
    change (p +:+ "." +:+ Z_to_dec n) with (p +:+ String "." (Z_to_dec n)). rewrite split_on_app by done.
    by rewrite split_on_nosep by (apply Z_to_dec_no_char; [lia|done]). }
  subst href. unfold LivePlan.handleStageClick, opened. change ("stage.html?" +:+ ?x) with ("stage.html" +:+ "?" +:+ x).
  rewrite E1, E2. split.
  - cbn [String.eqb Ascii.eqb eqb EntryPoints.stage flat_map fst element_request app]. unfold stage_request. by rewrite HQ.
  - unfold StageDetail.refresh_start. cbn [StageDetail.selectedStageId StageDetail.initial_state]. rewrite HQ.
    cbn [StageDetail.selection_text]. rewrite <- (sapp_nil_r (Z_to_dec n)), parseInt_dec by (lia || done).
    rewrite sapp_nil_r. by apply num_to_string_int.
Qed.

(** ** Property *)

(** C21: the links between the pages lead where they say.  For a query id [p] of
    the usual characters: the tabs of a query's header, its link in the query
    list and the ones in the memory pools of a worker open pages that ask for
    this query (the header's last link is the resource itself); a click on a
    stage of the live plan opens the stage page, which asks for the query and
    shows this very stage; and the host of a task leads to the page of its
    worker. *)
Theorem navigation (p : string) :
  url_safe p = true -> has_char "." p = false ->
  (forall pathname q v, queryId q = p -> QueryHeader.render pathname q = Ok v ->
     Forall (fun l => opened l = ["/v1/query/" +:+ p]) (removelast (attr_values "href" v)) /\
     last (attr_values "href" v) = Some ("/v1/query/" +:+ p +:+ "?pretty")) /\
  (forall E local q (v : vnode E), queryId q = p -> renderItem local q = Ok v ->
     map opened (attr_values "href" v) = [["/v1/query/" +:+ p]]) /\
  (forall E reserved revocable total,
     map opened (attr_values "href" (WorkerStatus.renderPoolQuery (E := E) p reserved revocable total)) = [["/v1/query/" +:+ p]]) /\
  (forall n q output stage, 0 <= n < 2 ^ 52 -> queryId (basic q) = p -> outputStage q = Some output ->
     Forall (named_stage p) (all_stages output) -> stage ∈ all_stages output -> stageId stage = p +:+ "." +:+ Z_to_dec n ->
     let href := LivePlan.handleStageClick (stageId stage) in
     let selected := StageDetail.refresh_start (search_of href) StageDetail.initial_state in
     opened href = ["/v1/query/" +:+ p] /\
     exists found, StageDetail.findStage (queryId (basic q) +:+ "." +:+ StageDetail.selection_text selected) output = Ok (Some found) /\
       stageId found = stageId stage) /\
  (forall E URL now b t (v : vnode E), url_safe (nodeId (taskStatus t)) = true -> TaskList.renderTask URL now b t = Ok v ->
     ["/v1/worker/" +:+ nodeId (taskStatus t) +:+ "/status"] ∈ map opened (attr_values "href" v)).
Proof.
  intros Hp Hd. assert (forall file, file ∈ ["query.html"; "plan.html"; "stage.html"; "timeline.html"] ->
    opened (file +:+ "?" +:+ p) = ["/v1/query/" +:+ p]) as HO by (intros file Hf; by apply opens_query).
  split_and!.
  - intros pathname q v Hq Hv. rewrite (header_hrefs _ _ _ Hv). unfold QueryHeader.header_links. rewrite Hq.
    cbn [removelast last]. split; [|done]. repeat constructor; [apply (HO "query.html")|apply (HO "plan.html")|
      apply (HO "stage.html")|apply (HO "timeline.html")]; set_solver.
  - intros E local q v Hq Hv. destruct (renderItem_static local E q v Hv) as (_ & _ & ->). unfold query_link. rewrite Hq. cbn [map].
    f_equal. apply (HO "query.html"). set_solver.
  - intros E reserved revocable total. cbn [WorkerStatus.renderPoolQuery].
    change (attr_values "href" _) with ["query.html" +:+ "?" +:+ p]. cbn [map]. f_equal. apply (HO "query.html"). set_solver.
  - intros n q output stage Hn Hq _ HN Hst Hid href selected. subst href selected. rewrite Hid, Hq.
    destruct (stage_click p n Hp Hd Hn) as [E1 E2]. cbv zeta in E1, E2. rewrite E2. split; [exact E1|].
    rewrite (findStage_find p) by done. destruct (List.find _ _) as [found|] eqn:Ef.
    + exists found. split; [done|]. apply find_some in Ef as [_ Ef]. by apply String.eqb_eq in Ef.
    + exfalso. pose proof (find_none _ _ Ef stage (proj1 (list_elem_of_In _ _) Hst)) as H. cbn in H.
      by rewrite Hid, String.eqb_refl in H.
  - intros E URL now b t v Hs Hv. rewrite (task_hrefs _ _ _ _ _ Hv). cbn [map]. rewrite opens_worker by done. set_solver.
Qed.

Lemma navigation_witness :
  opened "stage.html?20190701_000000_00001_abcde" = ["/v1/query/20190701_000000_00001_abcde"] /\
  exists v, QueryHeader.render "/ui/query.html" QueryHeader.sample_query = Ok v /\
    Forall (fun l => opened l = ["/v1/query/20190701_000000_00001_abcde"]) (removelast (attr_values "href" v)).
Proof.
  split; [reflexivity|]. eexists. split; [reflexivity|].
  destruct (navigation "20190701_000000_00001_abcde") as (H & _); [reflexivity|reflexivity|].
  apply (H "/ui/query.html" QueryHeader.sample_query); reflexivity.
Defined.
