(* ===== verification/ModuleLoader.v ===== *)
(** * The loader of the bundles

    Every bundle starts with the same function [__webpack_require__], which
    runs the body of a module the first time it is required and keeps the
    module in [installedModules].  A module requires its imports, in order,
    before its own code runs.  Shown here for every table of modules, cycles
    included: loading ends, runs exactly the modules that can be reached, each
    once, and an import before the module that imports it unless the two form
    a cycle. *)
From S2P Require Import Prelude.
Local Open Scope nat_scope.

Section loader.
Context {M : Type} `{EqDecision M}.
(** What the function of a module requires. *)
Context (imports : M -> list M).

(** [installed]: the keys of [installedModules]; [executed]: the modules whose
    code has run, in this order, which are those with the flag [l]. *)
Record loader := { installed : list M; executed : list M }.

Definition empty_loader : loader := {| installed := []; executed := [] |}.

Fixpoint require_all (require : M -> loader -> option loader) (ids : list M) (st : loader) : option loader :=
  match ids with
  | [] => Some st
  | id :: ids' => match require id st with Some st' => require_all require ids' st' | None => None end
  end.

(** [None]: the nesting is deeper than [fuel]. *)
Fixpoint webpack_require (fuel : nat) (moduleId : M) (st : loader) : option loader :=
  if decide (moduleId ∈ installed st) then Some st
  else match fuel with
  | O => None
  | S fuel' =>
      match require_all (webpack_require fuel') (imports moduleId)
              {| installed := moduleId :: installed st; executed := executed st |} with
      | Some st' => Some {| installed := installed st'; executed := executed st' ++ [moduleId] |}
      | None => None
      end
  end.

(** ** Specification *)

(** [y] is imported by [x], directly or not. *)
Inductive reaches (x : M) : M -> Prop :=
| reaches_refl : reaches x x
| reaches_import y z : reaches x y -> z ∈ imports y -> reaches x z.

Lemma reaches_step x y z : y ∈ imports x -> reaches y z -> reaches x z.
Proof. intros Hy. induction 1 as [|a b _ IH Hb]; econstructor; eauto using reaches_refl. Qed.

Lemma reaches_trans x y z : reaches x y -> reaches y z -> reaches x z.
Proof. intros Hx. induction 1; [done|]. by econstructor. Qed.

(** [d] occurs in the list before [x]. *)
Definition before (l : list M) (d x : M) : Prop := exists l1 l2, l = l1 ++ x :: l2 /\ d ∈ l1.

Lemma before_app l k d x : before l d x -> before (l ++ k) d x.
Proof. intros (l1 & l2 & -> & Hd). exists l1, (l2 ++ k). by rewrite <- app_assoc. Qed.

Lemma before_snoc l d x : d ∈ l -> before (l ++ [x]) d x.
Proof. intros Hd. by exists l, []. Qed.

(** What loading adds to a loader: the modules [new], reached from [roots]. *)
Record loads (roots : list M) (st st' : loader) (new : list M) : Prop := {
  loads_executed : executed st' = executed st ++ new;
  loads_installed x : x ∈ installed st' <-> x ∈ installed st \/ x ∈ new;
  loads_fresh x : x ∈ new -> x ∉ installed st;
  loads_once : NoDup new;
  loads_roots r : r ∈ roots -> r ∈ installed st';
  loads_reach x : x ∈ new -> exists r, r ∈ roots /\ reaches r x;
  loads_closed x d : x ∈ new -> d ∈ imports x -> d ∈ installed st';
  loads_order x d : x ∈ new -> d ∈ imports x ->
    before (executed st') d x \/ (d ∈ installed st /\ d ∉ executed st) \/ reaches d x
}.

(** The modules that run are installed. *)
Definition ran (st : loader) : Prop := forall x, x ∈ executed st -> x ∈ installed st.

Lemma loads_ran roots st st' new : ran st -> loads roots st st' new -> ran st'.
Proof.
  intros HR HL x. rewrite (loads_executed _ _ _ _ HL), elem_of_app, (loads_installed _ _ _ _ HL).
  intros [?|?]; [left; by apply HR|by right].
Qed.

Lemma loads_nil st : loads [] st st [].
Proof. split; try set_solver; [by rewrite app_nil_r|constructor]. Qed.

Lemma loads_installed_already id st : id ∈ installed st -> loads [id] st st [].
Proof. intros H. split; try set_solver; [by rewrite app_nil_r|constructor]. Qed.

Lemma loads_cons id ids st st1 st2 new1 new2 :
  loads [id] st st1 new1 -> loads ids st1 st2 new2 -> loads (id :: ids) st st2 (new1 ++ new2).
Proof.
  intros A B. pose proof (loads_executed _ _ _ _ A) as A1. pose proof (loads_executed _ _ _ _ B) as B1. split.
  - by rewrite B1, A1, app_assoc.
  - intros x. rewrite (loads_installed _ _ _ _ B), (loads_installed _ _ _ _ A). set_solver.
  - intros x [Hx|Hx]%elem_of_app; [by apply (loads_fresh _ _ _ _ A)|].
    apply (loads_fresh _ _ _ _ B) in Hx. rewrite (loads_installed _ _ _ _ A) in Hx. naive_solver.
  - apply NoDup_app. split_and!; [apply A| |apply B]. intros x H1 H2%(loads_fresh _ _ _ _ B).
    rewrite (loads_installed _ _ _ _ A) in H2. naive_solver.
  - intros r [->|Hr]%elem_of_cons; [|by apply (loads_roots _ _ _ _ B)].
    apply (loads_installed _ _ _ _ B). left. apply (loads_roots _ _ _ _ A). set_solver.
  - intros x [Hx|Hx]%elem_of_app.
    + destruct (loads_reach _ _ _ _ A x Hx) as (r & Hr & ?). exists r. set_solver.
    + destruct (loads_reach _ _ _ _ B x Hx) as (r & Hr & ?). exists r. set_solver.
  - intros x d [Hx|Hx]%elem_of_app Hd.
    + apply (loads_installed _ _ _ _ B). left. by eapply (loads_closed _ _ _ _ A).
    + by eapply (loads_closed _ _ _ _ B).
  - intros x d [Hx|Hx]%elem_of_app Hd.
    + destruct (loads_order _ _ _ _ A x d Hx Hd) as [?|[?|?]]; [left; rewrite B1; by apply before_app|naive_solver..].
    + destruct (loads_order _ _ _ _ B x d Hx Hd) as [?|[[H1 H2]|?]]; [naive_solver| |naive_solver].
      rewrite (loads_installed _ _ _ _ A) in H1. rewrite A1, elem_of_app in H2. naive_solver.
Qed.

(** The body of a module: it is installed before its imports are required and
    has run after them. *)
Lemma elem_snoc {A} (l : list A) y x : x ∈ l ++ [y] -> x ∈ l \/ x = y.
Proof. rewrite elem_of_app, list_elem_of_singleton. done. Qed.

Lemma loads_module id st st' new : ran st -> id ∉ installed st ->
  loads (imports id) {| installed := id :: installed st; executed := executed st |} st' new ->
  loads [id] st {| installed := installed st'; executed := executed st' ++ [id] |} (new ++ [id]).
Proof.
  intros HR Hid A. pose proof (loads_executed _ _ _ _ A) as A1. cbn in A1.
  assert (forall x, x ∈ new -> x <> id /\ x ∉ installed st) as HF.
  { intros x Hx%(loads_fresh _ _ _ _ A). cbn in Hx. set_solver. }
  assert (forall x, x ∈ installed st' <-> x = id \/ x ∈ installed st \/ x ∈ new) as HI.
  { intros x. rewrite (loads_installed _ _ _ _ A). cbn. set_solver. }
  split; cbn [installed executed].
  - by rewrite A1, <- app_assoc.
  - intros x. rewrite HI. set_solver.
  - intros x [Hx|Hx]%elem_snoc; [by apply HF|by subst].
  - apply NoDup_app. split_and!; [apply A| |apply NoDup_singleton].
    intros x H1%HF H2%list_elem_of_singleton. by destruct H1.
  - intros r Hr%list_elem_of_singleton. apply HI. by left.
  - intros x [Hx|Hx]%elem_snoc; [|subst x; exists id; split; [set_solver|constructor]].
    destruct (loads_reach _ _ _ _ A x Hx) as (r & Hr & ?). exists id. split; [set_solver|by eapply reaches_step].
  - intros x d [Hx|Hx]%elem_snoc Hd; [by eapply (loads_closed _ _ _ _ A)|subst x].
    by apply (loads_roots _ _ _ _ A).
  - intros x d [Hx|Hx]%elem_snoc Hd; [|subst x].
    + destruct (loads_order _ _ _ _ A x d Hx Hd) as [?|[[H1 H2]|?]]; [left; by apply before_app| |naive_solver].
      cbn in H1, H2. apply elem_of_cons in H1 as [->|H1]; [|naive_solver]. right. right.
      destruct (loads_reach _ _ _ _ A x Hx) as (r & Hr & ?). by eapply reaches_step.
    + apply (loads_roots _ _ _ _ A), HI in Hd as [->|[Hd|Hd]]; [right; right; constructor| |].
      * destruct (decide (d ∈ executed st)); [|naive_solver]. left. apply before_snoc. rewrite A1. set_solver.
      * left. apply before_snoc. rewrite A1. set_solver.
Qed.

(** ** Correctness *)

Section closed.
(** A finite table in which every import is found. *)
Context (ids : list M) (Hids : forall x d, x ∈ ids -> d ∈ imports x -> d ∈ ids).

(** How many modules are not installed yet. *)
Definition left_over (st : loader) : nat := length (filterb (fun x => negb (bool_decide (x ∈ installed st))) ids).

Lemma left_over_mono st st' : (forall x, x ∈ installed st -> x ∈ installed st') -> left_over st' <= left_over st.
Proof.
  intros H. apply filterb_length_le. intros x. rewrite !negb_true_iff, !bool_decide_eq_false. naive_solver.
Qed.

Lemma left_over_install id st : id ∈ ids -> id ∉ installed st ->
  left_over {| installed := id :: installed st; executed := executed st |} < left_over st.
Proof.
  intros Hin Hid. apply (filterb_length_lt _ _ _ id); [|done|..].
  - intros x. cbn. rewrite !negb_true_iff, !bool_decide_eq_false. set_solver.
  - cbn. by rewrite bool_decide_true by set_solver.
  - by rewrite bool_decide_false.
Qed.

(** Enough fuel: one for each module that is not installed. *)
Lemma require_loads fuel : forall id st, ran st -> id ∈ ids -> left_over st <= fuel ->
  exists st' new, webpack_require fuel id st = Some st' /\ loads [id] st st' new.
Proof.
  induction fuel as [|fuel IH]; intros id st HR Hin Hf; cbn [webpack_require];
    (destruct (decide (id ∈ installed st)) as [Hi|Hi]; [exists st, []; split; [done|by apply loads_installed_already]|]).
  - pose proof (left_over_install id st Hin Hi). lia.
  - assert (forall l st, ran st -> (forall d, d ∈ l -> d ∈ ids) -> left_over st <= fuel ->
      exists st' new, require_all (webpack_require fuel) l st = Some st' /\ loads l st st' new) as HA.
    { clear -IH. induction l as [|d l IHl]; intros st HR Hl Hf; cbn [require_all].
      - exists st, []. split; [done|apply loads_nil].
      - destruct (IH d st HR) as (st1 & new1 & -> & L1); [set_solver|done|].
        destruct (IHl st1) as (st2 & new2 & -> & L2); [by eapply loads_ran|set_solver| |].
        + etrans; [|exact Hf]. apply left_over_mono. intros x Hx. apply (loads_installed _ _ _ _ L1). by left.
        + exists st2, (new1 ++ new2). split; [done|by eapply loads_cons]. }
    destruct (HA (imports id) {| installed := id :: installed st; executed := executed st |}) as (st' & new & -> & L).
    + intros x Hx. cbn in *. specialize (HR x Hx). set_solver.
    + intros d Hd. by eapply Hids.
    + pose proof (left_over_install id st Hin Hi). lia.
    + eexists _, (new ++ [id]). split; [done|]. by apply loads_module.
Qed.

(** Loading a module into an empty loader. *)
Lemma load_spec entry : entry ∈ ids ->
  exists st run, webpack_require (length ids) entry empty_loader = Some st /\
    executed st = run ++ [entry] /\ NoDup (executed st) /\ (forall x, x ∈ executed st <-> reaches entry x) /\
    forall x d, x ∈ executed st -> d ∈ imports x -> ~ reaches d x -> before (executed st) d x.
Proof.
  intros He. destruct (require_loads (length ids) entry empty_loader) as (st & new & E & L);
    [by intros x ?|done|apply filterb_length|].
  pose proof (loads_executed _ _ _ _ L) as Hn. cbn in Hn.
  assert (exists run, executed st = run ++ [entry]) as [run Hrun].
  { destruct ids as [|i l]; [by apply elem_of_nil in He|]. revert E. cbn [length webpack_require].
    rewrite decide_False by apply not_elem_of_nil. destruct (require_all _ _ _) as [st'|]; [|done].
    intros [= <-]. by eexists. }
  exists st, run. split; [done|]. split; [done|]. rewrite Hn. split; [apply L|]. split.
  - intros x. split.
    + intros Hx. destruct (loads_reach _ _ _ _ L x Hx) as (r & Hr & ?).
      apply list_elem_of_singleton in Hr as ->. done.
    + assert (forall y, y ∈ installed st -> y ∈ new) as HI.
      { intros y. rewrite (loads_installed _ _ _ _ L). cbn. set_solver. }
      induction 1 as [|y z _ IH Hz]; [apply HI, (loads_roots _ _ _ _ L); set_solver|].
      apply HI. by eapply (loads_closed _ _ _ _ L).
  - intros x d Hx Hd Hr. rewrite <- Hn. destruct (loads_order _ _ _ _ L x d Hx Hd) as [?|[[H _]|?]]; [done| |done].
    cbn in H. set_solver.
Qed.
End closed.
End loader.
Arguments loader : clear implicits.
