(* ===== verification/Modules.v ===== *)
(** * The modules of the web UI

    What each source file of [W/src] imports and exports, the settings of
    webpack.config.js and package.json under which webpack resolves an import to
    a file or to a package, and what the loader of a bundle ([ModuleLoader]) then
    does with the page's entry.  Webpack's resolver and the packages are
    parameters; the resolver is assumed to do what its documentation says of
    relative paths, extensions and package names, which is what the ids of the
    modules in the bundles under [W/dist] show. *)
From S2P Require Import Prelude JsString JsRegExp ModuleLoader Pages.
Local Open Scope nat_scope.

(** ** The sources *)

(** An import with the names it takes, [default] and [*] for the package's
    default export and for its namespace. *)
Record source := { path : string; exports : list string; imports : list (list string * string) }.

Definition utils_js : source := {|
  path := "./utils.js";
  exports := ["GLYPHICON_DEFAULT"; "GLYPHICON_HIGHLIGHT"; "getQueryStateColor"; "getStageStateColor";
              "getHumanReadableState"; "getProgressBarPercentage"; "getProgressBarTitle";
              "isQueryEnded"; "addToHistory"; "addExponentiallyWeightedToHistory"; "initializeGraph";
              "initializeSvg"; "getChildren"; "truncateString"; "getStageNumber"; "getTaskIdSuffix";
              "getTaskNumber"; "getFirstParameter"; "getHostname"; "getPort"; "getHostAndPort";
              "computeRate"; "precisionRound"; "formatDuration"; "formatRows"; "formatCount";
              "formatDataSizeBytes"; "formatDataSize"; "parseDataSize"; "parseDuration";
              "formatShortTime"; "formatShortDateTime"];
  imports := [(["*"], "dagre-d3");
              (["*"], "d3")] |}.

Definition QueryHeader_jsx : source := {|
  path := "./components/QueryHeader.jsx";
  exports := ["QueryHeader"];
  imports := [(["default"], "react");
              (["getProgressBarPercentage"; "getProgressBarTitle"; "getQueryStateColor"; "isQueryEnded"], "../utils")] |}.

Definition PageTitle_jsx : source := {|
  path := "./components/PageTitle.jsx";
  exports := ["PageTitle"];
  imports := [(["default"], "react")] |}.

Definition ClusterHUD_jsx : source := {|
  path := "./components/ClusterHUD.jsx";
  exports := ["ClusterHUD"];
  imports := [(["default"], "react");
              (["addExponentiallyWeightedToHistory"; "addToHistory"; "formatCount";
                "formatDataSizeBytes"; "precisionRound"], "../utils")] |}.

Definition QueryList_jsx : source := {|
  path := "./components/QueryList.jsx";
  exports := ["QueryListItem"; "QueryList"];
  imports := [(["default"], "react");
              (["formatDataSizeBytes"; "formatShortTime"; "getHumanReadableState";
                "getProgressBarPercentage"; "getProgressBarTitle"; "getQueryStateColor";
                "GLYPHICON_DEFAULT"; "GLYPHICON_HIGHLIGHT"; "parseDataSize"; "parseDuration";
                "truncateString"], "../utils")] |}.

Definition QueryDetail_jsx : source := {|
  path := "./components/QueryDetail.jsx";
  exports := ["QueryDetail"];
  imports := [(["default"], "react");
              (["default"], "reactable");
              (["addToHistory"; "computeRate"; "formatCount"; "formatDataSize"; "formatDataSizeBytes";
                "formatDuration"; "formatShortDateTime"; "getFirstParameter"; "getHostAndPort";
                "getHostname"; "getPort"; "getStageNumber"; "getStageStateColor"; "getTaskIdSuffix";
                "getTaskNumber"; "GLYPHICON_HIGHLIGHT"; "parseDataSize"; "parseDuration";
                "precisionRound"], "../utils");
              (["QueryHeader"], "./QueryHeader")] |}.

Definition LivePlan_jsx : source := {|
  path := "./components/LivePlan.jsx";
  exports := ["LivePlan"];
  imports := [(["default"], "react");
              (["default"], "react-dom/server");
              (["*"], "dagre-d3");
              (["*"], "d3");
              (["formatRows"; "getStageStateColor"; "initializeGraph"; "initializeSvg"; "truncateString"], "../utils");
              (["QueryHeader"], "./QueryHeader")] |}.

Definition StageDetail_jsx : source := {|
  path := "./components/StageDetail.jsx";
  exports := ["StageDetail"];
  imports := [(["default"], "react");
              (["default"], "react-dom");
              (["default"], "react-dom/server");
              (["*"], "dagre-d3");
              (["*"], "d3");
              (["getChildren"; "formatCount"; "formatDataSize"; "formatDuration"; "getFirstParameter";
                "getTaskNumber"; "initializeGraph"; "initializeSvg"; "isQueryEnded"; "parseDataSize";
                "parseDuration"], "../utils");
              (["QueryHeader"], "./QueryHeader")] |}.

Definition WorkerStatus_jsx : source := {|
  path := "./components/WorkerStatus.jsx";
  exports := ["WorkerStatus"];
  imports := [(["default"], "react");
              (["addToHistory"; "formatCount"; "formatDataSize"; "getFirstParameter"; "precisionRound"], "../utils")] |}.

Definition WorkerThreadList_jsx : source := {|
  path := "./components/WorkerThreadList.jsx";
  exports := ["WorkerThreadList"];
  imports := [(["default"], "react");
              (["getFirstParameter"], "../utils")] |}.

Definition index_jsx : source := {|
  path := "./index.jsx";
  exports := [];
  imports := [(["default"], "react");
              (["default"], "react-dom");
              (["ClusterHUD"], "./components/ClusterHUD");
              (["QueryList"], "./components/QueryList");
              (["PageTitle"], "./components/PageTitle")] |}.

Definition query_jsx : source := {|
  path := "./query.jsx";
  exports := [];
  imports := [(["default"], "react");
              (["default"], "react-dom");
              (["QueryDetail"], "./components/QueryDetail");
              (["PageTitle"], "./components/PageTitle")] |}.

Definition plan_jsx : source := {|
  path := "./plan.jsx";
  exports := [];
  imports := [(["default"], "react");
              (["default"], "react-dom");
              (["LivePlan"], "./components/LivePlan");
              (["PageTitle"], "./components/PageTitle");
              (["getFirstParameter"], "./utils")] |}.

Definition embedded_plan_jsx : source := {|
  path := "./embedded_plan.jsx";
  exports := [];
  imports := [(["default"], "react");
              (["default"], "react-dom");
              (["LivePlan"], "./components/LivePlan");
              (["getFirstParameter"], "./utils")] |}.

Definition stage_jsx : source := {|
  path := "./stage.jsx";
  exports := [];
  imports := [(["default"], "react");
              (["default"], "react-dom");
              (["StageDetail"], "./components/StageDetail");
              (["PageTitle"], "./components/PageTitle")] |}.

Definition worker_jsx : source := {|
  path := "./worker.jsx";
  exports := [];
  imports := [(["default"], "react");
              (["default"], "react-dom");
              (["WorkerStatus"], "./components/WorkerStatus");
              (["WorkerThreadList"], "./components/WorkerThreadList");
              (["PageTitle"], "./components/PageTitle")] |}.

Definition sources : list source :=
  [utils_js; QueryHeader_jsx; PageTitle_jsx; ClusterHUD_jsx; QueryList_jsx; QueryDetail_jsx;
   LivePlan_jsx; StageDetail_jsx; WorkerStatus_jsx; WorkerThreadList_jsx; index_jsx; query_jsx;
   plan_jsx; embedded_plan_jsx; stage_jsx; worker_jsx].

(** ** webpack.config.js and package.json *)

Definition extensions : list string := ["*"; ".js"; ".jsx"].

Definition dependencies : list string := ["d3"; "dagre-d3"; "react"; "react-dom"; "reactable"].

(** [module.rules]: the files that go through Babel. *)
Definition rule_test : re := rseq [RLit "."; RAlt (rseq [RLit "j"; RLit "s"]) (rseq [RLit "j"; RLit "s"; RLit "x"]); REnd].

Definition rule_exclude : re :=
  rseq (map RLit ["n"; "o"; "d"; "e"; "_"; "m"; "o"; "d"; "u"; "l"; "e"; "s"]%char).

Definition babel (file : string) : bool := test rule_test file && negb (test rule_exclude file).

(** ** What the resolver promises *)

Inductive target := File (path : string) | Package (specifier : string).

(** Path segments, with [.] and [..] taken away. *)
Definition normalize (segments : list string) : list string :=
  fold_left (fun acc seg =>
    if String.eqb seg "." then acc
    else if String.eqb seg ".." then removelast acc
    else acc ++ [seg]) segments [].

Definition join_path (from specifier : string) : string :=
  "./" +:+ join "/" (normalize (removelast (split_on "/" from) ++ split_on "/" specifier)).

(** The file itself, or the first extension that gives a file. *)
Definition resolve_file (p : string) : option target :=
  File <$> head (filterb (fun f => bool_decide (f ∈ map path sources)) (p :: map (fun e => p +:+ e) extensions)).

Definition documented (from specifier : string) : option target :=
  if String.prefix "." specifier then resolve_file (join_path from specifier)
  else if bool_decide (head (split_on "/" specifier) ∈ map Some dependencies) then Some (Package specifier)
  else None.

(** The entry of a page: [__dirname + '/<name>.jsx']. *)
Definition entry_module (name : string) : string := "./" +:+ name +:+ ".jsx".

(** ** The check of the sources *)

(** The place of a file in the list of sources, which is in an order in which
    the imports of a file come before it. *)
Fixpoint place (p : string) (l : list source) : option nat :=
  match l with
  | [] => None
  | s :: l' => if String.eqb (path s) p then Some 0 else S <$> place p l'
  end.

(** An import of the source at place [k] is a package, or an earlier file that
    exports its names. *)
Definition import_ok (k : nat) (s : source) (i : list string * string) : bool :=
  match documented (path s) i.2 with
  | Some (Package _) => true
  | Some (File f) =>
      match place f sources with
      | Some n => (n <? k) && match sources !! n with
                              | Some t => forallb (fun x => bool_decide (x ∈ exports t)) i.1
                              | None => false
                              end
      | None => false
      end
  | None => false
  end.

Definition sources_ok : bool :=
  forallb (fun k => match sources !! k with
                    | Some s => bool_decide (place (path s) sources = Some k) && babel (path s)
                                && forallb (import_ok k s) (imports s)
                    | None => true
                    end) (seq 0 (length sources)).

Lemma sources_checked : sources_ok = true.
Proof. vm_compute. reflexivity. Qed.

Lemma place_lookup p l n : place p l = Some n -> exists s, l !! n = Some s /\ path s = p.
Proof.
  revert n. induction l as [|s l IH]; intros n; cbn; [done|]. destruct (String.eqb_spec (path s) p) as [<-|_].
  - intros [= <-]. by exists s.
  - destruct (place p l) as [m|]; [|done]. intros [= <-]. by apply IH.
Qed.

(** What the check says of a source. *)
Lemma source_at k s : sources !! k = Some s ->
  place (path s) sources = Some k /\ babel (path s) = true /\
  forall i, i ∈ imports s -> exists t, documented (path s) i.2 = Some t /\
    match t with
    | Package _ => True
    | File f => exists n u, place f sources = Some n /\ n < k /\ sources !! n = Some u /\ path u = f /\
        forall x, x ∈ i.1 -> x ∈ exports u
    end.
Proof.
  intros Hk. pose proof sources_checked as HC. unfold sources_ok in HC. rewrite forallb_forall in HC.
  assert (In k (seq 0 (length sources))) as Hin by (apply in_seq; apply lookup_lt_Some in Hk; lia).
  specialize (HC k Hin). cbv beta in HC. rewrite Hk in HC. bool_hyps. apply bool_decide_eq_true in H. split; [done|]. split; [done|].
  intros i Hi. rewrite forallb_forall in H0. specialize (H0 i (proj1 (list_elem_of_In _ _) Hi)).
  unfold import_ok in H0. destruct (documented (path s) i.2) as [[f|sp]|]; [|by eexists|done].
  eexists. split; [done|]. destruct (place f sources) as [n|] eqn:En; [|done]. bool_hyps.
  destruct (place_lookup _ _ _ En) as (u & Hu & Hp). rewrite Hu in H2. exists n, u.
  split_and!; [done|by apply Nat.ltb_lt|done|done|]. intros x Hx. rewrite forallb_forall in H2.
  by apply (bool_decide_eq_true_1 _ (H2 x (proj1 (list_elem_of_In _ _) Hx))).
Qed.

(** An import that is resolved to a package names one of package.json. *)
Lemma documented_dependency from specifier sp : documented from specifier = Some (Package sp) ->
  sp = specifier /\ head (split_on "/" sp) ∈ map Some dependencies.
Proof.
  unfold documented, resolve_file. case_if; [by destruct (head _)|]. case_if; [|done]. intros [= <-].
  split; [done|]. by apply bool_decide_eq_true in Heqb0.
Qed.

Section packages.
(** The resolver of webpack, the module a package specifier stands for, the modules of the packages, and
    what these import. *)
Context (resolve : string -> string -> option target).
Context (package : string -> string) (package_ids : list string) (package_imports : string -> list string).
Hypothesis resolve_documented : forall from specifier t,
  documented from specifier = Some t -> resolve from specifier = Some t.
Hypothesis package_found : forall specifier,
  head (split_on "/" specifier) ∈ map Some dependencies -> package specifier ∈ package_ids.
Hypothesis packages_closed : forall x d, x ∈ package_ids -> d ∈ package_imports x -> d ∈ package_ids.
Hypothesis packages_apart : forall x, x ∈ package_ids -> x ∉ map path sources.

Definition module_of (t : target) : string := match t with File f => f | Package sp => package sp end.

(** What the function of a module requires, in the order of its imports. *)
Definition module_imports (id : string) : list string :=
  match place id sources ≫= (fun n => sources !! n) with
  | Some s => omap (fun i => module_of <$> resolve (path s) i.2) (imports s)
  | None => package_imports id
  end.

Definition module_ids : list string := map path sources ++ package_ids.

Lemma place_source k s : sources !! k = Some s -> place (path s) sources ≫= (fun n => sources !! n) = Some s.
Proof. intros Hk. by rewrite (proj1 (source_at k s Hk)). Qed.

Lemma place_package x : x ∈ package_ids -> place x sources = None.
Proof.
  intros Hx%packages_apart. destruct (place x sources) as [n|] eqn:E; [|done]. exfalso. apply Hx.
  apply place_lookup in E as (s & Hs & <-). apply list_elem_of_fmap. exists s. split; [done|by eapply list_elem_of_lookup_2].
Qed.

Lemma documented_package from specifier sp : documented from specifier = Some (Package sp) -> package sp ∈ package_ids.
Proof. intros [_ H]%documented_dependency. by apply package_found. Qed.

(** The modules a source requires. *)
Lemma source_imports k s d : sources !! k = Some s -> d ∈ module_imports (path s) ->
  d ∈ package_ids \/ exists n u, n < k /\ sources !! n = Some u /\ path u = d.
Proof.
  intros Hk. unfold module_imports. rewrite (place_source k s Hk). intros (i & Hi & Hd)%list_elem_of_omap.
  destruct (proj2 (proj2 (source_at k s Hk)) i Hi) as (t & Ht & Hok). rewrite (resolve_documented _ _ _ Ht) in Hd. cbn in Hd. injection Hd as <-.
  destruct t as [f|sp]; [|left; by eapply documented_package]. destruct Hok as (n & u & _ & ? & ? & ? & _). right. by exists n, u.
Qed.

Lemma modules_closed x d : x ∈ module_ids -> d ∈ module_imports x -> d ∈ module_ids.
Proof.
  unfold module_ids. rewrite !elem_of_app. intros [Hx|Hx] Hd.
  - apply list_elem_of_fmap in Hx as (s & -> & (k & Hk)%list_elem_of_lookup).
    destruct (source_imports k s d Hk Hd) as [?|(n & u & _ & Hu & <-)]; [by right|left].
    apply list_elem_of_fmap. exists u. split; [done|by eapply list_elem_of_lookup_2].
  - right. unfold module_imports in Hd. rewrite place_package in Hd by done. by eapply packages_closed.
Qed.

(** From a source one reaches packages and sources that are not later. *)
Lemma reaches_earlier k s x : sources !! k = Some s -> reaches module_imports (path s) x ->
  x ∈ package_ids \/ exists n u, n <= k /\ sources !! n = Some u /\ path u = x.
Proof.
  intros Hk. induction 1 as [|y z _ IH Hz]; [right; by exists k, s|]. destruct IH as [Hy|(n & u & Hn & Hu & <-)].
  - left. unfold module_imports in Hz. rewrite place_package in Hz by done. by eapply packages_closed.
  - destruct (source_imports n u z Hu Hz) as [?|(m & v & ? & ? & ?)]; [by left|]. right. exists m, v. split_and!; [lia|done..].
Qed.

Lemma reaches_package p x : p ∈ package_ids -> reaches module_imports p x -> x ∈ package_ids.
Proof.
  intros Hp. induction 1 as [|y z _ IH Hz]; [done|]. unfold module_imports in Hz. rewrite place_package in Hz by done.
  by eapply packages_closed.
Qed.

(** C27: every page loads.  The bundle of each entry runs the modules that its
    entry imports, directly or not, each of them once, and the entry last; and
    when a source file runs, every module it imports has run before: each import
    resolves, either to a source file that Babel compiles and that exports every
    name the import takes from it, or to a package that package.json lists.
    What the packages export is not known here. *)
Theorem pages_load (name : string) :
  name ∈ EntryPoints.entries ->
  exists st run, webpack_require module_imports (length module_ids) (entry_module name) empty_loader = Some st /\
    executed st = run ++ [entry_module name] /\ NoDup (executed st) /\
    (forall x, x ∈ executed st <-> reaches module_imports (entry_module name) x) /\
    forall s i, s ∈ sources -> path s ∈ executed st -> i ∈ imports s ->
      exists t, resolve (path s) i.2 = Some t /\ before (executed st) (module_of t) (path s) /\
        match t with
        | Package sp => sp = i.2 /\ head (split_on "/" sp) ∈ map Some dependencies
        | File f => exists u, u ∈ sources /\ path u = f /\ babel f = true /\ forall x, x ∈ i.1 -> x ∈ exports u
        end.
Proof.
  intros Hn. assert (entry_module name ∈ map path sources) as He.
  { assert (forallb (fun n => bool_decide (entry_module n ∈ map path sources)) EntryPoints.entries = true) as HC
      by (vm_compute; reflexivity).
    rewrite forallb_forall in HC. apply (bool_decide_eq_true_1 _ (HC name (proj1 (list_elem_of_In _ _) Hn))). }
  destruct (load_spec module_imports module_ids modules_closed (entry_module name)) as (st & run & E & Hl & Hd & Hr & Ho);
    [apply elem_of_app; by left|].
  exists st, run. split_and!; [done..|]. intros s i Hs Hx Hi. apply list_elem_of_lookup in Hs as [k Hk].
  destruct (proj2 (proj2 (source_at k s Hk)) i Hi) as (t & Ht & Hok). exists t. split; [by apply resolve_documented|].
  assert (module_of t ∈ module_imports (path s)) as Hin.
  { unfold module_imports. rewrite (place_source k s Hk). apply list_elem_of_omap. exists i. by rewrite (resolve_documented _ _ _ Ht). }
  assert (forall m v, sources !! m = Some v -> path v = path s -> m = k) as Hsame.
  { intros m v Hv Hp. pose proof (proj1 (source_at m v Hv)). pose proof (proj1 (source_at k s Hk)). congruence. }
  assert (path s ∉ package_ids) as Hps.
  { intros ?%packages_apart. apply H. apply list_elem_of_fmap. exists s. split; [done|by eapply list_elem_of_lookup_2]. }
  split.
  - apply Ho; [done..|]. intros Hc. destruct t as [f|sp].
    + destruct Hok as (n & u & _ & Hlt & Hu & <- & _). cbn in Hc.
      destruct (reaches_earlier n u _ Hu Hc) as [?|(m & v & Hm & Hv & Hp)]; [done|].
      specialize (Hsame m v Hv Hp). lia.
    + apply reaches_package in Hc; [done|]. by eapply documented_package.
  - destruct t as [f|sp]; [|by eapply documented_dependency]. destruct Hok as (n & u & _ & _ & Hu & <- & Hex).
    exists u. split_and!; [by eapply list_elem_of_lookup_2|done|apply (source_at n u Hu)|done].
Qed.
End packages.

(** One module for each package, and [react-dom] requires [react]. *)
Definition example_package (specifier : string) : string :=
  "./node_modules/" +:+ from_option id "" (head (split_on "/" specifier)).

Definition example_package_imports (id : string) : list string :=
  if String.eqb id "./node_modules/react-dom" then ["./node_modules/react"] else [].

Lemma pages_load_witness :
  exists st run,
    webpack_require (module_imports documented example_package example_package_imports)
      (length (module_ids (map example_package dependencies))) "./plan.jsx" empty_loader = Some st /\
    executed st = run ++ ["./plan.jsx"] /\ NoDup (executed st).
Proof.
  destruct (pages_load documented example_package (map example_package dependencies) example_package_imports)
    with (name := "plan") as (st & run & H1 & H2 & H3 & _).
  - done.
  - intros sp (d & Hd & Hin)%list_elem_of_fmap. unfold example_package at 1. rewrite Hd. cbn [from_option id].
    revert d Hd Hin. assert (Forall (fun d => "./node_modules/" +:+ d ∈ map example_package dependencies) dependencies) as HF.
    { repeat constructor; vm_compute; repeat first [left; done|right|constructor]. }
    intros d _ Hin. rewrite Forall_forall in HF. by apply HF.
  - intros x d _. unfold example_package_imports. case_if; [|by intros ?%elem_of_nil].
    intros ->%list_elem_of_singleton. vm_compute. repeat constructor.
  - intros x Hx Hy. assert (Forall (fun x => bool_decide (x ∈ map path sources) = false) (map example_package dependencies)) as HF
      by (repeat constructor; vm_compute; reflexivity).
    rewrite Forall_forall in HF. specialize (HF x Hx). by apply bool_decide_eq_false in HF.
  - vm_compute. repeat constructor.
  - by exists st, run.
Defined.
